(* ===== verification/_CoqProject ===== *)
-Q . S2P
Prelude.v
WardenClient.v
WardenRealm.v
Managers.v
Traits.v
RealmManager.v
ApplicationDisk.v
ApplicationManager.v
VmRunner.v
VmLog.v
JsonFramed.v
ClientHelper.v
RealmClientHandler.v
RealmVm.v
Arc.v
WardenDaemon.v
WardenTasks.v
RealmLocks.v
ClientHandler.v
ClientLib.v
ClientDaemon.v
CmdClient.v
AmBase.v
DmCrypt.v
KeySealing.v
AmOs.v
AppHandler.v
AppLoop.v
OciLauncher.v
AmApplication.v
AmManager.v
AmMeasure.v
AmMain.v
VSockServer.v
RealmProtocol.v
Storage.v
Fabric.v
IpNet.v
IpTables.v
Dnsmasq.v
Udhcpd.v
NatManager.v
UnixSocketServer.v
Daemon.v
DaemonRun.v
Frames.v
WholeDaemon.v
DaemonMain.v
AppStorage.v
RealmStorage.v
RestartFailures.v
RealmTable.v
RealmCalls.v
WardenStorage.v
RealmLayout.v
DaemonRealms.v
SimHost.v
Scenarios.v
StorageScenarios.v
RealmScenarios.v
NetScenarios.v
DaemonScenarios.v
ClientScenarios.v
FullHost.v
TestUtilities.v
TestsRealmManager.v
TestsApplicationManager.v
TestsWarden.v
TestsRealmClient.v
TestsClientLib.v
TestsStorage.v
TestsClientHandler.v
TestsJsonFramed.v
TestsIntegration.v
