(* ===== verification/Prelude.v ===== *)
(** * Verification of the realm manager

    The repository manages confidential virtual machines ("realms") on an Arm
    CCA host.  A user runs a client, which talks over a Unix socket to the
    warden daemon; the daemon keeps the realms and their applications, starts
    the virtual machines, and talks over a vsock to the application manager
    that runs inside each realm and installs, measures and controls the realm's
    applications.

<<
      cmd_client -- client_lib ==unix socket==> warden_daemon
                                                  |  realms, applications, disks, VMs, network
                                               ==vsock==> app-manager (inside the realm)
>>

    This file is the shared vocabulary of the development: results and
    computations, lenses, loops, machine integers, paths, the lemmas and the
    automation the other files use.

    ** How code is modelled

    A [Result] is a [result]; a method on [&mut self] is a computation
    [eff S E A] on the pair of the object and the world, which keeps the state
    reached when [?] returns early; [zoom] runs the method of a field.  A panic
    is an outcome ([fault]).  A trait is a type class over the implementing type
    and the world; foreign crates and the operating system are type classes as
    well, and what the code relies on is a separate class of laws ([...Laws],
    [...Keeps], [...Frame]) that the theorems name in their context.  Errors of foreign
    crates are represented by the text they print.  A [u8], [u32], [u64] or
    [usize] is a [Z] with its bounds and its wrap-around or saturation written
    out; a [HashMap] is a [gmap], and a traversal of one takes the order of
    [map_to_list].  Logging is not modelled.

    ** The files

    Protocols.  [WardenClient]: the messages between client and daemon
    ([protocol/warden_client]).  [WardenRealm]: those between daemon and realm
    ([protocol/warden_realm]).  [JsonFramed]: the message stream both use
    ([utils/src/serde/json_framed.rs]).

    The daemon ([warden/warden_daemon/src]).
    - [Managers], [Traits]: the data, errors and traits of [managers/].
    - [RealmManager] ([managers/realm_manager.rs]): a realm with its state
      [Halted], [Provisioning], [Running] or [NeedReboot], its applications, its
      configuration, its VM manager and its realm client; one definition per
      method of the trait [Realm].  [RealmVm] relates the state to the VM.
    - [ApplicationManager] ([managers/application_manager.rs]) and
      [ApplicationDisk] ([storage/app_disk_manager.rs]): an application with its
      configuration and its partitioned disk file.
    - [VmRunner] ([virtualization/vm_runner.rs] and [vm_runner/]): the command
      lines of lkvm and QEMU and the process of the virtual machine; [VmLog]
      ([vm_handler.rs]): the task that copies its output.
    - [RealmClientHandler] ([client_handler/realm_client_handler.rs]): the
      daemon's end of the connection with a realm; [VSockServer]
      ([socket/vsocket_server.rs]): how a connection reaches it.
    - [Arc]: reference-counted objects; [WardenDaemon]
      ([managers/warden.rs], [managers/warden_manager.rs]): the trait [Warden] and
      the table of realms; [WardenTasks]: client
      tasks that share it, as a step relation; [RealmLocks]: the mutexes every
      command takes, in the order of the code, as a step relation over tasks.
    - [ClientHelper], [ClientHandler] ([client_handler/]): conversions, and the
      commands of one client connection, for any implementation of [Warden].
    - [Storage] ([storage/mod.rs], [utils/src/file_system/fs_repository.rs]),
      [Fabric] ([fabric/]), [AppStorage], [RealmStorage]: configuration files, how
      applications, realms and the warden are created and loaded, and what is on
      disk between two runs of the daemon; [WardenStorage]: the table of realms and
      the directory of the daemon, over any number of restarts; [RestartFailures]:
      requests after which there is no restart.
    - [IpNet], [IpTables], [Dnsmasq], [NatManager]
      ([virtualization/nat_manager.rs], [nat_manager/],
      [dnsmasq_server_handler.rs]): the realms' network; [Udhcpd]
      ([udhcp_server_handler.rs]): a DHCP server that no module declares.
    - [UnixSocketServer] ([socket/unix_socket_server.rs]), [Daemon] ([cli.rs],
      [DaemonBuilder] of [daemon.rs]), [DaemonRun] ([Daemon::run]): building the
      daemon, serving, and stopping.  [Frames]: what the parts leave alone, as one
      class per trait; [WholeDaemon]: the daemon with the commands of its clients;
      [DaemonMain] ([main.rs]): the main program, with the signal handlers.
    - [RealmTable]: invariants of single realms, lifted from the methods of the
      trait [Realm] to every client command; [RealmCalls]: the exact effect of calls; [RealmLayout]: such invariants of the
      realm manager and of the daemon's directories; [DaemonRealms]: both over the
      life of the whole daemon.

    The clients: [ClientLib] ([warden/client_lib/src]), which [ClientDaemon] runs
    against [ClientHandler], and on top of it [CmdClient]
    ([warden/cmd_client/src]), the command line client.

    The application manager ([realm/app-manager/src]).  [AmBase]: configuration
    and errors.  [DmCrypt] ([dm/]), [KeySealing] ([key/]), [AmOs] ([util/]):
    encrypted devices, keys, system calls.  [AppHandler]
    ([launcher/handler.rs]): the process of an application and the task that
    serves it; [AppLoop]: the event loop of that task in full, and what the child
    does before [exec].  [OciLauncher] ([launcher/oci.rs], [util/crypto.rs]): verifying
    and installing an image.  [AmApplication] ([app.rs]): setting one application
    up.  [AmManager] ([manager.rs]): provisioning, measurement, requests and the
    event loop; [AmMeasure]: what of it reaches the measurement register; [AmMain]
    ([main.rs], [cli.rs], [config.rs], [util/token.rs]): its start.  [RealmProtocol]
    runs the daemon's realm client against it, through the sender of [VSockServer].

    Concrete environments.  [SimHost] instantiates every interface of the daemon
    and proves its laws; [Scenarios], [StorageScenarios], [RealmScenarios],
    [NetScenarios], [DaemonScenarios] and [ClientScenarios] run the theorems about
    realms and clients' commands, restarts, the application manager, the network,
    the whole daemon and the terminal on concrete states; [FullHost] runs the whole
    daemon with files, processes and network.

    Conformance.  [TestUtilities] holds the mock objects of
    [utils/test_utilities.rs], and [TestsRealmManager], [TestsApplicationManager],
    [TestsWarden], [TestsRealmClient], [TestsClientLib], [TestsStorage],
    [TestsClientHandler] and [TestsJsonFramed] are the unit tests of the repository,
    one Boolean per test, which all evaluate to true on the model.
    [TestsIntegration] runs the integration tests of the daemon on [FullHost].

    ** What the theorems show

    - Life cycle: [realm_refines_lifecycle] is a refinement of an abstract
      automaton by every method on every branch; [live_realm_has_vm],
      [live_realms_have_machines] (over the life of the daemon), [start_then_stop],
      [start_configures_every_disk], [refused_without_effect] and
      [applications_only_created] are what a client may rely on;
      [provisioning_is_a_trap], [start_strands_in_provisioning],
      [halted_with_vm_is_stuck] and [token_fetch_timeout_strands_vm] are the
      states from which the code does not recover.
    - Sharing: [destroy_never_panics_nor_pulls_realm] over every interleaving of
      any number of tasks, [commands_isolate_realms], [create_realm_never_replaces],
      [destroy_realm_only_idle_halted], [commands_keep_references] and
      [created_warden_owns_realms] on the reference counts; [commands_complete]
      and [reboot_deadlocks_daemon] on the locks: which commands cannot block each
      other, and two that can.
    - The daemon's life: [failed_build_cleans], [main_restores_packet_filter]
      and [daemon_keeps_references] for the whole daemon from its start to its
      exit, [daemon_stops_when_told], [stuck_command_blocks_exit],
      [late_command_leaks_tap].
    - Protocols end to end: [client_sees_daemon_result],
      [terminal_command_outcome], [session_runs_commands], [end_of_input_spins],
      [requests_answered_in_order], [client_sees_manager_result],
      [shutdown_realm_outcomes], [connections_reach_their_realm],
      [late_connection_ends_server].
    - Storage and machines: [created_disk_is_usable], [updated_disk_has_new_sizes],
      [disk_sizes_in_bounds], [configure_disk_provisions],
      [application_survives_restart], [realm_survives_restart],
      [warden_survives_restart], [bad_sizes_block_daemon], [vm_command_has_app_disks],
      [machines_run_their_realm], [unloadable_realm_blocks_daemon]; [one_stream_logged_in_full],
      [partial_line_is_lost] and [closed_output_spins] on the log.
    - Inside the realm: [install_is_verified], [unverified_image_has_no_effect],
      [provision_measures_in_request_order], [setup_measures_installation],
      [data_key_binding], [rsi_used_only_when_loaded], [table_line_fields],
      [stop_kill_outcomes], [serve_is_event_loop], [event_loop_never_spins],
      [unreadable_output_orphans_app], [unprivileged_application_never_starts].
    - Network: [shutdown_nat_cleans], [routing_round_trip], [dhcp_pool],
      [leftover_chain_blocks_create_nat], [udhcpd_never_restarts].

    ** Bounds

    Only two definitions take fuel: [chunks_go] of [AmManager], where the length
    of the slice is enough because every chunk is non-empty (proved by
    [chunks_go_concat]), and [hex_go] of [IpNet], where four digits are enough
    for a 16-bit segment.  Endless loops (the accept loop, the event loop, the
    request loop, the task of an application, the log task) are definitions by
    recursion on the finite sequence of events they receive, for all such
    sequences; the loop of the command line client is its first [n] iterations,
    for all [n].  The tasks at the locks of the daemon are a step relation
    that is proved to be well-founded.  The runs of the daemon are not bounded: the
    steps of its relation carry their causes, and what is bounded is the work between
    the arrivals of connections and commands.

    ** What is not modelled

    - Argument parsing ([clap], [shlex]), which is a parameter, and logging set-up.
    - [RealmLocks] leaves out what is done under a lock, and assumes that it comes
      to an end; in [WholeDaemon] a command is one step, the interleavings inside
      commands are those of [WardenTasks] and [RealmLocks].
    - A task of a [JoinSet] runs when it is joined, in any order of joining; one that is
      given up, because another one failed or because [listen] returned with an error,
      has been completed or has not begun.  What an aborted task has done half way is
      not modelled, nor are tasks that were spawned before a later launcher of the same
      request could not be made.
    - Waiting for a process that never ends is an outcome of [AppHandler] only; the
      manager of [AmManager] is stated for handlers whose methods return.
    - The launcher of [AmMain] is a parameter: the token resolver that [OciLauncher]
      gives its registry client is not linked to the realm services interface there.
    - The step relation of [WardenTasks] covers a task while it holds its clone of
      a realm; a handle of an application that outlives that clone is outside it.
    - [warden_survives_restart] is about realms that are created, filled, looked at and
      destroyed; what a realm that runs or is updated leaves on disk is not
      part of it, and of creations that fail only those of [RestartFailures].
    - The foreign codec behind [JsonFramed]; its tests run over simulated streams.
    - The example application, the mocked host and the initramfs are no part of
      the system proper. *)

From stdpp Require Export base tactics option list gmap fin_maps strings pretty.
From Stdlib Require Export ZArith Lia Ascii.

(** ** Results and effectful computations

    A Rust function returning [Result<A, E>] is modelled by [result A E].
    A method that mutates [&mut self] (or the world behind it) is modelled by
    [eff S E A]: explicit state passing in which the state reached when an
    error is returned is kept, exactly as in Rust, where an early return by
    [?] does not undo the assignments made before it. *)

Inductive result (A E : Type) : Type :=
| Ok (a : A)
| Err (e : E).
Arguments Ok {A E} a.
Arguments Err {A E} e.

Definition eff (S E A : Type) : Type := S → result A E * S.

#[global] Instance eff_ret S E : MRet (eff S E) := λ A a s, (Ok a, s).
#[global] Instance eff_bind S E : MBind (eff S E) := λ A B f m s,
  match m s with
  | (Ok a, s') => f a s'
  | (Err e, s') => (Err e, s')
  end.

Definition throw {S E A} (e : E) : eff S E A := λ s, (Err e, s).
Definition gets {S E A} (f : S → A) : eff S E A := λ s, (Ok (f s), s).
Definition modify {S E} (f : S → S) : eff S E unit := λ s, (Ok tt, f s).

(** A method call whose receiver is read from the state. *)
Definition with_state {S E A} (f : S → eff S E A) : eff S E A := λ s, f s s.

(** [map_err f c] is Rust's [c.map_err(f)]. *)
Definition map_err_r {A E F} (f : E → F) (r : result A E) : result A F :=
  match r with Ok a => Ok a | Err e => Err (f e) end.
Definition map_err {S E F A} (f : E → F) (c : eff S E A) : eff S F A := λ s,
  let '(r, s') := c s in (map_err_r f r, s').

(** [attempt c] runs [c] and hands its [Result] over as a value: a Rust
    [let resp = c.await;] without [?]. *)
Definition attempt {S E F A} (c : eff S E A) : eff S F (result A E) := λ s,
  let '(r, s') := c s in (Ok r, s').

(** A [Result] value followed by [?]. *)
Definition try_r {S E A} (r : result A E) : eff S E A := λ s, (r, s).

(** [Option::ok_or]. *)
Definition ok_or {A E} (o : option A) (e : E) : result A E :=
  match o with Some a => Ok a | None => Err e end.

Definition is_ok {A E} (r : result A E) : bool :=
  match r with Ok _ => true | Err _ => false end.
Definition is_err {A E} (r : result A E) : bool := negb (is_ok r).

(** [Result::map] and [Result::and_then] on plain results. *)
#[global] Instance result_fmap E : FMap (λ A, result A E) := λ A B f r,
  match r with Ok a => Ok (f a) | Err e => Err e end.
Definition and_then {A B E} (r : result A E) (f : A → result B E) : result B E :=
  match r with Ok a => f a | Err e => Err e end.

(** How a call that may also panic ([expect], indexing) fails to return. *)
Inductive fault (E : Type) : Type :=
| Fail (e : E)
| Panic (msg : string).
Arguments Fail {E} e.
Arguments Panic {E} msg.

Definition map_fault {E F} (f : E → F) (x : fault E) : fault F :=
  match x with Fail e => Fail (f e) | Panic msg => Panic msg end.

(** ** Components inside a larger state

    A field of a struct that is itself a stateful object is reached through a
    lens; [zoom] runs the field's method on the enclosing state. *)

Record lens (S T : Type) := Lens { view : S → T; update : T → S → S }.
Arguments Lens {S T} _ _.
Arguments view {S T} _ _.
Arguments update {S T} _ _ _.

Class LensLaws {S T} (l : lens S T) : Prop := {
  view_update : ∀ t s, view l (update l t s) = t;
  update_view : ∀ s, update l (view l s) s = s;
  update_update : ∀ t t' s, update l t (update l t' s) = update l t s }.

Definition zoom {S T E A} (l : lens S T) (c : eff T E A) : eff S E A := λ s,
  let '(r, t) := c (view l s) in (r, update l t s).

(** The world component of a pair (object, world). *)
Definition snd_lens {A W} : lens (A * W) W := Lens snd (λ w s, (s.1, w)).
(** A field of the object together with the world. *)
Definition field_lens {R W F} (get : R → F) (set : F → R → R) : lens (R * W) (F * W) :=
  Lens (λ s, (get s.1, s.2)) (λ t s, (set t.1 s.1, t.2)).
Definition self_lens {R W} : lens (R * W) R := Lens fst (λ r s, (r, s.2)).

#[global] Instance snd_lens_laws {A W} : LensLaws (@snd_lens A W).
Proof. split; intros; by repeat match goal with p : _ * _ |- _ => destruct p end. Qed.
#[global] Instance self_lens_laws {R W} : LensLaws (@self_lens R W).
Proof. split; intros; by repeat match goal with p : _ * _ |- _ => destruct p end. Qed.

(** ** Loops over collections

    [for_each] is a [for] loop whose body may leave by [?]; [map_eff] collects
    the values pushed by the body. *)

Fixpoint for_each {S E A} (f : A → eff S E unit) (l : list A) : eff S E unit :=
  match l with
  | [] => mret tt
  | a :: l' => f a ≫= λ _, for_each f l'
  end.

(** Joining the tasks of a [JoinSet], in the order in which they complete; the first
    failure ends the loop and drops the set, which aborts the tasks that are left.
    [dropped] is what such a task has done by then. *)
Fixpoint join_all {S E A} (dropped : A → S → S) (task : A → eff S E unit) (l : list A)
    : eff S E unit :=
  match l with
  | [] => mret tt
  | a :: l' => λ s,
      match task a s with
      | (Ok _, s1) => join_all dropped task l' s1
      | (Err e, s1) => (Err e, foldl (λ s b, dropped b s) s1 l')
      end
  end.

Fixpoint map_eff {S E A B} (f : A → eff S E B) (l : list A) : eff S E (list B) :=
  match l with
  | [] => mret []
  | a :: l' => f a ≫= λ b, map_eff f l' ≫= λ bs, mret (b :: bs)
  end.

(** ** Machine integers *)

Definition u8_max : Z := 2 ^ 8 - 1.
Definition u32_max : Z := 2 ^ 32 - 1.
Definition u64_max : Z := 2 ^ 64 - 1.
Definition u128_max : Z := 2 ^ 128 - 1.
Definition is_u8 (z : Z) : Prop := (0 ≤ z ≤ u8_max)%Z.
Definition is_u32 (z : Z) : Prop := (0 ≤ z ≤ u32_max)%Z.
Definition is_u64 (z : Z) : Prop := (0 ≤ z ≤ u64_max)%Z.
(** [z as u32] on an unsigned integer. *)
Definition as_u32 (z : Z) : Z := (z mod 2 ^ 32)%Z.

(** ** Foreign data

    Identifiers, and the texts the standard library and foreign crates print.
    [uuid::Uuid] is a 128-bit value; its textual form is a parameter. *)

Abbreviation Uuid := N (only parsing).

Class UuidApi := {
  uuid_to_string : Uuid → string;
  uuid_from_str : string → result Uuid string }.

(** [std::io::Error]: its kind (the one the code inspects) and its text. *)
Inductive ErrorKind := ConnectionReset | OtherKind.
#[global] Instance ErrorKind_eq_dec : EqDecision ErrorKind.
Proof. solve_decision. Defined.
Record IoError := mkIoError { io_kind : ErrorKind; io_text : string }.

(** [io::Error::other]. *)
Definition io_error_other (msg : string) : IoError := mkIoError OtherKind msg.

(** The raw wait status of [std::process::ExitStatus]; how it is printed
    depends on the platform. *)
Abbreviation ExitStatus := Z (only parsing).
Class ExitStatusFmt := exit_status_to_string : ExitStatus → string.

(** Text produced by a derived [Debug] implementation ([{:?}], [{:#?}]). *)
Class Debug (A : Type) := fmt_debug : A → string.

(** [std::net::IpAddr]. *)
Inductive IpAddr := V4 (octets : Z) | V6 (segments : Z).
#[global] Instance IpAddr_eq_dec : EqDecision IpAddr.
Proof. solve_decision. Defined.

(** ** Paths ([std::path] on Unix) *)

Abbreviation PathBuf := string (only parsing).

Definition slash : ascii := "/"%char.

Definition is_absolute (p : PathBuf) : bool :=
  match p with String c _ => bool_decide (c = slash) | EmptyString => false end.

Fixpoint ends_with_slash (p : PathBuf) : bool :=
  match p with
  | EmptyString => false
  | String c EmptyString => bool_decide (c = slash)
  | String _ p' => ends_with_slash p'
  end.

(** [PathBuf::push] and [Path::join]: an absolute operand replaces the path. *)
Definition path_push (base p : PathBuf) : PathBuf :=
  if is_absolute p then p
  else if bool_decide (base = "") || ends_with_slash base then base +:+ p
  else base +:+ "/" +:+ p.

(** [str::contains] and [str::split] with a character. *)
Fixpoint has_char (sep : ascii) (s : string) : bool :=
  match s with
  | EmptyString => false
  | String c s' => bool_decide (c = sep) || has_char sep s'
  end.

Fixpoint split_on (sep : ascii) (s : string) : list string :=
  match s with
  | EmptyString => [""]
  | String c s' =>
      if bool_decide (c = sep) then "" :: split_on sep s'
      else match split_on sep s' with
           | w :: ws => String c w :: ws
           | [] => [String c ""]
           end
  end.

(** [str::split_once]: what precedes and follows the first separator. *)
Fixpoint split_once (sep : ascii) (s : string) : option (string * string) :=
  match s with
  | EmptyString => None
  | String c s' =>
      if bool_decide (c = sep) then Some ("", s')
      else '(a, b) ← split_once sep s'; Some (String c a, b)
  end.

(** [Path::file_name]: the last normal component; empty and [.] components
    are skipped, a final [..] has no file name. *)
Definition file_name (p : PathBuf) : option string :=
  match last (filter (λ c, c ≠ "" ∧ c ≠ ".") (split_on slash p)) with
  | Some c => if bool_decide (c = "..") then None else Some c
  | None => None
  end.

(** [str::trim] on ASCII text, and [str::trim_ascii], whose white space does not
    include the vertical tab. *)
Definition is_space (c : ascii) : bool :=
  let n := N_of_ascii c in (n =? 32)%N || ((9 <=? n) && (n <=? 13))%N.
Definition is_ascii_whitespace (c : ascii) : bool := is_space c && negb (N_of_ascii c =? 11)%N.

Fixpoint trim_start (space : ascii → bool) (s : string) : string :=
  match s with
  | String c s' => if space c then trim_start space s' else s
  | EmptyString => s
  end.
Fixpoint trim_end (space : ascii → bool) (s : string) : string :=
  match s with
  | EmptyString => ""
  | String c s' =>
      match trim_end space s' with
      | EmptyString => if space c then "" else String c ""
      | t => String c t
      end
  end.
Definition trim (s : string) : string := trim_end is_space (trim_start is_space s).
Definition trim_ascii (s : string) : string :=
  trim_end is_ascii_whitespace (trim_start is_ascii_whitespace s).

(** ** Lemmas on strings *)

Lemma append_inj_l (p a b : string) : p +:+ a = p +:+ b → a = b.
Proof. induction p as [|c p IH]; [done|]. intros [= H]. by apply IH. Qed.

Lemma append_nil_r (s : string) : s +:+ "" = s.
Proof. induction s as [|c s IH]; [done|]. exact (f_equal (String c) IH). Qed.

Lemma append_assoc (a b c : string) : (a +:+ b) +:+ c = a +:+ (b +:+ c).
Proof. induction a as [|x a IH]; [done|]. exact (f_equal (String x) IH). Qed.

Lemma split_on_none sep w : has_char sep w = false → split_on sep w = [w].
Proof.
  induction w as [|c w IH]; simpl; [done|]. intros [Hc Hw]%orb_false_iff.
  by rewrite Hc, (IH Hw).
Qed.

Lemma split_on_app sep w s :
  has_char sep w = false → split_on sep (w +:+ String sep s) = w :: split_on sep s.
Proof.
  induction w as [|c w IH]; simpl.
  - intros _. by rewrite bool_decide_true.
  - intros [Hc Hw]%orb_false_iff. by rewrite Hc, (IH Hw).
Qed.

Lemma split_once_app sep w s :
  has_char sep w = false → split_once sep (w +:+ String sep s) = Some (w, s).
Proof.
  induction w as [|c w IH]; simpl.
  - intros _. by rewrite bool_decide_true.
  - intros [Hc Hw]%orb_false_iff. by rewrite Hc, (IH Hw).
Qed.

Lemma split_once_none sep w : has_char sep w = false → split_once sep w = None.
Proof.
  induction w as [|c w IH]; simpl; [done|]. intros [Hc Hw]%orb_false_iff.
  by rewrite Hc, (IH Hw).
Qed.

Lemma has_char_app sep s t : has_char sep (s +:+ t) = has_char sep s || has_char sep t.
Proof. induction s as [|c s IH]; simpl; [done|]. by rewrite IH, orb_assoc. Qed.

(** ** Lemmas on computations *)

Section eff_lemmas.
Context {S E A B : Type}.
Implicit Types (c : eff S E A) (f : A → eff S E B) (s : S).

Lemma bind_ok_inv c f s b s' :
  (c ≫= f) s = (Ok b, s') ↔ ∃ a s1, c s = (Ok a, s1) ∧ f a s1 = (Ok b, s').
Proof.
  unfold mbind, eff_bind. destruct (c s) as [[a|e] s1]; split; [eauto| |done|];
    intros (?&?&[=]&?); by subst.
Qed.

Lemma bind_err_inv c f s e s' :
  (c ≫= f) s = (Err e, s') ↔
  c s = (Err e, s') ∨ ∃ a s1, c s = (Ok a, s1) ∧ f a s1 = (Err e, s').
Proof.
  unfold mbind, eff_bind. destruct (c s) as [[a|e'] s1]; split.
  - eauto.
  - intros [?|(?&?&?&?)]; by simplify_eq.
  - intros ?; simplify_eq; eauto.
  - intros [?|(?&?&?&?)]; by simplify_eq.
Qed.

Lemma bind_run c f s r s' :
  (c ≫= f) s = (r, s') ↔
  (∃ e, r = Err e ∧ c s = (Err e, s')) ∨ ∃ a s1, c s = (Ok a, s1) ∧ f a s1 = (r, s').
Proof.
  destruct r as [b|e].
  - rewrite bind_ok_inv. naive_solver.
  - rewrite bind_err_inv. naive_solver.
Qed.

Lemma bind_ok c f s a s1 : c s = (Ok a, s1) → (c ≫= f) s = f a s1.
Proof. unfold mbind, eff_bind. by intros ->. Qed.

Lemma bind_err c f s e s1 : c s = (Err e, s1) → (c ≫= f) s = (Err e, s1).
Proof. unfold mbind, eff_bind. by intros ->. Qed.

Lemma map_err_ok {F} (g : E → F) c s a s' :
  map_err g c s = (Ok a, s') ↔ c s = (Ok a, s').
Proof. unfold map_err. destruct (c s) as [[]]; simpl; naive_solver. Qed.

Lemma map_err_err {F} (g : E → F) c s e s' :
  map_err g c s = (Err e, s') ↔ ∃ e0, e = g e0 ∧ c s = (Err e0, s').
Proof. unfold map_err. destruct (c s) as [[]]; simpl; naive_solver. Qed.

(** Whether a computation fails. *)
Lemma bind_is_err c f s : is_err (c s).1 = true → is_err ((c ≫= f) s).1 = true.
Proof. unfold mbind, eff_bind. by destruct (c s) as [[] ?]. Qed.

Lemma bind_is_err_r c f s a s' :
  c s = (Ok a, s') → is_err (f a s').1 = true → is_err ((c ≫= f) s).1 = true.
Proof. unfold mbind, eff_bind. by intros ->. Qed.

Lemma map_err_is_err {F} (g : E → F) c s : is_err (map_err g c s).1 = is_err (c s).1.
Proof. unfold map_err. by destruct (c s) as [[] ?]. Qed.

End eff_lemmas.

(** ** Invariants of computations

    [preserves I c]: whatever [c] returns, it leaves the invariant [I] true.
    [steps R c]: the state before and after a run of [c] are related by [R];
    for a preorder [R] this composes along [bind].  Frame conditions ("this
    method does not touch that field") are instances of [steps]. *)

Definition preserves {S E A} (I : S → Prop) (c : eff S E A) : Prop :=
  ∀ s, I s → I (c s).2.
Definition steps {S E A} (R : S → S → Prop) (c : eff S E A) : Prop :=
  ∀ s, R s (c s).2.

(** Two states agree on the observation [f]. *)
Definition same {S T} (f : S → T) (s s' : S) : Prop := f s = f s'.
#[global] Instance same_preorder {S T} (f : S → T) : PreOrder (same f).
Proof. split; [by intros s|]. intros s1 s2 s3. unfold same. congruence. Qed.

Section preserves_lemmas.
Context {S : Type} (I : S → Prop).

Lemma preserves_ret {E A} (a : A) : preserves I (mret a : eff S E A).
Proof. by intros s. Qed.
Lemma preserves_throw {E A} (e : E) : preserves I (throw e : eff S E A).
Proof. by intros s. Qed.
Lemma preserves_gets {E A} (f : S → A) : preserves I (gets f : eff S E A).
Proof. by intros s. Qed.
Lemma preserves_try_r {E A} (r : result A E) : preserves I (try_r r : eff S E A).
Proof. by intros s. Qed.
Lemma preserves_bind {E A B} (c : eff S E A) (f : A → eff S E B) :
  preserves I c → (∀ a, preserves I (f a)) → preserves I (c ≫= f).
Proof.
  intros Hc Hf s Hs. unfold mbind, eff_bind. specialize (Hc s Hs).
  destruct (c s) as [[a|e] s1]; [by apply Hf|done].
Qed.
Lemma preserves_map_err {E F A} (g : E → F) (c : eff S E A) :
  preserves I c → preserves I (map_err g c).
Proof. intros Hc s Hs. unfold map_err. specialize (Hc s Hs). by destruct (c s). Qed.
Lemma preserves_attempt {E F A} (c : eff S E A) :
  preserves I c → preserves I (attempt c : eff S F _).
Proof. intros Hc s Hs. unfold attempt. specialize (Hc s Hs). by destruct (c s). Qed.
Lemma preserves_with_state {E A} (f : S → eff S E A) :
  (∀ s, preserves I (f s)) → preserves I (with_state f).
Proof. intros Hf s. apply Hf. Qed.
Lemma preserves_for_each {E A} (f : A → eff S E unit) l :
  (∀ a, preserves I (f a)) → preserves I (for_each f l).
Proof.
  intros Hf. induction l as [|a l IH]; simpl; [apply preserves_ret|].
  by apply preserves_bind.
Qed.
Lemma preserves_for_each_in {E A} (f : A → eff S E unit) l :
  (∀ a, a ∈ l → preserves I (f a)) → preserves I (for_each f l).
Proof.
  induction l as [|a l IH]; intros Hf; simpl; [apply preserves_ret|].
  apply preserves_bind; [apply Hf; left|]. intros _. apply IH. intros ??. apply Hf. by right.
Qed.
Lemma preserves_join_all_in {E A} (dropped : A → S → S) (task : A → eff S E unit) l :
  (∀ a, a ∈ l → preserves I (task a)) → (∀ a s, a ∈ l → I s → I (dropped a s)) →
  preserves I (join_all dropped task l).
Proof.
  induction l as [|a l IH]; intros Ht Hd; [apply preserves_ret|]. intros s Hs. simpl.
  pose proof (Ht a (list_elem_of_here _ _) s Hs) as H1.
  destruct (task a s) as [[u|e] s1]; simpl in *.
  - apply IH; [..|done]; intros; [apply Ht|apply Hd]; try done; by right.
  - assert (∀ b s, b ∈ l → I s → I (dropped b s)) as Hd' by (intros; apply Hd; [by right|done]).
    clear -H1 Hd'. revert s1 H1. induction l as [|b l IH]; intros s1 H1; simpl; [done|].
    apply IH; [|apply Hd'; [by left|done]]. intros; apply Hd'; [by right|done].
Qed.
Lemma preserves_map_eff {E A B} (f : A → eff S E B) l :
  (∀ a, preserves I (f a)) → preserves I (map_eff f l).
Proof.
  intros Hf. induction l as [|a l IH]; simpl; [apply preserves_ret|].
  repeat (apply preserves_bind; [done|]; intros). apply preserves_ret.
Qed.
Lemma preserves_modify {E} (f : S → S) :
  (∀ s, I s → I (f s)) → preserves I (modify f : eff S E unit).
Proof. intros Hf s Hs. by apply Hf. Qed.
End preserves_lemmas.

Section steps_lemmas.
Context {S : Type} (R : S → S → Prop) `{!PreOrder R}.

Lemma steps_preserves {E A} (c : eff S E A) :
  steps R c ↔ ∀ s0, preserves (R s0) c.
Proof.
  split; [intros H s0 s Hs; by trans s|intros H s; apply (H s); reflexivity].
Qed.
Lemma steps_ret {E A} (a : A) : steps R (mret a : eff S E A).
Proof. intros s. simpl. reflexivity. Qed.
Lemma steps_throw {E A} (e : E) : steps R (throw e : eff S E A).
Proof. intros s. simpl. reflexivity. Qed.
Lemma steps_gets {E A} (f : S → A) : steps R (gets f : eff S E A).
Proof. intros s. simpl. reflexivity. Qed.
Lemma steps_try_r {E A} (r : result A E) : steps R (try_r r : eff S E A).
Proof. intros s. simpl. reflexivity. Qed.
Lemma steps_bind {E A B} (c : eff S E A) (f : A → eff S E B) :
  steps R c → (∀ a, steps R (f a)) → steps R (c ≫= f).
Proof.
  rewrite !steps_preserves. intros Hc Hf s0. apply preserves_bind; [done|].
  intros a. by apply steps_preserves, Hf.
Qed.
Lemma steps_map_err {E F A} (g : E → F) (c : eff S E A) :
  steps R c → steps R (map_err g c).
Proof. rewrite !steps_preserves. intros ??. by apply preserves_map_err. Qed.
Lemma steps_attempt {E F A} (c : eff S E A) :
  steps R c → steps R (attempt c : eff S F _).
Proof. rewrite !steps_preserves. intros ??. by apply preserves_attempt. Qed.
Lemma steps_with_state {E A} (f : S → eff S E A) :
  (∀ s, steps R (f s)) → steps R (with_state f).
Proof. intros Hf s. apply Hf. Qed.
Lemma steps_for_each {E A} (f : A → eff S E unit) l :
  (∀ a, steps R (f a)) → steps R (for_each f l).
Proof.
  intros Hf. apply steps_preserves. intros s0. apply preserves_for_each.
  intros a. by apply steps_preserves.
Qed.
Lemma steps_join_all {E A} (dropped : A → S → S) (task : A → eff S E unit) l :
  (∀ a, steps R (task a)) → (∀ a s, R s (dropped a s)) → steps R (join_all dropped task l).
Proof.
  intros Ht Hd. apply steps_preserves. intros s0. apply preserves_join_all_in.
  - intros a _. by apply steps_preserves.
  - intros a s _ Hs. by trans s.
Qed.
Lemma steps_map_eff {E A B} (f : A → eff S E B) l :
  (∀ a, steps R (f a)) → steps R (map_eff f l).
Proof.
  intros Hf. apply steps_preserves. intros s0. apply preserves_map_eff.
  intros a. by apply steps_preserves.
Qed.
Lemma steps_modify {E} (f : S → S) :
  (∀ s, R s (f s)) → steps R (modify f : eff S E unit).
Proof. intros Hf s. apply Hf. Qed.
End steps_lemmas.

(** A method of a component only changes that component: a relation on the
    enclosing state that every [update] satisfies holds across [zoom]. *)
Lemma steps_zoom {S T E A} (R : S → S → Prop) (l : lens S T) (c : eff T E A) :
  (∀ s t, R s (update l t s)) → steps R (zoom l c).
Proof. intros HR s. unfold zoom. destruct (c (view l s)) as [r t]. apply HR. Qed.

(** A part of an object, and the world behind it. *)
Lemma zoom_behind {S T E A O} (R : S → O) (Q : T → O) (l : lens S T) (c : eff T E A) :
  (∀ s, Q (view l s) = R s) → (∀ t s, R (update l t s) = Q t) →
  steps (same Q) c → steps (same R) (zoom l c).
Proof.
  intros Hv Hu Hc s. unfold zoom, same in *. specialize (Hc (view l s)). simpl in Hc.
  rewrite Hv in Hc. destruct (c (view l s)) as [r t]. simpl in *. by rewrite Hc, Hu.
Qed.

(** When all tasks succeed, none is dropped. *)
Lemma join_all_ok {S E A} (dropped : A → S → S) (task : A → eff S E unit) l s s' :
  join_all dropped task l s = (Ok tt, s') → for_each task l s = (Ok tt, s').
Proof.
  revert s. induction l as [|a l IH]; intros s; [done|]. simpl. unfold mbind, eff_bind.
  destruct (task a s) as [[[]|e] s1]; [apply IH|done].
Qed.

Lemma attempt_run {S E F A} (c : eff S E A) s r s' :
  c s = (r, s') → (attempt c : eff S F _) s = (Ok r, s').
Proof. unfold attempt. by intros ->. Qed.

Lemma zoom_eq {S T E A} (l : lens S T) (c : eff T E A) s r t :
  c (view l s) = (r, t) → zoom l c s = (r, update l t s).
Proof. unfold zoom. by intros ->. Qed.

Lemma zoom_inv {S T E A} (l : lens S T) (c : eff T E A) s r s' :
  zoom l c s = (r, s') ↔ ∃ t, c (view l s) = (r, t) ∧ s' = update l t s.
Proof.
  unfold zoom. destruct (c (view l s)) as [r0 t]. split.
  - intros ?; simplify_eq; eauto.
  - intros (?&?&?); by simplify_eq.
Qed.

Lemma steps_run {S E A} (R : S → S → Prop) (c : eff S E A) s r s' :
  steps R c → c s = (r, s') → R s s'.
Proof. intros HR Hc. specialize (HR s). by rewrite Hc in HR. Qed.

(** [map_eff] fails when one of its bodies fails from every state that the others
    can lead to. *)
Lemma map_eff_is_err {S E A B} (R : S → S → Prop) `{!PreOrder R} (f : A → eff S E B) l x s :
  (∀ a, steps R (f a)) → (∀ s', R s s' → is_err (f x s').1 = true) → x ∈ l →
  is_err (map_eff f l s).1 = true.
Proof.
  intros HR. revert s. induction l as [|a l IH]; intros s Hx Hin; [by apply elem_of_nil in Hin|].
  simpl. destruct (f a s) as [[b|e] s1] eqn:Ha; [|by apply bind_is_err; rewrite Ha].
  apply elem_of_cons in Hin as [->|Hin].
  { specialize (Hx s ltac:(reflexivity)). by rewrite Ha in Hx. }
  eapply bind_is_err_r; [exact Ha|]. apply bind_is_err, IH; [|done]. intros s' Hs'. apply Hx.
  transitivity s1; [|done]. specialize (HR a s). by rewrite Ha in HR.
Qed.

(** [map_eff] succeeds exactly when every body run succeeds; it then returns
    as many values as there were items. *)
Lemma map_eff_length {S E A B} (f : A → eff S E B) l s bs s' :
  map_eff f l s = (Ok bs, s') → length bs = length l.
Proof.
  revert s bs. induction l as [|a l IH]; intros s bs; simpl.
  - intros [=]; by subst.
  - rewrite bind_ok_inv. intros (b&s1&_&(bs'&s2&H&[=])%bind_ok_inv).
    subst. simpl. f_equal. eauto.
Qed.

(** ** Agreement of computations

    [agree I c1 c2]: from every state with the invariant [I] the two computations
    do the same, and they keep [I]. *)

Definition agree {S E A} (I : S → Prop) (c1 c2 : eff S E A) : Prop :=
  ∀ s, I s → c1 s = c2 s ∧ I (c1 s).2.

Section agree_lemmas.
Context {S : Type} (I : S → Prop).

Lemma agree_refl {E A} (c : eff S E A) : preserves I c → agree I c c.
Proof. intros Hc s Hs. by split; [|apply Hc]. Qed.

Lemma agree_bind {E A B} (c1 c2 : eff S E A) (f1 f2 : A → eff S E B) :
  agree I c1 c2 → (∀ a, agree I (f1 a) (f2 a)) → agree I (c1 ≫= f1) (c2 ≫= f2).
Proof.
  intros Hc Hf s Hs. destruct (Hc s Hs) as [Heq HI]. unfold mbind, eff_bind. rewrite <-Heq.
  destruct (c1 s) as [[a|e] s1]; [by apply Hf|done].
Qed.

Lemma agree_bind_l {E A B} (c : eff S E A) (f1 f2 : A → eff S E B) :
  preserves I c → (∀ a, agree I (f1 a) (f2 a)) → agree I (c ≫= f1) (c ≫= f2).
Proof. intros Hc. apply agree_bind. by apply agree_refl. Qed.

Lemma agree_attempt {E F A} (c1 c2 : eff S E A) :
  agree I c1 c2 → agree I (attempt c1 : eff S F _) (attempt c2).
Proof.
  intros Hc s Hs. destruct (Hc s Hs) as [Heq HI]. unfold attempt. rewrite <-Heq. by destruct (c1 s).
Qed.

Lemma agree_for_each {E A} (f1 f2 : A → eff S E unit) l :
  (∀ a, agree I (f1 a) (f2 a)) → agree I (for_each f1 l) (for_each f2 l).
Proof.
  intros Hf. induction l as [|a l IH]; simpl; [by apply agree_refl, preserves_ret|].
  by apply agree_bind.
Qed.
End agree_lemmas.

(** ** Automation

    [eff] collects the closure lemmas of [preserves] and [steps]; [eff_auto]
    discharges a closure goal down to the component-specific facts. *)

Create HintDb eff discriminated.
#[export] Hint Resolve preserves_ret preserves_throw preserves_gets preserves_try_r
  preserves_map_err preserves_attempt : eff.
#[export] Hint Resolve steps_ret steps_throw steps_gets steps_try_r
  steps_map_err steps_attempt : eff.

#[export] Hint Extern 0 (PreOrder _) => apply _ : eff.
#[export] Hint Extern 2 (preserves _ (match ?x with _ => _ end)) => destruct x : eff.
#[export] Hint Extern 2 (steps _ (match ?x with _ => _ end)) => destruct x : eff.

Ltac eff_auto :=
  repeat (intros;
    first [ solve [auto 3 with eff nocore]
          | apply preserves_bind | apply preserves_for_each | apply preserves_map_eff
          | apply preserves_map_err | apply preserves_attempt
          | apply steps_bind | apply steps_for_each | apply steps_map_eff
          | apply steps_map_err | apply steps_attempt
          | match goal with
            | |- preserves _ (with_state _) => apply preserves_with_state
            | |- steps _ (with_state _) => apply steps_with_state
            | |- preserves _ (match ?x with _ => _ end) => destruct x
            | |- steps _ (match ?x with _ => _ end) => destruct x
            end ]).

(** [run_inv H] opens a hypothesis about a run of a computation: it exposes
    the intermediate states of every bind and drops impossible branches. *)
Ltac run_inv_step :=
  match goal with
  | H : (_, _) = (_, _) |- _ => simplify_eq
  | H : (_ ≫= _) _ = (Ok _, _) |- _ => apply bind_ok_inv in H as (?&?&?&H)
  | H : (_ ≫= _) _ = (Err _, _) |- _ => apply bind_err_inv in H as [H|(?&?&?&H)]
  | H : map_err _ _ _ = (Ok _, _) |- _ => apply map_err_ok in H
  | H : map_err _ _ _ = (Err _, _) |- _ => apply map_err_err in H as (?&?&H)
  | H : zoom _ _ _ = _ |- _ => apply zoom_inv in H as (?&H&?)
  | H : mret _ _ = _ |- _ => unfold mret, eff_ret in H
  | H : throw _ _ = _ |- _ => unfold throw in H
  | H : gets _ _ = _ |- _ => unfold gets in H
  | H : modify _ _ = _ |- _ => unfold modify in H
  | H : try_r _ _ = _ |- _ => unfold try_r in H
  | H : with_state _ _ = _ |- _ => unfold with_state in H
  | H : ∃ _, _ |- _ => destruct H
  | H : _ ∧ _ |- _ => destruct H
  end.
Ltac run_inv := repeat run_inv_step; simplify_eq/=.

(** [run_split H as a s1 H1]: one bind at a time, keeping the outcome [r] of
    the whole run a variable; the failing branch comes first. *)
Tactic Notation "run_split" hyp(H) "as" simple_intropattern(a) ident(s1) ident(H1) :=
  apply bind_run in H as [(?&->&H)|(a&s1&H1&H)].

(** [run_gets H]: step over a read or a write of the state at the head of [H]. *)
Ltac run_gets H :=
  first [ erewrite bind_ok in H by reflexivity | unfold attempt in H ]; simpl in H.

(** ** Closed runs *)

(** A successful run, without writing down its final state. *)
Lemma run_ok {S E} (x : result unit E * S) : is_ok x.1 = true → x = (Ok tt, x.2).
Proof. by destruct x as [[[]|] ?]. Qed.

Lemma run_val {S E A} (x : result A E * S) a : x.1 = Ok a → x = (Ok a, x.2).
Proof. destruct x as [r ?]. simpl. by intros ->. Qed.

Lemma run_err {S E A} (x : result A E * S) e :
  match x.1 with Err e' => e' = e | Ok _ => False end → x = (Err e, x.2).
Proof. by destruct x as [[] ?]; [|intros ->]. Qed.

(** The value of a run that is known to succeed. *)
Definition run_value {A S E} (d : A) (x : result A E * S) : A := match x.1 with Ok a => a | Err _ => d end.
Lemma run_value_ok {A S E} (d : A) (x : result A E * S) :
  is_ok x.1 = true → x = (Ok (run_value d x), x.2).
Proof. by destruct x as [[] ?]. Qed.
