(* ===== verification/WardenClient.v ===== *)
(** * Protocol between a client and the warden daemon

    The data of crate [protocol/warden_client]: realm and application
    descriptions, the commands a client sends over the Unix socket and the
    responses the daemon returns.  A [usize], [u32] is a [Z]; a [Vec<u8>] is a
    list of byte values. *)

From S2P Require Import Prelude.

(** ** application.rs *)

Record ApplicationConfig := mkApplicationConfig {
  name : string;
  version : string;
  image_registry : string;
  image_storage_size_mb : Z;
  data_storage_size_mb : Z }.

(** ** realm.rs *)

Inductive State := Halted | Provisioning | Running | NeedReboot.

Record RealmNetwork := mkRealmNetwork { ip : IpAddr; if_name : string }.

Record RealmDescription := mkRealmDescription {
  uuid : Uuid;
  state : State;
  applications : list Uuid;
  network : list RealmNetwork }.

Record CpuConfig := mkCpuConfig { cpu : string; cores_number : Z }.

Record MemoryConfig := mkMemoryConfig { ram_size : Z }.

Record NetworkConfig := mkNetworkConfig {
  vsock_cid : Z;
  tap_device : string;
  mac_address : string;
  hardware_device : option string;
  remote_terminal_uri : option string }.

Record KernelConfig := mkKernelConfig {
  kernel_path : PathBuf;
  kernel_initramfs_path : option PathBuf;
  kernel_cmd_params : option string }.

Record RealmConfig := mkRealmConfig {
  id : option Uuid;
  machine : string;
  cpu_config : CpuConfig;
  memory_config : MemoryConfig;
  network_config : NetworkConfig;
  kernel_config : KernelConfig;
  metadata : option PathBuf }.

(** ** warden.rs *)

Inductive WardenCommand :=
| CreateRealm (config : RealmConfig)
| FetchToken (uuid : Uuid) (challenge : list Z)
| StartRealm (uuid : Uuid)
| StopRealm (uuid : Uuid)
| RebootRealm (uuid : Uuid)
| DestroyRealm (uuid : Uuid)
| InspectRealm (uuid : Uuid)
| ListRealms
| CreateApplication (realm_uuid : Uuid) (config : ApplicationConfig)
| StartApplication (realm_uuid application_uuid : Uuid)
| StopApplication (realm_uuid application_uuid : Uuid)
| UpdateApplication (realm_uuid application_uuid : Uuid) (config : ApplicationConfig).

Inductive WardenDaemonError :=
| ReadingRequestFail
| UnknownCommand
| WardenDaemonFail (message : string)
| SendingResponseFail.

Inductive WardenResponse :=
| ROk
| RAttestationToken (token : list Z)
| RCreatedRealm (uuid : Uuid)
| RCreatedApplication (uuid : Uuid)
| RInspectedRealm (description : RealmDescription)
| RListedRealms (realms_description : list RealmDescription)
| RError (warden_error : WardenDaemonError).

(** The text of the [#[error(..)]] attributes. *)
Definition WardenDaemonError_to_string (e : WardenDaemonError) : string :=
  match e with
  | ReadingRequestFail => "Failed to read request."
  | UnknownCommand => "Can't recognise a command."
  | WardenDaemonFail message => "Error occured: " +:+ message
  | SendingResponseFail => "Failed to send response."
  end.
