(* ===== verification/WardenRealm.v ===== *)
(** * Protocol between the warden daemon and the realm

    The data of crate [protocol/warden_realm]: the requests the daemon sends
    to the application manager inside the realm over the vsock, and the
    responses that come back. *)

From S2P Require Import Prelude.

(** ** request.rs *)

Record ApplicationInfo := mkApplicationInfo {
  info_id : Uuid;
  info_name : string;
  info_version : string;
  info_image_registry : string;
  info_image_part_uuid : Uuid;
  info_data_part_uuid : Uuid }.

Inductive Request :=
| ProvisionInfo (apps_info : list ApplicationInfo)
| GetAttestationToken (challenge : list Z)
| GetIfAddrs
| CheckStatus (id : Uuid)
| StartApp (id : Uuid)
| StopApp (id : Uuid)
| KillApp (id : Uuid)
| Reboot
| Shutdown.

(** ** error.rs *)

Inductive ProtocolError :=
| InvalidRequest (msg : string)
| ApplicationNotFound
| ApplicationLaunchFailed (msg : string)
| ApplicationStopFailed (msg : string)
| ApplicationKillFailed (msg : string)
| ApplicationCheckStatusFailed (msg : string)
| SystemPowerActionFailed (msg : string)
| GetIfAddrsError (msg : string)
| ProvisioningError (msg : string)
| AttestationTokenReadingError (msg : string).

(** ** response.rs *)

Record NetAddr := mkNetAddr {
  address : IpAddr;
  netmask : option IpAddr;
  destination : option IpAddr }.

Inductive Response :=
| AttestationToken (token : list Z)
| ApplicationExited (status : Z)
| ApplicationIsRunning
| ApplicationNotStarted
| IfAddrs (addrs : gmap string NetAddr)
| Success
| Error (e : ProtocolError).
