(* ===== verification/Managers.v ===== *)
(** * The warden daemon's domain: data, errors and traits

    [warden_daemon/src/managers]: the configuration and state types, the error
    enums with the texts of their [#[error(..)]] attributes, and the traits the
    components program against.  A trait is a type class over the type of the
    implementing object and the type [W] of the world outside the daemon
    (processes, files, network, clock); a method works on the object and the
    world and returns a [Result] (see [Prelude.eff]). *)

From S2P Require Import Prelude.

(** ** application.rs *)

Inductive ApplicationError :=
| ApplicationStart (msg : string)
| ApplicationStop (msg : string)
| ConfigUpdate (msg : string)
| DiskOpertaion (msg : string).

Record ApplicationConfig := mkApplicationConfig {
  name : string;
  version : string;
  image_registry : string;
  image_storage_size_mb : Z;
  data_storage_size_mb : Z }.

Record ApplicationData := mkApplicationData {
  id : Uuid;
  data_name : string;
  data_version : string;
  data_image_registry : string;
  image_part_uuid : Uuid;
  data_part_uuid : Uuid }.

(** ** realm_configuration.rs *)

Record CpuConfig := mkCpuConfig { cpu : string; cores_number : Z }.
Record MemoryConfig := mkMemoryConfig { ram_size : Z }.
Record NetworkConfig := mkNetworkConfig {
  vsock_cid : Z;
  tap_device : string;
  mac_address : string;
  hardware_device : option string;
  remote_terminal_uri : option string }.
Record KernelConfig := mkKernelConfig {
  kernel_path : PathBuf;
  kernel_initramfs_path : option PathBuf;
  kernel_cmd_params : option string }.
Record RealmConfig := mkRealmConfig {
  machine : string;
  cpu_config : CpuConfig;
  memory_config : MemoryConfig;
  network_config : NetworkConfig;
  kernel_config : KernelConfig;
  metadata : option PathBuf }.

(** ** realm.rs *)

Inductive RealmError :=
| ApplicationMissing (uuid : Uuid)
| RealmStartFail (msg : string)
| RealmStopFail (msg : string)
| RealmAcuireIpsFail (msg : string)
| UnsupportedAction (msg : string)
| RealmLaunchFail (msg : string)
| VmStopFail (msg : string)
| VmDestroyFail (msg : string)
| ApplicationOperation (msg : string)
| ApplicationCreationFail (msg : string)
| PrepareApplications (msg : string)
| AttestationTokenFetch (msg : string).

Inductive State := Halted | Provisioning | Running | NeedReboot.

Record RealmNetwork := mkRealmNetwork { ip : IpAddr; if_name : string }.

Record RealmData := mkRealmData {
  state : State;
  applications : list Uuid;
  ips : list RealmNetwork }.

Record RealmDescription := mkRealmDescription {
  uuid : Uuid;
  realm_data : RealmData }.

(** ** realm_client.rs *)

Inductive RealmClientError :=
| RealmConnectionFail (msg : string)
| CommunicationFail (msg : string)
| RealmDaemonError (msg : string)
| InvalidResponse (msg : string)
| RealmDisconnection.

Record RealmProvisioningConfig := mkRealmProvisioningConfig {
  applications_data : list ApplicationData }.

(** ** vm_manager.rs *)

Inductive VmManagerError :=
| Launch (msg : string)
| VmNotLaunched
| VmAlreadyLaunched
| GetExitCode (msg : string)
| VmShutdown (msg : string).

Inductive VmStatus := Launched | NotLaunched | Exited (status : ExitStatus).

(** ** warden.rs *)

Inductive WardenError :=
| NoSuchRealm (uuid : Uuid)
| RealmInspect (msg : string)
| DestroyFail (msg : string)
| RealmCreationFail (msg : string)
| RealmIsBusy
| RealmExists (uuid : Uuid).

(** ** utils/repository.rs *)

Inductive RepositoryError := CreationFail (msg : string) | SaveFail (msg : string).

#[global] Instance State_eq_dec : EqDecision State.
Proof. solve_decision. Defined.
#[global] Instance ApplicationConfig_eq_dec : EqDecision ApplicationConfig.
Proof. solve_decision. Defined.
#[global] Instance RealmError_eq_dec : EqDecision RealmError.
Proof. solve_decision. Defined.
#[global] Instance WardenError_eq_dec : EqDecision WardenError.
Proof. solve_decision. Defined.
#[global] Instance RealmClientError_eq_dec : EqDecision RealmClientError.
Proof. solve_decision. Defined.

(** ** Display: the texts of the error enums *)

Section display.
Context `{UuidApi}.

Definition ApplicationError_to_string (e : ApplicationError) : string :=
  match e with
  | ApplicationStart m => "Can't start the application: " +:+ m
  | ApplicationStop m => "Can't stop the application: " +:+ m
  | ConfigUpdate m => "Can't update the application configuration: " +:+ m
  | DiskOpertaion m => "Failed to perform operation on application's disk: " +:+ m
  end.

Definition RealmError_to_string (e : RealmError) : string :=
  match e with
  | ApplicationMissing u =>
      "No application with uuid: " +:+ uuid_to_string u +:+ " inside this realm."
  | RealmStartFail m => "Error occured while starting realm: " +:+ m
  | RealmStopFail m => "Error occured while starting realm: " +:+ m
  | RealmAcuireIpsFail m => "Error occured while acquiring realm's ips: " +:+ m
  | UnsupportedAction m => "Unsupported action: " +:+ m
  | RealmLaunchFail m => "Can't launch the Realm: " +:+ m
  | VmStopFail m => "Realm's vm can't be stopped: " +:+ m
  | VmDestroyFail m => "Realm's vm can't be destroyed: " +:+ m
  | ApplicationOperation m => "Can't perform action on Application: " +:+ m
  | ApplicationCreationFail m => "Can't create application: " +:+ m
  | PrepareApplications m => "Failed to prepare applications to start: " +:+ m
  | AttestationTokenFetch m => "Failed to fetch attestation token: " +:+ m
  end.

Definition RealmClientError_to_string (e : RealmClientError) : string :=
  match e with
  | RealmConnectionFail m => "Can't connect with the Realm: " +:+ m
  | CommunicationFail m => "Can't communicate with connected Realm: " +:+ m
  | RealmDaemonError m => "Received error from Realm daemon: " +:+ m
  | InvalidResponse m => "Invalid response from Realm: " +:+ m
  | RealmDisconnection => "Realm disconnected."
  end.

Definition VmManagerError_to_string (e : VmManagerError) : string :=
  match e with
  | Launch m => "Unable to launch Vm: " +:+ m
  | VmNotLaunched => "To stop realm's vm you need to launch it first."
  | VmAlreadyLaunched => "Vm already has been launched."
  | GetExitCode m => "Unable to get realm's exit code: " +:+ m
  | VmShutdown m => "Unable to shutdown realm's vm: " +:+ m
  end.

Definition WardenError_to_string (e : WardenError) : string :=
  match e with
  | NoSuchRealm u => "Realm with uuid: '" +:+ uuid_to_string u +:+ "' doesn't exist."
  | RealmInspect m => "Failed to inspect realm: " +:+ m
  | DestroyFail m => "Can't destroy the realm: " +:+ m
  | RealmCreationFail m => "Failed to create realm: " +:+ m
  | RealmIsBusy => "Realm is under another operation"
  | RealmExists u => "Realm of shuch uuid: " +:+ uuid_to_string u +:+ " already exists"
  end.

Definition RepositoryError_to_string (e : RepositoryError) : string :=
  match e with
  | CreationFail m => "Can't create a repository: " +:+ m
  | SaveFail m => "Can't save inner value: " +:+ m
  end.

End display.

(** The derived [Debug] of the field-less enum [State]. *)
Definition State_debug (s : State) : string :=
  match s with
  | Halted => "Halted" | Provisioning => "Provisioning"
  | Running => "Running" | NeedReboot => "NeedReboot"
  end.
