(* ===== verification/Traits.v ===== *)
(** * Traits between the daemon's components

    Each class is one Rust trait of [warden_daemon/src/managers] (and
    [utils/repository.rs]): the operations one component promises to another.
    [W] is the world outside the daemon.  An operation on [&mut self] is a
    computation on the pair (object, world); an operation on [&self] receives
    the object and only runs in the world.

    [Arc<Mutex<Box<dyn RealmClient>>>] is shared between a realm and all its
    applications: the client object is one component of the realm's state and
    the application methods receive it together with the world. *)

From S2P Require Import Prelude Managers.

(** [Repository<Data = D>]. *)
Class Repository (W R D : Type) := {
  repo_get : R → D;
  repo_set : D → R → R;
  repo_save : eff (R * W) RepositoryError unit }.

(** What [get_mut] followed by an assignment promises. *)
Class RepositoryLaws (W R D : Type) `{Repository W R D} : Prop := {
  repo_get_set : ∀ d r, repo_get (repo_set d r) = d }.

(** [VmManager]. *)
Class VmManager (W V : Type) := {
  launch_vm : list Uuid → eff (V * W) VmManagerError unit;
  vm_shutdown : eff (V * W) VmManagerError unit;
  get_status : eff (V * W) VmManagerError VmStatus }.

(** What a VM manager promises: it holds at most one virtual machine.
    [vm_launched v] says that it holds one, and is decided by the calls. *)
Class VmManagerLaws (W V : Type) `{VmManager W V} := {
  vm_launched : V → bool;
  launch_vm_ok : ∀ us v w v' w',
    launch_vm us (v, w) = (Ok tt, (v', w')) → vm_launched v = false ∧ vm_launched v' = true;
  launch_vm_err : ∀ us v w e v' w',
    launch_vm us (v, w) = (Err e, (v', w')) → vm_launched v' = vm_launched v;
  launch_vm_twice : ∀ us v w,
    vm_launched v = true → launch_vm us (v, w) = (Err VmAlreadyLaunched, (v, w));
  vm_shutdown_ok : ∀ v w v' w',
    vm_shutdown (v, w) = (Ok tt, (v', w')) → vm_launched v = true ∧ vm_launched v' = false;
  vm_shutdown_err : ∀ v w e v' w',
    vm_shutdown (v, w) = (Err e, (v', w')) → vm_launched v' = vm_launched v;
  vm_shutdown_none : ∀ v w,
    vm_launched v = false → vm_shutdown (v, w) = (Err VmNotLaunched, (v, w));
  get_status_launched : ∀ v w r v' w',
    get_status (v, w) = (r, (v', w')) → vm_launched v' = vm_launched v;
  get_status_not_launched : ∀ v w st v' w',
    get_status (v, w) = (Ok st, (v', w')) → (st = NotLaunched ↔ vm_launched v = false) }.

(** [RealmClient]. *)
Class RealmClient (W C : Type) := {
  try_connect_and_provision_apps :
    Z → RealmProvisioningConfig → eff (C * W) RealmClientError unit;
  try_connect_and_fetch_attestation_token :
    Z → list Z → eff (C * W) RealmClientError (list Z);
  try_connect : Z → eff (C * W) RealmClientError unit;
  client_fetch_attestation_token : list Z → eff (C * W) RealmClientError (list Z);
  provision_applications : RealmProvisioningConfig → eff (C * W) RealmClientError unit;
  start_application : Uuid → eff (C * W) RealmClientError unit;
  stop_application : Uuid → eff (C * W) RealmClientError unit;
  read_realm_ifs : eff (C * W) RealmClientError (list RealmNetwork);
  kill_application : Uuid → eff (C * W) RealmClientError unit;
  shutdown_realm : eff (C * W) RealmClientError unit;
  reboot_realm : RealmProvisioningConfig → Z → eff (C * W) RealmClientError unit }.

(** What a realm client promises: it is connected to the realm or not, only
    [try_connect] connects it, and without a connection the realm cannot be
    asked to shut down. *)
Class RealmClientLaws (W C : Type) `{RealmClient W C} := {
  connected : C → bool;
  try_connect_ok : ∀ cid c w c' w',
    try_connect cid (c, w) = (Ok tt, (c', w')) → connected c' = true;
  try_connect_err : ∀ cid c w e c' w',
    try_connect cid (c, w) = (Err e, (c', w')) → connected c' = connected c;
  fetch_not_connected : ∀ cid ch s e s',
    try_connect cid s = (Err e, s') →
    try_connect_and_fetch_attestation_token cid ch s = (Err e, s');
  provision_not_connected : ∀ cid cfg s e s',
    try_connect cid s = (Err e, s') →
    try_connect_and_provision_apps cid cfg s = (Err e, s');
  shutdown_realm_ok : ∀ c w c' w',
    shutdown_realm (c, w) = (Ok tt, (c', w')) → connected c = true ∧ connected c' = false;
  shutdown_not_connected : ∀ c w,
    connected c = false →
    ∃ msg, shutdown_realm (c, w) = (Err (RealmConnectionFail msg), (c, w)) }.

(** [Application]: the realm client is shared. *)
Class Application (W C A : Type) := {
  app_stop : eff (A * (C * W)) ApplicationError unit;
  app_start : eff (A * (C * W)) ApplicationError unit;
  app_update_config : ApplicationConfig → eff (A * (C * W)) ApplicationError unit;
  app_configure_disk : eff (A * (C * W)) ApplicationError unit;
  app_get_data : A → eff W ApplicationError ApplicationData }.

(** [ApplicationDisk]. *)
Class ApplicationDisk (W D : Type) := {
  disk_create_with_partitions : D → eff W ApplicationError unit;
  disk_update_with_partitions : Z → Z → eff (D * W) ApplicationError unit;
  disk_get_data_partition_uuid : D → eff W ApplicationError Uuid;
  disk_get_image_partition_uuid : D → eff W ApplicationError Uuid }.

(** [ApplicationCreator]. *)
Class ApplicationCreator (W A F : Type) := {
  fabric_create_application : F → Uuid → ApplicationConfig → eff W RealmError A;
  fabric_load_application : F → Uuid → eff W RealmError A }.

(** [Realm].  [H] is the type of handles ([Arc<Mutex<Box<dyn Application>>>])
    to the realm's applications; [start] and [stop] of the trait [Application]
    run through a handle on the realm's shared objects. *)
Class Realm (W Rl H : Type) := {
  realm_start : eff (Rl * W) RealmError unit;
  realm_stop : eff (Rl * W) RealmError unit;
  realm_reboot : eff (Rl * W) RealmError unit;
  realm_create_application : ApplicationConfig → eff (Rl * W) RealmError Uuid;
  realm_update_application : Uuid → ApplicationConfig → eff (Rl * W) RealmError unit;
  realm_get_application : Uuid → eff (Rl * W) RealmError H;
  realm_get_realm_data : eff (Rl * W) RealmError RealmData;
  realm_fetch_attestation_token : list Z → eff (Rl * W) RealmError (list Z);
  realm_destroy : eff (Rl * W) RealmError unit;
  application_start : H → eff (Rl * W) ApplicationError unit;
  application_stop : H → eff (Rl * W) ApplicationError unit }.

(** [RealmCreator]. *)
Class RealmCreator (W Rl F : Type) := {
  fabric_create_realm : F → Uuid → RealmConfig → eff W WardenError Rl;
  fabric_load_realm : F → Uuid → eff W WardenError Rl;
  fabric_clean_up_realm : F → Uuid → eff W WardenError unit }.

(** What the asynchronous runtime decides: the order in which the tasks of a
    [JoinSet] complete, whether a task was lost to a panic (the text of its
    [JoinError]), whether a task that is aborted had run before, and the next random
    identifier of [Uuid::new_v4]. *)
Class Runtime (W : Type) := {
  completion_order : W → list Uuid → list Uuid;
  task_panic : W → Uuid → option string;
  task_ran : W → Uuid → bool;
  new_v4 : W → Uuid * W }.

Class RuntimeLaws (W : Type) `{Runtime W} : Prop := {
  completion_order_perm : ∀ w l, completion_order w l ≡ₚ l }.
