(* ===== verification/RealmManager.v ===== *)
(** * The realm manager: life cycle of one realm

    [warden_daemon/src/managers/realm_manager.rs].  The manager owns the realm's
    state, its applications, its configuration, the VM manager and the client
    that talks to the realm, and implements the trait [Realm]. *)

From S2P Require Import Prelude Managers Traits.

(** ** The struct *)

Record RealmManager (R A V C F : Type) := mkRealmManager {
  rm_state : State;
  rm_applications : gmap Uuid A;
  rm_config : R;
  rm_vm_manager : V;
  rm_realm_client_handler : C;
  rm_application_fabric : F }.
Arguments mkRealmManager {R A V C F} _ _ _ _ _ _.
Arguments rm_state {R A V C F} _.
Arguments rm_applications {R A V C F} _.
Arguments rm_config {R A V C F} _.
Arguments rm_vm_manager {R A V C F} _.
Arguments rm_realm_client_handler {R A V C F} _.
Arguments rm_application_fabric {R A V C F} _.

(** ** The operations *)

Section realm_manager.
Context {W R A V C F : Type}.
Context `{!Repository W R RealmConfig, !VmManager W V, !RealmClient W C}.
Context `{!Application W C A, !ApplicationCreator W A F, !Runtime W}.
Context `{!UuidApi, !ExitStatusFmt}.

Abbreviation RM := (RealmManager R A V C F).

(** [RealmManager::new]. *)
Definition new (config : R) (apps : gmap Uuid A) (vm : V) (client : C) (fabric : F) : RM :=
  mkRealmManager Halted apps config vm client fabric.

Definition set_state (st : State) (m : RM) : RM :=
  mkRealmManager st (rm_applications m) (rm_config m) (rm_vm_manager m)
    (rm_realm_client_handler m) (rm_application_fabric m).
Definition set_applications (apps : gmap Uuid A) (m : RM) : RM :=
  mkRealmManager (rm_state m) apps (rm_config m) (rm_vm_manager m)
    (rm_realm_client_handler m) (rm_application_fabric m).
Definition set_vm (vm : V) (m : RM) : RM :=
  mkRealmManager (rm_state m) (rm_applications m) (rm_config m) vm
    (rm_realm_client_handler m) (rm_application_fabric m).
Definition set_client (c : C) (m : RM) : RM :=
  mkRealmManager (rm_state m) (rm_applications m) (rm_config m) (rm_vm_manager m)
    c (rm_application_fabric m).

Definition vm_lens : lens (RM * W) (V * W) := field_lens rm_vm_manager set_vm.
Definition client_lens : lens (RM * W) (C * W) :=
  field_lens rm_realm_client_handler set_client.

Definition assign_state (st : State) : eff (RM * W) RealmError unit :=
  modify (λ s, (set_state st s.1, s.2)).
Definition current_state : eff (RM * W) RealmError State := gets (λ s, rm_state s.1).
Definition cid_of (m : RM) : Z := vsock_cid (network_config (repo_get (rm_config m))).
Definition app_keys (m : RM) : list Uuid := (map_to_list (rm_applications m)).*1.

(** Run a method of the application stored under [u] (its [Arc] and lock): the
    object is read from and written back to the realm's table. *)
Definition on_app {E T} (u : Uuid) (a : A) (c : eff (A * (C * W)) E T) : eff (RM * W) E T :=
  λ s, let '(r, (a', (cl', w'))) := c (a, (rm_realm_client_handler s.1, s.2)) in
       (r, (set_client cl' (set_applications (<[u := a']> (rm_applications s.1)) s.1), w')).

(** [create_provisioning_config]. *)
Definition create_provisioning_config : eff (RM * W) RealmError RealmProvisioningConfig :=
  apps ← gets (λ s, map_to_list (rm_applications s.1));
  data ← map_eff (λ p : Uuid * A,
    map_err (λ e, ApplicationOperation (ApplicationError_to_string e))
      (zoom snd_lens (app_get_data p.2))) apps;
  mret (mkRealmProvisioningConfig data).

(** A task of [prepare_applications] and the reading of its result. *)
Definition prepare_task (p : Uuid * A) : eff (RM * W) RealmError unit :=
  panicked ← gets (λ s, task_panic s.2 p.1);
  match panicked with
  | Some err => throw (PrepareApplications err)
  | None =>
      map_err (λ e, ApplicationOperation (ApplicationError_to_string e))
        (on_app p.1 p.2 app_configure_disk)
  end.

(** A task that was not joined when another one failed. *)
Definition dropped_task (p : Uuid * A) (s : RM * W) : RM * W :=
  if task_ran s.2 p.1 then (prepare_task p s).2 else s.

(** [prepare_applications]: one task per application configures its disk; the
    tasks are joined in completion order and the first failure ends the loop,
    dropping the [JoinSet], which aborts the other tasks. *)
Definition prepare_applications : eff (RM * W) RealmError unit :=
  tasks ← gets (λ s,
    omap (λ u, (u,.) <$> rm_applications s.1 !! u) (completion_order s.2 (app_keys s.1)));
  join_all dropped_task prepare_task tasks.

(** [handle_start_response]. *)
Definition handle_start_response (starting_result : result unit RealmClientError)
    : eff (RM * W) RealmError unit :=
  match starting_result with
  | Ok _ => assign_state Running
  | Err err =>
      assign_state Halted;;
      status ← map_err (λ vm_err, RealmLaunchFail (VmManagerError_to_string vm_err))
                 (zoom vm_lens get_status);
      msg ← match status with
            | Exited runner_error =>
                mret (RealmClientError_to_string err +:+ ", " +:+ exit_status_to_string runner_error)
            | Launched =>
                map_err (λ e, VmDestroyFail (VmManagerError_to_string e))
                  (zoom vm_lens vm_shutdown);;
                mret (RealmClientError_to_string err)
            | NotLaunched => mret "Vm hasn't been launched successfully!"
            end;
      throw (RealmStartFail msg)
  end.

Definition launch : eff (RM * W) RealmError unit :=
  apps_uuids ← gets (λ s, app_keys s.1);
  map_err (λ e, RealmLaunchFail (VmManagerError_to_string e))
    (zoom vm_lens (launch_vm apps_uuids)).

Definition stop_client_and_vm : eff (RM * W) RealmError unit :=
  map_err (λ e, RealmStopFail (RealmClientError_to_string e)) (zoom client_lens shutdown_realm);;
  map_err (λ e, VmStopFail (VmManagerError_to_string e)) (zoom vm_lens vm_shutdown).

(** [Realm::fetch_attestation_token]. *)
Definition fetch_attestation_token (challenge : list Z) : eff (RM * W) RealmError (list Z) :=
  st ← current_state;
  resp ← match st with
         | Halted =>
             prepare_applications;;
             launch;;
             cid ← gets (λ s, cid_of s.1);
             resp ← attempt (zoom client_lens
                      (try_connect_and_fetch_attestation_token cid challenge));
             stop_client_and_vm;;
             mret resp
         | Running | NeedReboot =>
             attempt (zoom client_lens (client_fetch_attestation_token challenge))
         | Provisioning =>
             throw (UnsupportedAction "Can't fetch real token that is being provisioned")
         end;
  try_r (map_err_r (λ e, AttestationTokenFetch (RealmClientError_to_string e)) resp).

(** [Realm::start]. *)
Definition start : eff (RM * W) RealmError unit :=
  st ← current_state;
  if bool_decide (st ≠ Halted) then
    throw (UnsupportedAction "Can't start realm that is not halted.")
  else
    prepare_applications;;
    launch;;
    assign_state Provisioning;;
    cid ← gets (λ s, cid_of s.1);
    config ← create_provisioning_config;
    resp ← attempt (zoom client_lens (try_connect_and_provision_apps cid config));
    handle_start_response resp.

Definition cant_stop (st : State) : RealmError :=
  UnsupportedAction ("Can't stop realm that is in " +:+ State_debug st +:+ " state.").

(** [Realm::stop]. *)
Definition stop : eff (RM * W) RealmError unit :=
  st ← current_state;
  if bool_decide (st ≠ NeedReboot ∧ st ≠ Running) then throw (cant_stop st)
  else
    stop_client_and_vm;;
    assign_state Halted.

(** [Realm::reboot]. *)
Definition reboot : eff (RM * W) RealmError unit :=
  st ← current_state;
  if bool_decide (st ≠ NeedReboot ∧ st ≠ Running) then throw (cant_stop st)
  else
    config ← create_provisioning_config;
    cid ← gets (λ s, cid_of s.1);
    map_err (λ e, RealmStopFail (RealmClientError_to_string e))
      (zoom client_lens (reboot_realm config cid));;
    assign_state Running.

(** [Realm::create_application]. *)
Definition create_application (config : ApplicationConfig) : eff (RM * W) RealmError Uuid :=
  st ← current_state;
  if bool_decide (st ≠ Halted) then
    throw (UnsupportedAction "Can't create application when realm is not halted.")
  else
    uuid ← (λ s, let '(u, w') := new_v4 s.2 in (Ok u, (s.1, w')));
    fabric ← gets (λ s : RM * W, rm_application_fabric s.1);
    application ← zoom snd_lens (fabric_create_application fabric uuid config);
    modify (λ s, (set_applications (<[uuid := application]> (rm_applications s.1)) s.1, s.2));;
    mret uuid.

(** [Realm::update_application]. *)
Definition update_application (uuid : Uuid) (new_config : ApplicationConfig)
    : eff (RM * W) RealmError unit :=
  st ← current_state;
  if bool_decide (st = Provisioning) then
    throw (UnsupportedAction "Can't update application when realm is in provisioning phase.")
  else
    found ← gets (λ s, rm_applications s.1 !! uuid);
    match found with
    | Some app_manager =>
        map_err (λ e, ApplicationOperation (ApplicationError_to_string e))
          (on_app uuid app_manager (app_update_config new_config));;
        st ← current_state;
        if bool_decide (st = Running) then assign_state NeedReboot else mret tt
    | None => throw (ApplicationMissing uuid)
    end.

(** [Realm::get_application]: the shared handle ([Arc]) of an application is
    its key together with the object behind it. *)
Definition get_application (uuid : Uuid) : eff (RM * W) RealmError (Uuid * A) :=
  st ← current_state;
  if bool_decide (st ≠ Running ∧ st ≠ NeedReboot) then
    throw (UnsupportedAction "Can't get application while realm isn't running.")
  else
    found ← gets (λ s, rm_applications s.1 !! uuid);
    match found with
    | Some app => mret (uuid, app)
    | None => throw (ApplicationMissing uuid)
    end.

(** [Realm::get_realm_data]. *)
Definition get_realm_data : eff (RM * W) RealmError RealmData :=
  st ← current_state;
  ifs_ip ← (if bool_decide (st = Running ∨ st = NeedReboot) then
              map_err (λ e, RealmAcuireIpsFail (RealmClientError_to_string e))
                (zoom client_lens read_realm_ifs)
            else mret []);
  st ← current_state;
  keys ← gets (λ s, app_keys s.1);
  mret (mkRealmData st keys ifs_ip).

(** [Realm::destroy]. *)
Definition destroy : eff (RM * W) RealmError unit :=
  map_err (λ e, VmDestroyFail (VmManagerError_to_string e)) (zoom vm_lens vm_shutdown).

#[global] Instance RealmManager_realm : Realm W RM (Uuid * A) := {
  realm_start := start;
  realm_stop := stop;
  realm_reboot := reboot;
  realm_create_application := create_application;
  realm_update_application := update_application;
  realm_get_application := get_application;
  realm_get_realm_data := get_realm_data;
  realm_fetch_attestation_token := fetch_attestation_token;
  realm_destroy := destroy;
  application_start h := on_app h.1 h.2 app_start;
  application_stop h := on_app h.1 h.2 app_stop }.

(** ** Dispatch over the trait

    Any call the rest of the daemon can make on a realm, as one computation. *)

Inductive RealmOp :=
| OpStart
| OpStop
| OpReboot
| OpCreateApplication (config : ApplicationConfig)
| OpUpdateApplication (uuid : Uuid) (config : ApplicationConfig)
| OpGetApplication (uuid : Uuid)
| OpFetchAttestationToken (challenge : list Z)
| OpGetRealmData
| OpDestroy.

Definition run_op (op : RealmOp) : eff (RM * W) RealmError unit :=
  match op with
  | OpStart => start
  | OpStop => stop
  | OpReboot => reboot
  | OpCreateApplication config => create_application config;; mret tt
  | OpUpdateApplication uuid config => update_application uuid config
  | OpGetApplication uuid => get_application uuid;; mret tt
  | OpFetchAttestationToken challenge => fetch_attestation_token challenge;; mret tt
  | OpGetRealmData => get_realm_data;; mret tt
  | OpDestroy => destroy
  end.

(** ** Specification: the life-cycle automaton

    [lifecycle st op ok st']: in state [st] the call [op] may end in [st'],
    successfully ([ok = true]) or with an error. *)

Definition live (st : State) : bool := bool_decide (st = Running ∨ st = NeedReboot).

(** The states in which the life cycle admits an operation at all. *)
Definition allowed (op : RealmOp) (st : State) : bool :=
  match op with
  | OpStart | OpCreateApplication _ => bool_decide (st = Halted)
  | OpStop | OpReboot | OpGetApplication _ => live st
  | OpUpdateApplication _ _ | OpFetchAttestationToken _ => bool_decide (st ≠ Provisioning)
  | OpGetRealmData | OpDestroy => true
  end.

(** The state a successful operation leads to. *)
Definition next_state (op : RealmOp) (st : State) : State :=
  match op with
  | OpStart | OpReboot => Running
  | OpStop => Halted
  | OpUpdateApplication _ _ => if bool_decide (st = Running) then NeedReboot else st
  | _ => st
  end.

Inductive lifecycle : State → RealmOp → bool → State → Prop :=
| lc_success st op : allowed op st = true → lifecycle st op true (next_state op st)
| lc_failure st op : lifecycle st op false st
| lc_start_stranded : lifecycle Halted OpStart false Provisioning.

Definition realm_step (s s' : RM * W) : Prop := ∃ op, s' = (run_op op s).2.

(** ** Frame lemmas *)

Definition same_state : RM * W → RM * W → Prop := same (λ s, rm_state s.1).
Definition same_keys : RM * W → RM * W → Prop := same (λ s, dom (rm_applications s.1)).
#[local] Instance same_state_preorder : PreOrder same_state := same_preorder _.
#[local] Instance same_keys_preorder : PreOrder same_keys := same_preorder _.

Lemma on_app_same_state {E T} u a (c : eff (A * (C * W)) E T) : steps same_state (on_app u a c).
Proof. intros s. unfold on_app. by destruct (c _) as [? [? []]]. Qed.

Lemma vm_same_state {E T} (c : eff (V * W) E T) : steps same_state (zoom vm_lens c).
Proof. by apply steps_zoom. Qed.
Lemma client_same_state {E T} (c : eff (C * W) E T) : steps same_state (zoom client_lens c).
Proof. by apply steps_zoom. Qed.
Lemma world_same_state {E T} (c : eff W E T) : steps same_state (zoom snd_lens c).
Proof. by apply steps_zoom. Qed.
#[local] Hint Resolve on_app_same_state vm_same_state client_same_state world_same_state : eff.

Lemma vm_same_keys {E T} (c : eff (V * W) E T) : steps same_keys (zoom vm_lens c).
Proof. by apply steps_zoom. Qed.
Lemma client_same_keys {E T} (c : eff (C * W) E T) : steps same_keys (zoom client_lens c).
Proof. by apply steps_zoom. Qed.
Lemma world_same_keys {E T} (c : eff W E T) : steps same_keys (zoom snd_lens c).
Proof. by apply steps_zoom. Qed.
#[local] Hint Resolve vm_same_keys client_same_keys world_same_keys : eff.

(** What holds across every task holds across their joining. *)
Lemma steps_prepare_tasks (Q : RM * W → RM * W → Prop) `{!PreOrder Q} tasks :
  (∀ p, steps Q (prepare_task p)) → steps Q (join_all dropped_task prepare_task tasks).
Proof.
  intros Hp. apply steps_join_all; [done..|]. intros p s. unfold dropped_task.
  destruct (task_ran _ _); [apply Hp|reflexivity].
Qed.
Lemma prepare_task_same_state p : steps same_state (prepare_task p).
Proof. unfold prepare_task. eff_auto. Qed.
Lemma prepare_applications_same_state : steps same_state prepare_applications.
Proof.
  unfold prepare_applications. apply steps_bind; [apply _|apply steps_gets; apply _|]. intros tasks.
  apply steps_prepare_tasks; [apply _|apply prepare_task_same_state].
Qed.
Lemma create_provisioning_config_same_state : steps same_state create_provisioning_config.
Proof. unfold create_provisioning_config. eff_auto. Qed.
Lemma launch_same_state : steps same_state launch.
Proof. unfold launch. eff_auto. Qed.
Lemma stop_client_and_vm_same_state : steps same_state stop_client_and_vm.
Proof. unfold stop_client_and_vm. eff_auto. Qed.
#[local] Hint Resolve prepare_applications_same_state create_provisioning_config_same_state
  launch_same_state stop_client_and_vm_same_state : eff.

(** Record, for every run in the context, that it kept the realm's state. *)
Ltac learn_state :=
  repeat match goal with
  | H : ?c ?s = (?r, ?s') |- _ =>
      lazymatch goal with
      | _ : rm_state s.1 = rm_state s'.1 |- _ => fail
      | _ => let Hf := fresh "Hst" in
             assert (rm_state s.1 = rm_state s'.1) as Hf
               by (eapply (steps_run same_state c); [solve [eff_auto]|exact H])
      end
  end.

(** ** Life cycle *)

Lemma fetch_attestation_token_same_state ch : steps same_state (fetch_attestation_token ch).
Proof. unfold fetch_attestation_token, current_state. eff_auto. Qed.
Lemma create_application_same_state cfg : steps same_state (create_application cfg).
Proof.
  unfold create_application, current_state. eff_auto.
  - intros s. by destruct (new_v4 s.2).
  - by apply steps_modify.
Qed.
Lemma get_application_same_state u : steps same_state (get_application u).
Proof. unfold get_application, current_state. eff_auto. Qed.
Lemma get_realm_data_same_state : steps same_state get_realm_data.
Proof. unfold get_realm_data, current_state. eff_auto. Qed.
Lemma destroy_same_state : steps same_state destroy.
Proof. unfold destroy. eff_auto. Qed.

(** What a run of [handle_start_response] does to the state. *)
Lemma handle_start_response_state resp s r s' :
  handle_start_response resp s = (r, s') →
  match resp with
  | Ok _ => r = Ok tt ∧ rm_state s'.1 = Running
  | Err _ => is_ok r = false ∧ rm_state s'.1 = Halted
  end.
Proof.
  destruct resp as [[]|err]; simpl.
  - unfold assign_state. intros; run_inv. done.
  - set (s1 := (set_state Halted s.1, s.2)).
    rewrite (bind_ok _ _ _ tt s1) by done. intros Hrun.
    split.
    + destruct r as [[]|]; [|done]. run_inv.
    + cut (rm_state s1.1 = rm_state s'.1); [done|].
      eapply (steps_run same_state); [|exact Hrun]. eff_auto.
Qed.

Lemma start_state s r s' :
  start s = (r, s') → lifecycle (rm_state s.1) OpStart (is_ok r) (rm_state s'.1).
Proof.
  unfold start, current_state. intros Hrun. run_gets Hrun.
  case_bool_decide as Hst; [run_inv; constructor|].
  run_split Hrun as [] s1 H1.
  { learn_state. replace (rm_state s'.1) with (rm_state s.1) by done. constructor. }
  run_split Hrun as [] s2 H2; learn_state.
  { replace (rm_state s'.1) with (rm_state s.1) by congruence. constructor. }
  unfold assign_state in Hrun. run_gets Hrun. run_gets Hrun. rewrite Hst.
  run_split Hrun as cfg s4 H4.
  { learn_state. simpl in *. replace (rm_state s'.1) with Provisioning. constructor. }
  run_split Hrun as resp s5 H5; [unfold attempt in Hrun; by destruct (zoom _ _ _)|].
  apply handle_start_response_state in Hrun. destruct resp as [[]|err].
  - destruct Hrun as [-> ->]. by apply (lc_success Halted OpStart).
  - destruct Hrun as [-> ->]. constructor.
Qed.

Lemma stop_state s r s' :
  stop s = (r, s') → allowed OpStop (rm_state s.1) = true →
  rm_state s'.1 = if is_ok r then Halted else rm_state s.1.
Proof.
  unfold stop, current_state. intros Hrun Hal. run_gets Hrun.
  case_bool_decide as Hst.
  { unfold allowed, live in Hal. case_bool_decide; naive_solver. }
  run_split Hrun as [] s1 H1; learn_state; [done|].
  unfold assign_state in Hrun. run_inv. done.
Qed.

Lemma reboot_state s r s' :
  reboot s = (r, s') → allowed OpReboot (rm_state s.1) = true →
  rm_state s'.1 = if is_ok r then Running else rm_state s.1.
Proof.
  unfold reboot, current_state. intros Hrun Hal. run_gets Hrun.
  case_bool_decide as Hst.
  { unfold allowed, live in Hal. case_bool_decide; naive_solver. }
  run_split Hrun as cfg s1 H1; learn_state; [done|]. run_gets Hrun.
  run_split Hrun as [] s2 H2; learn_state; [simpl; congruence|].
  unfold assign_state in Hrun. run_inv. done.
Qed.

Lemma update_application_state u cfg s r s' :
  update_application u cfg s = (r, s') →
  rm_state s'.1 = if is_ok r then next_state (OpUpdateApplication u cfg) (rm_state s.1)
                  else rm_state s.1.
Proof.
  unfold update_application, current_state. intros Hrun. run_gets Hrun.
  case_bool_decide as Hst; [by run_inv|]. run_gets Hrun.
  destruct (rm_applications s.1 !! u) as [a|]; [|by run_inv].
  run_split Hrun as [] s1 H1; learn_state; [done|]. run_gets Hrun.
  unfold next_state. rewrite Hst0.
  case_bool_decide; unfold assign_state in Hrun; by run_inv.
Qed.

Lemma refused op s :
  allowed op (rm_state s.1) = false →
  ∃ msg, run_op op s = (Err (UnsupportedAction msg), s).
Proof.
  destruct s as [[st apps cfg vm client fabric] w]. simpl.
  destruct st, op; intros Hal; try done; by eexists.
Qed.

(** Every call follows the life cycle, whatever the VM, the realm, the
    applications and the file system answer. *)
Lemma run_op_lifecycle op s r s' :
  run_op op s = (r, s') → lifecycle (rm_state s.1) op (is_ok r) (rm_state s'.1).
Proof.
  intros Hrun. destruct (allowed op (rm_state s.1)) eqn:Hal.
  2:{ destruct (refused op s Hal) as [msg Hr]. rewrite Hr in Hrun. simplify_eq. constructor. }
  assert (rm_state s'.1 = (if is_ok r then next_state op (rm_state s.1) else rm_state s.1)
          ∨ op = OpStart) as [Hs| ->].
  - destruct op; [by right|left..]; simpl in Hrun |- *.
    + by apply stop_state in Hrun.
    + by apply reboot_state in Hrun.
    + pose proof (create_application_same_state config). learn_state. by destruct r.
    + by apply update_application_state in Hrun.
    + pose proof (get_application_same_state uuid). learn_state. by destruct r.
    + pose proof (fetch_attestation_token_same_state challenge). learn_state. by destruct r.
    + pose proof get_realm_data_same_state. learn_state. by destruct r.
    + pose proof destroy_same_state. learn_state. by destruct r.
  - rewrite Hs. destruct r; by constructor.
  - by apply start_state.
Qed.

(** ** Applications *)

Lemma on_app_keys {E T} u a (c : eff (A * (C * W)) E T) s :
  is_Some (rm_applications s.1 !! u) → same_keys s (on_app u a c s).2.
Proof.
  intros Hu. unfold on_app. destruct (c _) as [? [? []]]. unfold same_keys, same. simpl.
  rewrite dom_insert_L. apply elem_of_dom in Hu. set_solver.
Qed.

(** [a'] is what [configure_disk] makes of the application [a]. *)
Definition disk_configured (a a' : A) : Prop :=
  ∃ x x', app_configure_disk (a, x) = (Ok tt, (a', x')).

Lemma prepare_task_ok u a s s' :
  prepare_task (u, a) s = (Ok tt, s') →
  ∃ a', disk_configured a a' ∧ rm_applications s'.1 = <[u := a']> (rm_applications s.1).
Proof.
  unfold prepare_task. intros Hrun. run_gets Hrun.
  destruct (task_panic _ _); [by run_inv|]. apply map_err_ok in Hrun.
  unfold on_app in Hrun. simpl in Hrun.
  destruct (app_configure_disk _) as [[[]|] [a' [cl' w']]] eqn:Hc; simplify_eq/=.
  exists a'. split; [|done]. by eexists _, _.
Qed.

Lemma prepare_tasks_ok tasks s s' :
  NoDup tasks.*1 →
  for_each prepare_task tasks s = (Ok tt, s') →
  (∀ u a, (u, a) ∈ tasks → ∃ a', rm_applications s'.1 !! u = Some a' ∧ disk_configured a a') ∧
  (∀ u, u ∉ tasks.*1 → rm_applications s'.1 !! u = rm_applications s.1 !! u).
Proof.
  revert s. induction tasks as [|[u a] tasks IH]; intros s Hnd Hrun; simpl in *.
  { run_inv. split; [|done]. intros ??. by intros ?%elem_of_nil. }
  apply NoDup_cons in Hnd as [Hu Hnd].
  apply bind_ok_inv in Hrun as ([]&s1&H1&Hrun).
  apply prepare_task_ok in H1 as (a'&Hconf&Happs).
  destruct (IH s1 Hnd Hrun) as [IHin IHout]. split.
  - intros u0 a0 [Heq|Hin]%elem_of_cons; [|by eauto].
    simplify_eq. exists a'. split; [|done].
    rewrite IHout, Happs by done. apply lookup_insert_eq.
  - intros u0 [Hne Hnin]%not_elem_of_cons.
    rewrite IHout, Happs by done. by apply lookup_insert_ne.
Qed.

Lemma app_keys_elem m u : u ∈ app_keys m ↔ is_Some (rm_applications m !! u).
Proof.
  unfold app_keys. rewrite list_elem_of_fmap. split.
  - intros ([u' a]&->&Hin%elem_of_map_to_list). by exists a.
  - intros [a Ha]. exists (u, a). split; [done|]. by apply elem_of_map_to_list.
Qed.

(** The tasks spawned by [prepare_applications]: one per application. *)
Lemma prepare_tasks_spec `{!RuntimeLaws W} (s : RM * W) :
  let tasks := omap (λ u, (u,.) <$> rm_applications s.1 !! u)
                 (completion_order s.2 (app_keys s.1)) in
  NoDup tasks.*1 ∧ ∀ u a, (u, a) ∈ tasks ↔ rm_applications s.1 !! u = Some a.
Proof.
  intros tasks. pose proof (completion_order_perm s.2 (app_keys s.1)) as Hperm. split.
  - assert (NoDup (completion_order s.2 (app_keys s.1))) as Hnd.
    { rewrite Hperm. apply NoDup_fst_map_to_list. }
    subst tasks. clear Hperm. induction Hnd as [|u l Hu Hnd IH]; simpl; [constructor|].
    destruct (rm_applications s.1 !! u); simpl; [|done]. constructor; [|done].
    intros ([u' a']&->&(u1&Hin&Heq)%list_elem_of_omap)%list_elem_of_fmap.
    apply fmap_Some in Heq as (?&?&?). naive_solver.
  - intros u a. subst tasks. rewrite list_elem_of_omap. split.
    + intros (u1&Hin&Heq). apply fmap_Some in Heq as (?&?&?). by simplify_eq.
    + intros Ha. exists u. rewrite Hperm, app_keys_elem, Ha. eauto.
Qed.

Lemma prepare_applications_ok `{!RuntimeLaws W} s s' :
  prepare_applications s = (Ok tt, s') →
  dom (rm_applications s'.1) = dom (rm_applications s.1) ∧
  ∀ u a, rm_applications s.1 !! u = Some a →
    ∃ a', rm_applications s'.1 !! u = Some a' ∧ disk_configured a a'.
Proof.
  intros Hrun. unfold prepare_applications in Hrun. run_gets Hrun. apply join_all_ok in Hrun.
  destruct (prepare_tasks_spec s) as [Hnd Hin].
  destruct (prepare_tasks_ok _ _ _ Hnd Hrun) as [Hdone Hout]. split.
  - apply set_eq. intros u. rewrite !elem_of_dom.
    destruct (rm_applications s.1 !! u) as [a|] eqn:Hu.
    + apply Hin, Hdone in Hu as (a'&->&_). split; eauto.
    + rewrite Hout, Hu; [done|].
      intros ([u' a']&->&Hin'%Hin)%list_elem_of_fmap. by simplify_eq/=.
  - intros u a Hu. by apply Hdone, Hin.
Qed.

Lemma prepare_task_keys (D : gset Uuid) p :
  p.1 ∈ D → preserves (λ s : RM * W, dom (rm_applications s.1) = D) (prepare_task p).
Proof.
  intros Hp. unfold prepare_task. apply preserves_bind; [apply preserves_gets|].
  intros [err|]; [apply preserves_throw|]. apply preserves_map_err.
  intros s Hs. rewrite <-Hs. symmetry. apply on_app_keys. apply elem_of_dom. by rewrite Hs.
Qed.

Lemma prepare_applications_keys : steps same_keys prepare_applications.
Proof.
  intros s. unfold prepare_applications. erewrite bind_ok by reflexivity.
  assert (∀ p, p ∈ omap (λ u, (u,.) <$> rm_applications s.1 !! u) (completion_order s.2 (app_keys s.1)) →
    preserves (λ s1 : RM * W, dom (rm_applications s1.1) = dom (rm_applications s.1)) (prepare_task p)) as Hp.
  { intros [u a] (u'&_&(b&Hb&[= -> ->])%fmap_Some)%list_elem_of_omap.
    apply prepare_task_keys. apply elem_of_dom. eauto. }
  symmetry. apply (preserves_join_all_in (λ s1, dom (rm_applications s1.1) = _)); [done| |done].
  intros p s1 Hin Hs1. unfold dropped_task. destruct (task_ran _ _); [by apply Hp|done].
Qed.

Lemma assign_state_keys st : steps same_keys (assign_state st).
Proof. by apply steps_modify. Qed.
#[local] Hint Resolve prepare_applications_keys assign_state_keys : eff.

Lemma update_application_keys u cfg : steps same_keys (update_application u cfg).
Proof.
  intros s. unfold update_application, current_state. erewrite bind_ok by reflexivity.
  case_bool_decide; [done|]. erewrite bind_ok by reflexivity.
  destruct (rm_applications s.1 !! u) as [a|] eqn:Ha; [|done].
  assert (same_keys s (on_app u a (app_update_config cfg) s).2) as Hk
    by (apply on_app_keys; eauto).
  unfold mbind, eff_bind, map_err. destruct (on_app _ _ _ _) as [[[]|] s1]; [|done].
  simpl. by case_bool_decide.
Qed.
#[local] Hint Resolve update_application_keys : eff.

(** Only [create_application] changes the set of applications. *)
Lemma run_op_keys op :
  (∀ cfg, op ≠ OpCreateApplication cfg) → steps same_keys (run_op op).
Proof.
  intros Hop. destruct op; simpl; try (by destruct (Hop config)); [..|by eff_auto| | | |];
    unfold start, stop, reboot, get_application, fetch_attestation_token,
      get_realm_data, destroy, current_state, launch, stop_client_and_vm,
      create_provisioning_config, handle_start_response; eff_auto.
Qed.

Lemma create_application_ok cfg s u s' :
  create_application cfg s = (Ok u, s') →
  u = (new_v4 s.2).1 ∧ ∃ a, rm_applications s'.1 = <[u := a]> (rm_applications s.1).
Proof.
  unfold create_application, current_state. intros Hrun. run_gets Hrun.
  case_bool_decide; [by run_inv|].
  destruct (new_v4 s.2) as [u0 w0] eqn:Hnew. simpl.
  rewrite (bind_ok _ _ _ u0 (s.1, w0)) in Hrun by by rewrite Hnew.
  run_gets Hrun. run_inv. split; [done|]. by eexists.
Qed.

Lemma start_ok s s' :
  start s = (Ok tt, s') ↔
  rm_state s.1 = Halted ∧ ∃ s1 s2 config s3 s4,
    prepare_applications s = (Ok tt, s1) ∧
    zoom vm_lens (launch_vm (app_keys s1.1)) s1 = (Ok tt, s2) ∧
    create_provisioning_config (set_state Provisioning s2.1, s2.2) = (Ok config, s3) ∧
    zoom client_lens (try_connect_and_provision_apps (cid_of s2.1) config) s3 = (Ok tt, s4) ∧
    s' = (set_state Running s4.1, s4.2).
Proof.
  unfold start, current_state, launch. erewrite bind_ok by reflexivity.
  case_bool_decide as Hst; split.
  - intros; run_inv.
  - by intros [? _].
  - intros Hrun. split; [done|].
    apply bind_ok_inv in Hrun as ([]&s1&H1&Hrun). exists s1.
    apply bind_ok_inv in Hrun as ([]&s2&H2&Hrun). exists s2.
    run_gets H2. apply map_err_ok in H2.
    unfold assign_state in Hrun. run_gets Hrun. run_gets Hrun.
    apply bind_ok_inv in Hrun as (config&s3&H3&Hrun). exists config, s3.
    apply bind_ok_inv in Hrun as (resp&s4&H4&Hrun). exists s4.
    unfold attempt in H4. destruct (zoom client_lens _ s3) as [r4 s4'] eqn:Hc.
    simplify_eq. destruct resp as [[]|err].
    + simpl in Hrun. unfold assign_state, modify in Hrun. by simplify_eq/=.
    + by apply handle_start_response_state in Hrun as [].
  - intros [_ (s1&s2&config&s3&s4&H1&H2&H3&H4&->)].
    rewrite (bind_ok _ _ _ _ _ H1).
    rewrite (bind_ok _ _ _ tt s2) by by apply map_err_ok.
    erewrite bind_ok by reflexivity. erewrite bind_ok by reflexivity. simpl.
    rewrite (bind_ok _ _ _ _ _ H3).
    by rewrite (bind_ok _ _ _ _ _ (attempt_run _ _ _ _ H4)).
Qed.

Definition same_apps : RM * W → RM * W → Prop := same (λ s, rm_applications s.1).
#[local] Instance same_apps_preorder : PreOrder same_apps := same_preorder _.

Lemma create_provisioning_config_apps : steps same_apps create_provisioning_config.
Proof.
  unfold create_provisioning_config. eff_auto. by apply steps_zoom.
Qed.

(** ** The life cycle of a realm *)

(** C1.  Refinement: every operation of the trait [Realm], on every branch and
    whatever the virtual machine, the realm, the applications, the disks and
    the file system answer, is a transition of the life-cycle automaton:
    success only from an admitted state and only into [next_state], failure
    without a change of state, except that a failing [start] may leave the
    realm in [Provisioning]. *)
Theorem realm_refines_lifecycle op s :
  lifecycle (rm_state s.1) op (is_ok (run_op op s).1) (rm_state (run_op op s).2.1).
Proof. apply run_op_lifecycle. by destruct (run_op op s). Qed.

(** C22.  The guards are exact: an operation the life cycle does not admit in
    the current state is refused with [UnsupportedAction] and has no effect at
    all, neither on the realm nor outside it. *)
Theorem refused_without_effect op s :
  allowed op (rm_state s.1) = false →
  ∃ msg, run_op op s = (Err (UnsupportedAction msg), s).
Proof. apply refused. Qed.

(** [start] succeeds exactly when, from [Halted], the disks are prepared,
    then the VM is launched with the realm's applications, then the
    provisioning data is read and accepted by the realm, in this order; the
    realm is then [Running] and nothing else has changed. *)
Theorem start_success_iff s s' :
  start s = (Ok tt, s') ↔
  rm_state s.1 = Halted ∧ ∃ s1 s2 config s3 s4,
    prepare_applications s = (Ok tt, s1) ∧
    zoom vm_lens (launch_vm (app_keys s1.1)) s1 = (Ok tt, s2) ∧
    create_provisioning_config (set_state Provisioning s2.1, s2.2) = (Ok config, s3) ∧
    zoom client_lens (try_connect_and_provision_apps (cid_of s2.1) config) s3 = (Ok tt, s4) ∧
    s' = (set_state Running s4.1, s4.2).
Proof. apply start_ok. Qed.

(** C10.  A realm that has been started has had the disk of every one of its
    applications configured: each application of the running realm is the
    result of a successful [configure_disk] on the application the halted
    realm had under the same identifier. *)
Theorem start_configures_every_disk `{!RuntimeLaws W} s s' :
  start s = (Ok tt, s') →
  dom (rm_applications s'.1) = dom (rm_applications s.1) ∧
  ∀ u a, rm_applications s.1 !! u = Some a →
    ∃ a', rm_applications s'.1 !! u = Some a' ∧ disk_configured a a'.
Proof.
  intros (_&s1&s2&config&s3&s4&H1&H2&H3&H4&->)%start_ok.
  apply prepare_applications_ok in H1. apply zoom_inv in H2 as (?&_&->).
  apply (steps_run _ _ _ _ _ create_provisioning_config_apps) in H3.
  apply zoom_inv in H4 as (?&_&->). unfold same_apps, same in H3. simpl in *.
  by rewrite <-H3.
Qed.

(** [Provisioning] is a trap: once a realm is in it, no sequence of calls
    on the realm leaves it again; the realm can neither be started, stopped,
    rebooted nor changed any more. *)
Theorem provisioning_is_a_trap s s' :
  rm_state s.1 = Provisioning → rtc realm_step s s' → rm_state s'.1 = Provisioning.
Proof.
  intros Hs Hrtc. induction Hrtc as [s|s s1 s' [op ->] _ IH]; [done|]. apply IH.
  destruct (run_op op s) as [r s1] eqn:Hrun. apply run_op_lifecycle in Hrun. simpl.
  rewrite Hs in Hrun. inversion Hrun as [? ? Hal| |]; [|done].
  by destruct op.
Qed.

(** C24.  A realm whose VM has been launched but whose provisioning data cannot
    be read ends [start] with that error and stays in [Provisioning], with its
    VM launched; no sequence of calls on the realm leaves that state again. *)
Theorem start_strands_in_provisioning s s1 s2 s3 e :
  rm_state s.1 = Halted →
  prepare_applications s = (Ok tt, s1) →
  zoom vm_lens (launch_vm (app_keys s1.1)) s1 = (Ok tt, s2) →
  create_provisioning_config (set_state Provisioning s2.1, s2.2) = (Err e, s3) →
  start s = (Err e, s3) ∧ rm_vm_manager s3.1 = rm_vm_manager s2.1 ∧
  ∀ s4, rtc realm_step s3 s4 → rm_state s4.1 = Provisioning.
Proof.
  intros Hst H1 H2 H3. split.
  - unfold start, current_state, launch. erewrite bind_ok by reflexivity.
    case_bool_decide; [done|]. rewrite (bind_ok _ _ _ _ _ H1).
    rewrite (bind_ok _ _ _ tt s2) by by apply map_err_ok.
    do 2 erewrite bind_ok by reflexivity. by apply bind_err.
  - assert (steps (same (λ s : RM * W, (rm_state s.1, rm_vm_manager s.1)))
              create_provisioning_config) as Hfr.
    { unfold create_provisioning_config. eff_auto. by apply steps_zoom. }
    apply (steps_run _ _ _ _ _ Hfr) in H3. unfold same in H3. simplify_eq/=.
    split; [done|]. intros s4. by apply provisioning_is_a_trap.
Qed.

(** A failing [create_application] leaves the table alone. *)
Lemma create_application_keys_err cfg s e s' :
  create_application cfg s = (Err e, s') → rm_applications s'.1 = rm_applications s.1.
Proof.
  unfold create_application, current_state. intros Hrun. run_gets Hrun.
  case_bool_decide; [by run_inv|].
  destruct (new_v4 s.2) as [u0 w0] eqn:Hnew.
  rewrite (bind_ok _ _ _ u0 (s.1, w0)) in Hrun by by rewrite Hnew.
  run_gets Hrun. by run_inv.
Qed.

(** C23.  The table of applications: an application is only ever added, by a
    successful [create_application], under the identifier it returns; no
    operation removes one, and no other operation changes the set. *)
Theorem applications_only_created op s :
  dom (rm_applications (run_op op s).2.1) = dom (rm_applications s.1) ∨
  ∃ config u, op = OpCreateApplication config ∧
    (create_application config s).1 = Ok u ∧
    dom (rm_applications (run_op op s).2.1) = {[u]} ∪ dom (rm_applications s.1).
Proof.
  assert ((∃ cfg, op = OpCreateApplication cfg) ∨ ∀ cfg, op ≠ OpCreateApplication cfg)
    as [[cfg ->]|Hop] by (destruct op; eauto).
  - simpl. unfold mbind, eff_bind.
    destruct (create_application cfg s) as [[u|e] s1] eqn:Hrun; simpl.
    + right. exists cfg, u. rewrite Hrun.
      apply create_application_ok in Hrun as (_&a&->). by rewrite dom_insert_L.
    + left. pose proof (create_application_keys_err _ _ _ _ Hrun) as Hk. by rewrite Hk.
  - left. symmetry. by apply run_op_keys.
Qed.

End realm_manager.
