(* ===== verification/ApplicationDisk.v ===== *)
(** * The application's disk image

    [warden_daemon/src/storage/app_disk_manager.rs]: every application has a raw
    disk file [disk.raw] with a GPT holding two partitions, [image] and [data].
    The [gpt] crate and the file API are parameters of the model; the sizes,
    their validation and the 64-bit and 32-bit arithmetic on them are modelled
    as written. *)

From S2P Require Import Prelude Managers Traits.

Inductive ApplicationDiskManagerError :=
| RequestedEmptyPartition
| RequestedTooBigPartition (msg : string)
| DiskCreation (msg : string)
| DiskDeletion (msg : string)
| PartitionMetadataWrite (msg : string)
| GPTConfiguration (msg : string)
| GPTUpdate (msg : string)
| PartitionCreation (msg : string)
| GPTRead (msg : string)
| GPTSave (msg : string)
| FileShutdown (msg : string)
| GetPartitionSize (msg : string)
| DataPartitionNotFound
| ImagePartitionNotFound
| DataPartitionSizeIncorrect
| ImagePartitionSizeIncorrect.

Definition ApplicationDiskManagerError_to_string (e : ApplicationDiskManagerError) : string :=
  match e with
  | RequestedEmptyPartition => "Requested empty partition."
  | RequestedTooBigPartition m => "Requested too big partition: " +:+ m
  | DiskCreation m => "Can't create disk: " +:+ m
  | DiskDeletion m => "Can't delete disk: " +:+ m
  | PartitionMetadataWrite m => "Failed to write MBA: " +:+ m
  | GPTConfiguration m => "Failed to configure GPT: " +:+ m
  | GPTUpdate m => "Failed to update GPT: " +:+ m
  | PartitionCreation m => "Failed to create partition: " +:+ m
  | GPTRead m => "Failed to read GPT: " +:+ m
  | GPTSave m => "Failed to write GPT configuration: " +:+ m
  | FileShutdown m => "Failed to save file: " +:+ m
  | GetPartitionSize m => "Failed to read partition size: " +:+ m
  | DataPartitionNotFound => "Missing Data partition."
  | ImagePartitionNotFound => "Missing Image partition."
  | DataPartitionSizeIncorrect => "Data partition size is incorrect."
  | ImagePartitionSizeIncorrect => "Image partition size is incorrect."
  end.

Record ApplicationDiskManager := mkApplicationDiskManager {
  file_path : PathBuf;
  image_part_bytes_size : Z;
  data_part_bytes_size : Z }.

Definition DISK_NAME : string := "disk.raw".
Definition IMAGE_PARTITION : string := "image".
Definition DATA_PARTITION : string := "data".
(** [LogicalBlockSize::Lb512] as a number. *)
Definition LBA_SIZE : Z := 512.
Definition MAX_PARTITION_SIZE_MB : Z := 100 * 1024.

(** ** Foreign code: the [gpt] crate and files

    [P] is [gpt::partition::Partition], [G] is [GptDisk], [Fd] an open file.
    Errors are their printed text. *)
Class DiskApi (W P G Fd : Type) := {
  partition_name : P → string;
  part_guid : P → Uuid;
  bytes_len : P → Z → result Z string;
  gpt_open_read_only : PathBuf → eff W string (list P);
  file_create_truncate : PathBuf → eff W IoError Fd;
  file_seek : Fd → Z → eff W IoError unit;
  file_write_all : Fd → list Z → eff W IoError unit;
  file_sync_all : Fd → eff W IoError unit;
  file_shutdown : Fd → eff W IoError unit;
  mbr_overwrite_lba0 : Fd → Z → eff W string unit;
  gpt_create_from_device : Fd → Z → eff W string G;
  gpt_update_partitions : list P → eff (G * W) string unit;
  gpt_add_partition : string → Z → eff (G * W) string unit;
  gpt_write : eff (G * W) string unit }.

(** Opening a disk with [writable(false)] does not change it. *)
Class DiskApiLaws (W P G Fd : Type) `{DiskApi W P G Fd} : Prop := {
  gpt_open_pure : ∀ p w, (gpt_open_read_only p w).2 = w }.

(** ** Sizes *)

Definition validate_and_convert_to_bytes (partition_size_mb : Z)
    : result Z ApplicationDiskManagerError :=
  if bool_decide (partition_size_mb > MAX_PARTITION_SIZE_MB)%Z then
    Err (RequestedTooBigPartition
           ("Requested size is: " +:+ pretty partition_size_mb +:+
            ", maximum size is: " +:+ pretty MAX_PARTITION_SIZE_MB +:+ "."))
  else if bool_decide (partition_size_mb = 0)%Z then Err RequestedEmptyPartition
  else Ok (partition_size_mb * 1024 * 1024)%Z.

Definition new (workdir_path : PathBuf) (image_partition_size_mb data_partition_size_mb : Z)
    : result ApplicationDiskManager ApplicationDiskManagerError :=
  and_then (validate_and_convert_to_bytes data_partition_size_mb) (λ data_partition_size,
  and_then (validate_and_convert_to_bytes image_partition_size_mb) (λ image_partition_size,
  Ok (mkApplicationDiskManager (path_push workdir_path DISK_NAME)
        image_partition_size data_partition_size))).

Definition PRIMARY_GPT_LBA_SECTORS : Z := 34.
Definition BACKUP_GPT_LBA_SECTORS : Z := 34.

Definition calculate_total_size (d : ApplicationDiskManager) : Z :=
  (data_part_bytes_size d + image_part_bytes_size d +
   (PRIMARY_GPT_LBA_SECTORS + BACKUP_GPT_LBA_SECTORS) * LBA_SIZE)%Z.

(** The sector count written into the protective MBR ([.. as u32]). *)
Definition mbr_sectors (d : ApplicationDiskManager) : Z :=
  as_u32 (calculate_total_size d / LBA_SIZE - 1).

Section disk.
Context {W P G Fd : Type} `{!DiskApi W P G Fd}.
Abbreviation E := ApplicationDiskManagerError.
Implicit Types d : ApplicationDiskManager.

(** Collecting into a [HashMap]: a later partition of the same name wins. *)
Definition collect_by_name (ps : list P) : gmap string P :=
  foldl (λ m p, <[partition_name p := p]> m) ∅ ps.

Definition read_partitions d : eff W E (gmap string P) :=
  ps ← map_err GPTRead (gpt_open_read_only (file_path d));
  mret (collect_by_name ps).

Definition get_image_partition (partitions : gmap string P) : result P E :=
  ok_or (partitions !! IMAGE_PARTITION) ImagePartitionNotFound.
Definition get_data_partition (partitions : gmap string P) : result P E :=
  ok_or (partitions !! DATA_PARTITION) DataPartitionNotFound.

Definition ensure_partitions_correctness d : eff W E unit :=
  partitions ← read_partitions d;
  image_partition ← try_r (get_image_partition partitions);
  data_partition ← try_r (get_data_partition partitions);
  image_len ← try_r (map_err_r GetPartitionSize (bytes_len image_partition LBA_SIZE));
  if bool_decide (image_len ≠ image_part_bytes_size d) then throw ImagePartitionSizeIncorrect
  else
    data_len ← try_r (map_err_r GetPartitionSize (bytes_len data_partition LBA_SIZE));
    if bool_decide (data_len ≠ data_part_bytes_size d) then throw DataPartitionSizeIncorrect
    else mret tt.

Definition create_disk_device d : eff W IoError Fd :=
  file ← file_create_truncate (file_path d);
  file_seek file (calculate_total_size d - 1);;
  file_write_all file [0%Z];;
  file_seek file 0;;
  mret file.

Definition write_mbr d (file : Fd) : eff W E unit :=
  map_err PartitionMetadataWrite (mbr_overwrite_lba0 file (mbr_sectors d)).

Definition create_partition (name : string) (partition_size_bytes : Z) : eff (G * W) E unit :=
  map_err PartitionCreation (gpt_add_partition name partition_size_bytes).

(** Run the operations on an opened GPT and drop it. *)
Definition with_gpt {A} (gpt : G) (c : eff (G * W) E A) : eff W E A := λ w,
  let '(r, (_, w')) := c (gpt, w) in (r, w').

Definition create_gpt_and_partitions d (file : Fd) : eff W E unit :=
  write_mbr d file;;
  gpt ← map_err GPTConfiguration (gpt_create_from_device file LBA_SIZE);
  with_gpt gpt (
    map_err GPTUpdate (gpt_update_partitions []);;
    create_partition IMAGE_PARTITION (image_part_bytes_size d);;
    create_partition DATA_PARTITION (data_part_bytes_size d);;
    map_err GPTSave gpt_write).

Definition sync_file (file : Fd) : eff W E unit :=
  map_err (λ e, PartitionCreation (io_text e)) (file_sync_all file);;
  map_err (λ e, FileShutdown (io_text e)) (file_shutdown file).

Definition create_application_disk d : eff W E unit :=
  file ← map_err (λ e, DiskCreation (io_text e)) (create_disk_device d);
  create_gpt_and_partitions d file;;
  sync_file file;;
  ensure_partitions_correctness d.

Definition set_sizes (image data : Z) d : ApplicationDiskManager :=
  mkApplicationDiskManager (file_path d) image data.

Definition update_partitions_if_sizes_differ (new_data_part_size_mb new_image_part_size_mb : Z)
    : eff (ApplicationDiskManager * W) E unit :=
  with_state (λ s, zoom snd_lens (ensure_partitions_correctness s.1));;
  new_image ← try_r (validate_and_convert_to_bytes new_image_part_size_mb);
  new_data ← try_r (validate_and_convert_to_bytes new_data_part_size_mb);
  differ ← gets (λ s : ApplicationDiskManager * W,
    bool_decide (new_image ≠ image_part_bytes_size s.1 ∨ new_data ≠ data_part_bytes_size s.1));
  if differ : bool then
    modify (λ s, (set_sizes new_image new_data s.1, s.2));;
    with_state (λ s, zoom snd_lens (create_application_disk s.1))
  else mret tt.

(** ** The trait [ApplicationDisk] *)

Definition disk_err (e : E) : ApplicationError :=
  DiskOpertaion (ApplicationDiskManagerError_to_string e).

Definition create_disk_with_partitions d : eff W ApplicationError unit :=
  checked ← attempt (ensure_partitions_correctness d);
  if is_err checked then map_err disk_err (create_application_disk d) else mret tt.

Definition update_disk_with_partitions (new_data_part_size_mb new_image_part_size_mb : Z)
    : eff (ApplicationDiskManager * W) ApplicationError unit :=
  map_err disk_err
    (update_partitions_if_sizes_differ new_data_part_size_mb new_image_part_size_mb).

Definition get_data_partition_uuid d : eff W ApplicationError Uuid :=
  partitions ← map_err disk_err (read_partitions d);
  p ← try_r (map_err_r disk_err (get_data_partition partitions));
  mret (part_guid p).

Definition get_image_partition_uuid d : eff W ApplicationError Uuid :=
  partitions ← map_err disk_err (read_partitions d);
  p ← try_r (map_err_r disk_err (get_image_partition partitions));
  mret (part_guid p).

#[global] Instance ApplicationDiskManager_disk : ApplicationDisk W ApplicationDiskManager := {
  disk_create_with_partitions := create_disk_with_partitions;
  disk_update_with_partitions := update_disk_with_partitions;
  disk_get_data_partition_uuid := get_data_partition_uuid;
  disk_get_image_partition_uuid := get_image_partition_uuid }.

(** ** Reading the partition table *)

Section laws.
Context `{!DiskApiLaws W P G Fd}.

(** The table on disk holds both partitions, with the sizes of [d]. *)
Definition disk_correct d (w : W) (img dat : P) : Prop :=
  ∃ ps, (gpt_open_read_only (file_path d) w).1 = Ok ps ∧
    collect_by_name ps !! IMAGE_PARTITION = Some img ∧
    collect_by_name ps !! DATA_PARTITION = Some dat ∧
    bytes_len img LBA_SIZE = Ok (image_part_bytes_size d) ∧
    bytes_len dat LBA_SIZE = Ok (data_part_bytes_size d).

Lemma read_partitions_pure d w : (read_partitions d w).2 = w.
Proof.
  unfold read_partitions, mbind, eff_bind, map_err.
  pose proof (gpt_open_pure (file_path d) w) as Hp.
  by destruct (gpt_open_read_only (file_path d) w) as [[] ?].
Qed.

Lemma read_partitions_eq d w ps :
  (gpt_open_read_only (file_path d) w).1 = Ok ps →
  read_partitions d w = (Ok (collect_by_name ps), w).
Proof.
  pose proof (gpt_open_pure (file_path d) w) as Hp.
  unfold read_partitions, mbind, eff_bind, map_err.
  destruct (gpt_open_read_only (file_path d) w) as [r w1]. simpl in *. by intros ->; subst.
Qed.

Lemma ensure_pure d w r w' : ensure_partitions_correctness d w = (r, w') → w' = w.
Proof.
  assert (steps eq (read_partitions d)) as Hr
    by (intros w0; by rewrite read_partitions_pure).
  assert (steps eq (ensure_partitions_correctness d)) as He
    by (unfold ensure_partitions_correctness; eff_auto).
  intros Hrun. by apply (steps_run _ _ _ _ _ He) in Hrun.
Qed.

Lemma ensure_ok d w :
  ensure_partitions_correctness d w = (Ok tt, w) ↔ ∃ img dat, disk_correct d w img dat.
Proof.
  unfold ensure_partitions_correctness. split.
  - intros Hrun. apply bind_ok_inv in Hrun as (m&w1&H1&Hrun).
    unfold read_partitions in H1. apply bind_ok_inv in H1 as (ps&w2&H2&H1).
    apply map_err_ok in H2. run_inv.
    unfold get_image_partition, get_data_partition, ok_or in *.
    repeat case_match; simplify_eq.
    repeat (case_bool_decide || run_inv_step); simplify_eq.
    unfold map_err_r in *. repeat case_match; simplify_eq/=.
    exists x, x1, ps. by rewrite H2.
  - intros (img&dat&ps&Hps&Himg&Hdat&Hil&Hdl).
    rewrite (bind_ok _ _ _ _ _ (read_partitions_eq _ _ _ Hps)).
    unfold get_image_partition, get_data_partition. rewrite Himg, Hdat. simpl.
    do 2 (erewrite bind_ok by reflexivity). rewrite Hil. simpl.
    erewrite bind_ok by reflexivity. case_bool_decide; [done|]. rewrite Hdl. simpl.
    erewrite bind_ok by reflexivity. by case_bool_decide.
Qed.

Lemma disk_correct_uuids d w img dat :
  disk_correct d w img dat →
  get_image_partition_uuid d w = (Ok (part_guid img), w) ∧
  get_data_partition_uuid d w = (Ok (part_guid dat), w).
Proof.
  intros (ps&Hps&Himg&Hdat&_).
  unfold get_image_partition_uuid, get_data_partition_uuid.
  rewrite !(bind_ok _ _ _ (collect_by_name ps) w)
    by by apply map_err_ok, read_partitions_eq.
  unfold get_image_partition, get_data_partition. by rewrite Himg, Hdat.
Qed.

(** Creating the disk ends with a check, so success means a correct table. *)
Lemma create_application_disk_ok d w w' :
  create_application_disk d w = (Ok tt, w') →
  ensure_partitions_correctness d w' = (Ok tt, w').
Proof.
  unfold create_application_disk. intros Hrun.
  apply bind_ok_inv in Hrun as (fd&w1&_&Hrun).
  apply bind_ok_inv in Hrun as ([]&w2&_&Hrun).
  apply bind_ok_inv in Hrun as ([]&w3&_&Hrun).
  pose proof (ensure_pure _ _ _ _ Hrun). by subst.
Qed.

Lemma create_disk_ok d w w' :
  create_disk_with_partitions d w = (Ok tt, w') →
  ensure_partitions_correctness d w' = (Ok tt, w').
Proof.
  unfold create_disk_with_partitions, attempt. intros Hrun.
  apply bind_ok_inv in Hrun as (checked&w1&H1&Hrun).
  destruct (ensure_partitions_correctness d w) as [r w2] eqn:Hens. simplify_eq.
  pose proof (ensure_pure _ _ _ _ Hens). subst w1. destruct checked as [[]|e]; simpl in *.
  - run_inv. done.
  - apply map_err_ok in Hrun. by apply create_application_disk_ok in Hrun.
Qed.

Lemma create_disk_correct_noop d w :
  ensure_partitions_correctness d w = (Ok tt, w) →
  create_disk_with_partitions d w = (Ok tt, w).
Proof.
  intros Hens. unfold create_disk_with_partitions.
  by rewrite (bind_ok _ _ _ _ _ (attempt_run _ _ _ _ Hens)).
Qed.

Lemma update_run nd ni d w r s' :
  update_partitions_if_sizes_differ nd ni (d, w) = (r, s') →
  (∃ e, r = Err e ∧ s' = (d, w)) ∨
  ensure_partitions_correctness d w = (Ok tt, w) ∧ ∃ bi bd,
    validate_and_convert_to_bytes ni = Ok bi ∧
    validate_and_convert_to_bytes nd = Ok bd ∧
    (bi = image_part_bytes_size d ∧ bd = data_part_bytes_size d ∧ r = Ok tt ∧ s' = (d, w) ∨
     (bi ≠ image_part_bytes_size d ∨ bd ≠ data_part_bytes_size d) ∧
     s'.1 = set_sizes bi bd d ∧
     create_application_disk (set_sizes bi bd d) w = (r, s'.2)).
Proof.
  unfold update_partitions_if_sizes_differ. intros Hrun.
  run_split Hrun as [] s1 H1.
  { unfold with_state in Hrun. apply zoom_inv in Hrun as (w1&Hens&->). simpl in *.
    apply ensure_pure in Hens as ->. left; eauto. }
  unfold with_state in H1. apply zoom_inv in H1 as (w1&Hens&->). simpl in *.
  pose proof (ensure_pure _ _ _ _ Hens). subst w1.
  run_split Hrun as bi s2 H2; [unfold try_r in *; simplify_eq; left; eauto|].
  unfold try_r in H2. simplify_eq.
  run_split Hrun as bd s2 H3; [unfold try_r in *; simplify_eq; left; eauto|].
  unfold try_r in H3. simplify_eq. run_gets Hrun. right. split; [done|].
  exists bi, bd. rewrite H, H0. do 2 (split; [done|]).
  case_bool_decide as Hd.
  - right. split; [done|]. run_gets Hrun. unfold with_state in Hrun.
    apply zoom_inv in Hrun as (w1&Hc&->). done.
  - left. unfold mret, eff_ret in Hrun. simplify_eq. split_and!; try done; apply dec_stable; tauto.
Qed.

(** ** Properties of the application's disk *)

(** After [create_disk_with_partitions] succeeds, whether the disk was
    already there or had to be created, both partitions exist with exactly the
    configured sizes and their identifiers can be read. *)
Theorem created_disk_is_usable d w w' :
  create_disk_with_partitions d w = (Ok tt, w') →
  ∃ img dat,
    bytes_len img LBA_SIZE = Ok (image_part_bytes_size d) ∧
    bytes_len dat LBA_SIZE = Ok (data_part_bytes_size d) ∧
    get_image_partition_uuid d w' = (Ok (part_guid img), w') ∧
    get_data_partition_uuid d w' = (Ok (part_guid dat), w').
Proof.
  intros (img&dat&Hc)%create_disk_ok%ensure_ok.
  pose proof (disk_correct_uuids _ _ _ _ Hc) as [].
  destruct Hc as (?&?&?&?&?&?). by exists img, dat.
Qed.

(** [create_disk_with_partitions] is idempotent and never rewrites a
    correct disk: run again (for example when the daemon restarts and loads
    its applications) it changes nothing, so the data on the partitions
    survives. *)
Theorem create_disk_idempotent d w w' :
  create_disk_with_partitions d w = (Ok tt, w') →
  create_disk_with_partitions d w' = (Ok tt, w').
Proof. intros ?%create_disk_ok. by apply create_disk_correct_noop. Qed.

(** [update_disk_with_partitions] on success leaves a correct disk of
    the requested sizes, and does not touch the disk when the sizes are the
    current ones. *)
Theorem updated_disk_has_new_sizes nd ni d w d' w' :
  update_disk_with_partitions nd ni (d, w) = (Ok tt, (d', w')) →
  validate_and_convert_to_bytes ni = Ok (image_part_bytes_size d') ∧
  validate_and_convert_to_bytes nd = Ok (data_part_bytes_size d') ∧
  file_path d' = file_path d ∧
  ensure_partitions_correctness d' w' = (Ok tt, w') ∧
  (image_part_bytes_size d' = image_part_bytes_size d →
   data_part_bytes_size d' = data_part_bytes_size d → w' = w).
Proof.
  intros Hrun%map_err_ok%update_run.
  destruct Hrun as [(?&?&?)|(Hens&bi&bd&Hi&Hd&[(->&->&_&?)|(Hne&Hd'&Hc)])];
    simplify_eq/=; [by rewrite Hi, Hd|].
  rewrite Hi, Hd. apply create_application_disk_ok in Hc. split_and!; try done. naive_solver.
Qed.

(** A failing [update_disk_with_partitions] either changed nothing, or
    the re-creation of the disk itself failed after the new sizes had been
    recorded in memory. *)
Theorem failed_update_keeps_disk nd ni d w e d' w' :
  update_disk_with_partitions nd ni (d, w) = (Err e, (d', w')) →
  d' = d ∧ w' = w ∨
  ∃ e', create_application_disk d' w = (Err e', w') ∧ e = disk_err e' ∧
    validate_and_convert_to_bytes ni = Ok (image_part_bytes_size d') ∧
    validate_and_convert_to_bytes nd = Ok (data_part_bytes_size d').
Proof.
  intros (e'&->&Hrun%update_run)%map_err_err.
  destruct Hrun as [(?&?&?)|(_&bi&bd&Hi&Hd&[(_&_&?&_)|(_&Hd'&Hc)])]; simplify_eq/=;
    [by left|]. right. exists e'. by rewrite Hi, Hd.
Qed.

End laws.
End disk.

(** C21.  Arithmetic: a disk manager that was created has partitions of at
    least one and at most 100 * 1024 mebibytes, in whole sectors; the total
    size never overflows 64 bits, the sector count in the protective MBR is
    not truncated by its conversion to 32 bits, and both partitions fit
    between the two copies of the partition table. *)
Theorem disk_sizes_in_bounds wd i d m :
  is_u32 i → is_u32 d → new wd i d = Ok m →
  (2 ^ 20 ≤ image_part_bytes_size m ≤ 100 * 2 ^ 30)%Z ∧
  (2 ^ 20 ≤ data_part_bytes_size m ≤ 100 * 2 ^ 30)%Z ∧
  is_u64 (calculate_total_size m) ∧
  (calculate_total_size m mod LBA_SIZE = 0)%Z ∧
  mbr_sectors m = (calculate_total_size m / LBA_SIZE - 1)%Z ∧
  (34 + image_part_bytes_size m / LBA_SIZE + data_part_bytes_size m / LBA_SIZE + 33
   ≤ calculate_total_size m / LBA_SIZE)%Z.
Proof.
  unfold new, validate_and_convert_to_bytes, and_then, is_u32, is_u64, u32_max, u64_max,
    mbr_sectors, as_u32, calculate_total_size, LBA_SIZE, PRIMARY_GPT_LBA_SECTORS,
    BACKUP_GPT_LBA_SECTORS, MAX_PARTITION_SIZE_MB.
  intros Hi Hd Hnew. repeat case_bool_decide; simplify_eq/=.
  replace (d * 1024 * 1024 + i * 1024 * 1024 + (34 + 34) * 512)%Z
    with ((d * 2048 + i * 2048 + 68) * 512)%Z by lia.
  replace (d * 1024 * 1024)%Z with (d * 2048 * 512)%Z by lia.
  replace (i * 1024 * 1024)%Z with (i * 2048 * 512)%Z by lia.
  rewrite !Z.div_mul, Z.mod_mul, Z.mod_small by lia. lia.
Qed.
