(* ===== verification/ApplicationManager.v ===== *)
(** * The application manager

    [warden_daemon/src/managers/application_manager.rs]: one application of a
    realm, with its persisted configuration and its disk.  The realm client it
    shares with the realm is part of the state its methods run on. *)

From S2P Require Import Prelude Managers Traits ApplicationDisk.

Record ApplicationManager (R D : Type) := mkApplicationManager {
  am_uuid : Uuid;
  am_config : R;
  am_application_disk : D }.
Arguments mkApplicationManager {R D} _ _ _.
Arguments am_uuid {R D} _.
Arguments am_config {R D} _.
Arguments am_application_disk {R D} _.

Section application_manager.
Context {W C R D : Type}.
Context `{!Repository W R ApplicationConfig, !ApplicationDisk W D, !RealmClient W C}.

Abbreviation AM := (ApplicationManager R D).

Definition set_config (r : R) (m : AM) : AM :=
  mkApplicationManager (am_uuid m) r (am_application_disk m).
Definition set_disk (d : D) (m : AM) : AM :=
  mkApplicationManager (am_uuid m) (am_config m) d.

(** Lenses from (application, (client, world)). *)
Definition am_client : lens (AM * (C * W)) (C * W) := snd_lens.
Definition am_disk : lens (AM * (C * W)) (D * W) :=
  Lens (λ s, (am_application_disk s.1, s.2.2)) (λ t s, (set_disk t.1 s.1, (s.2.1, t.2))).
Definition am_repo : lens (AM * (C * W)) (R * W) :=
  Lens (λ s, (am_config s.1, s.2.2)) (λ t s, (set_config t.1 s.1, (s.2.1, t.2))).

(** [ApplicationManager::new]: creates the disk first. *)
Definition new (uuid : Uuid) (config : R) (application_disk : D) : eff W ApplicationError AM :=
  disk_create_with_partitions application_disk;;
  mret (mkApplicationManager uuid config application_disk).

Definition stop : eff (AM * (C * W)) ApplicationError unit :=
  uuid ← gets (λ s : AM * (C * W), am_uuid s.1);
  map_err (λ e, ApplicationStop (RealmClientError_to_string e))
    (zoom am_client (stop_application uuid));;
  mret tt.

Definition start : eff (AM * (C * W)) ApplicationError unit :=
  uuid ← gets (λ s : AM * (C * W), am_uuid s.1);
  map_err (λ e, ApplicationStart (RealmClientError_to_string e))
    (zoom am_client (start_application uuid));;
  mret tt.

Definition get_data (m : AM) : eff W ApplicationError ApplicationData :=
  let config := repo_get (am_config m) in
  image_part_uuid ← disk_get_image_partition_uuid (am_application_disk m);
  data_part_uuid ← disk_get_data_partition_uuid (am_application_disk m);
  mret (mkApplicationData (am_uuid m) (name config) (version config)
          (image_registry config) image_part_uuid data_part_uuid).

Definition configure_disk : eff (AM * (C * W)) ApplicationError unit :=
  config ← gets (λ s : AM * (C * W), repo_get (am_config s.1));
  zoom am_disk (disk_update_with_partitions (data_storage_size_mb config)
                  (image_storage_size_mb config)).

Definition update_config (config : ApplicationConfig) : eff (AM * (C * W)) ApplicationError unit :=
  modify (λ s : AM * (C * W), (set_config (repo_set config (am_config s.1)) s.1, s.2));;
  map_err (λ e, ConfigUpdate (RepositoryError_to_string e)) (zoom am_repo repo_save).

#[global] Instance ApplicationManager_application : Application W C AM := {
  app_stop := stop;
  app_start := start;
  app_update_config := update_config;
  app_configure_disk := configure_disk;
  app_get_data := get_data }.

End application_manager.

(** ** With the disk manager *)

Section with_disk.
Context {W C R P G Fd : Type}.
Context `{!Repository W R ApplicationConfig, !RealmClient W C}.
Context `{!DiskApi W P G Fd, !DiskApiLaws W P G Fd}.

Abbreviation AMD := (ApplicationManager R ApplicationDiskManager).

(** C19.  The sizes travel unmixed through [configure_disk]: after it
    succeeds the disk manager holds the sizes of the current configuration,
    the data size as data and the image size as image, the partitions on disk
    have these sizes, and the application can report its provisioning data,
    with the configured name, version and registry. *)
Theorem configure_disk_provisions (m : AMD) (c : C) (w : W) m' c' w' :
  configure_disk (m, (c, w)) = (Ok tt, (m', (c', w'))) →
  let config := repo_get (am_config m) in
  c' = c ∧ am_uuid m' = am_uuid m ∧ am_config m' = am_config m ∧
  validate_and_convert_to_bytes (image_storage_size_mb config) =
    Ok (image_part_bytes_size (am_application_disk m')) ∧
  validate_and_convert_to_bytes (data_storage_size_mb config) =
    Ok (data_part_bytes_size (am_application_disk m')) ∧
  ∃ img dat,
    bytes_len img LBA_SIZE = Ok (image_part_bytes_size (am_application_disk m')) ∧
    bytes_len dat LBA_SIZE = Ok (data_part_bytes_size (am_application_disk m')) ∧
    get_data m' w' = (Ok (mkApplicationData (am_uuid m) (name config) (version config)
      (image_registry config) (part_guid img) (part_guid dat)), w').
Proof.
  unfold configure_disk. intros Hrun. run_gets Hrun.
  apply zoom_inv in Hrun as ([d1 w1]&Hupd&Heq). simplify_eq/=.
  apply map_err_ok in Hupd. apply update_run in Hupd.
  assert (∃ bi bd, validate_and_convert_to_bytes
     (image_storage_size_mb (repo_get (am_config m))) = Ok bi ∧
     validate_and_convert_to_bytes (data_storage_size_mb (repo_get (am_config m))) = Ok bd ∧
     image_part_bytes_size d1 = bi ∧ data_part_bytes_size d1 = bd ∧
     ensure_partitions_correctness d1 w1 = (Ok tt, w1)) as (bi&bd&Hi&Hd&<-&<-&Hens).
  { destruct Hupd as [(?&?&?)|(Hens&bi&bd&Hi&Hd&[(->&->&_&?)|(_&Hd'&Hc)])];
      simplify_eq/=; eexists _, _; split_and!; try done.
    by apply create_application_disk_ok in Hc. }
  do 5 (split; [done|]).
  apply ensure_ok in Hens as (img&dat&Hc).
  pose proof (disk_correct_uuids _ _ _ _ Hc) as [Hiu Hdu].
  destruct Hc as (?&?&?&?&?&?). exists img, dat. do 2 (split; [done|]).
  unfold get_data. simpl.
  by rewrite (bind_ok _ _ _ _ _ Hiu), (bind_ok _ _ _ _ _ Hdu).
Qed.

End with_disk.
