(* ===== verification/VmRunner.v ===== *)
(** * Running the realm's virtual machine

    [warden_daemon/src/virtualization/vm_runner.rs] with [vm_runner/qemu.rs],
    [vm_runner/lkvm.rs], [vm_runner/command_runner.rs] and
    [vm_runner/vm_handler.rs]: the command lines of the two virtual machine
    monitors, and the runner that starts and stops the process. *)

From S2P Require Import Prelude Managers Traits ApplicationDisk.

(** [std::process::Command]: the program and its arguments. *)
Record Command := mkCommand { program : string; args : list string }.
Definition arg (a : string) (c : Command) : Command := mkCommand (program c) (args c ++ [a]).
Definition add_args (l : list string) (c : Command) : Command :=
  mkCommand (program c) (args c ++ l).

(** ** lkvm.rs *)

Module Lkvm.

Definition setup_cpu (config : CpuConfig) : Command → Command :=
  arg (pretty (cores_number config)) ∘ arg "-c".

Definition dquote : string := String "034"%char "".

Definition setup_kernel (config : KernelConfig) (c : Command) : Command :=
  let c := arg (kernel_path config) (arg "-k" c) in
  let c := match kernel_initramfs_path config with
           | Some initramfs_path => arg initramfs_path (arg "-i" c)
           | None => c
           end in
  match kernel_cmd_params config with
  | Some params => arg (dquote +:+ params +:+ dquote) (arg "-p" c)
  | None => c
  end.

Definition setup_memory (config : MemoryConfig) : Command → Command :=
  arg (pretty (ram_size config)) ∘ arg "-m".

Definition setup_network (config : NetworkConfig) : Command → Command :=
  arg (pretty (vsock_cid config)) ∘ arg "--vsock" ∘
  arg ("tapif=" +:+ tap_device config +:+ ",guest_mac=" +:+ mac_address config) ∘ arg "-n".

Definition control_output : Command → Command := arg "serial" ∘ arg "--console".

Definition configure_optional_lkvm_args : Command → Command :=
  arg "--disable-sve" ∘ arg "--irqchip=gicv3".

Definition configure_metadata (m : option PathBuf) (c : Command) : Command :=
  match m with Some path => arg path (arg "--metadata" c) | None => c end.

Definition configure_cca_settings : Command → Command :=
  arg "--measurement-algo=sha256" ∘ arg "--restricted_mem" ∘ arg "--realm" ∘ arg "--debug".

Definition new (path_to_runner : PathBuf) (config : RealmConfig) : Command :=
  configure_metadata (metadata config) (configure_optional_lkvm_args (control_output
    (setup_network (network_config config) (setup_memory (memory_config config)
      (setup_kernel (kernel_config config) (setup_cpu (cpu_config config)
        (arg "run" (mkCommand path_to_runner [])))))))).

Definition setup_disk (app_disk_path : PathBuf) : Command → Command :=
  arg app_disk_path ∘ arg "-d".

End Lkvm.

(** ** qemu.rs *)

Module Qemu.

Definition setup_cpu (config : CpuConfig) : Command → Command :=
  arg (cpu config) ∘ arg "-cpu" ∘ arg (pretty (cores_number config)) ∘ arg "-smp".

Definition setup_kernel (config : KernelConfig) : Command → Command :=
  arg (kernel_path config) ∘ arg "-kernel".

Definition setup_memory (config : MemoryConfig) : Command → Command :=
  arg (pretty (ram_size config)) ∘ arg "-m".

Definition setup_machine (name : string) : Command → Command := arg name ∘ arg "-machine".

Definition setup_network (config : NetworkConfig) (c : Command) : Command :=
  let c := arg ("tap,id=mynet0,ifname=" +:+ tap_device config +:+ ",script=no,downscript=no")
             (arg "-netdev" c) in
  let c := arg (default "e1000" (hardware_device config) +:+
                ",netdev=mynet0,mac=" +:+ mac_address config) (arg "-device" c) in
  let c := arg ("vhost-vsock-pci,id=vhost-vsock-pci0,guest-cid=" +:+ pretty (vsock_cid config))
             (arg "-device" c) in
  match remote_terminal_uri config with
  | Some terminal_uri => arg terminal_uri (arg "-serial" c)
  | None => c
  end.

Definition control_output : Command → Command :=
  arg "console=ttyAMA0" ∘ arg "-append" ∘ arg "-nographic".

Definition new (path_to_qemu : PathBuf) (config : RealmConfig) : Command :=
  control_output (setup_network (network_config config) (setup_machine (machine config)
    (setup_memory (memory_config config) (setup_kernel (kernel_config config)
      (setup_cpu (cpu_config config) (mkCommand path_to_qemu [])))))).

Definition setup_disk (app_disk_path : PathBuf) : Command → Command :=
  arg ("file=" +:+ app_disk_path) ∘ arg "-drive".

End Qemu.

(** ** command_runner.rs: the trait [CommandRunner] and its two implementors *)

Class CommandRunner (T : Type) := {
  get_command : T → Command;
  setup_disk : T → PathBuf → Command → Command }.

Inductive Runner := LkvmRunner (command : Command) | QemuRunner (command : Command).

#[global] Instance Runner_command_runner : CommandRunner Runner := {
  get_command r := match r with LkvmRunner c | QemuRunner c => c end;
  setup_disk r := match r with LkvmRunner _ => Lkvm.setup_disk | QemuRunner _ => Qemu.setup_disk end }.

(** ** vm_handler.rs *)

Inductive VmHandlerError :=
| Spawn (e : IoError)
| HLaunch (status : ExitStatus)
| Kill (e : IoError)
| Wait (e : IoError)
| Read (e : IoError)
| StdOutTake (uuid : Uuid)
| StdErrTake (uuid : Uuid).

(** Processes and tasks are [tokio]'s: [Child] and the log task's handle [H]. *)
Class ProcessApi (W Child Pipe H : Type) := {
  process_spawn : Command → eff W IoError Child;
  child_try_wait : eff (Child * W) IoError (option ExitStatus);
  child_kill : eff (Child * W) IoError unit;
  child_wait : eff (Child * W) IoError ExitStatus;
  child_take_stdout : Child → option Pipe * Child;
  child_take_stderr : Child → option Pipe * Child;
  spawn_log_thread : Pipe → Pipe → Uuid → W → H * W;
  log_thread_abort : H → W → W }.

Record VmHandler (Child H : Type) := mkVmHandler {
  vm_process : Child;
  communication_thread_handle : H }.
Arguments mkVmHandler {Child H} _ _.
Arguments vm_process {Child H} _.
Arguments communication_thread_handle {Child H} _.

Section vm.
Context {W T Child Pipe H : Type}.
Context `{!UuidApi, !ExitStatusFmt, !CommandRunner T, !ProcessApi W Child Pipe H}.

Definition VmHandlerError_to_string (e : VmHandlerError) : string :=
  match e with
  | Spawn e => "Unable to spawn Vm: " +:+ io_text e
  | HLaunch st => "Unable to launch Vm: " +:+ exit_status_to_string st
  | Kill e => "Unable to kill Vm: " +:+ io_text e
  | Wait e => "Unable to get realm's exit code: " +:+ io_text e
  | Read e => "Unable to read realm's output: " +:+ io_text e
  | StdOutTake u => "Unable to take stdout from realm: " +:+ uuid_to_string u
  | StdErrTake u => "Unable to take stderr from realm: " +:+ uuid_to_string u
  end.

(** Run a method of a local [Child]; the changed child is handed on. *)
Definition on_child {E A} (child : Child) (c : eff (Child * W) E A) : eff W E (Child * A) := λ w,
  let '(r, (child', w')) := c (child, w) in
  (match r with Ok a => Ok (child', a) | Err e => Err e end, w').

Definition spawn_vm_process (command : Command)
    : eff W VmHandlerError (Child * option ExitStatus) :=
  vm_process ← map_err Spawn (process_spawn command);
  map_err Wait (on_child vm_process child_try_wait).

(** [tokio::spawn] of the log task: it cannot fail. *)
Definition start_log_thread (std_out std_err : Pipe) (uuid : Uuid) : eff W VmHandlerError H :=
  λ w, let '(h, w') := spawn_log_thread std_out std_err uuid w in (Ok h, w').

Definition create_output_readers (vm_process : Child) (vm_id : Uuid)
    : result (Pipe * Pipe * Child) VmHandlerError :=
  let '(out, vm_process) := child_take_stdout vm_process in
  and_then (ok_or out (StdOutTake vm_id)) (λ std_out,
  let '(err, vm_process) := child_take_stderr vm_process in
  and_then (ok_or err (StdErrTake vm_id)) (λ std_err,
  Ok (std_out, std_err, vm_process))).

(** [VmHandler::prepare_command]; the standard streams are part of [process_spawn]. *)
Definition prepare_command (program : string) (args : list string) : Command :=
  add_args args (mkCommand program []).

(** [VmHandler::new]. *)
Definition VmHandler_new (command : Command) (vm_id : Uuid)
    : eff W VmHandlerError (VmHandler Child H) :=
  let command := prepare_command (program command) (args command) in
  spawned ← spawn_vm_process command;
  readers ← try_r (create_output_readers spawned.1 vm_id);
  match spawned.2 with
  | Some exit_status => throw (HLaunch exit_status)
  | None =>
      h ← start_log_thread readers.1.1 readers.1.2 vm_id;
      mret (mkVmHandler readers.2 h)
  end.

Definition child_lens : lens (VmHandler Child H * W) (Child * W) :=
  field_lens vm_process (λ c h, mkVmHandler c (communication_thread_handle h)).

(** [VmHandler::shutdown]. *)
Definition VmHandler_shutdown : eff (VmHandler Child H * W) VmHandlerError unit :=
  modify (λ s, (s.1, log_thread_abort (communication_thread_handle s.1) s.2));;
  map_err Kill (zoom child_lens child_kill);;
  map_err Wait (zoom child_lens child_wait);;
  mret tt.

Definition try_get_exit_status : eff (VmHandler Child H * W) IoError (option ExitStatus) :=
  zoom child_lens child_try_wait.

(** ** vm_runner.rs *)

Record VmRunner := mkVmRunner {
  cmd_runner : T;
  realm_id : Uuid;
  realm_workdir : PathBuf;
  vm : option (VmHandler Child H) }.

Definition new (runner : T) (id : Uuid) (workdir : PathBuf) : VmRunner :=
  mkVmRunner runner id workdir None.

Definition set_vm (v : option (VmHandler Child H)) (r : VmRunner) : VmRunner :=
  mkVmRunner (cmd_runner r) (realm_id r) (realm_workdir r) v.

Definition app_disk_path (r : VmRunner) (app_uuid : Uuid) : PathBuf :=
  path_push (path_push (realm_workdir r) (uuid_to_string app_uuid)) DISK_NAME.

Definition prepare_run_command (r : VmRunner) (application_uuids : list Uuid) : Command :=
  let base := get_command (cmd_runner r) in
  foldl (λ command app_uuid, setup_disk (cmd_runner r) (app_disk_path r app_uuid) command)
    (add_args (args base) (mkCommand (program base) [])) application_uuids.

(** Run a method of the VM handler held by the runner. *)
Definition on_handler {E A} (h : VmHandler Child H) (c : eff (VmHandler Child H * W) E A)
    : eff (VmRunner * W) E A := λ s,
  let '(r, (h', w')) := c (h, s.2) in (r, (set_vm (Some h') s.1, w')).

Definition get_handler : eff (VmRunner * W) VmManagerError (VmHandler Child H) :=
  with_state (λ s, try_r (ok_or (vm s.1) VmNotLaunched)).

Definition launch_vm (application_uuids : list Uuid) : eff (VmRunner * W) VmManagerError unit :=
  command ← gets (λ s : VmRunner * W, prepare_run_command s.1 application_uuids);
  running ← gets (λ s : VmRunner * W, bool_decide (is_Some (vm s.1)));
  if running : bool then throw VmAlreadyLaunched
  else
    id ← gets (λ s : VmRunner * W, realm_id s.1);
    vm_handler ← map_err (λ e, Launch (VmHandlerError_to_string e))
                   (zoom snd_lens (VmHandler_new command id));
    modify (λ s : VmRunner * W, (set_vm (Some vm_handler) s.1, s.2)).

Definition shutdown : eff (VmRunner * W) VmManagerError unit :=
  h ← get_handler;
  map_err (λ e, VmShutdown (VmHandlerError_to_string e)) (on_handler h VmHandler_shutdown);;
  modify (λ s : VmRunner * W, (set_vm None s.1, s.2)).

Definition handle_get_status (h : VmHandler Child H) : eff (VmRunner * W) VmManagerError VmStatus :=
  exit_code ← map_err (λ e, GetExitCode (io_text e)) (on_handler h try_get_exit_status);
  mret (match exit_code with Some code => Exited code | None => Launched end).

Definition get_status : eff (VmRunner * W) VmManagerError VmStatus :=
  with_state (λ s, match vm s.1 with
                   | Some vm_handler => handle_get_status vm_handler
                   | None => mret NotLaunched
                   end).

#[global] Instance VmRunner_vm_manager : VmManager W VmRunner := {
  Traits.launch_vm := launch_vm;
  vm_shutdown := shutdown;
  Traits.get_status := get_status }.

(** ** The runner implements [VmManager] *)

Definition launched (r : VmRunner) : bool := bool_decide (is_Some (vm r)).

Lemma launch_vm_run us r w res r' w' :
  launch_vm us (r, w) = (res, (r', w')) →
  match res with
  | Ok _ => launched r = false ∧ launched r' = true
  | Err e => r' = r ∧ (launched r = true → e = VmAlreadyLaunched ∧ w' = w)
  end.
Proof.
  unfold launch_vm. intros Hrun. run_gets Hrun. run_gets Hrun. fold (launched r) in Hrun.
  destruct (launched r) eqn:Hl; [by run_inv|]. run_gets Hrun.
  destruct res as [[]|e]; run_inv; repeat split; by try case_match.
Qed.

Lemma shutdown_run r w res r' w' :
  shutdown (r, w) = (res, (r', w')) →
  match res with
  | Ok _ => launched r = true ∧ launched r' = false
  | Err e => launched r' = launched r ∧ (launched r = false → e = VmNotLaunched ∧ (r', w') = (r, w))
  end.
Proof.
  unfold shutdown, get_handler, launched, on_handler. intros Hrun.
  destruct (vm r) as [h|] eqn:Hvm.
  2:{ erewrite bind_err in Hrun by (unfold with_state; simpl; rewrite Hvm; reflexivity).
      run_inv. by rewrite Hvm. }
  erewrite bind_ok in Hrun by (unfold with_state; simpl; rewrite Hvm; reflexivity).
  destruct res as [[]|e]; run_inv; repeat case_match; by simplify_eq/=.
Qed.

Lemma get_status_run r w res r' w' :
  get_status (r, w) = (res, (r', w')) →
  launched r' = launched r ∧ ∀ st, res = Ok st → (st = NotLaunched ↔ launched r = false).
Proof.
  unfold get_status, handle_get_status, launched, on_handler, with_state. intros Hrun. simpl in Hrun.
  destruct (vm r) as [h|] eqn:Hvm.
  2:{ run_inv. rewrite Hvm. split; [done|]. by intros ? [= <-]. }
  destruct res as [st|e]; run_inv; repeat case_match; simplify_eq/=; split; try done;
    intros ? [= <-]; done.
Qed.

#[global] Instance VmRunner_vm_manager_laws : VmManagerLaws W VmRunner.
Proof.
  refine {| vm_launched := launched |}; simpl; intros * Hrun.
  - by apply launch_vm_run in Hrun.
  - apply launch_vm_run in Hrun as [-> _]. done.
  - destruct (launch_vm us (v, w)) as [[[]|e] [v' w']] eqn:Hl; apply launch_vm_run in Hl.
    + destruct Hl; congruence.
    + destruct Hl as [-> Hl]. by destruct (Hl Hrun) as [-> ->].
  - by apply shutdown_run in Hrun.
  - by apply shutdown_run in Hrun as [? _].
  - destruct (shutdown (v, w)) as [[[]|e] [v' w']] eqn:Hs; apply shutdown_run in Hs.
    + destruct Hs; congruence.
    + destruct Hs as [_ Hs]. destruct (Hs Hrun) as [-> [= -> ->]]. done.
  - by apply get_status_run in Hrun as [? _].
  - apply get_status_run in Hrun as [_ Hst]. by apply Hst.
Defined.

(** ** The command line *)

Lemma add_arg_args c (l : list string) : args (add_args l c) = args c ++ l.
Proof. done. Qed.

Lemma foldl_disks (r : VmRunner) (disk_args : PathBuf → list string) us c :
  (∀ p c, setup_disk (cmd_runner r) p c = add_args (disk_args p) c) →
  foldl (λ c u, setup_disk (cmd_runner r) (app_disk_path r u) c) c us =
  mkCommand (program c) (args c ++ concat (disk_args ∘ app_disk_path r <$> us)).
Proof.
  intros Hd. revert c. induction us as [|u us IH]; intros c; simpl.
  - rewrite app_nil_r. by destruct c.
  - rewrite IH, Hd. simpl. by rewrite <-app_assoc.
Qed.

End vm.
Arguments VmRunner : clear implicits.
