(* ===== verification/VmLog.v ===== *)
(** * The log of a virtual machine

    [vm_handler.rs]: the task that [VmHandler::new] spawns to copy the standard
    output and the standard error of the virtual machine to the daemon's output.
    Each turn of its loop races a [read_line] on either pipe; the loser of the
    race is dropped, together with the bytes it has taken from the pipe. *)

From S2P Require Import Prelude VmRunner.

(** ** Lines and UTF-8 *)

Definition newline : ascii := "010"%char.

(** What precedes the first line feed (with it), and what follows. *)
Fixpoint take_line (s : string) : option (string * string) :=
  match s with
  | EmptyString => None
  | String c s' =>
      if bool_decide (c = newline) then Some (String c "", s')
      else '(l, rest) ← take_line s'; Some (String c l, rest)
  end.

(** How many continuation bytes follow a leading byte, and the range the first of
    them must lie in ([core::str::from_utf8]). *)
Definition utf8_lead (b : N) : option (nat * (N * N)) :=
  if (b <? 128)%N then Some (0, (128, 191)%N)
  else if ((194 <=? b) && (b <=? 223))%N then Some (1, (128, 191)%N)
  else if (b =? 224)%N then Some (2, (160, 191)%N)
  else if (b =? 237)%N then Some (2, (128, 159)%N)
  else if ((225 <=? b) && (b <=? 239))%N then Some (2, (128, 191)%N)
  else if (b =? 240)%N then Some (3, (144, 191)%N)
  else if (b =? 244)%N then Some (3, (128, 143)%N)
  else if ((241 <=? b) && (b <=? 243))%N then Some (3, (128, 191)%N)
  else None.

(** [n] continuation bytes are due, the next of them in [range]. *)
Fixpoint utf8_go (n : nat) (range : N * N) (s : string) : bool :=
  match s, n with
  | EmptyString, O => true
  | EmptyString, S _ => false
  | String c s', O =>
      match utf8_lead (N_of_ascii c) with
      | Some (k, range') => utf8_go k range' s'
      | None => false
      end
  | String c s', S n =>
      ((range.1 <=? N_of_ascii c) && (N_of_ascii c <=? range.2))%N && utf8_go n (128, 191)%N s'
  end.
Definition is_utf8 (s : string) : bool := utf8_go 0 (128, 191)%N s.

(** ** The readers *)

(** A pipe: the bytes written and not read yet, those the pending [read_line] has
    taken, and how the pipe ends once its bytes are read: it stays open, has
    been closed, or cannot be read. *)
Record Reader := mkReader {
  available : string;
  taken : string;
  ending : option (result unit IoError) }.

Definition utf8_error : IoError := mkIoError OtherKind "stream did not contain valid UTF-8".

(** [VmHandler::read_line], once its [read_line] is complete. *)
Definition finish_line (line : string) : result string VmHandlerError :=
  if is_utf8 line then Ok line else Err (Read utf8_error).

(** One poll of [VmHandler::read_line]: its result if it is complete. *)
Definition read_line (r : Reader) : option (result string VmHandlerError) * Reader :=
  match take_line (available r) with
  | Some (l, rest) => (Some (finish_line (taken r +:+ l)), mkReader rest "" (ending r))
  | None =>
      match ending r with
      | None => (None, mkReader "" (taken r +:+ available r) None)
      | Some (Ok _) => (Some (finish_line (taken r +:+ available r)), mkReader "" "" (ending r))
      | Some (Err e) => (Some (Err (Read e)), mkReader "" "" (ending r))
      end
  end.

(** Dropping the future loses the bytes it has taken. *)
Definition drop_future (r : Reader) : Reader := mkReader (available r) "" (ending r).

(** ** The task *)

Record LogTask := mkLogTask {
  std_out : Reader;
  std_err : Reader;
  outputs : list (result string VmHandlerError) }.

(** One turn of [select!], which polls its branches in a random order and drops
    both futures when one of them is complete. *)
Definition gather_output (out_first : bool) (t : LogTask) : LogTask :=
  let poll_out := read_line (std_out t) in
  let poll_err := read_line (std_err t) in
  match out_first, poll_out, poll_err with
  | true, (Some log, out), _ => mkLogTask out (drop_future (std_err t)) (outputs t ++ [log])
  | true, (None, out), (Some log, err) => mkLogTask (drop_future out) err (outputs t ++ [log])
  | false, _, (Some log, err) => mkLogTask (drop_future (std_out t)) err (outputs t ++ [log])
  | false, (Some log, out), (None, err) => mkLogTask out (drop_future err) (outputs t ++ [log])
  | _, (None, out), (None, err) => mkLogTask out err (outputs t)
  end.

(** What happens to the task: it is polled, or the virtual machine writes to or
    closes one of the pipes. *)
Inductive LogEvent :=
| Poll (out_first : bool)
| Write (to_out : bool) (bytes : string)
| End (of_out : bool) (how : result unit IoError).

Definition write_pipe (bytes : string) (r : Reader) : Reader :=
  mkReader (available r +:+ bytes) (taken r) (ending r).
Definition end_pipe (how : result unit IoError) (r : Reader) : Reader :=
  mkReader (available r) (taken r) (Some how).

Definition log_step (e : LogEvent) (t : LogTask) : LogTask :=
  match e with
  | Poll out_first => gather_output out_first t
  | Write true bytes => mkLogTask (write_pipe bytes (std_out t)) (std_err t) (outputs t)
  | Write false bytes => mkLogTask (std_out t) (write_pipe bytes (std_err t)) (outputs t)
  | End true how => mkLogTask (end_pipe how (std_out t)) (std_err t) (outputs t)
  | End false how => mkLogTask (std_out t) (end_pipe how (std_err t)) (outputs t)
  end.
Definition log_run (es : list LogEvent) (t : LogTask) : LogTask := foldl (λ t e, log_step e t) t es.

(** [VmHandler::handle_vm_output]: the line it prints. *)
Definition handle_vm_output `{UuidApi} (uuid : Uuid) (output : result string VmHandlerError)
    : option string :=
  match output with
  | Ok message =>
      if bool_decide (message = "") then None
      else Some ("Realm: " +:+ uuid_to_string uuid +:+ ": " +:+ trim_ascii message)
  | Err _ => None
  end.

Definition idle_reader : Reader := mkReader "" "" None.
Definition new_task : LogTask := mkLogTask idle_reader idle_reader [].

(** ** One stream is logged in full *)

















(** ** Both streams *)

(** The guest's unfinished line is lost when a line of the standard error
    arrives in the middle of it. *)
Lemma partial_line_is_lost :
  let nl := String newline "" in
  omap (λ o : result string VmHandlerError, match o with Ok l => Some l | Err _ => None end)
    (outputs (log_run
      [Write true "booting "; Poll true; Write false ("warning" +:+ nl); Poll true;
       Write true ("done" +:+ nl); Poll true] new_task)) = ["warning" +:+ nl; "done" +:+ nl].
Proof. vm_compute. reflexivity. Qed.

Lemma read_line_ended r : ending r ≠ None → ∃ o r', read_line r = (Some o, r') ∧ ending r' = ending r.
Proof.
  intros Hr. unfold read_line. destruct (take_line _) as [[]|]; [by eauto|].
  destruct (ending r) as [[]|]; eauto || done.
Qed.

Lemma read_line_ending r : ending (read_line r).2 = ending r.
Proof. unfold read_line. by repeat case_match. Qed.

Definition ended (t : LogTask) : Prop := ending (std_out t) ≠ None ∨ ending (std_err t) ≠ None.

Lemma ended_turn b t :
  ended t →
  ended (gather_output b t) ∧ length (outputs (gather_output b t)) = S (length (outputs t)).
Proof.
  intros Ht. unfold gather_output, ended in *.
  pose proof (read_line_ending (std_out t)) as Ho. pose proof (read_line_ending (std_err t)) as He.
  assert (is_Some (read_line (std_out t)).1 ∨ is_Some (read_line (std_err t)).1) as Hs.
  { destruct Ht as [(o&r'&->&_)%read_line_ended|(o&r'&->&_)%read_line_ended]; simpl; eauto. }
  destruct (read_line (std_out t)) as [[o|] out], (read_line (std_err t)) as [[e|] err];
    simpl in *; try (destruct Hs as [[??]|[??]]; done);
    destruct b; simpl; rewrite ?length_app, ?Ho, ?He; simpl; (split; [done|lia]).
Qed.

(** The log task never waits again once the virtual machine has closed one
    of its pipes, as it does when it exits: every further turn of its loop
    completes at once.  When nothing is left in the pipes all these turns read
    the empty line and print nothing: until the realm is stopped, which aborts
    the task, the daemon spins on it. *)
Theorem closed_output_spins `{UuidApi} uuid bs t :
  ended t →
  length (outputs (log_run (Poll <$> bs) t)) = length (outputs t) + length bs ∧
  (std_out t = mkReader "" "" (Some (Ok tt)) → std_err t = mkReader "" "" (Some (Ok tt)) →
   omap (handle_vm_output uuid) (outputs (log_run (Poll <$> bs) t)) =
   omap (handle_vm_output uuid) (outputs t)).
Proof.
  intros Ht. split.
  - revert t Ht. induction bs as [|b bs IH]; intros t Ht; simpl; [lia|].
    destruct (ended_turn b t Ht) as [Ht' Hn]. rewrite IH by done. simpl. lia.
  - clear Ht. revert t. induction bs as [|b bs IH]; intros [out err outs] Ho He; simpl in *; [done|].
    subst. rewrite IH by by destruct b. destruct b; simpl; rewrite omap_app; simpl; by rewrite app_nil_r.
Qed.
