(* ===== verification/JsonFramed.v ===== *)
(** * Framed JSON messages

    [utils/src/serde/json_framed.rs]: the typed message stream both sockets of
    the daemon use.  The length-delimited codec and the JSON serializer are
    foreign crates; the class [Framed] is their interface. *)

From S2P Require Import Prelude.

Inductive JsonFramedError :=
| SerdeReadError (e : IoError)
| SerdeWriteError (e : IoError)
| StreamIsClosed.

Definition JsonFramedError_to_string (e : JsonFramedError) : string :=
  match e with
  | SerdeReadError _ => "Serde read error"
  | SerdeWriteError _ => "Serde write error"
  | StreamIsClosed => "Stream is closed"
  end.

(** A framed JSON transport over a byte stream [T]: [tokio_serde] and the
    length-delimited codec are foreign. *)
Class Framed (W T RecvItem SendItem : Type) := {
  frame_try_next : eff (T * W) IoError (option RecvItem);
  frame_send : SendItem → eff (T * W) IoError unit }.

Definition json_recv {W T RecvItem SendItem} `{Framed W T RecvItem SendItem}
    : eff (T * W) JsonFramedError RecvItem :=
  item ← map_err SerdeReadError frame_try_next;
  try_r (ok_or item StreamIsClosed).

Definition json_send {W T RecvItem SendItem} `{Framed W T RecvItem SendItem} (v : SendItem)
    : eff (T * W) JsonFramedError unit :=
  map_err SerdeWriteError (frame_send v).

