(* ===== verification/ClientHelper.v ===== *)
(** * Conversions between the protocols and the daemon's domain

    [warden_daemon/src/client_handler/client_helper.rs]: the [From]
    implementations between the client protocol, the managers' types and the
    realm protocol. *)

From S2P Require Import Prelude WardenClient WardenRealm Managers.

Definition CpuConfig_from (v : WardenClient.CpuConfig) : Managers.CpuConfig :=
  Managers.mkCpuConfig (WardenClient.cpu v) (WardenClient.cores_number v).

Definition MemoryConfig_from (v : WardenClient.MemoryConfig) : Managers.MemoryConfig :=
  Managers.mkMemoryConfig (WardenClient.ram_size v).

Definition NetworkConfig_from (v : WardenClient.NetworkConfig) : Managers.NetworkConfig :=
  Managers.mkNetworkConfig (WardenClient.vsock_cid v) (WardenClient.tap_device v)
    (WardenClient.mac_address v) (WardenClient.hardware_device v)
    (WardenClient.remote_terminal_uri v).

Definition KernelConfig_from (v : WardenClient.KernelConfig) : Managers.KernelConfig :=
  Managers.mkKernelConfig (WardenClient.kernel_path v) (WardenClient.kernel_initramfs_path v)
    (WardenClient.kernel_cmd_params v).

Definition RealmConfig_from (v : WardenClient.RealmConfig) : Managers.RealmConfig :=
  Managers.mkRealmConfig (WardenClient.machine v) (CpuConfig_from (WardenClient.cpu_config v))
    (MemoryConfig_from (WardenClient.memory_config v))
    (NetworkConfig_from (WardenClient.network_config v))
    (KernelConfig_from (WardenClient.kernel_config v)) (WardenClient.metadata v).

Definition ApplicationConfig_from (v : WardenClient.ApplicationConfig)
    : Managers.ApplicationConfig :=
  Managers.mkApplicationConfig (WardenClient.name v) (WardenClient.version v)
    (WardenClient.image_registry v) (WardenClient.image_storage_size_mb v)
    (WardenClient.data_storage_size_mb v).

Definition State_from (s : WardenClient.State) : Managers.State :=
  match s with
  | WardenClient.Halted => Managers.Halted
  | WardenClient.Provisioning => Managers.Provisioning
  | WardenClient.Running => Managers.Running
  | WardenClient.NeedReboot => Managers.NeedReboot
  end.

Definition State_into (s : Managers.State) : WardenClient.State :=
  match s with
  | Managers.Halted => WardenClient.Halted
  | Managers.Provisioning => WardenClient.Provisioning
  | Managers.Running => WardenClient.Running
  | Managers.NeedReboot => WardenClient.NeedReboot
  end.

Definition RealmNetwork_into (v : Managers.RealmNetwork) : WardenClient.RealmNetwork :=
  WardenClient.mkRealmNetwork (Managers.ip v) (Managers.if_name v).

Definition RealmDescription_into (v : Managers.RealmDescription) : WardenClient.RealmDescription :=
  WardenClient.mkRealmDescription (Managers.uuid v)
    (State_into (Managers.state (realm_data v)))
    (Managers.applications (realm_data v))
    (RealmNetwork_into <$> ips (realm_data v)).

Definition ApplicationInfo_from (v : ApplicationData) : ApplicationInfo :=
  mkApplicationInfo (Managers.id v) (data_name v) (data_version v) (data_image_registry v)
    (image_part_uuid v) (data_part_uuid v).

Definition provisioning_into (v : RealmProvisioningConfig) : list ApplicationInfo :=
  ApplicationInfo_from <$> applications_data v.

(** The two enums of realm states are in bijection. *)
Lemma State_from_into s : State_from (State_into s) = s.
Proof. by destruct s. Qed.
Lemma State_into_from s : State_into (State_from s) = s.
Proof. by destruct s. Qed.
