(* ===== verification/RealmClientHandler.v ===== *)
(** * The realm client: talking to the application manager inside the realm

    [warden_daemon/src/client_handler/realm_client_handler.rs]: the daemon's
    end of the vsock connection with one realm.  The handler holds the sender
    once the realm has connected, and implements the trait [RealmClient]. *)

From S2P Require Import Prelude Managers Traits WardenRealm JsonFramed ClientHelper.

(** ** realm_client_handler.rs *)

Inductive RealmSenderError :=
| SendFail (e : JsonFramedError)
| ReceiveFail (e : JsonFramedError)
| Timeout
| Disconnection.

Definition RealmSenderError_to_string (e : RealmSenderError) : string :=
  match e with
  | SendFail e => "Failed to send request to Realm daemon: " +:+ JsonFramedError_to_string e
  | ReceiveFail e => "Failed to receive message from Realm daemon: " +:+ JsonFramedError_to_string e
  | Timeout => "Waiting too long for the response."
  | Disconnection => "Realm disconnected!"
  end.

(** [trait RealmSender]. *)
Class RealmSender (W Snd : Type) := {
  sender_send : Request → eff (Snd * W) RealmSenderError unit;
  receive_response : Z → eff (Snd * W) RealmSenderError Response }.

(** The branch of [select!] taken while the client waits for its realm: the
    channel delivers, the channel's other end is dropped (with the text of the
    [RecvError]), the daemon is cancelled, or the time is up. *)
Inductive WaitOutcome (Snd : Type) :=
| Connected (s : Snd)
| ChannelDropped (err : string)
| Cancelled
| Elapsed.
Arguments Connected {Snd} _.
Arguments ChannelDropped {Snd} _.
Arguments Cancelled {Snd}.
Arguments Elapsed {Snd}.

(** [trait RealmConnector] behind its [Arc<Mutex<_>>] (it is shared by all the
    realms, so it belongs to the world), and the wait on the receiver it
    returns. *)
Class RealmConnector (W Snd Rx : Type) := {
  connector_acquire_realm_sender : Z → W → Rx * W;
  wait_for_sender : Rx → Z → W → WaitOutcome Snd * W }.

Record RealmClientHandler (Snd : Type) := mkRealmClientHandler {
  connection_wait_time : Z;
  response_timeout : Z;
  sender : option Snd }.
Arguments mkRealmClientHandler {Snd} _ _ _.
Arguments connection_wait_time {Snd} _.
Arguments response_timeout {Snd} _.
Arguments sender {Snd} _.

Section handler.
Context {W Snd Rx : Type} `{!RealmSender W Snd, !RealmConnector W Snd Rx}.
Context `{!Debug RealmSenderError, !Debug ProtocolError, !Debug Response}.

Abbreviation Handler := (RealmClientHandler Snd).

Definition new (realm_connection_wait_time realm_response_timeout : Z) : Handler :=
  mkRealmClientHandler realm_connection_wait_time realm_response_timeout None.

Definition set_sender (o : option Snd) (h : Handler) : Handler :=
  mkRealmClientHandler (connection_wait_time h) (response_timeout h) o.

Definition acquire_realm_sender : eff (Handler * W) RealmClientError Snd :=
  with_state (λ s, try_r (ok_or (sender s.1)
    (RealmConnectionFail "Realm isn't connected with Warden daemon."))).

(** Run a method of the sender the handler holds. *)
Definition on_sender {E A} (snd : Snd) (c : eff (Snd * W) E A) : eff (Handler * W) E A := λ s,
  let '(r, (snd', w')) := c (snd, s.2) in (r, (set_sender (Some snd') s.1, w')).

Definition send_command (request : Request) : eff (Handler * W) RealmClientError unit :=
  realm_sender ← acquire_realm_sender;
  map_err (λ err, CommunicationFail (RealmSenderError_to_string err))
    (on_sender realm_sender (sender_send request)).

Definition receive_error (err : RealmSenderError) : RealmClientError :=
  match err with
  | Disconnection => RealmDisconnection
  | err => CommunicationFail (fmt_debug err)
  end.

Definition read_response (timeout : Z) : eff (Handler * W) RealmClientError Response :=
  realm_sender ← acquire_realm_sender;
  map_err receive_error (on_sender realm_sender (receive_response timeout)).

Definition timeout_of : eff (Handler * W) RealmClientError Z := gets (λ s, response_timeout s.1).

Definition handle_invalid_response (response : Response) : RealmClientError :=
  match response with
  | Error protocol_error => RealmDaemonError (fmt_debug protocol_error)
  | invalid_response => InvalidResponse (fmt_debug invalid_response)
  end.

Definition handle_success_command (response : Response) : result unit RealmClientError :=
  match response with
  | Success => Ok tt
  | other_response => Err (handle_invalid_response other_response)
  end.

Definition handle_shutdown_response : eff (Handler * W) RealmClientError unit :=
  timeout ← timeout_of;
  resp ← attempt (read_response timeout);
  match resp with
  | Err RealmDisconnection => modify (λ s, (set_sender None s.1, s.2))
  | Ok resp => throw (handle_invalid_response resp)
  | Err err => throw err
  end.

Definition handle_ip_response : eff (Handler * W) RealmClientError (gmap string NetAddr) :=
  timeout ← timeout_of;
  resp ← read_response timeout;
  match resp with
  | IfAddrs addrs => mret addrs
  | resp => throw (handle_invalid_response resp)
  end.

(** Ask the connector for this realm's sender and wait for it. *)
Definition wait_realm (cid : Z) : eff (Handler * W) RealmClientError (WaitOutcome Snd) := λ s,
  let '(rx, w1) := connector_acquire_realm_sender cid s.2 in
  let '(outcome, w2) := wait_for_sender rx (connection_wait_time s.1) w1 in
  (Ok outcome, (s.1, w2)).

Definition try_connect (cid : Z) : eff (Handler * W) RealmClientError unit :=
  outcome ← wait_realm cid;
  match outcome with
  | Connected realm_sender => modify (λ s, (set_sender (Some realm_sender) s.1, s.2))
  | ChannelDropped err => throw (RealmConnectionFail err)
  | Cancelled => throw (RealmConnectionFail "Waiting for realm connection cancelled.")
  | Elapsed => throw (RealmConnectionFail "Timeout on listening for realm connection.")
  end.

Definition fetch_attestation_token (challenge : list Z)
    : eff (Handler * W) RealmClientError (list Z) :=
  send_command (GetAttestationToken challenge);;
  timeout ← timeout_of;
  resp ← read_response timeout;
  match resp with
  | AttestationToken token => mret token
  | other_response => throw (handle_invalid_response other_response)
  end.

(** Send a command and wait for its success. *)
Definition command_with_success (request : Request) : eff (Handler * W) RealmClientError unit :=
  send_command request;;
  timeout ← timeout_of;
  resp ← read_response timeout;
  try_r (handle_success_command resp).

Definition provision_applications (config : RealmProvisioningConfig)
    : eff (Handler * W) RealmClientError unit :=
  send_command (ProvisionInfo (provisioning_into config));;
  timeout ← gets (λ s, connection_wait_time s.1);
  resp ← read_response timeout;
  try_r (handle_success_command resp).

Definition start_application (application_uuid : Uuid) : eff (Handler * W) RealmClientError unit :=
  command_with_success (StartApp application_uuid).

Definition kill_application (application_uuid : Uuid) : eff (Handler * W) RealmClientError unit :=
  command_with_success (KillApp application_uuid).

Definition stop_application (application_uuid : Uuid) : eff (Handler * W) RealmClientError unit :=
  send_command (StopApp application_uuid);;
  timeout ← timeout_of;
  resp ← read_response timeout;
  if is_err (handle_success_command resp) then kill_application application_uuid else mret tt.

Definition try_connect_and_provision_apps (cid : Z) (config : RealmProvisioningConfig)
    : eff (Handler * W) RealmClientError unit :=
  try_connect cid;;
  provision_applications config.

Definition try_connect_and_fetch_attestation_token (cid : Z) (challenge : list Z)
    : eff (Handler * W) RealmClientError (list Z) :=
  try_connect cid;;
  fetch_attestation_token challenge.

Definition shutdown_realm : eff (Handler * W) RealmClientError unit :=
  send_command Shutdown;;
  handle_shutdown_response.

Definition reboot_realm (config : RealmProvisioningConfig) (cid : Z)
    : eff (Handler * W) RealmClientError unit :=
  send_command Reboot;;
  try_connect cid;;
  provision_applications config.

Definition read_realm_ifs : eff (Handler * W) RealmClientError (list RealmNetwork) :=
  send_command GetIfAddrs;;
  addrs ← handle_ip_response;
  mret ((λ p : string * NetAddr, mkRealmNetwork (address p.2) p.1) <$> map_to_list addrs).

#[global] Instance RealmClientHandler_client : RealmClient W Handler := {
  Traits.try_connect_and_provision_apps := try_connect_and_provision_apps;
  Traits.try_connect_and_fetch_attestation_token := try_connect_and_fetch_attestation_token;
  Traits.try_connect := try_connect;
  client_fetch_attestation_token := fetch_attestation_token;
  Traits.provision_applications := provision_applications;
  Traits.start_application := start_application;
  Traits.stop_application := stop_application;
  Traits.read_realm_ifs := read_realm_ifs;
  Traits.kill_application := kill_application;
  Traits.shutdown_realm := shutdown_realm;
  Traits.reboot_realm := reboot_realm }.

(** ** The handler implements [RealmClient] *)

Definition has_sender (h : Handler) : bool := bool_decide (is_Some (sender h)).

Lemma send_command_disconnected req h w :
  has_sender h = false →
  send_command req (h, w) =
    (Err (RealmConnectionFail "Realm isn't connected with Warden daemon."), (h, w)).
Proof.
  unfold has_sender, send_command, acquire_realm_sender. intros Hs.
  case_bool_decide as Hc; [done|].
  apply bind_err. unfold with_state. simpl. destruct (sender h); [|done]. by destruct Hc.
Qed.

(** Reading and writing keep the connection. *)
Lemma on_sender_keeps {E A} snd (c : eff (Snd * W) E A) s r s' :
  on_sender snd c s = (r, s') → has_sender s'.1 = true.
Proof. unfold on_sender. destruct (c _) as [? []]. intros; by simplify_eq. Qed.

Lemma acquire_realm_sender_run s r s' :
  acquire_realm_sender s = (r, s') → s' = s ∧ is_ok r = has_sender s.1.
Proof.
  unfold acquire_realm_sender, with_state, try_r, has_sender.
  destruct (sender s.1); intros; by simplify_eq/=.
Qed.

Lemma send_command_run req s r s' :
  send_command req s = (r, s') →
  has_sender s'.1 = has_sender s.1 ∧ (is_ok r = true → has_sender s.1 = true).
Proof.
  unfold send_command. intros Hrun. run_split Hrun as snd s1 H1.
  { by apply acquire_realm_sender_run in Hrun as [-> ?]. }
  apply acquire_realm_sender_run in H1 as [-> Hs]. simpl in Hs.
  unfold map_err in Hrun. destruct (on_sender _ _ _) as [? s2] eqn:Hon. simplify_eq.
  apply on_sender_keeps in Hon. split; congruence.
Qed.

Lemma read_response_run t s r s' :
  read_response t s = (r, s') → has_sender s'.1 = has_sender s.1.
Proof.
  unfold read_response. intros Hrun. run_split Hrun as snd s1 H1.
  { by apply acquire_realm_sender_run in Hrun as [-> ?]. }
  apply acquire_realm_sender_run in H1 as [-> Hs]. simpl in Hs.
  unfold map_err in Hrun. destruct (on_sender _ _ _) as [? s2] eqn:Hon. simplify_eq.
  apply on_sender_keeps in Hon. congruence.
Qed.

Lemma handle_shutdown_response_run s r s' :
  handle_shutdown_response s = (r, s') →
  has_sender s'.1 = if is_ok r then false else has_sender s.1.
Proof.
  unfold handle_shutdown_response, timeout_of. intros Hrun. run_gets Hrun.
  unfold mbind, eff_bind, attempt in Hrun.
  destruct (read_response _ s) as [resp s1] eqn:Hread. apply read_response_run in Hread.
  destruct resp as [resp|[]]; run_inv; done.
Qed.

Lemma shutdown_realm_run s r s' :
  shutdown_realm s = (r, s') →
  has_sender s'.1 = (if is_ok r then false else has_sender s.1) ∧
  (is_ok r = true → has_sender s.1 = true).
Proof.
  unfold shutdown_realm. intros Hrun. run_split Hrun as [] s1 H1.
  { by apply send_command_run in Hrun as [-> ?]. }
  apply send_command_run in H1 as [H1 Hs]. apply handle_shutdown_response_run in Hrun.
  rewrite Hrun, H1. split; [done|]. intros _. by apply Hs.
Qed.

Lemma try_connect_run cid s r s' :
  try_connect cid s = (r, s') →
  has_sender s'.1 = if is_ok r then true else has_sender s.1.
Proof.
  unfold try_connect, wait_realm. intros Hrun. run_split Hrun as outcome s1 H1.
  { by destruct (connector_acquire_realm_sender _ _), (wait_for_sender _ _ _). }
  destruct (connector_acquire_realm_sender _ _), (wait_for_sender _ _ _). simplify_eq.
  destruct outcome; by run_inv.
Qed.

#[global] Instance RealmClientHandler_laws : RealmClientLaws W Handler.
Proof.
  refine {| connected := has_sender |}; simpl; intros * Hrun.
  - by apply try_connect_run in Hrun.
  - by apply try_connect_run in Hrun.
  - by apply bind_err.
  - by apply bind_err.
  - apply shutdown_realm_run in Hrun as [? Hs]. split; [by apply Hs|done].
  - unfold shutdown_realm. rewrite (bind_err _ _ _ _ _ (send_command_disconnected _ _ _ Hrun)).
    by eexists.
Defined.

End handler.
