(* ===== verification/RealmVm.v ===== *)
(** * The realm's state and its virtual machine

    Theorems about [RealmManager] against the contracts of its collaborators:
    the VM manager ([VmManagerLaws], implemented by [VmRunner]) and the realm
    client ([RealmClientLaws], implemented by [RealmClientHandler]). *)

From S2P Require Import Prelude Managers Traits RealmManager.

Section realm_vm.
Context {W R A V C F : Type}.
Context `{!Repository W R RealmConfig, !VmManager W V, !RealmClient W C}.
Context `{!Application W C A, !ApplicationCreator W A F, !Runtime W}.
Context `{!UuidApi, !ExitStatusFmt, !VmManagerLaws W V}.

Abbreviation RM := (RealmManager R A V C F).

(** The realm's VM manager holds a virtual machine. *)
Definition vm_up (m : RM) : bool := vm_launched (rm_vm_manager m).

(** A realm that is not halted has its virtual machine. *)
Definition vm_inv (s : RM * W) : Prop := rm_state s.1 ≠ Halted → vm_up s.1 = true.

Definition same_up : RM * W → RM * W → Prop := same (λ s, vm_up s.1).
#[local] Instance same_up_preorder : PreOrder same_up := same_preorder _.

(** ** Frame: only launching and shutting down touch the virtual machine *)

Lemma on_app_same_up {E T} u a (c : eff (A * (C * W)) E T) : steps same_up (on_app u a c).
Proof. intros s. unfold on_app. by destruct (c _) as [? [? []]]. Qed.
Lemma client_same_up {E T} (c : eff (C * W) E T) : steps same_up (zoom client_lens c).
Proof. by apply steps_zoom. Qed.
Lemma world_same_up {E T} (c : eff W E T) : steps same_up (zoom snd_lens c).
Proof. by apply steps_zoom. Qed.
Lemma assign_state_same_up st : steps same_up (assign_state st).
Proof. by apply steps_modify. Qed.
#[local] Hint Resolve on_app_same_up client_same_up world_same_up assign_state_same_up : eff.

Lemma prepare_task_same_up p : steps same_up (prepare_task p).
Proof. unfold prepare_task. eff_auto. Qed.
Lemma prepare_applications_same_up : steps same_up prepare_applications.
Proof.
  unfold prepare_applications. apply steps_bind; [apply _|apply steps_gets; apply _|]. intros tasks.
  apply steps_prepare_tasks; [apply _|apply prepare_task_same_up].
Qed.
Lemma create_provisioning_config_same_up : steps same_up create_provisioning_config.
Proof. unfold create_provisioning_config. eff_auto. Qed.
#[local] Hint Resolve prepare_applications_same_up create_provisioning_config_same_up : eff.

Lemma vm_get_status_same_up : steps same_up (zoom vm_lens get_status).
Proof.
  intros s. destruct (zoom vm_lens get_status s) as [r s'] eqn:Hz.
  apply zoom_inv in Hz as ([v w]&Hg&->). simpl in *.
  apply get_status_launched in Hg. unfold same_up, same, vm_up. simpl. by rewrite Hg.
Qed.
#[local] Hint Resolve vm_get_status_same_up : eff.

(** ** Launching and shutting down *)

Lemma launch_run s r s' :
  launch s = (r, s') →
  (r = Ok tt ∧ vm_up s.1 = false ∧ vm_up s'.1 = true) ∨
  (is_ok r = false ∧ vm_up s'.1 = vm_up s.1).
Proof.
  unfold launch. intros Hrun. run_gets Hrun. unfold map_err in Hrun.
  destruct (zoom _ _ _) as [r0 s0] eqn:Hz. simplify_eq/=.
  apply zoom_inv in Hz as ([v w]&Hl&->). simpl in *. destruct r0 as [[]|e]; [left|right].
  - by apply launch_vm_ok in Hl.
  - by apply launch_vm_err in Hl.
Qed.

Lemma launch_refused s :
  vm_up s.1 = true →
  launch s = (Err (RealmLaunchFail (VmManagerError_to_string VmAlreadyLaunched)), s).
Proof.
  intros Hup. unfold launch. erewrite bind_ok by reflexivity. unfold map_err, zoom. simpl.
  rewrite launch_vm_twice by done. by destruct s as [[] ?].
Qed.

Lemma vm_shutdown_run (f : VmManagerError → RealmError) s r s' :
  map_err f (zoom vm_lens vm_shutdown) s = (r, s') →
  if is_ok r then vm_up s.1 = true ∧ vm_up s'.1 = false else vm_up s'.1 = vm_up s.1.
Proof.
  unfold map_err. intros Hrun. destruct (zoom _ _ _) as [r0 s0] eqn:Hz. simplify_eq/=.
  apply zoom_inv in Hz as ([v w]&Hl&->). simpl in *. destruct r0 as [[]|e].
  - by apply vm_shutdown_ok in Hl.
  - by apply vm_shutdown_err in Hl.
Qed.

Lemma stop_client_and_vm_run s r s' :
  stop_client_and_vm s = (r, s') →
  if is_ok r then vm_up s.1 = true ∧ vm_up s'.1 = false else vm_up s'.1 = vm_up s.1.
Proof.
  unfold stop_client_and_vm. intros Hrun. run_split Hrun as [] s1 H1.
  - apply map_err_err in Hrun as (?&_&Hrun).
    by apply (steps_run same_up) in Hrun; [|apply client_same_up].
  - apply map_err_ok in H1. apply (steps_run same_up) in H1; [|apply client_same_up].
    apply vm_shutdown_run in Hrun. unfold same_up, same in H1. rewrite H1. done.
Qed.

(** ** The invariant *)

Lemma handle_start_response_inv resp s :
  vm_up s.1 = true → vm_inv (handle_start_response resp s).2.
Proof.
  intros Hup. destruct (handle_start_response resp s) as [r s'] eqn:Hrun. simpl.
  pose proof (handle_start_response_state _ _ _ _ Hrun) as Hst.
  destruct resp as [[]|err]; [|by intros ?; destruct Hst].
  intros _. simpl in Hrun. unfold assign_state in Hrun. by run_inv.
Qed.

Lemma start_vm_inv : preserves vm_inv start.
Proof.
  intros s Hinv. unfold start, current_state. erewrite bind_ok by reflexivity.
  case_bool_decide as Hst; [done|].
  match goal with |- vm_inv (?c s).2 => destruct (c s) as [r s'] eqn:Hrun end. simpl.
  run_split Hrun as [] s1 H1.
  { intros Hn. destruct Hn. apply (steps_run same_state) in Hrun;
      [|apply prepare_applications_same_state]. by rewrite <-Hrun. }
  apply (steps_run same_state) in H1; [|apply prepare_applications_same_state].
  run_split Hrun as [] s2 H2.
  { intros Hn. destruct Hn. apply (steps_run same_state) in Hrun; [|apply launch_same_state].
    by rewrite <-Hrun, <-H1. }
  apply launch_run in H2 as [(_&_&Hup)|[? _]]; [|done].
  unfold assign_state in Hrun. run_gets Hrun. run_gets Hrun.
  run_split Hrun as cfg s4 H4; [apply (steps_run same_up) in Hrun|
    apply (steps_run same_up) in H4]; try apply create_provisioning_config_same_up.
  { intros _. by rewrite <-Hrun. }
  unfold mbind, eff_bind, attempt in Hrun.
  destruct (zoom client_lens _ s4) as [resp s5] eqn:H5.
  apply (steps_run same_up) in H5; [|apply client_same_up].
  assert (vm_up s5.1 = true) as Hup5 by (rewrite <-H5, <-H4; done).
  pose proof (handle_start_response_inv resp s5 Hup5) as Hi. by rewrite Hrun in Hi.
Qed.

Lemma fetch_same_up ch s :
  rm_state s.1 ≠ Halted → same_up s ((fetch_attestation_token ch;; mret tt) s).2.
Proof.
  intros Hst. unfold mbind, eff_bind, fetch_attestation_token, current_state.
  erewrite bind_ok by reflexivity.
  assert (steps same_up (attempt (F := RealmError)
    (zoom client_lens (client_fetch_attestation_token ch)))) as Hc by eff_auto.
  specialize (Hc s).
  destruct (rm_state s.1) eqn:Hs; try done; unfold mbind, eff_bind, try_r;
    destruct (attempt _ s) as [[[]|] s1]; done.
Qed.

(** In a live state no operation but [stop] and [destroy] touches the VM. *)
Lemma live_same_up op s :
  rm_state s.1 ≠ Halted → op ≠ OpStop → op ≠ OpDestroy → same_up s (run_op op s).2.
Proof.
  intros Hst ??. destruct op as [| | |cfg|u cfg|u|ch| |]; try done; simpl.
  - unfold start, current_state. erewrite bind_ok by reflexivity. by case_bool_decide.
  - cut (steps same_up reboot); [auto|]. unfold reboot, current_state. eff_auto.
  - unfold create_application, current_state, mbind, eff_bind, gets. by case_bool_decide.
  - cut (steps same_up (update_application u cfg)); [auto|].
    unfold update_application, current_state. eff_auto.
  - cut (steps same_up (get_application u;; mret tt)); [auto|].
    unfold get_application, current_state. eff_auto.
  - by apply fetch_same_up.
  - cut (steps same_up (get_realm_data;; mret tt)); [auto|].
    unfold get_realm_data, current_state. eff_auto.
Qed.

Lemma stop_keeps_vm s r s' :
  stop s = (r, s') → rm_state s'.1 ≠ Halted → vm_up s'.1 = vm_up s.1.
Proof.
  unfold stop, current_state. intros Hrun Hst. run_gets Hrun.
  case_bool_decide; [by run_inv|]. run_split Hrun as [] s1 Hs1.
  - by apply stop_client_and_vm_run in Hrun.
  - unfold assign_state in Hrun. by run_inv.
Qed.

Lemma run_op_vm_inv op : op ≠ OpDestroy → preserves vm_inv (run_op op).
Proof.
  intros Hop s Hinv Hst'. destruct (run_op op s) as [r s'] eqn:Hrun. simpl in Hst' |- *.
  assert (op = OpStart ∨ op ≠ OpStart) as [->|Hns] by (destruct op; auto; by right).
  { pose proof (start_vm_inv s Hinv) as Hi. simpl in Hrun. rewrite Hrun in Hi. by apply Hi. }
  pose proof (run_op_lifecycle _ _ _ _ Hrun) as Hlc.
  assert (rm_state s.1 ≠ Halted) as Hst.
  { intros Hh. rewrite Hh in Hlc. inversion Hlc; subst; try congruence.
    by destruct op. }
  specialize (Hinv Hst). assert (op = OpStop ∨ op ≠ OpStop) as [->|Hnp]
    by (destruct op; auto; by right).
  - simpl in Hrun. apply stop_keeps_vm in Hrun; [congruence|done].
  - pose proof (live_same_up op s Hst Hnp Hop) as Hup. rewrite Hrun in Hup.
    unfold same_up, same in Hup. simpl in Hup. congruence.
Qed.

(** ** Calls on a realm that is not being destroyed

    What clients can do to a realm: any method of the trait [Realm] except
    [destroy] (which consumes the object), and [start] and [stop] of one of its
    applications through the handle [get_application] gave out. *)

Inductive call_step (s : RM * W) : RM * W → Prop :=
| call_realm op : op ≠ OpDestroy → call_step s (run_op op s).2
| call_app_start u a : rm_applications s.1 !! u = Some a →
    call_step s (application_start (u, a) s).2
| call_app_stop u a : rm_applications s.1 !! u = Some a →
    call_step s (application_stop (u, a) s).2.

Lemma on_app_frame {E T} u a (c : eff (A * (C * W)) E T) s :
  rm_state (on_app u a c s).2.1 = rm_state s.1 ∧ vm_up (on_app u a c s).2.1 = vm_up s.1.
Proof. unfold on_app. by destruct (c _) as [? [? []]]. Qed.

Lemma call_step_vm_inv s s' : call_step s s' → vm_inv s → vm_inv s'.
Proof.
  intros [op Hop|u a _|u a _] Hinv.
  - by apply run_op_vm_inv.
  - unfold vm_inv. simpl. pose proof (on_app_frame u a app_start s) as [-> ->]. done.
  - unfold vm_inv. simpl. pose proof (on_app_frame u a app_stop s) as [-> ->]. done.
Qed.

(** ** A halted realm whose virtual machine is still there *)

Definition halted_with_vm (s : RM * W) : Prop := rm_state s.1 = Halted ∧ vm_up s.1 = true.

(** Preparing the disks and then launching fails, and changes neither the state
    nor the virtual machine. *)
Lemma prepare_launch_stuck {T} (k : unit → eff (RM * W) RealmError T) s :
  halted_with_vm s →
  ∃ e s', (prepare_applications;; launch ≫= k) s = (Err e, s') ∧ halted_with_vm s'.
Proof.
  intros [Hst Hup]. destruct (prepare_applications s) as [r s1] eqn:H1.
  pose proof (steps_run _ _ _ _ _ prepare_applications_same_up H1) as Hup1.
  pose proof (steps_run _ _ _ _ _ prepare_applications_same_state H1) as Hst1.
  unfold same_up, same_state, same in *. rewrite Hst1 in Hst. rewrite Hup1 in Hup.
  destruct r as [[]|e].
  - rewrite (bind_ok _ _ _ _ _ H1), (bind_err _ _ _ _ _ (launch_refused s1 Hup)).
    by eexists _, _.
  - rewrite (bind_err _ _ _ _ _ H1). by eexists _, _.
Qed.

Lemma start_stuck s :
  halted_with_vm s → ∃ e s', start s = (Err e, s') ∧ halted_with_vm s'.
Proof.
  intros Hs. unfold start, current_state. erewrite bind_ok by reflexivity.
  rewrite bool_decide_false by (destruct Hs as [-> _]; auto).
  by apply prepare_launch_stuck.
Qed.

Lemma fetch_stuck ch s :
  halted_with_vm s → ∃ e s', fetch_attestation_token ch s = (Err e, s') ∧ halted_with_vm s'.
Proof.
  intros Hs. unfold fetch_attestation_token, current_state. erewrite bind_ok by reflexivity.
  replace (rm_state s.1) with Halted by (by destruct Hs).
  edestruct (prepare_launch_stuck (T := result (list Z) RealmClientError)) as (e&s'&Hr&Hs');
    [exact Hs|].
  exists e, s'. split; [|done]. apply bind_err. exact Hr.
Qed.

(** Without a launch or a shutdown, a halted realm keeps its VM. *)
Lemma halted_same_up op s :
  rm_state s.1 = Halted → op ≠ OpStart → op ≠ OpDestroy →
  (∀ ch, op ≠ OpFetchAttestationToken ch) → same_up s (run_op op s).2.
Proof.
  intros Hst ?? Hf. destruct op as [| | |cfg|u cfg|u|ch| |]; try done; simpl.
  - unfold stop, current_state. erewrite bind_ok by reflexivity.
    rewrite Hst. by case_bool_decide; [|naive_solver].
  - cut (steps same_up reboot); [auto|]. unfold reboot, current_state. eff_auto.
  - cut (steps same_up (create_application cfg;; mret tt)); [auto|].
    unfold create_application, current_state. eff_auto.
    + intros s0. by destruct (new_v4 s0.2).
    + by apply steps_modify.
  - cut (steps same_up (update_application u cfg)); [auto|].
    unfold update_application, current_state. eff_auto.
  - cut (steps same_up (get_application u;; mret tt)); [auto|].
    unfold get_application, current_state. eff_auto.
  - by destruct (Hf ch).
  - cut (steps same_up (get_realm_data;; mret tt)); [auto|].
    unfold get_realm_data, current_state. eff_auto.
Qed.

Lemma run_op_stuck op s :
  halted_with_vm s → op ≠ OpDestroy → halted_with_vm (run_op op s).2.
Proof.
  intros Hs Hop.
  assert (op = OpStart ∨ (∃ ch, op = OpFetchAttestationToken ch) ∨
    (op ≠ OpStart ∧ ∀ ch, op ≠ OpFetchAttestationToken ch)) as [->|[[ch ->]|[Hns Hnf]]]
    by (destruct op; naive_solver).
  - by destruct (start_stuck s Hs) as (e&s'&Hr&Hs'); simpl; rewrite Hr.
  - destruct (fetch_stuck ch s Hs) as (e&s'&Hr&Hs'). simpl.
    by rewrite (bind_err _ _ _ _ _ Hr).
  - destruct Hs as [Hst Hup].
    pose proof (halted_same_up op s Hst Hns Hop Hnf) as Hsame.
    destruct (run_op op s) as [r s'] eqn:Hrun. pose proof (run_op_lifecycle _ _ _ _ Hrun) as Hlc.
    unfold same_up, same in Hsame. split; [|simpl in *; congruence].
    simpl. rewrite Hst in Hlc. inversion Hlc; subst; try congruence.
    by destruct op.
Qed.

Lemma calls_stuck s s' : rtc call_step s s' → halted_with_vm s → halted_with_vm s'.
Proof.
  induction 1 as [|s s1 s' [op Hop|u a _|u a _] _ IH]; intros Hs; [done|..]; apply IH.
  - by apply run_op_stuck.
  - unfold halted_with_vm. simpl. by pose proof (on_app_frame u a app_start s) as [-> ->].
  - unfold halted_with_vm. simpl. by pose proof (on_app_frame u a app_stop s) as [-> ->].
Qed.

(** ** Theorems *)

(** Invariant: from the moment a realm is created or loaded, whatever
    sequence of calls clients make on it and its applications and however these
    end, a realm that is [Provisioning], [Running] or [NeedReboot] has a
    launched virtual machine. *)
Theorem live_realm_has_vm config apps vm client fabric w s :
  rtc call_step (new config apps vm client fabric, w) s →
  rm_state s.1 ≠ Halted → vm_up s.1 = true.
Proof.
  intros Hrtc. change (vm_inv s).
  assert (vm_inv (new config apps vm client fabric, w)) as Hinv by (intros Hn; by destruct Hn).
  induction Hrtc as [|s1 s2 s3 Hs _ IH]; [done|]. eapply IH, call_step_vm_inv; done.
Qed.

(** A halted realm whose virtual machine is still held is stuck: after any
    further calls [start] and [fetch_attestation_token] fail; only destroying
    the realm gets rid of the virtual machine. *)
Theorem halted_with_vm_is_stuck s s' :
  halted_with_vm s → rtc call_step s s' →
  halted_with_vm s' ∧ is_err (start s').1 = true ∧
  ∀ challenge, is_err (fetch_attestation_token challenge s').1 = true.
Proof.
  intros Hs Hrtc. apply calls_stuck in Hrtc; [|done]. split; [done|]. split.
  - by destruct (start_stuck s' Hrtc) as (e&s2&->&_).
  - intros ch. by destruct (fetch_stuck ch s' Hrtc) as (e&s2&->&_).
Qed.

(** The virtual machine of a realm that fails to be provisioned because
    its VM process has already exited is never given up: [start] reports the
    exit status and leaves the realm halted with the VM still held (so that, by
    the previous property, it cannot be started again). *)
Theorem early_exit_strands_vm s s1 s2 config s3 s4 e code s5 :
  rm_state s.1 = Halted →
  prepare_applications s = (Ok tt, s1) →
  launch s1 = (Ok tt, s2) →
  create_provisioning_config (set_state Provisioning s2.1, s2.2) = (Ok config, s3) →
  zoom client_lens (try_connect_and_provision_apps (cid_of s2.1) config) s3 = (Err e, s4) →
  zoom vm_lens get_status (set_state Halted s4.1, s4.2) = (Ok (Exited code), s5) →
  start s = (Err (RealmStartFail
    (RealmClientError_to_string e +:+ ", " +:+ exit_status_to_string code)), s5) ∧
  halted_with_vm s5.
Proof.
  intros Hst H1 H2 H3 H4 H5. split.
  - unfold start, current_state, assign_state. erewrite bind_ok by reflexivity.
    rewrite bool_decide_false by auto.
    rewrite (bind_ok _ _ _ _ _ H1), (bind_ok _ _ _ _ _ H2).
    do 2 erewrite bind_ok by reflexivity. simpl. rewrite (bind_ok _ _ _ _ _ H3).
    rewrite (bind_ok _ _ _ _ _ (attempt_run _ _ _ _ H4)).
    unfold handle_start_response, assign_state. erewrite bind_ok by reflexivity.
    erewrite bind_ok by (apply map_err_ok; exact H5). done.
  - apply launch_run in H2 as [(_&_&Hup)|[? _]]; [|done].
    apply (steps_run _ _ _ _ _ create_provisioning_config_same_up) in H3.
    apply (steps_run _ _ _ _ _ (client_same_up _)) in H4.
    pose proof (steps_run _ _ _ _ _ vm_get_status_same_up H5) as Hup5.
    apply (steps_run _ _ _ _ _ (vm_same_state _)) in H5.
    unfold halted_with_vm, same_up, same_state, same, vm_up in *. simpl in *. split; congruence.
Qed.

Section client.
Context `{!RealmClientLaws W C}.

Definition client_connected (m : RM) : bool := connected (rm_realm_client_handler m).

(** C25.  Fetching a token from a halted realm that never connects (a timeout)
    fails with [RealmStopFail] instead of the connection error and leaves the
    realm halted with its virtual machine still held: the VM is not shut
    down because asking the unconnected realm to shut down fails first.  After
    any further calls the realm can still neither be started nor asked. *)
Theorem token_fetch_timeout_strands_vm challenge s s1 s2 e s3 :
  rm_state s.1 = Halted →
  prepare_applications s = (Ok tt, s1) →
  launch s1 = (Ok tt, s2) →
  client_connected s2.1 = false →
  zoom client_lens (try_connect (cid_of s2.1)) s2 = (Err e, s3) →
  (∃ msg, fetch_attestation_token challenge s = (Err (RealmStopFail msg), s3)) ∧
  ∀ s4, rtc call_step s3 s4 →
    halted_with_vm s4 ∧ is_err (start s4).1 = true ∧
    ∀ challenge, is_err (fetch_attestation_token challenge s4).1 = true.
Proof.
  intros Hst H1 H2 Hc H3.
  cut ((∃ msg, fetch_attestation_token challenge s = (Err (RealmStopFail msg), s3)) ∧ halted_with_vm s3).
  { intros [Hf Hs]. split; [done|]. intros s4. by apply halted_with_vm_is_stuck. }
  pose proof H3 as Hz. apply zoom_inv in H3 as ([c w]&H3&->).
  simpl in *. pose proof (try_connect_err _ _ _ _ _ _ H3) as Hc'.
  destruct (shutdown_not_connected c w) as [msg Hsd];
    [unfold client_connected in Hc; congruence|]. split.
  - eexists. unfold fetch_attestation_token, current_state. erewrite bind_ok by reflexivity.
    rewrite Hst. apply bind_err. rewrite (bind_ok _ _ _ _ _ H1), (bind_ok _ _ _ _ _ H2).
    erewrite bind_ok by reflexivity.
    erewrite bind_ok
      by (apply attempt_run, zoom_eq, fetch_not_connected; exact H3).
    apply bind_err. apply bind_err. apply map_err_err. eexists. split; [done|].
    apply zoom_inv. exists (c, w). split; [exact Hsd|]. by destruct s2 as [[] ?].
  - apply launch_run in H2 as H2'. destruct H2' as [(_&_&Hup)|[? _]]; [|done].
    apply (steps_run _ _ _ _ _ prepare_applications_same_state) in H1.
    apply (steps_run _ _ _ _ _ launch_same_state) in H2.
    unfold same_state, same in *. split; simpl; [congruence|done].
Qed.

Lemma stop_client_and_vm_ok s s' :
  stop_client_and_vm s = (Ok tt, s') → vm_up s'.1 = false ∧ client_connected s'.1 = false.
Proof.
  intros Hrun. split; [by apply stop_client_and_vm_run in Hrun as []|].
  unfold stop_client_and_vm in Hrun. apply bind_ok_inv in Hrun as ([]&s1&H1&Hrun).
  apply map_err_ok in H1, Hrun. apply zoom_inv in H1 as ([c w]&H1&->).
  apply zoom_inv in Hrun as ([v w']&_&->). by apply shutdown_realm_ok in H1 as [_ ?].
Qed.

(** Starting and stopping are inverse up to the disks: after a successful
    [start] the realm is running with its VM launched, and after a successful
    [stop] it is halted, holds no VM and no connection, so the next launch is
    not refused. *)
Theorem start_then_stop s s1 s2 :
  start s = (Ok tt, s1) → stop s1 = (Ok tt, s2) →
  (rm_state s1.1 = Running ∧ vm_up s1.1 = true) ∧
  (rm_state s2.1 = Halted ∧ vm_up s2.1 = false ∧ client_connected s2.1 = false).
Proof.
  intros H1 H2. split.
  - assert (vm_inv s) as Hinv.
    { apply start_ok in H1 as [Hst _]. intros Hn. done. }
    pose proof (start_vm_inv s Hinv) as Hi. rewrite H1 in Hi.
    apply (run_op_lifecycle OpStart) in H1. simpl in H1. inversion H1 as [? ? _ Hb| |].
    split; [done|]. apply Hi. simpl. congruence.
  - unfold stop, current_state, assign_state in H2. run_gets H2.
    case_bool_decide; [by run_inv|]. apply bind_ok_inv in H2 as ([]&s3&Hs3&H2).
    apply stop_client_and_vm_ok in Hs3. by run_inv.
Qed.

End client.
End realm_vm.
