(* ===== verification/Arc.v ===== *)
(** * Shared objects ([std::sync::Arc])

    A heap of reference-counted objects.  The daemon keeps every realm behind
    an [Arc<Mutex<_>>]: the table of the warden owns one reference and each
    client task that works on the realm owns another one. *)

From S2P Require Import Prelude.

Abbreviation ArcId := N (only parsing).

Record ArcInner (T : Type) := mkArcInner { arc_value : T; strong_count : nat }.
Arguments mkArcInner {T} _ _.
Arguments arc_value {T} _.
Arguments strong_count {T} _.

Abbreviation Arcs T := (gmap N (ArcInner T)).

Section arcs.
Context {T : Type}.
Implicit Types (h : Arcs T) (a : ArcId).

(** [Arc::strong_count]. *)
Definition arc_count h a : nat := from_option strong_count 0 (h !! a).

(** [Arc::new]. *)
Definition arc_new (t : T) h : ArcId * Arcs T :=
  let a := fresh (dom h) in (a, <[a := mkArcInner t 1]> h).

(** [Arc::clone]. *)
Definition arc_clone a h : Arcs T :=
  alter (λ i, mkArcInner (arc_value i) (S (strong_count i))) a h.

(** Dropping a reference; the last one drops the object. *)
Definition arc_drop a h : Arcs T :=
  match h !! a with
  | Some i =>
      match strong_count i with
      | S (S n) => <[a := mkArcInner (arc_value i) (S n)]> h
      | _ => delete a h
      end
  | None => h
  end.

(** [Arc::into_inner]: the object, if this was the only reference. *)
Definition arc_into_inner a h : option T * Arcs T :=
  (i ← h !! a; if bool_decide (strong_count i = 1) then Some (arc_value i) else None,
   arc_drop a h).

(** Locking the mutex behind the reference and running a method of the object. *)
Definition lock_arc {W E A} a (c : eff (T * W) E A) : eff (Arcs T * W) (fault E) A := λ s,
  match s.1 !! a with
  | Some i =>
      let '(r, (t, w)) := c (arc_value i, s.2) in
      (map_err_r Fail r, (<[a := mkArcInner t (strong_count i)]> s.1, w))
  | None => (Err (Panic "dangling reference"), s)
  end.

(** ** Ownership

    [owned owners h]: the strong count of every object of the heap is the
    number of references the [owners] hold, and the heap keeps nothing that
    nobody owns. *)

Definition owned (owners : list ArcId) h : Prop :=
  ∀ a, arc_count h a = count_occ N.eq_dec owners a ∧ (is_Some (h !! a) → arc_count h a ≠ 0).

Lemma owned_perm l l' h : l ≡ₚ l' → owned l h → owned l' h.
Proof.
  intros Hp Ho a. destruct (Ho a) as [-> ?]. split; [|done].
  by apply Permutation_count_occ.
Qed.

Lemma owned_live l h a : owned l h → a ∈ l → is_Some (h !! a).
Proof.
  intros Ho Ha. destruct (Ho a) as [Hc _]. unfold arc_count in Hc.
  destruct (h !! a); [done|]. simpl in Hc. apply list_elem_of_In in Ha.
  apply (count_occ_In N.eq_dec) in Ha. lia.
Qed.

Lemma owned_new l h t : owned l h → owned ((arc_new t h).1 :: l) (arc_new t h).2.
Proof.
  intros Ho a. unfold arc_new. simpl. set (b := fresh (dom h)).
  assert (h !! b = None) as Hb by (apply not_elem_of_dom, is_fresh).
  destruct (Ho a) as [Hc Hz]. unfold arc_count in *.
  destruct (N.eq_dec b a) as [<-|Hne].
  - rewrite lookup_insert_eq, <-Hc, Hb. simpl. split; [done|lia].
  - by rewrite lookup_insert_ne.
Qed.

Lemma owned_clone l h a : owned l h → is_Some (h !! a) → owned (a :: l) (arc_clone a h).
Proof.
  intros Ho [i Hi] b. unfold arc_clone. simpl. destruct (Ho b) as [Hc Hz].
  unfold arc_count in *. destruct (N.eq_dec a b) as [<-|Hne].
  - rewrite lookup_alter_eq, <-Hc, Hi. simpl. split; [done|lia].
  - by rewrite lookup_alter_ne.
Qed.

Lemma owned_drop l h a : owned (a :: l) h → owned l (arc_drop a h).
Proof.
  intros Ho b. destruct (Ho b) as [Hc Hz]. destruct (Ho a) as [Hca _].
  simpl in Hc, Hca. destruct (N.eq_dec a a) as [_|]; [|done]. unfold arc_count, arc_drop in *.
  destruct (h !! a) as [i|] eqn:Hi; [|done]. simpl in Hca.
  destruct (N.eq_dec a b) as [<-|Hne].
  - rewrite Hi in Hc. simpl in Hc. destruct (strong_count i) as [|[|n]]; [done|..].
    + rewrite lookup_delete_eq. simpl. split; [lia|]. by intros [].
    + rewrite lookup_insert_eq. simpl. split; lia.
  - destruct (strong_count i) as [|[|n]]; [done|..].
    + by rewrite lookup_delete_ne.
    + by rewrite lookup_insert_ne.
Qed.

Lemma owned_update l h a i t :
  owned l h → h !! a = Some i → owned l (<[a := mkArcInner t (strong_count i)]> h).
Proof.
  intros Ho Hi b. destruct (Ho b) as [Hc Hz]. unfold arc_count in *.
  destruct (N.eq_dec a b) as [<-|Hne].
  - rewrite lookup_insert_eq, <-Hc. rewrite Hi in Hz |- *. simpl in *. split; [done|eauto].
  - by rewrite lookup_insert_ne.
Qed.

(** Running a method on a live object neither panics nor changes ownership. *)
Lemma lock_arc_run {W E A} l a (c : eff (T * W) E A) s :
  owned l s.1 → a ∈ l →
  owned l (lock_arc a c s).2.1 ∧ ∀ msg, (lock_arc a c s).1 ≠ Err (Panic msg).
Proof.
  intros Ho Ha. destruct (owned_live _ _ _ Ho Ha) as [i Hi]. unfold lock_arc. rewrite Hi.
  destruct (c _) as [r [t w]]. simpl. split; [by apply owned_update|by destruct r].
Qed.

Lemma lock_arc_counts {W E A} a (c : eff (T * W) E A) s b :
  arc_count (lock_arc a c s).2.1 b = arc_count s.1 b.
Proof.
  unfold lock_arc, arc_count. destruct (s.1 !! a) as [i|] eqn:Hi; [|done].
  destruct (c _) as [r [t w]]. simpl. destruct (decide (a = b)) as [<-|Hne].
  - by rewrite lookup_insert_eq, Hi.
  - by rewrite lookup_insert_ne.
Qed.

Lemma arc_into_inner_unique l h a :
  owned (a :: l) h → a ∉ l → ∃ t, arc_into_inner a h = (Some t, arc_drop a h) ∧
    ∃ i, h !! a = Some i ∧ t = arc_value i.
Proof.
  intros Ho Ha. destruct (owned_live _ _ a Ho) as [i Hi]; [by left|].
  destruct (Ho a) as [Hc _]. unfold arc_count in Hc. rewrite Hi in Hc. simpl in Hc.
  destruct (N.eq_dec a a) as [_|]; [|done].
  rewrite (proj1 (count_occ_not_In N.eq_dec l a)) in Hc
    by by rewrite <-list_elem_of_In.
  exists (arc_value i). split; [|eauto]. unfold arc_into_inner. rewrite Hi. simpl.
  by rewrite bool_decide_true.
Qed.

(** A count of one means that nobody else owns the object. *)
Lemma owned_count_one l h a : owned (a :: l) h → arc_count h a = 1 → a ∉ l.
Proof.
  intros Ho Hone. destruct (Ho a) as [Hc _]. simpl in Hc.
  destruct (N.eq_dec a a) as [_|]; [|done].
  rewrite list_elem_of_In, (count_occ_not_In N.eq_dec). lia.
Qed.

End arcs.
