(* ===== verification/WardenDaemon.v ===== *)
(** * The warden: the table of realms

    [warden_daemon/src/managers/warden_manager.rs].  The warden owns the table
    of realms; each realm lives behind an [Arc<Mutex<_>>] that client tasks
    clone while they work on the realm. *)

From S2P Require Import Prelude Managers Traits Arc.

(** ** The trait *)

Section shared.
Context {W Rl D : Type}.

(** The state around a warden [D]: the realms its clients share, and the world. *)
Abbreviation Shared := (Arcs Rl * W)%type.
Abbreviation St := (D * Shared)%type.

(** Parts of the state a step works on. *)
Definition shared_lens : lens St Shared := snd_lens.
Definition world_lens : lens St W :=
  Lens (λ s, s.2.2) (λ w s, (s.1, (s.2.1, w))).

(** End of a client's scope: its clone is dropped. *)
Definition drop_realm (a : ArcId) (s : St) : St := (s.1, (arc_drop a s.2.1, s.2.2)).
End shared.

(** [managers/warden.rs]: the trait [Warden].  The caller of [get_realm] owns the
    reference it gets. *)
Class Warden (W Rl D : Type) := {
  warden_create_realm : option Uuid → RealmConfig → eff (D * (Arcs Rl * W)) (fault WardenError) Uuid;
  warden_destroy_realm : Uuid → eff (D * (Arcs Rl * W)) (fault WardenError) unit;
  warden_get_realm : Uuid → eff (D * (Arcs Rl * W)) (fault WardenError) ArcId;
  warden_inspect_realm : Uuid → eff (D * (Arcs Rl * W)) (fault WardenError) RealmDescription;
  warden_list_realms : eff (D * (Arcs Rl * W)) (fault WardenError) (list RealmDescription) }.

(** ** The implementation *)

Record WardenDaemon (F : Type) := mkWardenDaemon {
  realm_fabric : F;
  realms_managers : gmap Uuid ArcId }.
Arguments mkWardenDaemon {F} _ _.
Arguments realm_fabric {F} _.
Arguments realms_managers {F} _.

Section warden.
Context {W Rl H F : Type}.
Context `{!Realm W Rl H, !RealmCreator W Rl F, !Runtime W, !UuidApi}.

(** The daemon's state: the warden, the realms its clients share, the world. *)
Abbreviation Shared := (Arcs Rl * W)%type.
Abbreviation St := (WardenDaemon F * Shared)%type.

(** [WardenDaemon::new]. *)
Definition new (realms : gmap Uuid ArcId) (rm_fabric : F) : WardenDaemon F :=
  mkWardenDaemon rm_fabric realms.

Definition set_realms (m : gmap Uuid ArcId) (d : WardenDaemon F) : WardenDaemon F :=
  mkWardenDaemon (realm_fabric d) m.

Definition fallible {S E A} (c : eff S E A) : eff S (fault E) A := map_err Fail c.

Definition find_realm (realm_uuid : Uuid) : eff St (fault WardenError) ArcId :=
  with_state (λ s, try_r (ok_or (realms_managers s.1 !! realm_uuid)
    (Fail (NoSuchRealm realm_uuid)))).

Definition realm_data_of (a : ArcId) : eff St (fault WardenError) RealmData :=
  map_err (map_fault (λ err, RealmInspect (RealmError_to_string err)))
    (zoom shared_lens (lock_arc a realm_get_realm_data)).

(** [ensure_realm_can_be_deleted]: first the reference count ... *)
Definition ensure_not_busy (realm_uuid : Uuid) : eff St (fault WardenError) ArcId :=
  realm ← find_realm realm_uuid;
  count ← gets (λ s, arc_count s.2.1 realm);
  if bool_decide (count ≠ 1) then throw (Fail RealmIsBusy) else mret realm.

(** ... then, under the realm's lock, its state. *)
Definition ensure_halted (realm : ArcId) : eff St (fault WardenError) unit :=
  realm_state ← realm_data_of realm;
  if bool_decide (state realm_state ≠ Halted) then
    throw (Fail (DestroyFail "Can't destroy realm that isn't stopped."))
  else mret tt.

Definition ensure_realm_can_be_deleted (realm_uuid : Uuid) : eff St (fault WardenError) unit :=
  realm ← ensure_not_busy realm_uuid;
  ensure_halted realm.

(** Run a computation of the runtime or the fabric on the world. *)
Definition fresh_uuid : eff St (fault WardenError) Uuid := λ s,
  let '(u, w) := new_v4 s.2.2 in (Ok u, (s.1, (s.2.1, w))).
Definition alloc_arc (r : Rl) : eff St (fault WardenError) ArcId := λ s,
  let '(a, h) := arc_new r s.2.1 in (Ok a, (s.1, (h, s.2.2))).

(** [Warden::create_realm]; [unwrap_or] evaluates its argument eagerly. *)
Definition create_realm (id : option Uuid) (config : RealmConfig)
    : eff St (fault WardenError) Uuid :=
  random ← fresh_uuid;
  let uuid := default random id in
  known ← gets (λ s, bool_decide (is_Some (realms_managers s.1 !! uuid)));
  if known : bool then throw (Fail (RealmExists uuid))
  else
    fabric ← gets (λ s : St, realm_fabric s.1);
    realm ← fallible (zoom world_lens (fabric_create_realm fabric uuid config));
    a ← alloc_arc realm;
    modify (λ s, (set_realms (<[uuid := a]> (realms_managers s.1)) s.1, s.2));;
    mret uuid.

(** [Arc::into_inner] on the shared heap. *)
Definition take_arc (a : ArcId) : eff St (fault WardenError) (option Rl) := λ s,
  let '(o, h) := arc_into_inner a s.2.1 in (Ok o, (s.1, (h, s.2.2))).

(** The realm, owned now, is destroyed and dropped; its outcome is ignored. *)
Definition destroy_owned (r : Rl) : eff St (fault WardenError) unit := λ s,
  let '(_, (_, w)) := realm_destroy (r, s.2.2) in (Ok tt, (s.1, (s.2.1, w))).

(** The rest of [Warden::destroy_realm], after the checks. *)
Definition remove_realm (realm_uuid : Uuid) : eff St (fault WardenError) unit :=
  realm ← find_realm realm_uuid;
  modify (λ s, (set_realms (delete realm_uuid (realms_managers s.1)) s.1, s.2));;
  owned_realm ← take_arc realm;
  match owned_realm with
  | None => throw (Panic "At this point Arc must be owned!")
  | Some realm =>
      destroy_owned realm;;
      fabric ← gets (λ s : St, realm_fabric s.1);
      fallible (zoom world_lens (fabric_clean_up_realm fabric realm_uuid))
  end.

(** [Warden::destroy_realm]. *)
Definition destroy_realm (realm_uuid : Uuid) : eff St (fault WardenError) unit :=
  ensure_realm_can_be_deleted realm_uuid;;
  remove_realm realm_uuid.

(** [Warden::list_realms]. *)
Definition list_realms : eff St (fault WardenError) (list RealmDescription) :=
  entries ← gets (λ s, map_to_list (realms_managers s.1));
  map_eff (λ e : Uuid * ArcId,
    data ← realm_data_of e.2;
    mret (mkRealmDescription e.1 data)) entries.

(** [Warden::inspect_realm]. *)
Definition inspect_realm (realm_uuid : Uuid) : eff St (fault WardenError) RealmDescription :=
  found ← gets (λ s, realms_managers s.1 !! realm_uuid);
  match found with
  | Some realm_manager =>
      data ← realm_data_of realm_manager;
      mret (mkRealmDescription realm_uuid data)
  | None => throw (Fail (NoSuchRealm realm_uuid))
  end.

(** [Warden::get_realm]: the caller owns the clone it gets. *)
Definition get_realm (realm_uuid : Uuid) : eff St (fault WardenError) ArcId :=
  realm ← find_realm realm_uuid;
  modify (λ s, (s.1, (arc_clone realm s.2.1, s.2.2)));;
  mret realm.

#[global] Instance WardenDaemon_warden : Warden W Rl (WardenDaemon F) := {|
  warden_create_realm := create_realm;
  warden_destroy_realm := destroy_realm;
  warden_get_realm := get_realm;
  warden_inspect_realm := inspect_realm;
  warden_list_realms := list_realms |}.

(** ** Ownership of the realms

    Between two calls the references to realms are those of the table and
    those the client tasks hold. *)

Definition table_refs (d : WardenDaemon F) : list ArcId := (map_to_list (realms_managers d)).*2.
Definition refs_ok (held : list ArcId) (s : St) : Prop := owned (table_refs s.1 ++ held) s.2.1.

Lemma table_refs_elem d u a : realms_managers d !! u = Some a → a ∈ table_refs d.
Proof.
  intros Hu. apply list_elem_of_fmap. exists (u, a). split; [done|].
  by apply elem_of_map_to_list.
Qed.

Lemma table_refs_insert d u a :
  realms_managers d !! u = None →
  table_refs (set_realms (<[u := a]> (realms_managers d)) d) ≡ₚ a :: table_refs d.
Proof. intros Hu. unfold table_refs. simpl. by rewrite (map_to_list_insert _ _ _ Hu). Qed.

Lemma table_refs_delete d u a :
  realms_managers d !! u = Some a →
  table_refs d ≡ₚ a :: table_refs (set_realms (delete u (realms_managers d)) d).
Proof. intros Hu. unfold table_refs. simpl. by rewrite <-(map_to_list_delete _ _ _ Hu). Qed.

Lemma find_realm_run u s r s' :
  find_realm u s = (r, s') →
  s' = s ∧ r = ok_or (realms_managers s.1 !! u) (Fail (NoSuchRealm u)).
Proof. unfold find_realm, with_state, try_r. intros; by simplify_eq. Qed.

Definition no_panic {E A} (r : result A (fault E)) : Prop := ∀ msg, r ≠ Err (Panic msg).

Lemma realm_data_of_run held a s r s' :
  realm_data_of a s = (r, s') → refs_ok held s → a ∈ table_refs s.1 ++ held →
  s'.1 = s.1 ∧ refs_ok held s' ∧ no_panic r ∧ ∀ b, arc_count s'.2.1 b = arc_count s.2.1 b.
Proof.
  unfold realm_data_of, map_err. intros Hrun Hok Ha.
  destruct (zoom _ _ s) as [r0 s0] eqn:Hz. simplify_eq. apply zoom_inv in Hz as (t&Hl&->).
  destruct (lock_arc_run _ a realm_get_realm_data s.2 Hok Ha) as [Ho Hp].
  pose proof (lock_arc_counts a realm_get_realm_data s.2) as Hcnt.
  simpl in Hl. rewrite Hl in Ho, Hp, Hcnt. simpl in *. split_and!; [done..| |done].
  intros msg. destruct r0 as [|[]]; try done. by specialize (Hp msg0).
Qed.

Lemma get_realm_run held u s a s' :
  get_realm u s = (Ok a, s') → refs_ok held s →
  s'.1 = s.1 ∧ realms_managers s.1 !! u = Some a ∧ refs_ok (a :: held) s'.
Proof.
  unfold get_realm. intros Hrun Hok. apply bind_ok_inv in Hrun as (b&s1&H1&Hrun).
  apply find_realm_run in H1 as [-> Hl]. run_inv.
  destruct (realms_managers s.1 !! u) as [b|] eqn:Hu; [|done]. simplify_eq/=.
  split_and!; [done..|]. unfold refs_ok. simpl.
  eapply owned_perm; [|apply owned_clone; [exact Hok|]].
  - by rewrite Permutation_middle.
  - eapply owned_live; [exact Hok|]. apply elem_of_app. left. by eapply table_refs_elem.
Qed.

Lemma drop_realm_run held a s : refs_ok (a :: held) s → refs_ok held (drop_realm a s).
Proof.
  intros Hok. unfold refs_ok. simpl. apply owned_drop.
  eapply owned_perm; [|exact Hok]. by rewrite Permutation_middle.
Qed.

(** ** Effect of the operations on the table and its references *)

(** The simple parts of a conjunction of facts about a run. *)
Ltac parts := split_and!; try done; try (by intros ?); try (by eauto).

Lemma alloc_arc_run x s :
  alloc_arc x s = (Ok (arc_new x s.2.1).1, (s.1, ((arc_new x s.2.1).2, s.2.2))).
Proof. unfold alloc_arc. by destruct (arc_new x s.2.1). Qed.

Lemma take_arc_run a s o h :
  arc_into_inner a s.2.1 = (o, h) → take_arc a s = (Ok o, (s.1, (h, s.2.2))).
Proof. unfold take_arc. by intros ->. Qed.

Lemma destroy_owned_run r s : ∃ w, destroy_owned r s = (Ok tt, (s.1, (s.2.1, w))).
Proof. unfold destroy_owned. destruct (realm_destroy _) as [? [? w]]. by exists w. Qed.

Lemma create_realm_run held id config s r s' :
  create_realm id config s = (r, s') → refs_ok held s →
  refs_ok held s' ∧ no_panic r ∧
  match r with
  | Ok u => default (new_v4 s.2.2).1 id = u ∧ realms_managers s.1 !! u = None ∧
      ∃ a, realms_managers s'.1 = <[u := a]> (realms_managers s.1)
  | Err _ => s'.1 = s.1
  end.
Proof.
  unfold create_realm, fresh_uuid. intros Hrun Hok.
  destruct (new_v4 s.2.2) as [ru w0] eqn:Hnew. simpl.
  rewrite (bind_ok _ _ _ ru (s.1, (s.2.1, w0))) in Hrun by by rewrite Hnew.
  set (u := default ru id) in *. run_gets Hrun.
  case_bool_decide as Hu; [run_inv; by parts|]. run_gets Hrun. apply eq_None_not_Some in Hu.
  run_split Hrun as x s1 Hx.
  { unfold fallible in Hrun. run_inv. by parts. }
  apply map_err_ok, zoom_inv in Hx as (w1&_&->). simpl in Hrun.
  rewrite (bind_ok _ _ _ _ _ (alloc_arc_run _ _)) in Hrun. run_gets Hrun. run_inv. parts.
  unfold refs_ok. simpl.
  eapply owned_perm; [symmetry; apply Permutation_app_tail, (table_refs_insert _ _ _ Hu)|].
  apply (owned_new _ _ x Hok).
Qed.

Lemma remove_realm_run held u a s r s' :
  remove_realm u s = (r, s') → refs_ok held s →
  realms_managers s.1 !! u = Some a → arc_count s.2.1 a = 1 →
  refs_ok held s' ∧ no_panic r ∧ realms_managers s'.1 = delete u (realms_managers s.1).
Proof.
  unfold remove_realm. intros Hrun Hok Hu Hone.
  rewrite (bind_ok _ _ _ a s) in Hrun by (unfold find_realm, with_state, try_r; by rewrite Hu).
  run_gets Hrun. set (d := set_realms _ _) in Hrun.
  assert (owned (a :: table_refs d ++ held) s.2.1) as Ho.
  { eapply owned_perm; [|exact Hok]. by rewrite (table_refs_delete _ _ _ Hu). }
  pose proof (owned_count_one _ _ _ Ho Hone) as Hnin.
  destruct (arc_into_inner_unique _ _ _ Ho Hnin) as (t&Ht&_).
  rewrite (bind_ok _ _ _ (Some t) (d, (arc_drop a s.2.1, s.2.2))) in Hrun
    by by apply (take_arc_run _ (d, s.2)).
  apply owned_drop in Ho. simpl in Hrun.
  destruct (destroy_owned_run t (d, (arc_drop a s.2.1, s.2.2))) as [w1 Hd].
  rewrite (bind_ok _ _ _ _ _ Hd) in Hrun. simpl in Hrun.
  run_gets Hrun. unfold fallible, map_err in Hrun. destruct (zoom _ _ _) as [r0 s0] eqn:Hz.
  simplify_eq. apply zoom_inv in Hz as (?&_&->). parts. by destruct r0.
Qed.

Lemma ensure_not_busy_run u s r s' :
  ensure_not_busy u s = (r, s') →
  s' = s ∧ no_panic r ∧
  (∀ a, r = Ok a → realms_managers s.1 !! u = Some a ∧ arc_count s.2.1 a = 1).
Proof.
  unfold ensure_not_busy. intros Hrun. run_split Hrun as a s1 H1.
  - apply find_realm_run in Hrun as [-> Hr]. split; [done|].
    destruct (realms_managers s.1 !! u); [done|]. simplify_eq/=. by parts.
  - apply find_realm_run in H1 as [-> Hr].
    destruct (realms_managers s.1 !! u); [|done]. simplify_eq/=. run_gets Hrun.
    case_bool_decide; run_inv; parts. by intros ? [= <-].
Qed.

Lemma ensure_halted_run held a s r s' :
  ensure_halted a s = (r, s') → refs_ok held s → a ∈ table_refs s.1 ++ held →
  s'.1 = s.1 ∧ refs_ok held s' ∧ no_panic r ∧ ∀ b, arc_count s'.2.1 b = arc_count s.2.1 b.
Proof.
  unfold ensure_halted. intros Hrun Hok Ha. run_split Hrun as data s1 H1.
  - eapply realm_data_of_run in Hrun as (?&?&Hp&?); [|done..]. parts.
    intros msg [= ->]. by destruct (Hp msg).
  - eapply realm_data_of_run in H1 as (?&?&?&?); [|done..].
    case_bool_decide; run_inv; by parts.
Qed.

Lemma destroy_realm_run held u s r s' :
  destroy_realm u s = (r, s') → refs_ok held s →
  refs_ok held s' ∧ no_panic r ∧
  (realms_managers s'.1 = realms_managers s.1 ∧ is_err r = true ∨
   realms_managers s'.1 = delete u (realms_managers s.1) ∧ is_Some (realms_managers s.1 !! u)).
Proof.
  unfold destroy_realm, ensure_realm_can_be_deleted. intros Hrun Hok.
  run_split Hrun as [] s1 H1; [run_split Hrun as a s1 H1|].
  - apply ensure_not_busy_run in Hrun as (->&Hp&_). parts.
    intros msg [= ->]. by destruct (Hp msg).
  - apply ensure_not_busy_run in H1 as (->&_&Ha). destruct (Ha a) as [Hu _]; [done|].
    eapply ensure_halted_run in Hrun as (->&?&?&_); [by parts|done|].
    apply elem_of_app. left. by eapply table_refs_elem.
  - apply bind_ok_inv in H1 as (a&s2&H2&H1).
    apply ensure_not_busy_run in H2 as (->&_&Ha). destruct (Ha a) as [Hu Hone]; [done|].
    eapply ensure_halted_run in H1 as (Hs1&?&_&Hcnt); [|done|].
    2:{ apply elem_of_app. left. by eapply table_refs_elem. }
    eapply (remove_realm_run _ _ a) in Hrun as (?&?&?); [|done|congruence|by rewrite Hcnt].
    rewrite <-Hs1. split_and!; [done..|]. right. rewrite Hs1, Hu. split; [congruence|done].
Qed.

Lemma data_of_all_run held (entries : list (Uuid * ArcId)) s r s' :
  map_eff (λ e : Uuid * ArcId,
    data ← realm_data_of e.2; mret (mkRealmDescription e.1 data)) entries s = (r, s') →
  refs_ok held s → (∀ e, e ∈ entries → e.2 ∈ table_refs s.1) →
  s'.1 = s.1 ∧ refs_ok held s' ∧ no_panic r.
Proof.
  revert s r s'. induction entries as [|e entries IH]; intros s r s' Hrun Hok Hin; simpl in Hrun.
  { run_inv. by parts. }
  assert (e.2 ∈ table_refs s.1 ++ held) as He by (apply elem_of_app; left; apply Hin; by left).
  run_split Hrun as d s1 H1.
  { apply bind_err_inv in Hrun as [Hrun|(?&?&_&?)]; [|by run_inv].
    eapply realm_data_of_run in Hrun as (?&?&Hp&_); [|done..]. parts.
    intros msg [= ->]. by destruct (Hp msg). }
  apply bind_ok_inv in H1 as (data&s2&H1&H2). run_inv.
  eapply realm_data_of_run in H1 as (Hs1&Hok1&_); [|done..].
  rewrite <-Hs1. run_split Hrun as ds s2 H2.
  - apply IH in Hrun as (?&?&Hp); [|done|].
    + by parts.
    + intros e' He'. rewrite Hs1. apply Hin. by right.
  - apply IH in H2 as (?&?&?); [|done|]; [run_inv; by parts|].
    intros e' He'. rewrite Hs1. apply Hin. by right.
Qed.

Lemma list_realms_run held s r s' :
  list_realms s = (r, s') → refs_ok held s → s'.1 = s.1 ∧ refs_ok held s' ∧ no_panic r.
Proof.
  unfold list_realms. intros Hrun Hok. run_gets Hrun.
  eapply data_of_all_run in Hrun; [done..|]. intros [u a] Hin%elem_of_map_to_list.
  by eapply table_refs_elem.
Qed.

Lemma inspect_realm_run held u s r s' :
  inspect_realm u s = (r, s') → refs_ok held s → s'.1 = s.1 ∧ refs_ok held s' ∧ no_panic r.
Proof.
  unfold inspect_realm. intros Hrun Hok. run_gets Hrun.
  destruct (realms_managers s.1 !! u) as [a|] eqn:Hu; [|run_inv; by parts].
  assert (a ∈ table_refs s.1 ++ held) as Ha
    by (apply elem_of_app; left; by eapply table_refs_elem).
  run_split Hrun as data s1 H1.
  - eapply realm_data_of_run in Hrun as (?&?&Hp&_); [|done..]. parts.
    intros msg [= ->]. by destruct (Hp msg).
  - eapply realm_data_of_run in H1 as (?&?&_&_); [|done..]. run_inv. by parts.
Qed.

Lemma ensure_halted_ok a s s' :
  ensure_halted a s = (Ok tt, s') → ∃ i data,
    s.2.1 !! a = Some i ∧ (realm_get_realm_data (arc_value i, s.2.2)).1 = Ok data ∧
    state data = Halted.
Proof.
  unfold ensure_halted, realm_data_of. intros Hrun.
  apply bind_ok_inv in Hrun as (data&s1&H1&Hrun). apply map_err_ok, zoom_inv in H1 as (t&H1&_).
  unfold lock_arc in H1. simpl in H1. destruct (s.2.1 !! a) as [i|]; [|done].
  exists i, data. split; [done|]. destruct (realm_get_realm_data _) as [r [t' w]]. simplify_eq/=.
  destruct r; simplify_eq/=. split; [done|]. by case_bool_decide; [run_inv|].
Qed.

(** ** Theorems *)

(** C26.  Creating a realm never replaces one: the new realm gets the requested
    identifier (or a random one) only if that is free, every other entry stays,
    and a failing creation leaves the table as it was. *)
Theorem create_realm_never_replaces held id config s :
  refs_ok held s →
  match create_realm id config s with
  | (Ok u, s') => default (new_v4 s.2.2).1 id = u ∧ realms_managers s.1 !! u = None ∧
      ∃ a, realms_managers s'.1 = <[u := a]> (realms_managers s.1)
  | (Err (Fail _), s') => realms_managers s'.1 = realms_managers s.1
  | (Err (Panic _), _) => False
  end.
Proof.
  intros Hok. destruct (create_realm id config s) as [r s'] eqn:Hrun.
  eapply create_realm_run in Hrun as (_&Hp&Hr); [|exact Hok].
  destruct r as [u|[e|msg]]; [done|by rewrite Hr|by apply (Hp msg)].
Qed.

(** C27.  A realm is destroyed only when it exists, no client works on it (the
    table's reference is the only one) and it reports to be halted; exactly its
    entry leaves the table.  A refused request leaves the table alone; the
    entry is also gone when only the removal of the realm's directory fails. *)
Theorem destroy_realm_only_idle_halted held u s :
  refs_ok held s →
  match destroy_realm u s with
  | (Ok _, s') => ∃ a i data,
      realms_managers s.1 !! u = Some a ∧ s.2.1 !! a = Some i ∧ strong_count i = 1 ∧
      (realm_get_realm_data (arc_value i, s.2.2)).1 = Ok data ∧ state data = Halted ∧
      realms_managers s'.1 = delete u (realms_managers s.1)
  | (Err (Fail _), s') => realms_managers s'.1 = realms_managers s.1 ∨
      realms_managers s'.1 = delete u (realms_managers s.1)
  | (Err (Panic _), _) => False
  end.
Proof.
  intros Hok. destruct (destroy_realm u s) as [r s'] eqn:Hrun.
  pose proof (destroy_realm_run _ _ _ _ _ Hrun Hok) as (_&Hp&Hr).
  destruct r as [[]|[e|msg]]; [|naive_solver|by apply (Hp msg)].
  destruct Hr as [[_ ?]|[Ht _]]; [done|].
  unfold destroy_realm, ensure_realm_can_be_deleted in Hrun.
  apply bind_ok_inv in Hrun as ([]&s1&H1&_). apply bind_ok_inv in H1 as (a&s2&H2&H1).
  apply ensure_not_busy_run in H2 as (->&_&Ha). destruct (Ha a eq_refl) as [Hu Hone].
  apply ensure_halted_ok in H1 as (i&data&Hi&Hd&Hst). exists a, i, data.
  unfold arc_count in Hone. rewrite Hi in Hone. done.
Qed.

End warden.
