(* ===== verification/WardenTasks.v ===== *)
(** * Client tasks working on shared realms

    Every client connection is a task of its own; the tasks share the warden
    behind one lock and the realms behind their [Arc]s.  A task either works on
    a realm it obtained by [get_realm] (without the warden's lock), or performs
    an operation of the warden (holding the lock).  [destroy_realm] has points
    at which other tasks may run: after the check of the reference count and
    after the check of the realm's state.  The step relation interleaves the
    tasks at these points; [Warden] methods without such a point that matters
    are one step. *)

From S2P Require Import Prelude Managers Traits Arc WardenDaemon.

Inductive Task :=
| Idle
| Holding (realm : ArcId)
| Counted (uuid : Uuid) (realm : ArcId)
| Checked (uuid : Uuid) (realm : ArcId)
| Panicked.

(** The task is inside [destroy_realm] and owns the warden's lock. *)
Definition locks_warden (t : Task) : bool :=
  match t with Counted _ _ | Checked _ _ => true | _ => false end.
Definition deleting (t : Task) : option (Uuid * ArcId) :=
  match t with Counted u a | Checked u a => Some (u, a) | _ => None end.
Definition handle_of (t : Task) : option ArcId :=
  match t with Holding a => Some a | _ => None end.

(** The task after a step of [destroy_realm] that ended its call. *)
Definition after_call {A} (r : result A (fault WardenError)) : Task :=
  match r with Err (Panic _) => Panicked | _ => Idle end.

Section tasks.
Context {W Rl H F : Type}.
Context `{!Realm W Rl H, !RealmCreator W Rl F, !Runtime W, !UuidApi}.

Abbreviation St := (WardenDaemon F * (Arcs Rl * W))%type.
Abbreviation System := (St * list Task)%type.

Definition unlocked (ts : list Task) : Prop := ∀ i t, ts !! i = Some t → locks_warden t = false.
Definition handles (ts : list Task) : list ArcId := omap handle_of ts.

Inductive task_step : System → System → Prop :=
| step_create s ts i id config :
    ts !! i = Some Idle → unlocked ts →
    task_step (s, ts) ((create_realm id config s).2, ts)
| step_list s ts i :
    ts !! i = Some Idle → unlocked ts →
    task_step (s, ts) ((list_realms s).2, ts)
| step_inspect s ts i u :
    ts !! i = Some Idle → unlocked ts →
    task_step (s, ts) ((inspect_realm u s).2, ts)
| step_get s ts i u a s' :
    ts !! i = Some Idle → unlocked ts → get_realm u s = (Ok a, s') →
    task_step (s, ts) (s', <[i := Holding a]> ts)
| step_call s ts i a (method : eff (Rl * W) unit unit) :
    ts !! i = Some (Holding a) →
    task_step (s, ts) ((zoom shared_lens (lock_arc a method) s).2, ts)
| step_drop s ts i a :
    ts !! i = Some (Holding a) →
    task_step (s, ts) (drop_realm a s, <[i := Idle]> ts)
| step_count s ts i u a s' :
    ts !! i = Some Idle → unlocked ts → ensure_not_busy u s = (Ok a, s') →
    task_step (s, ts) (s', <[i := Counted u a]> ts)
| step_check s ts i u a r s' :
    ts !! i = Some (Counted u a) → ensure_halted a s = (r, s') →
    task_step (s, ts) (s', <[i := if is_ok r then Checked u a else after_call r]> ts)
| step_remove s ts i u a r s' :
    ts !! i = Some (Checked u a) → remove_realm u s = (r, s') →
    task_step (s, ts) (s', <[i := after_call r]> ts).

(** ** The invariant *)

Record tasks_ok (x : System) : Prop := {
  ok_refs : refs_ok (handles x.2) x.1;
  ok_listed : ∀ a, a ∈ handles x.2 → a ∈ table_refs x.1.1;
  ok_deleting : ∀ i t u a, x.2 !! i = Some t → deleting t = Some (u, a) →
    realms_managers x.1.1 !! u = Some a ∧ arc_count x.1.2.1 a = 1;
  ok_exclusive : ∀ i j t t', x.2 !! i = Some t → x.2 !! j = Some t' →
    locks_warden t = true → locks_warden t' = true → i = j;
  ok_alive : Panicked ∉ x.2 }.

Lemma deleting_locks t : locks_warden t = true ↔ is_Some (deleting t).
Proof. destruct t; simpl; split; try done; by intros []. Qed.

Lemma elem_of_update (l : list Task) i t t0 : t0 ∈ <[i := t]> l → t0 = t ∨ t0 ∈ l.
Proof.
  intros [j Hj]%list_elem_of_lookup. destruct (decide (j = i)) as [->|Hne].
  - destruct (decide (i < length l)) as [Hlt|Hge].
    + rewrite list_lookup_insert_eq in Hj by done. left. by simplify_eq.
    + rewrite list_insert_ge in Hj by lia. right. by eapply list_elem_of_lookup_2.
  - rewrite list_lookup_insert_ne in Hj by done. right. by eapply list_elem_of_lookup_2.
Qed.

(** How a change of one task changes the handles held. *)
Lemma handles_update ts i t t' :
  ts !! i = Some t → ∃ rest,
    handles ts ≡ₚ option_list (handle_of t) ++ rest ∧
    handles (<[i := t']> ts) ≡ₚ option_list (handle_of t') ++ rest.
Proof.
  intros Hi. exists (handles (take i ts) ++ handles (drop (S i) ts)).
  assert (i < length ts) as Hlt by by eapply lookup_lt_Some.
  split.
  - rewrite <-(take_drop_middle ts i t Hi) at 1. unfold handles. rewrite omap_app. simpl.
    destruct (handle_of t); simpl; [|done]. by rewrite Permutation_middle.
  - rewrite (insert_take_drop _ _ _ Hlt). unfold handles. rewrite omap_app. simpl.
    destruct (handle_of t'); simpl; [|done]. by rewrite Permutation_middle.
Qed.

Lemma handles_elem ts i t a : ts !! i = Some t → handle_of t = Some a → a ∈ handles ts.
Proof.
  intros Hi Ha. apply list_elem_of_omap. exists t. split; [by eapply list_elem_of_lookup_2|done].
Qed.

(** The counts of the realms being deleted, from the references alone. *)
Lemma count_from_refs held (s : St) a :
  refs_ok held s → arc_count s.2.1 a = count_occ N.eq_dec (table_refs s.1) a +
                                       count_occ N.eq_dec held a.
Proof. intros Hok. destruct (Hok a) as [-> _]. by rewrite count_occ_app. Qed.

Lemma refs_ok_perm held held' (s : St) : held ≡ₚ held' → refs_ok held s → refs_ok held' s.
Proof. intros Hp. apply owned_perm. by rewrite Hp. Qed.

Lemma table_refs_count d u (a : ArcId) :
  realms_managers (F := F) d !! u = Some a → 0 < count_occ N.eq_dec (table_refs d) a.
Proof. intros Hu. apply count_occ_In, list_elem_of_In. by eapply table_refs_elem. Qed.

(** The parts of the invariant about the tasks, after one task changed from
    [t] to [t'] while no other task was inside [destroy_realm], or while [t]
    itself was. *)
Lemma update_task (s s' : St) ts i t t' :
  tasks_ok (s, ts) → ts !! i = Some t → (unlocked ts ∨ locks_warden t = true) → t' ≠ Panicked →
  refs_ok (handles (<[i := t']> ts)) s' →
  (∀ a, a ∈ handles (<[i := t']> ts) → a ∈ table_refs s'.1) →
  (∀ u a, deleting t' = Some (u, a) →
    realms_managers s'.1 !! u = Some a ∧ arc_count s'.2.1 a = 1) →
  tasks_ok (s', <[i := t']> ts).
Proof.
  intros Hok Hi Hlock Hp Hrefs Hlisted Hdel.
  assert (∀ j t0, j ≠ i → ts !! j = Some t0 → locks_warden t0 = false) as Hothers.
  { intros j t0 Hne Hj. destruct Hlock as [Hun|Hl]; [by eapply Hun|].
    destruct (locks_warden t0) eqn:Hl0; [|done]. destruct Hne. by eapply ok_exclusive. }
  assert (∀ j t0, <[i := t']> ts !! j = Some t0 → locks_warden t0 = true → j = i ∧ t0 = t') as Hwho.
  { intros j t0 Hj Hl. destruct (decide (j = i)) as [->|Hne].
    - rewrite list_lookup_insert_eq in Hj by (by eapply lookup_lt_Some). by simplify_eq.
    - rewrite list_lookup_insert_ne in Hj by done. by rewrite (Hothers j t0) in Hl. }
  split; simpl; [done..| | |].
  - intros j t0 u a Hj Hd. destruct (Hwho j t0) as [-> ->]; [done| |by apply Hdel].
    apply deleting_locks. eauto.
  - intros j k t0 t1 Hj Hk Hl0 Hl1. destruct (Hwho j t0), (Hwho k t1); congruence.
  - intros [Heq|Hin]%elem_of_update; [done|]. by apply (ok_alive _ Hok).
Qed.

(** The same for a step that leaves the tasks as they are. *)
Lemma same_tasks (s s' : St) ts :
  tasks_ok (s, ts) → refs_ok (handles ts) s' →
  (∀ a, a ∈ table_refs s.1 → a ∈ table_refs s'.1) →
  (unlocked ts ∨ s'.1 = s.1 ∧ ∀ b, arc_count s'.2.1 b = arc_count s.2.1 b) →
  tasks_ok (s', ts).
Proof.
  intros Hok Hrefs Hmono Hl. split; simpl; [done|..].
  - intros a Ha. by apply Hmono, (ok_listed _ Hok).
  - intros i t u a Hi Hd. destruct Hl as [Hun|[-> Hc]].
    + apply Hun in Hi. assert (locks_warden t = true) by (apply deleting_locks; eauto). congruence.
    + rewrite Hc. by eapply (ok_deleting _ Hok).
  - apply (ok_exclusive _ Hok).
  - apply (ok_alive _ Hok).
Qed.

Lemma handles_neutral ts i t t' :
  ts !! i = Some t → handle_of t = None → handle_of t' = None →
  handles (<[i := t']> ts) ≡ₚ handles ts.
Proof.
  intros Hi Ht Ht'. destruct (handles_update ts i t t' Hi) as (rest&->&->). by rewrite Ht, Ht'.
Qed.

(** ** Every step keeps the invariant *)

Lemma step_create_ok s ts id config :
  tasks_ok (s, ts) → unlocked ts → tasks_ok ((create_realm id config s).2, ts).
Proof.
  intros Hok Hun. destruct (create_realm id config s) as [r s'] eqn:Hrun.
  eapply create_realm_run in Hrun as (Hrefs&_&Hr); [|apply (ok_refs _ Hok)].
  eapply same_tasks; [done|done| |by left]. intros a Ha. simpl.
  destruct r as [u|e]; [|by rewrite Hr]. destruct Hr as (_&Hu&b&Hb).
  replace s'.1 with (set_realms (<[u := b]> (realms_managers s.1)) s'.1)
    by (rewrite <-Hb; by destruct s'.1).
  unfold table_refs in *. simpl. rewrite (map_to_list_insert _ _ _ Hu). by right.
Qed.

Lemma step_get_ok s ts i u a s' :
  tasks_ok (s, ts) → ts !! i = Some Idle → unlocked ts → get_realm u s = (Ok a, s') →
  tasks_ok (s', <[i := Holding a]> ts).
Proof.
  intros Hok Hi Hun Hg. eapply get_realm_run in Hg as (Hs&Hu&Hrefs); [|apply (ok_refs _ Hok)].
  destruct (handles_update ts i Idle (Holding a) Hi) as (rest&Hold&Hnew). simpl in Hold, Hnew.
  eapply update_task; [done|done|by left|done| | |done].
  - eapply refs_ok_perm; [|exact Hrefs]. simpl. by rewrite Hold, Hnew.
  - intros b. rewrite Hnew, Hs, <-Hold. intros [->|Hb]%elem_of_cons.
    + by eapply table_refs_elem.
    + by apply (ok_listed _ Hok).
Qed.

Lemma step_call_ok s ts i a (method : eff (Rl * W) unit unit) :
  tasks_ok (s, ts) → ts !! i = Some (Holding a) →
  tasks_ok ((zoom shared_lens (lock_arc a method) s).2, ts).
Proof.
  intros Hok Hi. destruct (zoom shared_lens _ s) as [r s'] eqn:Hz.
  apply zoom_inv in Hz as (t&Hl&->). simpl in Hl.
  assert (a ∈ table_refs s.1 ++ handles ts) as Ha
    by (apply elem_of_app; right; by eapply handles_elem).
  destruct (lock_arc_run _ a method s.2 (ok_refs _ Hok) Ha) as [Ho _].
  pose proof (lock_arc_counts a method s.2) as Hc. rewrite Hl in Ho, Hc.
  eapply same_tasks; [done|done|done|]. right. split; [done|exact Hc].
Qed.

Lemma step_drop_ok s ts i a :
  tasks_ok (s, ts) → ts !! i = Some (Holding a) → tasks_ok (drop_realm a s, <[i := Idle]> ts).
Proof.
  intros Hok Hi. destruct (handles_update ts i (Holding a) Idle Hi) as (rest&Hold&Hnew).
  simpl in Hold, Hnew.
  assert (refs_ok (handles (<[i := Idle]> ts)) (drop_realm a s)) as Hrefs.
  { apply drop_realm_run. eapply refs_ok_perm; [|apply (ok_refs _ Hok)]. simpl.
    by rewrite Hold, Hnew. }
  split; simpl.
  - done.
  - intros b. rewrite Hnew. intros Hb. apply (ok_listed _ Hok). simpl. rewrite Hold. by right.
  - intros j t u b Hj Hd. destruct (decide (j = i)) as [->|Hne].
    { rewrite list_lookup_insert_eq in Hj by (by eapply lookup_lt_Some). by simplify_eq. }
    rewrite list_lookup_insert_ne in Hj by done.
    destruct (ok_deleting _ Hok _ _ _ _ Hj Hd) as [Hu Hone]. split; [done|].
    pose proof (count_from_refs _ _ b Hrefs) as H1. simpl in Hone, H1.
    pose proof (count_from_refs _ _ b (ok_refs _ Hok)) as H2. simpl in H2.
    pose proof (table_refs_count _ _ _ Hu) as H3. simpl in *.
    rewrite (proj1 (Permutation_count_occ N.eq_dec _ _) Hold b) in H2. simpl in H2.
    rewrite (proj1 (Permutation_count_occ N.eq_dec _ _) Hnew b) in H1.
    destruct (N.eq_dec a b); lia.
  - intros j k t t' Hj Hk Hl Hl'.
    destruct (decide (j = i)) as [->|Hnj].
    { rewrite list_lookup_insert_eq in Hj by (by eapply lookup_lt_Some). by simplify_eq. }
    destruct (decide (k = i)) as [->|Hnk].
    { rewrite list_lookup_insert_eq in Hk by (by eapply lookup_lt_Some). by simplify_eq. }
    rewrite list_lookup_insert_ne in Hj, Hk by done. by eapply (ok_exclusive _ Hok).
  - intros [Heq|Hin]%elem_of_update; [done|]. by apply (ok_alive _ Hok).
Qed.

Lemma step_count_ok s ts i u a s' :
  tasks_ok (s, ts) → ts !! i = Some Idle → unlocked ts → ensure_not_busy u s = (Ok a, s') →
  tasks_ok (s', <[i := Counted u a]> ts).
Proof.
  intros Hok Hi Hun (->&_&Ha)%ensure_not_busy_run.
  pose proof (handles_neutral ts i Idle (Counted u a) Hi eq_refl eq_refl) as Hh.
  eapply update_task; [done|done|by left|done| | |].
  - eapply refs_ok_perm; [|apply (ok_refs _ Hok)]. done.
  - intros b. rewrite Hh. apply (ok_listed _ Hok).
  - intros u' a' [= <- <-]. by apply Ha.
Qed.

Lemma no_panic_after {A} (r : result A (fault WardenError)) : no_panic r → after_call r = Idle.
Proof. destruct r as [|[|msg]]; [done..|]. intros Hp. by destruct (Hp msg). Qed.

Lemma step_check_ok s ts i u a r s' :
  tasks_ok (s, ts) → ts !! i = Some (Counted u a) → ensure_halted a s = (r, s') →
  tasks_ok (s', <[i := if is_ok r then Checked u a else after_call r]> ts).
Proof.
  intros Hok Hi He. destruct (ok_deleting _ Hok i _ u a Hi eq_refl) as [Hu Hone].
  eapply ensure_halted_run in He as (Hs&Hrefs&Hp&Hc); [|apply (ok_refs _ Hok)|].
  2:{ apply elem_of_app. left. by eapply table_refs_elem. }
  rewrite (no_panic_after _ Hp). set (t' := if is_ok r then _ else _).
  assert (handle_of t' = None ∧ t' ≠ Panicked ∧ ∀ x, deleting t' = Some x → x = (u, a))
    as (Ht'&Hnp&Hd) by (subst t'; destruct r; naive_solver).
  pose proof (handles_neutral ts i _ t' Hi eq_refl Ht') as Hh.
  eapply update_task; [done|done|by right|done| | |].
  - by eapply refs_ok_perm.
  - intros b. rewrite Hh, Hs. apply (ok_listed _ Hok).
  - intros u' a' [= -> ->]%Hd. rewrite Hs, Hc. done.
Qed.

Lemma step_remove_ok s ts i u a r s' :
  tasks_ok (s, ts) → ts !! i = Some (Checked u a) → remove_realm u s = (r, s') →
  tasks_ok (s', <[i := after_call r]> ts).
Proof.
  intros Hok Hi Hr. destruct (ok_deleting _ Hok i _ u a Hi eq_refl) as [Hu Hone].
  eapply remove_realm_run in Hr as (Hrefs&Hp&Ht); [|apply (ok_refs _ Hok)|done..].
  rewrite (no_panic_after _ Hp).
  pose proof (handles_neutral ts i _ Idle Hi eq_refl eq_refl) as Hh.
  eapply update_task; [done|done|by right|done| | |done].
  - by eapply refs_ok_perm.
  - intros b. rewrite Hh. intros Hb. pose proof (ok_listed _ Hok _ Hb) as Hin. simpl in Hin.
    rewrite (table_refs_delete _ _ _ Hu) in Hin. unfold table_refs in *. simpl in Hin.
    rewrite Ht. apply elem_of_cons in Hin as [->|]; [|done]. exfalso.
    pose proof (count_from_refs _ _ a (ok_refs _ Hok)) as H1. simpl in *.
    pose proof (table_refs_count _ _ _ Hu) as H2.
    apply list_elem_of_In, (count_occ_In N.eq_dec) in Hb. simpl in *. lia.
Qed.

Lemma task_step_ok x y : task_step x y → tasks_ok x → tasks_ok y.
Proof.
  intros Hstep Hok. destruct Hstep.
  - by apply step_create_ok.
  - destruct (list_realms s) as [r s'] eqn:Hrun.
    eapply list_realms_run in Hrun as (Hs&?&_); [|apply (ok_refs _ Hok)].
    eapply same_tasks; [done|done|simpl; by rewrite Hs|by left].
  - destruct (inspect_realm u s) as [r s'] eqn:Hrun.
    eapply inspect_realm_run in Hrun as (Hs&?&_); [|apply (ok_refs _ Hok)].
    eapply same_tasks; [done|done|simpl; by rewrite Hs|by left].
  - by eapply step_get_ok.
  - by eapply step_call_ok.
  - by eapply step_drop_ok.
  - by eapply step_count_ok.
  - by eapply step_check_ok.
  - by eapply step_remove_ok.
Qed.

(** A daemon that has just started: the realms loaded from disk are in the
    table, each owned by it alone, and no client has done anything yet. *)
Definition fresh_start (s : St) (ts : list Task) : Prop :=
  refs_ok [] s ∧ Forall (eq Idle) ts.

Lemma fresh_start_ok s ts : fresh_start s ts → tasks_ok (s, ts).
Proof.
  intros [Hrefs Hidle].
  assert (∀ i t, ts !! i = Some t → t = Idle) as Hall.
  { intros i t Hi. by rewrite (Forall_lookup_1 _ _ _ _ Hidle Hi). }
  assert (handles ts = []) as Hnil.
  { clear Hall. induction Hidle as [|t ts <- _ IH]; [done|]. exact IH. }
  split; simpl; [by rewrite Hnil|rewrite Hnil; by intros a ?%elem_of_nil|..].
  - intros i t u a ->%Hall. done.
  - intros i j t t' ->%Hall. done.
  - intros [i Hi%Hall]%list_elem_of_lookup. done.
Qed.

Lemma reachable_ok s ts x : fresh_start s ts → rtc task_step (s, ts) x → tasks_ok x.
Proof.
  intros Hf%fresh_start_ok Hrtc. revert Hf.
  induction Hrtc as [|x1 x2 x3 Hs _ IH]; [done|]. intros Hok. by eapply IH, task_step_ok.
Qed.

(** ** Theorems *)

(** C3.  Safety under concurrency: in every interleaving of any number of
    client tasks, the [expect] of [destroy_realm] never panics, and whenever a
    task works on a realm, that realm is still an entry of the warden's table
    and alive: no realm is destroyed under a client's hands. *)
Theorem destroy_never_panics_nor_pulls_realm s ts st' ts' :
  fresh_start s ts → rtc task_step (s, ts) (st', ts') →
  (Panicked ∉ ts') ∧
  ∀ i a, ts' !! i = Some (Holding a) →
    (∃ u, realms_managers st'.1 !! u = Some a) ∧ is_Some (st'.2.1 !! a).
Proof.
  intros Hf Hrtc. pose proof (reachable_ok _ _ _ Hf Hrtc) as Hok.
  split; [apply (ok_alive _ Hok)|]. intros i a Hi.
  assert (a ∈ table_refs st'.1) as Ha
    by (apply (ok_listed _ Hok); by eapply handles_elem).
  split.
  - apply list_elem_of_fmap in Ha as ([u b]&->&Hin%elem_of_map_to_list). by exists u.
  - eapply owned_live; [apply (ok_refs _ Hok)|]. apply elem_of_app. by left.
Qed.

End tasks.
