(* ===== verification/RealmLocks.v ===== *)
(** * The locks of the daemon

    Every client connection is a task; the tasks meet at [tokio] mutexes: the
    warden's table ([client_command_handler.rs]), a realm, the realm's
    applications and the realm's client ([realm_manager.rs],
    [application_manager.rs]), the vsock server ([realm_client_handler.rs]) and
    the network manager ([realm_fabric.rs]).  This file follows the commands
    through the locks they take, in the order of the code, and leaves out what
    is done under them: the work under a lock is assumed to come to an end. *)

From S2P Require Import Prelude WardenClient.

Inductive Lock :=
| LWarden
| LRealm (realm : Uuid)
| LApplication (realm application : Uuid)
| LRealmClient (realm : Uuid)
| LConnector
| LNetwork.
#[global] Instance Lock_eq_dec : EqDecision Lock.
Proof. solve_decision. Defined.

(** What a task does with locks.  [JoinAll ws rs] waits for a [JoinSet] of tasks
    that each hold one lock for a while: those of [ws] still have to get it,
    those of [rs] have it. *)
Inductive Action :=
| Acquire (l : Lock)
| Release (l : Lock)
| JoinAll (ws rs : list Lock).
#[global] Instance Action_eq_dec : EqDecision Action.
Proof. solve_decision. Defined.

Abbreviation Script := (list Action).

(** ** The commands *)

(** [x.lock().await.method()]: the guard lives until the end of the statement. *)
Definition locked (l : Lock) (body : Script) : Script := Acquire l :: body ++ [Release l].

Definition try_connect : Script := locked LConnector [].

Definition create_provisioning_config (r : Uuid) (apps : list Uuid) : Script :=
  apps ≫= λ a, locked (LApplication r a) [].

Definition prepare_applications (r : Uuid) (apps : list Uuid) : Script :=
  [JoinAll (LApplication r <$> apps) []].

(** [get_realm_data] asks the realm for its addresses if it is up. *)
Definition get_realm_data (r : Uuid) (up : bool) : Script :=
  if up then locked (LRealmClient r) [] else [].

Definition fetch_attestation_token (r : Uuid) (halted : bool) (apps : list Uuid) : Script :=
  if halted then
    prepare_applications r apps ++ locked (LRealmClient r) try_connect ++ locked (LRealmClient r) []
  else locked (LRealmClient r) [].

(** The receiver of the call, the guard of the realm's client, is evaluated
    before the argument, the provisioning data of the applications. *)
Definition start (r : Uuid) (apps : list Uuid) : Script :=
  prepare_applications r apps ++
  locked (LRealmClient r) (create_provisioning_config r apps ++ try_connect).

Definition stop (r : Uuid) : Script := locked (LRealmClient r) [].

Definition reboot (r : Uuid) (apps : list Uuid) : Script :=
  locked (LRealmClient r) (create_provisioning_config r apps ++ try_connect).

Definition update_application (r a : Uuid) : Script := locked (LApplication r a) [].

(** [Application::start] and [Application::stop], and the handler's call. *)
Definition application_call (r a : Uuid) : Script :=
  locked (LApplication r a) (locked (LRealmClient r) []).

(** [ClientHandler::get_realm] and [ClientHandler::get_application]. *)
Definition get_realm : Script := locked LWarden [].
Definition get_application (r : Uuid) : Script := get_realm ++ locked (LRealm r) [].

(** The methods of the warden run under its lock. *)
Definition list_realms (rs : list (Uuid * bool)) : Script :=
  rs ≫= λ x, locked (LRealm x.1) (get_realm_data x.1 x.2).
Definition destroy_realm (r : Uuid) (up : bool) : Script :=
  locked (LRealm r) (get_realm_data r up) ++ locked LNetwork [].

(** [ClientHandler::handle_command]: the ways a command may go through the
    locks, for any applications of the realm and any realms of the table; a
    call that fails on the way is a step of the task (below). *)
Inductive handle_command : WardenCommand → Script → Prop :=
| run_create_realm config : handle_command (CreateRealm config) (locked LWarden (locked LNetwork []))
| run_fetch_token r ch halted apps :
    handle_command (FetchToken r ch)
      (get_realm ++ locked (LRealm r) (fetch_attestation_token r halted apps))
| run_start_realm r apps :
    handle_command (StartRealm r) (get_realm ++ locked (LRealm r) (start r apps))
| run_stop_realm r : handle_command (StopRealm r) (get_realm ++ locked (LRealm r) (stop r))
| run_reboot_realm r apps :
    handle_command (RebootRealm r) (get_realm ++ locked (LRealm r) (reboot r apps))
| run_destroy_realm r up :
    handle_command (DestroyRealm r) (locked LWarden (destroy_realm r up))
| run_inspect_realm r up :
    handle_command (InspectRealm r) (locked LWarden (locked (LRealm r) (get_realm_data r up)))
| run_list_realms rs : handle_command ListRealms (locked LWarden (list_realms rs))
| run_create_application r config :
    handle_command (CreateApplication r config) (get_realm ++ locked (LRealm r) [])
| run_start_application r a :
    handle_command (StartApplication r a) (get_application r ++ application_call r a)
| run_stop_application r a :
    handle_command (StopApplication r a) (get_application r ++ application_call r a)
| run_update_application r a config :
    handle_command (UpdateApplication r a config)
      (get_realm ++ locked (LRealm r) (update_application r a)).

(** The other tasks of the daemon: the vsock server accepting a connection, and
    the end of the daemon, which shuts the network down. *)
Definition handle_accept : Script := locked LConnector [].
Definition shutdown_network : Script := locked LNetwork [].

(** ** Tasks *)

Record Task := mkTask { held : list Lock; waiting : bool; todo : Script }.

Definition spawn (s : Script) : Task := mkTask [] false s.
Definition finished : Task := mkTask [] false [].

(** The locks a task holds, with those of the tasks it waits for. *)
Definition holds (t : Task) : list Lock :=
  held t ++ match todo t with JoinAll _ rs :: _ => rs | _ => [] end.
Definition free (ts : list Task) (l : Lock) : Prop := Forall (λ t, l ∉ holds t) ts.
#[global] Instance free_dec ts l : Decision (free ts l).
Proof. apply _. Defined.

Definition remove (l : Lock) (ls : list Lock) : list Lock := filter (λ x, x ≠ l) ls.
Arguments remove : simpl never.

(** One step of a task among the tasks [ts].  [task_fails] is a return by [?]:
    the guards are dropped and the tasks of a [JoinSet] aborted; every error is
    the result of a call made under some lock. *)
Inductive task_step (ts : list Task) : Task → Task → Prop :=
| task_waits h l k : task_step ts (mkTask h false (Acquire l :: k)) (mkTask h true (Acquire l :: k))
| task_acquires h l k :
    free ts l → task_step ts (mkTask h true (Acquire l :: k)) (mkTask (l :: h) false k)
| task_releases h l k :
    task_step ts (mkTask h false (Release l :: k)) (mkTask (remove l h) false k)
| child_acquires h ws1 l ws2 rs k :
    free ts l →
    task_step ts (mkTask h false (JoinAll (ws1 ++ l :: ws2) rs :: k))
      (mkTask h false (JoinAll (ws1 ++ ws2) (l :: rs) :: k))
| child_ends h ws rs1 l rs2 k :
    task_step ts (mkTask h false (JoinAll ws (rs1 ++ l :: rs2) :: k))
      (mkTask h false (JoinAll ws (rs1 ++ rs2) :: k))
| task_joins h k : task_step ts (mkTask h false (JoinAll [] [] :: k)) (mkTask h false k)
| task_fails h x k :
    h ≠ [] → match x with JoinAll _ rs => rs ≠ [] | _ => True end →
    task_step ts (mkTask h false (x :: k)) finished.

Inductive step (ts : list Task) : list Task → Prop :=
| step_at i t t' : ts !! i = Some t → task_step ts t t' → step ts (<[i := t']> ts).

Definition completed (ts : list Task) : Prop := Forall (λ t, todo t = []) ts.

Lemma remove_notin l h : l ∉ h → remove l h = h.
Proof.
  intros Hl. unfold remove. induction h as [|x h IH]; [done|].
  rewrite filter_cons_True by set_solver. f_equal. apply IH. set_solver.
Qed.

Lemma remove_cons l h : l ∉ h → remove l (l :: h) = h.
Proof. intros Hl. unfold remove. rewrite filter_cons_False by auto. by apply remove_notin. Qed.

(** ** Lock order

    A script respects an order of the locks if it only acquires a lock above
    all those it holds. *)

Section order.
Context (rank : Lock → nat).

Definition above (h : list Lock) (l : Lock) : Prop := Forall (λ x, rank x < rank l) h.

Fixpoint respects (h : list Lock) (k : Script) : Prop :=
  match k with
  | [] => True
  | Acquire l :: k => above h l ∧ respects (l :: h) k
  | Release l :: k => respects (remove l h) k
  | JoinAll ws _ :: k => Forall (above h) ws ∧ respects h k
  end.

(** The locks held at the end. *)
Fixpoint after (h : list Lock) (k : Script) : list Lock :=
  match k with
  | [] => h
  | Acquire l :: k => after (l :: h) k
  | Release l :: k => after (remove l h) k
  | JoinAll _ _ :: k => after h k
  end.

Lemma respects_app h k1 k2 : respects h (k1 ++ k2) ↔ respects h k1 ∧ respects (after h k1) k2.
Proof. revert h. induction k1 as [|[] k1 IH]; intros h; simpl; rewrite ?IH; tauto. Qed.

Lemma after_app h k1 k2 : after h (k1 ++ k2) = after (after h k1) k2.
Proof. revert h. induction k1 as [|[] k1 IH]; intros h; simpl; by rewrite ?IH. Qed.

Lemma above_notin h l : above h l → l ∉ h.
Proof. intros Ha Hl. apply (proj1 (Forall_forall _ _) Ha) in Hl. lia. Qed.

(** A piece of a script that gives back what it takes. *)
Definition scoped (h : list Lock) (k : Script) : Prop := respects h k ∧ after h k = h.

Lemma scoped_nil h : scoped h [].
Proof. done. Qed.

Lemma scoped_app h k1 k2 : scoped h k1 → scoped h k2 → scoped h (k1 ++ k2).
Proof.
  intros [Hr1 Ha1] [Hr2 Ha2]. split; [apply respects_app|rewrite after_app]; by rewrite Ha1.
Qed.

Lemma scoped_locked h l body : above h l → scoped (l :: h) body → scoped h (locked l body).
Proof.
  intros Hl [Hr Ha]. apply above_notin in Hl as Hn. unfold locked, scoped. simpl.
  rewrite respects_app, after_app, Ha. simpl. by rewrite remove_cons.
Qed.

Lemma scoped_bind {A} h (f : A → Script) xs : (∀ x, scoped h (f x)) → scoped h (xs ≫= f).
Proof. intros Hf. induction xs as [|x xs IH]; [done|]. simpl. by apply scoped_app. Qed.

Lemma scoped_join h ws : Forall (above h) ws → scoped h [JoinAll ws []].
Proof. done. Qed.

End order.

(** The order in which all commands but the start and the reboot of a realm take
    the locks, and the one that all but the calls to an application respect. *)
Definition client_last (l : Lock) : nat :=
  match l with
  | LWarden => 0 | LRealm _ => 1 | LApplication _ _ => 2 | LRealmClient _ => 3 | _ => 4
  end.
Definition client_first (l : Lock) : nat :=
  match l with
  | LWarden => 0 | LRealm _ => 1 | LRealmClient _ => 2 | LApplication _ _ => 3 | _ => 4
  end.

Definition provisions (c : WardenCommand) : bool :=
  match c with StartRealm _ | RebootRealm _ => true | _ => false end.
Definition calls_application (c : WardenCommand) : bool :=
  match c with StartApplication _ _ | StopApplication _ _ => true | _ => false end.

Ltac solve_scoped :=
  repeat first
    [ apply scoped_nil | apply scoped_app | apply scoped_locked | apply scoped_bind
    | apply Forall_fmap, Forall_true; intros; repeat constructor
    | apply scoped_join | progress intros
    | by repeat constructor; simpl; lia
    | case_match ].

Lemma commands_client_last c k :
  handle_command c k → provisions c = false → scoped client_last [] k.
Proof.
  intros Hc Hp. destruct Hc; simpl in Hp; try discriminate Hp;
    unfold get_application, get_realm, fetch_attestation_token, prepare_applications, stop,
      destroy_realm, list_realms, application_call, update_application, try_connect,
      get_realm_data; solve_scoped.
Qed.

Lemma commands_client_first c k :
  handle_command c k → calls_application c = false → scoped client_first [] k.
Proof.
  intros Hc Hp. destruct Hc; simpl in Hp; try discriminate Hp;
    unfold get_application, get_realm, fetch_attestation_token, prepare_applications, start, stop,
      reboot, create_provisioning_config, prepare_applications, destroy_realm, list_realms,
      update_application, try_connect, get_realm_data; solve_scoped.
Qed.

(** ** Runs come to an end *)

Section progress.
Context (rank : Lock → nat) (top : nat).

(** What holds of every task of a run. *)
Record task_ok (t : Task) : Prop := {
  ok_respects : respects rank (held t) (todo t);
  ok_after : after (held t) (todo t) = [];
  ok_waiting : waiting t = true → ∃ l k, todo t = Acquire l :: k }.

Lemma spawn_ok k : scoped rank [] k → task_ok (spawn k).
Proof. intros [Hr Ha]. by split. Qed.

Lemma task_step_respects ts t t' : task_step ts t t' → task_ok t → task_ok t'.
Proof.
  intros Hs [Hr Ha Hw]. destruct Hs; simpl in *.
  - split; eauto.
  - destruct Hr. by split.
  - by split.
  - destruct Hr as [Hws Hr]. split; [|done..]. split; [|done].
    rewrite Forall_app, Forall_cons in Hws. rewrite Forall_app. tauto.
  - by split.
  - destruct Hr. by split.
  - by split.
Qed.

Lemma steps_ok ts ts' : rtc step ts ts' → Forall task_ok ts → Forall task_ok ts'.
Proof.
  induction 1 as [ts|ts ts1 ts2 [i t t' Hi Ht] _ IH]; [done|]. intros Hok. apply IH.
  apply Forall_insert; [done|]. eapply task_step_respects; [done|]. by eapply Forall_lookup_1.
Qed.

(** The lock a task that cannot go on by itself waits for. *)
Definition wants (t : Task) : option Lock :=
  match todo t with
  | Acquire l :: _ => if waiting t then Some l else None
  | JoinAll (l :: _) [] :: _ => Some l
  | _ => None
  end.

Lemma task_moves ts t :
  todo t ≠ [] → task_ok t →
  (∃ t', task_step ts t t') ∨ (∃ l, wants t = Some l ∧ ¬ free ts l ∧ above rank (holds t) l).
Proof.
  destruct t as [h w [|x k]]; intros Ht [Hr Ha Hw]; [done|]. unfold wants, holds. simpl in *.
  destruct x as [l|l|ws rs].
  - destruct w; [|left; eexists; apply task_waits].
    destruct (decide (free ts l)); [left; eexists; by apply task_acquires|].
    right. exists l. rewrite app_nil_r. naive_solver.
  - destruct w; [destruct Hw as (?&?&?); [done|congruence]|]. left. eexists. apply task_releases.
  - destruct w; [destruct Hw as (?&?&?); [done|congruence]|].
    destruct rs as [|r rs]; [|left; eexists; apply (child_ends ts h ws [])].
    destruct ws as [|l ws]; [left; eexists; apply task_joins|].
    destruct (decide (free ts l)); [left; eexists; by apply (child_acquires ts h [])|].
    right. exists l. rewrite app_nil_r. destruct Hr as [Hr _]. apply Forall_cons in Hr. naive_solver.
Qed.

(** A task that holds a lock has something left to do. *)
Lemma holder_unfinished t l : task_ok t → l ∈ holds t → todo t ≠ [].
Proof.
  intros [_ Ha _] Hl Ht. unfold holds in Hl. rewrite Ht in Ha, Hl. simpl in Ha.
  rewrite Ha in Hl. by apply elem_of_nil in Hl.
Qed.

Lemma progress ts :
  (∀ l, rank l ≤ top) → Forall task_ok ts → completed ts ∨ red step ts.
Proof.
  intros Htop Hok.
  assert (∀ n i t, ts !! i = Some t → todo t ≠ [] →
    (∀ l, wants t = Some l → top - rank l < n) → red step ts) as Hgo.
  { induction n as [n IH] using lt_wf_ind. intros i t Hi Ht Hn.
    assert (task_ok t) as Htok by by eapply Forall_lookup_1.
    destruct (task_moves ts t Ht Htok) as [[t' Hs]|(l&Hw&Hf&Ha)].
    { exists (<[i := t']> ts). by apply (step_at _ i t). }
    apply not_Forall_Exists in Hf; [|apply _]. apply Exists_exists in Hf as (u&Hu&Hl).
    apply list_elem_of_lookup in Hu as [j Hj]. apply dec_stable in Hl.
    assert (task_ok u) as Huok by by eapply Forall_lookup_1.
    pose proof (holder_unfinished _ _ Huok Hl) as Hut.
    destruct (task_moves ts u Hut Huok) as [[u' Hs]|(l'&Hw'&Hf'&Ha')].
    { exists (<[j := u']> ts). by apply (step_at _ j u). }
    specialize (Hn _ Hw). apply (proj1 (Forall_forall _ _) Ha') in Hl.
    pose proof (Htop l'). apply (IH (S (top - rank l')) ltac:(lia) j u Hj Hut).
    intros l0 Hl0. rewrite Hw' in Hl0. simplify_eq. lia. }
  destruct (decide (completed ts)) as [?|Hc]; [by left|right].
  apply not_Forall_Exists in Hc; [|apply _]. apply Exists_exists in Hc as (t&Ht&Hne).
  apply list_elem_of_lookup in Ht as [i Hi]. apply (Hgo (S top) i t Hi Hne). intros; lia.
Qed.

End progress.

(** Every step uses up some of the script. *)
Definition weight (x : Action) : nat :=
  match x with Acquire _ => 2 | Release _ => 1 | JoinAll ws rs => S (2 * length ws + length rs) end.
Definition task_size (t : Task) : nat :=
  sum_list_with weight (todo t) - (if waiting t then 1 else 0).
Definition size (ts : list Task) : nat := sum_list_with task_size ts.

Lemma task_step_size ts t t' : task_step ts t t' → task_size t' < task_size t.
Proof.
  unfold task_size. intros Hs. destruct Hs as [| | | | | |h x k]; simpl; rewrite ?length_app; simpl;
    try lia. destruct x; simpl; lia.
Qed.

Lemma size_insert ts i t t' :
  ts !! i = Some t → size (<[i := t']> ts) + task_size t = size ts + task_size t'.
Proof.
  intros Hi. unfold size. rewrite <-(take_drop_middle _ _ _ Hi) at 2.
  rewrite (insert_take_drop _ _ _ (lookup_lt_Some _ _ _ Hi)), !sum_list_with_app. simpl. lia.
Qed.

Lemma step_size ts ts' : step ts ts' → size ts' < size ts.
Proof.
  intros [i t t' Hi Hs]. pose proof (task_step_size _ _ _ Hs).
  pose proof (size_insert _ _ _ t' Hi). lia.
Qed.

Lemma step_terminates ts : sn step ts.
Proof. apply (wf_projected lt size); [|apply lt_wf]. intros ts' ts0. apply step_size. Qed.

Lemma spawned_scoped rank (cs : list (WardenCommand * Script)) (allowed : WardenCommand → bool) :
  (∀ c k, handle_command c k → allowed c = false → scoped rank [] k) →
  (∀ c k, (c, k) ∈ cs → handle_command c k ∧ allowed c = false) →
  Forall (task_ok rank) (spawn ∘ snd <$> cs).
Proof.
  intros Hs Hcs. apply Forall_fmap, Forall_forall. intros [c k] [Hc Ha]%Hcs.
  apply spawn_ok. by apply (Hs c).
Qed.

Lemma leaf_ok rank l : task_ok rank (spawn (locked l [])).
Proof. apply spawn_ok. apply scoped_locked; [constructor|apply scoped_nil]. Qed.

(** C11.  Any number of client commands, with the vsock server accepting connections
    and the daemon shutting the network down: if none of the commands starts or
    reboots a realm, or none of them starts or stops an application, every run
    comes to an end, and when no task can go on all of them have completed. *)
Theorem commands_complete (cs : list (WardenCommand * Script)) (accepts : nat) :
  (∀ c k, (c, k) ∈ cs → handle_command c k) →
  (∀ c k, (c, k) ∈ cs → provisions c = false) ∨ (∀ c k, (c, k) ∈ cs → calls_application c = false) →
  let ts := (spawn ∘ snd <$> cs) ++ replicate accepts (spawn handle_accept) ++
            [spawn shutdown_network] in
  sn step ts ∧ ∀ ts', rtc step ts ts' → nf step ts' → completed ts'.
Proof.
  intros Hcs Hor ts. split; [apply step_terminates|]. intros ts' Hts Hnf.
  assert (∃ rank, (∀ l, rank l ≤ 4) ∧ Forall (task_ok rank) (spawn ∘ snd <$> cs)) as (rank&Htop&Hok).
  { destruct Hor as [Hor|Hor]; [exists client_last|exists client_first];
      (split; [intros []; simpl; lia|]).
    - apply (spawned_scoped _ _ provisions commands_client_last). naive_solver.
    - apply (spawned_scoped _ _ calls_application commands_client_first). naive_solver. }
  assert (Forall (task_ok rank) ts) as Hall.
  { unfold ts. rewrite !Forall_app, Forall_singleton. split_and!; [done| |apply leaf_ok].
    apply Forall_replicate, leaf_ok. }
  destruct (progress rank 4 ts' Htop) as [?|?]; [by eapply steps_ok|done|done].
Qed.

(** ** A reboot against a call to an application *)

(** The three tasks that wait for each other. *)
Definition rebooting (r a : Uuid) : Task :=
  mkTask [LRealmClient r; LRealm r] true
    (Acquire (LApplication r a) :: Release (LApplication r a) :: try_connect ++
     [Release (LRealmClient r); Release (LRealm r)]).
Definition calling (r a : Uuid) : Task :=
  mkTask [LApplication r a] true
    [Acquire (LRealmClient r); Release (LRealmClient r); Release (LApplication r a)].
Definition listing (r : Uuid) : Task :=
  mkTask [LWarden] true
    (Acquire (LRealm r) :: locked (LRealmClient r) [] ++ [Release (LRealm r); Release LWarden]).
Definition deadlock (r a : Uuid) : list Task := [rebooting r a; calling r a; listing r].

Ltac solve_free :=
  unfold free; repeat (apply Forall_cons; split); try apply Forall_nil_2; unfold holds; simpl; set_solver.
(** The next step of task [i]. *)
Ltac task_go i :=
  eapply rtc_l;
  [ eapply (step_at _ i); [reflexivity|];
    first [ apply task_releases | apply task_acquires; solve_free | apply task_waits ] |];
  simpl; rewrite ?remove_cons by apply not_elem_of_nil.

Lemma deadlock_reachable r a :
  rtc step (spawn <$> [get_realm ++ locked (LRealm r) (reboot r [a]);
                       get_application r ++ application_call r a;
                       locked LWarden (list_realms [(r, true)])]) (deadlock r a).
Proof.
  unfold get_application, get_realm, reboot, create_provisioning_config, application_call,
    list_realms, try_connect, locked, spawn. simpl.
  do 8 task_go 1. do 7 task_go 0. do 1 task_go 1. do 1 task_go 0. do 3 task_go 2.
  apply rtc_refl.
Qed.

(** A task that has not got beyond the warden's lock. *)
Definition queued (t : Task) : Prop := held t = [] ∧ ∃ k, todo t = Acquire LWarden :: k.

Lemma command_queued c k : handle_command c k → queued (spawn k).
Proof. intros Hc. split; [done|]. destruct Hc; simpl; eauto. Qed.

Lemma blocked_step ts h l k t' :
  task_step ts (mkTask h true (Acquire l :: k)) t' → free ts l.
Proof. by inversion 1. Qed.

Lemma held_not_free (ts : list Task) t l : t ∈ ts → l ∈ holds t → ¬ free ts l.
Proof. intros Ht Hl Hf. by apply (proj1 (Forall_forall _ _) Hf t Ht). Qed.

Lemma deadlock_step r a us ts' :
  Forall queued us → step (deadlock r a ++ us) ts' →
  ∃ us', ts' = deadlock r a ++ us' ∧ Forall queued us' ∧ length us' = length us.
Proof.
  intros Hus [i t t' Hi Ht]. destruct (decide (i < 3)) as [Hlt|Hge].
  - exfalso. rewrite lookup_app_l in Hi by done.
    destruct i as [|[|[|i]]]; [..|lia]; injection Hi as <-; apply blocked_step in Ht.
    + revert Ht. apply (held_not_free _ (calling r a)); unfold holds; simpl; set_solver.
    + revert Ht. apply (held_not_free _ (rebooting r a)); unfold holds; simpl; set_solver.
    + revert Ht. apply (held_not_free _ (rebooting r a)); unfold holds; simpl; set_solver.
  - rewrite lookup_app_r in Hi by (simpl; lia). exists (<[i - 3 := t']> us). split_and!.
    + rewrite insert_app_r_alt by (simpl; lia). done.
    + apply Forall_insert; [done|]. assert (queued t) as [Hh [k Hk]] by by eapply Forall_lookup_1.
      destruct t as [h w td]. simpl in *. subst. inversion Ht; subst; [by split; eauto| |done].
      exfalso. match goal with Hf : free _ _ |- _ => revert Hf end.
      apply (held_not_free _ (listing r)); unfold holds; simpl; set_solver.
    + apply length_insert.
Qed.

Lemma deadlock_stays r a us ts' :
  Forall queued us → rtc step (deadlock r a ++ us) ts' →
  ∃ us', ts' = deadlock r a ++ us' ∧ Forall queued us' ∧ length us' = length us.
Proof.
  intros Hus Hrun. remember (deadlock r a ++ us) as ts eqn:Hts. revert us Hus Hts.
  induction Hrun as [ts|ts ts1 ts2 Hs _ IH]; intros us Hus ->; [by exists us|].
  apply deadlock_step in Hs as (us1&->&Hus1&Hlen); [|done].
  destruct (IH us1 Hus1 eq_refl) as (us2&->&Hus2&Hlen2). exists us2. by rewrite Hlen2.
Qed.

(** C12.  The reboot of a running realm can run into a call to one of its
    applications: the reboot holds the realm's client and waits for the
    application, the call holds the application and waits for the client.  A
    listing of the realms then waits for the realm with the warden's lock, and
    from there on no client command whatsoever makes progress. *)
Theorem reboot_deadlocks_daemon r a :
  ∃ k1 k2 k3,
    handle_command (RebootRealm r) k1 ∧ handle_command (StartApplication r a) k2 ∧
    handle_command ListRealms k3 ∧
    ∃ ts, rtc step (spawn <$> [k1; k2; k3]) ts ∧ nf step ts ∧ Forall (λ t, todo t ≠ []) ts ∧
      ∀ (cs : list (WardenCommand * Script)) ts',
        (∀ c k, (c, k) ∈ cs → handle_command c k) →
        rtc step (ts ++ (spawn ∘ snd <$> cs)) ts' →
        length ts' = 3 + length cs ∧ Forall (λ t, todo t ≠ []) ts'.
Proof.
  do 3 eexists. split_and!; [apply (run_reboot_realm r [a])|apply run_start_application|
    apply (run_list_realms [(r, true)])|].
  exists (deadlock r a). assert (Forall (λ t, todo t ≠ []) (deadlock r a)) as Hdl.
  { repeat (apply Forall_cons; split); done. }
  split_and!; [apply deadlock_reachable| |done|].
  - intros [ts' Hs]. apply step_size in Hs as Hsize. rewrite <-(app_nil_r (deadlock r a)) in Hs.
    apply deadlock_step in Hs as (us'&->&_&Hlen%length_zero_iff_nil); [|constructor].
    rewrite Hlen, app_nil_r in Hsize. lia.
  - intros cs ts' Hcs Hrun. apply deadlock_stays in Hrun as (us'&->&Hus&Hlen).
    + rewrite length_app, Hlen, length_fmap. split; [done|]. apply Forall_app. split; [done|].
      eapply Forall_impl; [done|]. intros t [_ [k ->]]. done.
    + apply Forall_fmap, Forall_forall. intros [c k] Hck%Hcs. by eapply command_queued.
Qed.
