(* ===== verification/ClientHandler.v ===== *)
(** * Commands of a client

    [warden_daemon/src/client_handler/client_command_handler.rs]: one handler
    per client connection reads commands, runs them on the warden and answers
    each of them. *)

From S2P Require Import Prelude WardenClient Managers Traits JsonFramed ClientHelper Arc WardenDaemon.

Inductive ClientError :=
| InvalidRequest (message : string)
| WardenDaemonError (e : WardenError)
| RealmManagerError (e : RealmError)
| ApplicationError (e : Managers.ApplicationError)
| SendingResponseFail (message : string).

(** What one iteration of the handler's [select!] sees: a message (or the
    failure to read one) together with the outcome of the answer's [send], or
    the cancellation of the daemon. *)
Inductive ClientEvent :=
| Received (command : result WardenCommand JsonFramedError) (sent : result unit JsonFramedError)
| TokenCancelled.

(** How the loop stands after the events seen so far. *)
Inductive LoopStatus := Waiting | Finished.

Section client_handler.
Context {W Rl H D : Type}.
Context `{!Realm W Rl H, !Warden W Rl D, !UuidApi}.

Abbreviation St := (D * (Arcs Rl * W))%type.

Definition ClientError_to_string (e : ClientError) : string :=
  match e with
  | InvalidRequest m => "Failed to read request. Error: " +:+ m
  | WardenDaemonError e => "Warden error occured: " +:+ WardenError_to_string e
  | RealmManagerError e => "Realm error occured: " +:+ RealmError_to_string e
  | ApplicationError e => "Application error occured: " +:+ ApplicationError_to_string e
  | SendingResponseFail m => "Failed to send response. Error: " +:+ m
  end.

(** A call of the trait [Warden]. *)
Definition on_warden {A} (c : eff St (fault WardenError) A) : eff St (fault ClientError) A :=
  map_err (map_fault WardenDaemonError) c.

(** [ClientHandler::get_realm]. *)
Definition handler_get_realm (uuid : Uuid) : eff St (fault ClientError) ArcId :=
  on_warden (warden_get_realm uuid).

(** The rest of the scope that owns the clone [a]; leaving it drops the clone. *)
Definition scoped {E A} (a : ArcId) (c : eff St E A) : eff St E A := λ s,
  let '(r, s') := c s in (r, drop_realm a s').

(** [get_realm(uuid)?.lock().await.method().await.map_err(RealmManagerError)]. *)
Definition on_realm {A} (uuid : Uuid) (method : eff (Rl * W) RealmError A)
    : eff St (fault ClientError) A :=
  realm ← handler_get_realm uuid;
  scoped realm (map_err (map_fault RealmManagerError) (zoom shared_lens (lock_arc realm method))).

(** [ClientHandler::get_application]: the handle and the realm it belongs to. *)
Definition get_application (realm_uuid application_uuid : Uuid)
    : eff St (fault ClientError) (ArcId * H) :=
  realm ← handler_get_realm realm_uuid;
  scoped realm (
    h ← map_err (map_fault RealmManagerError)
          (zoom shared_lens (lock_arc realm (realm_get_application application_uuid)));
    mret (realm, h)).

Definition on_application {A} (realm_uuid application_uuid : Uuid)
    (method : H → eff (Rl * W) Managers.ApplicationError A) : eff St (fault ClientError) A :=
  application ← get_application realm_uuid application_uuid;
  map_err (map_fault ApplicationError)
    (zoom shared_lens (lock_arc application.1 (method application.2))).

(** [ClientHandler::handle_command]. *)
Definition handle_command (client_command : WardenCommand)
    : eff St (fault ClientError) WardenResponse :=
  match client_command with
  | FetchToken uuid challenge =>
      token ← on_realm uuid (realm_fetch_attestation_token challenge);
      mret (RAttestationToken token)
  | StartRealm uuid =>
      on_realm uuid realm_start;;
      mret ROk
  | CreateRealm config =>
      uuid ← on_warden (warden_create_realm (WardenClient.id config) (RealmConfig_from config));
      mret (RCreatedRealm uuid)
  | StopRealm uuid =>
      on_realm uuid realm_stop;;
      mret ROk
  | DestroyRealm uuid =>
      on_warden (warden_destroy_realm uuid);;
      mret ROk
  | RebootRealm uuid =>
      on_realm uuid realm_reboot;;
      mret ROk
  | InspectRealm uuid =>
      realm_data ← on_warden (warden_inspect_realm uuid);
      mret (RInspectedRealm (RealmDescription_into realm_data))
  | ListRealms =>
      listed_realms ← on_warden warden_list_realms;
      mret (RListedRealms (RealmDescription_into <$> listed_realms))
  | CreateApplication realm_uuid config =>
      application_uuid ← on_realm realm_uuid
        (realm_create_application (ApplicationConfig_from config));
      mret (RCreatedApplication application_uuid)
  | StartApplication realm_uuid application_uuid =>
      on_application realm_uuid application_uuid application_start;;
      mret ROk
  | StopApplication realm_uuid application_uuid =>
      on_application realm_uuid application_uuid application_stop;;
      mret ROk
  | UpdateApplication realm_uuid application_uuid config =>
      on_realm realm_uuid
        (realm_update_application application_uuid (ApplicationConfig_from config));;
      mret ROk
  end.

Definition create_response (handle_result : result WardenResponse WardenClient.WardenDaemonError)
    : WardenResponse :=
  match handle_result with
  | Ok response => response
  | Err warden_error => RError warden_error
  end.

(** The handler's state: the daemon and the responses written to the client. *)
Abbreviation HSt := (St * list WardenResponse)%type.
Definition daemon_lens : lens HSt St := Lens fst (λ d s, (d, s.2)).

(** [communicator.send], with the outcome the event gives. *)
Definition communicator_send (sent : result unit JsonFramedError) (response : WardenResponse)
    : eff HSt (fault ClientError) unit :=
  modify (λ s, (s.1, s.2 ++ [response]));;
  try_r (map_err_r (λ err, Fail (SendingResponseFail (JsonFramedError_to_string err))) sent).

(** The value [handle_command] returns as a [Result], unless it panics. *)
Definition catch_error {S E A} (c : eff S (fault E) A) : eff S (fault E) (result A E) := λ s,
  match c s with
  | (Ok a, s') => (Ok (Ok a), s')
  | (Err (Fail e), s') => (Ok (Err e), s')
  | (Err (Panic msg), s') => (Err (Panic msg), s')
  end.

Definition handle_client_command (sent : result unit JsonFramedError) (command : WardenCommand)
    : eff HSt (fault ClientError) unit :=
  handle_result ← zoom daemon_lens (catch_error (handle_command command));
  communicator_send sent (create_response
    (map_err_r (λ client_err, WardenDaemonFail (ClientError_to_string client_err)) handle_result)).

(** [ClientHandler::handle_client_requests]. *)
Fixpoint handle_client_requests (events : list ClientEvent)
    : eff HSt (fault ClientError) LoopStatus :=
  match events with
  | [] => mret Waiting
  | TokenCancelled :: _ => mret Finished
  | Received (Err StreamIsClosed) _ :: _ => mret Finished
  | Received (Err _) sent :: _ => communicator_send sent (RError ReadingRequestFail);; mret Finished
  | Received (Ok command) sent :: events =>
      handle_client_command sent command;;
      handle_client_requests events
  end.

(** [Client::handle_connection]: a handler with a new communicator. *)
Definition handle_connection (events : list ClientEvent) : eff St (fault ClientError) LoopStatus := λ s,
  let '(r, (s', _)) := handle_client_requests events (s, []) in (r, s').

(** ** Commands and answers *)

(** The answer to a command, as the client sees it; a panic has none. *)
Definition answer (r : result WardenResponse (fault ClientError)) : option WardenResponse :=
  match r with
  | Ok response => Some response
  | Err (Fail e) => Some (RError (WardenDaemonFail (ClientError_to_string e)))
  | Err (Panic _) => None
  end.

(** Commands executed one after the other, with their answers. *)
Fixpoint run_commands (commands : list WardenCommand) (s : St) : list WardenResponse * St :=
  match commands with
  | [] => ([], s)
  | command :: commands =>
      let '(r, s1) := handle_command command s in
      let '(rs, s2) := run_commands commands s1 in
      (option_list (answer r) ++ rs, s2)
  end.

End client_handler.

Section warden_client.
Context {W Rl H F : Type}.
Context `{!Realm W Rl H, !RealmCreator W Rl F, !Runtime W, !UuidApi}.

Abbreviation St := (WardenDaemon F * (Arcs Rl * W))%type.

(** ** No command loses or leaks a reference *)

(** A computation that never panics and leaves the references balanced. *)
Definition balanced {E A} (held : list ArcId) (c : eff St (fault E) A) : Prop :=
  ∀ s r s', c s = (r, s') → refs_ok held s → refs_ok held s' ∧ no_panic r.

Lemma no_panic_map {E E' A} (f : E → E') (r : result A (fault E)) :
  no_panic r → no_panic (map_err_r (map_fault f) r).
Proof. intros Hp msg. destruct r as [|[|m]]; try done. by destruct (Hp m). Qed.

Lemma balanced_map_err {E E' A} held (f : E → E') (c : eff St (fault E) A) :
  balanced held c → balanced held (map_err (map_fault f) c).
Proof.
  unfold map_err. intros Hc s r s' Hrun Hok. destruct (c s) as [r0 s0] eqn:Hr. simplify_eq.
  destruct (Hc _ _ _ Hr Hok). split; [done|]. by apply no_panic_map.
Qed.

Lemma balanced_ret {E A} held (a : A) : balanced (E := E) held (mret a).
Proof. intros s r s' [= <- <-] Hok. split; [done|]. by intros ?. Qed.

Lemma balanced_bind {E A B} held (c : eff St (fault E) A) (f : A → eff St (fault E) B) :
  balanced held c → (∀ a, balanced held (f a)) → balanced held (c ≫= f).
Proof.
  intros Hc Hf s r s' Hrun Hok. apply bind_run in Hrun as [(e&->&Hr)|(a&s1&Hr&Hrun)].
  - destruct (Hc _ _ _ Hr Hok) as [? Hp]. split; [done|].
    intros msg [= ->]. by destruct (Hp msg).
  - destruct (Hc _ _ _ Hr Hok). by eapply Hf.
Qed.

(** A method of a live realm. *)
Lemma balanced_lock {E A} held a (method : eff (Rl * W) E A) (s : St) r s' :
  zoom shared_lens (lock_arc a method) s = (r, s') → refs_ok held s →
  a ∈ table_refs s.1 ++ held →
  s'.1 = s.1 ∧ refs_ok held s' ∧ no_panic r.
Proof.
  intros Hz Hok Ha. apply zoom_inv in Hz as (t&Hl&->). simpl in Hl.
  destruct (lock_arc_run _ a method s.2 Hok Ha) as [Ho Hp]. rewrite Hl in Ho, Hp. done.
Qed.

(** The scope of a clone of the realm [uuid]. *)
Lemma realm_scope {A} held uuid (k : ArcId → eff St (fault ClientError) A) (s : St) r s' :
  (realm ← handler_get_realm uuid; scoped realm (k realm)) s = (r, s') → refs_ok held s →
  (∀ a s1 r1 s2, k a s1 = (r1, s2) → refs_ok (a :: held) s1 →
     realms_managers s1.1 !! uuid = Some a →
     s2.1 = s1.1 ∧ refs_ok (a :: held) s2 ∧ no_panic r1) →
  s'.1 = s.1 ∧ refs_ok held s' ∧ no_panic r ∧
  (is_ok r = true → ∃ a s1 s2, realms_managers s.1 !! uuid = Some a ∧ k a s1 = (r, s2)).
Proof.
  intros Hrun Hok Hk. unfold handler_get_realm, on_warden in Hrun.
  apply bind_run in Hrun as [(e&->&Hr)|(a&s1&Hr&Hrun)].
  - apply map_err_err in Hr as (e0&->&Hr). unfold get_realm in Hr.
    apply bind_err_inv in Hr as [Hr|(?&?&?&Hr)]; [|by run_inv].
    apply find_realm_run in Hr as [-> He]. split_and!; [done..| |done].
    destruct (realms_managers s.1 !! uuid); [done|]. simplify_eq/=. by intros ?.
  - apply map_err_ok in Hr. eapply get_realm_run in Hr as (Hs&Hu&Hok1); [|exact Hok].
    unfold scoped in Hrun. destruct (k a s1) as [r1 s2] eqn:Hka. simplify_eq.
    destruct (Hk _ _ _ _ Hka Hok1) as (Hs2&Hok2&Hp); [by rewrite Hs|].
    split_and!; [simpl; congruence|by apply drop_realm_run|done|]. intros _. by exists a, s1, s2.
Qed.

Lemma on_realm_balanced {A} held uuid (method : eff (Rl * W) RealmError A) :
  balanced held (on_realm uuid method).
Proof.
  intros s r s' Hrun Hok. eapply realm_scope in Hrun as (_&?&?&_); [done|exact Hok|].
  clear. intros a s r s' Hrun Hok Hu. unfold map_err in Hrun.
  destruct (zoom _ _ s) as [r0 s0] eqn:Hz. simplify_eq.
  eapply balanced_lock in Hz as (?&?&?); [|exact Hok|].
  - split_and!; [done..|]. by apply no_panic_map.
  - apply elem_of_app. left. by eapply table_refs_elem.
Qed.

Lemma get_application_run held ru au s r s' :
  get_application ru au s = (r, s') → refs_ok held s →
  s'.1 = s.1 ∧ refs_ok held s' ∧ no_panic r ∧
  (∀ a h, r = Ok (a, h) → realms_managers s.1 !! ru = Some a).
Proof.
  intros Hrun Hok. unfold get_application in Hrun.
  eapply realm_scope in Hrun as (?&?&?&Hr); [|exact Hok|].
  - split_and!; [done..|]. intros a h ->. destruct Hr as (b&s1&s2&Hb&Hr); [done|].
    apply bind_ok_inv in Hr as (h'&s3&_&Hr). run_inv. done.
  - clear. intros a s r s' Hrun Hok Hu. run_split Hrun as h s1 H1.
    + apply map_err_err in Hrun as (e&->&Hrun).
      eapply balanced_lock in Hrun as (?&?&Hp); [|exact Hok|].
      * split_and!; [done..|]. intros msg. destruct e as [|m]; [done|]. by destruct (Hp m).
      * apply elem_of_app. left. by eapply table_refs_elem.
    + apply map_err_ok in H1. eapply balanced_lock in H1 as (?&?&?); [|exact Hok|].
      * run_inv. split_and!; [done..|]. by intros ?.
      * apply elem_of_app. left. by eapply table_refs_elem.
Qed.

Lemma on_application_balanced {A} held ru au
    (method : H → eff (Rl * W) Managers.ApplicationError A) :
  balanced held (on_application ru au method).
Proof.
  intros s r s' Hrun Hok. unfold on_application in Hrun. run_split Hrun as [a h] s1 H1.
  - eapply get_application_run in Hrun as (_&?&Hp&_); [|exact Hok]. split; [done|].
    intros msg [= ->]. by destruct (Hp msg).
  - eapply get_application_run in H1 as (Hs&Hok1&_&Ha); [|exact Hok].
    unfold map_err in Hrun. destruct (zoom _ _ s1) as [r0 s0] eqn:Hz. simplify_eq.
    eapply balanced_lock in Hz as (?&?&?); [|exact Hok1|].
    + split; [done|]. by apply no_panic_map.
    + apply elem_of_app. left. rewrite Hs. by eapply table_refs_elem, Ha.
Qed.

Lemma on_warden_balanced {A} held (c : eff St (fault WardenError) A) :
  balanced held c → balanced held (on_warden c).
Proof. apply balanced_map_err. Qed.

Lemma create_realm_balanced held id config : balanced held (create_realm id config).
Proof. intros s r s' Hrun Hok. by eapply create_realm_run in Hrun as (?&?&_). Qed.
Lemma destroy_realm_balanced held u : balanced held (destroy_realm u).
Proof. intros s r s' Hrun Hok. by eapply destroy_realm_run in Hrun as (?&?&_). Qed.
Lemma inspect_realm_balanced held u : balanced held (inspect_realm u).
Proof. intros s r s' Hrun Hok. by eapply inspect_realm_run in Hrun as (_&?&?). Qed.
Lemma list_realms_balanced held : balanced held list_realms.
Proof. intros s r s' Hrun Hok. by eapply list_realms_run in Hrun as (_&?&?). Qed.

Lemma handle_command_balanced held command : balanced held (handle_command command).
Proof.
  destruct command; (apply balanced_bind; [|intros; apply balanced_ret]);
    first [ apply on_realm_balanced | apply on_application_balanced
          | apply on_warden_balanced; simpl; auto using create_realm_balanced, destroy_realm_balanced,
              inspect_realm_balanced, list_realms_balanced ].
Qed.

Lemma handle_client_command_run held sent command s out :
  refs_ok held s →
  handle_client_command sent command (s, out) =
    (map_err_r (λ err, Fail (SendingResponseFail (JsonFramedError_to_string err))) sent,
     ((handle_command command s).2, out ++ option_list (answer (handle_command command s).1))) ∧
  is_Some (answer (handle_command command s).1).
Proof.
  intros Hok. unfold handle_client_command.
  destruct (handle_command command s) as [r s1] eqn:Hrun.
  destruct (handle_command_balanced held command s r s1 Hrun Hok) as [_ Hp].
  assert (∃ hr, zoom daemon_lens (catch_error (handle_command command)) (s, out) =
      (Ok hr, (s1, out)) ∧
      answer r = Some (create_response (map_err_r (λ e, WardenDaemonFail (ClientError_to_string e)) hr)))
    as (hr&Hz&Hans).
  { unfold zoom, catch_error. simpl. rewrite Hrun.
    destruct r as [resp|[e|msg]]; [by eexists..|by destruct (Hp msg)]. }
  rewrite (bind_ok _ _ _ _ _ Hz). simpl. rewrite Hans. split; [by destruct sent|done].
Qed.

(** No command, whatever its outcome, loses or leaks a reference to a
    realm, and none panics: after it every realm's strong count is again the
    number of its owners, so a realm never stays busy after the last command on
    it has been answered. *)
Theorem commands_keep_references held command s :
  refs_ok held s →
  refs_ok held (handle_command command s).2 ∧
  ∀ msg, (handle_command command s).1 ≠ Err (Panic msg).
Proof.
  intros Hok. destruct (handle_command command s) as [r s'] eqn:Hrun.
  by apply (handle_command_balanced _ _ _ _ _ Hrun) in Hok.
Qed.

(** C6.  A connection answers every command exactly once and in order: after
    [commands] have been read and their answers sent, the handler waits for the
    rest of the events with exactly the answers of the commands, executed one
    after the other, appended to its output. *)
Theorem requests_answered_in_order held commands rest s out :
  refs_ok held s →
  handle_client_requests (((λ c, Received (Ok c) (Ok tt)) <$> commands) ++ rest) (s, out) =
  handle_client_requests rest
    ((run_commands commands s).2, out ++ (run_commands commands s).1) ∧
  length (run_commands commands s).1 = length commands.
Proof.
  revert s out. induction commands as [|c commands IH]; intros s out Hok; simpl.
  { by rewrite app_nil_r. }
  destruct (handle_command c s) as [r s1] eqn:Hrun.
  destruct (handle_command_balanced _ _ _ _ _ Hrun Hok) as [Hok1 _].
  destruct (handle_client_command_run _ (Ok tt) c s out Hok) as [Hcmd [a Ha]]. rewrite Hrun in *.
  rewrite (bind_ok _ _ _ _ _ Hcmd). simpl in Ha. simpl. rewrite Ha. simpl.
  destruct (IH s1 (out ++ [a]) Hok1) as [IHe Hlen].
  destruct (run_commands commands s1) as [rs s2]. simpl in *. split; [|by rewrite Hlen].
  etrans; [exact IHe|]. by rewrite <-app_assoc.
Qed.

End warden_client.
