(* ===== verification/ClientLib.v ===== *)
(** * The client library

    [client_lib/src/request_handlers.rs] and [lib.rs]: one function per command
    of the protocol, each of which sends the command and interprets the
    response, and the error enum of [warden_client_error.rs]. *)

From S2P Require Import Prelude WardenClient JsonFramed.

Inductive WardenClientError :=
| ConnectionFailed (socket_path : PathBuf) (details : IoError)
| WardenOperationFail (e : WardenDaemonError)
| CommunicationFail (e : JsonFramedError)
| InvalidResponse (response : WardenResponse).

(** Connecting a Unix socket is the operating system's. *)
Class UnixSocket (W T : Type) := unix_stream_connect : PathBuf → eff W IoError T.

Section client_lib.
Context {W T : Type} `{!Framed W T WardenResponse WardenCommand, !UnixSocket W T}.

Abbreviation Communicator := (T * W)%type.

Definition handle_error_response (response : WardenResponse) : WardenClientError :=
  match response with
  | RError warden_error => WardenOperationFail warden_error
  | response => InvalidResponse response
  end.

Definition communicate (command : WardenCommand) : eff Communicator WardenClientError WardenResponse :=
  map_err CommunicationFail (json_send command);;
  map_err CommunicationFail json_recv.

Definition create_realm (config : RealmConfig) : eff Communicator WardenClientError Uuid :=
  response ← communicate (CreateRealm config);
  match response with
  | RCreatedRealm uuid => mret uuid
  | response => throw (handle_error_response response)
  end.

Definition expect_ok (response : WardenResponse) : eff Communicator WardenClientError unit :=
  match response with
  | ROk => mret tt
  | response => throw (handle_error_response response)
  end.

Definition start_realm (uuid : Uuid) : eff Communicator WardenClientError unit :=
  response ← communicate (StartRealm uuid); expect_ok response.

Definition fetch_attestation_token (uuid : Uuid) (challenge : list Z)
    : eff Communicator WardenClientError (list Z) :=
  response ← communicate (FetchToken uuid challenge);
  match response with
  | RAttestationToken token => mret token
  | response => throw (handle_error_response response)
  end.

Definition stop_realm (uuid : Uuid) : eff Communicator WardenClientError unit :=
  response ← communicate (StopRealm uuid); expect_ok response.

Definition reboot_realm (uuid : Uuid) : eff Communicator WardenClientError unit :=
  response ← communicate (RebootRealm uuid); expect_ok response.

Definition destroy_realm (uuid : Uuid) : eff Communicator WardenClientError unit :=
  response ← communicate (DestroyRealm uuid); expect_ok response.

Definition inspect_realm (uuid : Uuid) : eff Communicator WardenClientError RealmDescription :=
  response ← communicate (InspectRealm uuid);
  match response with
  | RInspectedRealm description => mret description
  | response => throw (handle_error_response response)
  end.

Definition list_realms : eff Communicator WardenClientError (list RealmDescription) :=
  response ← communicate ListRealms;
  match response with
  | RListedRealms realms_description => mret realms_description
  | response => throw (handle_error_response response)
  end.

Definition create_application (realm_uuid : Uuid) (config : ApplicationConfig)
    : eff Communicator WardenClientError Uuid :=
  response ← communicate (CreateApplication realm_uuid config);
  match response with
  | RCreatedApplication uuid => mret uuid
  | response => throw (handle_error_response response)
  end.

Definition update_application (realm_uuid application_uuid : Uuid) (config : ApplicationConfig)
    : eff Communicator WardenClientError unit :=
  response ← communicate (UpdateApplication realm_uuid application_uuid config);
  expect_ok response.

Definition start_application (realm_uuid application_uuid : Uuid)
    : eff Communicator WardenClientError unit :=
  response ← communicate (StartApplication realm_uuid application_uuid); expect_ok response.

Definition stop_application (realm_uuid application_uuid : Uuid)
    : eff Communicator WardenClientError unit :=
  response ← communicate (StopApplication realm_uuid application_uuid); expect_ok response.

(** [connect_to_warden_socket] and [WardenConnection::connect]. *)
Definition connect_to_warden_socket (warden_socket_path : PathBuf)
    : eff W WardenClientError T :=
  map_err (ConnectionFailed warden_socket_path) (unix_stream_connect warden_socket_path).

(** ** The API of [WardenConnection] as data *)

Inductive ClientCall :=
| CallCreateRealm (config : RealmConfig)
| CallStartRealm (uuid : Uuid)
| CallFetchAttestationToken (uuid : Uuid) (challenge : list Z)
| CallStopRealm (uuid : Uuid)
| CallRebootRealm (uuid : Uuid)
| CallDestroyRealm (uuid : Uuid)
| CallInspectRealm (uuid : Uuid)
| CallListRealms
| CallCreateApplication (realm_uuid : Uuid) (config : ApplicationConfig)
| CallUpdateApplication (realm_uuid application_uuid : Uuid) (config : ApplicationConfig)
| CallStartApplication (realm_uuid application_uuid : Uuid)
| CallStopApplication (realm_uuid application_uuid : Uuid).

Inductive ClientValue :=
| VUnit
| VUuid (u : Uuid)
| VToken (t : list Z)
| VRealm (d : RealmDescription)
| VRealms (ds : list RealmDescription).

(** The methods of [WardenConnection]. *)
Definition call (c : ClientCall) : eff Communicator WardenClientError ClientValue :=
  match c with
  | CallCreateRealm config => u ← create_realm config; mret (VUuid u)
  | CallStartRealm uuid => start_realm uuid;; mret VUnit
  | CallFetchAttestationToken uuid challenge =>
      t ← fetch_attestation_token uuid challenge; mret (VToken t)
  | CallStopRealm uuid => stop_realm uuid;; mret VUnit
  | CallRebootRealm uuid => reboot_realm uuid;; mret VUnit
  | CallDestroyRealm uuid => destroy_realm uuid;; mret VUnit
  | CallInspectRealm uuid => d ← inspect_realm uuid; mret (VRealm d)
  | CallListRealms => ds ← list_realms; mret (VRealms ds)
  | CallCreateApplication ru config => u ← create_application ru config; mret (VUuid u)
  | CallUpdateApplication ru au config => update_application ru au config;; mret VUnit
  | CallStartApplication ru au => start_application ru au;; mret VUnit
  | CallStopApplication ru au => stop_application ru au;; mret VUnit
  end.

End client_lib.
