(* ===== verification/ClientDaemon.v ===== *)
(** * Client library and daemon together

    The client library ([ClientLib]) running against the daemon's command
    handler ([ClientHandler]) over a transport that delivers every message:
    the results the client's functions return are those of the daemon. *)

From S2P Require Import Prelude WardenClient Managers Traits JsonFramed Arc WardenDaemon.
From S2P Require Import ClientHandler ClientLib.

Section client_daemon.
Context {W Rl H F : Type}.
Context `{!Realm W Rl H, !RealmCreator W Rl F, !Runtime W, !UuidApi}.

Abbreviation St := (WardenDaemon F * (Arcs Rl * W))%type.

(** A reliable connection: the client's end holds the responses not read yet;
    sending a command makes the daemon handle and answer it.  The stream of a command
    that panics just ends; in the states of a running daemon none does. *)
#[export] Instance connection : Framed St (list WardenResponse) WardenResponse WardenCommand := {
  frame_send command := λ x,
    (Ok tt, (x.1 ++ option_list (answer (handle_command command x.2).1), (handle_command command x.2).2));
  frame_try_next := λ x,
    match x.1 with
    | response :: pending => (Ok (Some response), (pending, x.2))
    | [] => (Ok None, x)
    end }.

(** The command a method of [WardenConnection] stands for. *)
Definition command_of (c : ClientCall) : WardenCommand :=
  match c with
  | CallCreateRealm config => CreateRealm config
  | CallStartRealm uuid => StartRealm uuid
  | CallFetchAttestationToken uuid challenge => FetchToken uuid challenge
  | CallStopRealm uuid => StopRealm uuid
  | CallRebootRealm uuid => RebootRealm uuid
  | CallDestroyRealm uuid => DestroyRealm uuid
  | CallInspectRealm uuid => InspectRealm uuid
  | CallListRealms => ListRealms
  | CallCreateApplication ru config => CreateApplication ru config
  | CallUpdateApplication ru au config => UpdateApplication ru au config
  | CallStartApplication ru au => StartApplication ru au
  | CallStopApplication ru au => StopApplication ru au
  end.

(** The daemon's response that carries the value a call returns. *)
Definition response_of (c : ClientCall) (v : ClientValue) : WardenResponse :=
  match v with
  | VUnit => ROk
  | VUuid u => match c with CallCreateApplication _ _ => RCreatedApplication u | _ => RCreatedRealm u end
  | VToken t => RAttestationToken t
  | VRealm d => RInspectedRealm d
  | VRealms ds => RListedRealms ds
  end.

(** The value a call takes out of a response it accepts. *)
Definition value_of (c : ClientCall) (response : WardenResponse) : option ClientValue :=
  match c, response with
  | CallCreateRealm _, RCreatedRealm u => Some (VUuid u)
  | CallFetchAttestationToken _ _, RAttestationToken t => Some (VToken t)
  | CallInspectRealm _, RInspectedRealm d => Some (VRealm d)
  | CallListRealms, RListedRealms ds => Some (VRealms ds)
  | CallCreateApplication _ _, RCreatedApplication u => Some (VUuid u)
  | (CallStartRealm _ | CallStopRealm _ | CallRebootRealm _ | CallDestroyRealm _
     | CallUpdateApplication _ _ _ | CallStartApplication _ _ | CallStopApplication _ _), ROk =>
      Some VUnit
  | _, _ => None
  end.

Lemma communicate_run command (s : St) :
  communicate command ([], s) =
    (ok_or (answer (handle_command command s).1) (CommunicationFail StreamIsClosed),
     ([], (handle_command command s).2)).
Proof. unfold communicate, mbind, eff_bind, map_err, json_send, json_recv. simpl. by destruct (answer _). Qed.

(** What a call makes of the answer. *)
Lemma call_run c (s : St) :
  call c ([], s) =
    (match answer (handle_command (command_of c) s).1 with
     | Some resp => ok_or (value_of c resp) (handle_error_response resp)
     | None => Err (CommunicationFail StreamIsClosed)
     end, ([], (handle_command (command_of c) s).2)).
Proof.
  destruct c; unfold call, create_realm, start_realm, fetch_attestation_token, stop_realm,
    reboot_realm, destroy_realm, inspect_realm, list_realms, create_application,
    update_application, start_application, stop_application;
    unfold mbind, eff_bind; rewrite communicate_run; simpl; by destruct (answer _) as [[]|].
Qed.

(** The daemon answers every command with a response of the command's kind. *)
Lemma handle_command_kind c (s : St) response s' :
  handle_command (command_of c) s = (Ok response, s') →
  ∃ v, value_of c response = Some v ∧ response = response_of c v.
Proof.
  intros Hrun. destruct c; simpl in Hrun; apply bind_ok_inv in Hrun as (x&s1&_&Hb); run_inv;
    by eexists.
Qed.

(** C4.  End to end: over a working connection every method of the client
    library returns exactly the daemon's outcome.  A success carries the value
    the daemon produced for this command, a failure is the daemon's error text,
    and the client never finds the response invalid or missing. *)
Theorem client_sees_daemon_result held c (s : St) :
  refs_ok held s →
  ∃ r, call c ([], s) = (r, ([], (handle_command (command_of c) s).2)) ∧
  match (handle_command (command_of c) s).1 with
  | Ok response => ∃ v, r = Ok v ∧ response = response_of c v
  | Err (Fail e) => r = Err (WardenOperationFail (WardenDaemonFail (ClientError_to_string e)))
  | Err (Panic _) => False
  end.
Proof.
  intros Hok. destruct (handle_command (command_of c) s) as [r s'] eqn:Hrun.
  destruct (handle_command_balanced _ _ _ _ _ Hrun Hok) as [_ Hp].
  pose proof (call_run c s) as Hcall. rewrite Hrun in Hcall. cbn [fst snd] in Hcall.
  eexists. split; [exact Hcall|]. destruct r as [resp|[e|msg]]; [| |by destruct (Hp msg)].
  - apply handle_command_kind in Hrun as (v&Hv&?). exists v. cbn [answer]. by rewrite Hv.
  - by destruct c.
Qed.

End client_daemon.
