(* ===== verification/CmdClient.v ===== *)
(** * The command line client

    [warden/cmd_client/src]: the commands of the terminal ([commands.rs]), what
    each of them asks of the daemon ([cmd_handler.rs]), reading one from the
    terminal ([utils.rs]) and the endless loop of [main.rs].

    The client's state is its console and its connection with the daemon.  The
    argument parser [clap], [shlex], [hex] and the token verification of
    [rust_rsi] are foreign. *)

From S2P Require Import Prelude WardenClient Managers Traits JsonFramed Arc WardenDaemon.
From S2P Require Import ClientHandler ClientLib ClientDaemon.

(** ** commands.rs *)

Module Cmd.

Inductive Command :=
| CreateRealm (id : option Uuid) (cpu machine : string) (core_count ram_size : Z)
    (tap_device mac_address : string) (network_device remote_terminal_uri : option string)
    (kernel_initramfs : option PathBuf) (kernel_options : option string) (kernel : PathBuf)
    (vsock_cid : Z) (metadata : option PathBuf)
| FetchAttestationToken (id challenge : string) (output : option PathBuf)
| ListRealms
| StartRealm (id : string)
| InspectRealm (id : string)
| StopRealm (id : string)
| RebootRealm (id : string)
| DestroyRealm (id : string)
| CreateApplication (realm_id name version image_registry : string)
    (image_storage_size_mb data_storage_size_mb : Z)
| StartApplication (application_id realm_id : string)
| StopApplication (application_id realm_id : string)
| UpdateApplication (application_id realm_id name version image_registry : string)
    (image_storage_size_mb data_storage_size_mb : Z).

End Cmd.

(** [anyhow::Error], by what it wraps. *)
Inductive CmdError :=
| ClientFailed (e : WardenClientError)
| InvalidUuid (e : string)
| InvalidHex (e : string)
| InvalidToken (e : string)
| IoFailed (e : IoError)
| InvalidArguments (e : string).

(** What the client shows its user: its log lines, the prompt on the standard
    output, and the token that [rust_rsi::print_token] prints. *)
Inductive Message (Claims : Type) :=
| MInsertCommand
| MPrompt
| MCreatedRealm (realm_uuid : Uuid)
| MFetchedToken
| MTokenWritten (path : PathBuf)
| MTokenTitle
| MTokenPrinted (claims : Claims)
| MRealmData (realm_data : WardenClient.RealmDescription)
| MRealmsData (realms_data : list WardenClient.RealmDescription)
| MApplicationUuid (application_uuid : Uuid)
| MHandled
| MHandleFailed (err : CmdError)
| MInputFailed (err : CmdError).
Arguments MInsertCommand {Claims}.
Arguments MPrompt {Claims}.
Arguments MCreatedRealm {Claims} realm_uuid.
Arguments MFetchedToken {Claims}.
Arguments MTokenWritten {Claims} path.
Arguments MTokenTitle {Claims}.
Arguments MTokenPrinted {Claims} claims.
Arguments MRealmData {Claims} realm_data.
Arguments MRealmsData {Claims} realms_data.
Arguments MApplicationUuid {Claims} application_uuid.
Arguments MHandled {Claims}.
Arguments MHandleFailed {Claims} err.
Arguments MInputFailed {Claims} err.

(** The console: the lines not read yet (or the error of reading one), what the
    user has been shown, whether the standard output works, and the file
    system.  At the end of the input [read_line] returns the empty string. *)
Record Console (Claims Fs : Type) := mkConsole {
  input : list (result string IoError);
  shown : list (Message Claims);
  stdout_write : result unit IoError;
  stdout_flush : result unit IoError;
  console_files : Fs }.
Arguments mkConsole {Claims Fs} input shown stdout_write stdout_flush console_files.
Arguments input {Claims Fs} _.
Arguments shown {Claims Fs} _.
Arguments stdout_write {Claims Fs} _.
Arguments stdout_flush {Claims Fs} _.
Arguments console_files {Claims Fs} _.

(** The foreign crates and [tokio::fs::write]. *)
Class CmdLibs (Claims Fs : Type) := {
  shlex_split : string → option (list string);
  try_parse_from : list string → result Cmd.Command string;
  hex_decode : string → result (list Z) string;
  verify_token : list Z → result Claims string;
  fs_write : PathBuf → list Z → eff Fs IoError unit }.

(** [ok_or(io::Error::other("Can't split readed line!"))]. *)
Definition split_error : IoError := mkIoError OtherKind "Can't split readed line!".

Section cmd_client.
Context {W T Claims Fs : Type}.
Context `{!Framed W T WardenResponse WardenCommand, !UnixSocket W T, !UuidApi, !CmdLibs Claims Fs}.

Abbreviation Console := (Console Claims Fs).
Abbreviation St := (Console * (T * W))%type.

Definition connection_lens : lens St (T * W) := Lens snd (λ x s, (s.1, x)).
Definition files_lens : lens St Fs :=
  Lens (λ s, console_files s.1)
    (λ f s, (mkConsole (input s.1) (shown s.1) (stdout_write s.1) (stdout_flush s.1) f, s.2)).

(** [info!], [error!] and the standard output. *)
Definition show {E} (m : Message Claims) : eff St E unit :=
  modify (λ s, (mkConsole (input s.1) (shown s.1 ++ [m]) (stdout_write s.1) (stdout_flush s.1)
    (console_files s.1), s.2)).

(** ** cmd_handler.rs *)

(** [self.connection.method(..).await?]. *)
Definition on_connection {A} (c : eff (T * W) WardenClientError A) : eff St CmdError A :=
  map_err ClientFailed (zoom connection_lens c).

(** [Uuid::from_str(..)?] and [hex::decode(..)?]. *)
Definition parse_uuid (s : string) : eff St CmdError Uuid :=
  try_r (map_err_r InvalidUuid (uuid_from_str s)).
Definition decode_hex (s : string) : eff St CmdError (list Z) :=
  try_r (map_err_r InvalidHex (hex_decode s)).

(** [CommandHanlder::handle_command]. *)
Definition handle_command (command : Cmd.Command) : eff St CmdError unit :=
  match command with
  | Cmd.CreateRealm id cpu machine core_count ram_size tap_device mac_address network_device
      remote_terminal_uri kernel_initramfs kernel_options kernel vsock_cid metadata =>
      let cpu := WardenClient.mkCpuConfig cpu core_count in
      let kernel := WardenClient.mkKernelConfig kernel kernel_initramfs kernel_options in
      let memory := WardenClient.mkMemoryConfig ram_size in
      let network := WardenClient.mkNetworkConfig vsock_cid tap_device mac_address network_device
                       remote_terminal_uri in
      let realm_config := WardenClient.mkRealmConfig id machine cpu memory network kernel metadata in
      realm_uuid ← on_connection (ClientLib.create_realm realm_config);
      show (MCreatedRealm realm_uuid)
  | Cmd.StartRealm id =>
      id ← parse_uuid id;
      on_connection (ClientLib.start_realm id)
  | Cmd.FetchAttestationToken id challenge output =>
      raw_chall ← decode_hex challenge;
      id ← parse_uuid id;
      token ← on_connection (ClientLib.fetch_attestation_token id raw_chall);
      show MFetchedToken;;
      match output with
      | Some path =>
          map_err IoFailed (zoom files_lens (fs_write path token));;
          show (MTokenWritten path)
      | None =>
          show MTokenTitle;;
          claims ← try_r (map_err_r InvalidToken (verify_token token));
          show (MTokenPrinted claims)
      end
  | Cmd.StopRealm id =>
      id ← parse_uuid id;
      on_connection (ClientLib.stop_realm id)
  | Cmd.InspectRealm realm_id =>
      realm_id ← parse_uuid realm_id;
      realm_data ← on_connection (ClientLib.inspect_realm realm_id);
      show (MRealmData realm_data)
  | Cmd.ListRealms =>
      realms_data ← on_connection ClientLib.list_realms;
      show (MRealmsData realms_data)
  | Cmd.DestroyRealm id =>
      id ← parse_uuid id;
      on_connection (ClientLib.destroy_realm id)
  | Cmd.RebootRealm id =>
      id ← parse_uuid id;
      on_connection (ClientLib.reboot_realm id)
  | Cmd.CreateApplication realm_id name version image_registry image_storage_size_mb
      data_storage_size_mb =>
      let application_config := WardenClient.mkApplicationConfig name version image_registry
                                  image_storage_size_mb data_storage_size_mb in
      realm_id ← parse_uuid realm_id;
      application_uuid ← on_connection (ClientLib.create_application realm_id application_config);
      show (MApplicationUuid application_uuid)
  | Cmd.StartApplication application_id realm_id =>
      realm_id ← parse_uuid realm_id;
      application_id ← parse_uuid application_id;
      on_connection (ClientLib.start_application realm_id application_id)
  | Cmd.StopApplication application_id realm_id =>
      realm_id ← parse_uuid realm_id;
      application_id ← parse_uuid application_id;
      on_connection (ClientLib.stop_application realm_id application_id)
  | Cmd.UpdateApplication application_id realm_id name version image_registry
      image_storage_size_mb data_storage_size_mb =>
      let application_config := WardenClient.mkApplicationConfig name version image_registry
                                  image_storage_size_mb data_storage_size_mb in
      realm_id ← parse_uuid realm_id;
      application_id ← parse_uuid application_id;
      on_connection (ClientLib.update_application realm_id application_id application_config)
  end.

(** ** utils.rs *)

(** [write_line_begining]. *)
Definition write_line_begining : eff St CmdError unit :=
  with_state (λ s, try_r (map_err_r IoFailed (stdout_write s.1)));;
  show MPrompt;;
  with_state (λ s, try_r (map_err_r IoFailed (stdout_flush s.1))).

(** [read_line]: [Stdin::read_line] into an empty buffer. *)
Definition read_line : eff St CmdError string := λ s,
  match input s.1 with
  | [] => (Ok "", s)
  | line :: rest =>
      (map_err_r IoFailed line,
       (mkConsole rest (shown s.1) (stdout_write s.1) (stdout_flush s.1) (console_files s.1), s.2))
  end.

(** [parse_users_input]. *)
Definition parse_users_input : eff St CmdError Cmd.Command :=
  write_line_begining;;
  line ← read_line;
  argv ← try_r (map_err_r IoFailed (ok_or (shlex_split (trim line)) split_error));
  try_r (map_err_r InvalidArguments (try_parse_from argv)).

(** ** main.rs *)

Definition handle_cmd (cmd : Cmd.Command) : eff St CmdError unit :=
  handled ← attempt (handle_command cmd);
  match handled with
  | Err err => show (MHandleFailed err)
  | Ok _ => show MHandled
  end.

(** One iteration of the loop of [main]. *)
Definition main_iteration : eff St CmdError unit :=
  show MInsertCommand;;
  cmd ← attempt parse_users_input;
  match cmd with
  | Ok cmd => handle_cmd cmd
  | Err err => show (MInputFailed err)
  end.

(** The first [n] iterations: the loop has no exit. *)
Fixpoint main_loop (n : nat) : eff St CmdError unit :=
  match n with
  | O => mret tt
  | S n => main_iteration;; main_loop n
  end.

(** [main] up to the loop: connecting to the daemon's socket. *)
Definition main_connect (unix_socket_path : PathBuf) : eff W CmdError T :=
  map_err ClientFailed (connect_to_warden_socket unix_socket_path).

End cmd_client.

(** ** What a command asks of the daemon *)

Section against_daemon.
Context {W Rl H F Claims Fs : Type}.
Context `{!Realm W Rl H, !RealmCreator W Rl F, !Runtime W, !UuidApi, !CmdLibs Claims Fs}.

Abbreviation Daemon := (WardenDaemon F * (Arcs Rl * W))%type.
Abbreviation Con := (Console Claims Fs).
Implicit Types (d : Daemon) (con : Con) (cmd : Cmd.Command).

Definition uuid_arg {A} (s : string) (f : Uuid → result A CmdError) : result A CmdError :=
  and_then (map_err_r InvalidUuid (uuid_from_str s)) f.

(** The call of the client library a command stands for, unless one of its
    arguments is malformed. *)
Definition request (cmd : Cmd.Command) : result ClientCall CmdError :=
  match cmd with
  | Cmd.CreateRealm id cpu machine core_count ram_size tap_device mac_address network_device
      remote_terminal_uri kernel_initramfs kernel_options kernel vsock_cid metadata =>
      Ok (CallCreateRealm (WardenClient.mkRealmConfig id machine
        (WardenClient.mkCpuConfig cpu core_count) (WardenClient.mkMemoryConfig ram_size)
        (WardenClient.mkNetworkConfig vsock_cid tap_device mac_address network_device
          remote_terminal_uri)
        (WardenClient.mkKernelConfig kernel kernel_initramfs kernel_options) metadata))
  | Cmd.FetchAttestationToken id challenge _ =>
      and_then (map_err_r InvalidHex (hex_decode challenge)) (λ raw,
      uuid_arg id (λ u, Ok (CallFetchAttestationToken u raw)))
  | Cmd.ListRealms => Ok CallListRealms
  | Cmd.StartRealm id => uuid_arg id (λ u, Ok (CallStartRealm u))
  | Cmd.InspectRealm id => uuid_arg id (λ u, Ok (CallInspectRealm u))
  | Cmd.StopRealm id => uuid_arg id (λ u, Ok (CallStopRealm u))
  | Cmd.RebootRealm id => uuid_arg id (λ u, Ok (CallRebootRealm u))
  | Cmd.DestroyRealm id => uuid_arg id (λ u, Ok (CallDestroyRealm u))
  | Cmd.CreateApplication realm_id name version image_registry img dat =>
      uuid_arg realm_id (λ ru, Ok (CallCreateApplication ru
        (WardenClient.mkApplicationConfig name version image_registry img dat)))
  | Cmd.StartApplication application_id realm_id =>
      uuid_arg realm_id (λ ru, uuid_arg application_id (λ au, Ok (CallStartApplication ru au)))
  | Cmd.StopApplication application_id realm_id =>
      uuid_arg realm_id (λ ru, uuid_arg application_id (λ au, Ok (CallStopApplication ru au)))
  | Cmd.UpdateApplication application_id realm_id name version image_registry img dat =>
      uuid_arg realm_id (λ ru, uuid_arg application_id (λ au, Ok (CallUpdateApplication ru au
        (WardenClient.mkApplicationConfig name version image_registry img dat))))
  end.

Definition shows (ms : list (Message Claims)) (con : Con) : Con :=
  mkConsole (input con) (shown con ++ ms) (stdout_write con) (stdout_flush con) (console_files con).
Definition set_console_files (fs : Fs) (con : Con) : Con :=
  mkConsole (input con) (shown con) (stdout_write con) (stdout_flush con) fs.

(** What the user sees of the value the daemon returned. *)
Definition report (cmd : Cmd.Command) (v : ClientValue) (con : Con) : result unit CmdError * Con :=
  match cmd, v with
  | Cmd.CreateRealm _ _ _ _ _ _ _ _ _ _ _ _ _ _, VUuid u => (Ok tt, shows [MCreatedRealm u] con)
  | Cmd.CreateApplication _ _ _ _ _ _, VUuid u => (Ok tt, shows [MApplicationUuid u] con)
  | Cmd.InspectRealm _, VRealm x => (Ok tt, shows [MRealmData x] con)
  | Cmd.ListRealms, VRealms xs => (Ok tt, shows [MRealmsData xs] con)
  | Cmd.FetchAttestationToken _ _ (Some path), VToken token =>
      match fs_write path token (console_files con) with
      | (Ok _, fs) => (Ok tt, set_console_files fs (shows [MFetchedToken; MTokenWritten path] con))
      | (Err e, fs) => (Err (IoFailed e), set_console_files fs (shows [MFetchedToken] con))
      end
  | Cmd.FetchAttestationToken _ _ None, VToken token =>
      match verify_token token with
      | Ok claims =>
          (Ok tt, shows [MFetchedToken; MTokenTitle; MTokenPrinted claims] con)
      | Err e => (Err (InvalidToken e), shows [MFetchedToken; MTokenTitle] con)
      end
  | _, _ => (Ok tt, con)
  end.

(** What [handle_command] does, from the result of the library call. *)
Lemma handle_command_request cmd con (x : list WardenResponse * Daemon) :
  handle_command cmd (con, x) =
  match request cmd with
  | Err e => (Err e, (con, x))
  | Ok c =>
      match call c x with
      | (Ok v, x') => let '(r, con') := report cmd v con in (r, (con', x'))
      | (Err e, x') => (Err (ClientFailed e), (con, x'))
      end
  end.
Proof.
  destruct cmd; simpl; unfold parse_uuid, decode_hex, uuid_arg, on_connection, map_err, zoom, call,
    show, modify, try_r, mbind, eff_bind, mret, eff_ret; simpl;
    repeat (case_match; simplify_eq/=; try done).
  all: repeat match goal with u : () |- _ => destruct u end;
    unfold set_console_files, shows; simpl; by rewrite <-?app_assoc.
Qed.

(** C16.  A command typed at the terminal has exactly the daemon's outcome.  A
    malformed argument is refused before anything is sent; otherwise the daemon
    is left as by the one command the line stands for, the user sees the value
    the daemon returned for it, and a failure is the daemon's error text. *)
Theorem terminal_command_outcome held cmd con d :
  refs_ok held d →
  match request cmd with
  | Err e => handle_command cmd (con, ([], d)) = (Err e, (con, ([], d)))
  | Ok c =>
      ∃ r con', handle_command cmd (con, ([], d)) =
        (r, (con', ([], (ClientHandler.handle_command (command_of c) d).2))) ∧
      match (ClientHandler.handle_command (command_of c) d).1 with
      | Ok response => ∃ v, response = response_of c v ∧ report cmd v con = (r, con')
      | Err (Fail e) => con' = con ∧
          r = Err (ClientFailed (WardenOperationFail (WardenDaemonFail (ClientError_to_string e))))
      | Err (Panic _) => False
      end
  end.
Proof.
  intros Hok. pose proof (handle_command_request cmd con ([], d)) as Hrun.
  destruct (request cmd) as [c|e]; [|done]. rewrite call_run in Hrun.
  destruct (ClientHandler.handle_command (command_of c) d) as [r d'] eqn:Hcmd.
  destruct (handle_command_balanced _ _ _ _ _ Hcmd Hok) as [_ Hp].
  destruct r as [response|[e|msg]]; [| |by destruct (Hp msg)]; cbn [fst snd answer] in *.
  - apply handle_command_kind in Hcmd as (v&Hv&Hresp). rewrite Hv in Hrun. cbn [ok_or] in Hrun.
    destruct (report cmd v con) as [r con'] eqn:Hrep. by eauto 10.
  - assert (value_of c (RError (WardenDaemonFail (ClientError_to_string e))) = None) as Hv
      by by destruct c.
    rewrite Hv in Hrun. eexists _, _. by split; [exact Hrun|].
Qed.

(** ** Sessions *)

(** The call a line of the terminal leads to, if it leads to one. *)
Definition line_request (line : result string IoError) : option ClientCall :=
  match line with
  | Err _ => None
  | Ok line =>
      argv ← shlex_split (trim line);
      match try_parse_from argv with
      | Ok cmd => match request cmd with Ok c => Some c | Err _ => None end
      | Err _ => None
      end
  end.

(** A console whose standard output works. *)
Definition interactive con : Prop := stdout_write con = Ok tt ∧ stdout_flush con = Ok tt.

Lemma report_console cmd v con :
  input (report cmd v con).2 = input con ∧ (interactive con → interactive (report cmd v con).2).
Proof. unfold report. by repeat case_match. Qed.

Lemma handle_cmd_run cmd con d :
  ∃ con', handle_cmd cmd (con, ([], d)) = (Ok tt, (con', ([],
    match request cmd with
    | Ok c => (ClientHandler.handle_command (command_of c) d).2
    | Err _ => d
    end))) ∧ input con' = input con ∧ (interactive con → interactive con').
Proof.
  unfold handle_cmd. pose proof (handle_command_request cmd con ([], d)) as Hrun.
  destruct (request cmd) as [c|e].
  - rewrite call_run in Hrun. cbv zeta in Hrun.
    destruct (match answer _ with Some _ => _ | None => _ end) as [v|e].
    + pose proof (report_console cmd v con) as [Hin Hi]. destruct (report cmd v con) as [r con'].
      erewrite bind_ok by (by apply attempt_run). by destruct r; eexists.
    + erewrite bind_ok by (by apply attempt_run). by eexists.
  - erewrite bind_ok by (by apply attempt_run). by eexists.
Qed.

Definition set_input (lines : list (result string IoError)) (con : Con) : Con :=
  mkConsole lines (shown con) (stdout_write con) (stdout_flush con) (console_files con).

(** Reading a line from a console that works. *)
Lemma parse_users_input_run con (x : list WardenResponse * Daemon) :
  interactive con →
  parse_users_input (con, x) =
    (match default (Ok "") (head (input con)) with
     | Ok line =>
         match shlex_split (trim line) with
         | Some argv => map_err_r InvalidArguments (try_parse_from argv)
         | None => Err (IoFailed split_error)
         end
     | Err e => Err (IoFailed e)
     end, (set_input (tail (input con)) (shows [MPrompt] con), x)).
Proof.
  destruct con as [lines out w f fs]. intros [Hw Hf]. simpl in Hw, Hf. subst w f.
  unfold parse_users_input, mbind, eff_bind. simpl. unfold read_line. simpl.
  destruct lines as [|[line|e] lines]; simpl; [| |done];
    by destruct (shlex_split _) as [argv|].
Qed.

(** One line of the terminal. *)
Lemma main_iteration_run con d line lines :
  interactive con → input con = line :: lines →
  ∃ con', main_iteration (con, ([], d)) = (Ok tt, (con', ([],
    match line_request line with
    | Some c => (ClientHandler.handle_command (command_of c) d).2
    | None => d
    end))) ∧ input con' = lines ∧ interactive con'.
Proof.
  intros Hi Hin. unfold main_iteration. erewrite bind_ok by reflexivity.
  pose proof (parse_users_input_run (shows [MInsertCommand] con) ([], d) Hi) as Hrun.
  apply (attempt_run (F := CmdError)) in Hrun. rewrite (bind_ok _ _ _ _ _ Hrun). clear Hrun.
  assert (interactive (set_input lines (shows [MPrompt] (shows [MInsertCommand] con)))) as Hi' by done.
  simpl. rewrite Hin. simpl. destruct line as [line|e]; simpl; [|by eexists].
  destruct (shlex_split (trim line)) as [argv|]; simpl; [|by eexists].
  destruct (try_parse_from argv) as [cmd|e]; simpl; [|by eexists].
  destruct (handle_cmd_run cmd (set_input lines (shows [MPrompt] (shows [MInsertCommand] con))) d)
    as (con'&Hcmd&Hin'&Hk). exists con'. split_and!; [|done|by apply Hk].
  by destruct (request cmd).
Qed.

(** C17.  A session is the sequence of its commands: reading any lines, the
    client leaves the daemon as the requests of the lines, one after the other
    and each exactly once, leave it.  A line that cannot be read, split, parsed
    or whose arguments are malformed is skipped, a failed command does not end
    the session, and every answer is consumed before the next line is read. *)
Theorem session_runs_commands con d :
  interactive con →
  let n := length (input con) in
  let '(r, (con', x)) := main_loop n (con, ([], d)) in
  r = Ok tt ∧ input con' = [] ∧
  x = ([], (run_commands (command_of <$> omap line_request (input con)) d).2).
Proof.
  intros Hi. remember (input con) as lines eqn:Hin. symmetry in Hin.
  revert con d Hi Hin. induction lines as [|line lines IH]; intros con d Hi Hin; simpl; [done|].
  destruct (main_iteration_run con d line lines Hi Hin) as (con1&Hit&Hin1&Hi1).
  unfold mbind at 1, eff_bind at 1. rewrite Hit. 
  match goal with |- context [main_loop _ (con1, ([], ?d1))] => specialize (IH con1 d1 Hi1 Hin1) end.
  simpl in IH. destruct (main_loop _ _) as [r [con' x]]. destruct IH as (->&->&->).
  split_and!; [done..|]. destruct (line_request line) as [c|]; [|done]. simpl.
  destruct (ClientHandler.handle_command _ d) as [r d1]. simpl. by destruct (run_commands _ d1).
Qed.

(** ** The end of the input *)

(** What one iteration at the end of the input shows. *)
Definition spin (e : string) : list (Message Claims) :=
  [MInsertCommand; MPrompt; MInputFailed (InvalidArguments e)].

(** The client does not end with its input.  Once the terminal is closed
    every further iteration reads an empty line, which has no subcommand, and
    reports it: the loop neither waits nor returns, so it prints the same error
    forever, and the daemon is never spoken to again. *)
Theorem end_of_input_spins e con (x : list WardenResponse * Daemon) n :
  interactive con → input con = [] →
  shlex_split "" = Some [] → try_parse_from [] = Err e →
  main_loop n (con, x) = (Ok tt, (shows (mjoin (replicate n (spin e))) con, x)).
Proof.
  intros Hi Hin Hsplit Hparse. revert con Hi Hin. induction n as [|n IH]; intros con Hi Hin.
  - simpl. unfold shows. rewrite app_nil_r. by destruct con.
  - assert (main_iteration (con, x) = (Ok tt, (shows (spin e) con, x))) as Hit.
    { unfold main_iteration. erewrite bind_ok by reflexivity.
      pose proof (parse_users_input_run (shows [MInsertCommand] con) x Hi) as Hrun.
      apply (attempt_run (F := CmdError)) in Hrun. rewrite (bind_ok _ _ _ _ _ Hrun). simpl.
      rewrite Hin. simpl. change (trim "") with "". rewrite Hsplit, Hparse. simpl. unfold show, modify, shows, set_input. simpl.
      rewrite Hin. simpl. by rewrite <-!app_assoc. }
    simpl main_loop. rewrite (bind_ok _ _ _ _ _ Hit), IH by done.
    unfold shows. simpl. by rewrite <-app_assoc.
Qed.

End against_daemon.
