(* ===== verification/AmBase.v ===== *)
(** * The application manager inside the realm: configuration and errors

    [realm/app-manager/src]: [config.rs], [consts.rs], [error.rs] and the error
    enums of the utility modules.  [Errno] is a number; errors of foreign
    crates are represented by their text. *)

From S2P Require Import Prelude JsonFramed.

Abbreviation Errno := Z (only parsing).
Abbreviation Bytes := (list Z) (only parsing).

(** ** config.rs *)

Inductive TokenResolver := File (path : string) | Rsi.

Inductive OciLauncherConfig :=
| NoTLS
| RusTLS (root_ca : string)
| RaTLS (root_ca : string) (token_resolver : TokenResolver).

Inductive LauncherType := DummyLauncherType | Oci (config : OciLauncherConfig).

Inductive RsiSealingKeyFlags := KeyFlag | Rim | RealmId.

Inductive IkmSource :=
| StubbedHex (hex : string)
| RsiSealingKey (flags : list RsiSealingKeyFlags) (svn : option Z).

Inductive KeySealingType := DummySealing | HkdfSha256 (ikm : IkmSource).

Inductive ExtendREM := Rem0 | Rem1 | Rem2 | Rem3.

(** [*rem as u32]: the explicit discriminants. *)
Definition ExtendREM_as_u32 (r : ExtendREM) : Z :=
  match r with Rem0 => 1 | Rem1 => 2 | Rem2 => 3 | Rem3 => 4 end.

Inductive Cipher := Aes | Twofish | Serpent.
Inductive HashAlgo := Sha256.
Inductive IvMode := Plain | Plain64 | Essiv (h : HashAlgo).
Inductive BlockMode := Cbc | Xts.

Record CryptoParams := mkCryptoParams {
  cipher : Cipher;
  iv_mode : IvMode;
  block_mode : BlockMode;
  iv_offset : Z;
  additional_options : option (list string) }.

Record Config := mkConfig {
  workdir : PathBuf;
  vsock_port : Z;
  crypto : CryptoParams;
  launcher : LauncherType;
  ca_pub : PathBuf;
  keysealing : KeySealingType;
  autostartall : bool;
  extend : option ExtendREM }.

#[global] Instance RsiSealingKeyFlags_eq_dec : EqDecision RsiSealingKeyFlags.
Proof. solve_decision. Defined.

(** [Config::requires_rsi]. *)
Definition requires_rsi (c : Config) : bool :=
  match keysealing c, launcher c, extend c with
  | HkdfSha256 (RsiSealingKey _ _), _, _ => true
  | _, Oci (RaTLS _ Rsi), _ => true
  | _, _, Some _ => true
  | _, _, _ => false
  end.

(** ** Errors *)

Inductive FsError :=
| MkfsStartFailure (e : IoError)
| MkfsFormatError (e : IoError)
| MountError (e : Errno)
| UmountError (e : Errno)
| MknodError (e : Errno)
| MkdirpError (e : IoError)
| ReadLinkError (e : IoError)
| StatError (e : IoError)
| FileReadError (e : IoError)
| FileWriteError (e : IoError)
| PathHasNoParent
| RmRfError (e : IoError)
| RenameError (e : IoError).

Inductive DiskError := EmptyDeviceName | InvalidDiskSize (e : string).

Inductive OsError :=
| RebootError (e : Errno)
| InsmodFileFail (e : IoError)
| InsmodReadFail (e : IoError)
| InsmodFail (e : Errno).

Inductive DeviceHandleError :=
| TableLoad (e : string)
| ResumeError (e : string)
| SuspendError (e : string)
| NoId.

Inductive KeyRingError :=
| FailedToAttachtoKeyring (e : string)
| FailedToSealKey (e : string).

Inductive HkdfSealingError :=
| StubbedIkmDecodingError (e : string)
| IkmRsiReadingError (e : Errno).

Inductive CryptoError :=
| PubKeyParsing (e : string)
| SignatureParsing (e : string)
| Verification (e : string).

Inductive DummyLauncherError :=
| FileCopyError (e : IoError)
| DummyFileWriteError (e : IoError).

Inductive OciLauncherError :=
| RootCaLoading (e : string)
| TokenReadingError (e : string)
| RaTlsCertResolverCreation (e : string)
| OciClientCreation (e : string)
| ImageInfoFetching (e : string)
| InvalidVersion (e : string) (version : string)
| UnpackError (e : string)
| FailedToFindRequiredAnnotations (id : string)
| FailedToHexDecodeAnnotation (e : string) (id : string)
| AppImageLacksAnnotations
| MetadataNotFound
| RuntimeConfigMissing
| EntryPointCmdMissing
| InvalidUserOrGroup (name : string)
| GetPwName (e : Errno).

Inductive ApplicationHandlerError :=
| EmptyArgv
| SpawnError (e : IoError)
| AppNotRunning
| RequestChannelError
| ResponseChannelError
| ChannelClosed
| AppHandlerInvalidResponse
| AppThreadJoinError (e : string)
| IOReadError (e : IoError)
| FailedToSendSignal (e : Errno)
| WaitpidError (e : IoError).

Inductive ManagerError :=
| ProvisionJoinError (e : string)
| VsockConnectionError (e : IoError)
| FramedJsonError (e : JsonFramedError)
| RemExtensionError (e : Errno)
| AppHasNoMeasurements
| AppNotFound (uuid : Uuid)
| AlreadyProvisioned
| RaTlsIsNotSelected
| RsiTokenFetch (e : Errno)
| InvalidChallengeSize.

(** [error.rs]; [PartitionNotFound] is the only [ApplicationError]. *)
Inductive Error :=
| PartitionNotFound (uuid : Uuid)
| InvalidConfigFile (e : string)
| Manager (e : ManagerError)
| Fs (e : FsError)
| Serde (e : string)
| Disk (e : DiskError)
| CstringConv (e : string)
| CstringFromVecConv (e : string)
| Os (e : OsError)
| Net (e : Errno)
| DeviceHandleErr (e : DeviceHandleError)
| DmOpen (e : string)
| DmInvalidName (name : string) (e : string)
| DmUuidConversion (e : string)
| DmCreate (name : string) (e : string)
| DmRemoveDevice (e : string)
| KeyRing (e : KeyRingError)
| Handler (e : ApplicationHandlerError)
| DummyLauncherErr (e : DummyLauncherError)
| OciLauncherErr (e : OciLauncherError)
| HkdfSealingErr (e : HkdfSealingError)
| Crypto (e : CryptoError).
