(* ===== verification/DmCrypt.v ===== *)
(** * Encrypted partitions

    [realm/app-manager/src/dm]: the text forms of the dm-crypt parameters and
    the table line [crypt.rs] loads into the device mapper, and the device
    handles of [device.rs] and [mod.rs].  The device mapper itself is foreign. *)

From S2P Require Import Prelude AmBase.

(** ** crypt.rs: [Display] *)

Definition Cipher_to_string (c : Cipher) : string :=
  match c with Aes => "aes" | Twofish => "twofish" | Serpent => "serpent" end.

Definition HashAlgo_to_string (h : HashAlgo) : string := match h with Sha256 => "sha256" end.

Definition IvMode_to_string (m : IvMode) : string :=
  match m with
  | Plain => "plain"
  | Plain64 => "plain64"
  | Essiv h => "essiv:" +:+ HashAlgo_to_string h
  end.

Definition BlockMode_to_string (m : BlockMode) : string :=
  match m with Cbc => "cbc" | Xts => "xts" end.

Inductive KeyType := Logon | User | Encrypted.

Definition KeyType_to_string (t : KeyType) : string :=
  match t with User => "user" | Logon => "logon" | Encrypted => "encrypted" end.

Inductive Key :=
| Raw (v : Bytes)
| Hex (h : string)
| Keyring (key_size : Z) (key_type : KeyType) (key_desc : string).

(** [const_hex]. *)
Class HexApi := {
  hex_encode : Bytes → string;
  hex_decode : string → result Bytes string }.

Inductive DevicePath := Name (name : string) | MajorMinor (major minor : Z).

Definition DevicePath_to_string (p : DevicePath) : string :=
  match p with
  | Name name => "/dev/" +:+ name
  | MajorMinor major minor => pretty major +:+ ":" +:+ pretty minor
  end.

Record DmCryptTable := mkDmCryptTable {
  start : Z;
  len : Z;
  params : CryptoParams;
  offset : Z }.

(** The devices of the [devicemapper] crate: a created device reports its name,
    its uuid and its number. *)
Record DeviceInfo := mkDeviceInfo {
  info_name : option string;
  info_uuid : option string;
  info_major : Z;
  info_minor : Z }.

Inductive DevId := IdName (name : string) | IdUuid (uuid : string).

Class DmApi (W : Type) := {
  dm_new : eff W string unit;
  dm_name_valid : string → option string;
  dm_uuid_valid : string → option string;
  dm_device_create : string → option string → eff W string DeviceInfo;
  dm_table_load : DevId → list (Z * Z * string * string) → eff W string unit;
  dm_device_suspend : DevId → bool → eff W string unit;
  dm_device_remove : DevId → eff W string unit }.

(** [DeviceHandle] and its wrapper [CryptDevice]. *)
Record CryptDevice := mkCryptDevice { info : DeviceInfo }.

Section dm.
Context {W : Type} `{!HexApi, !DmApi W, !UuidApi}.

Definition Key_to_string (k : Key) : string :=
  match k with
  | Hex h => h
  | Raw v => hex_encode v
  | Keyring key_size key_type key_desc =>
      ":" +:+ pretty key_size +:+ ":" +:+ KeyType_to_string key_type +:+ ":" +:+ key_desc
  end.

(** [opts.join(" ")]. *)
Fixpoint join_space (l : list string) : string :=
  match l with
  | [] => ""
  | [x] => x
  | x :: l' => x +:+ " " +:+ join_space l'
  end.

(** The parameter string of [CryptDevice::load]. *)
Definition table_params (entry : DmCryptTable) (devpath : DevicePath) (key : Key) : string :=
  let p := params entry in
  let base :=
    Cipher_to_string (cipher p) +:+ "-" +:+ BlockMode_to_string (block_mode p) +:+ "-" +:+
    IvMode_to_string (iv_mode p) +:+ " " +:+ Key_to_string key +:+ " " +:+
    pretty (iv_offset p) +:+ " " +:+ DevicePath_to_string devpath +:+ " " +:+
    pretty (offset entry) in
  match additional_options p with
  | Some opts => base +:+ (pretty (Z.of_nat (length opts)) +:+ " " +:+ join_space opts)
  | None => base
  end.

(** ** device.rs and mod.rs *)

(** [DeviceHandle::dev_id]. *)
Definition dev_id (d : CryptDevice) : result DevId Error :=
  match info_name (info d) with
  | Some n => Ok (IdName n)
  | None => match info_uuid (info d) with
            | Some u => Ok (IdUuid u)
            | None => Err (DeviceHandleErr NoId)
            end
  end.

(** [DeviceHandle::table_load]. *)
Definition table_load (d : CryptDevice) (targets : list (Z * Z * string * string))
    : eff W Error unit :=
  id ← try_r (dev_id d);
  map_err (λ e, DeviceHandleErr (TableLoad e)) (dm_table_load id targets).

(** [CryptDevice::load]. *)
Definition load (d : CryptDevice) (entry : DmCryptTable) (devpath : DevicePath) (key : Key)
    : eff W Error unit :=
  table_load d [(start entry, len entry, "crypt", table_params entry devpath key)].

(** [DeviceHandleWrapperExt::resume] and [suspend]: the same call without and
    with [DM_SUSPEND]. *)
Definition resume (d : CryptDevice) : eff W Error unit :=
  id ← try_r (dev_id d);
  map_err (λ e, DeviceHandleErr (ResumeError e)) (dm_device_suspend id false).

Definition suspend (d : CryptDevice) : eff W Error unit :=
  id ← try_r (dev_id d);
  map_err (λ e, DeviceHandleErr (SuspendError e)) (dm_device_suspend id true).

Definition get_major_minor (d : CryptDevice) : Z * Z :=
  (info_major (info d), info_minor (info d)).

(** [DeviceMapper::init]. *)
Definition DeviceMapper_init : eff W Error unit := map_err DmOpen dm_new.

(** [DeviceMapper::create_device_handle] and [create_device]. *)
Definition create_device (name : string) (uuid : option Uuid) : eff W Error CryptDevice :=
  (match dm_name_valid name with
   | Some e => throw (DmInvalidName name e)
   | None => mret tt
   end);;
  dm_uuid ← match uuid with
            | Some u => match dm_uuid_valid (uuid_to_string u) with
                        | Some e => throw (DmUuidConversion e)
                        | None => mret (Some (uuid_to_string u))
                        end
            | None => mret None
            end;
  info ← map_err (DmCreate name) (dm_device_create name dm_uuid);
  mret (mkCryptDevice info).

(** [DeviceMapper::remove_device]. *)
Definition remove_device (d : CryptDevice) : eff W Error unit :=
  id ← try_r (dev_id d);
  map_err DmRemoveDevice (dm_device_remove id).

(** ** The table line

    dm-crypt reads its parameters as fields separated by blanks: the cipher
    specification, the key, the IV offset, the device, the start sector, and
    then optionally the number of further options and the options. *)

Definition blank : ascii := " "%char.
Definition fields (s : string) : list string := split_on blank s.

Lemma pretty_N_go_no_blank x s :
  has_char blank s = false → has_char blank (pretty_N_go x s) = false.
Proof.
  revert s. induction (N.lt_wf_0 x) as [x _ IH]. intros s Hs.
  destruct (decide (0 < x)%N) as [Hx|Hx].
  - rewrite pretty_N_go_step by done. apply IH; [apply N.div_lt; lia|].
    simpl. rewrite Hs, orb_false_r. apply bool_decide_false.
    unfold pretty_N_char. by repeat case_match.
  - replace x with 0%N by lia. by rewrite pretty_N_go_0.
Qed.

Lemma pretty_Z_no_blank (z : Z) : has_char blank (pretty z) = false.
Proof.
  unfold pretty, pretty_Z. destruct z; [done|..];
    unfold pretty, pretty_positive, pretty, pretty_N; case_decide; try done; simpl;
    by apply pretty_N_go_no_blank.
Qed.

Lemma spec_no_blank p :
  has_char blank (Cipher_to_string (cipher p) +:+ "-" +:+ BlockMode_to_string (block_mode p) +:+
    "-" +:+ IvMode_to_string (iv_mode p)) = false.
Proof. by destruct (cipher p), (block_mode p), (iv_mode p) as [| |[]]. Qed.

Lemma fields_cons w s : has_char blank w = false → fields (w +:+ " " +:+ s) = w :: fields s.
Proof. apply split_on_app. Qed.

Lemma table_line_head p key devpath rest :
  has_char blank (Key_to_string key) = false →
  has_char blank (DevicePath_to_string devpath) = false →
  fields (Cipher_to_string (cipher p) +:+ "-" +:+ BlockMode_to_string (block_mode p) +:+ "-" +:+
    IvMode_to_string (iv_mode p) +:+ " " +:+ Key_to_string key +:+ " " +:+
    pretty (iv_offset p) +:+ " " +:+ DevicePath_to_string devpath +:+ " " +:+ rest) =
  (Cipher_to_string (cipher p) +:+ "-" +:+ BlockMode_to_string (block_mode p) +:+ "-" +:+
     IvMode_to_string (iv_mode p)) :: Key_to_string key :: pretty (iv_offset p) ::
  DevicePath_to_string devpath :: fields rest.
Proof.
  intros Hk Hd. rewrite <-(fields_cons _ _ Hd), <-(fields_cons _ _ (pretty_Z_no_blank _)),
    <-(fields_cons _ _ Hk), <-(fields_cons _ _ (spec_no_blank p)).
  f_equal. by rewrite !append_assoc.
Qed.

(** The line loaded into the device mapper has, without additional
    options, exactly the five fields dm-crypt requires, whenever neither the key
    nor the device contains a blank.  With additional options the number of
    options is glued to the start sector: the line has one field too few, and
    the fifth one is the concatenation of two numbers. *)
Theorem table_line_fields entry devpath key :
  has_char blank (Key_to_string key) = false →
  has_char blank (DevicePath_to_string devpath) = false →
  let p := params entry in
  fields (table_params entry devpath key) =
    [Cipher_to_string (cipher p) +:+ "-" +:+ BlockMode_to_string (block_mode p) +:+ "-" +:+
       IvMode_to_string (iv_mode p);
     Key_to_string key; pretty (iv_offset p); DevicePath_to_string devpath] ++
    match additional_options p with
    | None => [pretty (offset entry)]
    | Some opts => (pretty (offset entry) +:+ pretty (Z.of_nat (length opts))) ::
                   fields (join_space opts)
    end.
Proof.
  intros Hk Hd p. assert (Hf := λ rest, table_line_head p key devpath rest Hk Hd).
  unfold table_params. fold p. destruct (additional_options p) as [opts|].
  - rewrite !append_assoc, Hf. cbn [app]. do 4 f_equal.
    rewrite <-append_assoc, fields_cons; [done|].
    by rewrite has_char_app, !pretty_Z_no_blank.
  - rewrite Hf. unfold fields. by rewrite (split_on_none _ _ (pretty_Z_no_blank _)).
Qed.

End dm.
