(* ===== verification/KeySealing.v ===== *)
(** * Key sealing

    [realm/app-manager/src/key]: the key material of a realm, from which the
    keys of an application's partitions are derived.  SHA-256, HKDF, the RSI
    interface to the realm's security state and the hexadecimal decoder are
    foreign code. *)

From S2P Require Import Prelude AmBase DmCrypt.

(** [sha2] and [hkdf]: [hkdf_sha256 salt ikm info] are the 32 bytes expanded
    from [info] (several infos are concatenated, as [expand_multi_info]
    documents). *)
Class HashApi := {
  sha256 : Bytes → Bytes;
  sha384 : Bytes → Bytes;
  hkdf_sha256 : option Bytes → Bytes → Bytes → Bytes }.

(** [rust_rsi]. *)
Class RsiApi (W : Type) := {
  attestation_token : Bytes → eff W Errno Bytes;
  measurement_extend : Z → Bytes → eff W Errno unit;
  sealing_key : Z → Z → eff W Errno Bytes;
  MAX_MEASUR_LEN : nat;
  RSI_SEALING_KEY_FLAGS_KEY : Z;
  RSI_SEALING_KEY_FLAGS_RIM : Z;
  RSI_SEALING_KEY_FLAGS_REALM_ID : Z;
  RSI_SEALING_KEY_FLAGS_SVN : Z }.

(** [consts.rs]. *)
Definition APPLICATION_SLK_SALT : Bytes :=
  [138; 59; 218; 132; 205; 188; 75; 134; 46; 221; 216; 50; 122; 8; 226; 126;
   182; 200; 240; 32; 150; 118; 255; 144; 216; 134; 134; 35; 105; 191; 135; 76]%Z.

(** The two implementations of the trait [KeySealing] and their factories. *)
Inductive KeySealing :=
| DummyKeySealing (ikm : Bytes)
| HkdfSealing (ikm : Bytes) (use_image_hash : bool).

Inductive KeySealingFactory :=
| DummyKeySealingFactory (ikm : Bytes)
| HkdfSealingFactory (ikm : Bytes) (use_image_hash : bool).

Section key.
Context {W : Type} `{!HashApi, !RsiApi W, !HexApi}.

(** [DummyKeySealing::derive_key] and [seal]. *)
Definition DummyKeySealing_derive_key (ikm : Bytes) (infos : list Bytes) : Bytes :=
  sha256 (ikm ++ concat infos).
Definition DummyKeySealing_seal (ikm : Bytes) (infos : list Bytes) (image_hash : Bytes) : KeySealing :=
  DummyKeySealing (sha256 (ikm ++ concat infos)).

(** [KeySealing::derive_key]. *)
Definition derive_key (k : KeySealing) (infos : list Bytes) : Bytes :=
  match k with
  | DummyKeySealing ikm => DummyKeySealing_derive_key ikm infos
  | HkdfSealing ikm _ => hkdf_sha256 None ikm (concat infos)
  end.

(** [KeySealing::seal]. *)
Definition seal (k : KeySealing) (infos : list Bytes) (image_hash : Bytes) : KeySealing :=
  match k with
  | DummyKeySealing ikm => DummyKeySealing_seal ikm infos image_hash
  | HkdfSealing ikm use_image_hash =>
      let info := concat infos ++ (if use_image_hash then image_hash else []) in
      HkdfSealing (hkdf_sha256 (Some APPLICATION_SLK_SALT) ikm info) use_image_hash
  end.

(** [KeySealingFactory::create]. *)
Definition create (f : KeySealingFactory) : KeySealing :=
  match f with
  | DummyKeySealingFactory ikm => DummyKeySealing ikm
  | HkdfSealingFactory ikm use_image_hash => HkdfSealing ikm use_image_hash
  end.

(** [From<&RsiSealingKeyFlags> for u64]. *)
Definition flag_u64 (f : RsiSealingKeyFlags) : Z :=
  match f with
  | KeyFlag => RSI_SEALING_KEY_FLAGS_KEY
  | Rim => RSI_SEALING_KEY_FLAGS_RIM
  | RealmId => RSI_SEALING_KEY_FLAGS_REALM_ID
  end.

(** The flag word of [fetch_ikm_from_rsi] and the security version. *)
Definition rsi_flags (flags : list RsiSealingKeyFlags) (svn : option Z) : Z * Z :=
  let flags := foldl (λ a b, Z.lor a (flag_u64 b)) 0%Z flags in
  match svn with
  | Some svn => (Z.lor flags RSI_SEALING_KEY_FLAGS_SVN, svn)
  | None => (flags, 0%Z)
  end.

Definition fetch_ikm_from_rsi (flags : list RsiSealingKeyFlags) (svn : option Z)
    : eff W Error Bytes :=
  let '(flags, svn) := rsi_flags flags svn in
  map_err (λ e, HkdfSealingErr (IkmRsiReadingError e)) (sealing_key flags svn).

Definition uses_image_hash (ikm_source : IkmSource) : bool :=
  match ikm_source with
  | StubbedHex _ => false
  | RsiSealingKey flags _ => bool_decide (Rim ∈ flags)
  end.

(** [HkdfSealingFactory::new]. *)
Definition HkdfSealingFactory_new (ikm_source : IkmSource) : eff W Error KeySealingFactory :=
  ikm ← match ikm_source with
        | StubbedHex hex =>
            try_r (map_err_r (λ e, HkdfSealingErr (StubbedIkmDecodingError e)) (hex_decode hex))
        | RsiSealingKey flags svn => fetch_ikm_from_rsi flags svn
        end;
  mret (HkdfSealingFactory ikm (uses_image_hash ikm_source)).

(** ** Properties *)

(** The flags are a hash set: the order in which it is traversed is
    irrelevant, so the key material the realm asks for is well defined. *)
Lemma foldl_lor_perm (l l' : list RsiSealingKeyFlags) a :
  l ≡ₚ l' → foldl (λ a b, Z.lor a (flag_u64 b)) a l = foldl (λ a b, Z.lor a (flag_u64 b)) a l'.
Proof.
  intros Hp. revert a. induction Hp; intros a; simpl; [done|auto| |congruence].
  by rewrite <-!Z.lor_assoc, (Z.lor_comm (flag_u64 y)).
Qed.

(** The key of an application's data partition, as [Application::setup] derives
    it: seal with the vendor data and the image hash, then derive for the name. *)
Definition data_key (k : KeySealing) (vendor_data : list Bytes) (image_hash app_name : Bytes)
    : Bytes := derive_key (seal k vendor_data image_hash) [app_name].

(** Two different inputs of HKDF with the same output. *)
Definition collides (salt : option Bytes) (k1 i1 k2 i2 : Bytes) : Prop :=
  (k1, i1) ≠ (k2, i2) ∧ hkdf_sha256 salt k1 i1 = hkdf_sha256 salt k2 i2.

Lemma hkdf_eq_inv salt k1 i1 k2 i2 :
  hkdf_sha256 salt k1 i1 = hkdf_sha256 salt k2 i2 → (k1 = k2 ∧ i1 = i2) ∨ collides salt k1 i1 k2 i2.
Proof.
  intros Heq. destruct (decide ((k1, i1) = (k2, i2))) as [[= -> ->]|Hne]; [by left|by right].
Qed.

(** The key sealed for an image: the input of the second derivation. *)
Definition sealed_ikm (ikm : Bytes) (vendor_data : list Bytes) (image_hash : Bytes) : Bytes :=
  hkdf_sha256 (Some APPLICATION_SLK_SALT) ikm (concat vendor_data ++ image_hash).

(** C9.  What the data key of an application is bound to.  The key material
    requested from RSI does not depend on the order in which the flags are
    enumerated.  Without the flag [Rim] (or with a stubbed key) an update of the
    image keeps the data readable: the key is the same for every image hash.
    With [Rim], two images with the same data key have the same hash, or they
    are a collision of HKDF in one of the two derivations. *)
Theorem data_key_binding flags flags' svn ikm vendor_data h1 h2 name :
  flags ≡ₚ flags' →
  rsi_flags flags svn = rsi_flags flags' svn ∧
  uses_image_hash (RsiSealingKey flags svn) = uses_image_hash (RsiSealingKey flags' svn) ∧
  let k := create (HkdfSealingFactory ikm (uses_image_hash (RsiSealingKey flags svn))) in
  (Rim ∉ flags → data_key k vendor_data h1 name = data_key k vendor_data h2 name) ∧
  (Rim ∈ flags → data_key k vendor_data h1 name = data_key k vendor_data h2 name →
    h1 = h2 ∨
    collides (Some APPLICATION_SLK_SALT) ikm (concat vendor_data ++ h1)
      ikm (concat vendor_data ++ h2) ∨
    collides None (sealed_ikm ikm vendor_data h1) name (sealed_ikm ikm vendor_data h2) name).
Proof.
  intros Hp. cbv zeta. split_and!.
  - unfold rsi_flags. by rewrite (foldl_lor_perm _ _ 0 Hp).
  - simpl. apply bool_decide_ext. by rewrite Hp.
  - intros Hrim. unfold data_key. cbn [uses_image_hash]. by rewrite bool_decide_false.
  - intros Hrim. unfold data_key. cbn [uses_image_hash]. rewrite bool_decide_true by done. simpl.
    rewrite !app_nil_r. intros [[Hk _]|Hc]%hkdf_eq_inv; [|by right; right].
    apply hkdf_eq_inv in Hk as [[_ Hk]|Hc]; [left; by eapply app_inv_head|by right; left].
Qed.

End key.
