(* ===== verification/AmOs.v ===== *)
(** * The application manager's use of the operating system

    [realm/app-manager/src/util]: [fs.rs], [disk.rs], [os.rs], [net.rs] and the
    conversions of [mod.rs].  The class [OsApi] are the system calls and the
    functions of [tokio::fs] and [tokio::process] the module uses; the
    definitions are the module's own code around them. *)

From S2P Require Import Prelude WardenRealm AmBase.

(** [nix::sys::socket::SockaddrStorage], by address family. *)
Inductive SockAddr := Inet (octets : Z) | Inet6 (segments : Z) | OtherFamily.

Class OsApi (W : Type) := {
  os_create_dir_all : PathBuf → eff W IoError unit;
  os_read_link : PathBuf → eff W IoError PathBuf;
  os_metadata_rdev : PathBuf → eff W IoError Z;
  os_read_to_string : PathBuf → eff W IoError string;
  os_read : PathBuf → eff W IoError Bytes;
  os_open : PathBuf → eff W IoError Z;
  os_read_to_end : Z → eff W IoError Bytes;
  os_write : PathBuf → string → eff W IoError unit;
  os_remove_dir_all : PathBuf → eff W IoError unit;
  os_rename : PathBuf → PathBuf → eff W IoError unit;
  os_copy : PathBuf → PathBuf → eff W IoError unit;
  os_is_symlink : PathBuf → W → bool;
  (* spawning a command, and waiting for it: only the failure to wait counts *)
  os_spawn : string → list string → eff W IoError Z;
  os_wait : Z → eff W IoError unit;
  (* raw system calls: the returned number, and errno *)
  libc_mount : string → string → string → option string → W → Z * W;
  libc_umount : string → W → Z * W;
  libc_mknod : string → Z → Z → W → Z * W;
  (* [sync] and [reboot]: the call returns only when it fails *)
  libc_sync_reboot : Z → W → bool * W;
  errno_last : W → Errno;
  libc_major : Z → Z;
  libc_minor : Z → Z;
  libc_makedev : Z → Z → Z;
  LINUX_REBOOT_CMD_RESTART : Z;
  LINUX_REBOOT_CMD_POWER_OFF : Z;
  init_module : Bytes → string → eff W Errno unit;
  (* [nix::ifaddrs::getifaddrs]: name, address, netmask, destination *)
  getifaddrs : eff W Errno (list (string * option SockAddr * option SockAddr * option SockAddr));
  nul_error : string → string;
  parse_int_error : string → string }.

Inductive Filesystem := Ext2 | Ext3 | Ext4.

Definition Filesystem_to_string (f : Filesystem) : string :=
  match f with Ext2 => "ext2" | Ext3 => "ext3" | Ext4 => "ext4" end.

Definition NUL : ascii := "000"%char.

(** [u64::from_str]: an optional plus sign and decimal digits, in range. *)
Fixpoint digits_value (acc : N) (s : string) : option N :=
  match s with
  | EmptyString => Some acc
  | String c s' =>
      let n := N_of_ascii c in
      if ((48 <=? n) && (n <=? 57))%N then digits_value (10 * acc + (n - 48))%N s' else None
  end.
Definition parse_u64 (s : string) : option Z :=
  let s := match s with String c s' => if bool_decide (c = "+"%char) then s' else s | _ => s end in
  if bool_decide (s = "") then None
  else n ← digits_value 0 s; if bool_decide (Z.of_N n ≤ u64_max)%Z then Some (Z.of_N n) else None.

(** [Path::parent]: without the last component and the separators around it. *)
Fixpoint strip_slashes (rev : list ascii) : list ascii :=
  match rev with c :: r => if bool_decide (c = slash) then strip_slashes r else rev | [] => [] end.
Fixpoint strip_name (rev : list ascii) : list ascii :=
  match rev with c :: r => if bool_decide (c = slash) then rev else strip_name r | [] => [] end.
Definition parent (p : PathBuf) : option PathBuf :=
  match strip_slashes (reverse (String.list_ascii_of_string p)) with
  | [] => None
  | name => let dir := strip_name name in
            Some (match strip_slashes dir, dir with
                  | [], [] => ""
                  | [], _ :: _ => "/"
                  | d, _ => String.string_of_list_ascii (reverse d)
                  end)
  end.

Section os.
Context {W : Type} `{!OsApi W}.

(** ** mod.rs *)

(** [CString::new] refuses interior NUL bytes. *)
Definition cstring_from_str (v : string) : result string Error :=
  if has_char NUL v then Err (CstringConv (nul_error v)) else Ok v.
Definition cstring_from_path (v : PathBuf) : result string Error := cstring_from_str v.

(** [CString::from_vec_with_nul] wants exactly one NUL, at the end: the callers
    append it, so it must not occur in [v]. *)
Definition cstring_from_vec (v : string) : result string Error :=
  if has_char NUL v then Err (CstringFromVecConv (nul_error v)) else Ok v.

(** ** fs.rs *)

Definition check_libc_error (f : Errno → FsError) (call : W → Z * W) : eff W Error unit := λ w,
  let '(result, w') := call w in
  if bool_decide (result ≠ 0%Z) then (Err (Fs (f (errno_last w'))), w') else (Ok tt, w').

Definition formatfs (ty : Filesystem) (device : PathBuf) (label : option string)
    : eff W Error unit :=
  child ← map_err (λ e, Fs (MkfsStartFailure e))
    (os_spawn ("/sbin/mkfs." +:+ Filesystem_to_string ty)
       (match label with Some l => ["-L"; l] | None => [] end ++ [device]));
  map_err (λ e, Fs (MkfsFormatError e)) (os_wait child).

Definition mount (fs : Filesystem) (src dst : PathBuf) (opt : option string) : eff W Error unit :=
  fs ← try_r (cstring_from_str (Filesystem_to_string fs));
  src ← try_r (cstring_from_path src);
  dst ← try_r (cstring_from_path dst);
  opt ← match opt with
        | Some i => o ← try_r (cstring_from_str i); mret (Some o)
        | None => mret None
        end;
  check_libc_error MountError (libc_mount src dst fs opt).

Definition umount (path : PathBuf) : eff W Error unit :=
  path ← try_r (cstring_from_path path);
  check_libc_error UmountError (libc_umount path).

Definition mount_overlayfs (lower upper workdir dst : PathBuf) : eff W Error unit :=
  fs ← try_r (cstring_from_str "overlay");
  opt ← try_r (cstring_from_vec
    ("lowerdir=" +:+ lower +:+ ",upperdir=" +:+ upper +:+ ",workdir=" +:+ workdir));
  dst ← try_r (cstring_from_path dst);
  check_libc_error MountError (libc_mount fs dst fs (Some opt)).

Definition mknod (path : PathBuf) (mode dev : Z) : eff W Error unit :=
  path ← try_r (cstring_from_path path);
  check_libc_error MknodError (libc_mknod path mode dev).

Definition mkdirp (path : PathBuf) : eff W Error unit :=
  map_err (λ e, Fs (MkdirpError e)) (os_create_dir_all path).
Definition readlink (path : PathBuf) : eff W Error PathBuf :=
  map_err (λ e, Fs (ReadLinkError e)) (os_read_link path).
Definition stat (path : PathBuf) : eff W Error Z :=
  map_err (λ e, Fs (StatError e)) (os_metadata_rdev path).
Definition read_to_string (path : PathBuf) : eff W Error string :=
  map_err (λ e, Fs (FileReadError e)) (os_read_to_string path).
Definition read_to_vec (path : PathBuf) : eff W Error Bytes :=
  map_err (λ e, Fs (FileReadError e)) (os_read path).
Definition write_to_file (path : PathBuf) (content : string) : eff W Error unit :=
  map_err (λ e, Fs (FileWriteError e)) (os_write path content).
Definition dirname (path : PathBuf) : result PathBuf Error :=
  ok_or (parent path) (Fs PathHasNoParent).
Definition rmrf (path : PathBuf) : eff W Error unit :=
  map_err (λ e, Fs (RmRfError e)) (os_remove_dir_all path).
Definition rename (src dst : PathBuf) : eff W Error unit :=
  map_err (λ e, Fs (RenameError e)) (os_rename src dst).

(** ** disk.rs *)

Definition read_device_size (path : PathBuf) : eff W Error Z :=
  symlink ← gets (os_is_symlink path);
  realpath ← if symlink : bool then readlink path else mret path;
  device_name ← try_r (ok_or (file_name realpath) (Disk EmptyDeviceName));
  content ← read_to_string (path_push (path_push "/sys/class/block/" device_name) "size");
  try_r (ok_or (parse_u64 (trim content)) (Disk (InvalidDiskSize (parse_int_error (trim content))))).

(** ** os.rs *)

Inductive SystemPowerAction := PowerReboot | PowerShutdown.

(** [reboot]: the error with which it returns, or [None] if the machine went down. *)
Definition reboot (action : SystemPowerAction) (w : W) : option OsError * W :=
  let op := match action with
            | PowerReboot => LINUX_REBOOT_CMD_RESTART
            | PowerShutdown => LINUX_REBOOT_CMD_POWER_OFF
            end in
  let '(returned, w') := libc_sync_reboot op w in
  (if returned then Some (RebootError (errno_last w')) else None, w').

Definition insmod (path : PathBuf) (params : string) : eff W Error unit :=
  file ← map_err (λ e, Os (InsmodFileFail e)) (os_open path);
  image ← map_err (λ e, Os (InsmodReadFail e)) (os_read_to_end file);
  args ← try_r (cstring_from_str params);
  map_err (λ e, Os (InsmodFail e)) (init_module image args).

(** ** net.rs *)

Definition convert_sock_addr (storage : SockAddr) : option IpAddr :=
  match storage with
  | Inet a => Some (V4 a)
  | Inet6 a => Some (V6 a)
  | OtherFamily => None
  end.

Definition add_if_addr (net_addrs : gmap string NetAddr)
    (ifaddr : string * option SockAddr * option SockAddr * option SockAddr) : gmap string NetAddr :=
  let '(interface_name, address, netmask, destination) := ifaddr in
  match address ≫= convert_sock_addr with
  | Some addr =>
      <[interface_name := mkNetAddr addr (netmask ≫= convert_sock_addr)
                            (destination ≫= convert_sock_addr)]> net_addrs
  | None => net_addrs
  end.

Definition read_if_addrs : eff W Error (gmap string NetAddr) :=
  ifaddrs ← map_err Net getifaddrs;
  mret (foldl add_if_addr ∅ ifaddrs).

End os.
