(* ===== verification/AppHandler.v ===== *)
(** * Running an application inside the realm

    [realm/app-manager/src/launcher/handler.rs]: [SimpleApplicationHandler]
    starts the application's process and hands it to a task ([WardenThread])
    that serves requests over a pair of channels of capacity one.

    The handler never has more than one request under way, so the two channels
    and the task are modelled by the state of the task and the function that
    serves one request. *)

From S2P Require Import Prelude AmBase AmOs.

Record ExecConfig := mkExecConfig {
  exec : PathBuf;
  argv : list string;
  envp : gmap string string;
  uid : Z;
  gid : Z;
  chroot : option PathBuf;
  chdir : option PathBuf }.

Inductive Request := Stop | Kill | TryWait.
Inductive Response := MaybeExited (status : option ExitStatus) | Stopped.

Inductive Signal := SIGTERM | SIGKILL.

(** What the child does between [fork] and [exec] (the closure given to
    [pre_exec]), in order. *)
Inductive PreExec :=
| Chroot (dir : PathBuf)
| SetCurrentDir (dir : PathBuf)
| SetUid (uid : Z)
| SetGid (gid : Z).

Record Spawn := mkSpawn {
  spawn_program : PathBuf;
  spawn_arg0 : string;
  spawn_args : list string;
  spawn_env : gmap string string;
  spawn_pre_exec : list PreExec }.

(** A call that never returns. *)
Definition forever {E} : fault E := Panic "waits forever".

(** Processes ([tokio::process], [nix::sys::signal]); a [Child] is the process
    with its pipes.  [app_id] is [Child::id], [None] once it was waited for.
    [app_wait] is awaited without a timeout: its outcome is [forever] when the
    process never ends. *)
Class AppProcess (W Child : Type) := {
  app_spawn : Spawn → eff W IoError Child;
  app_id : Child → option Z;
  app_signal : Z → Signal → W → option Errno * W;
  app_wait : eff (Child * W) (fault IoError) ExitStatus;
  app_try_wait : eff (Child * W) IoError (option ExitStatus);
  app_kill : eff (Child * W) IoError unit }.

(** What [tokio] and [kill(2)] document: after a successful [wait] the process has
    no identifier any more, and a further [wait] returns at once; [try_wait]
    reports [None] exactly while it is running; a process that was sent [SIGKILL],
    which it can neither catch nor ignore, ends. *)
Class AppProcessLaws (W Child : Type) `{AppProcess W Child} : Prop := {
  app_wait_ok : ∀ c w st c' w', app_wait (c, w) = (Ok st, (c', w')) → app_id c' = None;
  app_wait_panic : ∀ c w msg s', app_wait (c, w) = (Err (Panic msg), s') → msg = "waits forever";
  app_wait_again : ∀ c w msg, app_id c = None → (app_wait (c, w)).1 ≠ Err (Panic msg);
  app_wait_killed : ∀ c pid w w' msg,
    app_id c = Some pid → app_signal pid SIGKILL w = (None, w') →
    (app_wait (c, w')).1 ≠ Err (Panic msg);
  app_try_wait_some : ∀ c w st c' w',
    app_try_wait (c, w) = (Ok (Some st), (c', w')) → app_id c' = None;
  app_try_wait_none : ∀ c w c' w',
    app_try_wait (c, w) = (Ok None, (c', w')) → app_id c' = app_id c }.

(** The task: it serves requests, it waits for one last request after the
    process has exited on its own, it waits for a process that never ends, or it
    has ended with a result. *)
Inductive Thread (Child : Type) :=
| Serving (process : Child)
| AwaitingLast (process : Child)
| Hanging (process : Child)
| Ended (r : result unit Error).
Arguments Serving {Child} _.
Arguments AwaitingLast {Child} _.
Arguments Hanging {Child} _.
Arguments Ended {Child} _.

Record SimpleApplicationHandler (Child : Type) := mkHandler {
  config : ExecConfig;
  thread : option (Thread Child) }.
Arguments mkHandler {Child} _ _.
Arguments config {Child} _.
Arguments thread {Child} _.

Section handler.
Context {W Child : Type} `{!AppProcess W Child}.

Abbreviation AppHandler := (SimpleApplicationHandler Child).

(** [SimpleApplicationHandler::new]. *)
Definition new (config : ExecConfig) : AppHandler := mkHandler config None.

Definition set_thread (t : option (Thread Child)) (h : AppHandler) : AppHandler :=
  mkHandler (config h) t.

Definition pre_exec (c : ExecConfig) : list PreExec :=
  match chroot c with Some dir => [Chroot dir; SetCurrentDir "/"] | None => [] end ++
  match chdir c with Some dir => [SetCurrentDir dir] | None => [] end ++
  [SetUid (uid c); SetGid (gid c)].

(** ** [WardenThread] *)

(** [after_exit]: the response once the process has been waited for. *)
Definition after_exit (req : Request) : eff (Child * W) (fault Error) Response :=
  status ← map_err (map_fault (λ e, Handler (WaitpidError e))) app_wait;
  mret (match req with
        | Stop | Kill => Stopped
        | TryWait => MaybeExited (Some status)
        end).

Definition send_signal (pid : Z) (sig : Signal) : eff (Child * W) (fault Error) unit := λ s,
  let '(err, w') := app_signal pid sig s.2 in
  (match err with Some e => Err (Fail (Handler (FailedToSendSignal e))) | None => Ok tt end, (s.1, w')).

Definition stop_and_respond (req : Request) : eff (Child * W) (fault Error) Response :=
  pid ← gets (λ s, app_id s.1);
  (match pid with
   | Some pid =>
       match req with
       | Stop => send_signal pid SIGTERM
       | Kill => send_signal pid SIGKILL
       | TryWait => mret tt
       end
   | None => mret tt
   end);;
  after_exit req.

Definition thread_try_wait : eff (Child * W) (fault Error) Response :=
  status ← map_err (λ e, Fail (Handler (WaitpidError e))) app_try_wait;
  mret (MaybeExited status).

Definition handle_request (req : Request) : eff (Child * W) (fault Error) Response :=
  match req with
  | Stop | Kill => stop_and_respond req
  | TryWait => thread_try_wait
  end.

Definition is_app_running (process : Child) : bool := bool_decide (is_Some (app_id process)).

(** The result of a call is ignored ([let _ = ...]), if it returns. *)
Definition ignored {S E F A} (c : eff S (fault E) A) : eff S (fault F) unit := λ s,
  let '(r, s') := c s in
  (match r with Err (Panic msg) => Err (Panic msg) | _ => Ok tt end, s').

(** [ensure_app_is_stopped]: outcomes are ignored. *)
Definition ensure_app_is_stopped : eff (Child * W) (fault Error) unit :=
  running ← gets (λ s, is_app_running s.1);
  if running : bool then
    attempt app_kill;;
    ignored app_wait
  else mret tt.

(** ** [event_loop] *)

(** The branch of a line of output: an unreadable line (input or output error,
    or bytes that are not UTF-8) ends the task by [?]. *)
Definition on_output (line : result string IoError) (t : Thread Child) : Thread Child :=
  match t, line with
  | Serving _, Err e => Ended (Err (Handler (IOReadError e)))
  | t, _ => t
  end.

(** The branch of a process that ends by itself: its status is ignored and the
    task waits for one more request.  The branch of a process that does not end is
    never taken. *)
Definition on_exit (t : Thread Child) (w : W) : Thread Child * W :=
  match t with
  | Serving process =>
      match app_wait (process, w) with
      | (Err (Panic _), _) => (t, w)
      | (_, (process', w')) => (AwaitingLast process', w')
      end
  | t => (t, w)
  end.

(** The branch of a channel closed by the handler. *)
Definition on_closed (t : Thread Child) (w : W) : W :=
  match t with
  | Serving process | AwaitingLast process => (ensure_app_is_stopped (process, w)).2.2
  | Hanging _ | Ended _ => w
  end.

(** One request served by [event_loop]: the response the task sends (none if it
    leaves by [?] or hangs first) and the task afterwards. *)
Definition serve (t : Thread Child) (req : Request) (w : W) : option Response * Thread Child * W :=
  match t with
  | Serving process =>
      match handle_request req (process, w) with
      | (Ok resp, (process', w')) =>
          if is_app_running process' then (Some resp, Serving process', w')
          else (Some resp, Ended (Ok tt), w')
      | (Err (Fail e), (_, w')) => (None, Ended (Err e), w')
      | (Err (Panic _), (process', w')) => (None, Hanging process', w')
      end
  | AwaitingLast process =>
      match after_exit req (process, w) with
      | (Ok resp, (process', w')) =>
          match ensure_app_is_stopped (process', w') with
          | (Err (Panic _), (process'', w'')) => (Some resp, Hanging process'', w'')
          | (_, (_, w'')) => (Some resp, Ended (Ok tt), w'')
          end
      | (Err (Fail e), (_, w')) => (None, Ended (Err e), w')
      | (Err (Panic _), (process', w')) => (None, Hanging process', w')
      end
  | Hanging process => (None, Hanging process, w)
  | Ended r => (None, Ended r, w)
  end.

(** ** The handler's side

    Its calls fail with an [Error] or wait [forever]. *)

(** [ApplicationHandler::start].  If a task is still there, the assignment to
    [channel] closes its request channel. *)
Definition start : eff (AppHandler * W) (fault Error) unit :=
  cfg ← gets (λ s, config s.1);
  match argv cfg with
  | [] => throw (Fail (Handler EmptyArgv))
  | arg0 :: args =>
      process ← map_err (λ e, Fail (Handler (SpawnError e)))
        (zoom snd_lens (app_spawn (mkSpawn (exec cfg) arg0 args (envp cfg) (pre_exec cfg))));
      modify (λ s, (set_thread (Some (Serving process)) s.1,
                    match thread s.1 with Some t => on_closed t s.2 | None => s.2 end))
  end.

(** [transaction]: a request to a task that has ended fails on the channel, and a
    task that hangs before it has answered is waited for. *)
Definition transaction (req : Request) : eff (AppHandler * W) (fault Error) Response := λ s,
  match thread s.1 with
  | None => (Err (Fail (Handler AppNotRunning)), s)
  | Some (Ended r) => (Err (Fail (Handler RequestChannelError)), s)
  | Some t =>
      let '(resp, t', w') := serve t req s.2 in
      (match resp, t' with
       | Some resp, _ => Ok resp
       | None, Hanging _ => Err forever
       | None, _ => Err (Fail (Handler ChannelClosed))
       end, (set_thread (Some t') s.1, w'))
  end.

(** [join_handler_thread]: a task that still serves is awaited forever, because the
    handler keeps its end of the channel, and so is one that hangs. *)
Definition join_handler_thread : eff (AppHandler * W) (fault Error) unit := λ s,
  match thread s.1 with
  | None => (Err (Fail (Handler AppNotRunning)), s)
  | Some (Ended r) => (map_err_r Fail r, (set_thread None s.1, s.2))
  | Some _ => (Err forever, s)
  end.

Definition expect_stopped (resp : Response) : eff (AppHandler * W) (fault Error) unit :=
  match resp with
  | Stopped => mret tt
  | _ => throw (Fail (Handler AppHandlerInvalidResponse))
  end.

(** [ApplicationHandler::stop], [kill] and [try_wait]. *)
Definition stop : eff (AppHandler * W) (fault Error) unit :=
  resp ← transaction Stop;
  join_handler_thread;;
  expect_stopped resp.

Definition kill : eff (AppHandler * W) (fault Error) unit :=
  resp ← transaction Kill;
  join_handler_thread;;
  expect_stopped resp.

Definition try_wait : eff (AppHandler * W) (fault Error) (option ExitStatus) :=
  resp ← transaction TryWait;
  match resp with
  | MaybeExited (Some status) =>
      join_handler_thread;;
      mret (Some status)
  | MaybeExited None => mret None
  | _ => throw (Fail (Handler AppHandlerInvalidResponse))
  end.

(** ** Properties *)

Section laws.
Context `{!AppProcessLaws W Child}.

Definition stops (req : Request) : bool :=
  match req with Stop | Kill => true | TryWait => false end.

Lemma after_exit_run req c w r c' w' :
  after_exit req (c, w) = (r, (c', w')) →
  match r with
  | Ok resp => app_id c' = None ∧
      match req with Stop | Kill => resp = Stopped | TryWait => ∃ st, resp = MaybeExited (Some st) end
  | Err (Fail _) => True
  | Err (Panic msg) => app_wait (c, w) = (Err forever, (c', w')) ∧ msg = "waits forever"
  end.
Proof.
  unfold after_exit. intros Hrun. run_split Hrun as st s1 H1.
  - apply map_err_err in Hrun as ([e|msg]&->&Hrun); [done|]. simpl.
    pose proof (app_wait_panic _ _ _ _ Hrun) as ->. done.
  - destruct s1 as [c1 w1]. apply map_err_ok, app_wait_ok in H1. run_inv. split; [done|]. destruct req; eauto.
Qed.

(** The process gets a signal, if it has not been waited for, and then never ends. *)
Definition outlives (sig : Signal) (c : Child) (w : W) : Prop :=
  ∃ pid w1, app_id c = Some pid ∧ app_signal pid sig w = (None, w1) ∧
    (app_wait (c, w1)).1 = Err forever.

Lemma kill_not_outlived c w : ¬ outlives SIGKILL c w.
Proof. intros (pid&w1&Hid&Hsig&Hw). by eapply app_wait_killed in Hw. Qed.

Lemma stop_and_respond_run req sig c w :
  (req, sig) = (Stop, SIGTERM) ∨ (req, sig) = (Kill, SIGKILL) →
  match stop_and_respond req (c, w) with
  | (Ok resp, (c', _)) => resp = Stopped ∧ app_id c' = None ∧ ¬ outlives sig c w
  | (Err (Fail _), _) => ¬ outlives sig c w
  | (Err (Panic _), _) => outlives sig c w
  end.
Proof.
  intros Hreq. unfold stop_and_respond, outlives. simpl. unfold mbind at 1, eff_bind at 1, gets. simpl.
  destruct (app_id c) as [pid|] eqn:Hid.
  - assert ((match req with Stop => send_signal pid SIGTERM | Kill => send_signal pid SIGKILL
      | TryWait => mret tt end) = send_signal pid sig) as -> by (by destruct Hreq; simplify_eq).
    unfold mbind, eff_bind, send_signal. simpl.
    destruct (app_signal pid sig w) as [[e|] w1] eqn:Hsig; [intros (?&?&?&?&_); congruence|].
    destruct (after_exit req (c, w1)) as [r [c' w']] eqn:Hrun. apply after_exit_run in Hrun as Hr.
    assert (r ≠ Err forever → ¬ (app_wait (c, w1)).1 = Err forever) as Hno.
    { intros Hr' Hw. apply Hr'. unfold after_exit, mbind, eff_bind, map_err in Hrun.
      destruct (app_wait (c, w1)) as [? []]. simpl in Hw. subst. by injection Hrun as <- _ _. }
    destruct r as [resp|[e|msg]].
    + destruct Hr as [Hc Hr]. split_and!; [by destruct Hreq; simplify_eq|done|].
      intros (p1&w2&?&?&?). assert (w2 = w1) as -> by congruence. by apply Hno.
    + intros (p1&w2&?&?&?). assert (w2 = w1) as -> by congruence. by apply Hno.
    + destruct Hr as [Hw _]. exists pid, w1. by rewrite Hw.
  - unfold mbind, eff_bind. simpl. destruct (after_exit req (c, w)) as [r [c' w']] eqn:Hrun.
    apply after_exit_run in Hrun. destruct r as [resp|[e|msg]].
    + destruct Hrun as [Hc Hr]. split_and!; [by destruct Hreq; simplify_eq|done|].
      by intros (?&?&?&_).
    + by intros (?&?&?&_).
    + destruct Hrun as [Hw _]. apply (f_equal fst) in Hw. by apply app_wait_again in Hw.
Qed.

(** A call that returns: it has succeeded and the application is gone, or the task
    has ended with an error. *)
Definition settles (s : AppHandler * W) (run : result unit (fault Error) * (AppHandler * W)) : Prop :=
  (∃ w', run = (Ok tt, (set_thread None s.1, w'))) ∨
  (∃ e w', run = (Err (Fail (Handler ChannelClosed)), (set_thread (Some (Ended (Err e))) s.1, w'))).

Definition ending (req : Request) : eff (AppHandler * W) (fault Error) unit :=
  resp ← transaction req; join_handler_thread;; expect_stopped resp.

Lemma ending_serving req sig p s :
  (req, sig) = (Stop, SIGTERM) ∨ (req, sig) = (Kill, SIGKILL) → thread s.1 = Some (Serving p) →
  (outlives sig p s.2 → (ending req s).1 = Err forever) ∧
  (¬ outlives sig p s.2 → settles s (ending req s)).
Proof.
  intros Hreq Ht. pose proof (stop_and_respond_run req sig p s.2 Hreq) as Hrun.
  assert (handle_request req = stop_and_respond req) as Hh by (by destruct Hreq; simplify_eq).
  unfold settles, ending, mbind, eff_bind, transaction. rewrite Ht. simpl. rewrite Hh.
  destruct (stop_and_respond req (p, s.2)) as [[resp|[e|msg]] [p' w']]; simpl.
  - destruct Hrun as (->&Hid&Hno). split; [done|]. intros _. unfold is_app_running. rewrite Hid.
    rewrite bool_decide_false by by intros []. simpl. eauto.
  - split; [done|]. intros _. eauto.
  - split; [done|]. by intros [].
Qed.

Lemma ending_awaiting req p s :
  stops req = true → thread s.1 = Some (AwaitingLast p) → app_id p = None → settles s (ending req s).
Proof.
  intros Hreq Ht Hid. unfold settles, ending, mbind, eff_bind, transaction. rewrite Ht. simpl.
  destruct (after_exit req (p, s.2)) as [r [p' w']] eqn:Hrun. apply after_exit_run in Hrun.
  destruct r as [resp|[e|msg]]; simpl.
  - destruct Hrun as [Hid' Hr]. unfold ensure_app_is_stopped, mbind, eff_bind, gets, is_app_running. simpl.
    rewrite Hid', bool_decide_false by by intros []. simpl.
    assert (resp = Stopped) as -> by by destruct req. eauto.
  - eauto.
  - destruct Hrun as [Hw _]. apply (f_equal fst) in Hw. by apply app_wait_again in Hw.
Qed.

(** C35.  Stopping and killing an application, on every branch.  Without a running
    application both are refused, as they are when its task has ended.  Killing a
    running application always returns: it succeeds and the application is gone, or
    fails because the task has ended with an error.  Stopping it returns in the same
    way unless the process lives on after [SIGTERM]: it is waited for without a
    timeout, so the call then never returns.  Once the process has ended by itself
    and been waited for, both return. *)
Theorem stop_kill_outcomes s :
  match thread s.1 with
  | None => stop s = (Err (Fail (Handler AppNotRunning)), s) ∧
      kill s = (Err (Fail (Handler AppNotRunning)), s)
  | Some (Ended _) => stop s = (Err (Fail (Handler RequestChannelError)), s) ∧
      kill s = (Err (Fail (Handler RequestChannelError)), s)
  | Some (Serving p) => settles s (kill s) ∧
      (¬ outlives SIGTERM p s.2 → settles s (stop s)) ∧
      (outlives SIGTERM p s.2 → (stop s).1 = Err forever)
  | Some (AwaitingLast p) => app_id p = None → settles s (stop s) ∧ settles s (kill s)
  | Some (Hanging _) => (stop s).1 = Err forever ∧ (kill s).1 = Err forever
  end.
Proof.
  change (stop s) with (ending Stop s). change (kill s) with (ending Kill s).
  destruct (thread s.1) as [[p|p|p|r]|] eqn:Ht.
  - destruct (ending_serving Stop SIGTERM p s) as [? ?]; [by left|done|].
    destruct (ending_serving Kill SIGKILL p s) as [_ Hk]; [by right|done|].
    split; [apply Hk, kill_not_outlived|done].
  - intros Hid. split; by eapply ending_awaiting.
  - unfold ending, mbind, eff_bind, transaction. by rewrite Ht.
  - unfold ending, mbind, eff_bind, transaction. by rewrite Ht.
  - unfold ending, mbind, eff_bind, transaction. by rewrite Ht.
Qed.

End laws.

(** An application that writes a line that is not UTF-8 (or whose output
    cannot be read) can no longer be stopped, killed or asked for its status:
    the task ends without stopping the process, and every later request fails
    on the closed channel without any effect. *)
Theorem unreadable_output_orphans_app c e p w :
  let s := (mkHandler c (Some (on_output (Err e) (Serving p))), w) in
  stop s = (Err (Fail (Handler RequestChannelError)), s) ∧
  kill s = (Err (Fail (Handler RequestChannelError)), s) ∧
  try_wait s = (Err (Fail (Handler RequestChannelError)), s).
Proof. done. Qed.

End handler.
