(* ===== verification/AppLoop.v ===== *)
(** * The event loop of an application's task

    [WardenThread] of [realm/app-manager/src/launcher/handler.rs], iteration by
    iteration: which branch of the [select!] completes is given by a list of events.
    The task of [AppHandler], which knows requests only, is this loop; the output of
    the application never makes it spin; and what the child does before [exec]. *)

From S2P Require Import Prelude AmBase AmOs AppHandler.

Section event_loop.
Context {W Child : Type} `{!AppProcess W Child}.

(** The fields of the task that change. *)
Record WardenThread := mkWardenThread {
  wt_process : Child;
  stdout_open : bool;
  stderr_open : bool }.

Definition set_process (p : Child) (t : WardenThread) : WardenThread :=
  mkWardenThread p (stdout_open t) (stderr_open t).
Definition close_stdout (t : WardenThread) : WardenThread :=
  mkWardenThread (wt_process t) false (stderr_open t).
Definition close_stderr (t : WardenThread) : WardenThread :=
  mkWardenThread (wt_process t) (stdout_open t) false.

(** A branch of the [select!]: the next request ([None] when the channel is closed), a
    line of either pipe, or the end of the process, with the request that is received
    after it. *)
Inductive LoopEvent :=
| RequestReceived (req : option Request)
| StdoutRead (line : result string IoError)
| StderrRead (line : result string IoError)
| ProcessWaited (last : option Request).

(** The guards [if self.stdout_open] and [if self.stderr_open]. *)
Definition enabled (e : LoopEvent) (t : WardenThread) : bool :=
  match e with
  | StdoutRead _ => stdout_open t
  | StderrRead _ => stderr_open t
  | RequestReceived _ | ProcessWaited _ => true
  end.

Inductive LoopStatus := Looping | LoopEnded.

(** The task, the world, and the responses sent over the channel. *)
Abbreviation TSt := ((WardenThread * W) * list Response)%type.
Definition process_lens : lens TSt (Child * W) :=
  Lens (λ s, (wt_process s.1.1, s.1.2)) (λ x s, ((set_process x.1 s.1.1, x.2), s.2)).

(** The handler keeps its end of the channel while it waits for the response. *)
Definition send_response (response : Response) : eff TSt (fault Error) unit :=
  modify (λ s, (s.1, s.2 ++ [response])).

Definition respond (c : eff (Child * W) (fault Error) Response) : eff TSt (fault Error) unit :=
  response ← zoom process_lens c;
  send_response response.

Definition read_line (r : result string IoError) : eff TSt (fault Error) string :=
  try_r (map_err_r (λ e, Fail (Handler (IOReadError e))) r).

Definition process_exited (last : option Request) : eff TSt (fault Error) unit :=
  match last with
  | Some request => respond (after_exit request)
  | None => mret tt
  end.

(** One iteration; the result says whether the loop goes on. *)
Definition loop_iteration (e : LoopEvent) : eff TSt (fault Error) bool :=
  match e with
  | RequestReceived None => mret false
  | RequestReceived (Some request) =>
      respond (handle_request request);;
      gets (λ s, is_app_running (wt_process s.1.1))
  | StdoutRead r =>
      line ← read_line r;
      modify (λ s, if bool_decide (line = "") then ((close_stdout s.1.1, s.1.2), s.2) else s);;
      mret true
  | StderrRead r =>
      line ← read_line r;
      modify (λ s, if bool_decide (line = "") then ((close_stderr s.1.1, s.1.2), s.2) else s);;
      mret true
  | ProcessWaited last =>
      ignored (zoom process_lens app_wait);;
      process_exited last;;
      mret false
  end.

Fixpoint event_loop (events : list LoopEvent) : eff TSt (fault Error) LoopStatus :=
  match events with
  | [] => mret Looping
  | e :: events =>
      go_on ← loop_iteration e;
      if go_on : bool then event_loop events
      else zoom process_lens ensure_app_is_stopped;; mret LoopEnded
  end.

(** [WardenThread::start]. *)
Definition thread_start (process : Child) (events : list LoopEvent) (w : W)
    : result LoopStatus (fault Error) * TSt :=
  event_loop events ((mkWardenThread process true true, w), []).

(** ** The task as the handler sees it *)

(** What the handler is told of a run of the loop. *)
Definition seen (run : result LoopStatus (fault Error) * TSt) : option Response * Thread Child * W :=
  let '(r, ((t, w), out)) := run in
  (head out,
   match r with
   | Ok Looping => Serving (wt_process t)
   | Ok LoopEnded => Ended (Ok tt)
   | Err (Fail e) => Ended (Err e)
   | Err (Panic _) => Hanging (wt_process t)
   end, w).

Lemma event_loop_cons e events s :
  event_loop (e :: events) s =
  match loop_iteration e s with
  | (Ok true, s') => event_loop events s'
  | (Ok false, s') => (zoom process_lens ensure_app_is_stopped;; mret LoopEnded) s'
  | (Err er, s') => (Err er, s')
  end.
Proof. simpl. unfold mbind, eff_bind at 1. by destruct (loop_iteration e s) as [[[]|] ?]. Qed.

Lemma respond_run c t w out :
  respond c ((t, w), out) =
  match c (wt_process t, w) with
  | (Ok r, (p, w')) => (Ok tt, ((set_process p t, w'), out ++ [r]))
  | (Err e, (p, w')) => (Err e, ((set_process p t, w'), out))
  end.
Proof.
  unfold respond, mbind, eff_bind, zoom. simpl. by destruct (c (wt_process t, w)) as [[r|e] [p w']].
Qed.

Lemma ensure_stopped_noop p w :
  is_app_running p = false → ensure_app_is_stopped (p, w) = (Ok tt, (p, w)).
Proof.
  intros Hp. unfold ensure_app_is_stopped, mbind, eff_bind, gets. simpl. by rewrite Hp.
Qed.

(** The task of [AppHandler] is the loop: a request that comes while the application
    runs, and one that comes after it has ended by itself, are answered as the loop
    answers them, and leave the task as the loop leaves it; where the task hangs, so
    does the loop. *)
Theorem serve_is_event_loop t w req :
  serve (Serving (wt_process t)) req w =
    seen (event_loop [RequestReceived (Some req)] ((t, w), [])) ∧
  (is_ok (app_wait (wt_process t, w)).1 = true →
   (let '(t1, w1) := on_exit (Serving (wt_process t)) w in serve t1 req w1) =
     seen (event_loop [ProcessWaited (Some req)] ((t, w), []))).
Proof.
  split; rewrite event_loop_cons.
  - simpl. unfold mbind, eff_bind, gets. rewrite respond_run. simpl.
    destruct (handle_request req (wt_process t, w)) as [[r|[e|msg]] [p w']]; [|done..]. simpl.
    destruct (is_app_running p) eqn:Hp; [done|]. unfold zoom. simpl.
    by rewrite ensure_stopped_noop.
  - simpl. unfold mbind, eff_bind, ignored, zoom. simpl.
    destruct (app_wait (wt_process t, w)) as [[st|er] [p w1]]; [|done]. intros _. simpl.
    rewrite respond_run. simpl.
    destruct (after_exit req (p, w1)) as [[resp|[e|msg]] [p' w']]; [|done..]. simpl.
    unfold ensure_app_is_stopped, mbind, eff_bind, gets, attempt, ignored. simpl.
    destruct (is_app_running p'); [|done]. destruct (app_kill _) as [? s1].
    by destruct (app_wait s1) as [[?|[?|?]] []].
Qed.

(** ** Output *)

(** A run of the loop in which every branch that completes is enabled. *)
Fixpoint enabled_run (events : list LoopEvent) (s : TSt) : bool :=
  match events with
  | [] => true
  | e :: events =>
      enabled e s.1.1 &&
      match loop_iteration e s with (Ok true, s') => enabled_run events s' | _ => bool_decide (events = []) end
  end.

(** The end of a pipe reads as an empty line. *)
Definition end_of_pipe (e : LoopEvent) : bool :=
  match e with StdoutRead (Ok line) | StderrRead (Ok line) => bool_decide (line = "") | _ => false end.

Definition open_pipes (t : WardenThread) : nat := Nat.b2n (stdout_open t) + Nat.b2n (stderr_open t).

Lemma respond_pipes c s : open_pipes (respond c s).2.1.1 = open_pipes s.1.1.
Proof. destruct s as [[t w] out]. rewrite respond_run. by destruct (c _) as [[] []]. Qed.

Lemma iteration_pipes e s s' :
  loop_iteration e s = (Ok true, s') → enabled e s.1.1 = true →
  open_pipes s'.1.1 + Nat.b2n (end_of_pipe e) = open_pipes s.1.1.
Proof.
  destruct s as [[[p so se] w] out], e as [[req|]|[line|er]|[line|er]|last]; simpl; intros Hrun He;
    try (injection Hrun as <-; subst; destruct (bool_decide (line = ""));
      by first [destruct so|destruct se]);
    try (by injection Hrun).
  - apply bind_ok_inv in Hrun as ([]&s1&Hr&Hrun). injection Hrun as _ <-.
    pose proof (respond_pipes (handle_request req) ((mkWardenThread p so se, w), out)) as Hp.
    rewrite Hr in Hp. simpl in *. lia.
  - apply bind_ok_inv in Hrun as (?&?&_&Hrun). apply bind_ok_inv in Hrun as (?&?&_&Hrun). by injection Hrun.
Qed.

Lemma pipe_end_goes_on e s : end_of_pipe e = true → ∃ s', loop_iteration e s = (Ok true, s').
Proof. destruct e as [[req|]|[line|er]|[line|er]|last]; simpl; intros He; try done; by eexists. Qed.

(** Output never makes the loop spin: whatever the application writes, closes and is
    asked for, the loop sees the end of a pipe at most twice, once for each of them, so
    every other iteration has a request, a line of text or the end of the process. *)
Theorem event_loop_never_spins events s :
  enabled_run events s = true →
  length (filter (λ e, end_of_pipe e = true) events) ≤ 2.
Proof.
  intros Hrun. cut (length (filter (λ e, end_of_pipe e = true) events) ≤ open_pipes s.1.1).
  { intros Hle. unfold open_pipes in Hle. destruct (stdout_open s.1.1), (stderr_open s.1.1); simpl in *; lia. }
  revert s Hrun. induction events as [|e events IH]; intros s Hrun; [simpl; lia|].
  cbn [enabled_run] in Hrun. apply andb_true_iff in Hrun as [He Hrun]. rewrite filter_cons.
  destruct (loop_iteration e s) as [[[]|er] s'] eqn:Hit.
  - apply IH in Hrun. pose proof (iteration_pipes _ _ _ Hit He) as Hp.
    destruct (end_of_pipe e); case_decide; simpl in *; try done; lia.
  - apply bool_decide_eq_true in Hrun as ->. case_decide as Hd; [|simpl; lia].
    apply (pipe_end_goes_on e s) in Hd as [s1 Hd]. by rewrite Hit in Hd.
  - apply bool_decide_eq_true in Hrun as ->. case_decide as Hd; [|simpl; lia].
    apply (pipe_end_goes_on e s) in Hd as [s1 Hd]. by rewrite Hit in Hd.
Qed.

End event_loop.
Arguments WardenThread : clear implicits.
Arguments mkWardenThread {Child} _ _ _.

(** ** Before [exec] *)

(** The identity of a process whose real, effective and saved identifiers agree, and
    what [setuid(2)] and [setgid(2)] make of it: only the superuser may change to
    another identifier. *)
Record Creds := mkCreds { cr_uid : Z; cr_gid : Z }.
Definition superuser : Creds := mkCreds 0 0.

Definition sys_setuid (u : Z) (c : Creds) : option Creds :=
  if (cr_uid c =? 0)%Z || (u =? cr_uid c)%Z then Some (mkCreds u (cr_gid c)) else None.
Definition sys_setgid (g : Z) (c : Creds) : option Creds :=
  if (cr_uid c =? 0)%Z || (g =? cr_gid c)%Z then Some (mkCreds (cr_uid c) g) else None.

(** The closure given to [pre_exec]; [enter] says which directories can be entered. *)
Definition run_step (enter : PathBuf → bool) (c : Creds) (step : PreExec) : option Creds :=
  match step with
  | Chroot dir => if (cr_uid c =? 0)%Z && enter dir then Some c else None
  | SetCurrentDir dir => if enter dir then Some c else None
  | SetUid u => sys_setuid u c
  | SetGid g => sys_setgid g c
  end.

Fixpoint run_pre_exec (enter : PathBuf → bool) (steps : list PreExec) (c : Creds) : option Creds :=
  match steps with
  | [] => Some c
  | step :: steps => c' ← run_step enter c step; run_pre_exec enter steps c'
  end.

Lemma run_pre_exec_app enter l1 l2 c :
  run_pre_exec enter (l1 ++ l2) c = run_pre_exec enter l1 c ≫= run_pre_exec enter l2.
Proof.
  revert c. induction l1 as [|x l1 IH]; intros c; [done|]. simpl.
  destruct (run_step enter c x) as [c'|]; [apply IH|done].
Qed.

(** Entering directories does not change the identity. *)
Lemma run_dirs_same enter l c c' :
  Forall (λ x, match x with Chroot _ | SetCurrentDir _ => True | _ => False end) l →
  run_pre_exec enter l c = Some c' → c' = c.
Proof.
  intros Hl. revert c. induction Hl as [|x l Hx Hl IH]; intros c Hrun; [by injection Hrun|].
  simpl in Hrun. destruct x; [..|done|done]; simpl in Hrun.
  - destruct (_ && _); [by apply IH|done].
  - destruct (enter dir); [by apply IH|done].
Qed.

Lemma pre_exec_identity enter c :
  uid c ≠ 0%Z → gid c ≠ 0%Z → run_pre_exec enter (pre_exec c) superuser = None.
Proof.
  intros Hu Hg. unfold pre_exec. rewrite (app_assoc _ _ [SetUid _; _]), run_pre_exec_app.
  destruct (run_pre_exec enter _ superuser) as [c'|] eqn:Hd; [|done].
  apply run_dirs_same in Hd as ->; [|by destruct (chroot c), (chdir c); repeat constructor].
  simpl. unfold sys_setuid, sys_setgid. simpl. case_match eqn:Hor; [|done]. exfalso.
  apply orb_true_iff in Hor as [?%Z.eqb_eq|?%Z.eqb_eq]; done.
Qed.

Section spawn.
Context {W Child : Type} `{!AppProcess W Child}.

(** [Command::spawn] by the superuser fails when the closure does. *)
Class SuperuserSpawn (enter : W → PathBuf → bool) : Prop :=
  spawn_pre_exec_fails : ∀ sp w, run_pre_exec (enter w) (spawn_pre_exec sp) superuser = None →
    is_err (app_spawn sp w).1 = true.
Context (enter : W → PathBuf → bool) `{!SuperuserSpawn enter}.

(** C40.  An application whose image names a user and a group other than the superuser's is
    never started: the child gives up the rights of the superuser with [setuid] before
    it needs them for [setgid], so that the closure before [exec] fails whatever
    directories the child can enter, [start] reports the error of the spawn, and the
    handler is left as it was.  The manager runs as the superuser, [spawn] fails when
    the closure before [exec] does, and the image names a command. *)
Theorem unprivileged_application_never_starts (h : SimpleApplicationHandler Child) w :
  argv (config h) ≠ [] → uid (config h) ≠ 0%Z → gid (config h) ≠ 0%Z →
  run_pre_exec (enter w) (pre_exec (config h)) superuser = None ∧
  ∃ e w', start (h, w) = (Err (Fail (Handler (SpawnError e))), (h, w')).
Proof.
  intros Hargv Hu Hg. split; [by apply pre_exec_identity|]. unfold start, mbind, eff_bind, gets. simpl.
  destruct (argv (config h)) as [|arg0 args]; [done|]. unfold map_err, zoom. simpl.
  pose proof (spawn_pre_exec_fails (mkSpawn (exec (config h)) arg0 args (envp (config h))
    (pre_exec (config h))) w (pre_exec_identity _ _ Hu Hg)) as Hf.
  destruct (app_spawn _ w) as [[p|e] w']; [done|]. by exists e, w'.
Qed.
End spawn.
