(* ===== verification/OciLauncher.v ===== *)
(** * Installing an application from an image registry

    [realm/app-manager/src/launcher/oci.rs] with the signature checks of
    [util/crypto.rs], the metadata files of [util/serde.rs] and the launcher of
    [launcher/dummy.rs].  The registry client, elliptic-curve verification, JSON
    and the user database are foreign code. *)

From S2P Require Import Prelude AmBase AmOs DmCrypt KeySealing AppHandler.

Record ApplicationMetadata := mkApplicationMetadata {
  vendor_data : list Bytes;
  image_hash : Bytes }.

(** [oci_spec::image::Config], the accessors used. *)
Record RuntimeConfig := mkRuntimeConfig {
  entrypoint : option (list string);
  cmd : option (list string);
  env : option (list string);
  user : option string;
  working_dir : option string }.

(** [oci_spec::image::ImageConfiguration]: its runtime configuration. *)
Record OciConfig := mkOciConfig { oci_config : option RuntimeConfig }.

Record RequiredAnnotations := mkRequiredAnnotations {
  signature : Bytes;
  vendor_pubkey : Bytes;
  vendor_pubkey_signature : Bytes }.

Record Metadata := mkMetadata {
  vendor_cert : list Bytes;
  config_hash : Bytes;
  image_config : OciConfig }.

(** [consts.rs]. *)
Definition ANNOTATION_SIGNATURE := "com.samsung.islet.image.signature".
Definition ANNOTATION_VENDORPUB := "com.samsung.islet.image.vendorpub".
Definition ANNOTATION_VENDORPUB_SIGNATURE := "com.samsung.islet.image.vendorpub.signature".

Definition METADATA := "metadata.json".

(** [p384::ecdsa]. *)
Class EcdsaApi (K S : Type) := {
  key_from_der : Bytes → result K string;
  sig_from_der : Bytes → result S string;
  ecdsa_verify : K → Bytes → S → option string }.

(** How a client of the registry is configured. *)
Inductive TlsConfig (Store Resolver : Type) :=
| no_tls
| rustls_no_auth (store : Store)
| ratls (store : Store) (resolver : Resolver).
Arguments no_tls {Store Resolver}.
Arguments rustls_no_auth {Store Resolver} _.
Arguments ratls {Store Resolver} _ _.

(** [ir_client] and [ratls]. *)
Class RegistryApi (W Client Image Ref Store Token Resolver : Type) := {
  load_root_cert_store : string → eff W string Store;
  token_from_path : string → eff W string Token;
  rsi_token_resolver : Token;
  cert_resolver : Token → eff W string Resolver;
  client_from_config : string → TlsConfig Store Resolver → eff W string Client;
  reference_try_from : string → result Ref string;
  get_image_info : Client → string → Ref → eff W string Image;
  unpack_image : Client → Image → PathBuf → PathBuf → eff W string unit;
  annotations : Image → option (gmap string string);
  config_bytes : Image → Bytes }.

(** [serde_json] and the user database. *)
Class MetadataJson := {
  metadata_dump : Metadata → result string string;
  metadata_load : string → result Metadata string;
  oci_config_load : Bytes → result OciConfig string }.

Class UserDb (W : Type) := {
  getuid : Z;
  getgid : Z;
  user_from_name : string → W → result (option Z) Errno;
  group_from_name : string → W → result (option Z) Errno;
  env_vars : gmap string string }.

Section oci.
Context {W K S Client Image Ref Store Token Resolver : Type}.
Context `{!OsApi W, !HexApi, !HashApi, !EcdsaApi K S, !MetadataJson, !UserDb W}.
Context `{!RegistryApi W Client Image Ref Store Token Resolver}.

(** ** util/crypto.rs *)

Definition EcdsaKey_import (der : Bytes) : result K Error :=
  map_err_r (λ e, Crypto (PubKeyParsing e)) (key_from_der der).

Definition EcdsaKey_verify (key : K) (msg sig : Bytes) : result unit Error :=
  and_then (map_err_r (λ e, Crypto (SignatureParsing e)) (sig_from_der sig)) (λ s,
  match ecdsa_verify key msg s with
  | None => Ok tt
  | Some e => Err (Crypto (Verification e))
  end).

(** ** Annotations and signatures *)

Definition parse_annotation (annots : gmap string string) (id : string) : result Bytes Error :=
  and_then (ok_or (annots !! id)
      (OciLauncherErr (FailedToFindRequiredAnnotations ANNOTATION_SIGNATURE))) (λ hex,
  map_err_r (λ e, OciLauncherErr (FailedToHexDecodeAnnotation e ANNOTATION_SIGNATURE))
    (hex_decode hex)).

Definition RequiredAnnotations_try_from (annots : gmap string string)
    : result RequiredAnnotations Error :=
  and_then (parse_annotation annots ANNOTATION_SIGNATURE) (λ signature,
  and_then (parse_annotation annots ANNOTATION_VENDORPUB) (λ vendor_pubkey,
  and_then (parse_annotation annots ANNOTATION_VENDORPUB_SIGNATURE) (λ vendor_pubkey_signature,
  Ok (mkRequiredAnnotations signature vendor_pubkey vendor_pubkey_signature)))).

Record OciLauncher := mkOciLauncher {
  launcher_config : OciLauncherConfig;
  launcher_ca_pub : K }.

Definition verify_signature (l : OciLauncher) (a : RequiredAnnotations) (config : Bytes)
    : result unit Error :=
  and_then (EcdsaKey_verify (launcher_ca_pub l) (vendor_pubkey a) (vendor_pubkey_signature a)) (λ _,
  and_then (EcdsaKey_import (vendor_pubkey a)) (λ vendor_key,
  EcdsaKey_verify vendor_key config (signature a))).

Definition create_oci_client (l : OciLauncher) (im_url : string) : eff W Error Client :=
  tls ← match launcher_config l with
        | NoTLS => mret no_tls
        | RusTLS root_ca =>
            store ← map_err (λ e, OciLauncherErr (RootCaLoading e)) (load_root_cert_store root_ca);
            mret (rustls_no_auth store)
        | RaTLS root_ca token_resolver =>
            token ← match token_resolver with
                    | File path =>
                        map_err (λ e, OciLauncherErr (TokenReadingError e)) (token_from_path path)
                    | Rsi => mret rsi_token_resolver
                    end;
            resolver ← map_err (λ e, OciLauncherErr (RaTlsCertResolverCreation e))
                         (cert_resolver token);
            store ← map_err (λ e, OciLauncherErr (RootCaLoading e)) (load_root_cert_store root_ca);
            mret (ratls store resolver)
        end;
  map_err (λ e, OciLauncherErr (OciClientCreation e)) (client_from_config im_url tls).

(** ** Metadata of the installed image *)

(** [try_read_metadata]: any failure means that there is none. *)
Definition try_read_metadata (path : PathBuf) : eff W Error (option Metadata) :=
  content ← attempt (read_to_string (path_push path METADATA));
  mret (match content with
        | Ok text => match metadata_load text with Ok m => Some m | Err _ => None end
        | Err _ => None
        end).

Definition save_metadata (path : PathBuf) (m : Metadata) : eff W Error unit :=
  text ← try_r (map_err_r Serde (metadata_dump m));
  write_to_file (path_push path METADATA) text.

Definition move_unpack_to_img (unpack img : PathBuf) : eff W Error unit :=
  attempt (rmrf img);;
  rename unpack img.

(** ** The runtime configuration *)

Definition parse_argv (config : RuntimeConfig) : result (list string) Error :=
  let argv := default [] (entrypoint config) ++ default [] (cmd config) in
  if bool_decide (argv = []) then Err (OciLauncherErr EntryPointCmdMissing) else Ok argv.

(** A variable without [=] gets the empty value; a later entry wins. *)
Definition env_entry (i : string) : string * string :=
  default (i, "") (split_once "="%char i).
Definition parse_env (config : RuntimeConfig) : gmap string string :=
  match env config with
  | Some l => foldl (λ m i, <[(env_entry i).1 := (env_entry i).2]> m) ∅ l
  | None => env_vars
  end.

Definition uid_from_str (u : string) : eff W Error Z :=
  found ← with_state (λ w, try_r (map_err_r (λ e, OciLauncherErr (GetPwName e)) (user_from_name u w)));
  try_r (ok_or found (OciLauncherErr (InvalidUserOrGroup u))).
Definition gid_from_str (g : string) : eff W Error Z :=
  found ← with_state (λ w, try_r (map_err_r (λ e, OciLauncherErr (GetPwName e)) (group_from_name g w)));
  try_r (ok_or found (OciLauncherErr (InvalidUserOrGroup g))).

Definition parse_uid_gid (config : RuntimeConfig) : eff W Error (Z * Z) :=
  match (λ i, match split_once ":"%char i with
              | Some (u, g) => (u, Some g)
              | None => (i, None)
              end) <$> user config with
  | None => mret (getuid, getgid)
  | Some (u, None) => uid ← uid_from_str u; mret (uid, getgid)
  | Some (u, Some g) => uid ← uid_from_str u; gid ← gid_from_str g; mret (uid, gid)
  end.

(** [TryFrom<&RuntimeConfig> for ExecConfig]; converting a string to a path
    cannot fail. *)
Definition ExecConfig_try_from (value : RuntimeConfig) : eff W Error ExecConfig :=
  argv ← try_r (parse_argv value);
  ids ← parse_uid_gid value;
  mret (mkExecConfig (default "" (argv !! 0)) argv (parse_env value) ids.1 ids.2 None
          (working_dir value)).

Definition hash_config (config : Bytes) : Bytes := sha384 config.

(** ** install *)

Inductive Action :=
| Install (image_info : Image) (vendor_cert : list Bytes) (config_hash : Bytes)
| LaunchInstalled (metadata : Metadata).

(** Whether the image is to be installed or the installed one is launched. *)
Definition choose_action (l : OciLauncher) (try_image_info : result Image string)
    (try_metadata : option Metadata) : result Action Error :=
  match try_image_info, try_metadata with
  | Ok image_info, try_metadata =>
      and_then (ok_or (annotations image_info) (OciLauncherErr AppImageLacksAnnotations)) (λ annots,
      and_then (RequiredAnnotations_try_from annots) (λ a,
      let new_vendor_cert := [vendor_pubkey a; vendor_pubkey_signature a] in
      let new_config_hash := hash_config (config_bytes image_info) in
      let is_installed_newest :=
        m ← try_metadata;
        if bool_decide (config_hash m = new_config_hash ∧ vendor_cert m = new_vendor_cert)
        then Some m else None in
      match is_installed_newest with
      | None =>
          and_then (verify_signature l a (config_bytes image_info)) (λ _,
          Ok (Install image_info new_vendor_cert new_config_hash))
      | Some metadata => Ok (LaunchInstalled metadata)
      end))
  | Err e, Some metadata => Ok (LaunchInstalled metadata)
  | Err e, None => Err (OciLauncherErr (ImageInfoFetching e))
  end.

Definition perform_install (client : Client) (path : PathBuf) (image_info : Image)
    (new_vendor_cert : list Bytes) (new_config_hash : Bytes) : eff W Error ApplicationMetadata :=
  let img_dir := path_push path "img" in
  let temp_dir := path_push path "temp" in
  let unpack_dir := path_push path "unpack" in
  mkdirp temp_dir;;
  mkdirp unpack_dir;;
  unpacked ← attempt (unpack_image client image_info unpack_dir temp_dir);
  res ← match unpacked with
        | Err e => mret (Err (OciLauncherErr (UnpackError e)))
        | Ok _ => attempt (move_unpack_to_img unpack_dir img_dir)
        end;
  attempt (rmrf temp_dir);;
  attempt (rmrf unpack_dir);;
  try_r res;;
  image_config ← try_r (map_err_r Serde (oci_config_load (config_bytes image_info)));
  save_metadata path (mkMetadata new_vendor_cert new_config_hash image_config);;
  mret (mkApplicationMetadata new_vendor_cert new_config_hash).

(** [Launcher::install]. *)
Definition install (l : OciLauncher) (path : PathBuf) (im_url name version : string)
    : eff W Error ApplicationMetadata :=
  oci_client ← create_oci_client l im_url;
  reference ← try_r (map_err_r (λ e, OciLauncherErr (InvalidVersion e version))
                       (reference_try_from version));
  try_image_info ← attempt (get_image_info oci_client name reference);
  try_current_metadata ← try_read_metadata path;
  action ← try_r (choose_action l try_image_info try_current_metadata);
  match action with
  | Install image_info new_vendor_cert new_config_hash =>
      perform_install oci_client path image_info new_vendor_cert new_config_hash
  | LaunchInstalled metadata =>
      mret (mkApplicationMetadata (vendor_cert metadata) (config_hash metadata))
  end.

(** [Launcher::prepare]: the configuration of the handler it returns. *)
Definition prepare (path : PathBuf) : eff W Error ExecConfig :=
  read ← try_read_metadata path;
  metadata ← try_r (ok_or read (OciLauncherErr MetadataNotFound));
  runtime_config ← try_r (ok_or (oci_config (image_config metadata))
                            (OciLauncherErr RuntimeConfigMissing));
  c ← ExecConfig_try_from runtime_config;
  mret (mkExecConfig (exec c) (argv c) (envp c) (uid c) (gid c) (Some (path_push path "img"))
          (chdir c)).

(** ** Properties *)

(** The chain of trust: the certification authority has signed the vendor's
    key, and the vendor's key the image configuration. *)
Definition chain_verified (l : OciLauncher) (a : RequiredAnnotations) (config : Bytes) : Prop :=
  EcdsaKey_verify (launcher_ca_pub l) (vendor_pubkey a) (vendor_pubkey_signature a) = Ok tt ∧
  ∃ vendor_key, EcdsaKey_import (vendor_pubkey a) = Ok vendor_key ∧
    EcdsaKey_verify vendor_key config (signature a) = Ok tt.

Lemma verify_signature_ok l a config :
  verify_signature l a config = Ok tt ↔ chain_verified l a config.
Proof.
  unfold verify_signature, chain_verified.
  destruct (EcdsaKey_verify (launcher_ca_pub l) _ _) as [[]|]; simpl; [|naive_solver].
  destruct (EcdsaKey_import _); simpl; naive_solver.
Qed.

(** The annotations an image carries. *)
Definition annotated (image : Image) (a : RequiredAnnotations) : Prop :=
  ∃ annots, annotations image = Some annots ∧ RequiredAnnotations_try_from annots = Ok a.

Lemma choose_action_ok l info meta action :
  choose_action l info meta = Ok action →
  match action with
  | Install image cert hash => ∃ a,
      info = Ok image ∧ annotated image a ∧ chain_verified l a (config_bytes image) ∧
      cert = [vendor_pubkey a; vendor_pubkey_signature a] ∧ hash = hash_config (config_bytes image)
  | LaunchInstalled m => meta = Some m
  end.
Proof.
  destruct info as [image|e]; simpl; [|destruct meta; intros; by simplify_eq/=].
  destruct (annotations image) as [annots|] eqn:Han; simpl; [|done].
  destruct (RequiredAnnotations_try_from annots) as [a|] eqn:Ha; simpl; [|done].
  destruct (meta ≫= _) as [m|] eqn:Hm.
  - intros [= <-]. apply bind_Some in Hm as (m'&->&Hm). by case_bool_decide; simplify_eq.
  - destruct (verify_signature l a _) as [[]|] eqn:Hv; simpl; [|done]. intros [= <-].
    apply verify_signature_ok in Hv. exists a. split_and!; try done. by exists annots.
Qed.

Lemma perform_install_ok client path image cert hash w am w' :
  perform_install client path image cert hash w = (Ok am, w') →
  am = mkApplicationMetadata cert hash.
Proof.
  unfold perform_install. intros Hrun.
  repeat (apply bind_ok_inv in Hrun as (?&?&_&Hrun)). by run_inv.
Qed.

(** C7.  No unverified image is installed or measured.  When [install]
    succeeds, the vendor data and image hash it returns (which the manager
    measures and seals with) belong either to the image the registry gave for
    this name, and the chain of signatures from the certification authority
    over the vendor key in its annotations to its configuration has been
    verified, or to the metadata of the image installed before. *)
Theorem install_is_verified l path im_url name version w am w' :
  install l path im_url name version w = (Ok am, w') →
  (∃ client ref image w1 w2 a,
     get_image_info client name ref w1 = (Ok image, w2) ∧ reference_try_from version = Ok ref ∧
     annotated image a ∧ chain_verified l a (config_bytes image) ∧
     am = mkApplicationMetadata [vendor_pubkey a; vendor_pubkey_signature a]
            (hash_config (config_bytes image))) ∨
  (∃ m w1 w2, try_read_metadata path w1 = (Ok (Some m), w2) ∧
     am = mkApplicationMetadata (vendor_cert m) (config_hash m)).
Proof.
  unfold install. intros Hrun. apply bind_ok_inv in Hrun as (client&w1&_&Hrun).
  apply bind_ok_inv in Hrun as (ref&w2&Href&Hrun). unfold try_r in Href.
  apply bind_ok_inv in Hrun as (info&w3&Hinfo&Hrun).
  apply bind_ok_inv in Hrun as (meta&w4&Hmeta&Hrun).
  apply bind_ok_inv in Hrun as (action&w5&Hact&Hrun). unfold try_r in Hact. simplify_eq.
  match goal with H : choose_action _ _ _ = _ |- _ => apply choose_action_ok in H as Hc end.
  destruct action as [image cert hash|m].
  - destruct Hc as (a&->&Han&Hv&->&->). apply perform_install_ok in Hrun. left.
    exists client, ref, image, w2, w3, a. split_and!; [|by destruct (reference_try_from version); simplify_eq/=|done..].
    unfold attempt in Hinfo. by destruct (get_image_info _ _ _ _); simplify_eq.
  - subst meta. run_inv. right. by eexists _, _, _.
Qed.

(** C34.  A refused image changes nothing: when the chain of signatures of a new
    image does not verify, [install] fails with the reason and has written
    nothing; it ends in the state reached by reading the current metadata. *)
Theorem unverified_image_has_no_effect l path im_url name version w
    client w1 ref image w2 meta w3 annots a e :
  create_oci_client l im_url w = (Ok client, w1) →
  reference_try_from version = Ok ref →
  get_image_info client name ref w1 = (Ok image, w2) →
  try_read_metadata path w2 = (Ok meta, w3) →
  annotations image = Some annots →
  RequiredAnnotations_try_from annots = Ok a →
  (∀ m, meta = Some m → config_hash m ≠ hash_config (config_bytes image)) →
  verify_signature l a (config_bytes image) = Err e →
  install l path im_url name version w = (Err e, w3).
Proof.
  intros Hcl Hr Hi Hm Han Ha Hnew Hv. unfold install.
  rewrite (bind_ok _ _ _ _ _ Hcl), Hr. erewrite bind_ok by reflexivity.
  rewrite (bind_ok _ _ _ _ _ (attempt_run _ _ _ _ Hi)), (bind_ok _ _ _ _ _ Hm).
  apply bind_err. unfold choose_action, try_r. rewrite Han. simpl. rewrite Ha. simpl.
  destruct meta as [m|]; simpl; [|by rewrite Hv].
  rewrite bool_decide_false by (intros [? _]; by eapply Hnew). by rewrite Hv.
Qed.

(** An application prepared from an image always has a command: its
    argument vector is not empty (so starting it never fails for that reason),
    the executable is its first argument, and it runs inside the installed
    image. *)
Theorem prepared_app_has_command path w c w' :
  prepare path w = (Ok c, w') →
  ∃ arg0 args, argv c = arg0 :: args ∧ exec c = arg0 ∧ chroot c = Some (path_push path "img").
Proof.
  unfold prepare, ExecConfig_try_from, parse_argv. intros Hrun.
  do 3 apply bind_ok_inv in Hrun as (?&?&_&Hrun). apply bind_ok_inv in Hrun as (c0&w1&Hc&Hrun).
  apply bind_ok_inv in Hc as (av&w2&Hav&Hc). apply bind_ok_inv in Hc as (ids&w3&_&Hc).
  unfold try_r in Hav. case_bool_decide as Hargv; simplify_eq. run_inv.
  destruct (_ ++ _) as [|arg0 args]; [done|]. by exists arg0, args.
Qed.

End oci.
