(* ===== verification/AmApplication.v ===== *)
(** * One application inside the realm

    [realm/app-manager/src/app.rs] with [key/ring.rs], and the traits of
    [launcher/mod.rs] with the launcher of [launcher/dummy.rs]: an application's
    two partitions are decrypted and mounted, its image is installed and
    measured, and the data partition is unlocked with a key sealed to what was
    installed. *)

From S2P Require Import Prelude WardenRealm AmBase AmOs DmCrypt KeySealing AppHandler OciLauncher.

(** [trait Launcher]; [Hd] is the type of the handlers it prepares. *)
Class Launcher (W L Hd : Type) := {
  launcher_install : PathBuf → string → string → string → eff (L * W) Error ApplicationMetadata;
  launcher_prepare : PathBuf → eff (L * W) Error Hd }.

(** [keyutils]: attaching the user keyring and adding a logon key. *)
Class KeyringApi (W : Type) := {
  keyring_attach_or_create : eff W string unit;
  keyring_add_logon : string → string → Bytes → eff W string unit }.

Record Application := mkApplication {
  app_info : ApplicationInfo;
  app_workdir : PathBuf;
  devices : list CryptDevice;
  app_measurements : Bytes }.

Section app.
Context {W L Hd : Type}.
Context `{!OsApi W, !HexApi, !HashApi, !DmApi W, !KeyringApi W, !Launcher W L Hd, !UuidApi}.

Definition push_device (d : CryptDevice) (a : Application) : Application :=
  mkApplication (app_info a) (app_workdir a) (devices a ++ [d]) (app_measurements a).
Definition set_devices (ds : list CryptDevice) (a : Application) : Application :=
  mkApplication (app_info a) (app_workdir a) ds (app_measurements a).
Definition add_measurements (m : Bytes) (a : Application) : Application :=
  mkApplication (app_info a) (app_workdir a) (devices a) (app_measurements a ++ m).

(** [KernelKeyring::new] and [logon_seal]. *)
Definition KernelKeyring_new : eff W Error unit :=
  map_err (λ e, KeyRing (FailedToAttachtoKeyring e)) keyring_attach_or_create.
Definition logon_seal (subtype description : string) (payload : Bytes) : eff W Error unit :=
  map_err (λ e, KeyRing (FailedToSealKey e)) (keyring_add_logon subtype description payload).

(** [Application::new]. *)
Definition new (info : ApplicationInfo) (workdir : PathBuf) : eff W Error Application :=
  DeviceMapper_init;;
  KernelKeyring_new;;
  mret (mkApplication info workdir [] []).

Definition S_IFBLK_0666 : Z := Z.lor 438 24576.

Definition decrypt_partition (part_uuid : Uuid) (params : CryptoParams) (key : Key) (dst : PathBuf)
    : eff W Error CryptDevice :=
  let uuid_str := uuid_to_string part_uuid in
  let path := path_push "/dev/disk/by-partuuid/" uuid_str in
  symlink ← gets (os_is_symlink path);
  if negb symlink then throw (PartitionNotFound part_uuid)
  else
    rdev ← stat path;
    size ← read_device_size path;
    device ← create_device ("crypt_" +:+ uuid_str) None;
    load device (mkDmCryptTable 0 size params 0)
      (MajorMinor (libc_major rdev) (libc_minor rdev)) key;;
    resume device;;
    dir ← try_r (dirname dst);
    mkdirp dir;;
    let '(crypt_major, crypt_minor) := get_major_minor device in
    mknod dst S_IFBLK_0666 (libc_makedev crypt_major crypt_minor);;
    mret device.

Definition try_mount_or_format_partition (src dst : PathBuf) (fs : Filesystem)
    (label : option string) : eff W Error unit :=
  mkdirp dst;;
  res ← attempt (mount fs src dst None);
  if is_err res then
    formatfs fs src label;;
    mount fs src dst None
  else mret tt.

Definition SUBCLASS := "app-manager".

Definition derive_key_for (label : string) (keyseal : KeySealing) (infos : list Bytes)
    : eff W Error Key :=
  let raw_key := derive_key keyseal infos in
  logon_seal SUBCLASS label raw_key;;
  mret (Keyring (Z.of_nat (length raw_key)) Logon (SUBCLASS +:+ ":" +:+ label)).

(** A string's bytes ([as_bytes]). *)
Definition as_bytes (s : string) : Bytes :=
  (λ c, Z.of_N (N_of_ascii c)) <$> String.list_ascii_of_string s.

(** The launcher is a local of [setup]: its methods run on it and the world. *)
Definition with_launcher {A} (l : L) (c : eff (L * W) Error A)
    : eff (Application * W) Error (A * L) := λ s,
  let '(r, (l', w')) := c (l, s.2) in
  (match r with Ok a => Ok (a, l') | Err e => Err e end, (s.1, w')).

Definition on_world {A} (c : eff W Error A) : eff (Application * W) Error A := zoom snd_lens c.
Definition on_self (f : Application → Application) : eff (Application * W) Error unit :=
  modify (λ s, (f s.1, s.2)).

(** [Application::setup]. *)
Definition setup (params : CryptoParams) (launcher : L) (keyseal : KeySealing)
    : eff (Application * W) Error Hd :=
  app ← gets fst;
  let info := app_info app in
  let decrypted_partinions_dir := path_push (app_workdir app) "crypt" in
  app_image_key ← on_world (derive_key_for (uuid_to_string (info_image_part_uuid info)) keyseal
                              [as_bytes "App manager label"]);
  let app_image_crypt_device := path_push decrypted_partinions_dir "image" in
  device ← on_world (decrypt_partition (info_image_part_uuid info) params app_image_key
                       app_image_crypt_device);
  on_self (push_device device);;
  let app_image_dir := path_push (app_workdir app) "image" in
  on_world (try_mount_or_format_partition app_image_crypt_device app_image_dir Ext2 (Some "image"));;
  let app_image_root_dir := path_push app_image_dir "root" in
  on_world (mkdirp app_image_root_dir);;
  installed ← with_launcher launcher (launcher_install app_image_root_dir
    (info_image_registry info) (WardenRealm.info_name info) (info_version info));
  let '(application_metadata, launcher) := installed in
  on_self (add_measurements (concat (vendor_data application_metadata)));;
  on_self (add_measurements (image_hash application_metadata));;
  let keyseal := seal keyseal (vendor_data application_metadata) (image_hash application_metadata) in
  app_data_key ← on_world (derive_key_for (uuid_to_string (info_data_part_uuid info)) keyseal
                             [as_bytes (WardenRealm.info_name info)]);
  let app_data_crypt_device := path_push decrypted_partinions_dir "data" in
  device ← on_world (decrypt_partition (info_data_part_uuid info) params app_data_key
                       app_data_crypt_device);
  on_self (push_device device);;
  let app_data_dir := path_push (app_workdir app) "data" in
  on_world (try_mount_or_format_partition app_data_crypt_device app_data_dir Ext2 (Some "data"));;
  let app_overlay_dir := path_push (app_workdir app) "overlay" in
  let overlay_workdir := path_push app_data_dir "workdir" in
  let overlay_upper := path_push app_data_dir "root" in
  on_world (mkdirp app_overlay_dir);;
  on_world (mkdirp overlay_workdir);;
  on_world (mkdirp overlay_upper);;
  on_world (mount_overlayfs app_image_root_dir overlay_upper overlay_workdir app_overlay_dir);;
  prepared ← with_launcher launcher (launcher_prepare app_overlay_dir);
  mret prepared.1.

(** The loop of [cleanup] over the devices, last one first: a device taken out
    of the vector is gone even when a step on it fails. *)
Fixpoint remove_devices (rev_devices : list CryptDevice) : eff (Application * W) Error unit :=
  match rev_devices with
  | [] => mret tt
  | device :: rest =>
      on_self (set_devices (reverse rest));;
      on_world (id ← try_r (dev_id device); mret tt);;
      on_world (suspend device);;
      on_world (remove_device device);;
      remove_devices rest
  end.

(** [Application::cleanup]. *)
Definition cleanup : eff (Application * W) Error unit :=
  app ← gets fst;
  for_each (λ dir, on_world (umount dir))
    [path_push (app_workdir app) "overlay"; path_push (app_workdir app) "data";
     path_push (app_workdir app) "image"];;
  remove_devices (reverse (devices app)).

(** ** launcher/dummy.rs *)

Definition newline : string := String "010"%char "".
Definition quote : string := String "034"%char "".
Definition SCRIPT : string :=
  newline +:+ "while true; do echo " +:+ quote +:+ "I'm alive" +:+ quote +:+ "; sleep 1; done" +:+
  newline.

Definition DummyLauncher_install (path : PathBuf) : eff W Error ApplicationMetadata :=
  map_err (λ e, DummyLauncherErr (FileCopyError e))
    (os_copy "/usr/bin/busybox" (path_push path "busybox"));;
  map_err (λ e, DummyLauncherErr (DummyFileWriteError e))
    (os_write (path_push path "script.sh") SCRIPT);;
  mret (mkApplicationMetadata [[17; 34; 51]%Z] [1; 2; 3; 4]%Z).

(** The configuration of the handler [DummyLauncher::prepare] returns. *)
Definition DummyLauncher_prepare `{!UserDb W} (path : PathBuf) : eff W Error ExecConfig :=
  mret (mkExecConfig "/busybox" ["sh"; "/script.sh"] env_vars getuid getgid (Some path) (Some "/")).

(** ** Properties *)

Lemma on_world_frame {A} (c : eff W Error A) s r s' :
  on_world c s = (r, s') → s'.1 = s.1.
Proof. intros (w&_&->)%zoom_inv. done. Qed.

Lemma with_launcher_run {A} l (c : eff (L * W) Error A) s a l' s' :
  with_launcher l c s = (Ok (a, l'), s') →
  s'.1 = s.1 ∧ c (l, s.2) = (Ok a, (l', s'.2)).
Proof.
  unfold with_launcher. destruct (c _) as [r [l1 w1]]. destruct r; intros; by simplify_eq/=.
Qed.

(** The identity of an application never changes. *)
Definition same_info : Application * W → Application * W → Prop := same (λ s, app_info s.1).
#[local] Instance same_info_preorder : PreOrder same_info := same_preorder _.

Lemma setup_same_info params l k : steps same_info (setup params l k).
Proof.
  assert (∀ A (c : eff W Error A), steps same_info (on_world c)) as Hw by (intros; by apply steps_zoom).
  assert (∀ A l0 (c : eff (L * W) Error A), steps same_info (with_launcher l0 c)) as Hl.
  { intros A l0 c s. unfold with_launcher. by destruct (c _) as [? []]. }
  assert (∀ d, steps same_info (on_self (push_device d))) as Hp by (intros; by apply steps_modify).
  assert (∀ m, steps same_info (on_self (add_measurements m))) as Hm
    by (intros; by apply steps_modify).
  unfold setup. eff_auto.
Qed.

(** Opens the successful binds of a run, keeping what each step did to the
    application. *)
Ltac app_step Hrun :=
  match type of Hrun with
  | (on_self _ ≫= _) _ = _ => unfold on_self in Hrun; run_gets Hrun
  | (modify _ ≫= _) _ = _ => run_gets Hrun
  | (on_world _ ≫= _) _ = (Ok _, _) =>
      let H := fresh "Hw" in
      apply bind_ok_inv in Hrun as (?&?&H&Hrun); apply on_world_frame in H; simpl in H
  end.

(** What is measured is what was installed: a successful [setup] of a new
    application leaves exactly two decrypted devices, and its measurements are
    the vendor data followed by the image hash the launcher reported. *)
Theorem setup_measures_installation info dir params launcher keyseal w hd a w' :
  setup params launcher keyseal (mkApplication info dir [] [], w) = (Ok hd, (a, w')) →
  (∃ image_dev data_dev, devices a = [image_dev; data_dev]) ∧
  (∃ m w1 l' w2,
     launcher_install (path_push (path_push dir "image") "root") (info_image_registry info)
       (WardenRealm.info_name info) (info_version info) (launcher, w1) = (Ok m, (l', w2)) ∧
     app_measurements a = concat (vendor_data m) ++ image_hash m).
Proof.
  unfold setup. intros Hrun. run_gets Hrun. repeat app_step Hrun.
  apply bind_ok_inv in Hrun as ([m l']&s1&Hi&Hrun). apply with_launcher_run in Hi as [Hs1 Hi].
  repeat app_step Hrun.
  apply bind_ok_inv in Hrun as ([h l'']&s2&Hp&Hrun). apply with_launcher_run in Hp as [Hs2 _].
  run_inv. repeat match goal with H : _.1 = _ |- _ => rewrite H in * end; simpl in *.
  split; [by eexists _, _|]. by eexists m, _, _, _.
Qed.

End app.
