(* ===== verification/AmManager.v ===== *)
(** * The application manager of a realm

    [realm/app-manager/src/manager.rs]: the process inside the realm that
    installs, measures and controls the realm's applications on behalf of the
    warden daemon, and answers its requests. *)

From S2P Require Import Prelude WardenRealm JsonFramed AmBase AmOs DmCrypt KeySealing AppHandler.
From S2P Require Import OciLauncher AmApplication.

(** [trait ApplicationHandler]. *)
Class ApplicationHandler (W Hd : Type) := {
  handler_start : eff (Hd * W) Error unit;
  handler_stop : eff (Hd * W) Error unit;
  handler_kill : eff (Hd * W) Error unit;
  handler_try_wait : eff (Hd * W) Error (option ExitStatus) }.

(** The constructors of the two launchers. *)
Class LauncherTypes (K L : Type) := {
  DummyLauncher_new : L;
  OciLauncher_from_oci_config : OciLauncherConfig → K → L }.

(** The order in which the provisioning tasks are joined, whether a task that is
    aborted had run before, and the text of the error of a task that was lost. *)
Class JoinSetApi (W : Type) := {
  join_order : nat → W → list nat;
  join_ran : nat → W → bool;
  join_error : nat → W → option string }.

(** Every task is joined once. *)
Class JoinSetLaws (W : Type) `{JoinSetApi W} : Prop := {
  join_order_perm : ∀ n w, join_order n w ≡ₚ seq 0 n }.

(** [slice::chunks]; the slice shrinks, so its length is enough fuel. *)
Fixpoint chunks_go {A} (fuel : nat) (n : nat) (l : list A) : list (list A) :=
  match fuel, l with
  | S fuel, _ :: _ => take n l :: chunks_go fuel n (drop n l)
  | _, _ => []
  end.
Definition chunks {A} (n : nat) (l : list A) : list (list A) := chunks_go (length l) n l.

Lemma chunks_go_concat {A} fuel n (l : list A) :
  0 < n → length l ≤ fuel → concat (chunks_go fuel n l) = l.
Proof.
  intros Hn. revert l. induction fuel as [|fuel IH]; intros l Hl; [by destruct l; simpl in *; [|lia]|].
  destruct l as [|x l]; [done|]. cbn [chunks_go concat].
  rewrite IH; [apply take_drop|]. rewrite length_drop. simpl in *. lia.
Qed.

Lemma chunks_go_size {A} fuel n (l : list A) c :
  0 < n → c ∈ chunks_go fuel n l → 0 < length c ≤ n.
Proof.
  intros Hn. revert l. induction fuel as [|fuel IH]; intros l Hc; [by apply elem_of_nil in Hc|].
  destruct l as [|x l]; [by apply elem_of_nil in Hc|]. cbn [chunks_go] in Hc.
  apply elem_of_cons in Hc as [->|Hc]; [|by eapply IH]. rewrite length_take. simpl. lia.
Qed.

Lemma chunks_concat {A} n (l : list A) : 0 < n → concat (chunks n l) = l.
Proof. intros Hn. by apply chunks_go_concat. Qed.
Lemma chunks_size {A} n (l : list A) c : 0 < n → c ∈ chunks n l → 0 < length c ≤ n.
Proof. apply chunks_go_size. Qed.

Record Manager (Hd : Type) := mkManager {
  mgr_config : Config;
  apps : gmap Uuid (Application * Hd);
  sealing_factory : KeySealingFactory }.
Arguments mkManager {Hd} _ _ _.
Arguments mgr_config {Hd} _.
Arguments apps {Hd} _.
Arguments sealing_factory {Hd} _.

(** One iteration of the event loop: what [recv] returns and how [send] ends. *)
Record ManagerEvent := mkEvent {
  ev_received : result WardenRealm.Request JsonFramedError;
  ev_sent : result unit JsonFramedError }.

Inductive EventLoop := WaitingForRequest | MachineDown | UnreachablePanic.

Section manager.
Context {W K Sg L Hd : Type}.
Context `{!OsApi W, !HexApi, !HashApi, !DmApi W, !KeyringApi W, !RsiApi W, !UuidApi}.
Context `{!EcdsaApi K Sg, !LauncherTypes K L, !Launcher W L Hd, !ApplicationHandler W Hd}.
Context `{!JoinSetApi W, !Debug Error, !Debug OsError}.

Abbreviation M := (Manager Hd * W)%type.

Definition RSI_KO := "/lib/modules/rsi.ko".

(** [Manager::new]; the connection is the other end of [RealmClientHandler]. *)
Definition new (vsock_connect : Z → eff W IoError unit) (config : Config)
    : eff W Error (Manager Hd) :=
  (if requires_rsi config then insmod RSI_KO "" else mret tt);;
  map_err (λ e, AmBase.Manager (VsockConnectionError e)) (vsock_connect (vsock_port config));;
  sealing_factory ← match keysealing config with
                    | DummySealing => mret (DummyKeySealingFactory [17; 34; 51]%Z)
                    | HkdfSha256 ikm_source => HkdfSealingFactory_new ikm_source
                    end;
  mret (mkManager config ∅ sealing_factory).

Definition set_apps (a : gmap Uuid (Application * Hd)) (m : Manager Hd) : Manager Hd :=
  mkManager (mgr_config m) a (sealing_factory m).

Definition world {A} (c : eff W Error A) : eff M Error A := zoom snd_lens c.

Definition make_launcher : eff M Error L :=
  config ← gets (λ s, mgr_config s.1);
  match launcher config with
  | DummyLauncherType => mret DummyLauncher_new
  | Oci cfg =>
      ca ← world (read_to_vec (ca_pub config));
      ca_key ← try_r (EcdsaKey_import ca);
      mret (OciLauncher_from_oci_config cfg ca_key)
  end.

Definition make_keyseal : eff M Error KeySealing := gets (λ s, create (sealing_factory s.1)).

(** A provisioning task: its input, and its run.  The tasks run concurrently, each on
    the partitions and the directory of its application; the order in which they are
    joined stands for their interleaving. *)
Abbreviation TaskInput := (ApplicationInfo * string * L * KeySealing)%type.

Definition prepare_task (app_info : ApplicationInfo) : eff M Error TaskInput :=
  config ← gets (λ s, mgr_config s.1);
  launcher ← make_launcher;
  keyseal ← make_keyseal;
  mret (app_info, path_push (workdir config) (uuid_to_string (info_id app_info)), launcher, keyseal).

(** Run a method of an application that is not in the table yet. *)
Definition on_new_app {A} (a : Application) (c : eff (Application * W) Error A)
    : eff M Error (A * Application) := λ s,
  let '(r, (a', w')) := c (a, s.2) in
  (match r with Ok x => Ok (x, a') | Err e => Err e end, (s.1, w')).

Definition run_task (t : TaskInput) : eff M Error (Application * Hd) :=
  let '(info, app_dir, launcher, keyseal) := t in
  params ← gets (λ s, crypto (mgr_config s.1));
  app ← world (AmApplication.new info app_dir);
  done ← on_new_app app (setup params launcher keyseal);
  mret (done.2, done.1).

Definition join_task (tasks : list TaskInput) (i : nat) : eff M Error unit :=
  lost ← gets (λ s, join_error i s.2);
  match lost, tasks !! i with
  | Some e, _ => throw (AmBase.Manager (ProvisionJoinError e))
  | None, Some t =>
      installed ← run_task t;
      modify (λ s, (set_apps (<[info_id (app_info installed.1) := installed]> (apps s.1)) s.1, s.2))
  | None, None => mret tt
  end.

(** A task that was not joined when another one failed: its result is lost. *)
Definition dropped_task (tasks : list TaskInput) (i : nat) (s : M) : M :=
  match tasks !! i with
  | Some t => if join_ran i s.2 then (s.1, (run_task t s).2.2) else s
  | None => s
  end.

Definition extend_rem (data : Bytes) : eff M Error unit :=
  extend ← gets (λ s, extend (mgr_config s.1));
  match extend with
  | Some rem =>
      if bool_decide (data = []) then throw (AmBase.Manager AppHasNoMeasurements)
      else for_each (λ chunk, map_err (λ e, AmBase.Manager (RemExtensionError e))
                                (zoom snd_lens (measurement_extend (ExtendREM_as_u32 rem) chunk)))
             (chunks MAX_MEASUR_LEN data)
  | None => mret tt
  end.

Definition measure_app (info : ApplicationInfo) : eff M Error unit :=
  found ← gets (λ s, apps s.1 !! info_id info);
  app ← try_r (ok_or found (AmBase.Manager (AppNotFound (info_id info))));
  extend_rem (app_measurements app.1).

(** Run a method of the handler stored under [id]. *)
Definition on_handler {E A} (id : Uuid) (app : Application) (hd : Hd) (c : eff (Hd * W) E A)
    : eff M E A := λ s,
  let '(r, (hd', w')) := c (hd, s.2) in
  (r, (set_apps (<[id := (app, hd')]> (apps s.1)) s.1, w')).

(** [Manager::provision]. *)
Definition provision (apps_info : list ApplicationInfo) : eff M Error unit :=
  provisioned ← gets (λ s, bool_decide (apps s.1 ≠ ∅));
  if provisioned : bool then throw (AmBase.Manager AlreadyProvisioned)
  else
    tasks ← map_eff prepare_task apps_info;
    order ← gets (λ s, join_order (length tasks) s.2);
    join_all (dropped_task tasks) (join_task tasks) order;;
    for_each measure_app apps_info;;
    autostart ← gets (λ s, autostartall (mgr_config s.1));
    if autostart : bool then
      installed ← gets (λ s, map_to_list (apps s.1));
      for_each (λ e : Uuid * (Application * Hd), on_handler e.1 e.2.1 e.2.2 handler_start) installed
    else mret tt.

(** [Manager::read_attestation_token]. *)
Definition read_attestation_token (challenge : Bytes) : eff M Error Bytes :=
  config ← gets (λ s, mgr_config s.1);
  match launcher config with
  | Oci (RaTLS _ Rsi) =>
      if bool_decide (length challenge = 64) then
        map_err (λ e, AmBase.Manager (RsiTokenFetch e)) (zoom snd_lens (attestation_token challenge))
      else throw (AmBase.Manager InvalidChallengeSize)
  | Oci (RaTLS _ (File path)) => world (read_to_vec path)
  | _ => throw (AmBase.Manager RaTlsIsNotSelected)
  end.

(** [Manager::get_handler] and a call of the handler. *)
Definition with_handler {A} (id : Uuid) (c : eff (Hd * W) Error A)
    (k : result A Error → result WardenRealm.Response ProtocolError) : eff M ProtocolError WardenRealm.Response :=
  found ← gets (λ s, apps s.1 !! id);
  app ← try_r (ok_or found ApplicationNotFound);
  outcome ← attempt (on_handler id app.1 app.2 c);
  try_r (k outcome).

(** [Manager::shutdown_all_apps]: failures are only logged. *)
Definition shutdown_app (e : Uuid * (Application * Hd)) : eff M ProtocolError unit := λ s,
  let '(id, (app, hd)) := e in
  let '(_, (hd', w1)) := handler_stop (hd, s.2) in
  let '(_, (app', w2)) := cleanup (app, w1) in
  (Ok tt, (set_apps (<[id := (app', hd')]> (apps s.1)) s.1, w2)).

Definition shutdown_all_apps : eff M ProtocolError unit :=
  installed ← gets (λ s, map_to_list (apps s.1));
  for_each shutdown_app installed.

Definition power_action (action : SystemPowerAction) : eff M ProtocolError (option OsError) := λ s,
  let '(e, w') := reboot action s.2 in (Ok e, (s.1, w')).

(** [Manager::perform_reboot]: [None] when the machine went down. *)
Definition perform_reboot (action : SystemPowerAction) : eff M ProtocolError (option WardenRealm.Response) :=
  shutdown_all_apps;;
  e ← power_action action;
  match e with
  | Some e => throw (SystemPowerActionFailed (fmt_debug e))
  | None => mret None
  end.

Definition success_or (f : string → ProtocolError) (r : result unit Error)
    : result WardenRealm.Response ProtocolError :=
  match r with Ok _ => Ok Success | Err e => Err (f (fmt_debug e)) end.

(** [Manager::handle_request]: [None] when the machine went down. *)
Definition handle_request (request : WardenRealm.Request) : eff M ProtocolError (option WardenRealm.Response) :=
  match request with
  | ProvisionInfo apps_info =>
      r ← attempt (provision apps_info);
      resp ← try_r (success_or ProvisioningError r); mret (Some resp)
  | GetAttestationToken challenge =>
      r ← attempt (read_attestation_token challenge);
      match r with
      | Ok token => mret (Some (AttestationToken token))
      | Err e => throw (AttestationTokenReadingError (fmt_debug e))
      end
  | GetIfAddrs =>
      r ← attempt (world read_if_addrs);
      match r with
      | Ok net_addrs => mret (Some (IfAddrs net_addrs))
      | Err e => throw (GetIfAddrsError (fmt_debug e))
      end
  | StartApp id =>
      resp ← with_handler id handler_start (success_or ApplicationLaunchFailed); mret (Some resp)
  | StopApp id =>
      resp ← with_handler id handler_stop (success_or ApplicationStopFailed); mret (Some resp)
  | KillApp id =>
      resp ← with_handler id handler_kill (success_or ApplicationKillFailed); mret (Some resp)
  | CheckStatus id =>
      resp ← with_handler id handler_try_wait (λ r,
        match r with
        | Ok (Some status) => Ok (ApplicationExited status)
        | Ok None => Ok ApplicationIsRunning
        | Err (Handler AppNotRunning) => Ok ApplicationNotStarted
        | Err e => Err (ApplicationCheckStatusFailed (fmt_debug e))
        end);
      mret (Some resp)
  | Shutdown => perform_reboot PowerShutdown
  | Reboot => perform_reboot PowerReboot
  end.

(** [Manager::handle_received_request]. *)
Definition handle_received_request (request : WardenRealm.Request) (s : M) : option WardenRealm.Response * M :=
  match handle_request request s with
  | (Ok response, s') => (response, s')
  | (Err e, s') => (Some (WardenRealm.Error e), s')
  end.

(** [Manager::handle_events]. *)
Fixpoint handle_events (recv_error : JsonFramedError → string) (events : list ManagerEvent) (s : M)
    : EventLoop * M :=
  match events with
  | [] => (WaitingForRequest, s)
  | ev :: events =>
      let '(response, s1) :=
        match ev_received ev with
        | Ok r => handle_received_request r s
        | Err e => (Some (WardenRealm.Error (InvalidRequest (recv_error e))), s)
        end in
      match response, ev_sent ev with
      | None, _ => (MachineDown, s1)
      | Some _, Ok _ => handle_events recv_error events s1
      | Some _, Err _ =>
          match perform_reboot PowerShutdown s1 with
          | (Ok None, s2) => (MachineDown, s2)
          | (_, s2) => (UnreachablePanic, s2)
          end
      end
  end.

(** ** Responses

    The kind of response that answers a request. *)

Definition answers (request : WardenRealm.Request) (response : WardenRealm.Response) : Prop :=
  match request with
  | ProvisionInfo _ | StartApp _ | StopApp _ | KillApp _ => response = Success
  | GetAttestationToken _ => ∃ token, response = AttestationToken token
  | GetIfAddrs => ∃ addrs, response = IfAddrs addrs
  | CheckStatus _ =>
      response = ApplicationIsRunning ∨ response = ApplicationNotStarted ∨
      ∃ status, response = ApplicationExited status
  | Reboot | Shutdown => False
  end.

Lemma with_handler_ok {A} id (c : eff (Hd * W) Error A) k s resp s' :
  with_handler id c k s = (Ok resp, s') → ∃ r, k r = Ok resp.
Proof.
  unfold with_handler. intros Hrun. do 3 apply bind_ok_inv in Hrun as (?&?&_&Hrun).
  unfold try_r in Hrun. simplify_eq. eauto.
Qed.

Lemma success_or_ok f r resp : success_or f r = Ok resp → resp = Success.
Proof. destruct r; simpl; intros; by simplify_eq. Qed.

Lemma handle_request_answers req s response s' :
  handle_request req s = (Ok (Some response), s') → answers req response.
Proof.
  destruct req as [infos|ch| |id|id|id|id| |]; simpl; intros Hrun.
  8,9: unfold perform_reboot in Hrun; do 2 apply bind_ok_inv in Hrun as (?&?&_&Hrun);
    case_match; by run_inv.
  all: apply bind_ok_inv in Hrun as (resp&s1&Hr&Hrun).
  - apply bind_ok_inv in Hrun as (resp'&s2&Hr'&Hrun). unfold try_r in Hr'. run_inv.
    by eapply success_or_ok.
  - destruct resp; run_inv. eauto.
  - destruct resp; run_inv. eauto.
  - run_inv. apply with_handler_ok in Hr as [r Hr].
    destruct r as [[st|]|[]]; simplify_eq/=; eauto. case_match; simplify_eq; eauto.
  - run_inv. apply with_handler_ok in Hr as [r Hr]. by apply success_or_ok in Hr.
  - run_inv. apply with_handler_ok in Hr as [r Hr]. by apply success_or_ok in Hr.
  - run_inv. apply with_handler_ok in Hr as [r Hr]. by apply success_or_ok in Hr.
Qed.

(** ** Installing *)

Lemma run_task_info t s p s' :
  run_task t s = (Ok p, s') → app_info p.1 = t.1.1.1 ∧ s'.1 = s.1.
Proof.
  destruct t as [[[info dir] l] k]. unfold run_task. intros Hrun. run_gets Hrun.
  apply bind_ok_inv in Hrun as (app&s1&Happ&Hrun).
  apply bind_ok_inv in Hrun as ([hd app']&s2&Hset&Hrun). run_inv.
  assert (app_info app = info ∧ s1.1 = s.1) as [<- <-].
  { unfold world in Happ. apply zoom_inv in Happ as (w1&Happ&->). split; [|done].
    unfold AmApplication.new in Happ. do 2 apply bind_ok_inv in Happ as (?&?&_&Happ). by run_inv. }
  unfold on_new_app in Hset. destruct (setup _ _ _ _) as [r [a1 w1]] eqn:Hs.
  apply (steps_run _ _ _ _ _ (setup_same_info _ _ _)) in Hs. destruct r; [|done].
  by simplify_eq/=.
Qed.

Lemma join_task_ok tasks i t s s' :
  join_task tasks i s = (Ok tt, s') → tasks !! i = Some t →
  ∃ p, apps s'.1 = <[info_id t.1.1.1 := p]> (apps s.1) ∧ mgr_config s'.1 = mgr_config s.1.
Proof.
  unfold join_task. intros Hrun Ht. erewrite bind_ok in Hrun by reflexivity. rewrite Ht in Hrun.
  destruct (join_error i s.2); [by run_inv|].
  apply bind_ok_inv in Hrun as (p&s1&Hp&Hrun). apply run_task_info in Hp as [Hi Hs]. run_inv.
  exists p. by rewrite Hi, Hs.
Qed.

Lemma join_tasks_ok tasks order s s' :
  (∀ i, i ∈ order → i < length tasks) →
  for_each (join_task tasks) order s = (Ok tt, s') →
  dom (apps s'.1) = list_to_set (omap (λ i, (λ t : TaskInput, info_id t.1.1.1) <$> tasks !! i) order)
                    ∪ dom (apps s.1) ∧
  mgr_config s'.1 = mgr_config s.1.
Proof.
  revert s. induction order as [|i order IH]; intros s Hlt Hrun; simpl in Hrun.
  { run_inv. split; [simpl; set_solver|done]. }
  apply bind_ok_inv in Hrun as ([]&s1&Hj&Hrun).
  destruct (lookup_lt_is_Some_2 tasks i) as [t Ht]; [apply Hlt; by left|].
  destruct (join_task_ok _ _ _ _ _ Hj Ht) as (p&Happs&Hc).
  apply IH in Hrun as [-> ->]; [|intros; apply Hlt; by right].
  rewrite Happs, dom_insert_L. split; [|done]. simpl. rewrite Ht. simpl. set_solver.
Qed.

Lemma prepare_inputs_ok infos s tasks s' :
  map_eff prepare_task infos s = (Ok tasks, s') →
  (λ t : TaskInput, t.1.1.1) <$> tasks = infos ∧ s'.1 = s.1.
Proof.
  revert s tasks. induction infos as [|info infos IH]; intros s tasks Hrun; simpl in Hrun.
  { by run_inv. }
  apply bind_ok_inv in Hrun as (t&s1&Ht&Hrun). apply bind_ok_inv in Hrun as (ts&s2&Hts&Hrun).
  run_inv. apply IH in Hts as [<- ->]. simpl.
  assert (t.1.1.1 = info ∧ s1.1 = s.1) as [<- <-]; [|done].
  unfold prepare_task, make_launcher, make_keyseal, world in Ht. run_gets Ht.
  apply bind_ok_inv in Ht as (l&s2&Hl&Ht). run_gets Ht. run_inv. split; [done|].
  run_gets Hl. destruct (launcher _); [by run_inv|].
  apply bind_ok_inv in Hl as (?&?&Hz&Hl). apply zoom_inv in Hz as (?&_&->).
  apply bind_ok_inv in Hl as (?&?&Hk&Hl). unfold try_r in Hk. by run_inv.
Qed.

Lemma omap_seq_all {A B} (f : A → B) (l : list A) :
  omap (λ i, f <$> l !! i) (seq 0 (length l)) = f <$> l.
Proof.
  induction l as [|x l IH]; [done|]. simpl. f_equal. rewrite <-fmap_S_seq.
  etrans; [|exact IH]. apply list_omap_ext, Forall2_fmap_l, Forall_Forall2_diag.
  by apply Forall_true.
Qed.

Lemma install_all_ok `{!JoinSetLaws W} infos s tasks s1 s2 :
  map_eff prepare_task infos s = (Ok tasks, s1) →
  for_each (join_task tasks) (join_order (length tasks) s1.2) s1 = (Ok tt, s2) →
  apps s.1 = ∅ →
  dom (apps s2.1) = list_to_set (info_id <$> infos) ∧ mgr_config s2.1 = mgr_config s.1.
Proof.
  intros Hprep Hjoin Hempty. apply prepare_inputs_ok in Hprep as [<- Hs1].
  pose proof (join_order_perm (length tasks) s1.2) as Hperm.
  apply join_tasks_ok in Hjoin as [Hdom Hc].
  2:{ intros i Hi. rewrite Hperm in Hi. apply elem_of_seq in Hi. lia. }
  rewrite Hs1, Hempty in Hdom. rewrite Hs1 in Hc. split; [|done].
  rewrite Hdom, dom_empty_L, union_empty_r_L. rewrite Hperm.
  rewrite (omap_seq_all (λ t : TaskInput, info_id t.1.1.1)). by rewrite <-list_fmap_compose.
Qed.

End manager.
