(* ===== verification/AmMeasure.v ===== *)
(** * The measurements of a realm

    [provision] of [realm/app-manager/src/manager.rs] extends a measurement register of
    the realm by what it installs.  The register is observed as the log of the
    extensions; nothing else the manager calls while it provisions extends it. *)

From S2P Require Import Prelude WardenRealm JsonFramed AmBase AmOs DmCrypt KeySealing AppHandler.
From S2P Require Import OciLauncher AmApplication AmManager.

(** ** What the calls of the manager do not change

    [obs] is any observation of the world. *)

Abbreviation beside obs := (same (λ s, obs s.2)).

Class OsKeeps {W O} `{!OsApi W} (obs : W → O) : Prop := {
  os_create_dir_all_keeps : ∀ p, steps (same obs) (os_create_dir_all p);
  os_read_link_keeps : ∀ p, steps (same obs) (os_read_link p);
  os_metadata_keeps : ∀ p, steps (same obs) (os_metadata_rdev p);
  os_read_to_string_keeps : ∀ p, steps (same obs) (os_read_to_string p);
  os_read_keeps : ∀ p, steps (same obs) (os_read p);
  os_write_keeps : ∀ p t, steps (same obs) (os_write p t);
  os_remove_dir_all_keeps : ∀ p, steps (same obs) (os_remove_dir_all p);
  os_rename_keeps : ∀ p q, steps (same obs) (os_rename p q);
  os_spawn_keeps : ∀ c l, steps (same obs) (os_spawn c l);
  os_wait_keeps : ∀ c, steps (same obs) (os_wait c);
  libc_mount_keeps : ∀ a b c d w, obs w = obs (libc_mount a b c d w).2;
  libc_mknod_keeps : ∀ a b c w, obs w = obs (libc_mknod a b c w).2 }.

Class DmKeeps {W O} `{!DmApi W} (obs : W → O) : Prop := {
  dm_new_keeps : steps (same obs) dm_new;
  dm_device_create_keeps : ∀ n u, steps (same obs) (dm_device_create n u);
  dm_table_load_keeps : ∀ d t, steps (same obs) (dm_table_load d t);
  dm_device_suspend_keeps : ∀ d b, steps (same obs) (dm_device_suspend d b) }.

Class KeyringKeeps {W O} `{!KeyringApi W} (obs : W → O) : Prop := {
  keyring_attach_keeps : steps (same obs) keyring_attach_or_create;
  keyring_add_keeps : ∀ a b k, steps (same obs) (keyring_add_logon a b k) }.

Class RegistryKeeps {W Client Image Ref Store Token Resolver O}
    `{!RegistryApi W Client Image Ref Store Token Resolver} (obs : W → O) : Prop := {
  load_root_cert_store_keeps : ∀ p, steps (same obs) (load_root_cert_store p);
  token_from_path_keeps : ∀ p, steps (same obs) (token_from_path p);
  cert_resolver_keeps : ∀ t, steps (same obs) (cert_resolver t);
  client_from_config_keeps : ∀ u t, steps (same obs) (client_from_config u t);
  get_image_info_keeps : ∀ c n r, steps (same obs) (get_image_info c n r);
  unpack_image_keeps : ∀ c i p q, steps (same obs) (unpack_image c i p q) }.

Class LauncherKeeps {W L Hd O} `{!Launcher W L Hd} (obs : W → O) : Prop := {
  launcher_install_keeps : ∀ p u n v, steps (beside obs) (launcher_install p u n v);
  launcher_prepare_keeps : ∀ p, steps (beside obs) (launcher_prepare p) }.

Class HandlerStartKeeps {W Hd O} `{!ApplicationHandler W Hd} (obs : W → O) : Prop :=
  handler_start_keeps : steps (beside obs) handler_start.

#[export] Hint Resolve os_create_dir_all_keeps os_read_link_keeps os_metadata_keeps
  os_read_to_string_keeps os_read_keeps os_write_keeps os_remove_dir_all_keeps os_rename_keeps
  os_spawn_keeps os_wait_keeps dm_new_keeps dm_device_create_keeps dm_table_load_keeps
  dm_device_suspend_keeps keyring_attach_keeps keyring_add_keeps load_root_cert_store_keeps
  token_from_path_keeps cert_resolver_keeps client_from_config_keeps get_image_info_keeps
  unpack_image_keeps : eff.

(** ** The launcher of images *)

Section oci_keeps.
Context {W K S Client Image Ref Store Token Resolver O : Type}.
Context `{!OsApi W, !HexApi, !HashApi, !EcdsaApi K S, !MetadataJson, !UserDb W}.
Context `{!RegistryApi W Client Image Ref Store Token Resolver}.
Context (obs : W → O) `{!OsKeeps obs, !RegistryKeeps obs}.

Lemma try_read_metadata_keeps p : steps (same obs) (try_read_metadata p).
Proof. unfold try_read_metadata, read_to_string. eff_auto. Qed.
#[local] Hint Resolve try_read_metadata_keeps : eff.

Lemma oci_install_keeps (l : OciLauncher (K := K)) p u n v : steps (same obs) (install l p u n v).
Proof.
  unfold install, create_oci_client, perform_install, move_unpack_to_img, save_metadata, mkdirp, rmrf,
    rename, write_to_file. eff_auto.
Qed.

Lemma oci_prepare_keeps p : steps (same obs) (prepare p).
Proof.
  unfold prepare, ExecConfig_try_from, parse_uid_gid, uid_from_str, gid_from_str. eff_auto.
Qed.
End oci_keeps.

(** ** Setting an application up *)

Section setup_keeps.
Context {W L Hd O : Type}.
Context `{!OsApi W, !HexApi, !HashApi, !DmApi W, !KeyringApi W, !Launcher W L Hd, !UuidApi}.
Context (obs : W → O) `{!OsKeeps obs, !DmKeeps obs, !KeyringKeeps obs, !LauncherKeeps obs}.

Lemma check_libc_error_keeps f call :
  (∀ w, obs w = obs (call w).2) → steps (same obs) (check_libc_error f call).
Proof.
  intros Hc w. unfold check_libc_error, same. specialize (Hc w). destruct (call w) as [z w'].
  by case_bool_decide.
Qed.
Lemma check_mount_keeps f a b c d : steps (same obs) (check_libc_error f (libc_mount a b c d)).
Proof. apply check_libc_error_keeps, libc_mount_keeps. Qed.
Lemma check_mknod_keeps f a b c : steps (same obs) (check_libc_error f (libc_mknod a b c)).
Proof. apply check_libc_error_keeps, libc_mknod_keeps. Qed.
#[local] Hint Resolve check_mount_keeps check_mknod_keeps : eff.
Lemma mount_keeps fs a b o : steps (same obs) (mount fs a b o).
Proof. unfold mount. eff_auto. Qed.
Lemma mount_overlayfs_keeps a b c d : steps (same obs) (mount_overlayfs a b c d).
Proof. unfold mount_overlayfs. eff_auto. Qed.
Lemma mknod_keeps p m d : steps (same obs) (mknod p m d).
Proof. unfold mknod. eff_auto. Qed.
#[local] Hint Resolve mount_keeps mount_overlayfs_keeps mknod_keeps : eff.

Lemma decrypt_partition_keeps u params k dst : steps (same obs) (decrypt_partition u params k dst).
Proof.
  unfold decrypt_partition, stat, read_device_size, readlink, read_to_string, create_device, load,
    table_load, resume, mkdirp. eff_auto.
Qed.
Lemma try_mount_keeps a b fs l : steps (same obs) (try_mount_or_format_partition a b fs l).
Proof. unfold try_mount_or_format_partition, mkdirp, formatfs. eff_auto. Qed.
Lemma derive_key_for_keeps l k i : steps (same obs) (derive_key_for l k i).
Proof. unfold derive_key_for, logon_seal. eff_auto. Qed.
Lemma new_keeps i p : steps (same obs) (AmApplication.new i p).
Proof. unfold AmApplication.new, DeviceMapper_init, KernelKeyring_new. eff_auto. Qed.

Lemma app_world_keeps {A} (c : eff W Error A) : steps (same obs) c → steps (beside obs) (on_world c).
Proof. by apply zoom_behind. Qed.
Lemma with_launcher_keeps {A} l (c : eff (L * W) Error A) :
  steps (beside obs) c → steps (beside obs) (with_launcher l c).
Proof.
  intros Hc s. specialize (Hc (l, s.2)). unfold with_launcher, same in *. by destruct (c _) as [? []].
Qed.
Lemma on_self_keeps f : steps (beside obs) (on_self f : eff (Application * W) Error unit).
Proof. by apply steps_modify. Qed.
#[local] Hint Resolve on_self_keeps : eff.

Lemma setup_keeps params l k : steps (beside obs) (setup (Hd := Hd) params l k).
Proof.
  unfold setup. eff_auto; try (apply app_world_keeps; auto using decrypt_partition_keeps,
    try_mount_keeps, derive_key_for_keeps, mount_overlayfs_keeps);
    try (apply with_launcher_keeps; apply launcher_install_keeps || apply launcher_prepare_keeps);
    unfold mkdirp; eff_auto.
Qed.
End setup_keeps.

(** ** Provisioning *)

(** The log of a measurement register: a successful extension is appended to it. *)
Class RemLog (W : Type) `{!RsiApi W} := {
  rem_log : W → list (Z * Bytes);
  measurement_extend_logged : ∀ r b w w',
    measurement_extend r b w = (Ok tt, w') → rem_log w' = rem_log w ++ [(r, b)] }.

Section provision.
Context {W K Sg L Hd : Type}.
Context `{!OsApi W, !HexApi, !HashApi, !DmApi W, !KeyringApi W, !RsiApi W, !UuidApi}.
Context `{!EcdsaApi K Sg, !LauncherTypes K L, !Launcher W L Hd, !ApplicationHandler W Hd}.
Context `{!JoinSetApi W, !Debug Error, !Debug OsError, !JoinSetLaws W, !RemLog W}.
Context `{!OsKeeps rem_log, !DmKeeps rem_log, !KeyringKeeps rem_log, !LauncherKeeps rem_log}.
Context `{!HandlerStartKeeps rem_log}.

Abbreviation M := (Manager Hd * W)%type.
Abbreviation log_kept := (beside rem_log).
Implicit Type s : M.

(** Installing does not measure. *)
Lemma world_keeps {A} (c : eff W Error A) : steps (same rem_log) c → steps log_kept (world (Hd := Hd) c).
Proof. by apply zoom_behind. Qed.

Lemma prepare_task_keeps info : steps log_kept (prepare_task (Hd := Hd) (L := L) info).
Proof.
  unfold prepare_task, make_launcher, make_keyseal. eff_auto. apply world_keeps. unfold read_to_vec. eff_auto.
Qed.

Lemma run_task_keeps t : steps log_kept (run_task (L := L) (Hd := Hd) t).
Proof.
  destruct t as [[[info dir] l] k]. unfold run_task. eff_auto.
  - apply world_keeps, new_keeps; apply _.
  - intros s. unfold on_new_app. pose proof (setup_keeps rem_log (Hd := Hd) a l k (a0, s.2)) as Hs.
    unfold same in *. by destruct (setup _ _ _ _) as [? []].
Qed.

Lemma join_task_keeps tasks i : steps log_kept (join_task (L := L) (Hd := Hd) tasks i).
Proof.
  unfold join_task. apply steps_bind; [apply _|apply steps_gets; apply _|]. intros [e|]; [eff_auto|].
  destruct (tasks !! i) as [t|]; [|eff_auto].
  apply steps_bind; [apply _|apply run_task_keeps|]. intros p. by apply steps_modify.
Qed.

(** A successful measurement logs the pieces of the measurements of the application. *)
Lemma extend_pieces_logged rem l s s' :
  for_each (λ chunk, map_err (λ e, AmBase.Manager (RemExtensionError e))
    (zoom snd_lens (measurement_extend (ExtendREM_as_u32 rem) chunk))) l s = (Ok tt, s') →
  s'.1 = s.1 ∧ rem_log s'.2 = rem_log s.2 ++ ((λ p, (ExtendREM_as_u32 rem, p)) <$> l).
Proof.
  revert s. induction l as [|c l IH]; intros s Hrun; simpl in Hrun; [run_inv; by rewrite app_nil_r|].
  apply bind_ok_inv in Hrun as ([]&s1&Hc&Hrun). apply map_err_ok, zoom_inv in Hc as (w1&Hc&->).
  apply measurement_extend_logged in Hc. apply IH in Hrun as [-> Hlog]. split; [done|].
  simpl in *. by rewrite Hlog, Hc, <-app_assoc.
Qed.

(** The pieces a register is extended by for an application. *)
Definition pieces_of (m : Manager Hd) (info : ApplicationInfo) (ps : list Bytes) : Prop :=
  ∃ a, apps m !! info_id info = Some a ∧ concat ps = app_measurements a.1 ∧ ps ≠ [] ∧
    Forall (λ p, 0 < length p ≤ MAX_MEASUR_LEN) ps.

Lemma measure_app_logged info s s' rem :
  0 < MAX_MEASUR_LEN → extend (mgr_config s.1) = Some rem → measure_app info s = (Ok tt, s') →
  s'.1 = s.1 ∧ ∃ ps, pieces_of s.1 info ps ∧
    rem_log s'.2 = rem_log s.2 ++ ((λ p, (ExtendREM_as_u32 rem, p)) <$> ps).
Proof.
  intros Hmax He Hrun. unfold measure_app, extend_rem in Hrun. run_gets Hrun.
  destruct (apps s.1 !! info_id info) as [a|] eqn:Ha; [|by run_inv]. run_gets Hrun. run_gets Hrun.
  rewrite He in Hrun. case_bool_decide as Hne; [by run_inv|].
  apply extend_pieces_logged in Hrun as [Hs Hlog]. split; [done|].
  exists (chunks MAX_MEASUR_LEN (app_measurements a.1)). split; [|done]. exists a.
  assert (concat (chunks MAX_MEASUR_LEN (app_measurements a.1)) = app_measurements a.1) as Hc
    by by apply chunks_concat.
  split_and!; [done..| |].
  - intros Hnil. rewrite Hnil in Hc. by apply Hne.
  - apply Forall_forall. intros p Hp. by eapply chunks_size.
Qed.

Lemma measure_apps_logged infos s s' rem :
  0 < MAX_MEASUR_LEN → extend (mgr_config s.1) = Some rem → for_each measure_app infos s = (Ok tt, s') →
  s'.1 = s.1 ∧ ∃ pieces, Forall2 (pieces_of s.1) infos pieces ∧
    rem_log s'.2 = rem_log s.2 ++ ((λ p, (ExtendREM_as_u32 rem, p)) <$> concat pieces).
Proof.
  intros Hmax. revert s. induction infos as [|info infos IH]; intros s He Hrun; simpl in Hrun.
  { run_inv. split; [done|]. exists []. split; [constructor|]. by rewrite app_nil_r. }
  apply bind_ok_inv in Hrun as ([]&s1&Hm&Hrun).
  apply (measure_app_logged _ _ _ rem) in Hm as (Hs1&ps&Hps&Hlog1); [|done..].
  apply IH in Hrun as (Hs&pieces&Hpieces&Hlog); [|by rewrite Hs1]. rewrite Hs1 in *.
  split; [done|]. exists (ps :: pieces). split; [by constructor|].
  simpl. by rewrite Hlog, Hlog1, fmap_app, <-app_assoc.
Qed.

(** Without a register to extend nothing is measured. *)
Lemma measure_apps_none infos s s' :
  extend (mgr_config s.1) = None → for_each measure_app infos s = (Ok tt, s') → s' = s.
Proof.
  intros He. induction infos as [|info infos IH]; intros Hrun; simpl in Hrun; [by run_inv|].
  apply bind_ok_inv in Hrun as ([]&s1&Hm&Hrun). unfold measure_app, extend_rem in Hm. run_gets Hm.
  destruct (apps s.1 !! info_id info); [|by run_inv]. run_gets Hm. run_gets Hm. rewrite He in Hm.
  run_inv. by apply IH.
Qed.

(** Starting the applications changes neither them nor the register. *)
Lemma start_all_keeps (l : list (Uuid * (Application * Hd))) s r s' :
  for_each (λ e, on_handler e.1 e.2.1 e.2.2 handler_start) l s = (r, s') →
  (∀ e, e ∈ l → (fst <$> apps s.1) !! e.1 = Some e.2.1) →
  fst <$> apps s'.1 = fst <$> apps s.1 ∧ rem_log s'.2 = rem_log s.2.
Proof.
  revert s. induction l as [|[id [a hd]] l IH]; intros s Hrun Hin; simpl in Hrun; [by run_inv|].
  pose proof (Hin _ (list_elem_of_here _ _)) as Ha. simpl in Ha.
  pose proof (handler_start_keeps (obs := rem_log) (hd, s.2)) as Hk. unfold same in Hk. simpl in Hk.
  unfold mbind, eff_bind, on_handler in Hrun. simpl in Hrun.
  destruct (handler_start (hd, s.2)) as [r0 [hd' w']]. simpl in *.
  assert (fst <$> <[id := (a, hd')]> (apps s.1) = fst <$> apps s.1) as Hsame
    by by rewrite fmap_insert, insert_id.
  destruct r0 as [[]|e]; [|by run_inv].
  apply IH in Hrun; simpl in *; [by rewrite Hk, <-Hsame|].
  intros e He. rewrite Hsame. apply Hin. by right.
Qed.

(** C8.  Provisioning installs and measures exactly what it was asked for: if it
    succeeds, nothing was installed before and the installed applications are those of
    the request.  If the configuration names a measurement register, that register has
    been extended, between the beginning and the end of the call, by the measurements
    of the installed applications and by nothing else: one application after the
    other in the order of the request (whatever the order in which their installation
    finished), each completely, in at least one piece, and in non-empty pieces of at
    most the maximal length.  If it names none, no register has been extended. *)
Theorem provision_measures_in_request_order infos s s' :
  0 < MAX_MEASUR_LEN → provision infos s = (Ok tt, s') →
  apps s.1 = ∅ ∧ dom (apps s'.1) = list_to_set (info_id <$> infos) ∧
  match extend (mgr_config s.1) with
  | Some rem => ∃ pieces, Forall2 (pieces_of s'.1) infos pieces ∧
      rem_log s'.2 = rem_log s.2 ++ ((λ p, (ExtendREM_as_u32 rem, p)) <$> concat pieces)
  | None => rem_log s'.2 = rem_log s.2
  end.
Proof.
  intros Hmax Hrun. unfold provision in Hrun. run_gets Hrun.
  case_bool_decide as Hempty; [by run_inv|]. split; [done|].
  apply bind_ok_inv in Hrun as (tasks&s1&Hprep&Hrun). run_gets Hrun.
  apply bind_ok_inv in Hrun as ([]&s2&Hjoin&Hrun).
  apply bind_ok_inv in Hrun as ([]&s3&Hmeasure&Hrun).
  apply join_all_ok in Hjoin. destruct (install_all_ok _ _ _ _ _ Hprep Hjoin Hempty) as [Hdom Hc].
  assert (rem_log s2.2 = rem_log s.2) as Hlog2.
  { apply (steps_run log_kept) in Hprep; [|apply steps_map_eff; [apply _|apply prepare_task_keeps]].
    apply (steps_run log_kept) in Hjoin; [|apply steps_for_each; [apply _|apply join_task_keeps]].
    unfold same in *. simpl in *. congruence. }
  assert (fst <$> apps s'.1 = fst <$> apps s3.1 ∧ rem_log s'.2 = rem_log s3.2) as [Happs Hlog3].
  { run_gets Hrun. destruct (autostartall _); [|by run_inv]. run_gets Hrun.
    apply start_all_keeps in Hrun; [done|]. intros [id e] He%elem_of_map_to_list. simpl.
    by rewrite lookup_fmap, He. }
  assert (s3.1 = s2.1 ∧ match extend (mgr_config s.1) with
    | Some rem => ∃ pieces, Forall2 (pieces_of s2.1) infos pieces ∧
        rem_log s3.2 = rem_log s2.2 ++ ((λ p, (ExtendREM_as_u32 rem, p)) <$> concat pieces)
    | None => rem_log s3.2 = rem_log s2.2 end) as [Hs3 Hpieces].
  { rewrite <-Hc. destruct (extend (mgr_config s2.1)) as [rem|] eqn:He.
    - by apply (measure_apps_logged _ _ _ rem) in Hmeasure.
    - by apply measure_apps_none in Hmeasure as ->. }
  rewrite Hs3 in Happs. split.
  { by rewrite <-Hdom, <-(dom_fmap_L fst (apps s'.1)), Happs, dom_fmap_L. }
  destruct (extend (mgr_config s.1)) as [rem|]; [|congruence].
  destruct Hpieces as (pieces&Hp&Hlog). exists pieces. split; [|congruence].
  eapply Forall2_impl; [exact Hp|]. intros info ps (a&Ha&Hps).
  apply (f_equal (λ m : gmap Uuid Application, m !! info_id info)) in Happs.
  rewrite !lookup_fmap, Ha in Happs. simpl in Happs. apply fmap_Some in Happs as (a'&Ha'&Heq).
  exists a'. by rewrite <-Heq.
Qed.

End provision.
