(* ===== verification/AmMain.v ===== *)
(** * Start-up of the application manager

    [realm/app-manager/src/main.rs] with [cli.rs], [Config::read_from_file] of
    [config.rs] and [util/token.rs].  [clap] and [serde_yaml] are foreign. *)

From S2P Require Import Prelude WardenRealm JsonFramed AmBase AmOs DmCrypt KeySealing AppHandler.
From S2P Require Import OciLauncher AmApplication AmManager.

(** ** cli.rs *)

(** [log::Level]. *)
Inductive Level := LevelError | LevelWarn | LevelInfo | LevelDebug | LevelTrace.

Record Args := mkArgs { arg_config : PathBuf; arg_log_level : Level }.

Definition Args_default : Args := mkArgs "/etc/app-manager/config.yml" LevelInfo.

(** [serde_yaml::from_str] on a [Config], or the text of its error. *)
Class ConfigYaml := config_from_str : string → result Config string.

(** ** util/token.rs *)

Inductive RsiTokenResolverError := RsiCallFailed (e : Errno) | InvalidChallengeLength.

Definition RsiTokenResolverError_to_string (e : RsiTokenResolverError) : string :=
  match e with
  | RsiCallFailed _ => "Failed to read attestation token from RMM"
  | InvalidChallengeLength => "Challenge must be 64 bytes long"
  end.

(** [RsiTokenResolver::resolve]. *)
Definition resolve {W} `{RsiApi W} (challenge : Bytes) : eff W RsiTokenResolverError Bytes :=
  if bool_decide (length challenge = 64) then map_err RsiCallFailed (attestation_token challenge)
  else throw InvalidChallengeLength.

(** ** config.rs and main.rs *)

Definition read_from_file {W} `{OsApi W, ConfigYaml} (path : PathBuf) : eff W Error Config :=
  content ← read_to_string path;
  try_r (map_err_r InvalidConfigFile (config_from_str content)).

Section am_main.
Context {W K Sg L Hd : Type}.
Context `{!OsApi W, !HexApi, !HashApi, !DmApi W, !KeyringApi W, !RsiApi W, !UuidApi, !ConfigYaml}.
Context `{!EcdsaApi K Sg, !LauncherTypes K L, !Launcher W L Hd, !ApplicationHandler W Hd}.
Context `{!JoinSetApi W, !Debug Error, !Debug OsError}.

(** [manager.handle_events()]. *)
Definition run_events (recv_error : JsonFramedError → string) (events : list ManagerEvent)
    (manager : Manager Hd) : eff W Error (EventLoop * Manager Hd) := λ w,
  let '(loop, (manager, w)) := handle_events recv_error events (manager, w) in
  (Ok (loop, manager), w).

(** [main], with the events its loop receives: where the loop stands after them,
    or the error that ended the program before the loop. *)
Definition main (vsock_connect : Z → eff W IoError unit) (recv_error : JsonFramedError → string)
    (args : Args) (events : list ManagerEvent) : eff W Error (EventLoop * Manager Hd) :=
  config ← read_from_file (arg_config args);
  manager ← AmManager.new vsock_connect config;
  run_events recv_error events manager.

(** ** The configuration is never changed *)

Definition same_config : Manager Hd * W → Manager Hd * W → Prop := same (λ s, mgr_config s.1).
#[local] Instance same_config_preorder : PreOrder same_config.
Proof. apply same_preorder. Qed.

Lemma world_same_config {A} (c : eff W Error A) : steps same_config (world c).
Proof. by apply steps_zoom. Qed.
Lemma on_handler_same_config {E A} id app (hd : Hd) (c : eff (Hd * W) E A) :
  steps same_config (on_handler id app hd c).
Proof. intros s. unfold on_handler. by destruct (c _) as [? []]. Qed.
Lemma shutdown_app_same_config e : steps same_config (shutdown_app e).
Proof.
  destruct e as [id [app hd]]. intros s. unfold shutdown_app.
  destruct (handler_stop _) as [? []]. by destruct (cleanup _) as [? []].
Qed.
Lemma prepare_task_same_config info : steps same_config (prepare_task info : eff _ _ (_ * _ * L * _)).
Proof. unfold prepare_task, make_launcher, make_keyseal. eff_auto; apply world_same_config. Qed.
Lemma run_task_same_config t : steps same_config (run_task (L := L) t).
Proof.
  destruct t as [[[info dir] l] k]. unfold run_task. eff_auto; [apply world_same_config|].
  intros s. unfold on_new_app. by destruct (setup _ _ _ _) as [? []].
Qed.
Lemma join_task_same_config tasks i : steps same_config (join_task (L := L) tasks i).
Proof.
  unfold join_task. apply steps_bind; [apply _|apply steps_gets; apply _|]. intros [e|]; [eff_auto|].
  destruct (tasks !! i) as [t|]; [|eff_auto].
  apply steps_bind; [apply _|apply run_task_same_config|]. intros p. by apply steps_modify.
Qed.
Lemma join_tasks_same_config tasks order :
  steps same_config (join_all (dropped_task tasks) (join_task (L := L) tasks) order).
Proof.
  apply steps_join_all; [apply _|apply join_task_same_config|]. intros i s. unfold dropped_task.
  destruct (tasks !! i); [|done]. by destruct (join_ran _ _).
Qed.
Lemma with_handler_same_config {A} id (c : eff (Hd * W) Error A) k : steps same_config (with_handler id c k).
Proof. unfold with_handler. eff_auto. apply on_handler_same_config. Qed.
Lemma perform_reboot_same_config action : steps same_config (perform_reboot action).
Proof.
  unfold perform_reboot, shutdown_all_apps. eff_auto; [apply shutdown_app_same_config|].
  intros s. unfold power_action. by destruct (reboot action s.2).
Qed.

(** Every step keeps the fact that the configuration does not need RSI. *)
Definition no_rsi (s : Manager Hd * W) : Prop := requires_rsi (mgr_config s.1) = false.

Lemma no_rsi_preserved {E A} (c : eff (Manager Hd * W) E A) : steps same_config c → preserves no_rsi c.
Proof. intros Hc s Hs. unfold no_rsi. by rewrite <-(Hc s). Qed.

End am_main.

#[export] Hint Resolve on_handler_same_config prepare_task_same_config join_task_same_config
  with_handler_same_config perform_reboot_same_config world_same_config : eff.

(** ** The RSI is only used with its module loaded *)

(** What a configuration that does not need RSI excludes. *)
Lemma requires_rsi_false c :
  requires_rsi c = false →
  extend c = None ∧ (∀ ca, launcher c ≠ Oci (RaTLS ca Rsi)) ∧
  ∀ flags svn, keysealing c ≠ HkdfSha256 (RsiSealingKey flags svn).
Proof.
  unfold requires_rsi. intros Hc. split_and!; repeat case_match; naive_solver.
Qed.

Section two_rsi.
Context {W K Sg L Hd : Type}.
Context `{!OsApi W, !HexApi, !HashApi, !DmApi W, !KeyringApi W, !UuidApi, !ConfigYaml}.
Context `{!EcdsaApi K Sg, !LauncherTypes K L, !Launcher W L Hd, !ApplicationHandler W Hd}.
Context `{!JoinSetApi W, !Debug Error, !Debug OsError}.
(** Two behaviours of the realm services interface. *)
Context (R1 R2 : RsiApi W).

Lemma measure_app_agree info :
  agree (no_rsi (Hd := Hd)) (measure_app (RsiApi0 := R1) info) (measure_app (RsiApi0 := R2) info).
Proof.
  apply agree_bind_l; [apply preserves_gets|]. intros found.
  apply agree_bind_l; [apply preserves_try_r|]. intros a s Hs.
  unfold extend_rem, mbind, eff_bind, gets. destruct (requires_rsi_false _ Hs) as [-> _]. by split.
Qed.

Lemma provision_agree infos :
  agree (no_rsi (Hd := Hd)) (provision (RsiApi0 := R1) infos) (provision (RsiApi0 := R2) infos).
Proof.
  unfold provision. apply agree_bind_l; [apply preserves_gets|]. intros [].
  { apply agree_refl, preserves_throw. }
  apply agree_bind_l; [apply no_rsi_preserved; eff_auto|]. intros tasks.
  apply agree_bind_l; [apply preserves_gets|]. intros order.
  apply agree_bind_l; [apply no_rsi_preserved, join_tasks_same_config|]. intros [].
  apply agree_bind; [apply agree_for_each, measure_app_agree|]. intros [].
  apply agree_refl, no_rsi_preserved. eff_auto.
Qed.

Lemma read_attestation_token_agree challenge :
  agree (no_rsi (Hd := Hd)) (read_attestation_token (RsiApi0 := R1) challenge)
    (read_attestation_token (RsiApi0 := R2) challenge).
Proof.
  intros s Hs. unfold read_attestation_token, mbind, eff_bind, gets.
  destruct (requires_rsi_false _ Hs) as (_&Hl&_).
  destruct (launcher _) as [|[| |ca []]] eqn:Hla; try done; [|by destruct (Hl ca)].
  split; [done|]. apply no_rsi_preserved; [apply world_same_config|done].
Qed.

Lemma handle_request_agree request :
  agree (no_rsi (Hd := Hd)) (handle_request (RsiApi0 := R1) request)
    (handle_request (RsiApi0 := R2) request).
Proof.
  destruct request; unfold handle_request.
  1: apply agree_bind; [apply agree_attempt, provision_agree|intros r].
  2: apply agree_bind; [apply agree_attempt, read_attestation_token_agree|intros r].
  all: apply agree_refl, no_rsi_preserved; eff_auto.
Qed.

Lemma handle_events_agree recv_error events (s : Manager Hd * W) :
  no_rsi s →
  handle_events (RsiApi0 := R1) recv_error events s = handle_events (RsiApi0 := R2) recv_error events s.
Proof.
  revert s. induction events as [|ev events IH]; intros s Hs; simpl; [done|].
  destruct (ev_received ev) as [request|e]; simpl.
  - unfold handle_received_request. destruct (handle_request_agree request s Hs) as [Heq HI].
    rewrite <-Heq. destruct (handle_request request s) as [[[r|]|e] s1]; [|done|];
      (destruct (ev_sent ev); [by apply IH|done]).
  - destruct (ev_sent ev); [by apply IH|done].
Qed.

(** C38.  The realm services interface is only used with its kernel module
    loaded.  A manager whose configuration does not ask for the module
    ([requires_rsi]) never calls the interface: whatever the interface would do,
    the program behaves the same on every sequence of requests.  One whose
    configuration does ask for it reaches its event loop only after the module
    has been inserted. *)
Theorem rsi_used_only_when_loaded vsock_connect recv_error args events w config w1 :
  read_from_file (arg_config args) w = (Ok config, w1) →
  if requires_rsi config
  then ∀ x w', main (Hd := Hd) (RsiApi0 := R1) vsock_connect recv_error args events w = (Ok x, w') →
       ∃ w2, insmod RSI_KO "" w1 = (Ok tt, w2)
  else main (Hd := Hd) (RsiApi0 := R1) vsock_connect recv_error args events w =
       main (Hd := Hd) (RsiApi0 := R2) vsock_connect recv_error args events w.
Proof.
  intros Hconf. unfold main. rewrite !(bind_ok _ _ _ _ _ Hconf).
  destruct (requires_rsi config) eqn:Hr.
  - intros x w' Hrun. apply bind_ok_inv in Hrun as (m&w2&Hnew&_). unfold AmManager.new in Hnew.
    rewrite Hr in Hnew. apply bind_ok_inv in Hnew as ([]&w3&Hins&_). eauto.
  - destruct (requires_rsi_false _ Hr) as (_&_&Hk).
    assert (AmManager.new (Hd := Hd) (RsiApi0 := R1) vsock_connect config w1 =
      AmManager.new (RsiApi0 := R2) vsock_connect config w1) as Hnew.
    { unfold AmManager.new. destruct (keysealing config) as [|[|flags svn]] eqn:Hks;
        [done..|by destruct (Hk flags svn)]. }
    unfold mbind, eff_bind. rewrite <-Hnew.
    destruct (AmManager.new _ _ _) as [[m|e] w2] eqn:Hm; [|done]. unfold run_events.
    rewrite (handle_events_agree _ _ (m, w2)); [done|]. unfold no_rsi. simpl.
    unfold AmManager.new in Hm. do 3 apply bind_ok_inv in Hm as (?&?&_&Hm). by run_inv.
Qed.

End two_rsi.

(** ** Attestation tokens

    The registry client and the daemon get their tokens from the same call:
    [RsiTokenResolver] and the request for a token agree on every challenge. *)
Lemma resolve_is_token_request {W Hd} `{!OsApi W, !RsiApi W} challenge (m : Manager Hd) w ca :
  launcher (mgr_config m) = Oci (RaTLS ca Rsi) →
  read_attestation_token challenge (m, w) =
    (match (resolve challenge w).1 with
     | Ok token => Ok token
     | Err (RsiCallFailed e) => Err (AmBase.Manager (RsiTokenFetch e))
     | Err InvalidChallengeLength => Err (AmBase.Manager InvalidChallengeSize)
     end, (m, (resolve challenge w).2)).
Proof.
  intros Hl. unfold read_attestation_token, resolve, mbind, eff_bind, gets, zoom, map_err. simpl.
  rewrite Hl. destruct (bool_decide _); [|done]. simpl.
  by destruct (attestation_token challenge w) as [[]].
Qed.
