(* ===== verification/VSockServer.v ===== *)
(** * The daemon's vsock server

    [warden_daemon/src/socket/vsocket_server.rs]: realms connect to one
    listening socket; the server hands each connection to the realm client that
    waits for it, found by the realm's context identifier.  A waiting client is
    one end of a [tokio] one-shot channel. *)

From S2P Require Import Prelude WardenRealm JsonFramed RealmClientHandler.

Record VSockServerConfig := mkVSockServerConfig { config_cid : Z; config_port : Z }.

Inductive VSockServerError := ChannelFail | UnexpectedConnection | SocketFail (e : IoError).

(** A stream accepted from the peer with context identifier [peer_cid]. *)
Record VsockStream := mkVsockStream { peer_cid : Z; stream_no : N }.

(** A one-shot channel: nothing sent yet, a connection delivered, or one of its
    ends dropped before. *)
Inductive ChannelState := Empty | Delivered (stream : VsockStream) | TxDropped | RxDropped.

(** The channel remembers which realm it was created for. *)
Record Channel := mkChannel { acquired_for : Z; content : ChannelState }.

(** One end of an empty channel is dropped. *)
Definition drop_end (st : ChannelState) (c : Channel) : Channel :=
  match content c with Empty => mkChannel (acquired_for c) st | _ => c end.

Abbreviation ChannelId := N (only parsing).

Record VSockServer := mkVSockServer {
  config : VSockServerConfig;
  waiting : gmap Z ChannelId;
  channels : gmap ChannelId Channel }.

Definition new (c : VSockServerConfig) : VSockServer := mkVSockServer c ∅ ∅.

(** [RealmConnector::acquire_realm_sender]: inserting replaces (and drops) the
    sender of an earlier wait for the same realm. *)
Definition acquire_realm_sender (cid : Z) (s : VSockServer) : ChannelId * VSockServer :=
  let ch := fresh (dom (channels s)) in
  let chans := match waiting s !! cid with
               | Some old => alter (drop_end TxDropped) old (channels s)
               | None => channels s
               end in
  (ch, mkVSockServer (config s) (<[cid := ch]> (waiting s)) (<[ch := mkChannel cid Empty]> chans)).

(** [VSockServer::handle_accept]. *)
Definition handle_accept (stream : VsockStream) : eff VSockServer VSockServerError unit := λ s,
  match waiting s !! peer_cid stream with
  | Some tx =>
      let s' := mkVSockServer (config s) (delete (peer_cid stream) (waiting s)) (channels s) in
      match channels s !! tx with
      | Some (mkChannel cid Empty) =>
          (Ok tt, mkVSockServer (config s) (waiting s')
                    (<[tx := mkChannel cid (Delivered stream)]> (channels s)))
      | _ => (Err ChannelFail, s')
      end
  | None => (Err UnexpectedConnection, s)
  end.

(** The receiving end is dropped: the waiting client has timed out or been
    cancelled.  The entry of [waiting] stays. *)
Definition drop_receiver (ch : ChannelId) (s : VSockServer) : VSockServer :=
  mkVSockServer (config s) (waiting s)
    (alter (drop_end RxDropped) ch (channels s)).

(** [VSockServer::listen]: the events of its [select!], interleaved with what
    the realm clients do to the shared server. *)
Inductive ServerEvent :=
| Accepted (stream : VsockStream)
| AcceptFailed (e : IoError)
| Acquire (cid : Z)
| ReceiverDropped (ch : ChannelId)
| TokenCancelled.

Fixpoint listen (events : list ServerEvent) (s : VSockServer)
    : option (result unit VSockServerError) * VSockServer :=
  match events with
  | [] => (None, s)
  | Accepted stream :: events =>
      match handle_accept stream s with
      | (Ok _, s') => listen events s'
      | (Err e, s') => (Some (Err e), s')
      end
  | AcceptFailed e :: _ => (Some (Err (SocketFail e)), s)
  | Acquire cid :: events => listen events (acquire_realm_sender cid s).2
  | ReceiverDropped ch :: events => listen events (drop_receiver ch s)
  | TokenCancelled :: _ => (Some (Ok tt), s)
  end.

(** ** [VSockClient] *)

Section client.
Context {W T : Type} `{!Framed W T WardenRealm.Response WardenRealm.Request}.

Definition client_send (request : WardenRealm.Request) : eff (T * W) RealmSenderError unit :=
  map_err SendFail (json_send request).

Definition recv_error (err : JsonFramedError) : RealmSenderError :=
  match err with
  | SerdeReadError e =>
      if bool_decide (io_kind e = ConnectionReset) then Disconnection else ReceiveFail err
  | err => ReceiveFail err
  end.

(** [receive_response]: the timer may win the [select!]. *)
Definition client_receive_response (elapsed : bool)
    : eff (T * W) RealmSenderError WardenRealm.Response :=
  if elapsed then throw Timeout else map_err recv_error json_recv.

End client.

(** ** Properties *)

(** Every channel serves the realm it was acquired for. *)
Record routed (s : VSockServer) : Prop := {
  routed_waiting : ∀ cid ch, waiting s !! cid = Some ch →
    ∃ c, channels s !! ch = Some c ∧ acquired_for c = cid;
  routed_delivered : ∀ ch c stream, channels s !! ch = Some c → content c = Delivered stream →
    peer_cid stream = acquired_for c }.

(** Dropping an end of a channel changes neither its realm nor a delivery. *)
Lemma alter_drop_end st ch (chans : gmap ChannelId Channel) c0 c :
  (∀ stream, st ≠ Delivered stream) →
  alter (drop_end st) ch chans !! c0 = Some c →
  ∃ c', chans !! c0 = Some c' ∧ acquired_for c = acquired_for c' ∧
    (∀ stream, content c = Delivered stream → content c' = Delivered stream).
Proof.
  intros Hst [[<- (x&Hx&->)]|[_ ?]]%lookup_alter_Some; [|by exists c].
  exists x. split; [done|]. unfold drop_end. destruct x as [a []]; simpl; naive_solver.
Qed.

Lemma alter_drop_end_back st ch (chans : gmap ChannelId Channel) c0 c' :
  chans !! c0 = Some c' →
  ∃ c, alter (drop_end st) ch chans !! c0 = Some c ∧ acquired_for c = acquired_for c'.
Proof.
  intros Hc. destruct (decide (ch = c0)) as [->|Hne].
  - rewrite lookup_alter_eq, Hc. simpl. eexists. split; [done|]. unfold drop_end. by case_match.
  - rewrite lookup_alter_ne by done. eauto.
Qed.

Lemma drop_routed st ch (s : VSockServer) :
  (∀ stream, st ≠ Delivered stream) → routed s →
  routed (mkVSockServer (config s) (waiting s) (alter (drop_end st) ch (channels s))).
Proof.
  intros Hst [Hw Hd]. split; simpl.
  - intros cid c Hc. apply Hw in Hc as (c'&Hc'&<-). by apply alter_drop_end_back.
  - intros c0 c stream Hc Hs. apply alter_drop_end in Hc as (c'&Hc'&->&Hk); [|done].
    eapply Hd; [exact Hc'|by apply Hk].
Qed.

Lemma handle_accept_routed stream s : routed s → routed (handle_accept stream s).2.
Proof.
  intros [Hw Hd]. unfold handle_accept.
  destruct (waiting s !! peer_cid stream) as [tx|] eqn:Htx; [|done].
  destruct (Hw _ _ Htx) as ([cid st]&Hch&Hcid). simpl in Hcid. rewrite Hch.
  destruct st; simpl; split; simpl; try (intros c0 ch [_ ?]%lookup_delete_Some; by eauto); try done.
  - intros c0 ch [Hne Hc]%lookup_delete_Some. destruct (Hw _ _ Hc) as (c&Hc'&<-).
    exists c. split; [|done]. rewrite lookup_insert_ne; [done|]. intros <-. by simplify_eq/=.
  - intros ch c st [[<- <-]|[_ ?]]%lookup_insert_Some; [|by eapply Hd]. simpl. by intros [= <-].
Qed.

Lemma acquire_routed cid s : routed s → routed (acquire_realm_sender cid s).2.
Proof.
  intros Hr. unfold acquire_realm_sender. set (ch := fresh (dom (channels s))).
  set (chans := match waiting s !! cid with Some _ => _ | None => _ end).
  assert (routed (mkVSockServer (config s) (waiting s) chans)) as [Hw Hd].
  { subst chans. case_match; [by apply drop_routed|by destruct s]. }
  assert (chans !! ch = None) as Hfresh.
  { apply not_elem_of_dom. subst chans ch. case_match; [rewrite dom_alter_L|]; apply is_fresh. }
  simpl in *. split; simpl.
  - intros cid' c [[<- <-]|[Hne Hc]]%lookup_insert_Some.
    { eexists. by rewrite lookup_insert_eq. }
    destruct (Hw _ _ Hc) as (x&Hx&?). exists x. split; [|done].
    rewrite lookup_insert_ne; [done|]. intros <-. congruence.
  - intros c0 c st [[<- <-]|[_ ?]]%lookup_insert_Some; [done|by eapply Hd].
Qed.

Lemma listen_routed events s : routed s → routed (listen events s).2.
Proof.
  revert s. induction events as [|[st|e|cid|ch|] events IH]; intros s Hr; simpl; try done.
  - pose proof (handle_accept_routed st _ Hr). by destruct (handle_accept st s) as [[[]|] s']; [apply IH|].
  - by apply IH, acquire_routed.
  - by apply IH, drop_routed.
Qed.

(** C30.  Connections are never mixed up: whatever the order in which realms
    connect, clients wait, time out and wait again, a realm client only ever
    receives a connection whose peer is the realm it waited for. *)
Theorem connections_reach_their_realm c events ch chan stream :
  channels (listen events (new c)).2 !! ch = Some chan →
  content chan = Delivered stream → peer_cid stream = acquired_for chan.
Proof. apply routed_delivered, listen_routed. split; intros *; simpl; by rewrite lookup_empty. Qed.

(** A realm that connects after its client has given up waiting, or one
    that nobody waits for, ends the server (and with it the daemon): the entry
    of a wait that timed out is never removed. *)
Theorem late_connection_ends_server cid stream rest s :
  peer_cid stream = cid →
  let ch := (acquire_realm_sender cid s).1 in
  (listen (Acquire cid :: ReceiverDropped ch :: Accepted stream :: rest) s).1 =
    Some (Err ChannelFail) ∧
  (waiting s !! cid = None →
   listen (Accepted stream :: rest) s = (Some (Err UnexpectedConnection), s)).
Proof.
  intros Hp ch. split.
  - subst ch. simpl. unfold handle_accept. simpl. rewrite Hp, lookup_insert_eq.
    rewrite lookup_alter_eq, lookup_insert_eq. done.
  - intros Hw. simpl. unfold handle_accept. by rewrite Hp, Hw.
Qed.
