(* ===== verification/RealmProtocol.v ===== *)
(** * Warden daemon and application manager together

    The daemon's realm client ([RealmClientHandler]) talking to the application
    manager inside the realm ([AmManager]) through the daemon's end of the vsock
    connection ([VSockClient] of [VSockServer]).  The transport delivers every message;
    how it reports a machine that is gone, and whether an answer comes before the
    daemon's timer, is up to the environment. *)

From S2P Require Import Prelude Managers WardenRealm JsonFramed ClientHelper RealmClientHandler.
From S2P Require Import AmBase AmOs DmCrypt KeySealing AppHandler OciLauncher AmApplication AmManager.
From S2P Require Import VSockServer AmManager RealmClientHandler.

(** The daemon's end of the connection: the responses not read yet, and whether the
    machine at the other end is up. *)
Record Connection := mkConnection { pending : list WardenRealm.Response; peer_up : bool }.

Section protocol.
Context {W K Sg L Hd Rx : Type}.
Context `{!OsApi W, !HexApi, !HashApi, !DmApi W, !KeyringApi W, !RsiApi W, !UuidApi}.
Context `{!EcdsaApi K Sg, !LauncherTypes K L, !Launcher W L Hd, !ApplicationHandler W Hd}.
Context `{!JoinSetApi W, !Debug AmBase.Error, !Debug OsError}.
Context `{!Debug RealmSenderError, !Debug ProtocolError, !Debug WardenRealm.Response}.

Abbreviation M := (Manager Hd * W)%type.
Abbreviation Client := (RealmClientHandler Connection * M)%type.

(** What reading from a machine that is gone returns: an error, or the end of the
    stream; and whether the timer of [receive_response] runs out before the answer
    that the manager gives is there. *)
Context (gone : M → option IoError) (late : Z → Connection * M → bool).

(** The framed stream: the manager handles a request when it arrives. *)
#[local] Instance realm_stream : Framed M Connection WardenRealm.Response WardenRealm.Request := {
  frame_send request := λ x,
    if peer_up x.1 then
      match handle_received_request request x.2 with
      | (Some response, m) => (Ok tt, (mkConnection (pending x.1 ++ [response]) true, m))
      | (None, m) => (Ok tt, (mkConnection (pending x.1) false, m))
      end
    else (Err (default (mkIoError OtherKind "Broken pipe") (gone x.2)), x);
  frame_try_next := λ x,
    match pending x.1 with
    | response :: rest => (Ok (Some response), (mkConnection rest (peer_up x.1), x.2))
    | [] => (match gone x.2 with Some e => Err e | None => Ok None end, x)
    end }.

(** Nothing comes from a machine that is up and has answered everything. *)
Definition timer_wins (timeout : Z) (x : Connection * M) : bool :=
  (peer_up x.1 && bool_decide (pending x.1 = [])) || late timeout x.

(** [VSockClient] on this stream. *)
#[local] Instance connection_sender : RealmSender M Connection := {
  sender_send := client_send;
  receive_response timeout := λ x, client_receive_response (timer_wins timeout x) x }.

(** The client with an idle connection to the manager. *)
Definition linked (wt rt : Z) (m : M) : Client :=
  (mkRealmClientHandler wt rt (Some (mkConnection [] true)), m).

(** Every answer comes in time. *)
Definition punctual : Prop := ∀ timeout x, late timeout x = false.

(** What a command for which the daemon expects [Success] returns. *)
Definition success_result (r : result (option WardenRealm.Response) ProtocolError)
    : result unit RealmClientError :=
  match r with
  | Ok _ => Ok tt
  | Err e => Err (RealmDaemonError (fmt_debug e))
  end.

(** Sending a request makes the manager handle it. *)
Lemma send_linked wt rt m req o m' :
  handle_received_request req m = (o, m') →
  send_command req (linked wt rt m) =
    (Ok tt, (mkRealmClientHandler wt rt
               (Some (mkConnection (option_list o) (bool_decide (is_Some o)))), m')).
Proof.
  intros Hreq. unfold send_command, acquire_realm_sender, with_state, linked, on_sender, map_err.
  simpl. erewrite bind_ok by reflexivity. simpl. unfold client_send, json_send, map_err. simpl.
  rewrite Hreq. by destruct o.
Qed.

(** Reading from the connection. *)
Lemma read_linked wt rt c m t :
  read_response t (mkRealmClientHandler wt rt (Some c), m) =
  (let '(r, (c', m')) := client_receive_response (timer_wins t (c, m)) (c, m) in
   (map_err_r receive_error r, (mkRealmClientHandler wt rt (Some c'), m'))).
Proof.
  unfold read_response, acquire_realm_sender, with_state, map_err, on_sender.
  erewrite bind_ok by reflexivity. simpl. by destruct (client_receive_response _ _) as [? []].
Qed.

Lemma read_gone c m :
  pending c = [] →
  client_receive_response false (c, m) =
  (Err (match gone m with Some e => recv_error (SerdeReadError e) | None => ReceiveFail StreamIsClosed end), (c, m)).
Proof.
  intros Hc. unfold client_receive_response, json_recv, mbind, eff_bind, map_err. simpl. rewrite Hc.
  by destruct (gone m).
Qed.

(** One request and its response, when the machine stays up. *)
Lemma exchange {A} wt rt m req resp m' (t : Client → Z) (k : WardenRealm.Response → eff Client RealmClientError A) :
  punctual → handle_received_request req m = (Some resp, m') →
  (send_command req;; t ← gets t; r ← read_response t; k r) (linked wt rt m) = k resp (linked wt rt m').
Proof.
  intros Ht Hreq. rewrite (bind_ok _ _ _ _ _ (send_linked _ _ _ _ _ _ Hreq)).
  erewrite bind_ok by reflexivity. apply (bind_ok (read_response _) k). rewrite read_linked. unfold timer_wins. by rewrite Ht.
Qed.

(** The response to a request that does not end the machine. *)
Definition response_to (r : result (option WardenRealm.Response) ProtocolError)
    : option WardenRealm.Response :=
  match r with Ok o => o | Err e => Some (WardenRealm.Error e) end.

Lemma received_run req m :
  handle_received_request req m = (response_to (handle_request req m).1, (handle_request req m).2).
Proof. unfold handle_received_request. by destruct (handle_request req m) as [[]]. Qed.

(** Only power actions end the machine. *)
Lemma stays_up req m r m' :
  handle_request req m = (r, m') → req ≠ Reboot → req ≠ Shutdown → r ≠ Ok None.
Proof.
  intros Hrun Hr Hs ->. destruct req; simpl in Hrun; try done;
    apply bind_ok_inv in Hrun as (x&?&_&Hrun); try (case_match; by run_inv); try by run_inv.
Qed.

(** A command answered by [Success]. *)
Definition wants_success (req : WardenRealm.Request) : bool :=
  match req with ProvisionInfo _ | StartApp _ | StopApp _ | KillApp _ => true | _ => false end.

Lemma success_exchange wt rt m req (t : Client → Z) :
  punctual → wants_success req = true →
  (send_command req;; t ← gets t; r ← read_response t; try_r (handle_success_command r)) (linked wt rt m) =
  (success_result (handle_request req m).1, linked wt rt (handle_request req m).2).
Proof.
  intros Ht Hreq. destruct (handle_request req m) as [r m'] eqn:Hrun.
  pose proof (received_run req m) as Hrec. rewrite Hrun in Hrec. simpl in Hrec.
  assert (r ≠ Ok None) as Hup by (eapply stays_up; [exact Hrun|by destruct req..]).
  destruct r as [[resp|]|e]; [|done|]; rewrite (exchange _ _ _ _ _ _ _ _ Ht Hrec); [|done].
  apply handle_request_answers in Hrun. by destruct req; simpl in *; subst.
Qed.

(** Stopping falls back to killing: the daemon's call succeeds exactly when
    the manager stopped the application or, after refusing to stop it, killed
    it; the error is then the one of the kill. *)
Lemma stop_falls_back_to_kill wt rt m id :
  punctual →
  let stopped := handle_request (StopApp id) m in
  let killed := handle_request (KillApp id) stopped.2 in
  stop_application id (linked wt rt m) =
  match stopped.1 with
  | Ok _ => (Ok tt, linked wt rt stopped.2)
  | Err _ => (success_result killed.1, linked wt rt killed.2)
  end.
Proof.
  intros Ht stopped killed.
  destruct (handle_request (StopApp id) m) as [r m'] eqn:Hrun.
  pose proof (received_run (StopApp id) m) as Hrec. rewrite Hrun in Hrec. simpl in Hrec.
  assert (r ≠ Ok None) as Hup by (eapply stays_up; [exact Hrun|done..]).
  subst stopped killed. cbn [fst snd].
  pose (k := λ r0, if is_err (handle_success_command r0) then kill_application id
                   else mret tt : eff Client RealmClientError unit).
  destruct r as [[resp|]|e]; [|done|];
    (etrans; [exact (exchange wt rt m (StopApp id) _ m' (λ s, response_timeout s.1) k Ht Hrec)|]).
  - apply handle_request_answers in Hrun. simpl in Hrun. by subst.
  - exact (success_exchange wt rt m' (KillApp id) (λ s, response_timeout s.1) Ht eq_refl).
Qed.

(** C28.  Starting, killing, provisioning and stopping, end to end: over a
    working connection whose answers come before the daemon's timer runs out, the
    daemon's call returns success exactly when the
    application manager has carried the request out, and otherwise the manager's
    error; a refused stop is followed by a kill, whose outcome is then returned.
    The connection stays usable for the next call, and no response is ever
    found invalid. *)
Theorem client_sees_manager_result wt rt m :
  punctual →
  (∀ id, start_application id (linked wt rt m) =
     (success_result (handle_request (StartApp id) m).1,
      linked wt rt (handle_request (StartApp id) m).2)) ∧
  (∀ id, kill_application id (linked wt rt m) =
     (success_result (handle_request (KillApp id) m).1,
      linked wt rt (handle_request (KillApp id) m).2)) ∧
  (∀ config, provision_applications config (linked wt rt m) =
     (success_result (handle_request (ProvisionInfo (provisioning_into config)) m).1,
      linked wt rt (handle_request (ProvisionInfo (provisioning_into config)) m).2)) ∧
  (∀ id, stop_application id (linked wt rt m) =
     match handle_request (StopApp id) m with
     | (Ok _, m') => (Ok tt, linked wt rt m')
     | (Err _, m') => (success_result (handle_request (KillApp id) m').1,
                       linked wt rt (handle_request (KillApp id) m').2)
     end).
Proof.
  intros Ht. split_and!.
  - intros id. exact (success_exchange wt rt m (StartApp id) (λ s, response_timeout s.1) Ht eq_refl).
  - intros id. exact (success_exchange wt rt m (KillApp id) (λ s, response_timeout s.1) Ht eq_refl).
  - intros config.
    exact (success_exchange wt rt m (ProvisionInfo (provisioning_into config))
      (λ s, connection_wait_time s.1) Ht eq_refl).
  - intros id. rewrite stop_falls_back_to_kill by done.
    by destruct (handle_request (StopApp id) m) as [[]].
Qed.

(** The client after a request to which there is no answer yet. *)
Definition unanswered (wt rt : Z) (o : option WardenRealm.Response) (m : M) : Client :=
  (mkRealmClientHandler wt rt (Some (mkConnection (option_list o) (bool_decide (is_Some o)))), m).

(** C29.  Shutting the realm down, end to end and on every branch.  The manager stops
    the applications and powers the machine off, or answers with the error of the
    power action.  The daemon's call succeeds, and gives up the connection, exactly
    when the machine went down and the transport reported a connection reset before
    the timer ran out.  When the machine went down in any other way of seeing it (the
    stream just ends, another error, or the timer runs out first), the call fails and
    the daemon keeps its end of the dead connection.  When the machine stays up, the
    call reports the manager's error and the connection stays usable, unless the timer
    runs out first: then the answer stays in the connection. *)
Theorem shutdown_realm_outcomes wt rt m :
  let '(r, m') := handle_request Shutdown m in
  let o := response_to r in
  shutdown_realm (linked wt rt m) =
  if late rt (mkConnection (option_list o) (bool_decide (is_Some o)), m')
  then (Err (CommunicationFail (fmt_debug Timeout)), unanswered wt rt o m')
  else match r with
       | Err e => (Err (RealmDaemonError (fmt_debug e)), linked wt rt m')
       | Ok _ =>
           match gone m' with
           | Some e =>
               if bool_decide (io_kind e = ConnectionReset)
               then (Ok tt, (mkRealmClientHandler wt rt None, m'))
               else (Err (CommunicationFail (fmt_debug (ReceiveFail (SerdeReadError e)))),
                     unanswered wt rt o m')
           | None => (Err (CommunicationFail (fmt_debug (ReceiveFail StreamIsClosed))),
                      unanswered wt rt o m')
           end
       end.
Proof.
  destruct (handle_request Shutdown m) as [r m'] eqn:Hrun.
  pose proof (received_run Shutdown m) as Hrec. rewrite Hrun in Hrec. cbn [fst snd] in Hrec.
  assert (∀ resp, r ≠ Ok (Some resp)) as Hdown
    by (intros resp ->; by apply handle_request_answers in Hrun).
  unfold shutdown_realm. rewrite (bind_ok _ _ _ _ _ (send_linked _ _ _ _ _ _ Hrec)).
  unfold handle_shutdown_response, timeout_of. erewrite bind_ok by reflexivity. simpl.
  unfold mbind, eff_bind, attempt. rewrite read_linked. unfold timer_wins. simpl.
  destruct r as [[resp|]|e]; [by destruct (Hdown resp)|..]; simpl.
  - destruct (late _ _); [done|]. rewrite read_gone by done.
    destruct (gone m') as [e|]; simpl; [|done]. by case_bool_decide.
  - by destruct (late _ _).
Qed.

End protocol.
