(* ===== verification/Storage.v ===== *)
(** * Persistent configuration

    [utils/src/file_system/fs_repository.rs] and
    [warden_daemon/src/storage/mod.rs]: a repository keeps a value in memory and
    in a YAML file; the directories of realms and applications are named by
    their identifiers.  The file system and the YAML serializer are foreign. *)

From S2P Require Import Prelude Managers Traits.

Inductive FileRepositoryError :=
| RepoCreationFail (e : IoError)
| RepoSaveFail (msg : string)
| RepoReadFail (msg : string).

Definition FileRepositoryError_to_string (e : FileRepositoryError) : string :=
  match e with
  | RepoCreationFail e => "Error occured: " +:+ io_text e
  | RepoSaveFail m => "Failed to save file: " +:+ m
  | RepoReadFail m => "Failed to read file: " +:+ m
  end.

(** [tokio::fs] and [tokio::io]; [file_create] truncates an existing file.
    [dir_entries] are the entries [read_dir] yields until it ends or fails, with
    the entry's type where it can be read. *)
Class FileApi (W Fd : Type) := {
  file_create : PathBuf → eff W IoError Fd;
  file_write_all : Fd → string → eff W IoError unit;
  file_flush : Fd → eff W IoError unit;
  file_open : PathBuf → eff W IoError Fd;
  file_read_to_string : Fd → eff W IoError string;
  create_dir : PathBuf → eff W IoError unit;
  create_dir_all : PathBuf → eff W IoError unit;
  remove_dir_all : PathBuf → eff W IoError unit;
  dir_entries : PathBuf → eff W IoError (list (string * option bool)) }.

(** A file that has been written and flushed can be read back. *)
Class FileApiLaws (W Fd : Type) `{FileApi W Fd} := {
  file_text : W → PathBuf → option string;
  file_saved : ∀ p t fd w w1 w2 w3,
    file_create p w = (Ok fd, w1) → file_write_all fd t w1 = (Ok tt, w2) →
    file_flush fd w2 = (Ok tt, w3) → file_text w3 p = Some t;
  file_readable : ∀ p t w, file_text w p = Some t →
    ∃ fd w1 w2, file_open p w = (Ok fd, w1) ∧ file_read_to_string fd w1 = (Ok t, w2) ∧
      ∀ q, file_text w2 q = file_text w q }.

(** The textual form of an identifier is a name of a directory entry, from which the
    identifier can be read back. *)
Class UuidLaws `{UuidApi} : Prop := {
  uuid_from_to : ∀ u, uuid_from_str (uuid_to_string u) = Ok u;
  uuid_no_slash : ∀ u, has_char slash (uuid_to_string u) = false;
  uuid_not_empty : ∀ u, uuid_to_string u ≠ "" }.

(** [serde_yaml] for one type of values. *)
Class Yaml (D : Type) := {
  yaml_to_string : D → result string string;
  yaml_from_str : string → result D string }.
Class YamlLaws (D : Type) `{Yaml D} : Prop := {
  yaml_round_trip : ∀ d t, yaml_to_string d = Ok t → yaml_from_str t = Ok d }.

Record FileRepository (D : Type) := mkFileRepository { data : D; path : PathBuf }.
Arguments mkFileRepository {D} _ _.
Arguments data {D} _.
Arguments path {D} _.

Section storage.
Context {W Fd D : Type} `{!FileApi W Fd, !Yaml D, !UuidApi}.

(** [FileRepository::save]. *)
Definition save (r : FileRepository D) : eff W FileRepositoryError unit :=
  yaml_data ← try_r (map_err_r RepoSaveFail (yaml_to_string (data r)));
  file ← map_err RepoCreationFail (file_create (path r));
  map_err (λ e, RepoSaveFail (io_text e)) (file_write_all file yaml_data);;
  map_err (λ e, RepoSaveFail (io_text e)) (file_flush file).

(** [FileRepository::new]. *)
Definition FileRepository_new (d : D) (p : PathBuf) : eff W FileRepositoryError (FileRepository D) :=
  let repository := mkFileRepository d p in
  save repository;;
  mret repository.

Definition try_read_file (p : PathBuf) : eff W FileRepositoryError D :=
  file ← map_err (λ e, RepoReadFail (io_text e)) (file_open p);
  buf ← map_err (λ e, RepoReadFail (io_text e)) (file_read_to_string file);
  try_r (map_err_r RepoReadFail (yaml_from_str buf)).

(** [FileRepository::from_file_path]. *)
Definition from_file_path (p : PathBuf) : eff W FileRepositoryError (FileRepository D) :=
  d ← try_read_file p;
  mret (mkFileRepository d p).

(** ** storage/mod.rs *)

Definition CONFIG_FILE_NAME := "config.yaml".
Definition create_config_path (root_path : PathBuf) : PathBuf := path_push root_path CONFIG_FILE_NAME.
Definition create_workdir_path_with_uuid (root_workdir : PathBuf) (realm_id : Uuid) : PathBuf :=
  path_push root_workdir (uuid_to_string realm_id).

(** The directories among the entries, whose names must all be identifiers. *)
Fixpoint parse_entries (entries : list (string * option bool)) : result (list Uuid) IoError :=
  match entries with
  | [] => Ok []
  | (name, Some true) :: entries =>
      and_then (map_err_r io_error_other (uuid_from_str name)) (λ u,
      and_then (parse_entries entries) (λ us, Ok (u :: us)))
  | _ :: entries => parse_entries entries
  end.

Definition read_subfolders_uuids (root_folder : PathBuf) : eff W IoError (list Uuid) :=
  entries ← dir_entries root_folder;
  try_r (parse_entries entries).

(** [YamlConfigRepository]. *)
Definition Yaml_new (config : D) (p : PathBuf) : eff W RepositoryError (FileRepository D) :=
  map_err (λ e, CreationFail (FileRepositoryError_to_string e)) (FileRepository_new config p).

Definition Yaml_from (config_path : PathBuf) : eff W RepositoryError (FileRepository D) :=
  map_err (λ e, CreationFail (FileRepositoryError_to_string e)) (from_file_path config_path).

Definition yaml_save : eff (FileRepository D * W) RepositoryError unit :=
  with_state (λ s, map_err (λ e, SaveFail (FileRepositoryError_to_string e))
                     (zoom snd_lens (save s.1))).

#[global] Instance Yaml_repository : Repository W (FileRepository D) D := {
  repo_get := data;
  repo_set d r := mkFileRepository d (path r);
  repo_save := yaml_save }.
#[global] Instance Yaml_repository_laws : RepositoryLaws W (FileRepository D) D.
Proof. by split. Qed.

(** ** Round trip *)

Section laws.
Context `{!FileApiLaws W Fd, !YamlLaws D}.

Lemma save_ok r w w' :
  save r w = (Ok tt, w') → ∃ t, yaml_to_string (data r) = Ok t ∧ file_text w' (path r) = Some t.
Proof.
  unfold save. intros Hrun. apply bind_ok_inv in Hrun as (t&w1&Ht&Hrun).
  apply bind_ok_inv in Hrun as (fd&w2&Hc&Hrun). apply bind_ok_inv in Hrun as ([]&w3&Hw&Hrun).
  apply map_err_ok in Hc, Hw, Hrun. unfold try_r, map_err_r in Ht. case_match; simplify_eq.
  exists t. split; [done|]. by eapply file_saved.
Qed.

Lemma from_file_path_saved (r : FileRepository D) t w :
  yaml_to_string (data r) = Ok t → file_text w (path r) = Some t →
  ∃ w', from_file_path (path r) w = (Ok r, w') ∧ ∀ q, file_text w' q = file_text w q.
Proof.
  intros Hy Ht. apply file_readable in Ht as (fd&w1&w2&Ho&Hr&Hq). exists w2. split; [|done].
  unfold from_file_path, try_read_file.
  rewrite (bind_ok _ _ _ (data r) w2); [by destruct r|].
  erewrite bind_ok by by apply map_err_ok.
  erewrite bind_ok by by apply map_err_ok. by rewrite (yaml_round_trip _ _ Hy).
Qed.

(** Persistence: a configuration that was saved is loaded again unchanged
    when the daemon restarts. *)
Theorem saved_config_is_loaded r w w' :
  repo_save (r, w) = (Ok tt, (r, w')) → ∃ w'', Yaml_from (path r) w' = (Ok r, w'').
Proof.
  intros Hrun. unfold repo_save, Yaml_repository, yaml_save, with_state in Hrun.
  apply map_err_ok, zoom_inv in Hrun as (w1&Hs&Heq). simplify_eq/=.
  apply save_ok in Hs as (t&Hy&Ht). destruct (from_file_path_saved r t _ Hy Ht) as (w''&Hf&_).
  exists w''. by apply map_err_ok.
Qed.

End laws.
End storage.
