(* ===== verification/Fabric.v ===== *)
(** * Creating and loading applications, realms and the warden

    [warden_daemon/src/fabric]: [application_fabric.rs], [realm_fabric.rs] and
    [warden_fabric.rs] build the objects of the daemon, on demand of a client or
    from what an earlier run of the daemon left on disk. *)

From S2P Require Import Prelude Managers Traits Storage ApplicationDisk ApplicationManager.
From S2P Require Import RealmClientHandler RealmManager Arc WardenDaemon.

(** [virtualization/network.rs]: the network manager is shared, so it belongs to
    the world. *)
Inductive NetworkManagerError :=
| CreateNatNetwork (msg : string)
| DestroyNatNetwork (msg : string)
| CreateTapDevice (msg : string)
| DestroyTapDevice (msg : string).

Definition NetworkManagerError_to_string (e : NetworkManagerError) : string :=
  match e with
  | CreateNatNetwork m => "Failed to create nat network: " +:+ m
  | DestroyNatNetwork m => "Failed to destroy nat network: " +:+ m
  | CreateTapDevice m => "Failed to create tap device: " +:+ m
  | DestroyTapDevice m => "Failed to destroy tap device: " +:+ m
  end.

Class NetworkManager (W : Type) := {
  create_tap_device_for_realm : string → Uuid → eff W NetworkManagerError unit;
  shutdown_tap_device_for_realm : Uuid → eff W NetworkManagerError unit }.

Record ApplicationFabric := mkApplicationFabric { realm_workdir_path : PathBuf }.

Record RealmManagerFabric (V : Type) := mkRealmManagerFabric {
  vm_manager_creator : PathBuf → Uuid → RealmConfig → result V VmManagerError;
  warden_workdir_path : PathBuf;
  realm_connection_wait_time : Z;
  realm_response_wait_time : Z }.
Arguments mkRealmManagerFabric {V} _ _ _ _.
Arguments vm_manager_creator {V} _ _ _ _.
Arguments warden_workdir_path {V} _.
Arguments realm_connection_wait_time {V} _.
Arguments realm_response_wait_time {V} _.

(** [anyhow::Error], by its source. *)
Inductive AnyError := AnyIo (e : IoError) | AnyWarden (e : WardenError).

Section fabric.
Context {W Fd P G DFd V Snd : Type}.
Context `{!FileApi W Fd, !Yaml ApplicationConfig, !Yaml RealmConfig, !UuidApi}.
Context `{!DiskApi W P G DFd, !NetworkManager W}.

Abbreviation App := (ApplicationManager (FileRepository ApplicationConfig) ApplicationDiskManager).
Abbreviation Client := (RealmClientHandler Snd).
Abbreviation RM := (RealmManager (FileRepository RealmConfig) App V Client ApplicationFabric).

(** ** application_fabric.rs *)

Definition creation_fail {S A E} (text : E → string) (c : eff S E A) : eff S RealmError A :=
  map_err (λ e, ApplicationCreationFail (text e)) c.

Definition create_application (f : ApplicationFabric) (uuid : Uuid) (config : ApplicationConfig)
    : eff W RealmError App :=
  let path := create_workdir_path_with_uuid (realm_workdir_path f) uuid in
  creation_fail io_text (create_dir path);;
  disk ← creation_fail ApplicationDiskManagerError_to_string
           (try_r (ApplicationDisk.new path (image_storage_size_mb config)
                     (data_storage_size_mb config)));
  repository ← creation_fail RepositoryError_to_string (Yaml_new config (create_config_path path));
  creation_fail ApplicationError_to_string (ApplicationManager.new uuid repository disk).

Definition load_application (f : ApplicationFabric) (uuid : Uuid) : eff W RealmError App :=
  let path := create_workdir_path_with_uuid (realm_workdir_path f) uuid in
  config ← creation_fail RepositoryError_to_string (Yaml_from (create_config_path path));
  disk ← creation_fail ApplicationDiskManagerError_to_string
           (try_r (ApplicationDisk.new path (image_storage_size_mb (data config))
                     (data_storage_size_mb (data config))));
  creation_fail ApplicationError_to_string (ApplicationManager.new uuid config disk).

#[global] Instance ApplicationFabric_creator : ApplicationCreator W App ApplicationFabric := {
  fabric_create_application := create_application;
  fabric_load_application := load_application }.

(** ** realm_fabric.rs *)

Definition realm_fail {S A E} (text : E → string) (c : eff S E A) : eff S WardenError A :=
  map_err (λ e, RealmCreationFail (text e)) c.

Definition load_applications (realm_workdir : PathBuf) (fabric : ApplicationFabric)
    : eff W WardenError (gmap Uuid App) :=
  uuids ← realm_fail io_text (read_subfolders_uuids realm_workdir);
  loaded ← map_eff (λ uuid,
    app ← realm_fail RealmError_to_string (load_application fabric uuid);
    mret (uuid, app)) uuids;
  mret (foldl (λ m e, <[e.1 := e.2]> m) ∅ loaded).

Definition new_client (f : RealmManagerFabric V) : Client :=
  RealmClientHandler.new (realm_connection_wait_time f) (realm_response_wait_time f).

Definition create_realm (f : RealmManagerFabric V) (realm_id : Uuid) (config : RealmConfig)
    : eff W WardenError RM :=
  let realm_workdir := create_workdir_path_with_uuid (warden_workdir_path f) realm_id in
  realm_fail io_text (create_dir realm_workdir);;
  realm_fail NetworkManagerError_to_string
    (create_tap_device_for_realm (tap_device (network_config config)) realm_id);;
  vm_manager ← realm_fail VmManagerError_to_string
    (try_r (vm_manager_creator f realm_workdir realm_id config));
  repository ← realm_fail RepositoryError_to_string
    (Yaml_new config (create_config_path realm_workdir));
  mret (RealmManager.new repository ∅ vm_manager (new_client f) (mkApplicationFabric realm_workdir)).

Definition load_realm (f : RealmManagerFabric V) (realm_id : Uuid) : eff W WardenError RM :=
  let realm_workdir_path := create_workdir_path_with_uuid (warden_workdir_path f) realm_id in
  let application_fabric := mkApplicationFabric realm_workdir_path in
  loaded_applications ← load_applications realm_workdir_path application_fabric;
  repository ← realm_fail RepositoryError_to_string
    (Yaml_from (create_config_path realm_workdir_path));
  realm_fail NetworkManagerError_to_string
    (create_tap_device_for_realm (tap_device (network_config (data repository))) realm_id);;
  vm_manager ← realm_fail VmManagerError_to_string
    (try_r (vm_manager_creator f realm_workdir_path realm_id (data repository)));
  mret (RealmManager.new repository loaded_applications vm_manager (new_client f) application_fabric).

Definition clean_up_realm (f : RealmManagerFabric V) (realm_id : Uuid) : eff W WardenError unit :=
  map_err (λ e, DestroyFail (NetworkManagerError_to_string e))
    (shutdown_tap_device_for_realm realm_id);;
  map_err (λ e, DestroyFail (io_text e))
    (remove_dir_all (create_workdir_path_with_uuid (warden_workdir_path f) realm_id)).

#[global] Instance RealmManagerFabric_creator : RealmCreator W RM (RealmManagerFabric V) := {
  fabric_create_realm := create_realm;
  fabric_load_realm := load_realm;
  fabric_clean_up_realm := clean_up_realm }.

(** ** warden_fabric.rs *)

Definition WardenFabric_new (p : PathBuf) : eff W AnyError unit := map_err AnyIo (create_dir_all p).

(** The table under construction, with the realms it owns; a realm under the
    same identifier is dropped by [insert]. *)
Definition insert_realm (uuid : Uuid) (realm : RM)
    (t : gmap Uuid ArcId * Arcs RM) : gmap Uuid ArcId * Arcs RM :=
  let '(a, h) := arc_new realm t.2 in
  (<[uuid := a]> t.1, match t.1 !! uuid with Some old => arc_drop old h | None => h end).

Fixpoint load_realms (f : RealmManagerFabric V) (uuids : list Uuid)
    (t : gmap Uuid ArcId * Arcs RM) : eff W AnyError (gmap Uuid ArcId * Arcs RM) :=
  match uuids with
  | [] => mret t
  | uuid :: uuids =>
      realm ← map_err AnyWarden (load_realm f uuid);
      load_realms f uuids (insert_realm uuid realm t)
  end.

(** [WardenFabric::create_warden]: the warden and the realms it shares. *)
Definition create_warden (f : RealmManagerFabric V)
    : eff W AnyError (WardenDaemon (RealmManagerFabric V) * Arcs RM) :=
  uuids ← map_err AnyIo (read_subfolders_uuids (warden_workdir_path f));
  realms ← load_realms f uuids (∅, ∅);
  mret (WardenDaemon.new realms.1 f, realms.2).

(** ** Properties *)

Lemma insert_realm_owned uuid realm (t : gmap Uuid ArcId * Arcs RM) :
  owned ((map_to_list t.1).*2) t.2 →
  owned ((map_to_list (insert_realm uuid realm t).1).*2) (insert_realm uuid realm t).2.
Proof.
  intros Ho. unfold insert_realm. pose proof (owned_new _ _ realm Ho) as Hn.
  destruct (arc_new realm t.2) as [a h]. simpl in *.
  destruct (t.1 !! uuid) as [old|] eqn:Hu.
  - apply owned_drop. eapply owned_perm; [|exact Hn].
    rewrite <-insert_delete_eq, map_to_list_insert by apply lookup_delete_eq.
    rewrite <-(map_to_list_delete _ _ _ Hu). simpl. apply Permutation_swap.
  - eapply owned_perm; [|exact Hn]. by rewrite (map_to_list_insert _ _ _ Hu).
Qed.

Lemma load_realms_owned f uuids t w t' w' :
  load_realms f uuids t w = (Ok t', w') →
  owned ((map_to_list t.1).*2) t.2 → owned ((map_to_list t'.1).*2) t'.2.
Proof.
  revert t w. induction uuids as [|u uuids IH]; intros t w Hrun Ho; simpl in Hrun; [by run_inv|].
  apply bind_ok_inv in Hrun as (realm&w1&_&Hrun). eapply IH; [exact Hrun|].
  by apply insert_realm_owned.
Qed.

(** One more realm of the directory is loaded. *)
Definition load_step (f : RealmManagerFabric V) (uuids : list Uuid) (w w' : W) : Prop :=
  ∃ u, u ∈ uuids ∧ w' = (load_realm f u w).2.

Lemma load_realms_fails f all uuids u t w :
  uuids ⊆ all → (∀ w1, rtc (load_step f all) w w1 → is_err (load_realm f u w1).1 = true) →
  u ∈ uuids → is_err (load_realms f uuids t w).1 = true.
Proof.
  revert t w. induction uuids as [|u' uuids IH]; intros t w Hsub Hbad Hin;
    [by apply elem_of_nil in Hin|].
  simpl. unfold mbind, eff_bind, map_err.
  destruct (load_realm f u' w) as [[realm|e] w1] eqn:Hl; [|done]. simpl.
  apply elem_of_cons in Hin as [->|Hin].
  - specialize (Hbad w (rtc_refl _ _)). by rewrite Hl in Hbad.
  - apply IH; [set_solver| |done]. intros w2 Hw2. apply Hbad. eapply rtc_l; [|exact Hw2].
    exists u'. rewrite Hl. split; [set_solver|done].
Qed.

(** The daemon starts in a consistent state: when [create_warden]
    succeeds, the table owns the only reference to every loaded realm (so each
    of them can be worked on and destroyed), whatever the directory contained. *)
Theorem created_warden_owns_realms f w d arcs w' :
  create_warden f w = (Ok (d, arcs), w') → refs_ok [] (d, (arcs, w')).
Proof.
  unfold create_warden. intros Hrun. apply bind_ok_inv in Hrun as (uuids&w1&_&Hrun).
  apply bind_ok_inv in Hrun as (t&w2&Ht&Hrun). run_inv.
  apply load_realms_owned in Ht; [|intros a; split; [done|by intros []]].
  unfold refs_ok, table_refs. simpl. by rewrite app_nil_r.
Qed.

(** One realm that cannot be loaded (for example a directory left behind by
    a creation that failed before the configuration was written), whatever other
    realms are loaded before it, keeps the whole daemon from starting. *)
Theorem unloadable_realm_blocks_daemon f w uuids w1 u :
  read_subfolders_uuids (warden_workdir_path f) w = (Ok uuids, w1) → u ∈ uuids →
  (∀ w2, rtc (load_step f uuids) w1 w2 → is_err (load_realm f u w2).1 = true) →
  is_err (create_warden f w).1 = true.
Proof.
  intros Hr Hin Hbad. unfold create_warden.
  rewrite (bind_ok _ _ _ uuids w1) by by apply map_err_ok.
  pose proof (load_realms_fails f uuids uuids u (∅, ∅) w1 (reflexivity _) Hbad Hin) as Hf.
  unfold mbind, eff_bind. by destruct (load_realms f uuids (∅, ∅) w1) as [[t|e] w2].
Qed.

End fabric.
