(* ===== verification/IpNet.v ===== *)
(** * Network addresses

    [std::net] addresses with the text the standard library prints for them,
    and the [ipnet] crate's networks.  [ipnet] is a parameter of the models
    that use it. *)

From S2P Require Import Prelude.

(** ** Addresses ([std::net], [ipnet]) *)

Record IpNet := mkIpNet { net_addr : IpAddr; net_prefix_len : Z }.

Definition is_ipv6 (a : IpAddr) : bool := match a with V4 _ => false | V6 _ => true end.

Definition ipv4_to_string (a : Z) : string :=
  pretty (a / 2 ^ 24)%Z +:+ "." +:+ pretty (a / 2 ^ 16 mod 256)%Z +:+ "." +:+
  pretty (a / 2 ^ 8 mod 256)%Z +:+ "." +:+ pretty (a mod 256)%Z.

(** The eight segments, and lower-case hexadecimal without leading zeros. *)
Definition ipv6_segments (a : Z) : list Z :=
  (λ i, a / 2 ^ (16 * (7 - Z.of_nat i)) mod 2 ^ 16)%Z <$> seq 0 8.

Definition hex_digit (d : Z) : ascii :=
  ascii_of_N (Z.to_N (if bool_decide (d < 10)%Z then 48 + d else 87 + d)%Z).
Fixpoint hex_go (fuel : nat) (z : Z) (acc : string) : string :=
  match fuel with
  | 0 => acc
  | S fuel =>
      let acc := String (hex_digit (z mod 16)) acc in
      if bool_decide (z < 16)%Z then acc else hex_go fuel (z / 16)%Z acc
  end.
(** Four digits are enough for a segment. *)
Definition segment_to_string (z : Z) : string := hex_go 4 z "".

Fixpoint segments_to_string (l : list Z) : string :=
  match l with
  | [] => ""
  | [s] => segment_to_string s
  | s :: l => segment_to_string s +:+ ":" +:+ segments_to_string l
  end.

(** Length of the run of zeros a list starts with. *)
Fixpoint zero_run (l : list Z) : nat :=
  match l with 0%Z :: l => S (zero_run l) | _ => 0 end.
(** The first longest run of zeros: its start and its length. *)
Definition longest_zeros (l : list Z) : nat * nat :=
  foldl (λ best i, let n := zero_run (drop i l) in if best.2 <? n then (i, n) else best)
    (0, 0) (seq 0 (length l)).

Definition ipv6_to_string (a : Z) : string :=
  if bool_decide (a / 2 ^ 32 = 65535)%Z then "::ffff:" +:+ ipv4_to_string (a mod 2 ^ 32)%Z
  else
    let l := ipv6_segments a in
    let '(start, n) := longest_zeros l in
    if 1 <? n then
      segments_to_string (take start l) +:+ "::" +:+ segments_to_string (drop (start + n) l)
    else segments_to_string l.

Definition IpAddr_to_string (a : IpAddr) : string :=
  match a with V4 a => ipv4_to_string a | V6 a => ipv6_to_string a end.

(** The [ipnet] crate: the printed form of a network, its checked constructor
    (the error is represented by its text), and the saturating addition of
    the trait [IpAdd] on the two kinds of address. *)
Class IpNetApi := {
  IpNet_to_string : IpNet → string;
  IpNet_new : IpAddr → Z → result IpNet string;
  ipv4_saturating_add : Z → Z → Z;
  ipv6_saturating_add : Z → Z → Z }.

Definition max_prefix_len (a : IpAddr) : Z := if is_ipv6 a then 128 else 32.

Class IpNetLaws `{IpNetApi} : Prop := {
  IpNet_new_ok : ∀ a p, (0 ≤ p ≤ max_prefix_len a)%Z → IpNet_new a p = Ok (mkIpNet a p);
  ipv4_saturating_add_ok : ∀ a n, (0 ≤ a)%Z → (0 ≤ n)%Z →
    ipv4_saturating_add a n = Z.min (a + n) u32_max;
  ipv6_saturating_add_ok : ∀ a n, (0 ≤ a)%Z → (0 ≤ n)%Z →
    ipv6_saturating_add a n = Z.min (a + n) u128_max }.
