(* ===== verification/IpTables.v ===== *)
(** * Packet filter rules of the realms' network

    [virtualization/nat_manager]: [ip_table_handler.rs] and the handlers of the
    tables [nat], [filter] and [mangle].  The [iptables] crate is a parameter;
    its laws are stated over the abstract content of the tables. *)

From S2P Require Import Prelude IpNet.

(** ** ip_table_handler.rs *)

Inductive IpTableHandlerError :=
| HandlerError (message : string)
| RuleAdd (chain_name table_name message : string)
| ChainAdd (chain_name table_name message : string)
| ChainRemove (chain_name table_name message : string).

Definition IpTableHandlerError_to_string (e : IpTableHandlerError) : string :=
  match e with
  | HandlerError m => "Failed to create handler: " +:+ m
  | RuleAdd c t m =>
      "Failed to insert rule to chain: " +:+ c +:+ " in table: " +:+ t +:+ " message: " +:+ m
  | ChainAdd c t m =>
      "Failed to insert chain: " +:+ c +:+ " to table: " +:+ t +:+ " message: " +:+ m
  | ChainRemove c t m =>
      "Failed to remove chain: " +:+ c +:+ " from table: " +:+ t +:+ " message: " +:+ m
  end.

(** The [iptables] crate: a handle for one address family, and its commands on
    a table and a chain.  Errors are represented by their text. *)
Class IpTablesApi (W T : Type) := {
  iptables_new : bool → eff W string T;
  ipt_chain_exists : T → string → string → eff W string bool;
  ipt_new_chain : T → string → string → eff W string unit;
  ipt_append_replace : T → string → string → string → eff W string unit;
  ipt_flush_chain : T → string → string → eff W string unit;
  ipt_delete : T → string → string → string → eff W string unit;
  ipt_delete_chain : T → string → string → eff W string unit }.

(** Deleting a rule removes its first occurrence. *)
Fixpoint remove_first (r : string) (l : list string) : list string :=
  match l with
  | [] => []
  | x :: l => if bool_decide (x = r) then l else x :: remove_first r l
  end.

Abbreviation Tables := (gmap (string * string) (list string)).

(** What a command that succeeds has done.  [ipt_rules v6 w] are the chains of
    the address family, by table and name, with their rules. *)
Class IpTablesLaws (W T : Type) `{IpTablesApi W T} := {
  ipt_rules : bool → W → Tables;
  ipt_family : T → bool;
  iptables_new_ok : ∀ v6 w h w', iptables_new v6 w = (Ok h, w') →
    ipt_family h = v6 ∧ ipt_rules v6 w' = ipt_rules v6 w;
  ipt_chain_exists_ok : ∀ h t c w b w', ipt_chain_exists h t c w = (Ok b, w') →
    b = bool_decide (is_Some (ipt_rules (ipt_family h) w !! (t, c))) ∧
    ipt_rules (ipt_family h) w' = ipt_rules (ipt_family h) w;
  ipt_new_chain_ok : ∀ h t c w w', ipt_new_chain h t c w = (Ok tt, w') →
    ipt_rules (ipt_family h) w !! (t, c) = None ∧
    ipt_rules (ipt_family h) w' = <[(t, c) := []]> (ipt_rules (ipt_family h) w);
  ipt_append_replace_ok : ∀ h t c r w w', ipt_append_replace h t c r w = (Ok tt, w') →
    ∃ l, ipt_rules (ipt_family h) w !! (t, c) = Some l ∧
      ipt_rules (ipt_family h) w' =
      <[(t, c) := remove_first r l ++ [r]]> (ipt_rules (ipt_family h) w);
  ipt_flush_chain_ok : ∀ h t c w w', ipt_flush_chain h t c w = (Ok tt, w') →
    ipt_rules (ipt_family h) w' = <[(t, c) := []]> (ipt_rules (ipt_family h) w);
  ipt_delete_ok : ∀ h t c r w w', ipt_delete h t c r w = (Ok tt, w') →
    ∃ l, ipt_rules (ipt_family h) w !! (t, c) = Some l ∧
      ipt_rules (ipt_family h) w' = <[(t, c) := remove_first r l]> (ipt_rules (ipt_family h) w);
  ipt_delete_chain_ok : ∀ h t c w w', ipt_delete_chain h t c w = (Ok tt, w') →
    ipt_rules (ipt_family h) w' = delete (t, c) (ipt_rules (ipt_family h) w) }.

Record NetworkConfig := mkNetworkConfig { net_if_name : string; net_if_ip : IpNet }.

Section tables.
Context {W T : Type} `{!IpNetApi, !IpTablesApi W T}.

(** ** nat_table_handler.rs *)

Definition NAT_TABLE : string := "nat".
Definition NAT_CHAIN_NAME_POSTFIX : string := "PRT".

Record NatIpTableManager := mkNatIpTableManager {
  nat_handler : T;
  nat_if_ip : IpNet;
  nat_chain_name : string }.

Definition NatIpTableManager_new (if_name : string) (if_ip : IpNet)
    : eff W IpTableHandlerError NatIpTableManager :=
  let chain_name := if_name +:+ "_" +:+ NAT_CHAIN_NAME_POSTFIX in
  handler ← map_err HandlerError (iptables_new (is_ipv6 (net_addr if_ip)));
  mret (mkNatIpTableManager handler if_ip chain_name).

(** The table, chain and rule that lead into the handler's own chain. *)
Definition postrouting_chain_command (table chain_name : string) : string * string * string :=
  (table, "POSTROUTING", "-j " +:+ chain_name).

(** [create_chain] and [delete_chain] of the tables with one own chain. *)
Definition create_chain (h : T) (table chain_name : string) : eff W string unit :=
  found ← ipt_chain_exists h table chain_name;
  (if found : bool then mret tt else ipt_new_chain h table chain_name);;
  let '(t, c, rule) := postrouting_chain_command table chain_name in
  ipt_append_replace h t c rule.

Definition delete_chain (h : T) (table chain_name : string) : eff W string unit :=
  ipt_flush_chain h table chain_name;;
  let '(t, c, rule) := postrouting_chain_command table chain_name in
  ipt_delete h t c rule;;
  ipt_delete_chain h table chain_name.

Definition nat_rules (if_ip : IpNet) : list string :=
  let network_string := IpNet_to_string if_ip in
  ["-s " +:+ network_string +:+ " -d 224.0.0.0/24 -j RETURN";
   "-s " +:+ network_string +:+ " -d 225.255.255.255 -j RETURN";
   "-s " +:+ network_string +:+ " ! -d " +:+ network_string +:+
     " -p tcp -j MASQUERADE --to-ports 1024-65535";
   "-s " +:+ network_string +:+ " ! -d " +:+ network_string +:+
     " -p udp -j MASQUERADE --to-ports 1024-65535";
   "-s " +:+ network_string +:+ " ! -d " +:+ network_string +:+ " -j MASQUERADE"].

(** Append the rules to one chain of a table. *)
Definition append_rules (h : T) (table chain_name : string) (rules : list string)
    : eff W string unit :=
  for_each (ipt_append_replace h table chain_name) rules.

Definition nat_insert_ip_table_rules (m : NatIpTableManager) : eff W IpTableHandlerError unit :=
  map_err (ChainAdd (nat_chain_name m) NAT_TABLE)
    (create_chain (nat_handler m) NAT_TABLE (nat_chain_name m));;
  map_err (RuleAdd (nat_chain_name m) NAT_TABLE)
    (append_rules (nat_handler m) NAT_TABLE (nat_chain_name m) (nat_rules (nat_if_ip m))).

Definition nat_remove_ip_table_rules (m : NatIpTableManager) : eff W IpTableHandlerError unit :=
  map_err (ChainRemove (nat_chain_name m) NAT_TABLE)
    (delete_chain (nat_handler m) NAT_TABLE (nat_chain_name m)).

(** ** mangle_table_handler.rs *)

Definition MANGLE_TABLE : string := "mangle".
Definition MANGLE_CHAIN_POST_FIX_NAME : string := "PRT".

Record MangleTableManager := mkMangleTableManager {
  mangle_handler : T;
  mangle_if_name : string;
  mangle_chain_name : string }.

Definition MangleTableManager_new (if_name : string) (if_ip : IpNet)
    : eff W IpTableHandlerError MangleTableManager :=
  let chain_name := if_name +:+ "_" +:+ MANGLE_CHAIN_POST_FIX_NAME in
  handler ← map_err HandlerError (iptables_new (is_ipv6 (net_addr if_ip)));
  mret (mkMangleTableManager handler if_name chain_name).

Definition mangle_rules (if_name : string) : list string :=
  ["-o " +:+ if_name +:+ " -p udp -m udp --dport 68 -j CHECKSUM --checksum-fill"].

Definition mangle_insert_ip_table_rules (m : MangleTableManager)
    : eff W IpTableHandlerError unit :=
  map_err (ChainAdd (mangle_chain_name m) MANGLE_TABLE)
    (create_chain (mangle_handler m) MANGLE_TABLE (mangle_chain_name m));;
  map_err (RuleAdd (mangle_chain_name m) MANGLE_TABLE)
    (append_rules (mangle_handler m) MANGLE_TABLE (mangle_chain_name m)
       (mangle_rules (mangle_if_name m))).

Definition mangle_remove_ip_table_rules (m : MangleTableManager)
    : eff W IpTableHandlerError unit :=
  map_err (ChainRemove (mangle_chain_name m) MANGLE_TABLE)
    (delete_chain (mangle_handler m) MANGLE_TABLE (mangle_chain_name m)).

(** ** filter_table_handler.rs *)

Definition FILTER_TABLE : string := "filter".
Definition FWI_CHAIN_POSTFIX_NAME : string := "FWI".
Definition FWO_CHAIN_POSTFIX_NAME : string := "FWO".
Definition FWX_CHAIN_POSTFIX_NAME : string := "FWX".
Definition INP_CHAIN_POSTFIX_NAME : string := "INP".
Definition OUT_CHAIN_POSTFIX_NAME : string := "OUT".

Record FilterIpTableManager := mkFilterIpTableManager {
  filter_if_name : string;
  filter_if_ip : IpNet;
  filter_handler : T;
  fwi_chain_name : string;
  fwo_chain_name : string;
  fwx_chain_name : string;
  inp_chain_name : string;
  out_chain_name : string }.

Definition FilterIpTableManager_new (if_name : string) (if_ip : IpNet)
    : eff W IpTableHandlerError FilterIpTableManager :=
  handler ← map_err HandlerError (iptables_new (is_ipv6 (net_addr if_ip)));
  mret (mkFilterIpTableManager if_name if_ip handler
          (if_name +:+ "_" +:+ FWI_CHAIN_POSTFIX_NAME)
          (if_name +:+ "_" +:+ FWO_CHAIN_POSTFIX_NAME)
          (if_name +:+ "_" +:+ FWX_CHAIN_POSTFIX_NAME)
          (if_name +:+ "_" +:+ INP_CHAIN_POSTFIX_NAME)
          (if_name +:+ "_" +:+ OUT_CHAIN_POSTFIX_NAME)).

(** The own chains, in the order in which they are created, flushed and
    deleted, and the rules that lead into them. *)
Definition filter_chains (m : FilterIpTableManager) : list string :=
  [fwi_chain_name m; fwo_chain_name m; fwx_chain_name m; inp_chain_name m; out_chain_name m].

Definition get_input_chain_command (m : FilterIpTableManager) : string * string :=
  ("INPUT", "-j " +:+ inp_chain_name m).
Definition get_forward_chain_command (chain_name : string) : string * string :=
  ("FORWARD", "-j " +:+ chain_name).
Definition get_output_chain_command (m : FilterIpTableManager) : string * string :=
  ("OUTPUT", "-j " +:+ out_chain_name m).

Definition filter_jumps (m : FilterIpTableManager) : list (string * string) :=
  [get_input_chain_command m; get_output_chain_command m;
   get_forward_chain_command (fwi_chain_name m); get_forward_chain_command (fwo_chain_name m);
   get_forward_chain_command (fwx_chain_name m)].

(** Every error is paired with the chain the command was for. *)
Definition for_chain {A} (chain : string) (c : eff W string A) : eff W (string * string) A :=
  map_err (λ err, (chain, err)) c.

Definition create_chains (m : FilterIpTableManager) : eff W (string * string) unit :=
  for_each (λ chain, for_chain chain (ipt_new_chain (filter_handler m) FILTER_TABLE chain))
    (filter_chains m);;
  for_each (λ j : string * string,
      for_chain j.1 (ipt_append_replace (filter_handler m) FILTER_TABLE j.1 j.2))
    (filter_jumps m).

(** The rules, each with its chain. *)
Definition filter_rules (n : string) (if_ip : IpNet) (fwi fwo fwx inp out : string)
    : list (string * string) :=
  let net := IpNet_to_string if_ip in
  [(fwi, "-d " +:+ net +:+ " -o " +:+ n +:+
      " -m conntrack --ctstate RELATED,ESTABLISHED -j ACCEPT");
   (fwi, "-o " +:+ n +:+ " -j REJECT --reject-with icmp-port-unreachable");
   (fwo, "-s " +:+ net +:+ " -i " +:+ n +:+ " -j ACCEPT");
   (fwo, "-i " +:+ n +:+ " -j REJECT --reject-with icmp-port-unreachable");
   (fwx, "-i " +:+ n +:+ " -o " +:+ n +:+ " -j ACCEPT");
   (inp, "-i " +:+ n +:+ " -p udp -m udp --dport 53 -j ACCEPT");
   (inp, "-i " +:+ n +:+ " -p tcp -m tcp --dport 53 -j ACCEPT");
   (inp, "-i " +:+ n +:+ " -p udp -m udp --dport 67 -j ACCEPT");
   (inp, "-i " +:+ n +:+ " -p tcp -m tcp --dport 67 -j ACCEPT");
   (out, "-o " +:+ n +:+ " -p udp -m udp --dport 53 -j ACCEPT");
   (out, "-o " +:+ n +:+ " -p tcp -m tcp --dport 53 -j ACCEPT");
   (out, "-o " +:+ n +:+ " -p udp -m udp --dport 68 -j ACCEPT");
   (out, "-o " +:+ n +:+ " -p tcp -m tcp --dport 68 -j ACCEPT")].

Definition filter_insert_rules (m : FilterIpTableManager) : eff W (string * string) unit :=
  for_each (λ r : string * string,
      for_chain r.1 (ipt_append_replace (filter_handler m) FILTER_TABLE r.1 r.2))
    (filter_rules (filter_if_name m) (filter_if_ip m) (fwi_chain_name m) (fwo_chain_name m)
       (fwx_chain_name m) (inp_chain_name m) (out_chain_name m)).

Definition delete_chains (m : FilterIpTableManager) : eff W (string * string) unit :=
  for_each (λ chain, for_chain chain (ipt_flush_chain (filter_handler m) FILTER_TABLE chain))
    (filter_chains m);;
  for_each (λ j : string * string,
      for_chain j.1 (ipt_delete (filter_handler m) FILTER_TABLE j.1 j.2))
    (filter_jumps m);;
  for_each (λ chain, for_chain chain (ipt_delete_chain (filter_handler m) FILTER_TABLE chain))
    (filter_chains m).

Definition filter_insert_ip_table_rules (m : FilterIpTableManager)
    : eff W IpTableHandlerError unit :=
  map_err (λ e : string * string, ChainAdd e.1 FILTER_TABLE e.2) (create_chains m);;
  map_err (λ e : string * string, RuleAdd e.1 FILTER_TABLE e.2) (filter_insert_rules m).

Definition filter_remove_ip_table_rules (m : FilterIpTableManager)
    : eff W IpTableHandlerError unit :=
  map_err (λ e : string * string, ChainRemove e.1 FILTER_TABLE e.2) (delete_chains m).

(** ** nat_manager.rs: the three tables together *)

Definition prepare_routing_sync (config : NetworkConfig) : eff W IpTableHandlerError unit :=
  nat ← NatIpTableManager_new (net_if_name config) (net_if_ip config);
  nat_insert_ip_table_rules nat;;
  flt ← FilterIpTableManager_new (net_if_name config) (net_if_ip config);
  filter_insert_ip_table_rules flt;;
  mangle ← MangleTableManager_new (net_if_name config) (net_if_ip config);
  mangle_insert_ip_table_rules mangle.

Definition cleanup_routing_sync (config : NetworkConfig) : eff W IpTableHandlerError unit :=
  nat ← NatIpTableManager_new (net_if_name config) (net_if_ip config);
  nat_remove_ip_table_rules nat;;
  flt ← FilterIpTableManager_new (net_if_name config) (net_if_ip config);
  filter_remove_ip_table_rules flt;;
  mangle ← MangleTableManager_new (net_if_name config) (net_if_ip config);
  mangle_remove_ip_table_rules mangle.

(** ** Properties *)

Section laws.
Context `{!IpTablesLaws W T}.
Variable v6 : bool.

Abbreviation Chain := (option (list string)).
Implicit Types (m : Tables) (f g : string → Chain → Chain).

(** Only table [t] changes, and each of its chains by [f]. *)
Definition touched (t : string) f m m' : Prop :=
  ∀ t' c, m' !! (t', c) = if decide (t' = t) then f c (m !! (t', c)) else m !! (t', c).

(** A command on one chain. *)
Definition on_chain (chain : string) (F : Chain → Chain) : string → Chain → Chain :=
  λ c o, if decide (c = chain) then F o else o.

Lemma touched_refl t m : touched t (λ _ o, o) m m.
Proof. intros t' c. by case_decide. Qed.

Lemma touched_trans t f g m m1 m2 :
  touched t f m m1 → touched t g m1 m2 → touched t (λ c o, g c (f c o)) m m2.
Proof. intros H1 H2 t' c. rewrite H2. case_decide; rewrite H1; by case_decide. Qed.

Lemma touched_eq t f g m m' : (∀ c o, f c o = g c o) → touched t f m m' → touched t g m m'.
Proof. intros Hfg Hf t' c. rewrite <-Hfg. apply Hf. Qed.

Lemma touched_insert t c v m F :
  F (m !! (t, c)) = Some v → touched t (on_chain c F) m (<[(t, c) := v]> m).
Proof.
  intros HF t' c'. unfold on_chain. destruct (decide ((t, c) = (t', c'))) as [[= <- <-]|Hne].
  - rewrite lookup_insert_eq. rewrite !decide_True by done. done.
  - rewrite lookup_insert_ne by done. repeat case_decide; congruence.
Qed.

Lemma touched_delete t c m : touched t (on_chain c (λ _, None)) m (delete (t, c) m).
Proof.
  intros t' c'. unfold on_chain. destruct (decide ((t, c) = (t', c'))) as [[= <- <-]|Hne].
  - rewrite lookup_delete_eq. by rewrite !decide_True by done.
  - rewrite lookup_delete_ne by done. repeat case_decide; congruence.
Qed.

(** What the commands do to the chain they are for. *)
Definition append_replaced (r : string) : Chain → Chain := fmap (λ l, remove_first r l ++ [r]).
Definition deleted (r : string) : Chain → Chain := fmap (remove_first r).

Section commands.
Context (h : T) (Hh : ipt_family h = v6).
Abbreviation R := (ipt_rules v6).

Lemma new_chain_touched t c w w' :
  ipt_new_chain h t c w = (Ok tt, w') → touched t (on_chain c (λ _, Some [])) (R w) (R w').
Proof. intros [_ Heq]%ipt_new_chain_ok. rewrite Hh in Heq. rewrite Heq. by apply touched_insert. Qed.

Lemma flush_touched t c w w' :
  ipt_flush_chain h t c w = (Ok tt, w') → touched t (on_chain c (λ _, Some [])) (R w) (R w').
Proof. intros Heq%ipt_flush_chain_ok. rewrite Hh in Heq. rewrite Heq. by apply touched_insert. Qed.

Lemma append_touched t c r w w' :
  ipt_append_replace h t c r w = (Ok tt, w') → touched t (on_chain c (append_replaced r)) (R w) (R w').
Proof.
  intros (l&Hl&Heq)%ipt_append_replace_ok. rewrite Hh in Hl, Heq. rewrite Heq.
  apply touched_insert. by rewrite Hl.
Qed.

Lemma delete_touched t c r w w' :
  ipt_delete h t c r w = (Ok tt, w') → touched t (on_chain c (deleted r)) (R w) (R w').
Proof.
  intros (l&Hl&Heq)%ipt_delete_ok. rewrite Hh in Hl, Heq. rewrite Heq.
  apply touched_insert. by rewrite Hl.
Qed.

Lemma delete_chain_touched t c w w' :
  ipt_delete_chain h t c w = (Ok tt, w') → touched t (on_chain c (λ _, None)) (R w) (R w').
Proof. intros Heq%ipt_delete_chain_ok. rewrite Hh in Heq. rewrite Heq. apply touched_delete. Qed.

End commands.

Abbreviation R := (ipt_rules v6).

(** A loop of commands on table [t]. *)
Lemma for_each_touched {E A} t (body : A → eff W E unit) (F : A → string → Chain → Chain) l w w' :
  (∀ a w w', body a w = (Ok tt, w') → touched t (F a) (R w) (R w')) →
  for_each body l w = (Ok tt, w') →
  touched t (λ c o, foldl (λ o a, F a c o) o l) (R w) (R w').
Proof.
  intros Hb. revert w. induction l as [|a l IH]; intros w Hrun; simpl in Hrun.
  - run_inv. apply touched_refl.
  - apply bind_ok_inv in Hrun as ([]&w1&Ha&Hrun). simpl.
    apply (touched_trans _ (F a) (λ c o, foldl (λ o a, F a c o) o l) _ (R w1));
      [by apply Hb|by apply IH].
Qed.


(** *** Chains under a loop *)

Lemma foldl_other {A} (chain : A → string) (F : A → Chain → Chain) c o l :
  c ∉ chain <$> l → foldl (λ o a, on_chain (chain a) (F a) c o) o l = o.
Proof.
  revert o. induction l as [|a l IH]; intros o Hc; [done|]. simpl in *.
  rewrite not_elem_of_cons in Hc. destruct Hc as [Hc Hl].
  unfold on_chain at 2. rewrite decide_False by done. by apply IH.
Qed.

Lemma foldl_removed c o own :
  c ∈ own → foldl (λ o a, on_chain a (λ _, None) c o) o own = None.
Proof.
  assert (∀ l, foldl (λ (o : Chain) a, on_chain a (λ _, None) c o) None l = None) as Hn.
  { induction l as [|a l IH]; [done|]. simpl. unfold on_chain at 2. by case_decide. }
  revert o. induction own as [|a own IH]; intros o Hc; [by apply elem_of_nil in Hc|]. simpl.
  unfold on_chain at 2. case_decide as Hd; [apply Hn|]. apply IH. set_solver.
Qed.

(** The rules that lead from chain [c]. *)
Definition jumps_from (c : string) (js : list (string * string)) : list string :=
  (filter (λ j, j.1 = c) js).*2.

Lemma jumps_from_cons c j js :
  jumps_from c (j :: js) = if decide (j.1 = c) then j.2 :: jumps_from c js else jumps_from c js.
Proof. unfold jumps_from. rewrite filter_cons. by case_decide. Qed.

Lemma elem_of_jumps_from c js r : r ∈ jumps_from c js ↔ (c, r) ∈ js.
Proof.
  unfold jumps_from. rewrite list_elem_of_fmap. split.
  - intros ([c' r']&->&[Hc Hin]%list_elem_of_filter). simpl in *. by subst.
  - intros Hin. exists (c, r). split; [done|]. by apply list_elem_of_filter.
Qed.

Lemma remove_first_absent r l : r ∉ l → remove_first r l = l.
Proof.
  induction l as [|x l IH]; intros Hr; [done|]. simpl. rewrite not_elem_of_cons in Hr.
  destruct Hr as [Hne Hr]. rewrite bool_decide_false by congruence. f_equal. by apply IH.
Qed.

Lemma remove_first_last r l l' : r ∉ l → remove_first r (l ++ r :: l') = l ++ l'.
Proof.
  induction l as [|x l IH]; intros Hr; simpl; [by rewrite bool_decide_true|].
  rewrite not_elem_of_cons in Hr. destruct Hr as [Hne Hr].
  rewrite bool_decide_false by congruence. f_equal. by apply IH.
Qed.

Lemma jumps_appended c js l :
  NoDup js → (∀ r, (c, r) ∈ js → r ∉ l) →
  foldl (λ o j, on_chain j.1 (append_replaced j.2) c o) (Some l) js = Some (l ++ jumps_from c js).
Proof.
  revert l. induction js as [|[c' r] js IH]; intros l Hnd Hl; simpl.
  - by rewrite app_nil_r.
  - apply NoDup_cons in Hnd as [Hr Hnd]. rewrite jumps_from_cons. unfold on_chain at 2. simpl.
    destruct (decide (c' = c)) as [->|Hne].
    + rewrite decide_True by done. simpl. rewrite remove_first_absent by (apply Hl; by left).
      rewrite IH; [by rewrite <-app_assoc|done|]. intros r' Hr'.
      rewrite not_elem_of_app, list_elem_of_singleton. split; [apply Hl; by right|].
      by intros ->.
    + rewrite decide_False by congruence. apply IH; [done|]. intros r' Hr'. apply Hl. by right.
Qed.

Lemma jumps_deleted c js l :
  (∀ r, (c, r) ∈ js → r ∉ l) →
  foldl (λ o j, on_chain j.1 (deleted j.2) c o) (Some (l ++ jumps_from c js)) js = Some l.
Proof.
  intros Hl. revert Hl. induction js as [|[c' r] js IH]; intros Hl; simpl.
  - by rewrite app_nil_r.
  - rewrite jumps_from_cons. unfold on_chain at 2. simpl. destruct (decide (c' = c)) as [->|Hne].
    + rewrite decide_True by done. simpl. rewrite remove_first_last by (apply Hl; by left).
      apply IH. intros r' Hr'. apply Hl. by right.
    + rewrite decide_False by congruence. apply IH. intros r' Hr'. apply Hl. by right.
Qed.

Lemma foldl_missing (F : string → Chain → Chain) c (js : list (string * string)) :
  (∀ r, F r None = None) → foldl (λ o j, on_chain j.1 (F j.2) c o) None js = None.
Proof.
  intros HF. induction js as [|j js IH]; [done|]. simpl. unfold on_chain at 2.
  by case_decide; rewrite ?HF.
Qed.

(** *** Inserting and removing the rules of one table *)

Section handler.
Context (own : list string) (jumps rules : list (string * string)).

Definition inserted (c : string) (o : Chain) : Chain :=
  foldl (λ o r, on_chain r.1 (append_replaced r.2) c o)
    (foldl (λ o j, on_chain j.1 (append_replaced j.2) c o)
      (foldl (λ o a, on_chain a (λ _, Some []) c o) o own) jumps) rules.

Definition removed (c : string) (o : Chain) : Chain :=
  foldl (λ o a, on_chain a (λ _, None) c o)
    (foldl (λ o j, on_chain j.1 (deleted j.2) c o)
      (foldl (λ o a, on_chain a (λ _, Some []) c o) o own) jumps) own.

(** A chain that is not known yet, or a foreign one that does not use it. *)
Definition pristine (c : string) (o : Chain) : Prop :=
  (c ∈ own → o = None) ∧ ∀ l r, o = Some l → (c, r) ∈ jumps → r ∉ l.

Lemma removed_inserted c o :
  NoDup jumps → (∀ r, r ∈ rules → r.1 ∈ own) → pristine c o → removed c (inserted c o) = o.
Proof.
  intros Hnd Hrules [Hown Hj]. unfold removed. destruct (decide (c ∈ own)) as [Hc|Hc].
  { rewrite (Hown Hc). by apply foldl_removed. }
  assert (∀ F o, foldl (λ o a, on_chain a F c o) o own = o) as Hother.
  { intros F o'. apply (foldl_other id (λ _, F)). by rewrite list_fmap_id. }
  rewrite !Hother. unfold inserted. rewrite Hother.
  rewrite (foldl_other fst (λ r, append_replaced r.2) c _ rules).
  2: { intros (r&->&Hr)%list_elem_of_fmap. by apply Hc, Hrules. }
  destruct o as [l|].
  - rewrite jumps_appended by (try done; intros r; by apply Hj). apply jumps_deleted.
    intros r. by apply Hj.
  - by rewrite (foldl_missing append_replaced), (foldl_missing deleted).
Qed.

End handler.

(** The three handlers are instances. *)

Lemma new_handler {M} v (mk : T → M) w mg w1 :
  v = v6 → (h ← map_err HandlerError (iptables_new v); mret (mk h)) w = (Ok mg, w1) →
  ∃ h, mg = mk h ∧ ipt_family h = v6 ∧ ipt_rules v6 w1 = ipt_rules v6 w.
Proof.
  intros <- Hnew. apply bind_ok_inv in Hnew as (h&w0&Hnew&Hm). injection Hm as <- ->.
  apply map_err_ok, iptables_new_ok in Hnew as [Hh Hr]. by exists h.
Qed.

Lemma create_chain_touched h t c w w' :
  ipt_family h = v6 → ipt_rules v6 w !! (t, c) = None →
  create_chain h t c w = (Ok tt, w') →
  touched t (inserted [c] [("POSTROUTING", "-j " +:+ c)] []) (ipt_rules v6 w) (ipt_rules v6 w').
Proof.
  intros Hh Hnone Hrun. unfold create_chain in Hrun.
  apply bind_ok_inv in Hrun as (b&w1&Hex&Hrun). apply ipt_chain_exists_ok in Hex as [-> Hr].
  rewrite Hh in Hr. rewrite Hh, Hnone, bool_decide_false in Hrun by (by intros []).
  apply bind_ok_inv in Hrun as ([]&w2&Hn&Hrun). rewrite <-Hr.
  eapply touched_eq, (touched_trans _ _ _ _ _ _ (new_chain_touched h Hh _ _ _ _ Hn)
    (append_touched h Hh _ _ _ _ _ Hrun)). done.
Qed.

Lemma append_rules_touched h t c rules w w' :
  ipt_family h = v6 → append_rules h t c rules w = (Ok tt, w') →
  touched t (λ c' o, foldl (λ o r, on_chain r.1 (append_replaced r.2) c' o) o ((c,.) <$> rules))
    (ipt_rules v6 w) (ipt_rules v6 w').
Proof.
  intros Hh Hrun. unfold append_rules in Hrun.
  apply (for_each_touched t _ (λ r, on_chain c (append_replaced r))) in Hrun;
    [|intros; by eapply append_touched].
  intros t' c'. rewrite (Hrun t' c'). case_decide; [|done]. generalize (ipt_rules v6 w !! (t', c')).
  clear. induction rules as [|r rules IH]; intros o; [done|]. simpl. apply IH.
Qed.

Lemma delete_chain_removed h t c w w' :
  ipt_family h = v6 → delete_chain h t c w = (Ok tt, w') →
  touched t (removed [c] [("POSTROUTING", "-j " +:+ c)]) (ipt_rules v6 w) (ipt_rules v6 w').
Proof.
  intros Hh Hrun. unfold delete_chain in Hrun. simpl in Hrun.
  apply bind_ok_inv in Hrun as ([]&w1&Hf&Hrun). apply bind_ok_inv in Hrun as ([]&w2&Hd&Hrun).
  eapply touched_eq, (touched_trans _ _ _ _ _ _ (touched_trans _ _ _ _ _ _
    (flush_touched h Hh _ _ _ _ Hf) (delete_touched h Hh _ _ _ _ _ Hd))
    (delete_chain_touched h Hh _ _ _ _ Hrun)). done.
Qed.

(** *** Setting the routing up and taking it down *)

(** The chains of an interface and the rules that lead into them, by table. *)
Definition own_chains (n t : string) : list string :=
  if decide (t = FILTER_TABLE) then
    String.append n <$> ["_FWI"; "_FWO"; "_FWX"; "_INP"; "_OUT"]
  else [n +:+ "_PRT"].
Definition own_jumps (n t : string) : list (string * string) :=
  if decide (t = FILTER_TABLE) then
    prod_map id (λ p, "-j " +:+ n +:+ p) <$>
      [("INPUT", "_INP"); ("OUTPUT", "_OUT"); ("FORWARD", "_FWI"); ("FORWARD", "_FWO");
       ("FORWARD", "_FWX")]
  else [("POSTROUTING", "-j " +:+ n +:+ "_PRT")].

Definition own_rules (n : string) (ip : IpNet) (t : string) : list (string * string) :=
  if decide (t = FILTER_TABLE) then
    filter_rules n ip (n +:+ "_FWI") (n +:+ "_FWO") (n +:+ "_FWX") (n +:+ "_INP") (n +:+ "_OUT")
  else if decide (t = NAT_TABLE) then pair (n +:+ "_PRT") <$> nat_rules ip
  else pair (n +:+ "_PRT") <$> mangle_rules n.

(** Nothing of the interface is in the three tables. *)
Definition fresh_routing (n : string) m : Prop :=
  ∀ t c, t ∈ [NAT_TABLE; FILTER_TABLE; MANGLE_TABLE] →
    pristine (own_chains n t) (own_jumps n t) c (m !! (t, c)).

Lemma nat_insert_touched n ip mg w w1 w' :
  is_ipv6 (net_addr ip) = v6 → NatIpTableManager_new n ip w = (Ok mg, w1) →
  nat_insert_ip_table_rules mg w1 = (Ok tt, w') → R w !! (NAT_TABLE, n +:+ "_PRT") = None →
  touched NAT_TABLE (inserted (own_chains n NAT_TABLE) (own_jumps n NAT_TABLE)
    (own_rules n ip NAT_TABLE)) (R w) (R w').
Proof.
  intros Hv Hnew Hrun Hnone. apply new_handler in Hnew as (h&->&Hh&Hr); [|done].
  unfold nat_insert_ip_table_rules in Hrun. apply bind_ok_inv in Hrun as ([]&w2&Hc&Hrun).
  apply map_err_ok in Hc, Hrun. simpl in *. rewrite <-Hr in Hnone |- *.
  eapply touched_eq, (touched_trans _ _ _ _ _ _ (create_chain_touched _ _ _ _ _ Hh Hnone Hc)
    (append_rules_touched _ _ _ _ _ _ Hh Hrun)). done.
Qed.

Lemma mangle_insert_touched n ip mg w w1 w' :
  is_ipv6 (net_addr ip) = v6 → MangleTableManager_new n ip w = (Ok mg, w1) →
  mangle_insert_ip_table_rules mg w1 = (Ok tt, w') → R w !! (MANGLE_TABLE, n +:+ "_PRT") = None →
  touched MANGLE_TABLE (inserted (own_chains n MANGLE_TABLE) (own_jumps n MANGLE_TABLE)
    (own_rules n ip MANGLE_TABLE)) (R w) (R w').
Proof.
  intros Hv Hnew Hrun Hnone. apply new_handler in Hnew as (h&->&Hh&Hr); [|done].
  unfold mangle_insert_ip_table_rules in Hrun. apply bind_ok_inv in Hrun as ([]&w2&Hc&Hrun).
  apply map_err_ok in Hc, Hrun. simpl in *. rewrite <-Hr in Hnone |- *.
  eapply touched_eq, (touched_trans _ _ _ _ _ _ (create_chain_touched _ _ _ _ _ Hh Hnone Hc)
    (append_rules_touched _ _ _ _ _ _ Hh Hrun)). done.
Qed.

Lemma nat_remove_touched n ip mg w w1 w' :
  is_ipv6 (net_addr ip) = v6 → NatIpTableManager_new n ip w = (Ok mg, w1) →
  nat_remove_ip_table_rules mg w1 = (Ok tt, w') →
  touched NAT_TABLE (removed (own_chains n NAT_TABLE) (own_jumps n NAT_TABLE)) (R w) (R w').
Proof.
  intros Hv Hnew Hrun. apply new_handler in Hnew as (h&->&Hh&Hr); [|done].
  apply map_err_ok in Hrun. rewrite <-Hr. exact (delete_chain_removed _ _ _ _ _ Hh Hrun).
Qed.

Lemma mangle_remove_touched n ip mg w w1 w' :
  is_ipv6 (net_addr ip) = v6 → MangleTableManager_new n ip w = (Ok mg, w1) →
  mangle_remove_ip_table_rules mg w1 = (Ok tt, w') →
  touched MANGLE_TABLE (removed (own_chains n MANGLE_TABLE) (own_jumps n MANGLE_TABLE))
    (R w) (R w').
Proof.
  intros Hv Hnew Hrun. apply new_handler in Hnew as (h&->&Hh&Hr); [|done].
  apply map_err_ok in Hrun. rewrite <-Hr. exact (delete_chain_removed _ _ _ _ _ Hh Hrun).
Qed.

(** A loop of commands, each of which reports its chain. *)
Lemma for_chain_touched {A} t (chain : A → string) (cmd : A → eff W string unit)
    (F : A → string → Chain → Chain) l w w' :
  (∀ a w w', cmd a w = (Ok tt, w') → touched t (F a) (R w) (R w')) →
  for_each (λ a, for_chain (chain a) (cmd a)) l w = (Ok tt, w') →
  touched t (λ c o, foldl (λ o a, F a c o) o l) (R w) (R w').
Proof.
  intros Hb. apply for_each_touched. intros a w1 w2 Ha. unfold for_chain in Ha.
  apply map_err_ok in Ha. by apply Hb.
Qed.

Lemma filter_insert_touched n ip mg w w1 w' :
  is_ipv6 (net_addr ip) = v6 → FilterIpTableManager_new n ip w = (Ok mg, w1) →
  filter_insert_ip_table_rules mg w1 = (Ok tt, w') →
  touched FILTER_TABLE (inserted (own_chains n FILTER_TABLE) (own_jumps n FILTER_TABLE)
    (own_rules n ip FILTER_TABLE)) (R w) (R w').
Proof.
  intros Hv Hnew Hrun. apply new_handler in Hnew as (h&->&Hh&Hr); [|done].
  rewrite <-Hr.
  set (mg := mkFilterIpTableManager _ _ _ _ _ _ _ _) in *.
  unfold filter_insert_ip_table_rules, create_chains, filter_insert_rules in Hrun.
  apply bind_ok_inv in Hrun as ([]&w2&Hc&Hrun). apply map_err_ok in Hc, Hrun.
  apply bind_ok_inv in Hc as ([]&w3&Hn&Hj).
  apply (for_chain_touched FILTER_TABLE id _ (λ a, on_chain a (λ _, Some []))) in Hn;
    [|intros; by eapply new_chain_touched].
  apply (for_chain_touched FILTER_TABLE fst _ (λ j, on_chain j.1 (append_replaced j.2))) in Hj;
    [|intros; by eapply append_touched].
  apply (for_chain_touched FILTER_TABLE fst _ (λ j, on_chain j.1 (append_replaced j.2))) in Hrun;
    [|intros; by eapply append_touched].
  eapply touched_eq, (touched_trans _ _ _ _ _ _ (touched_trans _ _ _ _ _ _ Hn Hj) Hrun). done.
Qed.

Lemma filter_remove_touched n ip mg w w1 w' :
  is_ipv6 (net_addr ip) = v6 → FilterIpTableManager_new n ip w = (Ok mg, w1) →
  filter_remove_ip_table_rules mg w1 = (Ok tt, w') →
  touched FILTER_TABLE (removed (own_chains n FILTER_TABLE) (own_jumps n FILTER_TABLE)) (R w) (R w').
Proof.
  intros Hv Hnew Hrun. apply new_handler in Hnew as (h&->&Hh&Hr); [|done].
  rewrite <-Hr.
  set (mg := mkFilterIpTableManager _ _ _ _ _ _ _ _) in *.
  unfold filter_remove_ip_table_rules, delete_chains in Hrun. apply map_err_ok in Hrun.
  apply bind_ok_inv in Hrun as ([]&w2&Hf&Hrun). apply bind_ok_inv in Hrun as ([]&w3&Hd&Hrun).
  apply (for_chain_touched FILTER_TABLE id _ (λ a, on_chain a (λ _, Some []))) in Hf;
    [|intros; by eapply flush_touched].
  apply (for_chain_touched FILTER_TABLE fst _ (λ j, on_chain j.1 (deleted j.2))) in Hd;
    [|intros; by eapply delete_touched].
  apply (for_chain_touched FILTER_TABLE id _ (λ a, on_chain a (λ _, None))) in Hrun;
    [|intros; by eapply delete_chain_touched].
  eapply touched_eq, (touched_trans _ _ _ _ _ _ (touched_trans _ _ _ _ _ _ Hf Hd) Hrun). done.
Qed.

Lemma own_jumps_NoDup n t : NoDup (own_jumps n t).
Proof.
  unfold own_jumps. case_decide; [|apply NoDup_singleton].
  apply NoDup_fmap_2; [|by apply (bool_decide_unpack _)].
  intros [c1 p1] [c2 p2] [= -> Heq]. simpl in *. by simplify_eq.
Qed.
Lemma own_rules_own n ip t r : r ∈ own_rules n ip t → r.1 ∈ own_chains n t.
Proof.
  unfold own_rules, own_chains, filter_rules. repeat case_decide.
  - rewrite !elem_of_cons. simpl. intros Hr. destruct_or?; subst; simpl; set_solver.
  - intros (x&->&_)%list_elem_of_fmap. set_solver.
  - intros (x&->&_)%list_elem_of_fmap. set_solver.
Qed.

Ltac distinct_rules :=
  repeat match goal with
  | Heq : (_, _) = (_, _) |- _ => apply pair_eq in Heq as [? ?]
  | Heq : _ = _ |- _ => discriminate Heq
  | Heq : _ +:+ _ = _ +:+ _ |- _ => apply append_inj_l in Heq
  end.

Lemma own_rules_NoDup n ip t : NoDup (own_rules n ip t).
Proof.
  unfold own_rules, filter_rules, nat_rules, mangle_rules.
  repeat case_decide; simpl; generalize (IpNet_to_string ip); intros net;
    repeat (apply NoDup_cons; split); try apply NoDup_nil_2;
    rewrite ?elem_of_cons, ?elem_of_nil; intros Heq; destruct_or?;
    distinct_rules.
Qed.
Lemma own_chains_foreign n t c : c ∈ own_chains n t → c ∉ (own_jumps n t).*1.
Proof.
  assert (∀ p x, has_char "_" p = true → has_char "_" x = false → n +:+ p ≠ x) as Hne.
  { intros p x Hp Hx <-. by rewrite has_char_app, Hp, orb_true_r in Hx. }
  unfold own_chains, own_jumps. case_decide; simpl; rewrite ?elem_of_cons, ?elem_of_nil;
    intros Hc Hj; destruct_or?; subst; try done;
    match goal with Heq : _ +:+ _ = _ |- _ => by apply Hne in Heq end.
Qed.

(** The three tables, and what setting up and taking down does to them. *)
Definition routing_tables : list string := [NAT_TABLE; FILTER_TABLE; MANGLE_TABLE].

Definition in_tables (F : string → string → Chain → Chain) m m' : Prop :=
  ∀ t c, m' !! (t, c) =
    if decide (t ∈ routing_tables) then F t c (m !! (t, c)) else m !! (t, c).

Lemma in_tables_intro F m m1 m2 m3 :
  touched NAT_TABLE (F NAT_TABLE) m m1 → touched FILTER_TABLE (F FILTER_TABLE) m1 m2 →
  touched MANGLE_TABLE (F MANGLE_TABLE) m2 m3 → in_tables F m m3.
Proof.
  intros Hn Hf Hm t c. rewrite Hm, Hf, Hn. unfold routing_tables.
  destruct (decide (t = MANGLE_TABLE)) as [->|?]; [done|].
  destruct (decide (t = FILTER_TABLE)) as [->|?]; [done|].
  destruct (decide (t = NAT_TABLE)) as [->|?]; [done|].
  rewrite decide_False; [done|set_solver].
Qed.

Lemma prepare_in_tables n ip w w' :
  v6 = is_ipv6 (net_addr ip) → fresh_routing n (R w) →
  prepare_routing_sync (mkNetworkConfig n ip) w = (Ok tt, w') →
  in_tables (λ t, inserted (own_chains n t) (own_jumps n t) (own_rules n ip t)) (R w) (R w').
Proof.
  intros Hv Hfresh Hrun. unfold prepare_routing_sync in Hrun. simpl in Hrun.
  apply bind_ok_inv in Hrun as (nat&w1&Hnat&Hrun).
  apply bind_ok_inv in Hrun as ([]&w2&Hnat'&Hrun).
  apply bind_ok_inv in Hrun as (flt&w3&Hflt&Hrun).
  apply bind_ok_inv in Hrun as ([]&w4&Hflt'&Hrun).
  apply bind_ok_inv in Hrun as (mg&w5&Hmg&Hmg').
  assert (∀ t, t ∈ [NAT_TABLE; MANGLE_TABLE] → R w !! (t, n +:+ "_PRT") = None) as Hnone.
  { intros t Ht. apply (proj1 (Hfresh t _ ltac:(set_solver))).
    unfold own_chains. rewrite decide_False; [set_solver|]. intros ->. set_solver. }
  pose proof (nat_insert_touched _ _ _ _ _ _ (eq_sym Hv) Hnat Hnat' (Hnone NAT_TABLE ltac:(set_solver))) as H1.
  pose proof (filter_insert_touched _ _ _ _ _ _ (eq_sym Hv) Hflt Hflt') as H2.
  eapply in_tables_intro; [exact H1|exact H2|].
  eapply mangle_insert_touched; [by rewrite Hv|exact Hmg|exact Hmg'|].
  rewrite H2, H1. simpl. apply Hnone. set_solver.
Qed.

Lemma cleanup_in_tables n ip w w' :
  v6 = is_ipv6 (net_addr ip) →
  cleanup_routing_sync (mkNetworkConfig n ip) w = (Ok tt, w') →
  in_tables (λ t, removed (own_chains n t) (own_jumps n t)) (R w) (R w').
Proof.
  intros Hv Hrun. unfold cleanup_routing_sync in Hrun. simpl in Hrun.
  apply bind_ok_inv in Hrun as (nat&w1&Hnat&Hrun).
  apply bind_ok_inv in Hrun as ([]&w2&Hnat'&Hrun).
  apply bind_ok_inv in Hrun as (flt&w3&Hflt&Hrun).
  apply bind_ok_inv in Hrun as ([]&w4&Hflt'&Hrun).
  apply bind_ok_inv in Hrun as (mg&w5&Hmg&Hmg').
  eapply in_tables_intro; [by eapply nat_remove_touched|by eapply filter_remove_touched|
    by eapply mangle_remove_touched].
Qed.
Lemma inserted_own own jumps rules c o :
  c ∈ own → c ∉ jumps.*1 → NoDup rules → o = None →
  inserted own jumps rules c o = Some (jumps_from c rules).
Proof.
  intros Hc Hj Hnd ->. unfold inserted.
  assert (foldl (λ o a, on_chain a (λ _, Some []) c o) None own = Some []) as ->.
  { assert (∀ l, foldl (λ (o : Chain) a, on_chain a (λ _, Some []) c o) (Some []) l = Some [])
      as Hs.
    { induction l as [|a l IH]; [done|]. simpl. unfold on_chain at 2. by case_decide. }
    clear -Hc Hs. induction own as [|a own IH]; [by apply elem_of_nil in Hc|]. simpl.
    unfold on_chain at 2. case_decide as Hd; [apply Hs|]. apply IH. set_solver. }
  rewrite (foldl_other fst (λ j, append_replaced j.2) c _ jumps) by done.
  apply (jumps_appended c rules []); [done|]. intros r _. apply not_elem_of_nil.
Qed.

(** Setting up and taking down in between other changes of the world that do
    not concern the tables. *)
Lemma routing_restored n ip w w1 w1' w2 :
  v6 = is_ipv6 (net_addr ip) → fresh_routing n (R w) →
  prepare_routing_sync (mkNetworkConfig n ip) w = (Ok tt, w1) → R w1' = R w1 →
  cleanup_routing_sync (mkNetworkConfig n ip) w1' = (Ok tt, w2) → R w2 = R w.
Proof.
  intros Hv Hfresh Hp Hsame Hcl. pose proof (prepare_in_tables _ _ _ _ Hv Hfresh Hp) as H1.
  pose proof (cleanup_in_tables _ _ _ _ Hv Hcl) as H2. apply map_eq. intros [t c].
  rewrite H2, Hsame, H1. destruct (decide (t ∈ routing_tables)); [|done].
  apply removed_inserted; [apply own_jumps_NoDup|apply own_rules_own|by apply Hfresh].
Qed.

(** C32.  When nothing of the interface is in the tables, setting up the routing
    leaves every chain of the interface with exactly its rules, in order, and
    taking it down again restores the tables of the address family to what
    they were, foreign chains included. *)
Theorem routing_round_trip n ip w w1 :
  v6 = is_ipv6 (net_addr ip) → fresh_routing n (R w) →
  prepare_routing_sync (mkNetworkConfig n ip) w = (Ok tt, w1) →
  (∀ t c, t ∈ routing_tables → c ∈ own_chains n t →
     R w1 !! (t, c) = Some (jumps_from c (own_rules n ip t))) ∧
  (∀ w2, cleanup_routing_sync (mkNetworkConfig n ip) w1 = (Ok tt, w2) → R w2 = R w).
Proof.
  intros Hv Hfresh Hp. split.
  - intros t c Ht Hc. rewrite (prepare_in_tables _ _ _ _ Hv Hfresh Hp), decide_True by done.
    apply inserted_own; [done|by apply own_chains_foreign|apply own_rules_NoDup|].
    by apply (Hfresh t c Ht).
  - intros w2. by apply (routing_restored _ _ _ _ _ _ Hv Hfresh Hp).
Qed.

(** The chains of the filter table are created without a check that they
    exist already. *)
Lemma create_chain_only h t c w w' :
  ipt_family h = v6 → create_chain h t c w = (Ok tt, w') →
  ∀ t' c', t' ≠ t → R w' !! (t', c') = R w !! (t', c').
Proof.
  intros Hh Hrun t' c' Ht. unfold create_chain in Hrun.
  apply bind_ok_inv in Hrun as (b&w1&Hex&Hrun). apply ipt_chain_exists_ok in Hex as [_ Hr].
  rewrite Hh in Hr. apply bind_ok_inv in Hrun as ([]&w2&Hn&Hrun).
  rewrite (append_touched h Hh _ _ _ _ _ Hrun), decide_False, <-Hr by done. destruct b.
  - by injection Hn as ->.
  - by rewrite (new_chain_touched h Hh _ _ _ _ Hn), decide_False.
Qed.

Lemma new_chains_fresh h t (l : list string) w w' :
  ipt_family h = v6 →
  for_each (λ chain, for_chain chain (ipt_new_chain h t chain)) l w = (Ok tt, w') →
  ∀ c, c ∈ l → R w !! (t, c) = None.
Proof.
  intros Hh. revert w. induction l as [|a l IH]; intros w Hrun c Hc; [by apply elem_of_nil in Hc|].
  simpl in Hrun. apply bind_ok_inv in Hrun as ([]&w1&Hn&Hrun). unfold for_chain in Hn.
  apply map_err_ok, ipt_new_chain_ok in Hn as [Hnone Hr]. rewrite Hh in Hnone, Hr.
  apply elem_of_cons in Hc as [->|Hc]; [done|].
  specialize (IH _ Hrun _ Hc). rewrite Hr in IH. by apply lookup_insert_None in IH as [? _].
Qed.

Lemma prepare_needs_filter n ip w w' :
  v6 = is_ipv6 (net_addr ip) → prepare_routing_sync (mkNetworkConfig n ip) w = (Ok tt, w') →
  ∀ c, c ∈ own_chains n FILTER_TABLE → R w !! (FILTER_TABLE, c) = None.
Proof.
  intros Hv Hrun c Hc. unfold prepare_routing_sync in Hrun. simpl in Hrun.
  apply bind_ok_inv in Hrun as (nat&w1&Hnat&Hrun).
  apply bind_ok_inv in Hrun as ([]&w2&Hnat'&Hrun).
  apply bind_ok_inv in Hrun as (flt&w3&Hflt&Hrun).
  apply bind_ok_inv in Hrun as ([]&w4&Hflt'&_).
  apply new_handler in Hnat as (h&->&Hh&Hr1); [|done].
  apply new_handler in Hflt as (h'&->&Hh'&Hr3); [|done].
  apply bind_ok_inv in Hnat' as ([]&w5&Hcc&Har). apply map_err_ok in Hcc, Har.
  apply bind_ok_inv in Hflt' as ([]&w6&Hcs&_). apply map_err_ok in Hcs.
  apply bind_ok_inv in Hcs as ([]&w7&Hcs&_). apply new_chains_fresh with (c := c) in Hcs; try done.
  rewrite Hr3, (append_rules_touched _ _ _ _ _ _ Hh Har), decide_False in Hcs by done.
  by rewrite (create_chain_only _ _ _ _ _ Hh Hcc), Hr1 in Hcs.
Qed.

End laws.
End tables.
