(* ===== verification/Dnsmasq.v ===== *)
(** * The DHCP and DNS server of the realms' network

    [virtualization/dhcp.rs], the trait [DHCPServer], and its implementor
    [virtualization/dnsmasq_server_handler.rs], which runs [dnsmasq] as a
    child process. *)

From S2P Require Import Prelude IpNet VmRunner.

(** ** dhcp.rs *)

Inductive DHCPError := DHCPServerStart (msg : string) | DHCPServerStop (msg : string).

Definition DHCPError_to_string (e : DHCPError) : string :=
  match e with
  | DHCPServerStart m => "Error while launching DHCP Server: " +:+ m
  | DHCPServerStop m => "Error while stopping DHCP Server: " +:+ m
  end.

(** The trait [DHCPServer], a method being a computation on the server and
    the world. *)
Class DHCPServer (W D : Type) := {
  dhcp_start : IpNet → string → eff (D * W) DHCPError unit;
  dhcp_stop : eff (D * W) DHCPError unit }.

(** ** dnsmasq_server_handler.rs *)

Inductive DnsmasqServerError :=
| InvalidPath
| AlreadyStarted
| SpawnFail (e : IoError)
| KillFail (e : IoError)
| WaitFail (e : IoError)
| AddressRange (e : string).

Definition DnsmasqServerError_to_string (e : DnsmasqServerError) : string :=
  match e with
  | InvalidPath => "Path to Dnsmasq server is invalid."
  | AlreadyStarted => "Dnsmasq Server already has been started."
  | SpawnFail e => "Spawning Dnsmasq failed: " +:+ io_text e
  | KillFail e => "Failed to kill Dnsmasq: " +:+ io_text e
  | WaitFail e => "Failed to wait for Dnsmasq exit: " +:+ io_text e
  | AddressRange e => "Can't calculate address range for DHCP: " +:+ e
  end.

Definition EXEC_NAME : string := "dnsmasq".

Section dnsmasq.
Context {W Child Pipe LogTask : Type}.
Context `{!IpNetApi, !ProcessApi W Child Pipe LogTask}.

Record DnsmasqServerHandler := mkDnsmasqServerHandler {
  command : Command;
  dhcp_connections_number : Z;
  child : option Child }.

Definition validate_exec_path (path_to_exec : PathBuf) : result unit DnsmasqServerError :=
  if negb (match file_name path_to_exec with
           | Some str => bool_decide (str = EXEC_NAME)
           | None => false
           end)
  then Err InvalidPath
  else Ok tt.

Definition add_dhcp_args : Command → Command :=
  arg "--bind-dynamic" ∘ arg "--dhcp-authoritative" ∘ arg "--dhcp-no-override" ∘ arg "-k" ∘
  add_args ["-C"; "/dev/null"] ∘ add_args ["-I"; "lo"].

(** The closed standard input is part of [process_spawn]. *)
Definition create_command (path_to_exec : PathBuf) : Command :=
  add_dhcp_args (mkCommand path_to_exec []).

Definition new (path_to_exec : PathBuf) (connections : Z)
    : result DnsmasqServerHandler DnsmasqServerError :=
  and_then (validate_exec_path path_to_exec) (λ _,
  Ok (mkDnsmasqServerHandler (create_command path_to_exec) connections None)).

Definition set_command (f : Command → Command) (d : DnsmasqServerHandler)
    : DnsmasqServerHandler :=
  mkDnsmasqServerHandler (f (command d)) (dhcp_connections_number d) (child d).
Definition set_child (c : option Child) (d : DnsmasqServerHandler) : DnsmasqServerHandler :=
  mkDnsmasqServerHandler (command d) (dhcp_connections_number d) c.

Definition add_dns_args (dns_records : list string) (d : DnsmasqServerHandler)
    : DnsmasqServerHandler :=
  foldl (λ d record, set_command (arg ("--address=" +:+ record)) d) d dns_records.

Definition calculate_next_addr (hostnet_ip : IpNet) (offset : Z) : result IpNet string :=
  IpNet_new
    (match net_addr hostnet_ip with
     | V4 ip => V4 (ipv4_saturating_add ip offset)
     | V6 ip => V6 (ipv6_saturating_add ip offset)
     end)
    (net_prefix_len hostnet_ip).

Definition DHCP_POOL_START_OFFSET : Z := 1.

Definition calculate_range_str (hostnet_ip : IpNet) (dhcp_addr_numbers : Z)
    : result (IpAddr * IpAddr) DnsmasqServerError :=
  let addr_at offset :=
    and_then (map_err_r AddressRange (calculate_next_addr hostnet_ip offset))
      (λ addr, Ok (net_addr addr)) in
  and_then (addr_at DHCP_POOL_START_OFFSET) (λ start,
  and_then (addr_at dhcp_addr_numbers) (λ end_,
  Ok (start, end_))).

(** A method of the child process, run on the one the handler holds. *)
Definition on_server {E A} (c : Child) (m : eff (Child * W) E A)
    : eff (DnsmasqServerHandler * W) E A := λ s,
  let '(r, (c', w')) := m (c, s.2) in (r, (set_child (Some c') s.1, w')).

Definition with_child (m : eff (Child * W) DnsmasqServerError unit)
    : eff (DnsmasqServerHandler * W) DnsmasqServerError unit :=
  with_state (λ s : DnsmasqServerHandler * W,
    match child s.1 with Some c => on_server c m | None => mret tt end).

(** The handle stays in place after the process is gone. *)
Definition kill_server : eff (DnsmasqServerHandler * W) DnsmasqServerError unit :=
  with_child (map_err KillFail child_kill;; map_err WaitFail child_wait;; mret tt).

Definition spawn_command : eff (DnsmasqServerHandler * W) DnsmasqServerError Child :=
  d ← gets (λ s : DnsmasqServerHandler * W, s.1);
  if bool_decide (is_Some (child d)) then throw AlreadyStarted
  else map_err SpawnFail (zoom snd_lens (process_spawn (command d))).

Definition spawn_server (interface_ip : IpNet) (inteface_name : string)
    : eff (DnsmasqServerHandler * W) DnsmasqServerError unit :=
  d ← gets (λ s : DnsmasqServerHandler * W, s.1);
  range ← try_r (calculate_range_str interface_ip (dhcp_connections_number d));
  modify (λ s : DnsmasqServerHandler * W,
    (set_command (arg ("--dhcp-range=" +:+ IpAddr_to_string range.1 +:+ "," +:+
                       IpAddr_to_string range.2) ∘ arg inteface_name ∘ arg "-i") s.1, s.2));;
  c ← spawn_command;
  modify (λ s : DnsmasqServerHandler * W, (set_child (Some c) s.1, s.2)).

#[global] Instance DnsmasqServerHandler_dhcp_server : DHCPServer W DnsmasqServerHandler := {
  dhcp_start ip name :=
    map_err (λ e, DHCPServerStart (DnsmasqServerError_to_string e)) (spawn_server ip name);
  dhcp_stop := map_err (λ e, DHCPServerStop (DnsmasqServerError_to_string e)) kill_server }.

End dnsmasq.
