(* ===== verification/Udhcpd.v ===== *)
(** * The udhcpd server

    [virtualization/udhcp_server_handler.rs]: a handler for [udhcpd], the DHCP
    server of BusyBox, next to the one for [dnsmasq].  No module declares the
    file, and its [start] does not have the argument for the name of the interface
    that the trait [DHCPServer] has by now, so that it is no instance of the class. *)

From S2P Require Import Prelude IpNet VmRunner Dnsmasq.

Module Udhcpd.

Inductive UDHCPDServerError :=
| InvalidPath
| AlreadyStarted
| SpawnFail (e : IoError)
| KillFail (e : IoError)
| WaitFail (e : IoError).

Definition UDHCPDServerError_to_string (e : UDHCPDServerError) : string :=
  match e with
  | InvalidPath => "Path to Udhcp server is invalid."
  | AlreadyStarted => "Udhcp Server already has been started."
  | SpawnFail e => "Spawning udhcp Server failed: " +:+ io_text e
  | KillFail e => "Failed to kill udhcp Server: " +:+ io_text e
  | WaitFail e => "Failed to wait for udhcp Server exit: " +:+ io_text e
  end.

Section udhcpd.
Context {W Child Pipe LogTask : Type} `{!ProcessApi W Child Pipe LogTask}.

Record UDHCPServerHandler := mkUDHCPServerHandler { command : Command; child : option Child }.
Abbreviation St := (UDHCPServerHandler * W)%type.

Definition new (path_to_exec : PathBuf) : result UDHCPServerHandler UDHCPDServerError :=
  if negb (match file_name path_to_exec with
           | Some str => bool_decide (str = "udhcpd")
           | None => false
           end)
  then Err InvalidPath
  else Ok (mkUDHCPServerHandler (arg "-fS" (mkCommand path_to_exec [])) None).

Definition spawn_dhcp_server : eff St UDHCPDServerError Child :=
  h ← gets (λ s : St, s.1);
  if bool_decide (is_Some (child h)) then throw AlreadyStarted
  else map_err SpawnFail (zoom snd_lens (process_spawn (command h))).

(** The handle stays in place after the process is gone. *)
Definition kill_dhcp_server : eff St UDHCPDServerError unit :=
  with_state (λ s : St,
    match child s.1 with
    | Some c => λ s,
        let '(r, (c', w')) :=
          (map_err KillFail child_kill;; map_err WaitFail child_wait;; mret tt) (c, s.2) in
        (r, (mkUDHCPServerHandler (command s.1) (Some c'), w'))
    | None => mret tt
    end).

(** The arguments are added before it is known whether the server can be started. *)
Definition start (interface_ip : IpNet) : eff St DHCPError unit :=
  modify (λ s : St, (mkUDHCPServerHandler
    (arg (IpAddr_to_string (net_addr interface_ip)) (arg "-I" (command s.1))) (child s.1), s.2));;
  c ← map_err (λ err, DHCPServerStart (UDHCPDServerError_to_string err)) spawn_dhcp_server;
  modify (λ s : St, (mkUDHCPServerHandler (command s.1) (Some c), s.2)).

Definition stop : eff St DHCPError unit :=
  map_err (λ err, DHCPServerStop (UDHCPDServerError_to_string err)) kill_dhcp_server.

(** ** Once only *)

Lemma start_held ip h w c :
  child h = Some c →
  start ip (h, w) =
    (Err (DHCPServerStart (UDHCPDServerError_to_string AlreadyStarted)),
     (mkUDHCPServerHandler (arg (IpAddr_to_string (net_addr ip)) (arg "-I" (command h))) (child h), w)).
Proof.
  intros Hc. unfold start. erewrite bind_ok by reflexivity. apply bind_err, map_err_err.
  eexists. split; [done|]. unfold spawn_dhcp_server. erewrite bind_ok by reflexivity.
  by rewrite bool_decide_true by (simpl; rewrite Hc; eauto).
Qed.

Lemma stop_keeps_child s : is_Some (child s.1) → is_Some (child (stop s).2.1).
Proof.
  intros [c Hc]. unfold stop, map_err, kill_dhcp_server, with_state. rewrite Hc.
  destruct (_ ≫= _) as [r [c' w']]. simpl. eauto.
Qed.

(** A server that has been started is never started again: it still holds its
    process after [stop], whatever came of that, and refuses. *)
Theorem udhcpd_never_restarts ip ip' s s' :
  start ip s = (Ok tt, s') →
  ∃ s'', start ip' (stop s').2 =
    (Err (DHCPServerStart (UDHCPDServerError_to_string AlreadyStarted)), s'').
Proof.
  intros Hrun. assert (is_Some (child s'.1)) as Hc.
  { unfold start in Hrun. erewrite bind_ok in Hrun by reflexivity.
    apply bind_ok_inv in Hrun as (c&s1&_&Hrun). injection Hrun as <-. simpl. eauto. }
  apply stop_keeps_child in Hc as [c Hc]. destruct (stop s').2 as [h w]. eexists.
  by eapply start_held.
Qed.

End udhcpd.
End Udhcpd.
