(* ===== verification/NatManager.v ===== *)
(** * The realms' network

    [virtualization/nat_manager.rs] with [nat_manager/devices.rs],
    [nat_manager/utils.rs], [nat_manager/bridge_handler.rs] and
    [nat_manager/tap_handler.rs]: the bridge, a tap device per realm, the
    packet filter rules ([IpTables]) and the DHCP server ([Dnsmasq]) that
    together are the daemon's [NetworkManager].  The crates [rtnetlink] and
    [tokio_tun] are parameters. *)

From S2P Require Import Prelude VmRunner IpNet IpTables Dnsmasq Fabric.

(** ** devices.rs *)

Inductive BridgeError := AddTap (msg : string) | RemoveTap (msg : string).

Definition BridgeError_to_string (e : BridgeError) : string :=
  match e with
  | AddTap m => "Failed to add tap device to bridge: " +:+ m
  | RemoveTap m => "Failed to delete tap device from bridge: " +:+ m
  end.

(** ** utils.rs *)

(** [rtnetlink]: a connection to the kernel (a handle and the task that
    serves it) and the requests the code makes; [tokio_tun]: a persistent tap
    device that is up.  Errors of the crates are represented by their text. *)
Class NetlinkApi (W Handle Task : Type) := {
  new_connection : eff W IoError (Handle * Task);
  task_abort : Task → W → W;
  link_get : Handle → string → eff W string (option Z);
  link_add_bridge : Handle → string → eff W string unit;
  link_del : Handle → Z → eff W string unit;
  link_set_up : Handle → Z → eff W string unit;
  link_set_controller : Handle → Z → Z → eff W string unit;
  link_set_nocontroller : Handle → Z → eff W string unit;
  address_add : Handle → Z → IpAddr → Z → eff W string unit;
  tun_build : string → eff W string unit }.

Inductive CommonRtNetLinkErrors := ConnectionCreation (e : IoError).
Definition CommonRtNetLinkErrors_to_string (e : CommonRtNetLinkErrors) : string :=
  match e with ConnectionCreation e => "Failed to establish connection: " +:+ io_text e end.

(** ** bridge_handler.rs *)

Inductive RtNetLinkBridgeError :=
| Connection (e : CommonRtNetLinkErrors)
| BridgeCreation (bridge_name err : string)
| BridgeDeletion (bridge_name err : string)
| BridgeIpAssign (bridge_name err : string)
| DeviceIfUp (device_name err : string)
| BridgeAddIf (tap_name err : string)
| BridgeDelIf (tap_name err : string)
| MissingDevice (name : string)
| GetDeviceId (err : string).

Definition RtNetLinkBridgeError_to_string (e : RtNetLinkBridgeError) : string :=
  match e with
  | Connection e =>
      "Error occured while using RtNetLink: " +:+ CommonRtNetLinkErrors_to_string e
  | BridgeCreation n e => "Can't create a bride: " +:+ n +:+ " err: " +:+ e
  | BridgeDeletion n e => "Can't delete a bride: " +:+ n +:+ " err: " +:+ e
  | BridgeIpAssign n e => "Can't assign an ip to a bride: " +:+ n +:+ " err: " +:+ e
  | DeviceIfUp n e => "Can't set up bride: " +:+ n +:+ " err: " +:+ e
  | BridgeAddIf n e => "Failed to add interface: " +:+ n +:+ " to the bridge: " +:+ e
  | BridgeDelIf n e => "Failed to delete interface: " +:+ n +:+ " from the bridge: " +:+ e
  | MissingDevice n => "Missing device: " +:+ n
  | GetDeviceId e => "Error while acquiring device id: " +:+ e
  end.

(** ** tap_handler.rs *)

Inductive RtNetLinkTapError :=
| TapConnection (e : CommonRtNetLinkErrors)
| TapIdAcquire (err : string)
| TapDelete (err : string).

Definition RtNetLinkTapError_to_string (e : RtNetLinkTapError) : string :=
  match e with
  | TapConnection e =>
      "Error occured while using RtNetLink: " +:+ CommonRtNetLinkErrors_to_string e
  | TapIdAcquire e => "Error occured while acquiring tap device id: " +:+ e
  | TapDelete e => "Error occured while deleting tap device: " +:+ e
  end.

Record RtNetLinkBridge := mkRtNetLinkBridge { bridge_name : string }.
Record TapDevice := mkTapDevice { tap_name : string }.

Section netlink.
Context {W Handle Task : Type} `{!NetlinkApi W Handle Task}.

Definition get_handler_and_connection : eff W IoError (Handle * Task) := new_connection.

Definition get_device_id (handle : Handle) (dev_name : string) : eff W string (option Z) :=
  link_get handle dev_name.

(** [connection.abort()]. *)
Definition abort {E} (connection : Task) : eff W E unit := modify (task_abort connection).

(** The opening of a connection, and the index of a device that has to exist;
    the error names the device [reported]. *)
Definition connect : eff W RtNetLinkBridgeError (Handle * Task) :=
  map_err (λ err, Connection (ConnectionCreation err)) get_handler_and_connection.
Definition need_device (handle : Handle) (name reported : string)
    : eff W RtNetLinkBridgeError Z :=
  id ← map_err GetDeviceId (get_device_id handle name);
  try_r (ok_or id (MissingDevice reported)).

(** [RtNetLinkBridge::new]. *)
Definition RtNetLinkBridge_new (name : string) (ip : IpNet)
    : eff W RtNetLinkBridgeError RtNetLinkBridge :=
  c ← connect;
  map_err (BridgeCreation name) (link_add_bridge c.1 name);;
  bridge_id ← need_device c.1 name name;
  map_err (BridgeIpAssign name) (address_add c.1 bridge_id (net_addr ip) (net_prefix_len ip));;
  map_err (DeviceIfUp name) (link_set_up c.1 bridge_id);;
  abort c.2;;
  mret (mkRtNetLinkBridge name).

(** [RtNetLinkBridge::delete_bridge]. *)
Definition RtNetLinkBridge_delete (name : string) : eff W RtNetLinkBridgeError unit :=
  c ← connect;
  bridge_id ← need_device c.1 name name;
  map_err (BridgeDeletion name) (link_del c.1 bridge_id);;
  abort c.2.

(** The inherent methods on tap devices. *)
Definition RtNetLinkBridge_add_tap (b : RtNetLinkBridge) (tap : string)
    : eff W RtNetLinkBridgeError unit :=
  c ← connect;
  bridge_id ← need_device c.1 (bridge_name b) (bridge_name b);
  tap_id ← need_device c.1 tap tap;
  map_err (BridgeAddIf tap) (link_set_controller c.1 tap_id bridge_id);;
  abort c.2.

(** A missing tap device is reported under the bridge's name. *)
Definition RtNetLinkBridge_remove_tap (b : RtNetLinkBridge) (tap : string)
    : eff W RtNetLinkBridgeError unit :=
  c ← connect;
  tap_id ← need_device c.1 tap (bridge_name b);
  map_err (BridgeDelIf tap) (link_set_nocontroller c.1 tap_id);;
  abort c.2.

(** The trait [Bridge]. *)
Definition add_tap_device_to_bridge (b : RtNetLinkBridge) (tap : TapDevice)
    : eff W BridgeError unit :=
  map_err (λ e, AddTap (RtNetLinkBridgeError_to_string e))
    (RtNetLinkBridge_add_tap b (tap_name tap)).
Definition remove_tap_device_from_bridge (b : RtNetLinkBridge) (tap : TapDevice)
    : eff W BridgeError unit :=
  map_err (λ e, RemoveTap (RtNetLinkBridgeError_to_string e))
    (RtNetLinkBridge_remove_tap b (tap_name tap)).

(** [VirtualBridgeHandler]. *)
Definition create_bridge (name : string) (ip : IpNet) : eff W IoError RtNetLinkBridge :=
  map_err (λ e, io_error_other (RtNetLinkBridgeError_to_string e)) (RtNetLinkBridge_new name ip).
Definition delete_bridge (b : RtNetLinkBridge) : eff W IoError unit :=
  map_err (λ e, io_error_other (RtNetLinkBridgeError_to_string e))
    (RtNetLinkBridge_delete (bridge_name b)).

(** [tokio_tun_wrapper::create_tap]. *)
Definition tun_create_tap (name : string) : eff W string TapDevice :=
  tun_build name;; mret (mkTapDevice name).

(** [rtnetlink_wrapper::delete_tap]. *)
Definition rtnetlink_delete_tap (name : string) : eff W RtNetLinkTapError unit :=
  c ← map_err (λ err, TapConnection (ConnectionCreation err)) get_handler_and_connection;
  id ← map_err TapIdAcquire (get_device_id c.1 name);
  match id with
  | Some id => map_err TapDelete (link_del c.1 id)
  | None => mret tt
  end;;
  abort c.2.

(** [TapDeviceFabric]. *)
Definition create_tap (name : string) : eff W IoError TapDevice :=
  map_err io_error_other (tun_create_tap name).
Definition delete_tap (tap : TapDevice) : eff W IoError unit :=
  map_err (λ e, io_error_other (RtNetLinkTapError_to_string e))
    (rtnetlink_delete_tap (tap_name tap)).

End netlink.

(** ** nat_manager.rs *)

Record NetworkManagerHandler (D : Type) := mkNetworkManagerHandler {
  config : NetworkConfig;
  bridge : RtNetLinkBridge;
  dhcp_server : D;
  taps : gmap Uuid TapDevice }.
Arguments mkNetworkManagerHandler {D} _ _ _ _.
Arguments config {D} _.
Arguments bridge {D} _.
Arguments dhcp_server {D} _.
Arguments taps {D} _.

Section nat.
Context {W T Handle Task D : Type}.
Context `{!UuidApi, !IpNetApi, !IpTablesApi W T, !NetlinkApi W Handle Task, !DHCPServer W D}.

Abbreviation NM := (NetworkManagerHandler D).

Definition cleanup_routing (config : NetworkConfig) : eff W NetworkManagerError unit :=
  map_err (λ e, DestroyNatNetwork (IpTableHandlerError_to_string e)) (cleanup_routing_sync config).

Definition prepare_routing (config : NetworkConfig) : eff W NetworkManagerError unit :=
  map_err (λ e, CreateNatNetwork (IpTableHandlerError_to_string e)) (prepare_routing_sync config).

Definition calculate_bridge_addr (hostnet_ip : IpNet) : result IpNet NetworkManagerError :=
  map_err_r (λ err, CreateNatNetwork ("Failed to compute bridge addr: " +:+ err))
    (IpNet_new
       (match net_addr hostnet_ip with
        | V4 ip => V4 (ipv4_saturating_add ip 1)
        | V6 ip => V6 (ipv6_saturating_add ip 1)
        end)
       (net_prefix_len hostnet_ip)).

Definition destroy_bridge (bridge : RtNetLinkBridge) : eff W NetworkManagerError unit :=
  map_err (λ e, DestroyNatNetwork (io_text e)) (delete_bridge bridge).

Definition setup_routing (config : NetworkConfig) (bridge : RtNetLinkBridge)
    : eff W NetworkManagerError unit :=
  r ← attempt (prepare_routing config);
  match r with
  | Err err => destroy_bridge bridge;; throw err
  | Ok _ => mret tt
  end.

Definition handle_dhcp_serve_start (r : result unit DHCPError) (bridge : RtNetLinkBridge)
    (config : NetworkConfig) : eff W NetworkManagerError unit :=
  match r with
  | Err err =>
      destroy_bridge bridge;;
      cleanup_routing config;;
      throw (CreateNatNetwork (DHCPError_to_string err))
  | Ok _ => mret tt
  end.

(** [dhcp_server.start(..)] on a local server: the changed server is handed on. *)
Definition start_server (d : D) (ip : IpNet) (name : string)
    : eff W NetworkManagerError (result unit DHCPError * D) := λ w,
  let '(r, (d', w')) := dhcp_start ip name (d, w) in (Ok (r, d'), w').

Definition create_nat (config : NetworkConfig) (dhcp_server : D) : eff W NetworkManagerError NM :=
  bridge_ip ← try_r (calculate_bridge_addr (net_if_ip config));
  bridge ← map_err (λ e, CreateNatNetwork (io_text e))
             (create_bridge (net_if_name config) bridge_ip);
  setup_routing config bridge;;
  started ← start_server dhcp_server bridge_ip (net_if_name config);
  handle_dhcp_serve_start started.1 bridge config;;
  mret (mkNetworkManagerHandler config bridge started.2 ∅).

Definition set_taps (t : gmap Uuid TapDevice) (n : NM) : NM :=
  mkNetworkManagerHandler (config n) (bridge n) (dhcp_server n) t.
Definition set_dhcp_server (d : D) (n : NM) : NM :=
  mkNetworkManagerHandler (config n) (bridge n) d (taps n).

Definition create_tap_device_for_realm (name : string) (realm_id : Uuid)
    : eff (NM * W) NetworkManagerError unit :=
  tap ← map_err (λ e, CreateTapDevice (io_text e)) (zoom snd_lens (create_tap name));
  b ← gets (λ s : NM * W, bridge s.1);
  map_err (λ e, CreateTapDevice (BridgeError_to_string e))
    (zoom snd_lens (add_tap_device_to_bridge b tap));;
  modify (λ s : NM * W, (set_taps (<[realm_id := tap]> (taps s.1)) s.1, s.2)).

Definition shutdown_tap_device_for_realm (realm_id : Uuid) : eff (NM * W) NetworkManagerError unit :=
  found ← gets (λ s : NM * W, taps s.1 !! realm_id);
  modify (λ s : NM * W, (set_taps (delete realm_id (taps s.1)) s.1, s.2));;
  tap ← try_r (ok_or found
    (DestroyTapDevice ("No tap device for realm: " +:+ uuid_to_string realm_id)));
  b ← gets (λ s : NM * W, bridge s.1);
  map_err (λ e, DestroyTapDevice (BridgeError_to_string e))
    (zoom snd_lens (remove_tap_device_from_bridge b tap));;
  map_err (λ e, DestroyTapDevice (io_text e)) (zoom snd_lens (delete_tap tap)).

Definition shutdown_all_taps : eff (NM * W) NetworkManagerError unit :=
  ids ← gets (λ s : NM * W, (map_to_list (taps s.1)).*1);
  for_each shutdown_tap_device_for_realm ids.

(** The text [error!] prints when a step fails. *)
Definition logged {S E A} (text : E → string) (c : eff S E A) : eff S Empty_set (list string) :=
  r ← attempt c;
  mret (match r with Ok _ => [] | Err e => [text e] end).

Definition dhcp_lens : lens (NM * W) (D * W) := field_lens dhcp_server set_dhcp_server.

(** [shutdown_nat] never fails; its value is what it logs as an error. *)
Definition shutdown_nat : eff (NM * W) Empty_set (list string) :=
  n ← gets (λ s : NM * W, s.1);
  l1 ← logged NetworkManagerError_to_string shutdown_all_taps;
  l2 ← logged (λ e, NetworkManagerError_to_string (DestroyNatNetwork (DHCPError_to_string e)))
         (zoom dhcp_lens dhcp_stop);
  l3 ← logged NetworkManagerError_to_string (zoom snd_lens (destroy_bridge (bridge n)));
  l4 ← logged NetworkManagerError_to_string (zoom snd_lens (cleanup_routing (config n)));
  mret (l1 ++ l2 ++ l3 ++ l4).

(** The handler is the network manager the fabrics use. *)
#[global] Instance NetworkManagerHandler_network_manager : NetworkManager (NM * W) := {
  Fabric.create_tap_device_for_realm := create_tap_device_for_realm;
  Fabric.shutdown_tap_device_for_realm := shutdown_tap_device_for_realm }.

End nat.

(** ** Properties

    What the parts of the host's network promise about each other.  [links w]
    are the network devices with their kernel indices. *)

(** An observation of the world the requests to the kernel do not change. *)
Class NetlinkKeeps {W Handle Task O : Type} `{!NetlinkApi W Handle Task} (obs : W → O) : Prop := {
  new_connection_keeps : steps (same obs) new_connection;
  task_abort_keeps : ∀ t w, obs (task_abort t w) = obs w;
  link_get_keeps : ∀ h n, steps (same obs) (link_get h n);
  link_add_bridge_keeps : ∀ h n, steps (same obs) (link_add_bridge h n);
  link_del_keeps : ∀ h i, steps (same obs) (link_del h i);
  link_set_up_keeps : ∀ h i, steps (same obs) (link_set_up h i);
  link_set_controller_keeps : ∀ h i b, steps (same obs) (link_set_controller h i b);
  link_set_nocontroller_keeps : ∀ h i, steps (same obs) (link_set_nocontroller h i);
  address_add_keeps : ∀ h i a p, steps (same obs) (address_add h i a p);
  tun_build_keeps : ∀ n, steps (same obs) (tun_build n) }.

(** One the commands on the packet filter do not change. *)
Class IpTablesKeeps {W T O : Type} `{!IpTablesApi W T} (obs : W → O) : Prop := {
  iptables_new_keeps : ∀ v6, steps (same obs) (iptables_new v6);
  ipt_chain_exists_keeps : ∀ h t c, steps (same obs) (ipt_chain_exists h t c);
  ipt_new_chain_keeps : ∀ h t c, steps (same obs) (ipt_new_chain h t c);
  ipt_append_replace_keeps : ∀ h t c r, steps (same obs) (ipt_append_replace h t c r);
  ipt_flush_chain_keeps : ∀ h t c, steps (same obs) (ipt_flush_chain h t c);
  ipt_delete_keeps : ∀ h t c r, steps (same obs) (ipt_delete h t c r);
  ipt_delete_chain_keeps : ∀ h t c, steps (same obs) (ipt_delete_chain h t c) }.

(** One the DHCP server does not change. *)
Class DHCPKeeps {W D O : Type} `{!DHCPServer W D} (obs : W → O) : Prop := {
  dhcp_start_keeps : ∀ ip n, steps (same (λ s : D * W, obs s.2)) (dhcp_start ip n);
  dhcp_stop_keeps : steps (same (λ s : D * W, obs s.2)) dhcp_stop }.

(** The effect of the requests that succeed on the devices. *)
Class LinkLaws (W Handle Task : Type) `{!NetlinkApi W Handle Task} := {
  links : W → gmap string Z;
  new_connection_links : steps (same links) new_connection;
  task_abort_links : ∀ t w, links (task_abort t w) = links w;
  link_get_links : ∀ h n w o w', link_get h n w = (Ok o, w') →
    o = links w !! n ∧ links w' = links w;
  link_del_links : ∀ h i w w', link_del h i w = (Ok tt, w') →
    links w' = filter (λ p : string * Z, p.2 ≠ i) (links w);
  link_set_nocontroller_links : ∀ h i, steps (same links) (link_set_nocontroller h i) }.

#[export] Hint Resolve new_connection_keeps link_get_keeps link_add_bridge_keeps link_del_keeps
  link_set_up_keeps link_set_controller_keeps link_set_nocontroller_keeps address_add_keeps
  tun_build_keeps iptables_new_keeps ipt_chain_exists_keeps ipt_new_chain_keeps
  ipt_append_replace_keeps ipt_flush_chain_keeps ipt_delete_keeps ipt_delete_chain_keeps : eff.

Section netlink_keeps.
Context {W Handle Task O : Type} `{!NetlinkApi W Handle Task}.
Context (obs : W → O) `{!NetlinkKeeps obs}.

Lemma abort_keeps {E} t : steps (same obs) (abort t : eff W E unit).
Proof. apply steps_modify. intros w. symmetry. apply task_abort_keeps. Qed.
Hint Resolve abort_keeps : eff.

Lemma need_device_keeps h n r : steps (same obs) (need_device h n r).
Proof. unfold need_device, get_device_id. eff_auto. Qed.
Hint Resolve need_device_keeps : eff.

Lemma create_bridge_keeps n ip : steps (same obs) (create_bridge n ip).
Proof.
  unfold create_bridge, RtNetLinkBridge_new, connect, get_handler_and_connection. eff_auto.
Qed.
Lemma delete_bridge_keeps b : steps (same obs) (delete_bridge b).
Proof.
  unfold delete_bridge, RtNetLinkBridge_delete, connect, get_handler_and_connection. eff_auto.
Qed.
Lemma add_tap_keeps b t : steps (same obs) (add_tap_device_to_bridge b t).
Proof.
  unfold add_tap_device_to_bridge, RtNetLinkBridge_add_tap, connect, get_handler_and_connection.
  eff_auto.
Qed.
Lemma remove_tap_keeps b t : steps (same obs) (remove_tap_device_from_bridge b t).
Proof.
  unfold remove_tap_device_from_bridge, RtNetLinkBridge_remove_tap, connect,
    get_handler_and_connection. eff_auto.
Qed.
Lemma create_tap_keeps n : steps (same obs) (create_tap n).
Proof. unfold create_tap, tun_create_tap. eff_auto. Qed.
Lemma delete_tap_keeps t : steps (same obs) (delete_tap t).
Proof. unfold delete_tap, rtnetlink_delete_tap, get_handler_and_connection, get_device_id. eff_auto. Qed.
End netlink_keeps.

#[export] Hint Resolve create_bridge_keeps delete_bridge_keeps add_tap_keeps remove_tap_keeps
  create_tap_keeps delete_tap_keeps : eff.

Lemma cleanup_routing_sync_keeps {W T O} `{!IpNetApi, !IpTablesApi W T} (obs : W → O)
    `{!IpTablesKeeps obs} c : steps (same obs) (cleanup_routing_sync c).
Proof.
  unfold cleanup_routing_sync, NatIpTableManager_new, FilterIpTableManager_new,
    MangleTableManager_new, nat_remove_ip_table_rules, filter_remove_ip_table_rules,
    mangle_remove_ip_table_rules, delete_chain, delete_chains, for_chain.
  eff_auto.
Qed.

Section devices.
Context {W Handle Task : Type} `{!NetlinkApi W Handle Task, !LinkLaws W Handle Task}.

Lemma links_connect {E} (f : IoError → E) w c w' :
  map_err f get_handler_and_connection w = (Ok c, w') → links w' = links w.
Proof. intros Hrun%map_err_ok. symmetry. by eapply (steps_run _ _ _ _ _ new_connection_links). Qed.

Lemma links_need_device h n r w i w' :
  need_device h n r w = (Ok i, w') → links w !! n = Some i ∧ links w' = links w.
Proof.
  unfold need_device, get_device_id. intros Hrun. apply bind_ok_inv in Hrun as (o&w1&Hg&Hrun).
  apply map_err_ok, link_get_links in Hg as [-> Hl]. unfold try_r in Hrun. rewrite <-Hl.
  destruct (links w !! n) as [j|] eqn:Hn; simplify_eq/=. by rewrite Hl.
Qed.

Lemma links_del h n i w w' :
  links w !! n = Some i → link_del h i w = (Ok tt, w') →
  links w' !! n = None ∧ links w' ⊆ links w.
Proof.
  intros Hn ->%link_del_links. split; [|apply map_filter_subseteq].
  apply map_lookup_filter_None. right. intros j Hj. simpl. rewrite Hn in Hj. naive_solver.
Qed.

Lemma delete_bridge_links b w w' :
  delete_bridge b w = (Ok tt, w') → links w' !! bridge_name b = None ∧ links w' ⊆ links w.
Proof.
  unfold delete_bridge, RtNetLinkBridge_delete. intros Hrun%map_err_ok.
  apply bind_ok_inv in Hrun as (c&w1&Hc&Hrun). apply links_connect in Hc.
  apply bind_ok_inv in Hrun as (i&w2&Hi&Hrun). apply links_need_device in Hi as [Hi Hl].
  apply bind_ok_inv in Hrun as ([]&w3&Hd&Hrun). apply map_err_ok in Hd. injection Hrun as <-.
  rewrite task_abort_links, <-Hc, <-Hl. apply (links_del c.1 _ i); [by rewrite Hl|done].
Qed.

Lemma remove_tap_links b t w w' :
  remove_tap_device_from_bridge b t w = (Ok tt, w') → links w' = links w.
Proof.
  unfold remove_tap_device_from_bridge, RtNetLinkBridge_remove_tap. intros Hrun%map_err_ok.
  apply bind_ok_inv in Hrun as (c&w1&Hc&Hrun). apply links_connect in Hc.
  apply bind_ok_inv in Hrun as (i&w2&Hi&Hrun). apply links_need_device in Hi as [Hi Hl].
  apply bind_ok_inv in Hrun as ([]&w3&Hd&Hrun). apply map_err_ok in Hd. injection Hrun as <-.
  rewrite task_abort_links, <-Hc, <-Hl. symmetry.
  by apply (steps_run _ _ _ _ _ (link_set_nocontroller_links _ _) Hd).
Qed.

Lemma delete_tap_links t w w' :
  delete_tap t w = (Ok tt, w') → links w' !! tap_name t = None ∧ links w' ⊆ links w.
Proof.
  unfold delete_tap, rtnetlink_delete_tap, get_device_id. intros Hrun%map_err_ok.
  apply bind_ok_inv in Hrun as (c&w1&Hc&Hrun). apply links_connect in Hc.
  apply bind_ok_inv in Hrun as (o&w2&Hg&Hrun). apply map_err_ok, link_get_links in Hg as [-> Hl].
  apply bind_ok_inv in Hrun as ([]&w3&Hd&Hrun). injection Hrun as <-.
  rewrite task_abort_links, <-Hc, <-Hl. destruct (links w1 !! tap_name t) as [i|] eqn:Hn.
  - apply map_err_ok in Hd. apply (links_del c.1 _ i); [by rewrite Hl|done].
  - injection Hd as <-. by rewrite Hl.
Qed.

End devices.

Section network.
Context {W T Handle Task D : Type}.
Context `{!UuidApi, !IpNetApi, !IpTablesApi W T, !NetlinkApi W Handle Task, !DHCPServer W D}.
Context `{!IpTablesLaws W T, !LinkLaws W Handle Task}.
Context `{!IpTablesKeeps links, !DHCPKeeps links}.
Context `{!∀ v6, NetlinkKeeps (ipt_rules v6), !∀ v6, DHCPKeeps (ipt_rules v6)}.

Abbreviation NM := (NetworkManagerHandler D).

(** What the methods on tap devices leave alone. *)
Definition nat_frame (v6 : bool) (s : NM * W) : NetworkConfig * RtNetLinkBridge * Tables :=
  (config s.1, bridge s.1, ipt_rules v6 s.2).

Lemma zoom_nat_frame {E A} v6 (c : eff W E A) :
  steps (same (ipt_rules v6)) c → steps (same (nat_frame v6)) (zoom snd_lens c).
Proof.
  intros Hc [n w]. unfold zoom, same, nat_frame. specialize (Hc w). simpl in *.
  destruct (c w) as [r w']. simpl in *. unfold same in Hc. by rewrite Hc.
Qed.
Hint Resolve zoom_nat_frame : eff.

Lemma create_tap_frame v6 n u : steps (same (nat_frame v6)) (create_tap_device_for_realm n u).
Proof.
  unfold create_tap_device_for_realm. eff_auto.
  intros _. by apply steps_modify.
Qed.

Lemma shutdown_tap_frame v6 u : steps (same (nat_frame v6)) (shutdown_tap_device_for_realm u).
Proof.
  unfold shutdown_tap_device_for_realm. eff_auto.
  by apply steps_modify.
Qed.

(** The calls the realms' life cycle makes, whatever they return. *)
Inductive tap_step : NM * W → NM * W → Prop :=
| tap_created name u s : tap_step s (create_tap_device_for_realm name u s).2
| tap_shut_down u s : tap_step s (shutdown_tap_device_for_realm u s).2.

Lemma tap_steps_frame v6 s s' : rtc tap_step s s' → nat_frame v6 s' = nat_frame v6 s.
Proof.
  induction 1 as [s|s s1 s2 Hs _ IH]; [done|]. rewrite IH. symmetry.
  destruct Hs; [apply create_tap_frame|apply shutdown_tap_frame].
Qed.

Lemma shutdown_tap_ok u (s s' : NM * W) :
  shutdown_tap_device_for_realm u s = (Ok tt, s') →
  taps s'.1 = delete u (taps s.1) ∧ links s'.2 ⊆ links s.2 ∧
  ∀ t, taps s.1 !! u = Some t → links s'.2 !! tap_name t = None.
Proof.
  unfold shutdown_tap_device_for_realm. intros Hrun. run_gets Hrun. run_gets Hrun.
  destruct s as [n w]. simpl in *. destruct (taps n !! u) as [t|]; [|by run_inv].
  run_gets Hrun. run_gets Hrun. apply bind_ok_inv in Hrun as ([]&s1&Hr&Hd).
  apply map_err_ok, zoom_inv in Hr as (w1&Hr&->). apply map_err_ok, zoom_inv in Hd as (w2&Hd&->).
  simpl in *. apply remove_tap_links in Hr. apply delete_tap_links in Hd as [Hn Hs].
  rewrite Hr in Hs. split_and!; [done..|]. by intros ? [= <-].
Qed.

Lemma shutdown_taps_ok ids (s s' : NM * W) :
  for_each shutdown_tap_device_for_realm ids s = (Ok tt, s') →
  links s'.2 ⊆ links s.2 ∧ (∀ u, u ∈ ids → taps s'.1 !! u = None) ∧
  (∀ u, u ∉ ids → taps s'.1 !! u = taps s.1 !! u) ∧
  ∀ u t, u ∈ ids → taps s.1 !! u = Some t → links s'.2 !! tap_name t = None.
Proof.
  revert s. induction ids as [|v ids IH]; intros s Hrun; simpl in Hrun.
  { run_inv. split_and!; set_solver. }
  apply bind_ok_inv in Hrun as ([]&s1&Hv&Hrun). apply shutdown_tap_ok in Hv as (Ht&Hl&Hn).
  apply IH in Hrun as (Hl'&Hin&Hout&Hn'). rewrite Ht in Hout, Hn'. split_and!.
  - by trans (links s1.2).
  - intros u Hu. destruct (decide (u ∈ ids)); [by apply Hin|]. rewrite Hout by done.
    assert (u = v) as -> by set_solver. apply lookup_delete_eq.
  - intros u Hu. rewrite Hout by set_solver. apply lookup_delete_ne. set_solver.
  - intros u t Hu Hut. destruct (decide (u = v)) as [->|Hne].
    + eapply lookup_weaken_None; [by apply Hn|done].
    + apply (Hn' u); [set_solver|]. by rewrite lookup_delete_ne.
Qed.

Lemma logged_nil {S E A} (text : E → string) (c : eff S E A) s s' :
  logged text c s = (Ok [], s') → ∃ a, c s = (Ok a, s').
Proof.
  unfold logged, attempt. intros Hrun. apply bind_ok_inv in Hrun as (r&s1&Hr&Hrun).
  destruct (c s) as [r' s2]. simplify_eq. injection Hrun as Ht ->. destruct r; naive_solver.
Qed.

Lemma create_nat_ok v6 cfg d w n w1 :
  create_nat cfg d w = (Ok n, w1) →
  config n = cfg ∧ bridge n = mkRtNetLinkBridge (net_if_name cfg) ∧
  ∃ w2 w3, ipt_rules v6 w2 = ipt_rules v6 w ∧ prepare_routing_sync cfg w2 = (Ok tt, w3) ∧
    ipt_rules v6 w1 = ipt_rules v6 w3.
Proof.
  unfold create_nat. intros Hrun. apply bind_ok_inv in Hrun as (ip&w0&Hip&Hrun).
  injection Hip as Hip <-. apply bind_ok_inv in Hrun as (b&w2&Hb&Hrun). apply map_err_ok in Hb.
  apply bind_ok_inv in Hrun as ([]&w3&Hr&Hrun). apply bind_ok_inv in Hrun as ([r d']&w4&Hs&Hrun).
  apply bind_ok_inv in Hrun as ([]&w5&Hh&Hrun). injection Hrun as <- <-. simpl in *.
  assert (b = mkRtNetLinkBridge (net_if_name cfg) ∧ ipt_rules v6 w2 = ipt_rules v6 w) as [-> Hw2].
  { split; [by unfold create_bridge, RtNetLinkBridge_new in Hb; run_inv|]. symmetry.
    by apply (steps_run _ _ _ _ _ (create_bridge_keeps (ipt_rules v6) _ _) Hb). }
  split_and!; [done..|]. exists w2, w3. split; [done|]. split.
  - unfold setup_routing, prepare_routing, attempt in Hr.
    apply bind_ok_inv in Hr as (r'&w6&Hp&Hr).
    destruct (map_err _ _ w2) as [p w7] eqn:Hm. simplify_eq. destruct r' as [[]|e]; run_inv. done.
  - unfold start_server in Hs.
    pose proof (dhcp_start_keeps (obs := ipt_rules v6) ip (net_if_name cfg) (d, w3)) as Hk.
    destruct (dhcp_start _ _ _) as [r' [d'' w6]]. simplify_eq. unfold same in Hk. simpl in Hk.
    destruct r as [[]|e]; simpl in Hh; by run_inv.
Qed.

(** What a [create_nat] that fails leaves, when it could take back what it had done:
    the packet filter as it was, or, when the insertion of the rules failed, what that
    has left of them; the bridge is gone then. *)
Definition nat_leftovers (v6 : bool) (cfg : NetworkConfig) (w w' : W) : Prop :=
  ipt_rules v6 w' = ipt_rules v6 w ∨
  ∃ w1 e w2, ipt_rules v6 w1 = ipt_rules v6 w ∧ prepare_routing_sync cfg w1 = (Err e, w2) ∧
    ipt_rules v6 w' = ipt_rules v6 w2 ∧ links w' !! net_if_name cfg = None.

Lemma destroy_bridge_ok v6 b w w' :
  destroy_bridge b w = (Ok tt, w') →
  ipt_rules v6 w' = ipt_rules v6 w ∧ links w' !! bridge_name b = None.
Proof.
  unfold destroy_bridge. intros Hd%map_err_ok. split.
  - symmetry. by apply (steps_run _ _ _ _ _ (delete_bridge_keeps (ipt_rules v6) _) Hd).
  - by apply delete_bridge_links in Hd as [? _].
Qed.

Lemma create_nat_err v6 cfg d w err w' :
  v6 = is_ipv6 (net_addr (net_if_ip cfg)) → fresh_routing (net_if_name cfg) (ipt_rules v6 w) →
  create_nat cfg d w = (Err err, w') → (∀ text, err ≠ DestroyNatNetwork text) →
  nat_leftovers v6 cfg w w'.
Proof.
  intros Hv Hfresh Hrun Herr. unfold create_nat in Hrun.
  apply bind_err_inv in Hrun as [Hrun|(ip&w0&Hip&Hrun)]; [injection Hrun as _ <-; by left|].
  injection Hip as Hip <-.
  apply bind_err_inv in Hrun as [Hrun|(b&w2&Hb&Hrun)].
  { apply map_err_err in Hrun as (e&_&Hrun). left. symmetry.
    by apply (steps_run _ _ _ _ _ (create_bridge_keeps (ipt_rules v6) _ _) Hrun). }
  apply map_err_ok in Hb.
  assert (b = mkRtNetLinkBridge (net_if_name cfg) ∧ ipt_rules v6 w2 = ipt_rules v6 w) as [-> Hw2].
  { split; [by unfold create_bridge, RtNetLinkBridge_new in Hb; run_inv|]. symmetry.
    by apply (steps_run _ _ _ _ _ (create_bridge_keeps (ipt_rules v6) _ _) Hb). }
  unfold setup_routing, prepare_routing in Hrun.
  destruct (prepare_routing_sync cfg w2) as [p w3] eqn:Hp.
  apply bind_err_inv in Hrun as [Hrun|([]&w4&Hr&Hrun)].
  - erewrite bind_ok in Hrun by (unfold attempt, map_err; rewrite Hp; reflexivity).
    destruct p as [[]|e]; [done|]. simpl in Hrun. apply bind_err_inv in Hrun as [Hrun|([]&w4&Hd&Hrun)].
    { apply map_err_err in Hrun as (?&->&_). by edestruct Herr. }
    injection Hrun as _ <-. apply (destroy_bridge_ok v6) in Hd as [Hd Hl]. right. by exists w2, e, w3.
  - erewrite bind_ok in Hr by (unfold attempt, map_err; rewrite Hp; reflexivity).
    destruct p as [[]|e]; [injection Hr as <-|by simpl in Hr; run_inv].
    apply bind_err_inv in Hrun as [Hrun|([r d']&w4&Hs&Hrun)]; [unfold start_server in Hrun; by repeat case_match|].
    assert (ipt_rules v6 w4 = ipt_rules v6 w3) as Hw4.
    { unfold start_server in Hs.
      pose proof (dhcp_start_keeps (obs := ipt_rules v6) ip (net_if_name cfg) (d, w3)) as Hk.
      destruct (dhcp_start _ _ _) as [r' [d'' w6]]. by simplify_eq. }
    apply bind_err_inv in Hrun as [Hrun|(?&?&_&Hrun)]; [|by run_inv]. simpl in Hrun.
    destruct r as [|e]; [done|]. simpl in Hrun. apply bind_err_inv in Hrun as [Hrun|([]&w5&Hd&Hrun)].
    { apply map_err_err in Hrun as (?&->&_). by edestruct Herr. }
    apply (destroy_bridge_ok v6) in Hd as [Hd _].
    apply bind_err_inv in Hrun as [Hrun|([]&w6&Hc&Hrun)].
    { apply map_err_err in Hrun as (?&->&_). by edestruct Herr. }
    injection Hrun as _ <-. unfold cleanup_routing in Hc. apply map_err_ok in Hc. left.
    destruct cfg as [name a]. simpl in *. rewrite <-Hw2 in Hfresh |- *.
    eapply (routing_restored v6 _ _ _ _ _ _ Hv Hfresh Hp); [|exact Hc]. congruence.
Qed.

(** The network is gone when [shutdown_nat] has logged nothing. *)
Lemma shutdown_nat_ok v6 (s s' : NM * W) :
  shutdown_nat s = (Ok [], s') →
  taps s'.1 = ∅ ∧ links s'.2 !! bridge_name (bridge s.1) = None ∧
  (∀ u t, taps s.1 !! u = Some t → links s'.2 !! tap_name t = None) ∧
  ∃ w1, ipt_rules v6 w1 = ipt_rules v6 s.2 ∧ cleanup_routing_sync (config s.1) w1 = (Ok tt, s'.2).
Proof.
  unfold shutdown_nat. intros Hrun. run_gets Hrun.
  apply bind_ok_inv in Hrun as (l1&s1&Hr1&Hrun). apply bind_ok_inv in Hrun as (l2&s2&Hr2&Hrun).
  apply bind_ok_inv in Hrun as (l3&s3&Hr3&Hrun). apply bind_ok_inv in Hrun as (l4&s4&Hr4&Hrun).
  injection Hrun as (->&(->&(->&->)%app_eq_nil)%app_eq_nil)%app_eq_nil ->.
  apply logged_nil in Hr1 as [[] Hr1], Hr2 as [[] Hr2], Hr3 as [[] Hr3], Hr4 as [[] Hr4].
  apply zoom_inv in Hr2 as ([d2 w2]&Hr2&->), Hr3 as (w3&Hr3&->), Hr4 as (w4&Hr4&->). simpl in *.
  apply map_err_ok in Hr3, Hr4.
  pose proof (steps_run _ _ _ _ _ (dhcp_stop_keeps (obs := links)) Hr2) as Hl2.
  pose proof (steps_run _ _ _ _ _ (dhcp_stop_keeps (obs := ipt_rules v6)) Hr2) as Ht2.
  pose proof (steps_run _ _ _ _ _ (delete_bridge_keeps (ipt_rules v6) _) Hr3) as Ht3.
  pose proof (steps_run _ _ _ _ _ (cleanup_routing_sync_keeps links _) Hr4) as Hl4.
  apply delete_bridge_links in Hr3 as [Hb Hl3]. unfold same in *. simpl in *.
  unfold shutdown_all_taps in Hr1. run_gets Hr1.
  assert (steps (same (nat_frame v6)) (for_each shutdown_tap_device_for_realm
    (map_to_list (taps s.1)).*1)) as Hf by (apply steps_for_each; [apply _|apply shutdown_tap_frame]).
  apply (steps_run _ _ _ _ _ Hf) in Hr1 as Ht1. injection Ht1 as _ _ Ht1.
  apply shutdown_taps_ok in Hr1 as (_&Hin&Hout&Hgone).
  assert (∀ u t, taps s.1 !! u = Some t → u ∈ (map_to_list (taps s.1)).*1) as Hall.
  { intros u t Hu. apply list_elem_of_fmap. exists (u, t). split; [done|]. by apply elem_of_map_to_list. }
  rewrite <-Hl4. split_and!.
  - apply map_eq. intros u. rewrite lookup_empty. destruct (taps s.1 !! u) as [t|] eqn:Hu.
    + apply Hin. by eapply Hall.
    + destruct (decide (u ∈ (map_to_list (taps s.1)).*1)); [by apply Hin|]. by rewrite Hout.
  - done.
  - intros u t Hu. eapply lookup_weaken_None; [|exact Hl3]. rewrite <-Hl2. eauto.
  - exists w3. split; [congruence|done].
Qed.

(** Whatever has become of the network manager since [create_nat] but for its
    configuration and its bridge: a shutdown that logs nothing cleans up. *)
Lemma shutdown_cleans v6 cfg d w n w1 (s : NM * W) :
  v6 = is_ipv6 (net_addr (net_if_ip cfg)) → fresh_routing (net_if_name cfg) (ipt_rules v6 w) →
  create_nat cfg d w = (Ok n, w1) → nat_frame v6 s = nat_frame v6 (n, w1) →
  (shutdown_nat s).1 = Ok [] →
  ipt_rules v6 (shutdown_nat s).2.2 = ipt_rules v6 w ∧
  links (shutdown_nat s).2.2 !! net_if_name cfg = None ∧ taps (shutdown_nat s).2.1 = ∅ ∧
  ∀ u t, taps s.1 !! u = Some t → links (shutdown_nat s).2.2 !! tap_name t = None.
Proof.
  intros Hv Hfresh Hn Hframe Hok. injection Hframe as Hcfg Hbr Ht.
  apply (create_nat_ok v6) in Hn as (Hc&Hbn&w3&w4&Hw3&Hp&Hw1).
  destruct (shutdown_nat s) as [r' s'] eqn:Hsd. simpl in Hok. subst r'.
  apply (shutdown_nat_ok v6) in Hsd as (Htaps&Hl&Hg&w5&Hw5&Hcl). simpl in *.
  rewrite Hcfg, Hc in Hcl. rewrite Hbr, Hbn in Hl. split_and!; [|done..].
  destruct cfg as [name ip]. simpl in *. rewrite <-Hw3 in Hfresh |- *.
  eapply (routing_restored v6 _ _ _ _ _ _ Hv Hfresh Hp); [|exact Hcl]. congruence.
Qed.

(** C31.  Once [create_nat] has set the network up on a host where nothing of the
    interface is in the packet filter, and however many tap devices have been
    created and shut down since, successfully or not: when [shutdown_nat] logs
    no error, the tables of the packet filter are what they were before
    [create_nat], and the bridge and every recorded tap device are gone. *)
Theorem shutdown_nat_cleans cfg d w n w1 (s s' : NM * W) :
  let v6 := is_ipv6 (net_addr (net_if_ip cfg)) in
  fresh_routing (net_if_name cfg) (ipt_rules v6 w) →
  create_nat cfg d w = (Ok n, w1) → rtc tap_step (n, w1) s → shutdown_nat s = (Ok [], s') →
  ipt_rules v6 s'.2 = ipt_rules v6 w ∧ links s'.2 !! net_if_name cfg = None ∧ taps s'.1 = ∅ ∧
  ∀ u t, taps s.1 !! u = Some t → links s'.2 !! tap_name t = None.
Proof.
  intros v6 Hfresh Hc Hs Hsd. apply (tap_steps_frame v6) in Hs.
  pose proof (shutdown_cleans v6 cfg d w n w1 s eq_refl Hfresh Hc Hs) as Hcl.
  rewrite Hsd in Hcl. by apply Hcl.
Qed.

(** A chain of the interface that is left over in the filter table, as by a
    failed start (on an error in the middle of the rules [setup_routing]
    removes the bridge but not the rules), keeps every later [create_nat] from
    succeeding. *)
Theorem leftover_chain_blocks_create_nat cfg d w c :
  let v6 := is_ipv6 (net_addr (net_if_ip cfg)) in
  c ∈ own_chains (net_if_name cfg) FILTER_TABLE →
  is_Some (ipt_rules v6 w !! (FILTER_TABLE, c)) →
  ∃ e, (create_nat cfg d w).1 = Err e.
Proof.
  intros v6 Hc Hsome. destruct (create_nat cfg d w) as [[n|e] w1] eqn:Hrun; [exfalso|by exists e].
  apply (create_nat_ok v6) in Hrun as (_&_&w2&w3&Hw2&Hp&_). destruct cfg as [name ip].
  apply (prepare_needs_filter v6 _ _ _ _ eq_refl) with (c := c) in Hp; [|done].
  rewrite Hw2 in Hp. simpl in *. rewrite Hp in Hsome. by destruct Hsome.
Qed.

End network.

(** ** The address pool *)

Section pool.
Context {W Child Pipe LogTask : Type}.
Context `{!IpNetApi, !IpNetLaws, !ProcessApi W Child Pipe LogTask}.

Lemma next_addr_v4 a p n :
  is_u32 a → (0 ≤ p ≤ 32)%Z → (0 ≤ n)%Z →
  calculate_next_addr (mkIpNet (V4 a) p) n = Ok (mkIpNet (V4 (Z.min (a + n) u32_max)) p).
Proof.
  intros Ha Hp Hn. unfold calculate_next_addr. simpl. unfold is_u32 in Ha.
  rewrite ipv4_saturating_add_ok by lia. by apply IpNet_new_ok.
Qed.

Lemma bridge_addr_v4 a p :
  is_u32 a → (0 ≤ p ≤ 32)%Z →
  calculate_bridge_addr (mkIpNet (V4 a) p) = Ok (mkIpNet (V4 (Z.min (a + 1) u32_max)) p).
Proof.
  intros Ha Hp. unfold calculate_bridge_addr. simpl. unfold is_u32 in Ha.
  rewrite ipv4_saturating_add_ok by lia. by rewrite IpNet_new_ok.
Qed.

(** A network of at least 256 addresses ends before the last address. *)
Lemma network_bounds a p :
  is_u32 a → (0 ≤ p ≤ 24)%Z → (2 ^ (32 - p) | a)%Z →
  (256 ≤ 2 ^ (32 - p))%Z ∧ (a + 2 ^ (32 - p) ≤ 2 ^ 32)%Z.
Proof.
  intros Ha Hp [k ->]. unfold is_u32, u32_max in Ha.
  assert (2 ^ 8 ≤ 2 ^ (32 - p))%Z by (apply Z.pow_le_mono_r; lia).
  assert (2 ^ 32 = 2 ^ p * 2 ^ (32 - p))%Z as Hpow by (rewrite <-Z.pow_add_r by lia; f_equal; lia).
  split; [lia|]. assert (k < 2 ^ p)%Z by (apply (Z.mul_lt_mono_pos_r (2 ^ (32 - p))); lia).
  rewrite Hpow. nia.
Qed.

Lemma spawn_server_command ip name (d : DnsmasqServerHandler (Child := Child)) w d' w' s e :
  calculate_range_str ip (dhcp_connections_number d) = Ok (s, e) →
  dhcp_start ip name (d, w) = (Ok tt, (d', w')) →
  ∃ cmd c, process_spawn cmd w = (Ok c, w') ∧ child d' = Some c ∧
    args cmd = args (command d) ++
      ["-i"; name; "--dhcp-range=" +:+ IpAddr_to_string s +:+ "," +:+ IpAddr_to_string e].
Proof.
  intros Hr Hrun. simpl in Hrun. apply map_err_ok in Hrun. unfold spawn_server in Hrun.
  run_gets Hrun. rewrite Hr in Hrun. run_gets Hrun. run_gets Hrun.
  apply bind_ok_inv in Hrun as (c&[d1 w1]&Hs&Hm). injection Hm as <- <-.
  unfold spawn_command in Hs. run_gets Hs. destruct (child d) eqn:Hc; simpl in Hs; [done|].
  apply map_err_ok, zoom_inv in Hs as (w2&Hs&[= -> ->]). simpl in Hs.
  eexists _, c. split_and!; [exact Hs|done|]. simpl. by rewrite <-!app_assoc.
Qed.

(** C33.  For an IPv4 network address of prefix length at most 24 and a number of
    clients in the range the command line accepts, the pool handed to
    [dnsmasq] has exactly that many addresses; all of them belong to the
    network, and none is the network's own address, its broadcast address or
    the bridge's.  The child process is spawned with that range on the bridge's
    interface. *)
Theorem dhcp_pool a p n :
  is_u32 a → (0 ≤ p ≤ 24)%Z → (2 ^ (32 - p) | a)%Z → (2 ≤ n < 253)%Z →
  ∃ b s e, calculate_bridge_addr (mkIpNet (V4 a) p) = Ok b ∧
    calculate_range_str b n = Ok (V4 s, V4 e) ∧ (e - s + 1 = n)%Z ∧
    (∀ x, (s ≤ x ≤ e)%Z →
       (x / 2 ^ (32 - p) = a / 2 ^ (32 - p))%Z ∧ x ≠ a ∧ x ≠ (a + 2 ^ (32 - p) - 1)%Z ∧
       V4 x ≠ net_addr b) ∧
    (∀ name (d d' : DnsmasqServerHandler (Child := Child)) w w',
       dhcp_connections_number d = n → dhcp_start b name (d, w) = (Ok tt, (d', w')) →
       ∃ cmd c, process_spawn cmd w = (Ok c, w') ∧ child d' = Some c ∧
         args cmd = args (command d) ++
           ["-i"; name; "--dhcp-range=" +:+ ipv4_to_string s +:+ "," +:+ ipv4_to_string e]).
Proof.
  intros Ha Hp Hdiv Hn. pose proof (network_bounds a p Ha Hp Hdiv) as [Hsz Hend].
  unfold is_u32 in Ha. assert (u32_max = 2 ^ 32 - 1)%Z as Hmax by done.
  exists (mkIpNet (V4 (a + 1)) p), (a + 2)%Z, (a + 1 + n)%Z.
  assert (calculate_range_str (mkIpNet (V4 (a + 1)) p) n = Ok (V4 (a + 2), V4 (a + 1 + n))) as Hr.
  { unfold calculate_range_str, DHCP_POOL_START_OFFSET.
    rewrite !next_addr_v4 by (unfold is_u32; lia). simpl. rewrite !Z.min_l by lia.
    by rewrite <-Z.add_assoc. }
  split_and!; [|done|lia| |].
  - rewrite bridge_addr_v4 by (unfold is_u32; lia). by rewrite Z.min_l by lia.
  - intros x Hx. split_and!; [|lia|lia|intros [=]; lia]. destruct Hdiv as [k ->].
    symmetry. rewrite Z.div_mul by lia. apply (Z.div_unique _ _ k (x - k * 2 ^ (32 - p))); lia.
  - intros name d d' w w' <- Hd. by apply (spawn_server_command _ _ _ _ _ _ _ _ Hr Hd).
Qed.

End pool.
