(* ===== verification/UnixSocketServer.v ===== *)
(** * The daemon's Unix socket server

    [warden_daemon/src/socket/unix_socket_server.rs]: clients connect to a
    listening socket, and every connection is served by a task of its own,
    collected in a [JoinSet].  The tasks and the server are a state machine; what
    a client's task does with a command is the subject of [ClientHandler], here
    it only matters whether it is waiting for a command or working on one. *)

From S2P Require Import Prelude.

Inductive UnixSocketServerError := SocketFail (e : IoError).
Definition UnixSocketServerError_to_string (e : UnixSocketServerError) : string :=
  match e with SocketFail e => "Socket operation failed: " +:+ io_text e end.

(** [std::fs] and [tokio::net::UnixListener]. *)
Class UnixSocketApi (W L : Type) := {
  path_exists : PathBuf → W → bool;
  remove_file : PathBuf → eff W IoError unit;
  unix_listener_bind : PathBuf → eff W IoError L }.

Record UnixSocketServer (L : Type) := mkUnixSocketServer { listener : L }.
Arguments mkUnixSocketServer {L} _.
Arguments listener {L} _.

Section listener.
Context {W L : Type} `{!UnixSocketApi W L}.

Definition create_listener (socket : PathBuf) : eff W UnixSocketServerError L :=
  found ← gets (path_exists socket);
  (if found : bool then map_err SocketFail (remove_file socket) else mret tt);;
  map_err SocketFail (unix_listener_bind socket).

Definition new (socket : PathBuf) : eff W UnixSocketServerError (UnixSocketServer L) :=
  l ← create_listener socket;
  mret (mkUnixSocketServer l).

End listener.

(** ** Serving *)

(** A client's task ([ClientHandler::handle_client_requests]): at its [select!],
    working on a command of type [C], or ended. *)
Inductive ClientTask (C : Type) := Reading | Working (command : C) | Ended.
Arguments Reading {C}.
Arguments Working {C} _.
Arguments Ended {C}.

(** [listen]: its loop, the [join_next] loop behind it, or ended. *)
Inductive ServerPhase := Listening | Draining | Stopped.
#[global] Instance ServerPhase_eq_dec : EqDecision ServerPhase.
Proof. solve_decision. Defined.

(** The server with its [JoinSet] and the world the commands work on. *)
Record Server (C S : Type) := mkServer {
  phase : ServerPhase;
  clients_set : list (ClientTask C);
  shared : S }.
Arguments mkServer {C S} _ _ _.
Arguments phase {C S} _.
Arguments clients_set {C S} _.
Arguments shared {C S} _.

(** What makes a step happen: a connection or a command that arrives, a socket that
    fails, a signal to the daemon, or nothing from outside. *)
Inductive Cause := Arrival | Failure | Signalled | Work.
#[global] Instance Cause_eq_dec : EqDecision Cause.
Proof. solve_decision. Defined.

Section server.
Context {C S : Type}.
(** What completing a command may do to the world. *)
Context (command_run : C → S → S → Prop).

Abbreviation Srv := (Server C S).

(** One step of the server or of a client; [cancelled] is the state of the
    cancellation token. *)
Inductive server_step (cancelled : bool) : Cause → Srv → Srv → Prop :=
| accept_client cs s :
    server_step cancelled Arrival (mkServer Listening cs s) (mkServer Listening (cs ++ [Reading]) s)
(** The error of [accept] leaves [listen]; dropping the [JoinSet] aborts the clients. *)
| accept_fails cs s :
    server_step cancelled Failure (mkServer Listening cs s) (mkServer Stopped cs s)
(** An aborted task ends where it waits next: the command it works on has been
    completed by then (see [command_answered]) or is given up. *)
| client_aborted cs1 c cs2 s :
    server_step cancelled Work (mkServer Stopped (cs1 ++ c :: cs2) s) (mkServer Stopped (cs1 ++ cs2) s)
| client_joined p cs1 cs2 s :
    p ≠ Stopped →
    server_step cancelled Work (mkServer p (cs1 ++ Ended :: cs2) s) (mkServer p (cs1 ++ cs2) s)
| listen_cancelled cs s :
    cancelled = true →
    server_step cancelled Work (mkServer Listening cs s) (mkServer Draining cs s)
| listen_returns s :
    server_step cancelled Work (mkServer Draining [] s) (mkServer Stopped [] s)
| command_received p cs1 cs2 q s :
    p ≠ Stopped →
    server_step cancelled Arrival (mkServer p (cs1 ++ Reading :: cs2) s)
      (mkServer p (cs1 ++ Working q :: cs2) s)
| command_answered p cs1 q cs2 s s' :
    command_run q s s' →
    server_step cancelled Work (mkServer p (cs1 ++ Working q :: cs2) s)
      (mkServer p (cs1 ++ Reading :: cs2) s')
(** The response cannot be sent: the error ends the task. *)
| response_fails p cs1 q cs2 s s' :
    command_run q s s' →
    server_step cancelled Work (mkServer p (cs1 ++ Working q :: cs2) s)
      (mkServer p (cs1 ++ Ended :: cs2) s')
| client_disconnects p cs1 cs2 s :
    server_step cancelled Work (mkServer p (cs1 ++ Reading :: cs2) s)
      (mkServer p (cs1 ++ Ended :: cs2) s)
| client_cancelled p cs1 cs2 s :
    cancelled = true →
    server_step cancelled Work (mkServer p (cs1 ++ Reading :: cs2) s)
      (mkServer p (cs1 ++ Ended :: cs2) s).

(** What is left to do: every step without an arrival uses some of it up. *)
Definition client_weight (c : ClientTask C) : nat :=
  match c with Reading => 2 | Working _ => 3 | Ended => 1 end.
Definition phase_weight (p : ServerPhase) : nat :=
  match p with Listening => 2 | Draining => 1 | Stopped => 0 end.
Definition server_size (x : Srv) : nat :=
  phase_weight (phase x) + sum_list_with client_weight (clients_set x).

Lemma server_step_size b l x x' :
  server_step b l x x' → server_size x' < server_size x + (if decide (l = Arrival) then 3 else 0).
Proof.
  unfold server_size. intros Hs.
  destruct Hs as [| |? [] ? ?| | | | | | | |]; simpl; rewrite ?sum_list_with_app; simpl; lia.
Qed.

(** A server that has been told to stop works until it has stopped and its clients
    are gone, as long as the commands in progress can be completed. *)
Lemma server_progress x :
  (∀ q s, Working q ∈ clients_set x → ∃ s', command_run q s s') →
  (phase x = Stopped ∧ clients_set x = []) ∨ red (server_step true Work) x.
Proof.
  destruct x as [p cs s]. simpl. intros Hrun.
  destruct p; [right; eexists; by apply listen_cancelled|right|].
  - destruct cs as [|[|q|] cs]; [eexists; apply listen_returns|..].
    + eexists. by apply (client_cancelled _ _ []).
    + destruct (Hrun q s) as [s' Hs']; [left|]. eexists. by apply (command_answered _ _ []).
    + eexists. by apply (client_joined _ _ []).
  - destruct cs as [|c cs]; [by left|]. right. eexists. by apply (client_aborted _ []).
Qed.

End server.
