(* ===== verification/Daemon.v ===== *)
(** * Starting and stopping the daemon

    [warden_daemon/src/cli.rs] and [warden_daemon/src/daemon.rs]: the options,
    [DaemonBuilder], which puts the network, the warden and the two servers
    together and takes the network down again when that fails, and
    [Daemon::run], which serves until a signal or the end of a server. *)

From S2P Require Import Prelude Managers Traits Storage ApplicationDisk ApplicationManager.
From S2P Require Import RealmClientHandler RealmManager Arc WardenDaemon VSockServer VmRunner Fabric.
From S2P Require Import IpNet IpTables Dnsmasq NatManager UnixSocketServer.

(** ** cli.rs *)

Definition VMADDR_CID_HOST : Z := 2.

Record Cli := mkCli {
  cid : Z;
  port : Z;
  virtualizer_path : PathBuf;
  unix_sock_path : PathBuf;
  cli_warden_workdir_path : PathBuf;
  dhcp_exec_path : PathBuf;
  realm_connection_wait_time_secs : Z;
  realm_response_wait_time_secs : Z;
  bridge_if_name : string;
  network_address : IpNet;
  dhcp_total_clients : Z;
  dns_records : list string;
  lkvm_runner : bool;
  cca_enable : bool }.

(** The values [clap] fills in for options that are not given. *)
Definition Cli_defaults (virtualizer_path unix_sock_path workdir dhcp_exec_path : PathBuf) : Cli :=
  mkCli VMADDR_CID_HOST 80 virtualizer_path unix_sock_path workdir dhcp_exec_path 60 10
    "virtbWarden" (mkIpNet (V4 (192 * 2 ^ 24 + 168 * 2 ^ 16 + 100 * 2 ^ 8)) 24) 20 [] false false.

(** The ranges the value parsers check. *)
Definition Cli_in_range (c : Cli) : bool :=
  bool_decide (2 ≤ cid c ≤ u32_max)%Z && bool_decide (80 ≤ port c ≤ u32_max)%Z &&
  bool_decide (2 ≤ dhcp_total_clients c < 253)%Z.

(** ** The host behind the network manager

    The daemon's parts share the network manager; the files and disks of the
    host are reached past it. *)

Section behind.
Context {A W Fd P G DFd : Type} `{!FileApi W Fd, !DiskApi W P G DFd}.

Definition behind_lens {B} : lens (B * (A * W)) (B * W) :=
  Lens (λ s, (s.1, s.2.2)) (λ t s, (t.1, (s.2.1, t.2))).

#[export] Instance files_behind : FileApi (A * W) Fd := {
  file_create p := zoom snd_lens (file_create p);
  Storage.file_write_all fd t := zoom snd_lens (Storage.file_write_all fd t);
  file_flush fd := zoom snd_lens (file_flush fd);
  file_open p := zoom snd_lens (file_open p);
  file_read_to_string fd := zoom snd_lens (file_read_to_string fd);
  create_dir p := zoom snd_lens (create_dir p);
  create_dir_all p := zoom snd_lens (create_dir_all p);
  remove_dir_all p := zoom snd_lens (remove_dir_all p);
  dir_entries p := zoom snd_lens (dir_entries p) }.

#[export] Instance disks_behind : DiskApi (A * W) P G DFd := {
  partition_name := partition_name;
  part_guid := part_guid;
  bytes_len := bytes_len;
  gpt_open_read_only p := zoom snd_lens (gpt_open_read_only p);
  file_create_truncate p := zoom snd_lens (file_create_truncate p);
  file_seek fd n := zoom snd_lens (file_seek fd n);
  ApplicationDisk.file_write_all fd b := zoom snd_lens (ApplicationDisk.file_write_all fd b);
  file_sync_all fd := zoom snd_lens (file_sync_all fd);
  file_shutdown fd := zoom snd_lens (file_shutdown fd);
  mbr_overwrite_lba0 fd n := zoom snd_lens (mbr_overwrite_lba0 fd n);
  gpt_create_from_device fd n := zoom snd_lens (gpt_create_from_device fd n);
  gpt_update_partitions ps := zoom behind_lens (gpt_update_partitions ps);
  gpt_add_partition n b := zoom behind_lens (gpt_add_partition n b);
  gpt_write := zoom behind_lens gpt_write }.

End behind.

(** ** DaemonBuilder *)

(** [anyhow::Error], by its source. *)
Inductive BuildError :=
| BuildDhcp (e : DnsmasqServerError)
| BuildNetwork (e : NetworkManagerError)
| BuildWarden (e : AnyError)
| BuildSocket (e : UnixSocketServerError).

Section daemon.
Context {W Fd P G DFd Snd L T Handle Task Child Pipe LogTask : Type}.
Context `{!FileApi W Fd, !Yaml ApplicationConfig, !Yaml RealmConfig, !UuidApi}.
Context `{!DiskApi W P G DFd, !UnixSocketApi W L}.
Context `{!IpNetApi, !IpTablesApi W T, !NetlinkApi W Handle Task}.
Context `{!ProcessApi W Child Pipe LogTask}.

Abbreviation Dhcp := (DnsmasqServerHandler (Child := Child)).
Abbreviation NM := (NetworkManagerHandler Dhcp).
Abbreviation Vm := (VmRunner Runner Child LogTask).
Abbreviation App := (ApplicationManager (FileRepository ApplicationConfig) ApplicationDiskManager).
Abbreviation RM :=
  (RealmManager (FileRepository RealmConfig) App Vm (RealmClientHandler Snd) ApplicationFabric).

Record Daemon := mkDaemon {
  vsock_server : VSockServer;
  usock_server : UnixSocketServer L;
  warden : WardenDaemon (RealmManagerFabric Vm) * Arcs RM;
  network_manager : NM }.

Definition create_vsock_server (cid port : Z) : VSockServer :=
  VSockServer.new (mkVSockServerConfig cid port).

Definition create_dhcp_and_dns_server (exec_path : PathBuf) (total_clients : Z)
    (records : list string) : result Dhcp DnsmasqServerError :=
  and_then (Dnsmasq.new exec_path total_clients) (λ server, Ok (add_dns_args records server)).

(** The builder's copy of the network manager, and the world. *)
Abbreviation Builder := (option NM * W)%type.

Definition create_network_manager (net_if_name : string) (net_if_ip : IpNet) (server : Dhcp)
    : eff Builder NetworkManagerError NM :=
  n ← zoom snd_lens (create_nat (mkNetworkConfig net_if_name net_if_ip) server);
  modify (λ s : Builder, (Some n, s.2));;
  mret n.

(** The closure that makes the VM manager of a realm. *)
Definition vm_creator (cli : Cli) (path : PathBuf) (realm_id : Uuid) (config : RealmConfig)
    : result Vm VmManagerError :=
  Ok (if lkvm_runner cli then
        let runner := Lkvm.new (virtualizer_path cli) config in
        VmRunner.new (LkvmRunner (if cca_enable cli then Lkvm.configure_cca_settings runner
                                  else runner)) realm_id path
      else VmRunner.new (QemuRunner (Qemu.new (virtualizer_path cli) config)) realm_id path).

Definition realm_fabric (cli : Cli) : RealmManagerFabric Vm :=
  mkRealmManagerFabric (vm_creator cli) (cli_warden_workdir_path cli)
    (realm_connection_wait_time_secs cli) (realm_response_wait_time_secs cli).

(** A method of the shared network manager [n] and the host behind it. *)
Definition on_network {E A} (n : NM) (c : eff (NM * W) E A) : eff Builder E A := λ s,
  let '(r, (n', w')) := c (n, s.2) in (r, (Some n', w')).

(** The warden and the Unix socket server, once the network is up. *)
Definition build_servers (cli : Cli) : eff (NM * W) BuildError Daemon :=
  map_err BuildWarden (WardenFabric_new (cli_warden_workdir_path cli));;
  warden ← map_err BuildWarden (create_warden (realm_fabric cli));
  usock_server ← map_err BuildSocket (zoom snd_lens (UnixSocketServer.new (unix_sock_path cli)));
  n ← gets (λ s : NM * W, s.1);
  mret (mkDaemon (create_vsock_server (cid cli) (port cli)) usock_server warden n).

Definition build_daemon (cli : Cli) : eff Builder BuildError Daemon :=
  dhcp_dns_server ← map_err BuildDhcp
    (try_r (create_dhcp_and_dns_server (dhcp_exec_path cli) (dhcp_total_clients cli)
              (dns_records cli)));
  n ← map_err BuildNetwork
    (create_network_manager (bridge_if_name cli) (network_address cli) dhcp_dns_server);
  on_network n (build_servers cli).

(** [DaemonBuilder::cleanup]; what [shutdown_nat] logs is lost here. *)
Definition cleanup (s : Builder) : W :=
  match s.1 with Some n => (shutdown_nat (n, s.2)).2.2 | None => s.2 end.

Definition build (cli : Cli) : eff W BuildError Daemon := λ w,
  match build_daemon cli (None, w) with
  | (Err error, s) => (Err error, cleanup s)
  | (Ok daemon, s) => (Ok daemon, s.2)
  end.

End daemon.

(** ** A build that fails *)

(** What loading the warden and binding the socket do not change. *)
Class HostKeeps {W Fd P G DFd L O : Type}
    `{!FileApi W Fd, !DiskApi W P G DFd, !UnixSocketApi W L} (obs : W → O) : Prop := {
  create_dir_all_keeps : ∀ p, steps (same obs) (create_dir_all p);
  create_dir_keeps : ∀ p, steps (same obs) (create_dir p);
  remove_dir_all_keeps : ∀ p, steps (same obs) (remove_dir_all p);
  text_create_keeps : ∀ p, steps (same obs) (file_create p);
  text_write_keeps : ∀ fd t, steps (same obs) (Storage.file_write_all fd t);
  text_flush_keeps : ∀ fd, steps (same obs) (file_flush fd);
  dir_entries_keeps : ∀ p, steps (same obs) (dir_entries p);
  file_open_keeps : ∀ p, steps (same obs) (file_open p);
  file_read_keeps : ∀ fd, steps (same obs) (file_read_to_string fd);
  gpt_open_keeps : ∀ p, steps (same obs) (gpt_open_read_only p);
  file_truncate_keeps : ∀ p, steps (same obs) (file_create_truncate p);
  file_seek_keeps : ∀ fd n, steps (same obs) (file_seek fd n);
  file_write_keeps : ∀ fd b, steps (same obs) (ApplicationDisk.file_write_all fd b);
  file_sync_keeps : ∀ fd, steps (same obs) (file_sync_all fd);
  file_shutdown_keeps : ∀ fd, steps (same obs) (file_shutdown fd);
  mbr_overwrite_keeps : ∀ fd n, steps (same obs) (mbr_overwrite_lba0 fd n);
  gpt_create_keeps : ∀ fd n, steps (same obs) (gpt_create_from_device fd n);
  gpt_update_keeps : ∀ ps, steps (same (λ s : G * W, obs s.2)) (gpt_update_partitions ps);
  gpt_add_keeps : ∀ n b, steps (same (λ s : G * W, obs s.2)) (gpt_add_partition n b);
  gpt_write_keeps : steps (same (λ s : G * W, obs s.2)) gpt_write;
  remove_file_keeps : ∀ p, steps (same obs) (remove_file p);
  unix_bind_keeps : ∀ p, steps (same obs) (unix_listener_bind p) }.

Ltac host_keeps :=
  first [ apply create_dir_all_keeps | apply create_dir_keeps | apply remove_dir_all_keeps
        | apply text_create_keeps | apply text_write_keeps | apply text_flush_keeps
        | apply dir_entries_keeps | apply file_open_keeps
        | apply file_read_keeps | apply gpt_open_keeps | apply file_truncate_keeps
        | apply file_seek_keeps | apply file_write_keeps | apply file_sync_keeps
        | apply file_shutdown_keeps | apply mbr_overwrite_keeps | apply gpt_create_keeps
        | apply gpt_update_keeps | apply gpt_add_keeps | apply gpt_write_keeps
        | apply remove_file_keeps | apply unix_bind_keeps ].

Section build.
Context {W Fd P G DFd Snd L T Handle Task Child Pipe LogTask : Type}.
Context `{!FileApi W Fd, !Yaml ApplicationConfig, !Yaml RealmConfig, !UuidApi}.
Context `{!DiskApi W P G DFd, !UnixSocketApi W L}.
Context `{!IpNetApi, !IpTablesApi W T, !NetlinkApi W Handle Task}.
Context `{!ProcessApi W Child Pipe LogTask}.

Abbreviation Dhcp := (DnsmasqServerHandler (Child := Child)).
Abbreviation NM := (NetworkManagerHandler Dhcp).

Context `{!IpTablesLaws W T, !LinkLaws W Handle Task}.
Context `{!IpTablesKeeps links, !DHCPKeeps (W := W) (D := Dhcp) links}.
Context `{!∀ v6, NetlinkKeeps (ipt_rules v6), !∀ v6, DHCPKeeps (W := W) (D := Dhcp) (ipt_rules v6)}.
Context `{!∀ v6, HostKeeps (ipt_rules v6)}.

Section frame.
Context (v6 : bool).

Abbreviation R := (same (nat_frame (D := Dhcp) v6)).
Abbreviation GR := (same (λ s : G * (NM * W), nat_frame v6 s.2)).

Lemma gpt_behind_keeps {E A} (c : eff (G * W) E A) :
  steps (same (λ s : G * W, ipt_rules v6 s.2)) c → steps GR (zoom behind_lens c).
Proof.
  intros Hc [g [n w]]. specialize (Hc (g, w)). unfold zoom, same, nat_frame in *. simpl in *.
  destruct (c (g, w)) as [r [g' w']]. simpl in *. by rewrite Hc.
Qed.

#[local] Hint Extern 1 (steps (same _) _) => host_keeps : eff.
#[local] Hint Resolve zoom_nat_frame gpt_behind_keeps : eff.

(** Loading an application with its disk. *)
Lemma ensure_partitions_keeps d : steps R (ensure_partitions_correctness d).
Proof. unfold ensure_partitions_correctness, read_partitions. simpl. eff_auto. Qed.
#[local] Hint Resolve ensure_partitions_keeps : eff.

Lemma with_gpt_keeps {A} g (c : eff (G * (NM * W)) ApplicationDiskManagerError A) :
  steps GR c → steps R (with_gpt g c).
Proof.
  intros Hc s. unfold with_gpt. specialize (Hc (g, s)). by destruct (c (g, s)) as [r [g' s']].
Qed.

Lemma create_application_disk_keeps d : steps R (create_application_disk (W := NM * W) d).
Proof.
  unfold create_application_disk, create_disk_device, create_gpt_and_partitions, write_mbr, sync_file,
    create_partition.
  eff_auto; try (simpl; eff_auto); intros; apply with_gpt_keeps; simpl; eff_auto.
Qed.
#[local] Hint Resolve create_application_disk_keeps : eff.

Lemma create_disk_keeps d :
  steps R (ApplicationDisk.create_disk_with_partitions (W := NM * W) d).
Proof. unfold ApplicationDisk.create_disk_with_partitions. eff_auto. Qed.
#[local] Hint Resolve create_disk_keeps : eff.

Lemma load_application_keeps f u : steps R (load_application (W := NM * W) f u).
Proof.
  unfold load_application, creation_fail, Yaml_from, from_file_path, try_read_file,
    ApplicationManager.new. simpl. eff_auto.
Qed.
#[local] Hint Resolve load_application_keeps create_tap_frame : eff.

Lemma load_realm_keeps (f : RealmManagerFabric (VmRunner Runner Child LogTask)) u :
  steps R (load_realm (W := NM * W) (Snd := Snd) f u).
Proof.
  unfold load_realm, load_applications, realm_fail, Yaml_from, from_file_path, try_read_file,
    read_subfolders_uuids. simpl. eff_auto.
Qed.
#[local] Hint Resolve load_realm_keeps : eff.

Lemma load_realms_keeps (f : RealmManagerFabric (VmRunner Runner Child LogTask)) us t :
  steps R (load_realms (W := NM * W) (Snd := Snd) f us t).
Proof. revert t. induction us as [|u us IH]; intros t; simpl; eff_auto. Qed.
#[local] Hint Resolve load_realms_keeps : eff.

Lemma build_servers_keeps cli : steps R (build_servers (W := W) (Snd := Snd) (LogTask := LogTask) cli).
Proof.
  unfold build_servers, WardenFabric_new, create_warden, read_subfolders_uuids,
    UnixSocketServer.new, create_listener. simpl. eff_auto.
  apply zoom_nat_frame. eff_auto.
Qed.

End frame.

Lemma build_servers_err cli (s : NM * W) e s' :
  build_servers (Snd := Snd) (LogTask := LogTask) cli s = (Err e, s') →
  match e with BuildWarden _ | BuildSocket _ => True | _ => False end.
Proof.
  unfold build_servers. intros Hrun.
  apply bind_err_inv in Hrun as [(?&->&_)%map_err_err|(?&?&_&Hrun)]; [done|].
  apply bind_err_inv in Hrun as [(?&->&_)%map_err_err|(?&?&_&Hrun)]; [done|].
  apply bind_err_inv in Hrun as [(?&->&_)%map_err_err|(?&?&_&Hrun)]; [done|]. by run_inv.
Qed.

(** A successful build leaves the network as [create_nat] made it, but for the
    tap devices of the realms. *)
Lemma build_ok v6 cli w d w' :
  build (Snd := Snd) (LogTask := LogTask) cli w = (Ok d, w') →
  ∃ server n w1,
    create_nat (mkNetworkConfig (bridge_if_name cli) (network_address cli)) server w = (Ok n, w1) ∧
    nat_frame v6 (network_manager d, w') = nat_frame v6 (n, w1).
Proof.
  unfold build. destruct (build_daemon _ _) as [[d0|e] b] eqn:Hb; [|done]. intros [= -> <-].
  unfold build_daemon in Hb. apply bind_ok_inv in Hb as (server&b1&Hsrv&Hb).
  apply map_err_ok in Hsrv. injection Hsrv as _ <-. apply bind_ok_inv in Hb as (n&b2&Hn&Hb).
  apply map_err_ok in Hn. apply bind_ok_inv in Hn as (n'&b3&Hn&Hm).
  apply zoom_inv in Hn as (w1&Hn&->). injection Hm as <- <-. unfold on_network in Hb. simpl in *.
  destruct (build_servers cli (n', w1)) as [r [n2 w2]] eqn:Hs. injection Hb as -> <-.
  exists server, n', w1. split; [done|]. symmetry.
  pose proof (steps_run _ _ _ _ _ (build_servers_keeps v6 cli) Hs) as Hframe.
  replace (network_manager d) with n2; [done|]. unfold build_servers in Hs. by run_inv.
Qed.

(** The warden of a daemon that has been built is the one its fabric created. *)
Lemma build_warden cli w d w' :
  build (Snd := Snd) (LogTask := LogTask) cli w = (Ok d, w') →
  ∃ s1 s2 : NM * W, create_warden (realm_fabric cli) s1 = (Ok (warden d), s2).
Proof.
  unfold build. destruct (build_daemon _ _) as [[d0|e] b] eqn:Hb; [|done]. intros [= -> <-].
  unfold build_daemon in Hb. apply bind_ok_inv in Hb as (server&b1&_&Hb).
  apply bind_ok_inv in Hb as (n&b2&_&Hb). unfold on_network in Hb.
  destruct (build_servers cli (n, b2.2)) as [r [n2 w2]] eqn:Hs. injection Hb as -> _.
  unfold build_servers in Hs. apply bind_ok_inv in Hs as (?&s1&_&Hs).
  apply bind_ok_inv in Hs as (wd&s2&Hw&Hs). apply map_err_ok in Hw.
  apply bind_ok_inv in Hs as (us&s3&_&Hs). run_inv. by exists s1, s2.
Qed.

(** It owns its realms. *)
Lemma build_refs cli w d w' :
  build (Snd := Snd) (LogTask := LogTask) cli w = (Ok d, w') →
  refs_ok [] ((warden d).1, ((warden d).2, (network_manager d, w'))).
Proof.
  intros (s1&s2&Hw)%build_warden. destruct (warden d) as [wd arcs].
  by apply created_warden_owns_realms in Hw.
Qed.

(** C13.  What a build that fails leaves of the network, on a host where nothing of the
    interface is in the packet filter.  If the DHCP server cannot be made, nothing has
    been done.  If the network cannot be created, and taking back what has been done
    of it does not fail in its turn, the packet filter is as it was, unless it was the
    insertion of the rules that failed: the bridge is gone then, but the rules that had
    been inserted are left behind.  If the build fails afterwards, because a realm
    cannot be loaded or the socket cannot be bound, it ends with the shutdown of the
    network, and when that logs no error the packet filter is as it was and the bridge
    and all tap devices are gone. *)
Theorem failed_build_cleans cli w e w' :
  let v6 := is_ipv6 (net_addr (network_address cli)) in
  fresh_routing (bridge_if_name cli) (ipt_rules v6 w) →
  build (Snd := Snd) (LogTask := LogTask) cli w = (Err e, w') →
  match e with
  | BuildDhcp _ => w' = w
  | BuildNetwork err => (∀ text, err ≠ DestroyNatNetwork text) →
      nat_leftovers v6 (mkNetworkConfig (bridge_if_name cli) (network_address cli)) w w'
  | BuildWarden _ | BuildSocket _ => ∃ s : NM * W,
      build_daemon (Snd := Snd) (LogTask := LogTask) cli (None, w) = (Err e, (Some s.1, s.2)) ∧
      w' = (shutdown_nat s).2.2 ∧
      ((shutdown_nat s).1 = Ok [] →
       ipt_rules v6 w' = ipt_rules v6 w ∧ links w' !! bridge_if_name cli = None ∧
       taps (shutdown_nat s).2.1 = ∅ ∧ ∀ u t, taps s.1 !! u = Some t → links w' !! tap_name t = None)
  end.
Proof.
  intros v6 Hfresh. unfold build. destruct (build_daemon _ _) as [[d|e'] b] eqn:Hb; [done|].
  intros [= -> <-]. pose proof Hb as Hbuild. unfold build_daemon in Hb.
  apply bind_err_inv in Hb as [Hb|(server&b1&Hsrv&Hb)].
  { apply map_err_err in Hb as (err&->&Hb). by injection Hb as _ <-. }
  apply map_err_ok in Hsrv. injection Hsrv as _ <-.
  apply bind_err_inv in Hb as [Hb|(n&b2&Hn&Hb)]; unfold create_network_manager in *.
  { apply map_err_err in Hb as (err&->&Hb). apply bind_err_inv in Hb as [Hb|(n&b2&_&Hb)]; [|by run_inv].
    apply zoom_inv in Hb as (w1&Hb&->). intros Herr.
    by apply (create_nat_err v6 (mkNetworkConfig (bridge_if_name cli) (network_address cli)) server w err w1
      eq_refl Hfresh Hb). }
  apply map_err_ok in Hn. apply bind_ok_inv in Hn as (n'&b3&Hn&Hm).
  apply zoom_inv in Hn as (w1&Hn&->). injection Hm as <- <-. simpl in *.
  unfold on_network in Hb. simpl in Hb.
  destruct (build_servers cli (n', w1)) as [r [n2 w2]] eqn:Hs. injection Hb as -> <-.
  pose proof (steps_run _ _ _ _ _ (build_servers_keeps v6 cli) Hs) as Hframe.
  pose proof (shutdown_cleans v6 (mkNetworkConfig (bridge_if_name cli) (network_address cli))
    _ _ _ _ (n2, w2) eq_refl Hfresh Hn (eq_sym Hframe)) as Hclean.
  apply build_servers_err in Hs. destruct e; try done; by exists (n2, w2).
Qed.

End build.
