(* ===== verification/DaemonRun.v ===== *)
(** * The running daemon

    [Daemon::run] of [warden_daemon/src/daemon.rs]: the task that waits for a
    signal or the end of a server, cancels the token, shuts the network down and
    joins the servers, next to the vsock server and the Unix socket server with
    its clients. *)

From S2P Require Import Prelude Managers IpNet IpTables Dnsmasq Fabric NatManager UnixSocketServer.
From S2P Require Import ApplicationDisk Storage VmRunner Daemon.

(** Where the main task is: at its [select!], at the lock of the network manager,
    joining the vsock server, joining the Unix socket server, or at its end. *)
Inductive MainPhase := Selecting | ShuttingNetwork | JoiningVsock | JoiningUsock | Exited.

Section run.
Context {W T Handle Task Dh C S : Type}.
Context `{!UuidApi, !IpNetApi, !IpTablesApi W T, !NetlinkApi W Handle Task, !DHCPServer W Dh}.

Abbreviation NM := (NetworkManagerHandler Dh).

(** The state the tasks share, with the network manager and the host in it, and
    what completing a command may do to it. *)
Context (net : lens S (NM * W)) (command_run : C → S → S → Prop).

Record Running := mkRunning {
  main : MainPhase;
  cancelled : bool;
  vsock_listens : bool;
  usock : Server C S;
  shutdown_log : list string }.

(** The tasks are spawned, the signal handlers installed. *)
Definition run (s : S) : Running :=
  mkRunning Selecting false true (mkServer Listening [] s) [].

Definition with_shared (s : S) (u : Server C S) : Server C S :=
  mkServer (phase u) (clients_set u) s.

(** One step of a task of the daemon, and its cause.  The daemon waits for
    connections, commands and signals as long as there are none. *)
Inductive daemon_step_by : Cause → Running → Running → Prop :=
| usock_moves c m b v u u' l :
    server_step command_run b c u u' → daemon_step_by c (mkRunning m b v u l) (mkRunning m b v u' l)
| vsock_accepts m b u l :
    daemon_step_by Arrival (mkRunning m b true u l) (mkRunning m b true u l)
| vsock_fails m b u l :
    daemon_step_by Failure (mkRunning m b true u l) (mkRunning m b false u l)
| vsock_cancelled m u l :
    daemon_step_by Work (mkRunning m true true u l) (mkRunning m true false u l)
| signal_received b v u l :
    daemon_step_by Signalled (mkRunning Selecting b v u l) (mkRunning ShuttingNetwork true v u l)
| vsock_ended b u l :
    daemon_step_by Work (mkRunning Selecting b false u l) (mkRunning ShuttingNetwork true false u l)
| usock_ended b v u l :
    phase u = Stopped →
    daemon_step_by Work (mkRunning Selecting b v u l) (mkRunning ShuttingNetwork true v u l)
| network_shut_down b v u l log s :
    zoom net shutdown_nat (shared u) = (Ok log, s) →
    daemon_step_by Work (mkRunning ShuttingNetwork b v u l)
      (mkRunning JoiningVsock b v (with_shared s u) log)
| vsock_joined b u l :
    daemon_step_by Work (mkRunning JoiningVsock b false u l) (mkRunning JoiningUsock b false u l)
| usock_joined b v u l :
    phase u = Stopped →
    daemon_step_by Work (mkRunning JoiningUsock b v u l) (mkRunning Exited b v u l).

Definition daemon_step (x x' : Running) : Prop := ∃ c, daemon_step_by c x x'.

(** A run with the causes of its steps. *)
Inductive daemon_run : list Cause → Running → Running → Prop :=
| run_end x : daemon_run [] x x
| run_step c cs x x1 x2 :
    daemon_step_by c x x1 → daemon_run cs x1 x2 → daemon_run (c :: cs) x x2.

Lemma daemon_run_rtc cs x x' : daemon_run cs x x' → rtc daemon_step x x'.
Proof. induction 1; [done|]. eapply rtc_l; [by eexists|done]. Qed.

(** ** Coming to an end *)

Definition main_weight (m : MainPhase) : nat :=
  match m with
  | Selecting => 4 | ShuttingNetwork => 3 | JoiningVsock => 2 | JoiningUsock => 1 | Exited => 0
  end.
Definition daemon_size (x : Running) : nat :=
  main_weight (main x) + (if vsock_listens x then 1 else 0) + server_size (usock x).

Definition arrivals (cs : list Cause) : nat := length (filter (λ c, c = Arrival) cs).

Lemma daemon_step_size c x x' :
  daemon_step_by c x x' → daemon_size x' < daemon_size x + (if decide (c = Arrival) then 3 else 0).
Proof.
  unfold daemon_size.
  intros Hs; destruct Hs as [c m b v u u' l Hu|?|?|?|?|?|?|? ? u ? ? ? ?|?|?]; simpl; try lia.
  - apply server_step_size in Hu. lia.
  - unfold server_size. destruct u. simpl. lia.
Qed.

(** The work between arrivals is bounded. *)
Lemma daemon_run_bounded cs x x' :
  daemon_run cs x x' → length cs + daemon_size x' ≤ daemon_size x + 3 * arrivals cs.
Proof.
  unfold arrivals. induction 1 as [x|c cs x x1 x2 Hs _ IH]; [simpl; lia|].
  apply daemon_step_size in Hs. rewrite filter_cons. destruct (decide (c = Arrival)); simpl in *; lia.
Qed.

(** What the phases of the main task have seen. *)
Record phases_ok (x : Running) : Prop := {
  ok_cancelled : main x ≠ Selecting → cancelled x = true;
  ok_vsock : main x = JoiningUsock ∨ main x = Exited → vsock_listens x = false;
  ok_usock : main x = Exited → phase (usock x) = Stopped }.

Lemma server_step_stopped b c (u u' : Server C S) :
  server_step command_run b c u u' → phase u = Stopped → phase u' = Stopped.
Proof. intros Hs. by destruct Hs; simpl. Qed.

Lemma daemon_step_ok x x' : daemon_step x x' → phases_ok x → phases_ok x'.
Proof.
  intros [c Hs] [Hc Hv Hu].
  destruct Hs as [c m b v u u' l Hsrv|?|?|?|?|?|?|?|?|?]; simpl in *.
  - split; simpl; try done. intros Hm. by eapply server_step_stopped, Hu.
  - by split.
  - by split; simpl; auto.
  - by split; simpl; auto.
  - split; simpl; try done. by intros [?|?].
  - split; simpl; try done.
  - split; simpl; try done. by intros [?|?].
  - split; simpl; try done; [intros _; by apply Hc|by intros [?|?]].
  - split; simpl; try done. intros _; by apply Hc.
  - split; simpl; try done; intros; auto.
Qed.

Lemma phases_ok_rtc x x' : rtc daemon_step x x' → phases_ok x → phases_ok x'.
Proof. induction 1; eauto using daemon_step_ok. Qed.

Lemma run_phases_ok s : phases_ok (run s).
Proof. by split; simpl; intros; destruct_or?. Qed.

Lemma shutdown_nat_total (s : S) : ∃ log s', zoom net shutdown_nat s = (Ok log, s').
Proof. unfold zoom. destruct (shutdown_nat (view net s)) as [[log|[]] s']. eauto. Qed.

(** A daemon that has been told to stop works until everything has stopped, if its
    commands can be completed. *)
Definition all_stopped (x : Running) : Prop :=
  main x = Exited ∧ vsock_listens x = false ∧ phase (usock x) = Stopped ∧ clients_set (usock x) = [].

Lemma daemon_progress x :
  (∀ q s, ∃ s', command_run q s s') → phases_ok x → main x ≠ Selecting →
  all_stopped x ∨ red (daemon_step_by Work) x.
Proof.
  intros Hrun [Hc Hv Hu] Hm. destruct x as [m b v u l]. unfold all_stopped. simpl in *.
  rewrite (Hc Hm) in *.
  destruct (server_progress command_run u) as [[Hp Hcl]|[u' Hu']]; [naive_solver| |];
    [|right; eexists; by apply usock_moves].
  destruct m; [done|..].
  - right. destruct (shutdown_nat_total (shared u)) as (log&s'&Hs). eexists. by apply network_shut_down.
  - right. destruct v; [eexists; apply vsock_cancelled|]. eexists. apply vsock_joined.
  - right. eexists. by apply usock_joined.
  - left. split_and!; auto.
Qed.

(** As long as nothing tells it to, the daemon does not stop. *)
Definition is_serving (x : Running) : Prop :=
  main x = Selecting ∧ cancelled x = false ∧ vsock_listens x = true ∧ phase (usock x) = Listening.

Lemma serving_step c x x' :
  daemon_step_by c x x' → c ≠ Signalled → c ≠ Failure → is_serving x → is_serving x'.
Proof.
  intros Hs Hsig Hf (Hm&Hc&Hv&Hp). unfold is_serving.
  destruct Hs as [c m b v u u' l Hu|?|?|?|?|?|?|?|?|?]; simpl in *; simplify_eq; try done; [|congruence].
  split_and!; [done..|]. destruct Hu; simpl in *; by simplify_eq.
Qed.

Lemma serving_run cs x x' :
  daemon_run cs x x' → Signalled ∉ cs → Failure ∉ cs → is_serving x → is_serving x'.
Proof.
  induction 1 as [x|c cs x x1 x2 Hs _ IH]; intros Hsig Hf Hx; [done|].
  apply IH; [set_solver..|]. eapply serving_step; [exact Hs|set_solver..|done].
Qed.

(** C15.  The daemon serves until it is told to stop, and then comes to an end.  Whatever
    connections and commands arrive, as long as there is no signal and no server fails,
    both servers listen and the main task waits.  Once the token is cancelled, every run
    comes to an end in which only finitely many connections and commands still arrive:
    there is a bound on the steps that do not wait for something from outside, of three
    more for each arrival; and as long as the commands that have been begun can be
    completed, such a run does not stop before the main task has exited, both servers
    have stopped and the task of every client is gone. *)
Theorem daemon_stops_when_told s cs x :
  (∀ q s, ∃ s', command_run q s s') → daemon_run cs (run s) x →
  (Signalled ∉ cs → Failure ∉ cs → is_serving x) ∧
  (main x ≠ Selecting →
   (∀ cs' x', daemon_run cs' x x' → length cs' ≤ daemon_size x + 3 * arrivals cs') ∧
   (∀ cs' x', daemon_run cs' x x' → nf (daemon_step_by Work) x' → all_stopped x')).
Proof.
  intros Hcr Hx. split; [intros ??; by eapply serving_run|]. intros Hm. split.
  - intros cs' x' Hrun%daemon_run_bounded. lia.
  - intros cs' x' Hrun Hnf.
    assert (phases_ok x') as Hok.
    { eapply phases_ok_rtc; [|apply run_phases_ok]. etrans; by eapply daemon_run_rtc. }
    assert (main x' ≠ Selecting) as Hm'.
    { clear -Hm Hrun. induction Hrun as [x|c cs x x1 x2 Hs _ IH]; [done|]. apply IH. by destruct Hs. }
    by destruct (daemon_progress x' Hcr Hok Hm').
Qed.

(** A server that drains and still has a client with such a command. *)
Definition drains_forever (q : C) (u : Server C S) : Prop :=
  phase u = Draining ∧ Working q ∈ clients_set u.

Lemma drains_forever_step q b c u u' :
  (∀ s s', ¬ command_run q s s') → server_step command_run b c u u' →
  drains_forever q u → drains_forever q u'.
Proof.
  intros Hq Hs [Hp Hin].
  destruct Hs; simpl in *; try done; unfold drains_forever; simpl; split; try done;
    try (by apply elem_of_nil in Hin); set_unfold; destruct_or?; simplify_eq; try tauto;
    match goal with Hr : command_run _ _ _ |- _ => by apply Hq in Hr end.
Qed.

(** A command that is never completed, such as one that waits for a lock
    forever, keeps the daemon from exiting once the token is cancelled and the
    server drains its clients. *)
Theorem stuck_command_blocks_exit q x x' :
  (∀ s s', ¬ command_run q s s') → drains_forever q (usock x) → main x ≠ Exited →
  rtc daemon_step x x' → main x' ≠ Exited.
Proof.
  intros Hq Hd Hm Hrun.
  assert (drains_forever q (usock x') ∧ main x' ≠ Exited) as [_ ?]; [|done].
  induction Hrun as [x|x x1 x2 [c Hs] _ IH]; [done|]. apply IH; clear IH.
  - destruct Hs; simpl in *; try done. by eapply drains_forever_step.
  - destruct Hs as [| | | | | | | | |b v u l Hp]; simpl in *; try done.
    destruct Hd as [Hd _]. congruence.
Qed.

(** What the commands and the shutdown of the network preserve is preserved by the
    daemon. *)
Lemma daemon_invariant (I : S → Prop) x x' :
  (∀ q s s', command_run q s s' → I s → I s') → preserves I (zoom net shutdown_nat) →
  rtc daemon_step x x' → I (shared (usock x)) → I (shared (usock x')).
Proof.
  intros Hc Hs Hrun. induction Hrun as [x|x x1 x2 [c Hx] _ IH]; [done|]. intros HI. apply IH.
  destruct Hx as [c m b v u u' l Hu|?|?|?|?|?|?|b v u l log s Hsd|?|?]; simpl in *; try done.
  - destruct Hu; simpl in *; eauto.
  - specialize (Hs _ HI). by rewrite Hsd in Hs.
Qed.

End run.

(** ** The network over the life of the daemon *)

Section network_life.
Context {W Fd P G DFd Snd L T Handle Task Child Pipe LogTask C S : Type}.
Context `{!FileApi W Fd, !Yaml ApplicationConfig, !Yaml RealmConfig, !UuidApi}.
Context `{!DiskApi W P G DFd, !UnixSocketApi W L}.
Context `{!IpNetApi, !IpTablesApi W T, !NetlinkApi W Handle Task}.
Context `{!ProcessApi W Child Pipe LogTask}.

Abbreviation Dhcp := (DnsmasqServerHandler (Child := Child)).
Abbreviation NM := (NetworkManagerHandler Dhcp).

Context `{!IpTablesLaws W T, !LinkLaws W Handle Task}.
Context `{!IpTablesKeeps links, !DHCPKeeps (W := W) (D := Dhcp) links}.
Context `{!∀ v6, NetlinkKeeps (ipt_rules v6), !∀ v6, DHCPKeeps (W := W) (D := Dhcp) (ipt_rules v6)}.
Context `{!∀ v6, HostKeeps (ipt_rules v6)}.

(** Commands use the network manager for tap devices only. *)
Context (net : lens S (NM * W)) (view_update : ∀ t s, view net (update net t s) = t).
Context (command_run : C → S → S → Prop).
Context (command_frame : ∀ v6 q s s',
  command_run q s s' → nat_frame v6 (view net s') = nat_frame v6 (view net s)).

Lemma server_step_frame v6 b c (u u' : Server C S) :
  server_step command_run b c u u' →
  nat_frame v6 (view net (shared u')) = nat_frame v6 (view net (shared u)).
Proof. intros Hs. destruct Hs; simpl; eauto. Qed.

(** The network is as [f0], or has been shut down in such a state. *)
Definition network_life (v6 : bool) (f0 : NetworkConfig * RtNetLinkBridge * Tables)
    (x : Running (C := C) (S := S)) : Prop :=
  match main x with
  | Selecting | ShuttingNetwork => nat_frame v6 (view net (shared (usock x))) = f0
  | _ => ∃ s1 s2, nat_frame v6 s1 = f0 ∧ shutdown_nat s1 = (Ok (shutdown_log x), s2) ∧
      nat_frame v6 (view net (shared (usock x))) = nat_frame v6 s2
  end.

Lemma network_life_step v6 f0 x x' :
  daemon_step net command_run x x' → network_life v6 f0 x → network_life v6 f0 x'.
Proof.
  intros [c Hs] Hx. destruct Hs as [c m b v u u' l Hu|?|?|?|?|?|?|b v u l log s Hsd|?|?];
    unfold network_life in *; simpl in *; try done.
  - apply (server_step_frame v6) in Hu. by destruct m; rewrite Hu.
  - apply zoom_inv in Hsd as (t&Hsd&->). exists (view net (shared u)), t. by rewrite view_update.
Qed.

Lemma network_life_rtc v6 f0 x x' :
  rtc (daemon_step net command_run) x x' → network_life v6 f0 x → network_life v6 f0 x'.
Proof. induction 1; eauto using network_life_step. Qed.

(** A daemon that has been built and runs has its network; when it has exited and
    the shutdown of the network logged no error, the packet filter is what it was
    before the daemon was built. *)
Lemma built_network_life cli w d w1 v6 s0 :
  build (Snd := Snd) (LogTask := LogTask) cli w = (Ok d, w1) →
  view net s0 = (network_manager d, w1) →
  ∃ f0, network_life v6 f0 (run s0) ∧ f0 = nat_frame v6 (network_manager d, w1) ∧
    ∀ x, v6 = is_ipv6 (net_addr (network_address cli)) →
      fresh_routing (bridge_if_name cli) (ipt_rules v6 w) →
      network_life v6 f0 x → main x = Exited → shutdown_log x = [] →
      ipt_rules v6 (view net (shared (usock x))).2 = ipt_rules v6 w.
Proof.
  intros Hb Hs0. apply (build_ok v6) in Hb as (server&n&w2&Hn&Hframe).
  exists (nat_frame v6 (network_manager d, w1)).
  split; [unfold network_life; simpl; by rewrite Hs0|]. split; [done|].
  intros x Hv Hfresh Hlife Hm Hlog. unfold network_life in Hlife. rewrite Hm in Hlife.
  destruct Hlife as (s1&s2&Hs1&Hsd&Hs2). injection Hs2 as _ _ ->. rewrite Hlog in Hsd.
  rewrite Hframe in Hs1.
  pose proof (shutdown_cleans v6 (mkNetworkConfig (bridge_if_name cli) (network_address cli))
    _ _ _ _ s1 Hv Hfresh Hn Hs1) as Hcl. rewrite Hsd in Hcl. by apply Hcl.
Qed.

End network_life.
