(* ===== verification/Frames.v ===== *)
(** * What the parts of the daemon leave alone

    For any observation of the world: if the operations of a component's
    collaborators do not change it, neither do the component's own.  There is one
    class per trait ([...Keeps]); the managers of applications and realms, the VM
    runner, the realm client, the warden and the command handler are shown to
    satisfy theirs from those of the traits they use. *)

From S2P Require Import Prelude WardenClient WardenRealm Managers RealmManager.
From S2P Require Import ApplicationManager VmRunner RealmClientHandler Arc WardenDaemon ClientHandler.
From S2P Require Import Traits.

(** The observation of the world, from the state of an object in it. *)
Abbreviation behind obs := (same (λ s, obs s.2)).
Abbreviation behind2 obs := (same (λ s, obs s.2.2)).

(** ** The traits *)

Class RuntimeKeeps {W O} `{!Runtime W} (obs : W → O) : Prop :=
  new_v4_keeps : ∀ w, obs (new_v4 w).2 = obs w.

Class RepositoryKeeps {W R D O} `{!Repository W R D} (obs : W → O) : Prop :=
  repo_save_keeps : steps (behind obs) repo_save.

Class VmManagerKeeps {W V O} `{!VmManager W V} (obs : W → O) : Prop := {
  launch_vm_keeps : ∀ us, steps (behind obs) (launch_vm us);
  vm_shutdown_keeps : steps (behind obs) vm_shutdown;
  get_status_keeps : steps (behind obs) get_status }.

Class RealmClientKeeps {W C O} `{!RealmClient W C} (obs : W → O) : Prop := {
  connect_and_provision_keeps : ∀ cid cfg, steps (behind obs) (try_connect_and_provision_apps cid cfg);
  connect_and_fetch_keeps : ∀ cid ch, steps (behind obs) (try_connect_and_fetch_attestation_token cid ch);
  client_fetch_keeps : ∀ ch, steps (behind obs) (client_fetch_attestation_token ch);
  start_application_keeps : ∀ u, steps (behind obs) (start_application u);
  stop_application_keeps : ∀ u, steps (behind obs) (stop_application u);
  read_realm_ifs_keeps : steps (behind obs) read_realm_ifs;
  shutdown_realm_keeps : steps (behind obs) shutdown_realm;
  reboot_realm_keeps : ∀ cfg cid, steps (behind obs) (reboot_realm cfg cid) }.

Class ApplicationDiskKeeps {W D O} `{!ApplicationDisk W D} (obs : W → O) : Prop := {
  disk_create_keeps : ∀ d, steps (same obs) (disk_create_with_partitions d);
  disk_update_keeps : ∀ a b, steps (behind obs) (disk_update_with_partitions a b);
  disk_data_uuid_keeps : ∀ d, steps (same obs) (disk_get_data_partition_uuid d);
  disk_image_uuid_keeps : ∀ d, steps (same obs) (disk_get_image_partition_uuid d) }.

Class ApplicationKeeps {W C A O} `{!Application W C A} (obs : W → O) : Prop := {
  app_stop_keeps : steps (behind2 obs) app_stop;
  app_start_keeps : steps (behind2 obs) app_start;
  app_update_keeps : ∀ cfg, steps (behind2 obs) (app_update_config cfg);
  app_configure_keeps : steps (behind2 obs) app_configure_disk;
  app_data_keeps : ∀ a, steps (same obs) (app_get_data a) }.

Class ApplicationCreatorKeeps {W A F O} `{!ApplicationCreator W A F} (obs : W → O) : Prop :=
  create_application_keeps : ∀ f u cfg, steps (same obs) (fabric_create_application f u cfg).

Class RealmKeeps {W Rl H O} `{!Realm W Rl H} (obs : W → O) : Prop := {
  realm_start_keeps : steps (behind obs) realm_start;
  realm_stop_keeps : steps (behind obs) realm_stop;
  realm_reboot_keeps : steps (behind obs) realm_reboot;
  realm_create_application_keeps : ∀ cfg, steps (behind obs) (realm_create_application cfg);
  realm_update_application_keeps : ∀ u cfg, steps (behind obs) (realm_update_application u cfg);
  realm_get_application_keeps : ∀ u, steps (behind obs) (realm_get_application u);
  realm_data_keeps : steps (behind obs) realm_get_realm_data;
  realm_fetch_keeps : ∀ ch, steps (behind obs) (realm_fetch_attestation_token ch);
  realm_destroy_keeps : steps (behind obs) realm_destroy;
  application_start_keeps : ∀ h, steps (behind obs) (application_start h);
  application_stop_keeps : ∀ h, steps (behind obs) (application_stop h) }.

Class RealmCreatorKeeps {W Rl F O} `{!RealmCreator W Rl F} (obs : W → O) : Prop := {
  create_realm_keeps : ∀ f u cfg, steps (same obs) (fabric_create_realm f u cfg);
  clean_up_realm_keeps : ∀ f u, steps (same obs) (fabric_clean_up_realm f u) }.

(** Processes, and the senders and the connector of the realm client. *)
Class ProcessKeeps {W Child Pipe H O} `{!ProcessApi W Child Pipe H} (obs : W → O) : Prop := {
  process_spawn_keeps : ∀ c, steps (same obs) (process_spawn c);
  child_try_wait_keeps : steps (behind obs) child_try_wait;
  child_kill_keeps : steps (behind obs) child_kill;
  child_wait_keeps : steps (behind obs) child_wait;
  spawn_log_thread_keeps : ∀ o e u w, obs (spawn_log_thread o e u w).2 = obs w;
  log_thread_abort_keeps : ∀ h w, obs (log_thread_abort h w) = obs w }.

Class RealmSenderKeeps {W Snd O} `{!RealmSender W Snd} (obs : W → O) : Prop := {
  sender_send_keeps : ∀ r, steps (behind obs) (sender_send r);
  receive_response_keeps : ∀ t, steps (behind obs) (receive_response t) }.

Class RealmConnectorKeeps {W Snd Rx O} `{!RealmConnector W Snd Rx} (obs : W → O) : Prop := {
  connector_acquire_keeps : ∀ cid w, obs (connector_acquire_realm_sender cid w).2 = obs w;
  wait_for_sender_keeps : ∀ rx t w, obs (wait_for_sender rx t w).2 = obs w }.

(** ** The virtual machine *)

Section vm.
Context {W Child Pipe H O : Type}.
Context `{!UuidApi, !ExitStatusFmt, !ProcessApi W Child Pipe H}.
Context (obs : W → O) `{!ProcessKeeps obs}.

Lemma on_child_keeps {E A} (child : Child) (c : eff (Child * W) E A) :
  steps (behind obs) c → steps (same obs) (on_child child c).
Proof. intros Hc w. unfold on_child. specialize (Hc (child, w)). by destruct (c _) as [? []]. Qed.

Lemma on_vm_handler_keeps {T E A} (h : VmHandler Child H) (c : eff (VmHandler Child H * W) E A) :
  steps (behind obs) c → steps (behind obs) (VmRunner.on_handler (T := T) h c).
Proof.
  intros Hc s. unfold VmRunner.on_handler. specialize (Hc (h, s.2)). by destruct (c _) as [? []].
Qed.

Lemma child_lens_keeps {E A} (c : eff (Child * W) E A) :
  steps (behind obs) c → steps (behind obs) (zoom (child_lens (H := H)) c).
Proof. by apply zoom_behind. Qed.

Lemma VmHandler_new_keeps command u :
  steps (same obs) (VmHandler_new command u : eff W _ (VmHandler Child H)).
Proof.
  unfold VmHandler_new, spawn_vm_process. eff_auto.
  - apply process_spawn_keeps.
  - apply on_child_keeps, child_try_wait_keeps.
  - intros w. unfold start_log_thread. pose proof (spawn_log_thread_keeps a0.1.1 a0.1.2 u w) as Hk.
    unfold same. by destruct (spawn_log_thread _ _ _ w).
Qed.

Lemma VmHandler_shutdown_keeps :
  steps (behind obs) (VmHandler_shutdown : eff (VmHandler Child H * W) _ _).
Proof.
  unfold VmHandler_shutdown. eff_auto.
  - apply steps_modify. intros s. symmetry. apply log_thread_abort_keeps.
  - apply child_lens_keeps, child_kill_keeps.
  - apply child_lens_keeps, child_wait_keeps.
Qed.

#[export] Instance VmRunner_keeps {T} `{!CommandRunner T} :
  VmManagerKeeps (V := VmRunner T Child H) obs.
Proof.
  split; simpl.
  - intros us. unfold VmRunner.launch_vm. eff_auto; [|intros; by apply steps_modify].
    by apply (zoom_behind _ obs), VmHandler_new_keeps.
  - unfold VmRunner.shutdown, get_handler. eff_auto; [|intros; by apply steps_modify].
    apply on_vm_handler_keeps, VmHandler_shutdown_keeps.
  - unfold VmRunner.get_status, handle_get_status. eff_auto.
    apply on_vm_handler_keeps, child_lens_keeps, child_try_wait_keeps.
Qed.
End vm.

(** ** The realm client *)

Section client.
Context {W Snd Rx O : Type} `{!RealmSender W Snd, !RealmConnector W Snd Rx}.
Context `{!Debug RealmSenderError, !Debug ProtocolError, !Debug Response}.
Context (obs : W → O) `{!RealmSenderKeeps obs, !RealmConnectorKeeps obs}.

Lemma on_sender_frame {E A} snd (c : eff (Snd * W) E A) :
  steps (behind obs) c → steps (behind obs) (on_sender snd c).
Proof. intros Hc s. unfold on_sender. specialize (Hc (snd, s.2)). by destruct (c _) as [? []]. Qed.

Lemma send_command_keeps request : steps (behind obs) (send_command request).
Proof.
  unfold send_command, acquire_realm_sender. eff_auto. apply on_sender_frame, sender_send_keeps.
Qed.

Lemma read_response_keeps timeout : steps (behind obs) (read_response timeout).
Proof.
  unfold read_response, acquire_realm_sender. eff_auto. apply on_sender_frame, receive_response_keeps.
Qed.

Lemma client_try_connect_keeps cid : steps (behind obs) (RealmClientHandler.try_connect cid).
Proof.
  unfold RealmClientHandler.try_connect. apply steps_bind; [apply _| |].
  - intros s. unfold wait_realm, same. pose proof (connector_acquire_keeps cid s.2) as Ha.
    destruct (connector_acquire_realm_sender cid s.2) as [rx w1].
    pose proof (wait_for_sender_keeps rx (connection_wait_time s.1) w1) as Hw.
    destruct (wait_for_sender rx _ w1). simpl in *. congruence.
  - intros []; eff_auto. by apply steps_modify.
Qed.
Hint Resolve send_command_keeps read_response_keeps client_try_connect_keeps : eff.

#[export] Instance RealmClientHandler_keeps : RealmClientKeeps (C := RealmClientHandler Snd) obs.
Proof.
  split; simpl; intros;
    unfold RealmClientHandler.try_connect_and_provision_apps,
      RealmClientHandler.try_connect_and_fetch_attestation_token,
      RealmClientHandler.fetch_attestation_token, RealmClientHandler.start_application,
      RealmClientHandler.stop_application, RealmClientHandler.read_realm_ifs,
      RealmClientHandler.shutdown_realm, RealmClientHandler.reboot_realm,
      RealmClientHandler.provision_applications, RealmClientHandler.kill_application,
      command_with_success, handle_ip_response, handle_shutdown_response, timeout_of;
    eff_auto; try (by apply steps_modify).
Qed.
End client.

(** ** Applications *)

Section application.
Context {W C R D O : Type}.
Context `{!Repository W R ApplicationConfig, !ApplicationDisk W D, !RealmClient W C}.
Context (obs : W → O).
Context `{!RepositoryKeeps (R := R) obs, !ApplicationDiskKeeps (D := D) obs, !RealmClientKeeps (C := C) obs}.

#[export] Instance ApplicationManager_keeps :
  ApplicationKeeps (C := C) (A := ApplicationManager R D) obs.
Proof.
  split; simpl; unfold ApplicationManager.stop, ApplicationManager.start, update_config,
    configure_disk, get_data; intros; eff_auto.
  - intros; apply (zoom_behind _ (λ s, obs s.2)); [done..|]. apply stop_application_keeps.
  - intros; apply (zoom_behind _ (λ s, obs s.2)); [done..|]. apply start_application_keeps.
  - intros; by apply steps_modify.
  - intros; apply (zoom_behind _ (λ s, obs s.2)); [done..|]. apply repo_save_keeps.
  - intros; apply (zoom_behind _ (λ s, obs s.2)); [done..|]. apply disk_update_keeps.
  - intros; apply disk_image_uuid_keeps.
  - intros; apply disk_data_uuid_keeps.
Qed.
End application.

(** ** Realms *)

Section realm.
Context {W R A V C F O : Type}.
Context `{!Repository W R RealmConfig, !VmManager W V, !RealmClient W C}.
Context `{!Application W C A, !ApplicationCreator W A F, !Runtime W}.
Context `{!UuidApi, !ExitStatusFmt}.
Context (obs : W → O).
Context `{!VmManagerKeeps (V := V) obs, !RealmClientKeeps (C := C) obs, !RuntimeKeeps obs}.
Context `{!ApplicationKeeps (C := C) (A := A) obs, !ApplicationCreatorKeeps (A := A) (F := F) obs}.

Abbreviation RM := (RealmManager R A V C F).

Lemma on_app_keeps {E T} u a (c : eff (A * (C * W)) E T) :
  steps (behind2 obs) c → steps (same (λ s : RM * W, obs s.2)) (on_app u a c).
Proof.
  intros Hc s. unfold on_app. specialize (Hc (a, (rm_realm_client_handler s.1, s.2))).
  by destruct (c _) as [? [? []]].
Qed.
Lemma on_vm_keeps {E T} (c : eff (V * W) E T) :
  steps (behind obs) c → steps (same (λ s : RM * W, obs s.2)) (zoom vm_lens c).
Proof. by apply zoom_behind. Qed.
Lemma on_client_keeps {E T} (c : eff (C * W) E T) :
  steps (behind obs) c → steps (same (λ s : RM * W, obs s.2)) (zoom client_lens c).
Proof. by apply zoom_behind. Qed.
Lemma on_world_keeps {E T} (c : eff W E T) :
  steps (same obs) c → steps (same (λ s : RM * W, obs s.2)) (zoom snd_lens c).
Proof. by apply zoom_behind. Qed.
Lemma assign_state_keeps st : steps (same (λ s : RM * W, obs s.2)) (assign_state st).
Proof. by apply steps_modify. Qed.
Hint Resolve on_app_keeps on_vm_keeps on_client_keeps on_world_keeps assign_state_keeps : eff.
Hint Resolve launch_vm_keeps vm_shutdown_keeps get_status_keeps app_stop_keeps app_start_keeps
  app_update_keeps app_configure_keeps app_data_keeps connect_and_provision_keeps
  connect_and_fetch_keeps client_fetch_keeps read_realm_ifs_keeps shutdown_realm_keeps
  reboot_realm_keeps create_application_keeps : eff.

Lemma prepare_applications_keeps : steps (same (λ s : RM * W, obs s.2)) (RealmManager.prepare_applications).
Proof.
  unfold RealmManager.prepare_applications. apply steps_bind; [apply _|apply steps_gets; apply _|]. intros tasks.
  apply steps_prepare_tasks; [apply _|]. intros p. unfold prepare_task. eff_auto.
Qed.
Hint Resolve prepare_applications_keeps : eff.

#[export] Instance RealmManager_keeps : RealmKeeps (Rl := RM) obs.
Proof.
  split; simpl; intros;
    unfold RealmManager.start, RealmManager.stop, RealmManager.reboot,
      RealmManager.create_application, RealmManager.update_application,
      RealmManager.get_application, RealmManager.get_realm_data,
      RealmManager.fetch_attestation_token, RealmManager.destroy, launch,
      create_provisioning_config, handle_start_response, stop_client_and_vm, current_state;
    eff_auto.
  - intros s. pose proof (new_v4_keeps s.2) as Hn. unfold same. by destruct (new_v4 s.2).
  - by apply steps_modify.
Qed.
End realm.

(** ** The warden and its clients *)

Section warden.
Context {W Rl H F O : Type}.
Context `{!Realm W Rl H, !RealmCreator W Rl F, !Runtime W, !UuidApi}.
Context (obs : W → O).
Context `{!RealmKeeps (Rl := Rl) obs, !RealmCreatorKeeps (Rl := Rl) (F := F) obs, !RuntimeKeeps obs}.

Abbreviation St := (WardenDaemon F * (Arcs Rl * W))%type.
Abbreviation FR := (same (λ s : St, obs s.2.2)).

Lemma lock_arc_keeps {E A} a (c : eff (Rl * W) E A) :
  steps (behind obs) c → steps FR (zoom shared_lens (lock_arc a c)).
Proof.
  intros Hc s. unfold zoom, lock_arc, same. simpl. destruct (s.2.1 !! a) as [i|]; [|done].
  specialize (Hc (arc_value i, s.2.2)). by destruct (c _) as [? []].
Qed.
Lemma zoom_world_keeps {E A} (c : eff W E A) : steps (same obs) c → steps FR (zoom world_lens c).
Proof. by apply zoom_behind. Qed.
Lemma scoped_keeps {E A} a (c : eff St E A) : steps FR c → steps FR (scoped a c).
Proof. intros Hc s. unfold scoped. specialize (Hc s). by destruct (c s). Qed.
Lemma find_realm_keeps u : steps FR (find_realm u).
Proof. unfold find_realm. eff_auto. Qed.
Lemma realm_data_of_keeps a : steps FR (realm_data_of a).
Proof. unfold realm_data_of. eff_auto. apply lock_arc_keeps, realm_data_keeps. Qed.
Lemma warden_get_realm_keeps u : steps FR (WardenDaemon.get_realm u).
Proof. unfold WardenDaemon.get_realm. eff_auto; [apply find_realm_keeps|by apply steps_modify]. Qed.
Hint Resolve lock_arc_keeps zoom_world_keeps scoped_keeps find_realm_keeps realm_data_of_keeps
  warden_get_realm_keeps create_realm_keeps clean_up_realm_keeps : eff.

Lemma warden_create_realm_keeps id config : steps FR (WardenDaemon.create_realm id config).
Proof.
  unfold WardenDaemon.create_realm, fallible. eff_auto.
  - intros s. unfold fresh_uuid, same. pose proof (new_v4_keeps s.2.2) as Hn.
    by destruct (new_v4 s.2.2).
  - intros s. unfold alloc_arc. by destruct (arc_new _ _).
  - by apply steps_modify.
Qed.

Lemma warden_destroy_realm_keeps u : steps FR (WardenDaemon.destroy_realm u).
Proof.
  unfold WardenDaemon.destroy_realm, ensure_realm_can_be_deleted, ensure_not_busy, ensure_halted,
    remove_realm, fallible. eff_auto.
  - by apply steps_modify.
  - intros s. unfold take_arc. by destruct (arc_into_inner _ _).
  - intros s. unfold destroy_owned, same. pose proof (realm_destroy_keeps (r, s.2.2)) as Hd.
    by destruct (realm_destroy _) as [? []].
Qed.

Lemma on_realm_keeps {A} u (method : eff (Rl * W) RealmError A) :
  steps (behind obs) method → steps FR (on_realm u method).
Proof.
  intros Hm. unfold on_realm, handler_get_realm, on_warden; simpl. eff_auto.
  intros a. apply scoped_keeps. eff_auto.
Qed.

Lemma on_application_keeps {A} ru au (method : H → eff (Rl * W) Managers.ApplicationError A) :
  (∀ h, steps (behind obs) (method h)) → steps FR (on_application ru au method).
Proof.
  intros Hm. unfold on_application, ClientHandler.get_application, handler_get_realm, on_warden; simpl.
  eff_auto. intros a. apply scoped_keeps. eff_auto. apply lock_arc_keeps, realm_get_application_keeps.
Qed.

(** Whatever a client asks for, only what its realms and their fabric change is
    changed. *)
Lemma handle_command_keeps command : steps FR (ClientHandler.handle_command command).
Proof.
  destruct command; unfold ClientHandler.handle_command; apply steps_bind; try apply _;
    try (intros; apply steps_ret; apply _);
    try (apply on_realm_keeps); try (apply on_application_keeps); unfold on_warden.
  - apply steps_map_err; [apply _|]. apply warden_create_realm_keeps.
  - apply realm_fetch_keeps.
  - apply realm_start_keeps.
  - apply realm_stop_keeps.
  - apply realm_reboot_keeps.
  - apply steps_map_err; [apply _|]. apply warden_destroy_realm_keeps.
  - simpl. unfold WardenDaemon.inspect_realm. eff_auto.
  - simpl. unfold WardenDaemon.list_realms. eff_auto.
  - apply realm_create_application_keeps.
  - apply application_start_keeps.
  - apply application_stop_keeps.
  - apply realm_update_application_keeps.
Qed.
End warden.
