(* ===== verification/WholeDaemon.v ===== *)
(** * The whole daemon

    The daemon of [Daemon] and [DaemonRun] with the commands of [ClientHandler]:
    its tasks share the warden, the realms, the network manager and the host, and
    completing a command is [handle_command].  The operating system is the same
    for all parts; those that run past the network manager are lifted here. *)

From S2P Require Import Prelude WardenClient WardenRealm Managers Traits Storage ApplicationDisk.
From S2P Require Import ApplicationManager RealmClientHandler RealmManager VmRunner Arc WardenDaemon.
From S2P Require Import ClientHandler Fabric IpNet IpTables Dnsmasq NatManager UnixSocketServer.
From S2P Require Import Daemon DaemonRun Frames.

(** ** The operating system behind the network manager *)

Section behind.
Context {A W Child Pipe LogTask Snd Rx : Type}.
Context `{!ProcessApi W Child Pipe LogTask, !RealmSender W Snd, !RealmConnector W Snd Rx, !Runtime W}.

(** A function of the world that returns a value. *)
Definition past {B} (f : W → B * W) (s : A * W) : B * (A * W) :=
  ((f s.2).1, (s.1, (f s.2).2)).

#[export] Instance processes_behind : ProcessApi (A * W) Child Pipe LogTask := {
  process_spawn c := zoom snd_lens (process_spawn c);
  child_try_wait := zoom behind_lens child_try_wait;
  child_kill := zoom behind_lens child_kill;
  child_wait := zoom behind_lens child_wait;
  child_take_stdout := child_take_stdout;
  child_take_stderr := child_take_stderr;
  spawn_log_thread o e u := past (spawn_log_thread o e u);
  log_thread_abort h s := (s.1, log_thread_abort h s.2) }.

#[export] Instance senders_behind : RealmSender (A * W) Snd := {
  sender_send r := zoom behind_lens (sender_send r);
  receive_response t := zoom behind_lens (receive_response t) }.

#[export] Instance connector_behind : RealmConnector (A * W) Snd Rx := {
  connector_acquire_realm_sender cid := past (connector_acquire_realm_sender cid);
  wait_for_sender rx t := past (wait_for_sender rx t) }.

#[export] Instance runtime_behind : Runtime (A * W) := {
  completion_order s := completion_order s.2;
  task_panic s := task_panic s.2;
  task_ran s := task_ran s.2;
  new_v4 := past new_v4 }.
End behind.

(** ** What the parts of the daemon do to the network *)

Section whole.
Context {W Fd P G DFd Snd Rx L T Handle Task Child Pipe LogTask : Type}.
Context `{!FileApi W Fd, !Yaml ApplicationConfig, !Yaml RealmConfig, !UuidApi}.
Context `{!DiskApi W P G DFd, !UnixSocketApi W L}.
Context `{!IpNetApi, !IpTablesApi W T, !NetlinkApi W Handle Task}.
Context `{!ProcessApi W Child Pipe LogTask, !RealmSender W Snd, !RealmConnector W Snd Rx, !Runtime W}.
Context `{!Debug RealmSenderError, !Debug ProtocolError, !Debug Response, !ExitStatusFmt}.

Abbreviation Dhcp := (DnsmasqServerHandler (Child := Child)).
Abbreviation NM := (NetworkManagerHandler Dhcp).
Abbreviation Vm := (VmRunner Runner Child LogTask).
Abbreviation App := (ApplicationManager (FileRepository ApplicationConfig) ApplicationDiskManager).
Abbreviation RM :=
  (RealmManager (FileRepository RealmConfig) App Vm (RealmClientHandler Snd) ApplicationFabric).

(** The state the tasks of the daemon share. *)
Abbreviation DaemonState := (WardenDaemon (RealmManagerFabric Vm) * (Arcs RM * (NM * W)))%type.

(** Completing a command of a client. *)
Definition command_completes (command : WardenCommand) (s s' : DaemonState) : Prop :=
  s' = (ClientHandler.handle_command command s).2.

(** The state after [DaemonBuilder::build]. *)
Definition built (d : Daemon (Snd := Snd) (L := L) (LogTask := LogTask)) (w : W) : DaemonState :=
  ((warden d).1, ((warden d).2, (network_manager d, w))).

Context `{!IpTablesLaws W T, !LinkLaws W Handle Task}.
Context `{!IpTablesKeeps links, !DHCPKeeps (W := W) (D := Dhcp) links}.
Context `{!∀ v6, NetlinkKeeps (ipt_rules v6), !∀ v6, DHCPKeeps (W := W) (D := Dhcp) (ipt_rules v6)}.
Context `{!∀ v6, HostKeeps (ipt_rules v6), !∀ v6, ProcessKeeps (ipt_rules v6)}.
Context `{!∀ v6, RealmSenderKeeps (ipt_rules v6), !∀ v6, RealmConnectorKeeps (ipt_rules v6)}.
Context `{!∀ v6, RuntimeKeeps (ipt_rules v6)}.

Section frame.
Context (v6 : bool).
Abbreviation R := (same (nat_frame (D := Dhcp) v6)).

#[local] Hint Extern 1 (steps (same _) _) => host_keeps : eff.
#[local] Hint Extern 1 (steps _ (ApplicationDisk.create_disk_with_partitions _)) =>
  apply create_disk_keeps : eff.
#[local] Hint Resolve zoom_nat_frame create_tap_frame shutdown_tap_frame : eff.

Lemma behind_keeps {X E A} (c : eff (X * W) E A) :
  steps (same (λ s : X * W, ipt_rules v6 s.2)) c →
  steps (same (λ s : X * (NM * W), nat_frame v6 s.2)) (zoom behind_lens c).
Proof.
  intros Hc [x [n w]]. specialize (Hc (x, w)). unfold zoom, same, nat_frame in *. simpl in *.
  destruct (c (x, w)) as [r [x' w']]. simpl in *. by rewrite Hc.
Qed.

Lemma past_keeps {B} (f : W → B * W) (s : NM * W) :
  ipt_rules v6 (f s.2).2 = ipt_rules v6 s.2 → nat_frame v6 (past f s).2 = nat_frame v6 s.
Proof. unfold nat_frame. simpl. by intros ->. Qed.

#[local] Instance processes_keep : ProcessKeeps (nat_frame (D := Dhcp) v6).
Proof.
  split; simpl; intros.
  - apply zoom_nat_frame, process_spawn_keeps.
  - apply behind_keeps, child_try_wait_keeps.
  - apply behind_keeps, child_kill_keeps.
  - apply behind_keeps, child_wait_keeps.
  - apply past_keeps, spawn_log_thread_keeps.
  - unfold nat_frame. simpl. by rewrite log_thread_abort_keeps.
Qed.
#[local] Instance senders_keep : RealmSenderKeeps (nat_frame (D := Dhcp) v6).
Proof.
  split; simpl; intros; apply behind_keeps; [apply sender_send_keeps|apply receive_response_keeps].
Qed.
#[local] Instance connector_keeps : RealmConnectorKeeps (nat_frame (D := Dhcp) v6).
Proof.
  split; simpl; intros; apply past_keeps; [apply connector_acquire_keeps|apply wait_for_sender_keeps].
Qed.
#[local] Instance runtime_keeps : RuntimeKeeps (nat_frame (D := Dhcp) v6).
Proof. intros s. apply past_keeps, new_v4_keeps. Qed.

#[local] Instance yaml_keeps {D} `{!Yaml D} :
  RepositoryKeeps (R := FileRepository D) (nat_frame (D := Dhcp) v6).
Proof.
  red. simpl. unfold yaml_save. apply steps_with_state. intros s. eff_auto.
  apply (zoom_behind _ (nat_frame v6)); [done..|]. unfold save. simpl. eff_auto.
Qed.

#[local] Instance disks_keep :
  ApplicationDiskKeeps (D := ApplicationDiskManager) (nat_frame (D := Dhcp) v6).
Proof.
  split; simpl; intros.
  - apply create_disk_keeps.
  - unfold ApplicationDisk.update_disk_with_partitions, update_partitions_if_sizes_differ. eff_auto.
    + intros s; apply (zoom_behind _ (nat_frame v6)); [done..|]. apply ensure_partitions_keeps.
    + by apply steps_modify.
    + intros s; apply (zoom_behind _ (nat_frame v6)); [done..|]. apply create_application_disk_keeps.
  - unfold ApplicationDisk.get_data_partition_uuid, read_partitions. simpl. eff_auto.
  - unfold ApplicationDisk.get_image_partition_uuid, read_partitions. simpl. eff_auto.
Qed.

#[local] Instance application_fabric_keeps :
  ApplicationCreatorKeeps (A := App) (F := ApplicationFabric) (nat_frame (D := Dhcp) v6).
Proof.
  intros f u cfg. simpl. unfold Fabric.create_application, creation_fail, Yaml_new,
    FileRepository_new, save, ApplicationManager.new. simpl. eff_auto.
Qed.

#[local] Instance realm_fabric_keeps :
  RealmCreatorKeeps (Rl := RM) (F := RealmManagerFabric Vm) (nat_frame (D := Dhcp) v6).
Proof.
  split; intros; simpl.
  - unfold Fabric.create_realm, realm_fail, Yaml_new, FileRepository_new, save. simpl. eff_auto.
  - unfold clean_up_realm. simpl. eff_auto.
Qed.

(** A command uses the network manager for tap devices only. *)
Lemma command_completes_frame command s s' :
  command_completes command s s' → nat_frame v6 s'.2.2 = nat_frame v6 s.2.2.
Proof. intros ->. symmetry. apply (handle_command_keeps (nat_frame v6)). Qed.
End frame.

(** C37.  The references to realms stay balanced over the whole life of the daemon:
    from the moment it is built, whatever clients send and also while it is being
    stopped, the table owns the only reference to every realm between two
    commands, so that no command can ever panic on one. *)
Theorem daemon_keeps_references cli w d w1 x :
  build (Snd := Snd) (LogTask := LogTask) cli w = (Ok d, w1) →
  rtc (daemon_step world_lens command_completes) (run (built d w1)) x →
  refs_ok [] (shared (usock x)) ∧
  ∀ q msg, (ClientHandler.handle_command q (shared (usock x))).1 ≠ Err (Panic msg).
Proof.
  intros Hb Hrun. assert (refs_ok [] (shared (usock x))) as Hok.
  { apply (daemon_invariant world_lens command_completes (refs_ok []) _ _) in Hrun; [done|..].
    - intros q s s' -> Hs. destruct (ClientHandler.handle_command q s) as [r s'] eqn:Hq.
      by apply (handle_command_balanced _ _ _ _ _ Hq).
    - intros s Hs. unfold zoom. simpl. by destruct (shutdown_nat s.2.2).
    - simpl. by apply build_refs in Hb. }
  split; [done|]. intros q msg. destruct (ClientHandler.handle_command q _) as [r s'] eqn:Hq.
  by destruct (handle_command_balanced _ _ _ _ _ Hq Hok) as [_ Hp].
Qed.

End whole.
