(* ===== verification/DaemonMain.v ===== *)
(** * The main program of the daemon

    [warden_daemon/src/main.rs] with the first part of [Daemon::run]
    ([warden_daemon/src/daemon.rs]): the daemon is built, its servers are spawned,
    the handlers of the signals are installed, and the process ends when the main
    task has exited, or when one of these steps fails. *)

From S2P Require Import Prelude WardenClient WardenRealm Managers Traits Storage ApplicationDisk.
From S2P Require Import ApplicationManager RealmClientHandler RealmManager VmRunner Arc WardenDaemon.
From S2P Require Import ClientHandler Fabric IpNet IpTables Dnsmasq NatManager UnixSocketServer.
From S2P Require Import Daemon DaemonRun Frames WholeDaemon.

(** [tokio::signal::unix]. *)
Inductive SignalKind := interrupt | terminate.
Class SignalApi (W : Type) := signal : SignalKind → eff W IoError unit.
Class SignalKeeps {W O : Type} `{!SignalApi W} (obs : W → O) : Prop :=
  signal_keeps : ∀ k, steps (same obs) (signal k).

Inductive MainError := MainBuild (e : BuildError) | MainSignal (e : IoError).

Section main.
Context {W Fd P G DFd Snd Rx L T Handle Task Child Pipe LogTask : Type}.
Context `{!FileApi W Fd, !Yaml ApplicationConfig, !Yaml RealmConfig, !UuidApi}.
Context `{!DiskApi W P G DFd, !UnixSocketApi W L}.
Context `{!IpNetApi, !IpTablesApi W T, !NetlinkApi W Handle Task}.
Context `{!ProcessApi W Child Pipe LogTask, !RealmSender W Snd, !RealmConnector W Snd Rx, !Runtime W}.
Context `{!Debug RealmSenderError, !Debug ProtocolError, !Debug Response, !ExitStatusFmt}.
Context `{!SignalApi W}.

Abbreviation Dhcp := (DnsmasqServerHandler (Child := Child)).
Abbreviation NM := (NetworkManagerHandler Dhcp).
Abbreviation Vm := (VmRunner Runner Child LogTask).
Abbreviation App := (ApplicationManager (FileRepository ApplicationConfig) ApplicationDiskManager).
Abbreviation RM :=
  (RealmManager (FileRepository RealmConfig) App Vm (RealmClientHandler Snd) ApplicationFabric).
Abbreviation DaemonState := (WardenDaemon (RealmManagerFabric Vm) * (Arcs RM * (NM * W)))%type.
Abbreviation Process := (Running (C := WardenCommand) (S := DaemonState)).
Abbreviation steps_to := (rtc (daemon_step (C := WardenCommand) (S := DaemonState) world_lens command_completes)).

(** The handlers of the signals, while the servers are already running. *)
Definition install_signals : eff W IoError unit :=
  signal interrupt;;
  signal terminate.

(** The host behind the tasks. *)
Definition host (x : Process) : W := (shared (usock x)).2.2.2.
Definition set_host (w : W) (x : Process) : Process :=
  let '(d, (h, (n, _))) := shared (usock x) in
  mkRunning (main x) (cancelled x) (vsock_listens x)
    (with_shared (d, (h, (n, w))) (usock x)) (shutdown_log x).

Lemma set_host_id (x : Process) : set_host (host x) x = x.
Proof. unfold set_host, host. destruct x as [m b v [p cs [d [h [nm w]]]] l]. done. Qed.

(** [main]: its result, with what the shutdown of the network logged, and the host it
    leaves.  The servers run while the handlers are installed. *)
Inductive main_returns (cli : Cli) (w : W) : result (list string) MainError → W → Prop :=
| build_fails e w1 :
    build (Snd := Snd) (LogTask := LogTask) cli w = (Err e, w1) →
    main_returns cli w (Err (MainBuild e)) w1
| signals_fail d w1 x e w2 :
    build (Snd := Snd) (LogTask := LogTask) cli w = (Ok d, w1) →
    steps_to (run (built d w1)) x → main x = Selecting →
    install_signals (host x) = (Err e, w2) →
    main_returns cli w (Err (MainSignal e)) w2
| main_exits d w1 x w2 x' :
    build (Snd := Snd) (LogTask := LogTask) cli w = (Ok d, w1) →
    steps_to (run (built d w1)) x → main x = Selecting →
    install_signals (host x) = (Ok tt, w2) →
    steps_to (set_host w2 x) x' → main x' = Exited →
    main_returns cli w (Ok (shutdown_log x')) (host x').

Context `{!IpTablesLaws W T, !LinkLaws W Handle Task}.
Context `{!IpTablesKeeps links, !DHCPKeeps (W := W) (D := Dhcp) links}.
Context `{!∀ v6, NetlinkKeeps (ipt_rules v6), !∀ v6, DHCPKeeps (W := W) (D := Dhcp) (ipt_rules v6)}.
Context `{!∀ v6, HostKeeps (ipt_rules v6), !∀ v6, ProcessKeeps (ipt_rules v6)}.
Context `{!∀ v6, RealmSenderKeeps (ipt_rules v6), !∀ v6, RealmConnectorKeeps (ipt_rules v6)}.
Context `{!∀ v6, RuntimeKeeps (ipt_rules v6), !∀ v6, SignalKeeps (ipt_rules v6)}.

Lemma install_signals_keeps v6 w r w' :
  install_signals w = (r, w') → ipt_rules v6 w' = ipt_rules v6 w.
Proof.
  intros Hs. symmetry. apply (steps_run (same (ipt_rules v6)) install_signals _ _ _) in Hs; [done|].
  unfold install_signals. eff_auto; intros; apply signal_keeps.
Qed.

(** C14.  The main program of the daemon, from its start to its return, with whatever
    commands clients have sent in between and while the daemon was stopping, and
    whatever came of them.  When the daemon exits and the shutdown of the network
    logged no error, the packet filter of the host is what it was at the start.
    When a handler of the signals cannot be installed, the program returns without
    shutting the network down: the packet filter keeps the rules of the daemon. *)
Theorem main_restores_packet_filter cli w r w' :
  let v6 := is_ipv6 (net_addr (network_address cli)) in
  fresh_routing (bridge_if_name cli) (ipt_rules v6 w) →
  main_returns cli w r w' →
  match r with
  | Ok log => log = [] → ipt_rules v6 w' = ipt_rules v6 w
  | Err (MainSignal _) => ∃ d w1,
      build (Snd := Snd) (LogTask := LogTask) cli w = (Ok d, w1) ∧ ipt_rules v6 w' = ipt_rules v6 w1
  | Err (MainBuild e) => build (Snd := Snd) (LogTask := LogTask) cli w = (Err e, w')
  end.
Proof.
  intros v6 Hfresh Hmain. destruct Hmain as [e w1 Hb|d w1 x e w2 Hb Hx Hm Hs|d w1 x w2 x' Hb Hx Hm Hs Hx' Hm'];
    [done|..].
  all: destruct (built_network_life (C := WardenCommand) world_lens cli w d w1 v6
    (built d w1) Hb eq_refl) as (f0&Hlife&Hf0&Hend);
    apply (network_life_rtc world_lens ltac:(done) command_completes command_completes_frame v6 f0) in Hx;
    [|done]; apply (install_signals_keeps v6) in Hs.
  - exists d, w1. split; [done|]. rewrite Hs. unfold network_life in Hx. rewrite Hm, Hf0 in Hx.
    by injection Hx as _ _ Hx.
  - intros Hlog. apply (Hend x'); [done..| |done|done].
    apply (network_life_rtc world_lens ltac:(done) command_completes command_completes_frame v6 f0 _ _ Hx').
    unfold network_life in *. revert Hx Hs. unfold host, set_host.
    destruct (shared (usock x)) as [wd [h [n w0]]] eqn:Hsh. simpl. rewrite Hm. simpl. unfold nat_frame.
    simpl. by intros <- ->.
Qed.

End main.
