(* ===== verification/AppStorage.v ===== *)
(** * Applications on disk

    How the pieces around an application's storage fit together: the fabric
    that creates and loads applications, the disk manager, the configuration
    files and the command line of the virtual machine. *)

From S2P Require Import Prelude Managers Traits Storage ApplicationDisk ApplicationManager.
From S2P Require Import VmRunner Fabric.

(** Relative names under one directory give different paths. *)
Lemma path_push_inj (p a b : PathBuf) :
  is_absolute a = false → is_absolute b = false → path_push p a = path_push p b → a = b.
Proof.
  unfold path_push. intros -> ->. case_match; [apply append_inj_l|].
  intros Heq%append_inj_l. by apply append_inj_l in Heq.
Qed.

Lemma not_below_itself (d n : string) : d ≠ d +:+ "/" +:+ n.
Proof. induction d as [|c d IH]; [done|]. intros Heq. injection Heq as Heq. done. Qed.

Lemma config_path_not_disk (p : PathBuf) : create_config_path p ≠ path_push p DISK_NAME.
Proof. by intros ?%path_push_inj. Qed.

Section app_storage.
Context {W Fd P G DFd : Type}.
Context `{!FileApi W Fd, !Yaml ApplicationConfig, !UuidApi, !DiskApi W P G DFd}.
Context `{!FileApiLaws W Fd, !YamlLaws ApplicationConfig, !DiskApiLaws W P G DFd}.

(** The names of the directories in a directory, where there is one. *)
Class Subdirectories := subdirs : W → PathBuf → option (list string).
Context `{!Subdirectories}.

(** The file and the partition table at [q] stay. *)
Definition kept (q : PathBuf) (w w' : W) : Prop :=
  file_text w' q = file_text w q ∧ (gpt_open_read_only q w').1 = (gpt_open_read_only q w).1.

#[global] Instance kept_preorder q : PreOrder (kept q).
Proof. split; [done|]. intros w1 w2 w3 [H1 H2] [H3 H4]. split; congruence. Qed.

(** Nothing but the files of which [X] holds changes, and no directory. *)
Definition within (X : PathBuf → Prop) (w w' : W) : Prop :=
  (∀ q, ¬ X q → kept q w w') ∧ ∀ d, subdirs w' d = subdirs w d.

#[global] Instance within_preorder X : PreOrder (within X).
Proof.
  split; [done|]. intros w1 w2 w3 [H12 D12] [H23 D23]. split; [|intros d; by rewrite D23].
  intros q Hq. etrans; [by apply H12|by apply H23].
Qed.

Lemma within_mono (X Y : PathBuf → Prop) w w' : (∀ q, X q → Y q) → within X w w' → within Y w w'.
Proof. intros HXY [Hk Hd]. split; [|done]. intros q Hq. apply Hk. auto. Qed.

(** No file but [p], and nothing at all. *)
Definition others (p : PathBuf) : W → W → Prop := within (λ q, q = p).
Definition unchanged : W → W → Prop := within (λ _, False).

#[global] Instance others_preorder p : PreOrder (others p).
Proof. apply within_preorder. Qed.
#[global] Instance unchanged_preorder : PreOrder unchanged.
Proof. apply within_preorder. Qed.

Lemma unchanged_kept w w' q : unchanged w w' → kept q w w'.
Proof. intros [Hk _]. apply Hk. by intros []. Qed.
Lemma unchanged_within X w w' : unchanged w w' → within X w w'.
Proof. apply within_mono. by intros q []. Qed.

(** The same for an open partition table, which stays one of the same file. *)
Definition gpt_others (gpath : G → PathBuf) (s s' : G * W) : Prop :=
  gpath s'.1 = gpath s.1 ∧ others (gpath s.1) s.2 s'.2.

#[local] Instance gpt_others_preorder gpath : PreOrder (gpt_others gpath).
Proof.
  split; [done|]. intros s1 s2 s3 [Hp1 Ho1] [Hp2 Ho2]. split; [congruence|].
  rewrite Hp1 in Ho2. by transitivity s2.2.
Qed.

(** How the files, the partition tables and the directories are separated: reading
    changes nothing, what is done to an open file or disk changes no other, a new
    directory is an empty entry of the one it is in, and removing a directory removes
    what is below it. *)
Class StorageFrame := {
  file_fd_path : Fd → PathBuf;
  fd_path : DFd → PathBuf;
  gpt_path : G → PathBuf;
  frame_open : ∀ p, steps unchanged (file_open p);
  open_missing : ∀ p w, file_text w p = None → is_err (file_open p w).1 = true;
  frame_read : ∀ fd, steps unchanged (file_read_to_string fd);
  frame_list : ∀ d, steps unchanged (dir_entries d);
  list_complete : ∀ d ns w, subdirs w d = Some ns →
    ∃ es, (dir_entries d w).1 = Ok es ∧
      (filter (λ e : string * option bool, e.2 = Some true) es).*1 ≡ₚ ns;
  frame_create_dir : ∀ d r w w', create_dir d w = (r, w') → ∀ q, kept q w w';
  create_dir_others : ∀ p d r w w', create_dir p w = (r, w') → d ≠ "" → d ≠ p →
    (∀ n, has_char slash n = false → p ≠ d +:+ "/" +:+ n) → subdirs w' d = subdirs w d;
  create_dir_empty : ∀ d w w', create_dir d w = (Ok tt, w') →
    subdirs w' d = Some [] ∧ ∀ n, file_text w (d +:+ "/" +:+ n) = None;
  create_dir_entry : ∀ d n ns w w', d ≠ "" → n ≠ "" → has_char slash n = false →
    create_dir (d +:+ "/" +:+ n) w = (Ok tt, w') → subdirs w d = Some ns →
    (n ∉ ns) ∧ ∃ ns', subdirs w' d = Some ns' ∧ ns' ≡ₚ n :: ns;
  frame_remove_dir : ∀ d r w w', remove_dir_all d w = (r, w') →
    ∀ q, (∀ n, q ≠ d +:+ "/" +:+ n) → kept q w w';
  remove_dir_others : ∀ p d r w w', remove_dir_all p w = (r, w') → d ≠ "" → d ≠ p →
    (∀ n, d ≠ p +:+ "/" +:+ n) → (∀ n, has_char slash n = false → p ≠ d +:+ "/" +:+ n) →
    subdirs w' d = subdirs w d;
  remove_dir_entry : ∀ d n ns w w', d ≠ "" → n ≠ "" → has_char slash n = false →
    remove_dir_all (d +:+ "/" +:+ n) w = (Ok tt, w') → subdirs w d = Some ns → n ∈ ns →
    ∃ ns', subdirs w' d = Some ns' ∧ n :: ns' ≡ₚ ns;
  frame_file_create : ∀ p, steps (others p) (file_create p);
  file_create_path : ∀ p fd w w', file_create p w = (Ok fd, w') → file_fd_path fd = p;
  frame_file_write : ∀ fd t, steps (others (file_fd_path fd)) (Storage.file_write_all fd t);
  frame_file_flush : ∀ fd, steps (others (file_fd_path fd)) (file_flush fd);
  frame_truncate : ∀ p, steps (others p) (file_create_truncate p);
  truncate_path : ∀ p fd w w', file_create_truncate p w = (Ok fd, w') → fd_path fd = p;
  frame_seek : ∀ fd n, steps (others (fd_path fd)) (file_seek fd n);
  frame_write : ∀ fd b, steps (others (fd_path fd)) (ApplicationDisk.file_write_all fd b);
  frame_sync : ∀ fd, steps (others (fd_path fd)) (file_sync_all fd);
  frame_shutdown : ∀ fd, steps (others (fd_path fd)) (file_shutdown fd);
  frame_mbr : ∀ fd n, steps (others (fd_path fd)) (mbr_overwrite_lba0 fd n);
  frame_gpt_create : ∀ fd n, steps (others (fd_path fd)) (gpt_create_from_device fd n);
  gpt_create_path : ∀ fd n g w w', gpt_create_from_device fd n w = (Ok g, w') → gpt_path g = fd_path fd;
  frame_gpt_update : ∀ ps, steps (gpt_others gpt_path) (gpt_update_partitions ps);
  frame_gpt_add : ∀ n b, steps (gpt_others gpt_path) (gpt_add_partition n b);
  frame_gpt_write : steps (gpt_others gpt_path) gpt_write }.

Context `{!StorageFrame}.

#[local] Hint Resolve frame_truncate frame_seek frame_write frame_sync frame_shutdown
  frame_mbr frame_gpt_create frame_gpt_update frame_gpt_add frame_gpt_write : eff.

(** Creating a disk changes no other file. *)
Lemma create_disk_device_frame (d : ApplicationDiskManager) w r w' :
  create_disk_device d w = (r, w') →
  others (file_path d) w w' ∧ ∀ fd, r = Ok fd → fd_path fd = file_path d.
Proof.
  unfold create_disk_device. intros Hrun. run_split Hrun as fd w1 Ht.
  { split; [eapply steps_run, Hrun; apply frame_truncate|done]. }
  pose proof (truncate_path _ _ _ _ Ht) as Hp.
  split.
  - transitivity w1; [eapply steps_run, Ht; apply frame_truncate|]. rewrite <-Hp.
    eapply steps_run, Hrun. eff_auto.
  - intros fd' ->. by run_inv.
Qed.

Lemma with_gpt_frame {A} g (c : eff (G * W) ApplicationDiskManagerError A) :
  steps (gpt_others gpt_path) c → steps (others (gpt_path g)) (with_gpt g c).
Proof.
  intros Hc w. unfold with_gpt. specialize (Hc (g, w)). destruct (c (g, w)) as [r [g' w']].
  by destruct Hc.
Qed.

Lemma create_gpt_frame (d : ApplicationDiskManager) fd :
  steps (others (fd_path fd)) (create_gpt_and_partitions d fd).
Proof.
  intros w. destruct (create_gpt_and_partitions d fd w) as [r w'] eqn:Hrun. simpl.
  unfold create_gpt_and_partitions, write_mbr in Hrun. run_split Hrun as [] w1 Hm.
  { eapply steps_run; [|exact Hrun]. eff_auto. }
  transitivity w1; [eapply steps_run; [|exact Hm]; eff_auto|]. run_split Hrun as g w2 Hg.
  { eapply steps_run; [|exact Hrun]. eff_auto. }
  apply map_err_ok in Hg. rewrite <-(gpt_create_path _ _ _ _ _ Hg).
  transitivity w2; [rewrite (gpt_create_path _ _ _ _ _ Hg); eapply steps_run, Hg; apply frame_gpt_create|].
  eapply steps_run; [|exact Hrun]. apply with_gpt_frame. unfold create_partition. eff_auto.
Qed.

Lemma ensure_frame p (d : ApplicationDiskManager) :
  steps (others p) (ensure_partitions_correctness d).
Proof.
  intros w. destruct (ensure_partitions_correctness d w) as [r w'] eqn:He.
  by apply ensure_pure in He as ->.
Qed.

#[local] Hint Resolve create_gpt_frame ensure_frame : eff.

Lemma create_application_disk_frame (d : ApplicationDiskManager) :
  steps (others (file_path d)) (create_application_disk d).
Proof.
  intros w. destruct (create_application_disk d w) as [r w'] eqn:Hrun. simpl.
  unfold create_application_disk, sync_file in Hrun. run_split Hrun as fd w1 Hd.
  { apply map_err_err in Hrun as (?&?&Hrun). by apply create_disk_device_frame in Hrun as []. }
  apply map_err_ok, create_disk_device_frame in Hd as [Ho Hp].
  transitivity w1; [done|]. rewrite <-(Hp fd eq_refl). eapply steps_run, Hrun. eff_auto.
Qed.

#[local] Hint Resolve create_application_disk_frame : eff.

Lemma create_disk_frame (d : ApplicationDiskManager) :
  steps (others (file_path d)) (create_disk_with_partitions d).
Proof. unfold create_disk_with_partitions. eff_auto. Qed.

(** Saving a configuration changes no other file. *)
Lemma save_frame {D} `{!Yaml D} (r : FileRepository D) : steps (others (path r)) (save r).
Proof.
  intros w. destruct (save r w) as [o w'] eqn:Hrun. simpl. unfold save in Hrun.
  run_split Hrun as t w1 Ht; [unfold try_r in Hrun; by run_inv|]. injection Ht as _ <-.
  run_split Hrun as fd w2 Hc; [eapply steps_run, Hrun; eff_auto; apply frame_file_create|].
  apply map_err_ok in Hc. transitivity w2; [eapply steps_run, Hc; apply frame_file_create|].
  rewrite <-(file_create_path _ _ _ _ Hc). eapply steps_run, Hrun.
  eff_auto; [apply frame_file_write|intros; apply frame_file_flush].
Qed.

#[local] Hint Resolve frame_open frame_read frame_list : eff.

Lemma from_file_path_frame {D} `{!Yaml D} p :
  steps unchanged (from_file_path p : eff W FileRepositoryError (FileRepository D)).
Proof. unfold from_file_path, try_read_file. eff_auto. Qed.

#[local] Hint Resolve from_file_path_frame : eff.

Lemma Yaml_from_frame {D} `{!Yaml D} p :
  steps unchanged (Yaml_from p : eff W RepositoryError (FileRepository D)).
Proof. unfold Yaml_from. eff_auto. Qed.

Lemma ensure_same_disk (d : ApplicationDiskManager) w w' :
  (gpt_open_read_only (file_path d) w').1 = (gpt_open_read_only (file_path d) w).1 →
  ensure_partitions_correctness d w = (Ok tt, w) → ensure_partitions_correctness d w' = (Ok tt, w').
Proof.
  intros Heq (img&dat&ps&Hps&Hrest)%ensure_ok. apply ensure_ok. exists img, dat, ps.
  by rewrite Heq.
Qed.

(** ** Applications that are on disk *)

Abbreviation App := (ApplicationManager (FileRepository ApplicationConfig) ApplicationDiskManager).

Definition app_dir (f : ApplicationFabric) (uuid : Uuid) : PathBuf :=
  create_workdir_path_with_uuid (realm_workdir_path f) uuid.

(** What the files of the application [a] hold is the application. *)
Definition app_saved (f : ApplicationFabric) (w : W) (uuid : Uuid) (a : App) : Prop :=
  ∃ config disk t,
    a = mkApplicationManager uuid (mkFileRepository config (create_config_path (app_dir f uuid))) disk ∧
    ApplicationDisk.new (app_dir f uuid) (image_storage_size_mb config) (data_storage_size_mb config)
      = Ok disk ∧
    yaml_to_string config = Ok t ∧ file_text w (create_config_path (app_dir f uuid)) = Some t ∧
    ensure_partitions_correctness disk w = (Ok tt, w).

Lemma disk_new_file path image data disk :
  ApplicationDisk.new path image data = Ok disk → file_path disk = path_push path DISK_NAME.
Proof. unfold ApplicationDisk.new, and_then. by repeat case_match; intros; simplify_eq. Qed.

Lemma app_saved_kept f w w' uuid a :
  kept (create_config_path (app_dir f uuid)) w w' → kept (path_push (app_dir f uuid) DISK_NAME) w w' →
  app_saved f w uuid a → app_saved f w' uuid a.
Proof.
  intros [Hc _] [_ Hd] (config&disk&t&->&Hn&Ht&Hf&He). exists config, disk, t.
  split_and!; [done..|by rewrite Hc|]. eapply ensure_same_disk; [|done].
  by rewrite (disk_new_file _ _ _ _ Hn).
Qed.

(** Creating an application saves it, makes its directory and leaves the rest. *)
Lemma fabric_create_application_ok f uuid config w a w' :
  create_application f uuid config w = (Ok a, w') →
  app_saved f w' uuid a ∧
  (∃ w1, create_dir (app_dir f uuid) w = (Ok tt, w1) ∧ ∀ d, subdirs w' d = subdirs w1 d) ∧
  ∀ q, q ≠ create_config_path (app_dir f uuid) → q ≠ path_push (app_dir f uuid) DISK_NAME → kept q w w'.
Proof.
  intros Hrun. unfold create_application, creation_fail in Hrun. fold (app_dir f uuid) in Hrun.
  apply bind_ok_inv in Hrun as ([]&w1&Hdir&Hrun). apply bind_ok_inv in Hrun as (disk&w2&Hd&Hrun).
  apply bind_ok_inv in Hrun as (repo&w3&Hy&Hrun). apply map_err_ok in Hd, Hy, Hrun, Hdir.
  unfold try_r in Hd. simplify_eq. unfold Yaml_new in Hy. apply map_err_ok in Hy.
  unfold FileRepository_new in Hy. apply bind_ok_inv in Hy as ([]&w4&Hs&Hy). run_inv.
  pose proof (steps_run _ _ _ _ _ (save_frame _) Hs) as [Hso Hsd]. simpl in *.
  apply save_ok in Hs as (t&Ht&Hf). unfold ApplicationManager.new in Hrun.
  apply bind_ok_inv in Hrun as ([]&w4&Hc&Hrun). run_inv. simpl in *.
  pose proof (steps_run _ _ _ _ _ (create_disk_frame _) Hc) as [Hdo Hdd].
  match goal with H : ApplicationDisk.new _ _ _ = _ |- _ => pose proof (disk_new_file _ _ _ _ H) as Hp end.
  rewrite Hp in Hdo. split_and!.
  - exists config, disk, t. split_and!; [done..| |by eapply create_disk_ok].
    destruct (Hdo _ (config_path_not_disk _)) as [-> _]. done.
  - exists w2. split; [done|]. intros d. by rewrite Hdd, Hsd.
  - intros q Hq Hq'. transitivity w2; [by eapply frame_create_dir|].
    transitivity w3; [by apply Hso|by apply Hdo].
Qed.

(** Loading a saved application gives it back, and changes nothing. *)
Lemma load_application_saved f uuid a w :
  app_saved f w uuid a →
  ∃ w', load_application f uuid w = (Ok a, w') ∧ unchanged w w'.
Proof.
  intros (config&disk&t&->&Hd&Ht&Hf&Hens).
  destruct (from_file_path_saved (mkFileRepository config (create_config_path (app_dir f uuid))) t w Ht Hf)
    as (w'&Hload&_). simpl in Hload. exists w'.
  pose proof (steps_run _ _ _ _ _ (from_file_path_frame _) Hload) as Hun.
  split; [|done]. unfold load_application, creation_fail.
  fold (app_dir f uuid).
  erewrite bind_ok by (apply map_err_ok; unfold Yaml_from; by apply map_err_ok). simpl.
  rewrite Hd. erewrite bind_ok by reflexivity. apply map_err_ok. unfold ApplicationManager.new.
  rewrite (bind_ok _ _ _ tt w'); [done|]. apply create_disk_correct_noop.
  eapply ensure_same_disk, Hens.
  by destruct (unchanged_kept _ _ (file_path disk) Hun) as [_ ?].
Qed.

(** An application survives a restart of the daemon: what
    [create_application] returned is exactly what [load_application] rebuilds
    from the realm's directory, and the existing disk is not touched. *)
Theorem application_survives_restart f uuid config w a w' :
  create_application f uuid config w = (Ok a, w') →
  ∃ w'', load_application f uuid w' = (Ok a, w'').
Proof.
  intros (Hs&_)%fabric_create_application_ok. apply load_application_saved in Hs as (w''&?&_). eauto.
Qed.

End app_storage.

(** ** The virtual machine gets the applications' disks *)

Section vm_disks.
Context {Child H : Type} `{!UuidApi}.

(** How a runner names a disk on the command line. *)
Definition disk_args (r : Runner) (p : PathBuf) : list string :=
  match r with LkvmRunner _ => ["-d"; p] | QemuRunner _ => ["-drive"; "file=" +:+ p] end.

Lemma setup_disk_args (r : Runner) p c : setup_disk r p c = add_args (disk_args r p) c.
Proof.
  destruct r, c; simpl; unfold Lkvm.setup_disk, Qemu.setup_disk, compose, arg, add_args; simpl;
    by rewrite <-app_assoc.
Qed.

(** The disk manager the fabric makes for application [u] of a realm. *)
Definition fabric_disk (workdir : PathBuf) (u : Uuid) (image data : Z)
    : result ApplicationDiskManager ApplicationDiskManagerError :=
  ApplicationDisk.new (create_workdir_path_with_uuid workdir u) image data.

(** The virtual machine is started with exactly the disks of the realm's
    applications: for applications made by the realm's fabric (whatever their
    sizes), the command line is the realm's base command followed by the disk
    file of each application, in the order given. *)
Theorem vm_command_has_app_disks (r : VmRunner.VmRunner Runner Child H)
    (apps : list (Uuid * Z * Z * ApplicationDiskManager)) :
  Forall (λ '(u, image, data, disk), fabric_disk (realm_workdir r) u image data = Ok disk) apps →
  prepare_run_command r ((λ x : Uuid * Z * Z * ApplicationDiskManager, x.1.1.1) <$> apps) =
  mkCommand (program (get_command (cmd_runner r)))
    (args (get_command (cmd_runner r)) ++
     concat ((λ x : Uuid * Z * Z * ApplicationDiskManager,
       disk_args (cmd_runner r) (file_path x.2)) <$> apps)).
Proof.
  intros Happs. unfold prepare_run_command.
  rewrite (foldl_disks r (disk_args (cmd_runner r))) by (intros; apply setup_disk_args).
  simpl. do 2 f_equal. rewrite <-list_fmap_compose. f_equal.
  apply list_fmap_ext. intros i [[[u image] data] disk] Hi.
  apply (Forall_lookup_1 _ _ _ _ Happs) in Hi. simpl.
  unfold fabric_disk, ApplicationDisk.new, and_then in Hi.
  repeat case_match; by simplify_eq.
Qed.

End vm_disks.
