(* ===== verification/RealmStorage.v ===== *)
(** * Realms on disk

    A realm across a restart of the daemon: what the fabrics and the realm manager
    write below the directory of a realm, and what [load_realm] makes of it. *)

From S2P Require Import Prelude Managers Traits Storage ApplicationDisk ApplicationManager.
From S2P Require Import RealmClientHandler Fabric AppStorage RealmManager.

(** ** Paths below the directory of a realm *)

Lemma no_slash_relative n : has_char slash n = false → is_absolute n = false.
Proof. destruct n as [|c n]; simpl; [done|]. by intros [-> _]%orb_false_iff. Qed.

Lemma ends_with_slash_app p n : n ≠ "" → ends_with_slash (p +:+ n) = ends_with_slash n.
Proof.
  intros Hn. induction p as [|c p IH]; [done|]. change (String c p +:+ n) with (String c (p +:+ n)).
  simpl. destruct (p +:+ n) eqn:Hp; [|done]. destruct p, n; done.
Qed.

Lemma ends_with_no_slash n : has_char slash n = false → ends_with_slash n = false.
Proof.
  induction n as [|c n IH]; [done|]. simpl. intros [Hc Hn]%orb_false_iff. destruct n; [done|].
  by apply IH.
Qed.

Lemma append_eq_nil (a b : string) : a +:+ b = "" → b = "".
Proof. by destruct a. Qed.

Section paths.
Context `{!UuidApi, !UuidLaws}.
Implicit Types (u k : Uuid) (root : PathBuf).

Abbreviation dir_of root u := (create_workdir_path_with_uuid root u).

Lemma uuid_dir_split root : ∃ p, ∀ u, dir_of root u = p +:+ uuid_to_string u.
Proof.
  exists (if bool_decide (root = "") || ends_with_slash root then root else root +:+ "/"). intros u.
  unfold create_workdir_path_with_uuid, path_push.
  rewrite no_slash_relative by apply uuid_no_slash. case_match; [done|]. by rewrite append_assoc.
Qed.

Lemma uuid_dir_not_empty root u : dir_of root u ≠ "".
Proof.
  destruct (uuid_dir_split root) as [p ->]. intros Hp%append_eq_nil. by apply (uuid_not_empty u).
Qed.

(** A name below the directory of a realm or application. *)
Lemma uuid_dir_push root u n :
  is_absolute n = false → path_push (dir_of root u) n = dir_of root u +:+ "/" +:+ n.
Proof.
  intros Hn. unfold path_push. rewrite Hn. case_match eqn:Hs; [|done]. exfalso.
  apply orb_true_iff in Hs as [Hs|Hs].
  - apply bool_decide_eq_true in Hs. by apply (uuid_dir_not_empty root u).
  - destruct (uuid_dir_split root) as [p Hp]. rewrite Hp, ends_with_slash_app in Hs
      by apply uuid_not_empty. by rewrite ends_with_no_slash in Hs by apply uuid_no_slash.
Qed.

Lemma uuid_inj u k : uuid_to_string u = uuid_to_string k → u = k.
Proof. intros Heq. pose proof (uuid_from_to u) as Hu. rewrite Heq, uuid_from_to in Hu. congruence. Qed.

(** Names with one slash: the parts can be read off. *)
Lemma name_path_inj (a a' b b' : string) :
  has_char slash a = false → has_char slash a' = false →
  a +:+ "/" +:+ b = a' +:+ "/" +:+ b' → a = a' ∧ b = b'.
Proof.
  intros Ha Ha' Heq. pose proof (split_once_app slash a b Ha) as H1.
  pose proof (split_once_app slash a' b' Ha') as H2.
  change (String slash b) with ("/" +:+ b) in H1. change (String slash b') with ("/" +:+ b') in H2.
  rewrite Heq, H2 in H1. by simplify_eq.
Qed.

Lemma uuid_dir_below root u k : dir_of (dir_of root u) k = dir_of root u +:+ "/" +:+ uuid_to_string k.
Proof. apply uuid_dir_push, no_slash_relative, uuid_no_slash. Qed.

(** The files of different applications are different, also across realms, ... *)
Lemma below_warden_inj root u u' k k' n n' :
  is_absolute n = false → is_absolute n' = false →
  path_push (dir_of (dir_of root u) k) n = path_push (dir_of (dir_of root u') k') n' →
  u = u' ∧ k = k' ∧ n = n'.
Proof.
  intros Hn Hn'. rewrite !uuid_dir_push, !uuid_dir_below by done.
  destruct (uuid_dir_split root) as [p Hp]. rewrite !Hp, !append_assoc. intros Heq%append_inj_l.
  apply name_path_inj in Heq as [Hu Heq]; [|apply uuid_no_slash..].
  apply name_path_inj in Heq as [Hk ->]; [|apply uuid_no_slash..].
  by apply uuid_inj in Hu, Hk.
Qed.

Lemma below_realm_inj root u k k' n n' :
  is_absolute n = false → is_absolute n' = false →
  path_push (dir_of (dir_of root u) k) n = path_push (dir_of (dir_of root u) k') n' → k = k' ∧ n = n'.
Proof. intros Hn Hn' Heq. by apply below_warden_inj in Heq as (_&?&?). Qed.

(** ... the configuration of a realm is none of them, ... *)
Lemma config_not_below root u u' k n :
  is_absolute n = false →
  create_config_path (dir_of root u) ≠ path_push (dir_of (dir_of root u') k) n.
Proof.
  intros Hn. unfold create_config_path. rewrite !uuid_dir_push, uuid_dir_below by done.
  destruct (uuid_dir_split root) as [p Hp]. rewrite !Hp, !append_assoc. intros Heq%append_inj_l.
  apply name_path_inj in Heq as [_ Heq]; [|apply uuid_no_slash..].
  assert (has_char slash CONFIG_FILE_NAME = false) as Hc by done.
  rewrite Heq, has_char_app in Hc. simpl in Hc. by rewrite orb_true_r in Hc.
Qed.

(** ... nor that of another realm. *)
Lemma realm_config_inj root u u' :
  create_config_path (dir_of root u) = create_config_path (dir_of root u') → u = u'.
Proof.
  unfold create_config_path. rewrite !uuid_dir_push by done.
  destruct (uuid_dir_split root) as [p Hp]. rewrite !Hp, !append_assoc. intros Heq%append_inj_l.
  apply name_path_inj in Heq as [Hu _]; [|apply uuid_no_slash..]. by apply uuid_inj.
Qed.

End paths.

(** ** What is on disk *)

Section realm_storage.
Context {W Fd P G DFd V Snd : Type}.
Context `{!FileApi W Fd, !Yaml ApplicationConfig, !Yaml RealmConfig, !UuidApi}.
Context `{!DiskApi W P G DFd, !NetworkManager W, !Runtime W}.
Context `{!FileApiLaws W Fd, !YamlLaws ApplicationConfig, !YamlLaws RealmConfig, !UuidLaws}.
Context `{!DiskApiLaws W P G DFd, !Subdirectories (W := W), !StorageFrame (W := W)}.
Context `{!RealmClient W (RealmClientHandler Snd), !ExitStatusFmt}.

Abbreviation App := (ApplicationManager (FileRepository ApplicationConfig) ApplicationDiskManager).
Abbreviation Client := (RealmClientHandler Snd).
Abbreviation RM := (RealmManager (FileRepository RealmConfig) App V Client ApplicationFabric).
Implicit Types (f : RealmManagerFabric V) (m : RM) (u k : Uuid).

(** Neither the network nor the source of identifiers is on the file system. *)
Class HostFrame : Prop := {
  tap_frame : ∀ tap u, steps unchanged (create_tap_device_for_realm tap u);
  tap_down_frame : ∀ u, steps unchanged (shutdown_tap_device_for_realm u);
  new_v4_frame : ∀ w, unchanged w (new_v4 w).2 }.
Context `{!HostFrame}.

Definition realm_home f u : PathBuf := create_workdir_path_with_uuid (warden_workdir_path f) u.
Definition home_fabric f u : ApplicationFabric := mkApplicationFabric (realm_home f u).

(** The configuration of the realm is on disk. *)
Definition config_saved f u m (w : W) : Prop :=
  path (rm_config m) = create_config_path (realm_home f u) ∧
  ∃ t, yaml_to_string (data (rm_config m)) = Ok t ∧
    file_text w (create_config_path (realm_home f u)) = Some t.

(** The realm is as [load_realm] makes realms, and its directory holds one directory
    for each of its applications. *)
Definition realm_listed f u m (w : W) : Prop :=
  m = RealmManager.new (rm_config m) (rm_applications m) (rm_vm_manager m) (new_client f) (home_fabric f u) ∧
  vm_manager_creator f (realm_home f u) u (data (rm_config m)) = Ok (rm_vm_manager m) ∧
  ∃ ns, subdirs w (realm_home f u) = Some ns ∧
    ns ≡ₚ (λ e : Uuid * App, uuid_to_string e.1) <$> map_to_list (rm_applications m).

(** The directory of the realm holds the realm. *)
Definition realm_saved f u m (w : W) : Prop :=
  config_saved f u m w ∧ realm_listed f u m w ∧
  map_Forall (app_saved (home_fabric f u) w) (rm_applications m).

(** *** Creation *)

(** Creating a realm makes its directory and writes its configuration. *)
Lemma create_realm_files f u config w m w' :
  Fabric.create_realm (Snd := Snd) f u config w = (Ok m, w') →
  (∃ w1, create_dir (realm_home f u) w = (Ok tt, w1) ∧ ∀ d, subdirs w' d = subdirs w1 d) ∧
  (∀ q, q ≠ create_config_path (realm_home f u) → kept q w w') ∧
  vm_manager_creator f (realm_home f u) u config = Ok (rm_vm_manager m) ∧
  m = RealmManager.new (mkFileRepository config (create_config_path (realm_home f u))) ∅
        (rm_vm_manager m) (new_client f) (home_fabric f u) ∧
  ∃ t, yaml_to_string config = Ok t ∧ file_text w' (create_config_path (realm_home f u)) = Some t.
Proof.
  unfold Fabric.create_realm, realm_fail. fold (realm_home f u). intros Hrun.
  apply bind_ok_inv in Hrun as ([]&w1&Hd&Hrun). apply bind_ok_inv in Hrun as ([]&w2&Ht&Hrun).
  apply bind_ok_inv in Hrun as (vm&w3&Hv&Hrun). apply bind_ok_inv in Hrun as (repo&w4&Hy&Hrun).
  apply map_err_ok in Hd, Ht, Hv, Hy. injection Hrun as <- <-. injection Hv as Hv <-.
  pose proof (steps_run _ _ _ _ _ (tap_frame _ _) Ht) as Htap. clear Ht.
  unfold Yaml_new in Hy. apply map_err_ok in Hy. unfold FileRepository_new in Hy.
  apply bind_ok_inv in Hy as ([]&w5&Hs&Hy). injection Hy as <- <-.
  pose proof (steps_run _ _ _ _ _ (save_frame _) Hs) as [Hsk Hsd].
  apply save_ok in Hs as (t&Ht&Hf). split_and!; [|..|by eauto]; [| |done..].
  - exists w1. split; [done|]. intros d. by rewrite Hsd, (proj2 Htap).
  - intros q Hq. transitivity w1; [by eapply frame_create_dir|].
    transitivity w2; [by apply unchanged_kept|by apply Hsk].
Qed.

Lemma create_realm_saved f u config w m w' :
  Fabric.create_realm (Snd := Snd) f u config w = (Ok m, w') →
  realm_saved f u m w' ∧ data (rm_config m) = config ∧ rm_applications m = ∅.
Proof.
  intros ((w1&Hd&Hsub)&_&Hv&Hm&Hf)%create_realm_files. rewrite Hm. split; [|done].
  split; [by split|]. split; [|apply map_Forall_empty]. split; [done|]. split; [done|].
  exists []. by rewrite Hsub, (proj1 (create_dir_empty _ _ _ Hd)).
Qed.

Lemma app_dir_home f u k : app_dir (home_fabric f u) k = create_workdir_path_with_uuid (realm_home f u) k.
Proof. done. Qed.

Lemma app_dir_join f u k : app_dir (home_fabric f u) k = realm_home f u +:+ "/" +:+ uuid_to_string k.
Proof. apply uuid_dir_below. Qed.

(** *** The directories of realms *)

(** The path of the daemon's directory does not end in a slash. *)
Definition root_ok f : Prop :=
  warden_workdir_path f ≠ "" ∧ ends_with_slash (warden_workdir_path f) = false.

Lemma realm_home_join f u :
  root_ok f → realm_home f u = warden_workdir_path f +:+ "/" +:+ uuid_to_string u.
Proof.
  intros [Hne Hs]. unfold realm_home, create_workdir_path_with_uuid, path_push.
  by rewrite no_slash_relative, bool_decide_false, Hs by (done || apply uuid_no_slash).
Qed.

(** A directory of an application is no entry of the daemon's directory. *)
Lemma app_dir_keeps_root f u k r w w' :
  root_ok f → create_dir (app_dir (home_fabric f u) k) w = (r, w') →
  subdirs w' (warden_workdir_path f) = subdirs w (warden_workdir_path f).
Proof.
  intros Hroot Hd. rewrite app_dir_join, realm_home_join, !append_assoc in Hd by done.
  eapply create_dir_others; [exact Hd|apply Hroot|apply not_below_itself|].
  intros n Hn Heq%append_inj_l%append_inj_l. rewrite <-Heq, has_char_app in Hn. simpl in Hn.
  by rewrite orb_true_r in Hn.
Qed.

(** Nothing that was kept but the files of the application [k] keeps the others. *)
Lemma apps_kept f u k w w' (apps : gmap Uuid App) :
  (∀ q, q ≠ create_config_path (app_dir (home_fabric f u) k) →
        q ≠ path_push (app_dir (home_fabric f u) k) DISK_NAME → kept q w w') →
  apps !! k = None →
  map_Forall (app_saved (home_fabric f u) w) apps → map_Forall (app_saved (home_fabric f u) w') apps.
Proof.
  intros Hk Hn Happs k' a Ha. assert (k' ≠ k) as Hne by congruence.
  apply (app_saved_kept _ w); [..|by apply Happs]; apply Hk; rewrite !app_dir_home;
    by intros [? ?]%below_realm_inj.
Qed.

(** A creation that succeeds is one of the fabric, under a new identifier. *)
Lemma create_application_inv m config w k m' w' :
  RealmManager.create_application config (m, w) = (Ok k, (m', w')) →
  k = (new_v4 w).1 ∧ ∃ a,
    Fabric.create_application (rm_application_fabric m) k config (new_v4 w).2 = (Ok a, w') ∧
    m' = set_applications (<[k := a]> (rm_applications m)) m.
Proof.
  unfold RealmManager.create_application, current_state. intros Hrun.
  run_gets Hrun. case_bool_decide; [done|].
  apply bind_ok_inv in Hrun as (k'&[m1 w1]&Hu&Hrun). simpl in Hu.
  destruct (new_v4 w) as [k0 w0]. simpl in *. injection Hu as -> <- ->. run_gets Hrun.
  apply bind_ok_inv in Hrun as (a&[m1 w2]&Ha&Hrun).
  apply zoom_inv in Ha as (w3&Ha&Heq). injection Heq as -> ->. simpl in Ha.
  injection Hrun as <- <- <-. eauto.
Qed.

Lemma create_application_saved f u m config w k m' w' :
  realm_saved f u m w →
  RealmManager.create_application config (m, w) = (Ok k, (m', w')) →
  realm_saved f u m' w' ∧ rm_config m' = rm_config m ∧
  rm_applications m !! k = None ∧ ∃ a, rm_applications m' = <[k := a]> (rm_applications m).
Proof.
  intros ((Hp&t&Ht&Hf)&(Hm&Hvm&ns&Hns&Hperm)&Happs) (Hk&a&Ha&->)%create_application_inv.
  pose proof (new_v4_frame w) as Hun. destruct (new_v4 w) as [k' w0]. simpl in Hk, Ha, Hun. subst k'.
  pose proof (λ q, unchanged_kept _ _ q Hun) as Hnk. destruct Hun as [_ Hnd].
  rewrite Hm in Ha. simpl in Ha.
  apply fabric_create_application_ok in Ha as (Hsaved&(w2&Hdir&Hsub)&Hkept).
  rewrite app_dir_join in Hdir. rewrite <-Hnd in Hns.
  destruct (create_dir_entry _ _ _ _ _ (uuid_dir_not_empty _ _) (uuid_not_empty k) (uuid_no_slash k)
    Hdir Hns) as (Hnew&ns'&Hns'&Hperm').
  assert (rm_applications m !! k = None) as Hfresh.
  { apply eq_None_not_Some. intros [a' Ha']. apply Hnew. rewrite Hperm. apply list_elem_of_fmap.
    exists (k, a'). split; [done|]. by apply elem_of_map_to_list. }
  split; [|eauto]. split; [|split].
  - split; [done|]. exists t. split; [done|]. simpl.
    destruct (Hkept (create_config_path (realm_home f u))) as [-> _].
    + by apply config_not_below.
    + by apply config_not_below.
    + by destruct (Hnk (create_config_path (realm_home f u))) as [-> _].
  - split; [by rewrite Hm|]. split; [done|]. exists ns'. rewrite Hsub. split; [done|]. simpl.
    rewrite map_to_list_insert by done. simpl. by rewrite Hperm', Hperm.
  - simpl. apply map_Forall_insert_2; [done|]. eapply apps_kept; [exact Hkept|done|].
    intros k'' a'' Ha''. by eapply app_saved_kept; [..|apply Happs].
Qed.

(** *** Loading *)

Lemma parse_entries_dirs es (us : list Uuid) :
  (filter (λ e : string * option bool, e.2 = Some true) es).*1 = uuid_to_string <$> us →
  parse_entries es = Ok us.
Proof.
  revert us. induction es as [|[n [[]|]] es IH]; intros us Hus; [by destruct us| |by apply IH..].
  destruct us as [|u us]; [done|]. injection Hus as -> Hus. simpl. rewrite uuid_from_to. simpl.
  by rewrite (IH us Hus).
Qed.

(** The applications that a directory lists, in the order of the listing. *)
Lemma listed_apps f u m w :
  realm_listed f u m w →
  ∃ l w', read_subfolders_uuids (realm_home f u) w = (Ok l.*1, w') ∧ unchanged w w' ∧
    l ≡ₚ map_to_list (rm_applications m).
Proof.
  intros (_&_&ns&Hns&Hperm). destruct (list_complete _ _ _ Hns) as (es&Hes&Hdirs).
  destruct (dir_entries (realm_home f u) w) as [r w'] eqn:Hrun. simpl in Hes. subst r.
  pose proof (steps_run _ _ _ _ _ (frame_list _) Hrun) as Hk.
  rewrite Hperm in Hdirs. apply Permutation_map_inv in Hdirs as (l&Hl&Hp).
  exists l, w'. split; [|done]. unfold read_subfolders_uuids. erewrite bind_ok by exact Hrun.
  rewrite (parse_entries_dirs es l.*1); [done|]. rewrite Hl. by rewrite <-list_fmap_compose.
Qed.

Definition load_entry f u (k : Uuid) : eff W WardenError (Uuid * App) :=
  app ← realm_fail RealmError_to_string (load_application (home_fabric f u) k);
  mret (k, app).

(** Saved applications are loaded in the order of their identifiers. *)
Lemma load_entries_saved f u (l : list (Uuid * App)) w :
  Forall (λ e, app_saved (home_fabric f u) w e.1 e.2) l →
  ∃ w', map_eff (load_entry f u) l.*1 w = (Ok l, w') ∧ unchanged w w'.
Proof.
  revert w. induction l as [|[k a] l IH]; intros w Hl; [by exists w|].
  apply Forall_cons in Hl as [Ha Hl]. simpl in Ha.
  destruct (load_application_saved _ _ _ _ Ha) as (w1&Hload&Hk1).
  destruct (IH w1) as (w2&Hloads&Hk2).
  { eapply Forall_impl; [exact Hl|]. intros [k' a'] Hs. apply (app_saved_kept _ w); [by apply unchanged_kept..|done]. }
  exists w2. split; [|by transitivity w1].
  assert (load_entry f u k w = (Ok (k, a), w1)) as He.
  { unfold load_entry, realm_fail. by erewrite bind_ok by (apply map_err_ok; exact Hload). }
  simpl. erewrite bind_ok by exact He. by erewrite bind_ok by exact Hloads.
Qed.

Lemma foldl_insert_list {A} (l : list (Uuid * A)) (m0 : gmap Uuid A) :
  NoDup l.*1 → foldl (λ acc e, <[e.1 := e.2]> acc) m0 l = list_to_map l ∪ m0.
Proof.
  revert m0. induction l as [|[k a] l IH]; intros m0 Hl; simpl; [by rewrite (left_id_L ∅ (∪))|].
  apply NoDup_cons in Hl as [Hk Hl]. rewrite IH by done.
  rewrite <-insert_union_r by by apply not_elem_of_list_to_map_1. by rewrite insert_union_l.
Qed.

Lemma load_applications_saved f u m w :
  realm_saved f u m w →
  ∃ w', load_applications (realm_home f u) (home_fabric f u) w = (Ok (rm_applications m), w') ∧
    unchanged w w'.
Proof.
  intros (_&Hl&Happs). destruct (listed_apps f u m w Hl) as (l&w1&Hr&Hk1&Hp).
  destruct (load_entries_saved f u l w1) as (w2&Hloads&Hk2).
  { rewrite Hp. apply Forall_forall. intros [k a] Ha%elem_of_map_to_list.
    eapply app_saved_kept; [..|by apply Happs]; by apply unchanged_kept. }
  exists w2. split; [|by transitivity w1].
  assert (NoDup l.*1) as Hnd by (rewrite Hp; apply NoDup_fst_map_to_list).
  unfold load_applications, realm_fail. erewrite bind_ok by (apply map_err_ok; exact Hr).
  erewrite bind_ok by exact Hloads. rewrite foldl_insert_list by done.
  rewrite (right_id_L ∅ (∪)), (list_to_map_proper l _ Hnd Hp). by rewrite list_to_map_to_list.
Qed.

(** Loading a saved realm gives it back, provided its tap device can be created. *)
Lemma load_realm_saved f u m w :
  realm_saved f u m w →
  ∃ w', unchanged w w' ∧ load_realm (Snd := Snd) f u w =
    (realm_fail NetworkManagerError_to_string
       (create_tap_device_for_realm (tap_device (network_config (data (rm_config m)))) u);;
     mret m) w'.
Proof.
  intros Hs. destruct (load_applications_saved f u m w Hs) as (w1&Happs&Hk).
  destruct Hs as ((Hp&t&Ht&Hf)&(Hm&Hvm&_)&_). rewrite <-Hp in Hf.
  destruct (from_file_path_saved (rm_config m) t w1 Ht) as (w2&Hload&_).
  { by destruct (unchanged_kept _ _ (path (rm_config m)) Hk) as [-> _]. }
  pose proof (steps_run _ _ _ _ _ (from_file_path_frame _) Hload) as Hun.
  exists w2. split; [by transitivity w1|]. unfold load_realm. fold (realm_home f u) (home_fabric f u).
  erewrite bind_ok by exact Happs. rewrite <-Hp.
  erewrite bind_ok by (apply map_err_ok; unfold Yaml_from; apply map_err_ok; exact Hload).
  unfold mbind, eff_bind at 1 3. destruct (realm_fail _ _ w2) as [[[]|e] w3]; [|done].
  unfold realm_fail. rewrite Hvm. unfold map_err, try_r. simpl. by rewrite Hm.
Qed.

(** Loading writes nothing but the disks of applications. *)
Definition is_disk f (q : PathBuf) : Prop := ∃ u k, q = path_push (app_dir (home_fabric f u) k) DISK_NAME.

Definition disks_only f : W → W → Prop := within (is_disk f).

#[global] Instance disks_only_preorder f : PreOrder (disks_only f).
Proof. apply within_preorder. Qed.

Lemma config_not_disk f u k : ¬ is_disk f (create_config_path (app_dir (home_fabric f u) k)).
Proof. intros (u'&k'&Heq). by apply below_warden_inj in Heq as (_&_&?). Qed.

Lemma load_application_frame f u k : steps (disks_only f) (load_application (home_fabric f u) k).
Proof.
  unfold load_application, creation_fail. fold (app_dir (home_fabric f u) k).
  apply (steps_bind (disks_only f)).
  { intros w. apply unchanged_within, (steps_map_err unchanged), Yaml_from_frame. }
  intros c. destruct (ApplicationDisk.new _ _ _) as [d|e] eqn:Hd; [|by intros w].
  intros w. erewrite bind_ok by reflexivity. revert w. apply (steps_map_err (disks_only f)).
  unfold ApplicationManager.new. apply (steps_bind (disks_only f)); [|by intros a w].
  intros w. eapply within_mono, create_disk_frame. intros q ->.
  rewrite (disk_new_file _ _ _ _ Hd). by exists u, k.
Qed.

#[local] Hint Resolve frame_list : eff.

Lemma read_subfolders_frame p : steps unchanged (read_subfolders_uuids p).
Proof. unfold read_subfolders_uuids. eff_auto; apply unchanged_preorder. Qed.

Lemma unchanged_disks {E A} f (c : eff W E A) : steps unchanged c → steps (disks_only f) c.
Proof. intros Hc w. apply unchanged_within, Hc. Qed.

Lemma load_entry_frame f u k : steps (disks_only f) (load_entry f u k).
Proof.
  apply (steps_bind (disks_only f)); [|by intros a w].
  apply (steps_map_err (disks_only f)), load_application_frame.
Qed.

Lemma load_applications_frame f u :
  steps (disks_only f) (load_applications (realm_home f u) (home_fabric f u)).
Proof.
  apply (steps_bind (disks_only f)).
  { apply unchanged_disks, (steps_map_err unchanged), read_subfolders_frame. }
  intros us. apply (steps_bind (disks_only f)); [|by intros a w].
  apply (steps_map_eff (disks_only f)), load_entry_frame.
Qed.

Lemma load_realm_frame f u : steps (disks_only f) (load_realm (Snd := Snd) f u).
Proof.
  unfold load_realm. fold (realm_home f u) (home_fabric f u).
  apply (steps_bind (disks_only f)); [apply load_applications_frame|intros apps].
  apply unchanged_disks, (steps_bind unchanged).
  { apply (steps_map_err unchanged), Yaml_from_frame. }
  intros r. apply (steps_bind unchanged); [apply (steps_map_err unchanged), tap_frame|intros _].
  apply (steps_bind unchanged); [|by intros vm w]. by apply (steps_map_err unchanged), steps_try_r, _.
Qed.

(** Applications created one after the other in a realm. *)
Definition create_applications (configs : list ApplicationConfig)
    : eff (RM * W) RealmError (list Uuid) := map_eff RealmManager.create_application configs.

Lemma create_applications_saved f u configs m w ks m' w' :
  realm_saved f u m w →
  create_applications configs (m, w) = (Ok ks, (m', w')) →
  realm_saved f u m' w' ∧ rm_config m' = rm_config m ∧
  app_keys m' ≡ₚ ks ++ app_keys m.
Proof.
  revert m w ks. induction configs as [|config configs IH]; intros m w ks Hs Hrun.
  - injection Hrun as <- <- <-. done.
  - simpl in Hrun. apply bind_ok_inv in Hrun as (k&[m1 w1]&Hk&Hrun).
    apply bind_ok_inv in Hrun as (ks'&[m2 w2]&Hks&Hrun). injection Hrun as <- <- <-.
    apply (create_application_saved f u) in Hk as (Hs1&Hc1&Hfresh&a&Ha); [|done].
    apply IH in Hks as (Hs2&Hc2&Hp); [|done]. split; [done|]. split; [congruence|].
    rewrite Hp. unfold app_keys. rewrite Ha, map_to_list_insert by done.
    simpl. by rewrite Permutation_middle.
Qed.

(** A realm survives a restart of the daemon.  After a realm has been created and
    any number of applications in it, what [load_realm] rebuilds from the directory
    of the realm, at any later start and in whatever order the directory lists its
    entries, is exactly that realm: its configuration, its applications with their
    identifiers, configurations and disks, and a virtual machine manager of the same
    configuration, if only its tap device can be created again. *)
Theorem realm_survives_restart f u config configs w m w1 ks m' w2 :
  Fabric.create_realm (Snd := Snd) f u config w = (Ok m, w1) →
  create_applications configs (m, w1) = (Ok ks, (m', w2)) →
  data (rm_config m') = config ∧ app_keys m' ≡ₚ ks ∧
  ∃ w3, load_realm f u w2 =
    (realm_fail NetworkManagerError_to_string
       (create_tap_device_for_realm (tap_device (network_config config)) u);;
     mret m') w3.
Proof.
  intros Hc Happs. apply create_realm_saved in Hc as (Hs&Hcfg&Hno).
  apply (create_applications_saved f u) in Happs as (Hs'&Hcfg'&Hks); [|done].
  rewrite Hcfg' in *. split; [done|]. split; [rewrite Hks; unfold app_keys; by rewrite Hno, app_nil_r|].
  rewrite <-Hcfg, <-Hcfg'. apply load_realm_saved in Hs' as (w3&_&?). eauto.
Qed.

End realm_storage.
