(* ===== verification/RestartFailures.v ===== *)
(** * Realms that keep the daemon from starting

    The sizes of an application's partitions are checked late or not at all: an update
    writes any sizes to disk, and a creation makes the directory of the application
    before it refuses the sizes.  Either way [create_warden] fails from then on. *)

From S2P Require Import Prelude Managers Traits Storage ApplicationDisk ApplicationManager.
From S2P Require Import RealmClientHandler Fabric AppStorage RealmManager RealmStorage.

Section restart_failures.
Context {W Fd P G DFd V Snd : Type}.
Context `{!FileApi W Fd, !Yaml ApplicationConfig, !Yaml RealmConfig, !UuidApi}.
Context `{!DiskApi W P G DFd, !NetworkManager W, !Runtime W}.
Context `{!FileApiLaws W Fd, !YamlLaws ApplicationConfig, !YamlLaws RealmConfig, !UuidLaws}.
Context `{!DiskApiLaws W P G DFd, !Subdirectories (W := W), !StorageFrame (W := W)}.
Context `{!RealmClient W (RealmClientHandler Snd), !ExitStatusFmt, !HostFrame (W := W)}.

Abbreviation App := (ApplicationManager (FileRepository ApplicationConfig) ApplicationDiskManager).
Abbreviation RM :=
  (RealmManager (FileRepository RealmConfig) App V (RealmClientHandler Snd) ApplicationFabric).
Implicit Types (f : RealmManagerFabric V) (m : RM) (u k : Uuid).

(** ** What cannot be loaded *)

(** The sizes that [ApplicationDisk.new] accepts. *)
Definition sizes_ok (config : ApplicationConfig) : bool :=
  is_ok (validate_and_convert_to_bytes (image_storage_size_mb config)) &&
  is_ok (validate_and_convert_to_bytes (data_storage_size_mb config)).

Lemma disk_new_refused p config :
  sizes_ok config = false →
  is_err (ApplicationDisk.new p (image_storage_size_mb config) (data_storage_size_mb config)) = true.
Proof.
  unfold sizes_ok, ApplicationDisk.new.
  destruct (validate_and_convert_to_bytes (data_storage_size_mb config)); [|done].
  by destruct (validate_and_convert_to_bytes (image_storage_size_mb config)).
Qed.

(** The application has no configuration, or one with sizes that are refused. *)
Definition app_broken (fab : ApplicationFabric) (k : Uuid) (w : W) : Prop :=
  file_text w (create_config_path (app_dir fab k)) = None ∨
  ∃ config t, yaml_to_string config = Ok t ∧
    file_text w (create_config_path (app_dir fab k)) = Some t ∧ sizes_ok config = false.

(** The directory of the realm lists such an application, ... *)
Definition realm_broken f u (w : W) : Prop :=
  ∃ ns k, subdirs w (realm_home f u) = Some ns ∧ uuid_to_string k ∈ ns ∧
    app_broken (home_fabric f u) k w.

(** ... and that of the daemon lists the realm. *)
Definition realm_present f u (w : W) : Prop :=
  ∃ ns, subdirs w (warden_workdir_path f) = Some ns ∧ uuid_to_string u ∈ ns.

Lemma load_application_broken fab k w :
  app_broken fab k w → is_err (load_application fab k w).1 = true.
Proof.
  unfold load_application, creation_fail. fold (app_dir fab k). intros [Hnone|(config&t&Ht&Hf&Hbad)].
  - apply bind_is_err. rewrite map_err_is_err. unfold Yaml_from. rewrite map_err_is_err.
    unfold from_file_path, try_read_file. do 2 apply bind_is_err. rewrite map_err_is_err.
    by apply open_missing.
  - destruct (from_file_path_saved (mkFileRepository config (create_config_path (app_dir fab k))) t w
      Ht Hf) as (w'&Hload&_). simpl in Hload.
    eapply bind_is_err_r; [apply map_err_ok; unfold Yaml_from; apply map_err_ok; exact Hload|].
    apply bind_is_err. rewrite map_err_is_err. by apply disk_new_refused.
Qed.

Lemma app_broken_disks f u k w w' :
  disks_only f w w' → app_broken (home_fabric f u) k w → app_broken (home_fabric f u) k w'.
Proof.
  intros [Hk _]. destruct (Hk _ (config_not_disk f u k)) as [Hc _]. unfold app_broken. by rewrite Hc.
Qed.

Lemma realm_broken_disks f u w w' : disks_only f w w' → realm_broken f u w → realm_broken f u w'.
Proof.
  intros Hd (ns&k&Hns&Hk&Hb). exists ns, k. destruct Hd as [? Hs] eqn:Heq. rewrite Hs.
  split_and!; [done..|]. by eapply app_broken_disks.
Qed.

(** Every directory that is listed is among the identifiers, if all of them are ones. *)
Lemma parse_entries_elem es us u :
  parse_entries es = Ok us → uuid_to_string u ∈ (filter (λ e : string * option bool, e.2 = Some true) es).*1 →
  u ∈ us.
Proof.
  revert us. induction es as [|[n [[]|]] es IH]; intros us Hus Hin; simpl in *;
    [by apply elem_of_nil in Hin| |by apply IH..].
  destruct (uuid_from_str n) as [v|] eqn:Hn; [|done].
  destruct (parse_entries es) as [vs|]; [|done]. injection Hus as <-. unfold filter in Hin. simpl in Hin.
  apply elem_of_cons in Hin as [<-|Hin]; [|right; by apply IH].
  rewrite uuid_from_to in Hn. injection Hn as <-. left.
Qed.

Lemma read_subfolders_elem d ns u w us w' :
  subdirs w d = Some ns → uuid_to_string u ∈ ns → read_subfolders_uuids d w = (Ok us, w') → u ∈ us.
Proof.
  intros Hns Hu Hrun. destruct (list_complete _ _ _ Hns) as (es&Hes&Hp).
  unfold read_subfolders_uuids in Hrun. apply bind_ok_inv in Hrun as (es'&w1&He&Hrun).
  rewrite He in Hes. simpl in Hes. injection Hes as ->. injection Hrun as Hrun _.
  eapply parse_entries_elem; [exact Hrun|]. by rewrite Hp.
Qed.

Lemma load_realm_broken f u w : realm_broken f u w → is_err (load_realm (Snd := Snd) f u w).1 = true.
Proof.
  intros (ns&k&Hns&Hk&Hb). unfold load_realm. apply bind_is_err.
  fold (realm_home f u) (home_fabric f u). unfold load_applications, realm_fail.
  destruct (read_subfolders_uuids (realm_home f u) w) as [[us|e] w1] eqn:Hr.
  2: { apply bind_is_err. by rewrite map_err_is_err, Hr. }
  eapply bind_is_err_r; [by apply map_err_ok|]. apply bind_is_err.
  apply (map_eff_is_err (disks_only f) _ _ k).
  - intros k'. apply load_entry_frame.
  - intros w2 Hw2. apply bind_is_err. rewrite map_err_is_err. apply load_application_broken.
    eapply app_broken_disks; [|exact Hb]. transitivity w1; [|done].
    eapply (steps_run (disks_only f)); [|exact Hr]. apply unchanged_disks, read_subfolders_frame.
  - by eapply read_subfolders_elem.
Qed.

(** A broken realm keeps the daemon from starting, whatever the other realms are and
    in whatever order they are loaded. *)
Lemma broken_realm_blocks_daemon f u w :
  realm_present f u w → realm_broken f u w → is_err (create_warden (Snd := Snd) f w).1 = true.
Proof.
  intros (ns&Hns&Hu) Hb.
  destruct (read_subfolders_uuids (warden_workdir_path f) w) as [[us|e] w1] eqn:Hr.
  2: { unfold create_warden. apply bind_is_err. by rewrite map_err_is_err, Hr. }
  eapply unloadable_realm_blocks_daemon; [exact Hr|by eapply read_subfolders_elem|].
  intros w2 Hsteps. apply load_realm_broken. apply (realm_broken_disks f u w); [|done].
  transitivity w1.
  { eapply (steps_run (disks_only f)); [|exact Hr]. apply unchanged_disks, read_subfolders_frame. }
  clear Hr. induction Hsteps as [|w1 w3 w2 (u'&_&->) _ IH]; [reflexivity|].
  transitivity (load_realm (Snd := Snd) f u' w1).2; [apply load_realm_frame|done].
Qed.

(** ** How a realm is broken *)

Lemma create_realm_present f u config w m w' :
  root_ok f → is_Some (subdirs w (warden_workdir_path f)) →
  Fabric.create_realm (Snd := Snd) f u config w = (Ok m, w') → realm_present f u w'.
Proof.
  intros Hroot [ns Hns] ((w1&Hd&Hsub)&_)%create_realm_files. rewrite realm_home_join in Hd by done.
  destruct (create_dir_entry _ _ _ _ _ (proj1 Hroot) (uuid_not_empty u) (uuid_no_slash u) Hd Hns)
    as (_&ns'&Hns'&Hp).
  exists ns'. rewrite Hsub. split; [done|]. rewrite Hp. left.
Qed.

Lemma create_applications_present f u configs m w ks m' w' :
  root_ok f → rm_application_fabric m = home_fabric f u →
  create_applications configs (m, w) = (Ok ks, (m', w')) → realm_present f u w → realm_present f u w'.
Proof.
  intros Hroot. revert m w ks. induction configs as [|config configs IH]; intros m w ks Hfab Hrun.
  - by injection Hrun as <- <- <-.
  - simpl in Hrun. apply bind_ok_inv in Hrun as (k&[m1 w1]&Hk&Hrun).
    apply bind_ok_inv in Hrun as (ks'&[m2 w2]&Hks&Hrun). injection Hrun as _ <- <-.
    apply create_application_inv in Hk as (_&a&Ha&->). rewrite Hfab in Ha. intros Hp.
    eapply IH; [|exact Hks|]; [done|].
    apply fabric_create_application_ok in Ha as (_&(w3&Hd&Hsub)&_).
    apply (app_dir_keeps_root _ _ _ _ _ _ Hroot) in Hd. destruct (new_v4_frame w) as [_ Hnd].
    unfold realm_present. by rewrite Hsub, Hd, Hnd.
Qed.

(** [update_application] writes the new configuration, whatever it is. *)
Lemma update_application_saves m k config w m' w' :
  RealmManager.update_application k config (m, w) = (Ok tt, (m', w')) →
  ∃ a, rm_applications m !! k = Some a ∧
    save (mkFileRepository config (path (am_config a))) w = (Ok tt, w').
Proof.
  unfold RealmManager.update_application, current_state. intros Hrun. run_gets Hrun.
  case_bool_decide; [done|]. run_gets Hrun.
  destruct (rm_applications m !! k) as [a|] eqn:Ha; [|done]. exists a. split; [done|].
  apply bind_ok_inv in Hrun as ([]&[m1 w1]&Hu&Hrun). run_gets Hrun.
  apply map_err_ok in Hu. unfold on_app in Hu. simpl in Hu.
  destruct (update_config _ _) as [r [a' [c' w2]]] eqn:Hup. injection Hu as -> _ <-.
  assert (w' = w2) as -> by (by case_bool_decide; injection Hrun as _ <-). clear Hrun.
  unfold update_config in Hup. run_gets Hup. apply map_err_ok, zoom_inv in Hup as ([r1 w3]&Hs&Heq).
  injection Heq as _ _ ->. simpl in Hs. unfold yaml_save, with_state in Hs.
  apply map_err_ok, zoom_inv in Hs as (w4&Hs&Heq). injection Heq as _ ->. exact Hs.
Qed.

Lemma update_application_breaks f u m k config w m' w' :
  realm_saved f u m w → RealmManager.update_application k config (m, w) = (Ok tt, (m', w')) →
  sizes_ok config = false →
  realm_broken f u w' ∧ subdirs w' (warden_workdir_path f) = subdirs w (warden_workdir_path f).
Proof.
  intros (_&(Hm&Hvm&ns&Hns&Hperm)&Happs) (a&Ha&Hsave)%update_application_saves Hbad.
  destruct (Happs k a Ha) as (c0&d0&t0&->&_). simpl in Hsave.
  destruct (steps_run _ _ _ _ _ (save_frame _) Hsave) as [_ Hsub].
  apply save_ok in Hsave as (t&Ht&Hf). simpl in *. split; [|done].
  exists ns, k. rewrite Hsub. split_and!; [done| |by right; eauto].
  rewrite Hperm. apply list_elem_of_fmap. eexists (k, _). split; [done|]. by apply elem_of_map_to_list.
Qed.

(** [create_application] refuses such sizes, after it has made the directory of the
    application: it leaves an application without configuration. *)
Lemma create_application_breaks f u m config w :
  root_ok f → realm_saved f u m w → sizes_ok config = false →
  is_ok (create_dir (app_dir (home_fabric f u) (new_v4 w).1) (new_v4 w).2).1 = true →
  is_err (RealmManager.create_application config (m, w)).1 = true ∧
  let w' := (RealmManager.create_application config (m, w)).2.2 in
  realm_broken f u w' ∧ subdirs w' (warden_workdir_path f) = subdirs w (warden_workdir_path f).
Proof.
  intros Hroot (_&(Hm&Hvm&ns&Hns&_)&_) Hbad Hok. destruct (new_v4_frame w) as [_ Hnd].
  destruct (new_v4 w) as [k w0] eqn:Hv4. simpl in *.
  destruct (create_dir (app_dir (home_fabric f u) k) w0) as [[[]|e] w1] eqn:Hdir; [|done].
  pose proof (disk_new_refused (app_dir (home_fabric f u) k) config Hbad) as Hdisk.
  destruct (ApplicationDisk.new (app_dir (home_fabric f u) k) _ _) as [d|e] eqn:Hnew; [done|].
  assert (∃ e', RealmManager.create_application config (m, w) = (Err e', (m, w1))) as [e' Hrun].
  { rewrite Hm. unfold RealmManager.create_application, current_state.
    eexists. unfold mbind, eff_bind. simpl. rewrite Hv4. simpl.
    unfold Fabric.create_application, creation_fail. fold (app_dir (home_fabric f u) k).
    unfold zoom, snd_lens, mbind, eff_bind, map_err, try_r. simpl.
    change (create_workdir_path_with_uuid (realm_home f u) k) with (app_dir (home_fabric f u) k).
    by rewrite Hdir, Hnew. }
  rewrite Hrun. split; [done|]. simpl. split; [|by rewrite (app_dir_keeps_root _ _ _ _ _ _ Hroot Hdir)].
  destruct (create_dir_empty _ _ _ Hdir) as [_ Hnone].
  pose proof (frame_create_dir _ _ _ _ Hdir (create_config_path (app_dir (home_fabric f u) k))) as [Hkept _].
  rewrite <-Hnd in Hns. rewrite app_dir_join in Hdir.
  destruct (create_dir_entry _ _ _ _ _ (uuid_dir_not_empty _ _) (uuid_not_empty k) (uuid_no_slash k)
    Hdir Hns) as (_&ns'&Hns'&Hp).
  exists ns', k. split_and!; [done|rewrite Hp; left|]. left. rewrite Hkept. unfold create_config_path.
  rewrite app_dir_home, uuid_dir_push by done. apply Hnone.
Qed.

(** A request with sizes that are refused: an update of an application, which is
    accepted, or a creation (on a host where the directory can be made), which is not. *)
Inductive bad_request f u (config : ApplicationConfig) (s : RM * W) : RM * W → Prop :=
| bad_update k s' :
    RealmManager.update_application k config s = (Ok tt, s') → bad_request f u config s s'
| bad_creation e s' :
    is_ok (create_dir (app_dir (home_fabric f u) (new_v4 s.2).1) (new_v4 s.2).2).1 = true →
    RealmManager.create_application config s = (Err e, s') → bad_request f u config s s'.

(** C20.  The sizes of an application are not validated before they matter: an update to a
    size that creation refuses (zero, or more than the maximum) is accepted, persisted
    and reported as a success, and a creation with such a size is refused only after the
    directory of the application has been made, which then stays there without a
    configuration.  After either request, made in a realm with any number of
    applications, the daemon does not start any more: [create_warden] fails, whatever
    other realms there are and in whatever order the directories are listed. *)
Theorem bad_sizes_block_daemon f u config configs w m w1 ks s2 bad s3 :
  root_ok f → is_Some (subdirs w (warden_workdir_path f)) →
  Fabric.create_realm (Snd := Snd) f u config w = (Ok m, w1) →
  create_applications configs (m, w1) = (Ok ks, s2) →
  sizes_ok bad = false → bad_request f u bad s2 s3 →
  is_err (create_warden (Snd := Snd) f s3.2).1 = true.
Proof.
  intros Hroot Hdir Hc Happs Hbad Hreq. destruct s2 as [m2 w2].
  pose proof (create_realm_present _ _ _ _ _ _ Hroot Hdir Hc) as Hpres.
  apply create_realm_saved in Hc as (Hs&_).
  eapply create_applications_present in Hpres; [|done| |exact Happs].
  2: { by destruct Hs as (_&(->&_)&_). }
  apply (create_applications_saved f u) in Happs as (Hs'&_); [|done].
  assert (realm_broken f u s3.2 ∧
    subdirs s3.2 (warden_workdir_path f) = subdirs w2 (warden_workdir_path f)) as [Hb Hsame].
  { destruct Hreq as [k [m3 w3] Hup|e [m3 w3] Hok Hcr]; [by eapply update_application_breaks|].
    destruct (create_application_breaks f u m2 bad w2 Hroot Hs' Hbad Hok) as [_ Hb].
    by rewrite Hcr in Hb. }
  apply (broken_realm_blocks_daemon f u); [|done]. unfold realm_present. by rewrite Hsame.
Qed.

End restart_failures.
