(* ===== verification/RealmTable.v ===== *)
(** * The realms behind the table

    What the commands of clients do to the realms of the daemon: an invariant of
    single realms ([RealmInvariant]) holds of every realm of the table as long as
    the daemon runs, and a command on one realm leaves the others alone. *)

From S2P Require Import Prelude WardenClient Managers ClientHelper Arc WardenDaemon ClientHandler.
From S2P Require Import Traits.

Section table.
Context {W Rl H F : Type}.
Context `{!Realm W Rl H, !RealmCreator W Rl F, !Runtime W, !UuidApi}.

Abbreviation St := (WardenDaemon F * (Arcs Rl * W))%type.

(** The realm that clients reach under an identifier. *)
Definition realm_at (s : St) (u : Uuid) : option Rl :=
  realms_managers s.1 !! u ≫= λ a, arc_value <$> s.2.1 !! a.

Lemma realm_at_Some (s : St) u r :
  realm_at s u = Some r ↔
  ∃ a i, realms_managers s.1 !! u = Some a ∧ s.2.1 !! a = Some i ∧ arc_value i = r.
Proof.
  unfold realm_at. destruct (realms_managers s.1 !! u) as [a|]; simpl; [|naive_solver].
  destruct (s.2.1 !! a) as [i|] eqn:Hi; simpl; [|naive_solver]. split; [|naive_solver].
  intros [= <-]. by exists a, i.
Qed.

(** ** Invariants of single realms

    What holds of the realm [u] when it is made and is kept by every method the
    daemon calls on a realm it owns ([destroy] consumes the realm). *)

Class RealmInvariant (P : Uuid → Rl → Prop) : Prop := {
  start_inv : ∀ u, preserves (λ s, P u s.1) realm_start;
  stop_inv : ∀ u, preserves (λ s, P u s.1) realm_stop;
  reboot_inv : ∀ u, preserves (λ s, P u s.1) realm_reboot;
  create_application_inv : ∀ u cfg, preserves (λ s, P u s.1) (realm_create_application cfg);
  update_application_inv : ∀ u au cfg, preserves (λ s, P u s.1) (realm_update_application au cfg);
  get_application_inv : ∀ u au, preserves (λ s, P u s.1) (realm_get_application au);
  get_realm_data_inv : ∀ u, preserves (λ s, P u s.1) realm_get_realm_data;
  fetch_token_inv : ∀ u ch, preserves (λ s, P u s.1) (realm_fetch_attestation_token ch);
  application_inv : ∀ u au s h r w,
    realm_get_application au s = (Ok h, (r, w)) → P u s.1 →
    ∀ w', P u (application_start h (r, w')).2.1 ∧ P u (application_stop h (r, w')).2.1 }.

Class CreatorInvariant (f : F) (P : Uuid → Rl → Prop) : Prop := {
  create_inv : ∀ u cfg w r w', fabric_create_realm f u cfg w = (Ok r, w') → P u r;
  load_inv : ∀ u w r w', fabric_load_realm f u w = (Ok r, w') → P u r }.

Section invariant.
Context (P : Uuid → Rl → Prop) `{!RealmInvariant P}.

Definition realms_inv (s : St) : Prop := ∀ u r, realm_at s u = Some r → P u r.

(** Nothing is added and no realm changes. *)
Lemma realms_inv_weaken (s s' : St) :
  realms_managers s'.1 ⊆ realms_managers s.1 →
  (∀ a i', s'.2.1 !! a = Some i' → ∃ i, s.2.1 !! a = Some i ∧ arc_value i' = arc_value i) →
  realms_inv s → realms_inv s'.
Proof.
  intros Hsub Hh Hs u r (a&i&Hu&Hi&<-)%realm_at_Some. apply Hh in Hi as (i0&Hi0&->).
  apply Hs, realm_at_Some. exists a, i0. split_and!; [|done..]. by eapply lookup_weaken.
Qed.

Lemma arc_clone_value (h : Arcs Rl) a b i' :
  arc_clone a h !! b = Some i' → ∃ i, h !! b = Some i ∧ arc_value i' = arc_value i.
Proof.
  unfold arc_clone. destruct (decide (a = b)) as [<-|Hne].
  - rewrite lookup_alter_eq. destruct (h !! a) as [i|]; [|done]. intros [= <-]. by exists i.
  - rewrite lookup_alter_ne by done. eauto.
Qed.

Lemma arc_drop_value (h : Arcs Rl) a b i' :
  arc_drop a h !! b = Some i' → ∃ i, h !! b = Some i ∧ arc_value i' = arc_value i.
Proof.
  unfold arc_drop. destruct (h !! a) as [i|] eqn:Hi; [|eauto].
  destruct (strong_count i) as [|[|n]]; intros Hb;
    [apply lookup_delete_Some in Hb as [_ Hb]; by eauto..|].
  destruct (decide (a = b)) as [<-|Hne].
  - rewrite lookup_insert_eq in Hb. simplify_eq. by exists i.
  - rewrite lookup_insert_ne in Hb by done. eauto.
Qed.

Lemma drop_realm_inv a (s : St) : realms_inv s → realms_inv (drop_realm a s).
Proof. apply realms_inv_weaken; [done|apply arc_drop_value]. Qed.

Lemma find_realm_inv u : preserves realms_inv (find_realm u).
Proof. unfold find_realm. eff_auto. Qed.

Lemma get_realm_inv u : preserves realms_inv (get_realm u).
Proof.
  unfold get_realm. eff_auto; [apply find_realm_inv|]. apply preserves_modify.
  intros s. apply realms_inv_weaken; [done|apply arc_clone_value].
Qed.

Lemma lock_inv {E A} a (method : eff (Rl * W) E A) :
  (∀ u, preserves (λ s, P u s.1) method) →
  preserves realms_inv (zoom shared_lens (lock_arc a method)).
Proof.
  intros Hm s Hs u r. unfold zoom, lock_arc. simpl.
  destruct (s.2.1 !! a) as [i|] eqn:Hi; [|apply Hs].
  destruct (method (arc_value i, s.2.2)) as [res [t w]] eqn:Hrun. simpl.
  intros (b&j&Hu&Hj&<-)%realm_at_Some. simpl in *. destruct (decide (a = b)) as [<-|Hne].
  - rewrite lookup_insert_eq in Hj. simplify_eq/=. specialize (Hm u (arc_value i, s.2.2)).
    rewrite Hrun in Hm. apply Hm. apply Hs, realm_at_Some. by exists a, i.
  - rewrite lookup_insert_ne in Hj by done. apply Hs, realm_at_Some. by exists b, j.
Qed.

Lemma world_inv {E A} (c : eff W E A) : preserves realms_inv (zoom world_lens c).
Proof. intros s Hs. unfold zoom. by destruct (c _). Qed.

Lemma scoped_inv {E A} a (c : eff St E A) :
  preserves realms_inv c → preserves realms_inv (scoped a c).
Proof.
  intros Hc s Hs. unfold scoped. specialize (Hc s Hs). destruct (c s). by apply drop_realm_inv.
Qed.

Lemma realm_data_of_inv a : preserves realms_inv (realm_data_of a).
Proof. unfold realm_data_of. eff_auto. apply lock_inv. intros u. apply get_realm_data_inv. Qed.
#[local] Hint Resolve find_realm_inv get_realm_inv world_inv realm_data_of_inv : eff.

Lemma on_realm_inv {A} uuid (method : eff (Rl * W) RealmError A) :
  (∀ u, preserves (λ s, P u s.1) method) → preserves realms_inv (on_realm uuid method).
Proof.
  intros Hm. unfold on_realm, handler_get_realm, on_warden; simpl. eff_auto.
  intros a. apply scoped_inv. eff_auto. by apply lock_inv.
Qed.

Lemma remove_realm_inv u : preserves realms_inv (remove_realm u).
Proof.
  unfold remove_realm, fallible. eff_auto.
  - apply preserves_modify. intros s. apply realms_inv_weaken; [apply delete_subseteq|eauto].
  - intros s. unfold take_arc, arc_into_inner. apply realms_inv_weaken; [done|]. apply arc_drop_value.
  - intros s. unfold destroy_owned. destruct (realm_destroy _) as [? [? w]].
    apply realms_inv_weaken; [done|eauto].
Qed.
#[local] Hint Resolve remove_realm_inv : eff.

Lemma destroy_realm_inv u : preserves realms_inv (destroy_realm u).
Proof.
  unfold destroy_realm, ensure_realm_can_be_deleted, ensure_not_busy, ensure_halted.
  eff_auto.
Qed.

(** A handle of an application is used on the realm as [get_application] left it. *)
Lemma get_application_handle ru au (s : St) a h s' :
  get_application ru au s = (Ok (a, h), s') →
  realms_managers s'.1 = realms_managers s.1 ∧ realms_managers s.1 !! ru = Some a ∧
  ∃ i r w, s.2.1 !! a = Some i ∧
    realm_get_application au (arc_value i, s.2.2) = (Ok h, (r, w)) ∧
    ∀ i', s'.2.1 !! a = Some i' → arc_value i' = r.
Proof.
  unfold get_application, handler_get_realm, on_warden, warden_get_realm, WardenDaemon_warden, get_realm,
    scoped. intros Hrun.
  apply bind_ok_inv in Hrun as (b&s1&H1&Hrun). apply map_err_ok in H1.
  apply bind_ok_inv in H1 as (c&s2&H1&H2). apply find_realm_run in H1 as [-> Hc].
  apply bind_ok_inv in H2 as ([]&s2&Hm&Hr). injection Hm as <-. injection Hr as <- <-.
  destruct (realms_managers s.1 !! ru) as [b|] eqn:Hb; [|done]. injection Hc as ->.
  destruct (_ ≫= _) as [r0 s3] eqn:Hk in Hrun. injection Hrun as -> <-.
  apply bind_ok_inv in Hk as (h'&s4&Hk&Hr). injection Hr as -> -> <-.
  apply map_err_ok, zoom_inv in Hk as (t&Hk&->). unfold lock_arc in Hk. simpl in Hk.
  unfold arc_clone in Hk. rewrite lookup_alter_eq in Hk.
  destruct (s.2.1 !! a) as [i|] eqn:Hi; [|done]. simpl in Hk.
  destruct (realm_get_application au (arc_value i, s.2.2)) as [res [r w]] eqn:Hg. simpl in Hk.
  injection Hk as Hres <-. destruct res as [h0|e]; [|done]. injection Hres as ->.
  split; [done|]. split; [done|]. exists i, r, w. split_and!; [done..|].
  intros i' Hi'. simpl in Hi'. apply arc_drop_value in Hi' as (j&Hj&->).
  rewrite lookup_insert_eq in Hj. by simplify_eq.
Qed.

Lemma get_application_keeps_inv ru au : preserves realms_inv (get_application ru au).
Proof.
  unfold get_application, handler_get_realm, on_warden; simpl. eff_auto. intros a. apply scoped_inv.
  eff_auto. apply lock_inv. intros u. apply get_application_inv.
Qed.

Lemma on_application_inv {A} ru au (method : H → eff (Rl * W) Managers.ApplicationError A) :
  (∀ u s h r w, realm_get_application au s = (Ok h, (r, w)) → P u s.1 →
    ∀ w', P u (method h (r, w')).2.1) →
  preserves realms_inv (on_application ru au method).
Proof.
  intros Hm s Hs. unfold on_application, mbind, eff_bind.
  pose proof (get_application_keeps_inv ru au s Hs) as Hs'.
  destruct (get_application ru au s) as [[[a h]|e] s'] eqn:Hg; [|done]. simpl in Hs'.
  apply get_application_handle in Hg as (Ht&_&i&r&w&Hi&Hg&Hval).
  unfold map_err, zoom, lock_arc. simpl. destruct (s'.2.1 !! a) as [i'|] eqn:Hi'; [|done].
  specialize (Hval i' eq_refl). rewrite Hval.
  destruct (method h (r, s'.2.2)) as [res [t w1]] eqn:Hrun. simpl.
  intros u r1 (b&j&Hu&Hj&<-)%realm_at_Some. simpl in *. destruct (decide (a = b)) as [<-|Hne].
  - rewrite lookup_insert_eq in Hj. simplify_eq/=.
    assert (P u (arc_value i)) as Hi0.
    { apply Hs, realm_at_Some. exists a, i. by rewrite <-Ht. }
    pose proof (Hm u _ _ _ _ Hg Hi0 s'.2.2) as HP. by rewrite Hrun in HP.
  - rewrite lookup_insert_ne in Hj by done. apply Hs', realm_at_Some. by exists b, j.
Qed.

(** Creating a realm, with the references balanced. *)
Lemma create_realm_effect id config (s : St) r s' :
  create_realm id config s = (r, s') →
  (∃ w, s' = (s.1, (s.2.1, w)) ∧ is_err r = true) ∨
  ∃ u x w2, r = Ok u ∧
    fabric_create_realm (realm_fabric s.1) u config (new_v4 s.2.2).2 = (Ok x, w2) ∧
    realms_managers s.1 !! u = None ∧
    s' = (set_realms (<[u := fresh (dom s.2.1)]> (realms_managers s.1)) s.1,
          (<[fresh (dom s.2.1) := mkArcInner x 1]> s.2.1, w2)).
Proof.
  unfold create_realm, fresh_uuid. intros Hrun.
  destruct (new_v4 s.2.2) as [ru w0] eqn:Hnew.
  rewrite (bind_ok _ _ _ ru (s.1, (s.2.1, w0))) in Hrun by by rewrite Hnew.
  run_gets Hrun. case_bool_decide as Hu; [run_inv; left; eauto|]. run_gets Hrun.
  run_split Hrun as x s1 Hx.
  - apply map_err_err in Hrun as (e0&_&Hrun). apply zoom_inv in Hrun as (w1&_&->). left. eauto.
  - apply map_err_ok, zoom_inv in Hx as (w1&Hc&->). simpl in Hrun, Hc.
    rewrite (bind_ok _ _ _ _ _ (alloc_arc_run _ _)) in Hrun. run_gets Hrun. run_inv. right.
    eexists _, x, w1. split_and!; try done. by apply eq_None_not_Some.
Qed.

Lemma create_realm_inv held id config (s : St) :
  refs_ok held s → CreatorInvariant (realm_fabric s.1) P →
  realms_inv s → realms_inv (create_realm id config s).2.
Proof.
  intros Hok Hcr Hs. destruct (create_realm id config s) as [r s'] eqn:Hrun. simpl.
  apply create_realm_effect in Hrun as [(w&->&_)|(u&x&w2&_&Hx&Hu&->)]; [exact Hs|].
  set (a := fresh (dom s.2.1)). assert (s.2.1 !! a = None) as Ha
    by (apply not_elem_of_dom, is_fresh).
  intros u' r' (b&i&Hb&Hi&<-)%realm_at_Some. simpl in *.
  destruct (decide (u = u')) as [<-|Hne].
  - rewrite lookup_insert_eq in Hb. simplify_eq. rewrite lookup_insert_eq in Hi. simplify_eq/=.
    by eapply create_inv.
  - rewrite lookup_insert_ne in Hb by done. rewrite lookup_insert_ne in Hi.
    + apply Hs, realm_at_Some. by exists b, i.
    + intros <-. destruct (owned_live _ _ a Hok) as [j Hj]; [|congruence].
      apply elem_of_app. left. by eapply table_refs_elem.
Qed.

(** Whatever a client asks for, the realms of the table satisfy the invariant. *)
Lemma handle_command_inv held command (s : St) :
  refs_ok held s → CreatorInvariant (realm_fabric s.1) P →
  realms_inv s → realms_inv (handle_command command s).2.
Proof.
  intros Hok Hcr Hs.
  assert (∀ (c : eff St (fault ClientError) WardenResponse), preserves realms_inv c →
    realms_inv (c s).2) as Hp by auto.
  destruct command as [config| | | | | | | | | | |]; unfold handle_command;
    [|apply Hp, preserves_bind; [|intros; apply preserves_ret]..]; clear Hp.
  - pose proof (create_realm_inv held (WardenClient.id config) (RealmConfig_from config) s
      Hok Hcr Hs) as Hc.
    unfold on_warden, map_err, mbind, eff_bind. simpl. by destruct (create_realm _ _ s) as [[] ?].
  - apply on_realm_inv. intros u. apply fetch_token_inv.
  - apply on_realm_inv, start_inv.
  - apply on_realm_inv, stop_inv.
  - apply on_realm_inv, reboot_inv.
  - apply preserves_map_err, destroy_realm_inv.
  - unfold on_warden; simpl. unfold inspect_realm. eff_auto.
  - unfold on_warden; simpl. unfold list_realms. eff_auto.
  - apply on_realm_inv. intros u. apply create_application_inv.
  - apply on_application_inv. intros u s0 h r w Hg HP w'. exact (proj1 (application_inv u _ _ _ _ _ Hg HP w')).
  - apply on_application_inv. intros u s0 h r w Hg HP w'. exact (proj2 (application_inv u _ _ _ _ _ Hg HP w')).
  - apply on_realm_inv. intros u. apply update_application_inv.
Qed.
End invariant.

(** ** The fabric is never exchanged *)

Lemma handle_command_fabric command (s : St) :
  realm_fabric (handle_command command s).2.1 = realm_fabric s.1.
Proof.
  symmetry. revert s. change (steps (same (λ s : St, realm_fabric s.1)) (handle_command command)).
  assert (∀ {E A} a (m : eff (Rl * W) E A),
    steps (same (λ s : St, realm_fabric s.1)) (zoom shared_lens (lock_arc a m))) as Hlock
    by (intros; by apply steps_zoom).
  assert (∀ {E A} (c : eff W E A),
    steps (same (λ s : St, realm_fabric s.1)) (zoom world_lens c)) as Hworld
    by (intros; by apply steps_zoom).
  assert (∀ {E A} a (c : eff St E A), steps (same (λ s : St, realm_fabric s.1)) c →
    steps (same (λ s : St, realm_fabric s.1)) (scoped a c)) as Hscope.
  { intros E A a c Hc s. unfold scoped. specialize (Hc s). by destruct (c s). }
  destruct command; unfold handle_command, on_realm, on_application, get_application, handler_get_realm,
    on_warden, warden_get_realm, WardenDaemon_warden, get_realm, find_realm, create_realm, fresh_uuid,
    alloc_arc, fallible, destroy_realm,
    ensure_realm_can_be_deleted, ensure_not_busy, ensure_halted, remove_realm, find_realm,
    inspect_realm, list_realms, realm_data_of; eff_auto.
  all: try (by apply steps_modify); try (intros a; apply Hscope; eff_auto).
  all: intros s; unfold take_arc, destroy_owned; by repeat case_match.
Qed.

(** ** Commands on one realm *)

(** Two identifiers never lead to the same realm. *)
Definition table_inj (s : St) : Prop :=
  ∀ u u' a, realms_managers s.1 !! u = Some a → realms_managers s.1 !! u' = Some a → u = u'.

(** The realm a command is about. *)
Definition realm_named (command : WardenCommand) : option Uuid :=
  match command with
  | CreateRealm _ | ListRealms => None
  | FetchToken uuid _ | StartRealm uuid | StopRealm uuid | RebootRealm uuid
  | DestroyRealm uuid | InspectRealm uuid => Some uuid
  | CreateApplication realm_uuid _ | StartApplication realm_uuid _
  | StopApplication realm_uuid _ | UpdateApplication realm_uuid _ _ => Some realm_uuid
  end.

(** Of the realms only the one behind [a] may have changed. *)
Definition only (a : ArcId) (s s' : St) : Prop :=
  s'.1 = s.1 ∧ ∀ b, b ≠ a → s'.2.1 !! b = s.2.1 !! b.

#[local] Instance only_preorder a : PreOrder (only a).
Proof.
  split; [done|]. intros s1 s2 s3 [H1 H2] [H3 H4]. split; [congruence|].
  intros b Hb. by rewrite H4, H2.
Qed.

Lemma drop_only a (s : St) : only a s (drop_realm a s).
Proof.
  split; [done|]. intros b Hb. simpl. unfold arc_drop. destruct (s.2.1 !! a) as [i|]; [|done].
  destruct (strong_count i) as [|[|n]]; by rewrite ?lookup_delete_ne, ?lookup_insert_ne.
Qed.

Lemma clone_only a (s : St) : only a s (s.1, (arc_clone a s.2.1, s.2.2)).
Proof. split; [done|]. intros b Hb. simpl. unfold arc_clone. by rewrite lookup_alter_ne. Qed.

Lemma lock_only {E A} a (method : eff (Rl * W) E A) :
  steps (only a) (zoom shared_lens (lock_arc a method)).
Proof.
  intros s. unfold zoom, lock_arc. simpl. destruct (s.2.1 !! a) as [i|]; [|done].
  destruct (method _) as [res [t w]]. split; [done|]. intros b Hb. simpl. by rewrite lookup_insert_ne.
Qed.

Lemma scoped_only {E A} a (c : eff St E A) : steps (only a) c → steps (only a) (scoped a c).
Proof.
  intros Hc s. unfold scoped. specialize (Hc s). destruct (c s) as [r s']. simpl in *.
  etrans; [exact Hc|apply drop_only].
Qed.

Lemma get_realm_eq u (s : St) :
  handler_get_realm u s =
  match realms_managers s.1 !! u with
  | Some a => (Ok a, (s.1, (arc_clone a s.2.1, s.2.2)))
  | None => (Err (Fail (WardenDaemonError (NoSuchRealm u))), s)
  end.
Proof.
  unfold handler_get_realm, on_warden, warden_get_realm, WardenDaemon_warden, get_realm, find_realm,
    with_state, map_err, mbind, eff_bind.
  simpl. by destruct (realms_managers s.1 !! u).
Qed.

(** A command that works on the realm [u] changes no other one. *)
Definition touches (u : Uuid) (s s' : St) : Prop :=
  match realms_managers s.1 !! u with Some a => only a s s' | None => s' = s end.

Lemma realm_scope_touches {A} u (k : ArcId → eff St (fault ClientError) A) :
  (∀ a, steps (only a) (k a)) →
  steps (touches u) (realm ← handler_get_realm u; scoped realm (k realm)).
Proof.
  intros Hk s. unfold mbind, eff_bind, touches. rewrite get_realm_eq.
  destruct (realms_managers s.1 !! u) as [a|]; [|done].
  etrans; [apply clone_only|]. by apply scoped_only.
Qed.

Lemma on_realm_touches {A} u (method : eff (Rl * W) RealmError A) :
  steps (touches u) (on_realm u method).
Proof. apply realm_scope_touches. intros a. eff_auto. apply lock_only. Qed.

Lemma on_application_touches {A} ru au (method : H → eff (Rl * W) Managers.ApplicationError A) :
  steps (touches ru) (on_application ru au method).
Proof.
  intros s. unfold on_application, mbind, eff_bind.
  assert (steps (touches ru) (get_application ru au)) as Hg.
  { apply realm_scope_touches. intros a. eff_auto. apply lock_only. }
  specialize (Hg s). destruct (get_application ru au s) as [[[a h]|e] s'] eqn:Hr; [|done].
  apply get_application_handle in Hr as (Ht&Ha&_). unfold touches in *. rewrite Ha in *. simpl in Hg.
  etrans; [exact Hg|]. apply steps_map_err; [apply _|]. apply lock_only.
Qed.

Lemma inspect_realm_touches u : steps (touches u) (inspect_realm u).
Proof.
  intros s. unfold touches, inspect_realm. erewrite bind_ok by reflexivity.
  destruct (realms_managers s.1 !! u) as [a|]; [|done].
  revert s. change (steps (only a) (data ← realm_data_of a; mret (mkRealmDescription u data))).
  eff_auto. apply lock_only.
Qed.

(** Destroying the realm [u] behind [a]: the other entries and realms stay. *)
Definition destroys (u : Uuid) (a : ArcId) (s s' : St) : Prop :=
  (∀ u', u' ≠ u → realms_managers s'.1 !! u' = realms_managers s.1 !! u') ∧
  ∀ b, b ≠ a → s'.2.1 !! b = s.2.1 !! b.

#[local] Instance destroys_preorder u a : PreOrder (destroys u a).
Proof.
  split; [done|]. intros s1 s2 s3 [H1 H2] [H3 H4].
  split; intros b Hb; [by rewrite H3, H1|by rewrite H4, H2].
Qed.

Lemma only_destroys u a (s s' : St) : only a s s' → destroys u a s s'.
Proof. intros [Ht Hh]. split; [|done]. intros u' _. by rewrite Ht. Qed.

Lemma remove_realm_destroys u a (s : St) :
  realms_managers s.1 !! u = Some a → destroys u a s (remove_realm u s).2.
Proof.
  intros Hu. unfold remove_realm.
  rewrite (bind_ok _ _ _ a s) by (unfold find_realm, with_state, try_r; by rewrite Hu).
  clear Hu. revert s. match goal with |- ∀ s, destroys u a s (?c s).2 => change (steps (destroys u a) c) end.
  unfold fallible. eff_auto.
  - apply steps_modify. intros s. split; [|done]. intros u' Hne. simpl. by rewrite lookup_delete_ne.
  - intros s. apply only_destroys, drop_only.
  - intros s. unfold destroy_owned. by destruct (realm_destroy _) as [? []].
  - by apply steps_zoom.
Qed.

Lemma destroy_realm_destroys u (s : St) :
  match realms_managers s.1 !! u with
  | Some a => destroys u a s (destroy_realm u s).2
  | None => (destroy_realm u s).2 = s
  end.
Proof.
  destruct (destroy_realm u s) as [r s'] eqn:Hrun. simpl.
  unfold destroy_realm, ensure_realm_can_be_deleted in Hrun.
  assert (∀ a, steps (only a) (ensure_halted a)) as Hen.
  { intros a. unfold ensure_halted. eff_auto. apply lock_only. }
  apply bind_run in Hrun as [(e&_&Hrun)|([]&s1&H1&Hrun)];
    [apply bind_run in Hrun as [(e'&_&Hrun)|(a&s1&H1&Hrun)]|].
  - apply ensure_not_busy_run in Hrun as (->&_). by destruct (realms_managers s.1 !! u).
  - apply ensure_not_busy_run in H1 as (->&_&Ha). destruct (Ha a eq_refl) as [-> _].
    apply only_destroys. by eapply steps_run.
  - apply bind_ok_inv in H1 as (a&s2&H2&H1). apply ensure_not_busy_run in H2 as (->&_&Ha).
    destruct (Ha a eq_refl) as [Hu _]. rewrite Hu.
    pose proof (steps_run _ _ _ _ _ (Hen a) H1) as Hs1.
    pose proof (remove_realm_destroys u a s1) as Hrem. rewrite Hrun in Hrem.
    etrans; [by apply only_destroys|]. apply Hrem. by destruct Hs1 as [-> _].
Qed.

Lemma destroy_realm_others u u' (s : St) r :
  table_inj s → u ≠ u' → realm_at s u' = Some r → realm_at (destroy_realm u s).2 u' = Some r.
Proof.
  intros Hinj Hne (b&i&Hb&Hi&Hr)%realm_at_Some. pose proof (destroy_realm_destroys u s) as Hd.
  apply realm_at_Some. exists b, i. destruct (realms_managers s.1 !! u) as [a|] eqn:Hu.
  - destruct Hd as [Ht Hh]. rewrite Ht, Hh; [done| |done].
    intros ->. by destruct Hne, (Hinj u u' a).
  - by rewrite Hd.
Qed.

Lemma touches_others u u' (s s' : St) r :
  table_inj s → touches u s s' → u ≠ u' → realm_at s u' = Some r → realm_at s' u' = Some r.
Proof.
  intros Hinj Ht Hne (a&i&Ha&Hi&Hr)%realm_at_Some. apply realm_at_Some. unfold touches in Ht.
  destruct (realms_managers s.1 !! u) as [b|] eqn:Hb; [|subst; by exists a, i].
  destruct Ht as [H1 H2]. exists a, i. rewrite H1, H2; [done|]. intros ->. by destruct Hne, (Hinj u u' b).
Qed.

Lemma create_realm_others id config (s : St) u r :
  realm_at s u = Some r → realm_at (create_realm id config s).2 u = Some r.
Proof.
  intros (a&i&Ha&Hi&Hr)%realm_at_Some. apply realm_at_Some. exists a, i.
  destruct (create_realm id config s) as [res s'] eqn:Hrun.
  apply create_realm_effect in Hrun as [(w&->&_)|(u'&x&w2&_&_&Hu&->)]; [done|]. simpl.
  rewrite lookup_insert_ne by congruence. split; [done|]. rewrite lookup_insert_ne; [done|].
  intros Heq. assert (a ∈ dom s.2.1) as Hin by (by eapply elem_of_dom_2).
  rewrite <-Heq in Hin. by apply is_fresh in Hin.
Qed.

Lemma handle_command_others command (s : St) u r :
  table_inj s → realm_named command ≠ Some u → command ≠ ListRealms →
  realm_at s u = Some r → realm_at (handle_command command s).2 u = Some r.
Proof.
  intros Hinj Hn Hl Hr.
  assert (∀ {E A} u0 (c : eff St E A), steps (touches u0) c → u0 ≠ u →
    realm_at (c s).2 u = Some r) as Htouch.
  { intros E A u0 c Hc Hne. by eapply touches_others; [|apply Hc|..]. }
  assert (∀ {E A B} (c : eff St E A) (f : A → B),
    realm_at (c s).2 u = Some r → realm_at ((x ← c; mret (f x)) s).2 u = Some r) as Hret.
  { intros E A B c f. unfold mbind, eff_bind. by destruct (c s) as [[] ?]. }
  assert (∀ {A} (c : eff St (fault WardenError) A),
    realm_at (c s).2 u = Some r → realm_at (on_warden c s).2 u = Some r) as Hw.
  { intros A c. unfold on_warden, map_err. by destruct (c s) as [[] ?]. }
  destruct command; simpl in Hn; unfold handle_command; apply Hret; try done;
    try (by apply (Htouch _ _ uuid); [apply on_realm_touches|congruence]);
    try (by apply (Htouch _ _ realm_uuid);
         [first [apply on_realm_touches|apply on_application_touches]|congruence]); apply Hw.
  - by apply create_realm_others.
  - apply destroy_realm_others; [done|congruence|done].
  - apply (Htouch _ _ uuid); [apply inspect_realm_touches|congruence].
Qed.

(** ** Identifiers and realms correspond one to one *)

(** A fresh reference leads nowhere yet. *)
Lemma fresh_not_in_table held (s : St) u :
  refs_ok held s → realms_managers s.1 !! u ≠ Some (fresh (dom s.2.1)).
Proof.
  intros Hok Hu. destruct (owned_live _ _ (fresh (dom s.2.1)) Hok) as [i Hi].
  - apply elem_of_app. left. by eapply table_refs_elem.
  - apply elem_of_dom_2 in Hi. by apply is_fresh in Hi.
Qed.

Lemma table_inj_same (s s' : St) : s'.1 = s.1 → table_inj s → table_inj s'.
Proof. intros Heq Hs u u' a. rewrite Heq. apply Hs. Qed.

Lemma create_realm_table_inj held id config (s : St) :
  refs_ok held s → table_inj s → table_inj (create_realm id config s).2.
Proof.
  intros Hok Hs. destruct (create_realm id config s) as [r s'] eqn:Hrun. simpl.
  apply create_realm_effect in Hrun as [(w&->&_)|(u&x&w2&_&_&Hu&->)]; [exact Hs|].
  intros u1 u2 a. simpl. rewrite !lookup_insert_Some.
  intros [[<- <-]|[_ H1]] [[<- Heq]|[_ H2]]; try done; try (by destruct (fresh_not_in_table held s _ Hok H2)).
  - subst. by destruct (fresh_not_in_table held s _ Hok H1).
  - by eapply Hs.
Qed.

Lemma handle_command_table_inj held command (s : St) :
  refs_ok held s → table_inj s → table_inj (handle_command command s).2.
Proof.
  intros Hok Hs.
  assert (∀ {E A} u (c : eff St E A), steps (touches u) c → table_inj (c s).2) as Htouch.
  { intros E A u c Hc. specialize (Hc s). unfold touches in Hc.
    destruct (realms_managers s.1 !! u); [|by rewrite Hc]. eapply table_inj_same, Hs. apply Hc. }
  assert (∀ {E A B} (c : eff St E A) (f : A → B),
    table_inj (c s).2 → table_inj ((x ← c; mret (f x)) s).2) as Hret.
  { intros E A B c f. unfold mbind, eff_bind. by destruct (c s) as [[] ?]. }
  assert (∀ {A} (c : eff St (fault WardenError) A),
    table_inj (c s).2 → table_inj (on_warden c s).2) as Hw.
  { intros A c. unfold on_warden, map_err. by destruct (c s) as [[] ?]. }
  destruct command; unfold handle_command; apply Hret;
    try (by apply (Htouch _ _ uuid), on_realm_touches);
    try (by apply (Htouch _ _ realm_uuid);
         first [apply on_realm_touches|apply on_application_touches]); apply Hw.
  - by eapply create_realm_table_inj.
  - simpl. destruct (destroy_realm uuid s) as [r s'] eqn:Hrun.
    eapply destroy_realm_run in Hrun as (_&_&[[Ht _]|[Ht _]]); [..|done];
      intros u1 u2 a; simpl; rewrite Ht; [apply Hs|].
    intros [_ H1]%lookup_delete_Some [_ H2]%lookup_delete_Some. by eapply Hs.
  - apply (Htouch _ _ uuid), inspect_realm_touches.
  - simpl. destruct (list_realms s) as [r s'] eqn:Hrun.
    eapply list_realms_run in Hrun as (Heq&_); [|done]. by eapply table_inj_same.
Qed.

End table.
