(* ===== verification/RealmCalls.v ===== *)
(** * Calls on realms, exactly

    What a client's call does to the table of realms: which realm its method runs on,
    that the references are as before, and when nothing changes at all. *)

From S2P Require Import Prelude WardenClient Managers Arc WardenDaemon ClientHandler RealmTable Traits.

Section calls.
Context {W Rl H F : Type}.
Context `{!Realm W Rl H, !RealmCreator W Rl F, !Runtime W, !UuidApi}.

Abbreviation St := (WardenDaemon F * (Arcs Rl * W))%type.

Lemma arc_drop_clone (h : Arcs Rl) a i :
  h !! a = Some i → strong_count i ≠ 0 → arc_drop a (arc_clone a h) = h.
Proof.
  intros Hi Hc. unfold arc_drop, arc_clone. rewrite lookup_alter_eq, Hi. simpl.
  destruct (strong_count i) as [|n] eqn:Hn; [done|]. apply map_eq. intros b.
  destruct (decide (a = b)) as [<-|Hne].
  - rewrite lookup_insert_eq, Hi. destruct i. simpl in *. by subst.
  - by rewrite lookup_insert_ne, lookup_alter_ne.
Qed.

(** A scope that owns a clone of the realm [u]. *)
Lemma realm_scope_run {A} u (k : ArcId → eff St (fault ClientError) A) (s : St) :
  refs_ok [] s →
  match realms_managers s.1 !! u with
  | None => ((realm ← handler_get_realm u; scoped realm (k realm)) s).2 = s
  | Some a => ∃ i, s.2.1 !! a = Some i ∧ strong_count i ≠ 0 ∧
      (realm ← handler_get_realm u; scoped realm (k realm)) s =
      let '(r, s') := k a (s.1, (arc_clone a s.2.1, s.2.2)) in (r, drop_realm a s')
  end.
Proof.
  intros Hok. unfold handler_get_realm, on_warden, warden_get_realm, WardenDaemon_warden, get_realm,
    find_realm, with_state, try_r, map_err, mbind, eff_bind, modify, mret, eff_ret, scoped.
  destruct (realms_managers s.1 !! u) as [a|] eqn:Ha; [|done]. simpl.
  destruct (owned_live _ _ a Hok) as [i Hi].
  { apply elem_of_app. left. by eapply table_refs_elem. }
  exists i. split_and!; [done| |by destruct (k a _)].
  destruct (Hok a) as [_ Hc]. unfold arc_count in Hc. rewrite Hi in Hc. simpl in Hc. eauto.
Qed.

(** A method runs on the realm of the table, and the references are as before. *)
Lemma on_realm_ok {A} u (method : eff (Rl * W) RealmError A) (s : St) x s' :
  refs_ok [] s → on_realm u method s = (Ok x, s') →
  ∃ a i r w, realms_managers s.1 !! u = Some a ∧ s.2.1 !! a = Some i ∧
    method (arc_value i, s.2.2) = (Ok x, (r, w)) ∧
    s' = (s.1, (<[a := mkArcInner r (strong_count i)]> s.2.1, w)).
Proof.
  intros Hok Hrun. pose proof (realm_scope_run u (λ a, map_err (map_fault RealmManagerError)
    (zoom shared_lens (lock_arc a method))) s Hok) as Hscope.
  unfold on_realm in Hrun. destruct (realms_managers s.1 !! u) as [a|] eqn:Ha.
  2: { unfold handler_get_realm, on_warden, warden_get_realm, WardenDaemon_warden, get_realm, find_realm,
         with_state, try_r, map_err, mbind, eff_bind in Hrun. by rewrite Ha in Hrun. }
  destruct Hscope as (i&Hi&Hc&Hscope). rewrite Hscope in Hrun. clear Hscope.
  unfold map_err, zoom, lock_arc in Hrun. simpl in Hrun. unfold arc_clone in Hrun.
  rewrite lookup_alter_eq, Hi in Hrun. simpl in Hrun.
  destruct (method (arc_value i, s.2.2)) as [[y|e] [r w]] eqn:Hmeth; [|done]. injection Hrun as -> <-.
  exists a, i, r, w. split_and!; [done..|]. unfold drop_realm, arc_drop. simpl. rewrite lookup_insert_eq.
  simpl. destruct (strong_count i) as [|n]; [done|]. do 2 f_equal. rewrite insert_insert_eq.
  apply map_eq. intros b. destruct (decide (a = b)) as [<-|Hne]; [by rewrite !lookup_insert_eq|].
  by rewrite !lookup_insert_ne, lookup_alter_ne.
Qed.

(** *** Calls without effect *)

Definition pure_on {E A} (method : eff (Rl * W) E A) (m : Rl) : Prop := ∀ w, (method (m, w)).2 = (m, w).

Lemma lock_pure {E A} a i (method : eff (Rl * W) E A) (h : Arcs Rl) w :
  h !! a = Some i → pure_on method (arc_value i) → (lock_arc a method (h, w)).2 = (h, w).
Proof.
  intros Hi Hm. unfold lock_arc. simpl. rewrite Hi. specialize (Hm w).
  destruct (method (arc_value i, w)) as [r [m w']]. simpl in *. simplify_eq. f_equal.
  apply insert_id. rewrite Hi. by destruct i.
Qed.

Lemma scope_pure {A} u (k : ArcId → eff St (fault ClientError) A) (s : St) :
  refs_ok [] s →
  (∀ a i, realms_managers s.1 !! u = Some a → s.2.1 !! a = Some i →
    (k a (s.1, (arc_clone a s.2.1, s.2.2))).2 = (s.1, (arc_clone a s.2.1, s.2.2))) →
  ((realm ← handler_get_realm u; scoped realm (k realm)) s).2 = s.
Proof.
  intros Hok Hk. pose proof (realm_scope_run u k s Hok) as Hscope.
  destruct (realms_managers s.1 !! u) as [a|]; [|done]. destruct Hscope as (i&Hi&Hc&->).
  specialize (Hk a i eq_refl Hi). destruct (k a _) as [r s']. simpl in *. subst s'.
  unfold drop_realm. simpl. rewrite (arc_drop_clone _ _ i) by done. by destruct s as [? []].
Qed.

Lemma clone_lookup (h : Arcs Rl) a i :
  h !! a = Some i → arc_clone a h !! a = Some (mkArcInner (arc_value i) (S (strong_count i))).
Proof. intros Hi. unfold arc_clone. by rewrite lookup_alter_eq, Hi. Qed.

Lemma on_realm_pure {A} u (method : eff (Rl * W) RealmError A) (s : St) :
  refs_ok [] s → (∀ m, realm_at s u = Some m → pure_on method m) → (on_realm u method s).2 = s.
Proof.
  intros Hok Hm. apply scope_pure; [done|]. intros a i Ha Hi. unfold map_err, zoom. simpl.
  pose proof (lock_pure a _ method (arc_clone a s.2.1) s.2.2 (clone_lookup _ _ _ Hi)) as Hp.
  simpl in Hp. destruct (lock_arc a method _) as [r t]. simpl in *. rewrite Hp; [done|].
  apply Hm, realm_at_Some. eauto.
Qed.

(** A realm that has no application to give. *)
Lemma on_application_pure {A} u au (method : H → eff (Rl * W) Managers.ApplicationError A) (s : St) :
  refs_ok [] s →
  (∀ m, realm_at s u = Some m → ∀ w, ∃ e, realm_get_application au (m, w) = (Err e, (m, w))) →
  (on_application u au method s).2 = s.
Proof.
  intros Hok Hm. unfold on_application.
  assert (∃ e, ClientHandler.get_application u au s = (Err e, s)) as [e He].
  2: { unfold mbind, eff_bind. by rewrite He. }
  assert ((ClientHandler.get_application u au s).2 = s ∧ is_err (ClientHandler.get_application u au s).1 = true) as [Hs Herr].
  2: { destruct (ClientHandler.get_application u au s) as [[]  s']; [done|]. simpl in Hs. subst. eauto. }
  unfold ClientHandler.get_application. pose proof (realm_scope_run u (λ realm,
    h ← map_err (map_fault RealmManagerError)
          (zoom shared_lens (lock_arc realm (realm_get_application au)));
    mret (realm, h)) s Hok) as Hscope.
  destruct (realms_managers s.1 !! u) as [a|] eqn:Ha.
  - destruct Hscope as (i&Hi&Hc&->). destruct (Hm (arc_value i)) with (w := s.2.2) as [e He].
    { apply realm_at_Some. eauto. }
    unfold mbind, eff_bind, map_err, zoom, lock_arc. simpl. rewrite (clone_lookup _ _ _ Hi). simpl.
    rewrite He. simpl. split; [|done]. unfold drop_realm. simpl.
    rewrite insert_id by by apply clone_lookup. rewrite (arc_drop_clone _ _ i) by done.
    by destruct s as [? []].
  - split; [done|]. unfold handler_get_realm, on_warden, warden_get_realm, WardenDaemon_warden, get_realm,
      find_realm, with_state, try_r, map_err, mbind, eff_bind. by rewrite Ha.
Qed.

Lemma realm_data_pure a i (s : St) :
  s.2.1 !! a = Some i → pure_on realm_get_realm_data (arc_value i) → (realm_data_of a s).2 = s.
Proof.
  intros Hi Hp. unfold realm_data_of, map_err, zoom. simpl.
  pose proof (lock_pure a i realm_get_realm_data s.2.1 s.2.2 Hi Hp) as Hl.
  destruct s as [d [h w]]. simpl in *. destruct (lock_arc a realm_get_realm_data (h, w)) as [r t].
  simpl in *. by subst.
Qed.

Lemma map_eff_pure {T E A B} (c : A → eff T E B) l (t : T) :
  (∀ x, x ∈ l → (c x t).2 = t) → (map_eff c l t).2 = t.
Proof.
  induction l as [|x l IH]; intros Hx; [done|]. simpl. unfold mbind, eff_bind.
  pose proof (Hx x (list_elem_of_here _ _)) as Hx1. destruct (c x t) as [[b|e] t1]; simpl in Hx1; subst; [|done].
  assert ((map_eff c l t).2 = t) as Hl by (apply IH; intros y Hy; apply Hx; by right).
  by destruct (map_eff c l t) as [[bs|e] t2].
Qed.

Lemma list_realms_pure (s : St) :
  refs_ok [] s → (∀ u m, realm_at s u = Some m → pure_on realm_get_realm_data m) → (list_realms s).2 = s.
Proof.
  intros Hok Hm. unfold list_realms. unfold mbind at 1, eff_bind at 1, gets. apply map_eff_pure.
  intros [u a] Hin%elem_of_map_to_list. destruct (owned_live _ _ a Hok) as [i Hi].
  { apply elem_of_app. left. by eapply table_refs_elem. }
  assert ((realm_data_of a s).2 = s) as Hs.
  { eapply realm_data_pure; [exact Hi|]. apply (Hm u), realm_at_Some. eauto. }
  unfold mbind, eff_bind. simpl. by destruct (realm_data_of a s) as [[] ?].
Qed.

Lemma inspect_realm_pure u (s : St) :
  refs_ok [] s → (∀ m, realm_at s u = Some m → pure_on realm_get_realm_data m) →
  (inspect_realm u s).2 = s.
Proof.
  intros Hok Hm. unfold inspect_realm. unfold mbind at 1, eff_bind at 1, gets.
  destruct (realms_managers s.1 !! u) as [a|] eqn:Ha; [|done].
  destruct (owned_live _ _ a Hok) as [i Hi].
  { apply elem_of_app. left. by eapply table_refs_elem. }
  assert ((realm_data_of a s).2 = s) as Hs.
  { eapply realm_data_pure; [exact Hi|]. apply Hm, realm_at_Some. eauto. }
  unfold mbind, eff_bind. by destruct (realm_data_of a s) as [[] ?].
Qed.

(** Of the table, only the realm changes. *)
Lemma realm_at_update (s : St) u a r n (w : W) v :
  table_inj s → realms_managers s.1 !! u = Some a →
  realm_at (s.1, (<[a := mkArcInner r n]> s.2.1, w)) v = if decide (u = v) then Some r else realm_at s v.
Proof.
  intros Hinj Ha. unfold realm_at. simpl. destruct (decide (u = v)) as [<-|Hne].
  - rewrite Ha. simpl. by rewrite lookup_insert_eq.
  - destruct (realms_managers s.1 !! v) as [b|] eqn:Hb; [|done]. simpl.
    rewrite lookup_insert_ne; [done|]. intros <-. apply Hne. by eapply Hinj.
Qed.

Lemma realm_at_insert (s : St) u r (w : W) v :
  refs_ok [] s →
  realm_at (set_realms (<[u := fresh (dom s.2.1)]> (realms_managers s.1)) s.1,
    (<[fresh (dom s.2.1) := mkArcInner r 1]> s.2.1, w)) v =
  if decide (u = v) then Some r else realm_at s v.
Proof.
  intros Hok. unfold realm_at. simpl. destruct (decide (u = v)) as [<-|Hne].
  - rewrite lookup_insert_eq. simpl. by rewrite lookup_insert_eq.
  - rewrite lookup_insert_ne by done. destruct (realms_managers s.1 !! v) as [b|] eqn:Hb; [|done].
    simpl. rewrite lookup_insert_ne; [done|]. intros <-. by eapply fresh_not_in_table.
Qed.

(** Every entry of the table leads to a realm. *)
Lemma realm_at_table (s : St) u :
  refs_ok [] s → is_Some (realm_at s u) ↔ u ∈ dom (realms_managers s.1).
Proof.
  intros Hok. rewrite elem_of_dom. unfold realm_at. destruct (realms_managers s.1 !! u) as [a|] eqn:Ha;
    [|by split; intros []]. simpl. split; [done|]. intros _. rewrite fmap_is_Some.
  apply (owned_live _ _ _ Hok). apply elem_of_app. left. by eapply table_refs_elem.
Qed.
(** *** Destroying a realm *)

Lemma ensure_halted_pure a i (s : St) x s' :
  s.2.1 !! a = Some i → pure_on realm_get_realm_data (arc_value i) →
  ensure_halted a s = (Ok x, s') → s' = s.
Proof.
  intros Hi Hp Hrun. unfold ensure_halted in Hrun. apply bind_ok_inv in Hrun as (d&s1&Hd&Hrun).
  pose proof (realm_data_pure a i s Hi Hp) as Hs. rewrite Hd in Hs. simpl in Hs. subst s1.
  case_bool_decide; by run_inv.
Qed.

(** A realm that is destroyed is taken out of the table, destroyed, and cleaned up. *)
Lemma destroy_realm_effect u (s : St) s' :
  refs_ok [] s → (∀ m, realm_at s u = Some m → pure_on realm_get_realm_data m) →
  destroy_realm u s = (Ok tt, s') →
  ∃ a i, realms_managers s.1 !! u = Some a ∧ s.2.1 !! a = Some i ∧
    s'.1 = set_realms (delete u (realms_managers s.1)) s.1 ∧ s'.2.1 = arc_drop a s.2.1 ∧
    fabric_clean_up_realm (realm_fabric s.1) u (realm_destroy (arc_value i, s.2.2)).2.2 = (Ok tt, s'.2.2).
Proof.
  intros Hok Hp Hrun. unfold destroy_realm, ensure_realm_can_be_deleted in Hrun.
  apply bind_ok_inv in Hrun as ([]&s1&He&Hrun). apply bind_ok_inv in He as (a&s2&Hb&He).
  apply ensure_not_busy_run in Hb as (->&_&Ha). destruct (Ha a eq_refl) as [Hu _].
  destruct (owned_live _ _ a Hok) as [i Hi]; [apply elem_of_app; left; by eapply table_refs_elem|].
  eapply ensure_halted_pure in He as ->; [|exact Hi|by apply Hp, realm_at_Some; eauto].
  unfold remove_realm in Hrun. apply bind_ok_inv in Hrun as (b&s1&Hf&Hrun).
  apply find_realm_run in Hf as [-> Hb]. rewrite Hu in Hb. injection Hb as ->.
  apply bind_ok_inv in Hrun as ([]&s1&Hm&Hrun). injection Hm as <-.
  apply bind_ok_inv in Hrun as (o&s1&Ht&Hrun). unfold take_arc, arc_into_inner in Ht. simpl in Ht.
  rewrite Hi in Ht. simpl in Ht. case_bool_decide; injection Ht as <- <-; [|done].
  apply bind_ok_inv in Hrun as ([]&s1&Hd&Hrun). unfold destroy_owned in Hd. simpl in Hd.
  destruct (realm_destroy (arc_value i, s.2.2)) as [r0 [m0 w0]] eqn:Hdes. injection Hd as <-.
  apply bind_ok_inv in Hrun as (f&s1&Hf&Hrun). injection Hf as <- <-. simpl in Hrun.
  apply map_err_ok, zoom_inv in Hrun as (w1&Hc&->). simpl in *. exists a, i. by rewrite Hdes.
Qed.

Lemma realm_at_delete u a (s : St) (w : W) v :
  table_inj s → realms_managers s.1 !! u = Some a →
  realm_at (set_realms (delete u (realms_managers s.1)) s.1, (arc_drop a s.2.1, w)) v =
  if decide (u = v) then None else realm_at s v.
Proof.
  intros Hinj Ha. unfold realm_at. simpl. destruct (decide (u = v)) as [<-|Hne].
  - by rewrite lookup_delete_eq.
  - rewrite lookup_delete_ne by done. destruct (realms_managers s.1 !! v) as [b|] eqn:Hb; [|done]. simpl.
    assert (b ≠ a) as Hba by (intros ->; by apply Hne, (Hinj u v a)). unfold arc_drop.
    destruct (s.2.1 !! a) as [i|]; [|done].
    destruct (strong_count i) as [|[|n]]; by rewrite ?lookup_delete_ne, ?lookup_insert_ne.
Qed.

End calls.
