(* ===== verification/WardenStorage.v ===== *)
(** * The warden across restarts

    The directory of the daemon holds the table of realms: an invariant between the
    realms in memory and the files, kept by the commands that create realms and
    applications or destroy realms, and by a restart of the daemon, which rebuilds the
    table from it. *)

From S2P Require Import Prelude WardenClient Managers Traits Storage ApplicationDisk ApplicationManager.
From S2P Require Import RealmClientHandler Arc WardenDaemon ClientHandler RealmTable RealmCalls.
From S2P Require Import AppStorage RealmManager RealmStorage ClientHelper Fabric.
From S2P Require Import Traits.

(** ** The table and the directory *)

Section warden_storage.
Context {W Fd P G DFd V Snd : Type}.
Context `{!FileApi W Fd, !Yaml ApplicationConfig, !Yaml RealmConfig, !UuidApi}.
Context `{!DiskApi W P G DFd, !NetworkManager W, !Runtime W, !VmManager W V, !VmManagerLaws W V}.
Context `{!FileApiLaws W Fd, !YamlLaws ApplicationConfig, !YamlLaws RealmConfig, !UuidLaws}.
Context `{!DiskApiLaws W P G DFd, !Subdirectories (W := W), !StorageFrame (W := W)}.
Context `{!RealmClient W (RealmClientHandler Snd), !ExitStatusFmt, !HostFrame (W := W)}.

Abbreviation App := (ApplicationManager (FileRepository ApplicationConfig) ApplicationDiskManager).
Abbreviation RM :=
  (RealmManager (FileRepository RealmConfig) App V (RealmClientHandler Snd) ApplicationFabric).
Abbreviation St := (WardenDaemon (RealmManagerFabric V) * (Arcs RM * W))%type.
Implicit Types (f : RealmManagerFabric V) (m : RM) (u k : Uuid) (s : St).

(** The files of the realm [u]. *)
Definition in_realm f u (q : PathBuf) : Prop :=
  q = create_config_path (realm_home f u) ∨
  ∃ k n, is_absolute n = false ∧ q = path_push (app_dir (home_fabric f u) k) n.

Lemma in_realm_app f u k n : is_absolute n = false → in_realm f u (path_push (app_dir (home_fabric f u) k) n).
Proof. right. by exists k, n. Qed.

Lemma in_realm_inj f u v q : in_realm f u q → in_realm f v q → u = v.
Proof.
  intros [->|(k&n&Hn&->)] [Heq|(k'&n'&Hn'&Heq)].
  - by apply realm_config_inj in Heq.
  - by apply config_not_below in Heq.
  - symmetry in Heq. by apply config_not_below in Heq.
  - by apply below_warden_inj in Heq as [? _].
Qed.

(** What happens elsewhere does not change a saved realm. *)
Lemma realm_saved_outside f u m w w' :
  (∀ q, in_realm f u q → kept q w w') → subdirs w' (realm_home f u) = subdirs w (realm_home f u) →
  realm_saved f u m w → realm_saved f u m w'.
Proof.
  intros Hk Hsub ((Hp&t&Ht&Hf)&(Hm&Hvm&ns&Hns&Hperm)&Happs). split; [|split].
  - split; [done|]. exists t. split; [done|]. by destruct (Hk _ (or_introl eq_refl)) as [-> _].
  - split; [done|]. split; [done|]. exists ns. by rewrite Hsub.
  - intros k a Ha. eapply app_saved_kept; [..|by apply Happs]; by apply Hk, in_realm_app.
Qed.

(** The directories of different realms are apart. *)
Lemma home_inj f u v : realm_home f u = realm_home f v → u = v.
Proof.
  unfold realm_home. destruct (uuid_dir_split (warden_workdir_path f)) as [p Hp]. rewrite !Hp.
  by intros ?%append_inj_l%uuid_inj.
Qed.

Lemma home_not_below f u v n : realm_home f v ≠ realm_home f u +:+ "/" +:+ n.
Proof.
  unfold realm_home. destruct (uuid_dir_split (warden_workdir_path f)) as [p Hp].
  rewrite !Hp, append_assoc. intros Heq%append_inj_l. pose proof (uuid_no_slash v) as Hv.
  rewrite Heq, !has_char_app in Hv. simpl in Hv. by rewrite orb_true_r in Hv.
Qed.

Lemma home_below_inj f u v n n' : realm_home f u +:+ "/" +:+ n = realm_home f v +:+ "/" +:+ n' → u = v.
Proof.
  unfold realm_home. destruct (uuid_dir_split (warden_workdir_path f)) as [p Hp].
  rewrite !Hp, !append_assoc. intros Heq%append_inj_l.
  apply name_path_inj in Heq as [?%uuid_inj _]; [done|apply uuid_no_slash..].
Qed.

Lemma in_realm_below f u q : in_realm f u q → ∃ n, q = realm_home f u +:+ "/" +:+ n.
Proof.
  intros [->|(k&n&Hn&->)].
  - exists CONFIG_FILE_NAME. unfold create_config_path, realm_home. by rewrite uuid_dir_push.
  - exists (uuid_to_string k +:+ "/" +:+ n). rewrite app_dir_home, uuid_dir_push by done.
    change (create_workdir_path_with_uuid (realm_home f u) k) with (app_dir (home_fabric f u) k).
    by rewrite app_dir_join, !append_assoc.
Qed.

(** New directories of one realm are no entries of another one's. *)
Lemma new_realm_elsewhere f u v r w w' :
  u ≠ v → create_dir (realm_home f u) w = (r, w') →
  subdirs w' (realm_home f v) = subdirs w (realm_home f v).
Proof.
  intros Hne Hd. eapply create_dir_others; [exact Hd|apply uuid_dir_not_empty|..].
  - by intros ?%home_inj.
  - intros n _. apply home_not_below.
Qed.

Lemma new_app_elsewhere f u v k r w w' :
  u ≠ v → create_dir (app_dir (home_fabric f u) k) w = (r, w') →
  subdirs w' (realm_home f v) = subdirs w (realm_home f v).
Proof.
  intros Hne Hd. rewrite app_dir_join in Hd.
  eapply create_dir_others; [exact Hd|apply uuid_dir_not_empty|apply home_not_below|].
  by intros n _ ?%home_below_inj.
Qed.

(** Removing the directory of a realm keeps the other realms. *)
Lemma removed_elsewhere f u v m r w w' :
  u ≠ v → remove_dir_all (realm_home f u) w = (r, w') → realm_saved f v m w → realm_saved f v m w'.
Proof.
  intros Hne Hd. apply realm_saved_outside.
  - intros q [n ->]%in_realm_below. eapply frame_remove_dir; [exact Hd|]. by intros n' ?%home_below_inj.
  - eapply remove_dir_others; [exact Hd|apply uuid_dir_not_empty|..].
    + by intros ?%home_inj.
    + intros n. apply home_not_below.
    + intros n _. apply home_not_below.
Qed.

(** The directory of the daemon lists the realms of the table, and that of each realm
    holds the realm. *)
Record warden_saved f s : Prop := {
  saved_fabric : realm_fabric s.1 = f;
  saved_refs : refs_ok [] s;
  saved_inj : table_inj s;
  saved_listed : ∃ ns, subdirs s.2.2 (warden_workdir_path f) = Some ns ∧
    ns ≡ₚ uuid_to_string <$> elements (dom (realms_managers s.1));
  saved_realms : ∀ u m, realm_at s u = Some m → realm_saved f u m s.2.2 }.

(** *** Commands *)

Lemma create_realm_keeps f id config s u s' :
  root_ok f → warden_saved f s → WardenDaemon.create_realm id config s = (Ok u, s') →
  warden_saved f s' ∧ realm_at s u = None ∧
  ∃ m, data (rm_config m) = config ∧ ∀ v, realm_at s' v = if decide (u = v) then Some m else realm_at s v.
Proof.
  intros Hroot [Hfab Hok Hinj (ns&Hns&Hperm) Hrealms] Hrun.
  pose proof (create_realm_balanced [] id config s _ _ Hrun Hok) as [Hok' _].
  pose proof (create_realm_table_inj [] id config s Hok Hinj) as Hinj'. rewrite Hrun in Hinj'.
  pose proof (create_realm_effect id config s _ _ Hrun) as [(w&_&?)|(u'&m&w2&Hu&Hcr&Hnew&->)]; [done|].
  injection Hu as <-. rewrite Hfab in Hcr. simpl in Hcr.
  destruct (new_v4_frame s.2.2) as [Hv4k Hv4d].
  assert (∀ q, kept q s.2.2 (new_v4 s.2.2).2) as Hv4 by (intros q; by apply unchanged_kept, new_v4_frame).
  pose proof (create_realm_files _ _ _ _ _ _ Hcr) as ((w1&Hd&Hsub)&Hk&_).
  apply create_realm_saved in Hcr as (Hsaved&Hcfg&_).
  split; [split|split].
  - done.
  - done.
  - done.
  - rewrite realm_home_join in Hd by done. rewrite <-Hv4d in Hns.
    destruct (create_dir_entry _ _ _ _ _ (proj1 Hroot) (uuid_not_empty u) (uuid_no_slash u) Hd Hns)
      as (_&ns'&Hns'&Hp).
    exists ns'. simpl. rewrite Hsub, dom_insert_L, elements_union_singleton by by apply not_elem_of_dom.
    split; [done|]. simpl. by rewrite Hp, Hperm.
  - intros v m' Hm'. rewrite realm_at_insert in Hm' by done. simpl.
    destruct (decide (u = v)) as [<-|Hne]; [by simplify_eq|].
    apply (realm_saved_outside _ _ _ s.2.2); [..|by apply Hrealms].
    + intros q Hq. transitivity (new_v4 s.2.2).2; [done|]. apply Hk. intros ->. apply Hne.
      eapply in_realm_inj; [by left|exact Hq].
    + by rewrite Hsub, (new_realm_elsewhere _ _ _ _ _ _ Hne Hd), Hv4d.
  - unfold realm_at. by rewrite Hnew.
  - exists m. split; [done|]. intros v. by apply realm_at_insert.
Qed.

Lemma create_application_keeps f u config s k s' :
  root_ok f → warden_saved f s → on_realm u (realm_create_application config) s = (Ok k, s') →
  warden_saved f s' ∧
  ∃ m m', realm_at s u = Some m ∧ rm_config m' = rm_config m ∧ rm_applications m !! k = None ∧
    (∃ a, rm_applications m' = <[k := a]> (rm_applications m)) ∧
    ∀ v, realm_at s' v = if decide (u = v) then Some m' else realm_at s v.
Proof.
  intros Hroot [Hfab Hok Hinj (ns&Hns&Hperm) Hrealms] Hrun.
  pose proof (on_realm_balanced [] u _ s _ _ Hrun Hok) as [Hok' _].
  apply on_realm_ok in Hrun as (a&i&m'&w'&Ha&Hi&Hrun&->); [|done].
  assert (realm_at s u = Some (arc_value i)) as Hat by (apply realm_at_Some; eauto).
  set (m := arc_value i) in *. pose proof (Hrealms _ _ Hat) as Hsaved.
  pose proof (create_application_saved f u m config _ _ _ _ Hsaved Hrun) as (Hsaved'&Hcfg&Hfresh&Hins).
  apply create_application_inv in Hrun as (_&a0&Hcr&_).
  rewrite (proj1 (proj1 (proj2 Hsaved))) in Hcr. simpl in Hcr.
  apply fabric_create_application_ok in Hcr as (_&(w1&Hd&Hsub)&Hk).
  destruct (new_v4_frame s.2.2) as [_ Hv4d].
  assert (∀ q, kept q s.2.2 (new_v4 s.2.2).2) as Hv4 by (intros q; by apply unchanged_kept, new_v4_frame).
  split; [split|].
  - done.
  - done.
  - exact Hinj.
  - exists ns. simpl. by rewrite Hsub, (app_dir_keeps_root _ _ _ _ _ _ Hroot Hd), Hv4d.
  - intros v m0 Hm0. rewrite (realm_at_update _ u) in Hm0 by done. simpl.
    destruct (decide (u = v)) as [<-|Hne]; [by simplify_eq|].
    apply (realm_saved_outside _ _ _ s.2.2); [..|by apply Hrealms].
    + intros q Hq. transitivity (new_v4 s.2.2).2; [done|].
      apply Hk; intros ->; apply Hne; (eapply in_realm_inj; [|exact Hq]); by apply in_realm_app.
    + by rewrite Hsub, (new_app_elsewhere _ _ _ _ _ _ _ Hne Hd), Hv4d.
  - exists m, m'. split_and!; [done..|]. intros v. by apply realm_at_update.
Qed.

(** A virtual machine manager that was just made holds no virtual machine. *)
Definition vms_off f : Prop :=
  ∀ dir u config v, vm_manager_creator f dir u config = Ok v → vm_launched v = false.

Lemma saved_halted f u m w : realm_saved f u m w → rm_state m = Halted.
Proof. by intros (_&(->&_)&_). Qed.

Lemma data_pure m : rm_state m = Halted → pure_on realm_get_realm_data m.
Proof.
  intros Hm w. simpl. unfold get_realm_data, current_state, mbind, eff_bind, gets. simpl. by rewrite Hm.
Qed.

Lemma destroy_realm_keeps f u s s' :
  root_ok f → vms_off f → warden_saved f s → destroy_realm u s = (Ok tt, s') →
  warden_saved f s' ∧ ∀ v, realm_at s' v = if decide (u = v) then None else realm_at s v.
Proof.
  intros Hroot Hoff [Hfab Hok Hinj (ns&Hns&Hperm) Hrealms] Hrun.
  pose proof (destroy_realm_balanced [] u s _ _ Hrun Hok) as [Hok' _].
  apply destroy_realm_effect in Hrun as (a&i&Ha&Hi&Hd&Harcs&Hclean); [|done|].
  2:{ intros m Hm. by eapply data_pure, saved_halted, Hrealms. }
  assert (realm_at s u = Some (arc_value i)) as Hat by (apply realm_at_Some; eauto).
  destruct (Hrealms _ _ Hat) as (_&(_&Hvm&_)&_). apply Hoff in Hvm.
  destruct s' as [d' [arcs' w']]. simpl in *. subst d' arcs'.
  assert ((destroy (arc_value i, s.2.2)).2.2 = s.2.2) as Hdes.
  { unfold destroy, map_err, zoom. simpl. by rewrite (vm_shutdown_none _ _ Hvm). }
  rewrite Hdes, Hfab in Hclean. unfold clean_up_realm in Hclean.
  apply bind_ok_inv in Hclean as ([]&w1&Htap&Hrem). apply map_err_ok in Htap, Hrem.
  pose proof (steps_run _ _ _ _ _ (tap_down_frame _) Htap) as Hun. fold (realm_home f u) in Hrem.
  assert (∀ v, realm_at (set_realms (delete u (realms_managers s.1)) s.1, (arc_drop a s.2.1, w')) v =
    if decide (u = v) then None else realm_at s v) as Hdel by (intros v; by apply realm_at_delete).
  split; [split|done]; simpl; [done|done|..].
  - intros v v' b. simpl. intros [_ Hv]%lookup_delete_Some [_ Hv']%lookup_delete_Some. by eapply Hinj.
  - rewrite <-(proj2 Hun) in Hns. rewrite realm_home_join in Hrem by done.
    assert (elements (dom (realms_managers s.1)) ≡ₚ u :: elements (dom (delete u (realms_managers s.1)))) as Hel.
    { rewrite dom_delete_L, <-elements_union_singleton by set_solver.
      rewrite <-union_difference_singleton_L; [done|]. by eapply elem_of_dom_2. }
    rewrite Hel in Hperm. simpl in Hperm.
    destruct (remove_dir_entry _ _ _ _ _ (proj1 Hroot) (uuid_not_empty u) (uuid_no_slash u) Hrem Hns)
      as (ns'&Hns'&Hp); [rewrite Hperm; by left|].
    exists ns'. split; [done|]. rewrite <-Hp in Hperm. by apply Permutation_cons_inv in Hperm.
  - intros v m. rewrite Hdel. destruct (decide (u = v)) as [|Hne]; [done|]. intros Hm.
    eapply removed_elsewhere; [exact Hne|exact Hrem|].
    apply (realm_saved_outside _ _ _ s.2.2); [intros q _; by apply unchanged_kept|apply Hun|by apply Hrealms].
Qed.

(** *** Restart *)

(** Tap devices can be created. *)
Definition taps_available : Prop :=
  ∀ tap u (w : W), is_ok (create_tap_device_for_realm tap u w).1 = true.

Lemma load_realm_restores f u m w :
  taps_available → realm_saved f u m w →
  ∃ w', load_realm (Snd := Snd) f u w = (Ok m, w') ∧ unchanged w w'.
Proof.
  intros Htaps Hs. destruct (load_realm_saved f u m w Hs) as (w1&Hun&Hload). rewrite Hload.
  specialize (Htaps (tap_device (network_config (data (rm_config m)))) u w1).
  pose proof (tap_frame (tap_device (network_config (data (rm_config m)))) u w1) as Htap.
  destruct (create_tap_device_for_realm _ u w1) as [[[]|e] w2] eqn:Hrun; [|done]. exists w2.
  split; [|by transitivity w1]. unfold realm_fail.
  by erewrite bind_ok by (apply map_err_ok; exact Hrun).
Qed.

(** The warden with a table under construction. *)
Definition loading f (t : gmap Uuid ArcId * Arcs RM) (w : W) : St := (WardenDaemon.new t.1 f, (t.2, w)).

Lemma insert_realm_at f u m t w v :
  refs_ok [] (loading f t w) → t.1 !! u = None →
  realm_at (loading f (insert_realm u m t) w) v = if decide (u = v) then Some m else realm_at (loading f t w) v.
Proof.
  intros Hok Hu. unfold loading, insert_realm, arc_new. rewrite Hu.
  exact (realm_at_insert (loading f t w) u m w v Hok).
Qed.

Lemma insert_realm_inj f u m t w :
  refs_ok [] (loading f t w) → t.1 !! u = None → table_inj (loading f t w) →
  table_inj (loading f (insert_realm u m t) w).
Proof.
  intros Hok Hu Hinj v v' a. unfold loading, insert_realm, arc_new. rewrite Hu. simpl.
  rewrite !lookup_insert_Some.
  intros [[<- <-]|[_ Hv]] [[<- Heq]|[_ Hv']]; try done.
  - by destruct (fresh_not_in_table [] (loading f t w) _ Hok Hv').
  - subst. by destruct (fresh_not_in_table [] (loading f t w) _ Hok Hv).
  - by eapply Hinj.
Qed.

Lemma loading_owned f t w : refs_ok [] (loading f t w) ↔ owned ((map_to_list t.1).*2) t.2.
Proof. unfold refs_ok, table_refs. simpl. by rewrite app_nil_r. Qed.

Lemma load_realms_restores f us t w (M : Uuid → option RM) :
  taps_available → NoDup us → (∀ u, u ∈ us → t.1 !! u = None) →
  (∀ u, u ∈ us → ∃ m, M u = Some m ∧ realm_saved f u m w) →
  refs_ok [] (loading f t w) → table_inj (loading f t w) →
  ∃ t' w', load_realms f us t w = (Ok t', w') ∧ unchanged w w' ∧
    refs_ok [] (loading f t' w') ∧ table_inj (loading f t' w') ∧
    ∀ v, realm_at (loading f t' w') v = if decide (v ∈ us) then M v else realm_at (loading f t w) v.
Proof.
  intros Htaps. revert t w. induction us as [|u us IH]; intros t w Hnd Hnew Hs Hok Hinj.
  { exists t, w. split_and!; [done..|]. intros v. by rewrite decide_False by apply not_elem_of_nil. }
  apply NoDup_cons in Hnd as [Hu Hnd].
  destruct (Hs u) as (m&HM&Hm); [by left|]. assert (t.1 !! u = None) as Hnone by (apply Hnew; left).
  destruct (load_realm_restores f u m w Htaps Hm) as (w1&Hload&Hun).
  destruct (IH (insert_realm u m t) w1) as (t'&w'&Hloads&Hun'&Hok'&Hinj'&Hat).
  - done.
  - intros v Hv. unfold insert_realm, arc_new. simpl. rewrite lookup_insert_ne by by intros ->.
    apply Hnew. by right.
  - intros v Hv. destruct (Hs v) as (m'&HM'&Hm'); [by right|]. exists m'. split; [done|].
    apply (realm_saved_outside _ _ _ w); [intros q _; by apply unchanged_kept|apply Hun|done].
  - apply loading_owned, insert_realm_owned, (loading_owned f t w), Hok.
  - exact (insert_realm_inj f u m t w Hok Hnone Hinj).
  - exists t', w'. split_and!; [|by transitivity w1|done..|].
    + simpl. by erewrite bind_ok by (apply map_err_ok; exact Hload).
    + intros v. rewrite Hat. pose proof (insert_realm_at f u m t w v Hok Hnone) as Hins.
      change (realm_at (loading f (insert_realm u m t) w1) v) with
        (realm_at (loading f (insert_realm u m t) w) v). rewrite Hins.
      destruct (decide (u = v)) as [<-|Hne].
      * rewrite decide_False by done. by rewrite decide_True by left.
      * destruct (decide (v ∈ us)) as [Hv|Hv]; [by rewrite decide_True by (by right)|].
        rewrite decide_False by (rewrite elem_of_cons; naive_solver). done.
Qed.

(** Two tables with the same realms have the same entries. *)
Lemma same_realms_dom s s' :
  refs_ok [] s → refs_ok [] s' → (∀ u, realm_at s' u = realm_at s u) →
  dom (realms_managers s'.1) = dom (realms_managers s.1).
Proof.
  intros Hok Hok' Hat. apply set_eq. intros u.
  by rewrite <-(realm_at_table s u Hok), <-(realm_at_table s' u Hok'), Hat.
Qed.

(** A daemon that is started in the directory has the same realms, and they are
    saved there. *)
Lemma restart_restores f s :
  taps_available → warden_saved f s →
  ∃ d arcs w', create_warden (Snd := Snd) f s.2.2 = (Ok (d, arcs), w') ∧
    warden_saved f (d, (arcs, w')) ∧ ∀ u, realm_at (d, (arcs, w')) u = realm_at s u.
Proof.
  intros Htaps [Hfab Hok Hinj (ns&Hns&Hperm) Hrealms].
  destruct (list_complete _ _ _ Hns) as (es&Hes&Hdirs).
  destruct (dir_entries (warden_workdir_path f) s.2.2) as [r w1] eqn:Hrun. simpl in Hes. subst r.
  pose proof (steps_run _ _ _ _ _ (frame_list _) Hrun) as Hun.
  rewrite Hperm in Hdirs. apply Permutation_map_inv in Hdirs as (us&Hus&Hp).
  assert (∀ u, u ∈ us ↔ is_Some (realm_at s u)) as Helem.
  { intros u. rewrite (realm_at_table s u Hok). by rewrite <-Hp, elem_of_elements. }
  destruct (load_realms_restores f us (∅, ∅) w1 (realm_at s)) as (t&w2&Hload&Hun2&Hok2&Hinj2&Hat).
  - done.
  - rewrite <-Hp. apply NoDup_elements.
  - done.
  - intros u [m Hm]%Helem. exists m. split; [done|].
    apply (realm_saved_outside _ _ _ s.2.2); [intros q _; by apply unchanged_kept|apply Hun|by apply Hrealms].
  - intros a. split; [done|]. by intros [].
  - by intros v v' a.
  - assert (∀ u, realm_at (loading f t w2) u = realm_at s u) as Hsame.
    { intros u. rewrite Hat. destruct (decide (u ∈ us)) as [_|Hu]; [done|].
      destruct (realm_at s u) eqn:Hu'; [|done]. destruct Hu. apply Helem. by rewrite Hu'. }
    assert (unchanged s.2.2 w2) as Hall by by transitivity w1.
    exists (WardenDaemon.new t.1 f), t.2, w2. split_and!; [|split|done].
    + unfold create_warden, read_subfolders_uuids.
      assert ((dir_entries (warden_workdir_path f) ≫= λ entries, try_r (parse_entries entries)) s.2.2
        = (Ok us, w1)) as Hr.
      { erewrite bind_ok by exact Hrun. by rewrite (parse_entries_dirs es us). }
      erewrite bind_ok by (apply map_err_ok; exact Hr). by erewrite bind_ok by exact Hload.
    + done.
    + done.
    + done.
    + exists ns. change (dom (realms_managers _)) with (dom (realms_managers (loading f t w2).1)).
      rewrite (same_realms_dom s _ Hok Hok2 Hsame). split; [|done]. by rewrite <-Hns; apply Hall.
    + intros u m Hm. apply (realm_saved_outside _ _ _ s.2.2);
        [intros q _; by apply unchanged_kept|apply Hall|apply Hrealms]. by rewrite <-Hsame.
Qed.

(** Commands that create or destroy something. *)
Definition lasting (command : WardenCommand) : bool :=
  match command with
  | CreateRealm _ | DestroyRealm _ | CreateApplication _ _ => true
  | _ => false
  end.

(** Commands that realms which do not run refuse, or answer without changing. *)
Definition quiet (command : WardenCommand) : bool :=
  match command with
  | ListRealms | InspectRealm _ | StopRealm _ | RebootRealm _ | StartApplication _ _ | StopApplication _ _ =>
      true
  | _ => false
  end.

Lemma quiet_same f command s :
  warden_saved f s → quiet command = true → (ClientHandler.handle_command command s).2 = s.
Proof.
  intros [_ Hok _ _ Hrealms] Hq.
  assert (∀ u m, realm_at s u = Some m → rm_state m = Halted) as Hhalted.
  { intros u m Hm. by eapply saved_halted, Hrealms. }
  assert (∀ {E A B} (c : eff St E A) (g : A → B), (c s).2 = s → ((x ← c; mret (g x)) s).2 = s) as Hret.
  { intros E A B c g. unfold mbind, eff_bind. by destruct (c s) as [[] ?]. }
  assert (∀ {A} (c : eff St (fault WardenError) A), (c s).2 = s → (on_warden c s).2 = s) as Hw.
  { intros A c. unfold on_warden, map_err. by destruct (c s) as [[] ?]. }
  destruct command; try done; unfold ClientHandler.handle_command; apply Hret.
  - apply on_realm_pure; [done|]. intros m Hm%Hhalted w. simpl. unfold RealmManager.stop, current_state,
      mbind, eff_bind, gets. simpl. by rewrite Hm.
  - apply on_realm_pure; [done|]. intros m Hm%Hhalted w. simpl. unfold RealmManager.reboot, current_state,
      mbind, eff_bind, gets. simpl. by rewrite Hm.
  - apply Hw, inspect_realm_pure; [done|]. intros m Hm. by eapply data_pure, Hhalted.
  - apply Hw, list_realms_pure; [done|]. intros u m Hm. by eapply data_pure, Hhalted.
  - apply on_application_pure; [done|]. intros m Hm%Hhalted w. simpl. unfold RealmManager.get_application,
      current_state, mbind, eff_bind, gets. simpl. rewrite Hm. by eexists.
  - apply on_application_pure; [done|]. intros m Hm%Hhalted w. simpl. unfold RealmManager.get_application,
      current_state, mbind, eff_bind, gets. simpl. rewrite Hm. by eexists.
Qed.

(** The daemon in use: it starts in an empty directory, realms and applications are
    created by clients, looked at, asked for what they refuse and destroyed, and it is
    restarted any number of times. *)
Inductive in_use f : St → Prop :=
| use_first w :
    subdirs w (warden_workdir_path f) = Some [] → in_use f (WardenDaemon.new ∅ f, (∅, w))
| use_command command response s s' :
    in_use f s → lasting command = true →
    ClientHandler.handle_command command s = (Ok response, s') → in_use f s'
| use_quiet command s :
    in_use f s → quiet command = true → in_use f (ClientHandler.handle_command command s).2
| use_restart s d arcs w :
    in_use f s → create_warden f s.2.2 = (Ok (d, arcs), w) → in_use f (d, (arcs, w)).

Lemma lasting_keeps f command response s s' :
  root_ok f → vms_off f → warden_saved f s → lasting command = true →
  ClientHandler.handle_command command s = (Ok response, s') → warden_saved f s'.
Proof.
  intros Hroot Hoff Hs Hc Hrun. destruct command; try done; simpl in Hrun.
  - apply bind_ok_inv in Hrun as (u&s1&Hcr&Hrun). injection Hrun as _ <-. apply map_err_ok in Hcr.
    by apply (create_realm_keeps f) in Hcr as [? _].
  - apply bind_ok_inv in Hrun as ([]&s1&Hcr&Hrun). injection Hrun as _ <-. apply map_err_ok in Hcr.
    by apply (destroy_realm_keeps f) in Hcr as [? _].
  - apply bind_ok_inv in Hrun as (k&s1&Hcr&Hrun). injection Hrun as _ <-.
    by apply (create_application_keeps f) in Hcr as [? _].
Qed.

Lemma in_use_saved f s : root_ok f → vms_off f → taps_available → in_use f s → warden_saved f s.
Proof.
  intros Hroot Hoff Htaps Hg. induction Hg as [w Hw|c r s s' _ IH Hc Hrun|c s _ IH Hq|s d arcs w _ IH Hrun].
  - split; [done|..].
    + intros a. split; [done|]. by intros [].
    + by intros u u' a.
    + exists []. split; [done|]. simpl. by rewrite dom_empty_L, elements_empty.
    + by intros u m (a&i&Ha&_)%realm_at_Some.
  - by eapply lasting_keeps.
  - by rewrite (quiet_same f).
  - destruct (restart_restores f s Htaps IH) as (d'&arcs'&w'&Hrun'&Hs&_). rewrite Hrun in Hrun'.
    by simplify_eq.
Qed.

(** C18.  The daemon survives restarts.  Started in an empty directory, after any sequence
    of successful commands that create realms and applications and destroy realms, of
    listings and inspections and of calls that realms which do not run refuse,
    interleaved with any number of restarts, the daemon can be started again
    ([create_warden] succeeds), and its table then leads to exactly the realms it led to
    before: the same identifiers, and under each of them a realm with the same
    configuration, applications and disks, all of them halted; no realm that was
    destroyed comes back.  In whatever order the directories are listed, given that tap
    devices can be created and that a new virtual machine manager holds no machine. *)
Theorem warden_survives_restart f s :
  root_ok f → vms_off f → taps_available → in_use f s →
  ∃ d arcs w', create_warden f s.2.2 = (Ok (d, arcs), w') ∧
    ∀ u, realm_at (d, (arcs, w')) u = realm_at s u.
Proof.
  intros Hroot Hoff Htaps Hg%in_use_saved; [|done..].
  destruct (restart_restores f s Htaps Hg) as (d&arcs&w'&Hrun&_&Hat). eauto.
Qed.

End warden_storage.
