(* ===== verification/RealmLayout.v ===== *)
(** * Realms and their places on disk

    Invariants of single realms in the sense of [RealmTable]: of the realm manager
    from invariants of its parts, and the layout of the daemon's directories, in
    which the fabrics, the disk managers and the command line of the virtual
    machine agree. *)

From S2P Require Import Prelude Managers Storage ApplicationDisk ApplicationManager RealmClientHandler.
From S2P Require Import VmRunner Arc WardenDaemon Fabric AppStorage RealmTable RealmManager RealmVm.
From S2P Require Import Traits.

(** ** The realm manager *)

Section manager.
Context {W R A V C F : Type}.
Context `{!Repository W R RealmConfig, !VmManager W V, !RealmClient W C}.
Context `{!Application W C A, !ApplicationCreator W A F, !Runtime W}.
Context `{!UuidApi, !ExitStatusFmt}.

Abbreviation RM := (RealmManager R A V C F).

(** A realm that is not halted has its virtual machine. *)
#[export] Instance vm_realm_invariant `{!VmManagerLaws W V} :
  RealmInvariant (W := W) (Rl := RM) (λ _ m, rm_state m ≠ Halted → vm_up m = true).
Proof.
  assert (∀ op, op ≠ OpDestroy → preserves vm_inv (run_op op : eff (RM * W) RealmError unit))
    as Hop by (intros; by apply run_op_vm_inv).
  assert (∀ {T} (c : eff (RM * W) RealmError T), preserves vm_inv (c;; mret tt) →
    preserves vm_inv c) as Hret.
  { intros T c Hc s Hs. specialize (Hc s Hs). unfold mbind, eff_bind in Hc.
    by destruct (c s) as [[] ?]. }
  split; simpl; intros.
  - by apply (Hop OpStart).
  - by apply (Hop OpStop).
  - by apply (Hop OpReboot).
  - by apply Hret, (Hop (OpCreateApplication cfg)).
  - by apply (Hop (OpUpdateApplication au cfg)).
  - by apply Hret, (Hop (OpGetApplication au)).
  - by apply Hret, (Hop OpGetRealmData).
  - by apply Hret, (Hop (OpFetchAttestationToken ch)).
  - assert ((r, w).1 = s.1) as Hr.
    { match goal with Hg : get_application _ _ = _ |- _ => revert Hg end.
      unfold get_application, current_state. intros Hg. run_gets Hg.
      case_bool_decide; [by run_inv|]. run_gets Hg. destruct (rm_applications s.1 !! au); by run_inv. }
    simpl in Hr. subst r.
    split; [pose proof (on_app_frame h.1 h.2 app_start (s.1, w')) as [-> ->]
           |pose proof (on_app_frame h.1 h.2 app_stop (s.1, w')) as [-> ->]]; done.
Qed.

(** The parts: the fabric of the realm [u], what holds of its virtual machine
    manager and configuration, and what holds of its applications. *)
Context (fab : Uuid → F) (PV : Uuid → R → V → Prop) (PA : Uuid → Uuid → A → Prop).

Class PartsInvariant : Prop := {
  launch_part : ∀ u cfg us, preserves (λ s, PV u cfg s.1) (launch_vm us);
  shutdown_part : ∀ u cfg, preserves (λ s, PV u cfg s.1) vm_shutdown;
  status_part : ∀ u cfg, preserves (λ s, PV u cfg s.1) get_status;
  app_start_part : ∀ u k, preserves (λ s, PA u k s.1) app_start;
  app_stop_part : ∀ u k, preserves (λ s, PA u k s.1) app_stop;
  app_update_part : ∀ u k cfg, preserves (λ s, PA u k s.1) (app_update_config cfg);
  app_configure_part : ∀ u k, preserves (λ s, PA u k s.1) app_configure_disk;
  create_part : ∀ u k cfg w a w',
    fabric_create_application (fab u) k cfg w = (Ok a, w') → PA u k a }.

Definition realm_parts (u : Uuid) (m : RM) : Prop :=
  rm_application_fabric m = fab u ∧ PV u (rm_config m) (rm_vm_manager m) ∧
  map_Forall (PA u) (rm_applications m).

Section parts.
Context `{!PartsInvariant} (u : Uuid).
Abbreviation I := (λ s : RM * W, realm_parts u s.1).

Lemma vm_parts {E T} (c : eff (V * W) E T) :
  (∀ cfg, preserves (λ s, PV u cfg s.1) c) → preserves I (zoom vm_lens c).
Proof.
  intros Hc s (Hf&Hv&Ha). unfold zoom. simpl.
  specialize (Hc (rm_config s.1) (rm_vm_manager s.1, s.2) Hv).
  destruct (c _) as [r [v w]]. by split_and!.
Qed.

Lemma client_parts {E T} (c : eff (C * W) E T) : preserves I (zoom client_lens c).
Proof. intros s Hs. unfold zoom. by destruct (c _) as [r [cl w]]. Qed.

Lemma world_parts {E T} (c : eff W E T) : preserves I (zoom snd_lens c).
Proof. intros s Hs. unfold zoom. by destruct (c _). Qed.

Lemma assign_parts st : preserves I (assign_state st).
Proof. by intros s. Qed.

Lemma on_app_parts {E T} k a (c : eff (A * (C * W)) E T) :
  PA u k a → preserves (λ s, PA u k s.1) c → preserves I (on_app k a c).
Proof.
  intros Ha Hc s (Hf&Hv&Happs). unfold on_app.
  specialize (Hc (a, (rm_realm_client_handler s.1, s.2)) Ha).
  destruct (c _) as [r [a' [cl w]]]. split_and!; [done..|]. by apply map_Forall_insert_2.
Qed.
#[local] Hint Resolve vm_parts client_parts world_parts assign_parts : eff.
#[local] Hint Resolve launch_part shutdown_part status_part : eff.

Lemma prepare_parts : preserves I prepare_applications.
Proof.
  intros s Hs. unfold prepare_applications. erewrite bind_ok by reflexivity.
  assert (∀ p, p ∈ omap (λ k, (k,.) <$> rm_applications s.1 !! k) (completion_order s.2 (app_keys s.1)) →
    preserves I (prepare_task p)) as Hp.
  { intros [k a] (k'&_&Hk)%list_elem_of_omap. apply fmap_Some in Hk as (a'&Ha&[= -> ->]).
    assert (PA u k' a') as HP by (destruct Hs as (_&_&Happs); by eapply Happs).
    unfold prepare_task. eff_auto. intros; simpl. apply on_app_parts; [done|apply app_configure_part]. }
  apply preserves_join_all_in; [done| |done]. intros p s1 Hin Hs1. unfold dropped_task.
  destruct (task_ran _ _); [by apply Hp|done].
Qed.
Lemma launch_parts : preserves I launch.
Proof. unfold launch. eff_auto. Qed.
Lemma provisioning_parts : preserves I create_provisioning_config.
Proof. unfold create_provisioning_config. eff_auto. Qed.
Lemma stop_parts : preserves I stop_client_and_vm.
Proof. unfold stop_client_and_vm. eff_auto. Qed.
#[local] Hint Resolve prepare_parts launch_parts provisioning_parts stop_parts : eff.

Lemma create_application_parts cfg : preserves I (create_application cfg).
Proof.
  intros s Hs. destruct (create_application cfg s) as [r s'] eqn:Hrun. simpl.
  unfold create_application, current_state in Hrun. run_gets Hrun.
  case_bool_decide; [by run_inv|]. destruct (new_v4 s.2) as [k w0] eqn:Hk.
  rewrite (bind_ok _ _ _ k (s.1, w0)) in Hrun by by rewrite Hk. run_gets Hrun.
  apply bind_run in Hrun as [(e&->&Hrun)|(a&s1&Ha&Hrun)].
  - by apply zoom_inv in Hrun as (w1&_&->).
  - apply zoom_inv in Ha as (w1&Ha&->). simpl in *. erewrite bind_ok in Hrun by reflexivity.
    injection Hrun as _ <-. destruct Hs as (Hf&Hv&Happs). split; [done|]. split; [done|].
    apply map_Forall_insert_2; [|done]. rewrite Hf in Ha.
    by eapply create_part.
Qed.

Lemma update_application_parts k cfg : preserves I (update_application k cfg).
Proof.
  intros s Hs. unfold update_application, current_state. erewrite bind_ok by reflexivity.
  case_bool_decide as Hst; [done|]. erewrite bind_ok by reflexivity.
  destruct (rm_applications s.1 !! k) as [a|] eqn:Ha; [|done].
  assert (PA u k a) as HP by (destruct Hs as (_&_&Happs); by eapply Happs).
  clear Ha Hst. revert s Hs.
  match goal with |- ∀ s, _ → realm_parts u (?c s).2.1 => change (preserves I c) end.
  eff_auto. apply on_app_parts; [done|]. apply app_update_part.
Qed.

(** The handle of an application is the application of the table. *)
Lemma get_application_ok k (s : RM * W) h s' :
  get_application k s = (Ok h, s') → s' = s ∧ h.1 = k ∧ rm_applications s.1 !! k = Some h.2.
Proof.
  unfold get_application, current_state. intros Hrun. run_gets Hrun.
  case_bool_decide; [by run_inv|]. run_gets Hrun.
  destruct (rm_applications s.1 !! k); by run_inv.
Qed.

Lemma handle_parts {E T} k (s : RM * W) h s' (c : eff (A * (C * W)) E T) w :
  get_application k s = (Ok h, s') → I s → preserves (λ s, PA u k s.1) c →
  I (on_app h.1 h.2 c (s'.1, w)).2.
Proof.
  intros (->&<-&Ha)%get_application_ok Hs Hc. apply on_app_parts; [|done..].
  destruct Hs as (_&_&Happs). by eapply Happs.
Qed.
End parts.


#[export] Instance parts_realm_invariant `{!PartsInvariant} :
  RealmInvariant (W := W) (Rl := RM) realm_parts.
Proof.
  pose proof prepare_parts. pose proof launch_parts. pose proof provisioning_parts.
  pose proof stop_parts. pose proof @client_parts. pose proof assign_parts.
  split; simpl; intros u; intros; unfold start, stop, reboot, get_realm_data,
    fetch_attestation_token, handle_start_response, current_state.
  - eff_auto; intros; apply vm_parts; [apply status_part|apply shutdown_part].
  - eff_auto.
  - eff_auto.
  - apply create_application_parts.
  - apply update_application_parts.
  - unfold get_application, current_state. eff_auto.
  - eff_auto.
  - eff_auto.
  - match goal with Hg : get_application _ _ = _, HP : realm_parts u _ |- _ => split;
      [exact (handle_parts u _ _ _ _ app_start w' Hg HP (app_start_part u _))
      |exact (handle_parts u _ _ _ _ app_stop w' Hg HP (app_stop_part u _))] end.
Qed.

End manager.

(** ** The layout of the directories *)

Section layout.
Context {W Fd P G DFd Snd Child Pipe H : Type}.
Context `{!FileApi W Fd, !Yaml ApplicationConfig, !Yaml RealmConfig, !UuidApi}.
Context `{!DiskApi W P G DFd, !NetworkManager W, !Runtime W, !ExitStatusFmt}.
Context `{!ProcessApi W Child Pipe H, !RealmClient W (RealmClientHandler Snd)}.

Abbreviation Vm := (VmRunner Runner Child H).
Abbreviation App := (ApplicationManager (FileRepository ApplicationConfig) ApplicationDiskManager).
Abbreviation RM :=
  (RealmManager (FileRepository RealmConfig) App Vm (RealmClientHandler Snd) ApplicationFabric).

(** The directory of the realm [u], and its fabric of applications. *)
Definition realm_dir (root : PathBuf) (u : Uuid) : PathBuf := create_workdir_path_with_uuid root u.
Definition realm_apps (root : PathBuf) (u : Uuid) : ApplicationFabric :=
  mkApplicationFabric (realm_dir root u).

(** The virtual machine of the realm [u] runs in its directory, with the command
    that the creator [base] makes of its configuration, which is kept there. *)
Definition vm_layout (base : RealmConfig → Runner) (root : PathBuf) (u : Uuid)
    (cfg : FileRepository RealmConfig) (v : Vm) : Prop :=
  path cfg = create_config_path (realm_dir root u) ∧
  realm_workdir v = realm_dir root u ∧ realm_id v = u ∧ cmd_runner v = base (data cfg).

(** The application [k] of the realm [u] has its files in the directory [k] of
    the directory of the realm. *)
Definition app_layout (root : PathBuf) (u k : Uuid) (a : App) : Prop :=
  let dir := create_workdir_path_with_uuid (realm_dir root u) k in
  am_uuid a = k ∧ path (am_config a) = create_config_path dir ∧
  file_path (am_application_disk a) = path_push dir DISK_NAME.

Definition realm_layout (base : RealmConfig → Runner) (root : PathBuf) : Uuid → RM → Prop :=
  realm_parts (realm_apps root) (vm_layout base root) (app_layout root).

Lemma update_keeps_path nd ni p :
  preserves (λ s : ApplicationDiskManager * W, file_path s.1 = p)
    (update_partitions_if_sizes_differ nd ni).
Proof.
  unfold update_partitions_if_sizes_differ. eff_auto.
  - intros s1 Hs. unfold zoom. by destruct (ensure_partitions_correctness _ _).
  - by apply preserves_modify.
  - intros s1 Hs. unfold zoom. by destruct (create_application_disk _ _).
Qed.

(** A runner keeps its command, identifier and directory. *)
Lemma on_handler_fields {E T} (Q : Vm → Prop) h (c : eff (VmHandler Child H * W) E T) :
  (∀ v o, Q v → Q (VmRunner.set_vm o v)) →
  preserves (λ s : Vm * W, Q s.1) (VmRunner.on_handler h c).
Proof. intros HQ s Hs. unfold VmRunner.on_handler. destruct (c _) as [r [h' w]]. by apply HQ. Qed.

#[export] Instance layout_parts base root :
  PartsInvariant (W := W) (realm_apps root) (vm_layout base root) (app_layout root).
Proof.
  split; simpl; intros u; intros.
  - unfold VmRunner.launch_vm. eff_auto; [|intros; by apply preserves_modify].
    intros s Hs. unfold zoom. by destruct (VmHandler_new _ _ _).
  - unfold VmRunner.shutdown, get_handler. eff_auto; [|intros; by apply preserves_modify].
    by apply on_handler_fields.
  - unfold VmRunner.get_status, handle_get_status. eff_auto. by apply on_handler_fields.
  - unfold ApplicationManager.start. eff_auto. intros s Hs. unfold zoom. by destruct (start_application _ _).
  - unfold ApplicationManager.stop. eff_auto. intros s Hs. unfold zoom. by destruct (stop_application _ _).
  - unfold update_config. eff_auto; [by apply preserves_modify|].
    intros s (Hu&Hp&Hd). unfold zoom. simpl. unfold yaml_save, with_state, map_err, zoom. simpl.
    by destruct (save _ _).
  - unfold configure_disk. eff_auto. intros cfg s (Hu&Hp&Hd). unfold zoom. simpl.
    unfold ApplicationDisk.update_disk_with_partitions, map_err.
    destruct (update_partitions_if_sizes_differ _ _ _) as [r s'] eqn:Hrun.
    split; [done|]. split; [done|]. simpl.
    pose proof (update_keeps_path (data_storage_size_mb cfg) (image_storage_size_mb cfg) _
      (am_application_disk s.1, s.2.2) Hd) as Hk. by rewrite Hrun in Hk.
  - unfold Fabric.create_application, creation_fail, ApplicationManager.new, Yaml_new,
      FileRepository_new in *. run_inv. split; [done|]. split; [done|]. by eapply disk_new_file.
Qed.

Lemma load_application_layout root u k w a w' :
  load_application (realm_apps root u) k w = (Ok a, w') → app_layout root u k a.
Proof.
  unfold load_application, creation_fail, ApplicationManager.new, Yaml_from, from_file_path.
  intros Hrun. run_inv. split; [done|]. split; [done|]. by eapply disk_new_file.
Qed.

Lemma load_applications_layout root u w apps w' :
  load_applications (realm_dir root u) (realm_apps root u) w = (Ok apps, w') →
  map_Forall (app_layout root u) apps.
Proof.
  unfold load_applications. intros Hrun. apply bind_ok_inv in Hrun as (uuids&w1&_&Hrun).
  apply bind_ok_inv in Hrun as (loaded&w2&Hl&Hrun). injection Hrun as <- _.
  assert (Forall (λ e : Uuid * App, app_layout root u e.1 e.2) loaded) as Hall.
  { clear w. revert w1 w2 loaded Hl. induction uuids as [|k uuids IH]; intros w1 w2 loaded Hl; simpl in Hl;
      [injection Hl as <- _; constructor|].
    apply bind_ok_inv in Hl as (e&w3&He&Hl). apply bind_ok_inv in Hl as (es&w4&Hes&Hl).
    injection Hl as <- _. constructor; [|by eapply IH].
    apply bind_ok_inv in He as (a&w5&Ha&He). injection He as <- _. apply map_err_ok in Ha.
    by eapply load_application_layout. }
  assert (map_Forall (app_layout root u) (∅ : gmap Uuid App)) as Hm by apply map_Forall_empty.
  clear Hl. revert Hm. generalize (∅ : gmap Uuid App). induction Hall as [|[k a] loaded Ha _ IH]; intros m Hm;
    simpl in *; [done|]. by apply IH, map_Forall_insert_2.
Qed.

(** What the fabrics make is laid out, created or loaded. *)
Lemma fabric_layout base (f : RealmManagerFabric Vm) :
  (∀ p u cfg v, vm_manager_creator f p u cfg = Ok v → v = VmRunner.new (base cfg) u p) →
  CreatorInvariant (W := W) (Rl := RM) f (realm_layout base (warden_workdir_path f)).
Proof.
  intros Hvm. split; intros u; intros; simpl in *.
  - unfold Fabric.create_realm, realm_fail, Yaml_new, FileRepository_new in *. run_inv.
    split; [done|]. split; [|apply map_Forall_empty].
    match goal with Hv : vm_manager_creator _ _ _ _ = Ok _ |- _ => by apply Hvm in Hv as -> end.
  - unfold load_realm, realm_fail, Yaml_from, from_file_path in *.
    match goal with Hrun : _ = (Ok r, _) |- _ =>
      apply bind_ok_inv in Hrun as (apps&w1&Happs&Hrun) end.
    apply load_applications_layout in Happs. run_inv. split; [done|]. split; [|done].
    match goal with Hv : vm_manager_creator _ _ _ _ = Ok _ |- _ => by apply Hvm in Hv as -> end.
Qed.

(** Realms are made halted. *)
Lemma fabric_halted (f : RealmManagerFabric Vm) :
  CreatorInvariant (W := W) (Rl := RM) f (λ _ m, rm_state m ≠ Halted → vm_up m = true).
Proof.
  split; intros u; intros; simpl in *; exfalso.
  - unfold Fabric.create_realm, realm_fail in *. by run_inv.
  - unfold load_realm, realm_fail in *. by run_inv.
Qed.

(** ** The warden that is loaded *)

(** The table and the realms it owns, as the state of a warden. *)
Definition loaded (f : RealmManagerFabric Vm) (t : gmap Uuid ArcId * Arcs RM) (w : W) :=
  (WardenDaemon.new t.1 f, (t.2, w)).

Section load.
Context (f : RealmManagerFabric Vm) (Q : Uuid → RM → Prop).
Context `{!CreatorInvariant (W := W) f Q}.

Lemma insert_realm_consistent u r t w w' :
  refs_ok [] (loaded f t w) → Q u r → table_inj (loaded f t w) → realms_inv Q (loaded f t w) →
  table_inj (loaded f (insert_realm u r t) w') ∧ realms_inv Q (loaded f (insert_realm u r t) w').
Proof.
  intros Hok Hr Hinj Hinv. unfold insert_realm, arc_new. set (a := fresh (dom t.2)).
  assert (∀ v, t.1 !! v ≠ Some a) as Hfresh by (intros v; apply (fresh_not_in_table [] _ v Hok)).
  split.
  - intros u1 u2 b. simpl. rewrite !lookup_insert_Some.
    intros [[<- <-]|[_ Hb1]] [[<- Heq]|[_ Hb2]]; try done.
    + by destruct (Hfresh u2).
    + subst. by destruct (Hfresh u1).
    + by eapply Hinj.
  - intros v r' (b&i&Hb&Hi&<-)%realm_at_Some. simpl in *.
    assert (∃ j, (<[a:=mkArcInner r 1]> t.2) !! b = Some j ∧ arc_value i = arc_value j) as (j&Hj&->)
      by (destruct (t.1 !! u); [by eapply arc_drop_value|eauto]).
    apply lookup_insert_Some in Hb as [[<- <-]|[Hne Hb]].
    + rewrite lookup_insert_eq in Hj. by simplify_eq/=.
    + rewrite lookup_insert_ne in Hj by (intros <-; by destruct (Hfresh v)).
      apply Hinv, realm_at_Some. by exists b, j.
Qed.

Lemma load_realms_consistent us t w t' w' :
  load_realms f us t w = (Ok t', w') → refs_ok [] (loaded f t w) →
  table_inj (loaded f t w) → realms_inv Q (loaded f t w) →
  table_inj (loaded f t' w') ∧ realms_inv Q (loaded f t' w').
Proof.
  revert t w. induction us as [|u us IH]; intros t w Hrun Hok Hinj Hinv; simpl in Hrun;
    [injection Hrun as <- <-; done|].
  apply bind_ok_inv in Hrun as (r&w1&Hr&Hrun). apply map_err_ok in Hr.
  destruct (insert_realm_consistent u r t w w1 Hok) as [Hi Hv]; [by eapply load_inv|done..|].
  eapply IH; [exact Hrun| |done..]. unfold refs_ok, table_refs in *. simpl in *.
  rewrite app_nil_r in *. by apply insert_realm_owned.
Qed.

Lemma create_warden_consistent w d arcs w' :
  create_warden f w = (Ok (d, arcs), w') →
  WardenDaemon.realm_fabric d = f ∧ table_inj (d, (arcs, w')) ∧ realms_inv Q (d, (arcs, w')).
Proof.
  unfold create_warden. intros Hrun. apply bind_ok_inv in Hrun as (us&w1&_&Hrun).
  apply bind_ok_inv in Hrun as (t&w2&Ht&Hrun). injection Hrun as <- <- <-. split; [done|].
  eapply load_realms_consistent in Ht; [exact Ht|..].
  - intros a. split; [done|]. by intros [].
  - by intros ???.
  - by intros u r (a&i&Ha&_)%realm_at_Some.
Qed.
End load.

(** ** The command of the virtual machine *)

(** A realm that is laid out is started with the command of its configuration
    and the disk file of each of its applications. *)
Lemma layout_command base root u (m : RM) :
  realm_layout base root u m →
  prepare_run_command (rm_vm_manager m) (app_keys m) =
  let command := get_command (base (data (rm_config m))) in
  mkCommand (program command) (args command ++ concat
    ((λ a : App, disk_args (base (data (rm_config m))) (file_path (am_application_disk a))) <$>
     (map_to_list (rm_applications m)).*2)).
Proof.
  intros (_&(_&Hdir&_&Hcmd)&Happs). unfold prepare_run_command.
  rewrite (foldl_disks _ (disk_args (cmd_runner (rm_vm_manager m)))) by (intros; apply setup_disk_args).
  simpl. rewrite Hcmd. do 2 f_equal. unfold app_keys. rewrite <-!list_fmap_compose. f_equal.
  apply list_fmap_ext. intros i [k a] Hi. apply list_elem_of_lookup_2, elem_of_map_to_list in Hi.
  destruct (Happs k a Hi) as (_&_&Hd). simpl. rewrite Hd. unfold app_disk_path. by rewrite Hdir.
Qed.

End layout.
