(* ===== verification/DaemonRealms.v ===== *)
(** * The realms over the life of the daemon

    The invariants of [RealmTable] and [RealmLayout] for the whole daemon of
    [WholeDaemon], from the realms it loads at its start to its exit. *)

From S2P Require Import Prelude WardenClient WardenRealm Managers Traits Storage ApplicationDisk.
From S2P Require Import ApplicationManager RealmClientHandler RealmManager VmRunner Arc WardenDaemon.
From S2P Require Import ClientHandler Fabric IpNet IpTables Dnsmasq NatManager UnixSocketServer.
From S2P Require Import Daemon DaemonRun RealmVm AppStorage RealmTable RealmLayout WholeDaemon.

Section realms.
Context {W Fd P G DFd Snd Rx L T Handle Task Child Pipe LogTask : Type}.
Context `{!FileApi W Fd, !Yaml ApplicationConfig, !Yaml RealmConfig, !UuidApi}.
Context `{!DiskApi W P G DFd, !UnixSocketApi W L}.
Context `{!IpNetApi, !IpTablesApi W T, !NetlinkApi W Handle Task}.
Context `{!ProcessApi W Child Pipe LogTask, !RealmSender W Snd, !RealmConnector W Snd Rx, !Runtime W}.
Context `{!Debug RealmSenderError, !Debug ProtocolError, !Debug Response, !ExitStatusFmt}.

Abbreviation Dhcp := (DnsmasqServerHandler (Child := Child)).
Abbreviation NM := (NetworkManagerHandler Dhcp).
Abbreviation Vm := (VmRunner Runner Child LogTask).
Abbreviation App := (ApplicationManager (FileRepository ApplicationConfig) ApplicationDiskManager).
Abbreviation RM :=
  (RealmManager (FileRepository RealmConfig) App Vm (RealmClientHandler Snd) ApplicationFabric).
Abbreviation DaemonState := (WardenDaemon (RealmManagerFabric Vm) * (Arcs RM * (NM * W)))%type.

(** The fabric of the command line, one entry per realm, and an invariant of
    every realm. *)
Definition consistent (cli : Cli) (Q : Uuid → RM → Prop) (s : DaemonState) : Prop :=
  refs_ok [] s ∧ WardenDaemon.realm_fabric s.1 = realm_fabric cli ∧ table_inj s ∧ realms_inv Q s.

Lemma daemon_consistent cli w d w1 x Q :
  RealmInvariant (W := NM * W) Q → CreatorInvariant (W := NM * W) (realm_fabric cli) Q →
  build (Snd := Snd) (LogTask := LogTask) cli w = (Ok d, w1) →
  rtc (daemon_step world_lens command_completes) (run (built d w1)) x →
  consistent cli Q (shared (usock x)).
Proof.
  intros HQ Hcr Hb Hrun.
  apply (daemon_invariant world_lens command_completes (consistent cli Q) _ _) in Hrun; [done|..].
  - intros q s s' -> (Hok&Hf&Hinj&Hinv). unfold consistent. rewrite handle_command_fabric.
    split_and!; [|done|..].
    + destruct (ClientHandler.handle_command q s) as [r s'] eqn:Hq.
      by apply (handle_command_balanced _ _ _ _ _ Hq).
    + by eapply handle_command_table_inj.
    + eapply handle_command_inv; [done..|by rewrite Hf|done].
  - intros s Hs. unfold zoom. simpl. by destruct (shutdown_nat s.2.2).
  - simpl. pose proof (build_refs _ _ _ _ Hb) as Hok. apply build_warden in Hb as (s1&s2&Hw).
    destruct (warden d) as [wd arcs] eqn:Hwd.
    destruct (create_warden_consistent (realm_fabric cli) Q _ _ _ _ Hw) as (Hf&Hinj&Hinv).
    unfold consistent, built. rewrite Hwd. done.
Qed.

(** A state the daemon can be in: it is built from the command line, and then serves
    any number of clients, whatever commands they send. *)
Definition daemon_reaches (cli : Cli) (w : W) (s : DaemonState) : Prop :=
  ∃ d w1 x, build (Snd := Snd) (LogTask := LogTask) cli w = (Ok d, w1) ∧
    rtc (daemon_step world_lens command_completes) (run (built d w1)) x ∧
    s = shared (usock x).

Lemma reached_consistent cli w s Q :
  daemon_reaches cli w s →
  RealmInvariant (W := NM * W) Q → CreatorInvariant (W := NM * W) (realm_fabric cli) Q →
  consistent cli Q s.
Proof. intros (d&w1&x&Hb&Hrun&->) HQ Hcr. by eapply daemon_consistent. Qed.

(** C2.  Over the whole life of the daemon, from the realms it loads at its start to
    its exit and whatever its clients ask for: every realm in its table that is
    [Provisioning], [Running] or [NeedReboot] holds a launched virtual machine. *)
Theorem live_realms_have_machines cli w s u m :
  daemon_reaches cli w s → realm_at s u = Some m → rm_state m ≠ Halted →
  launched (rm_vm_manager m) = true.
Proof.
  intros Hs Hm. revert u m Hm.
  by apply (reached_consistent cli w s (λ _ m, rm_state m ≠ Halted → vm_up m = true)
    Hs _ (fabric_halted _)).
Qed.

(** C5.  Realms are isolated from each other: at every moment of the daemon's life, a
    command that creates a realm or names one leaves every other realm (its state,
    applications, configuration, virtual machine and connection) exactly as it is. *)
Theorem commands_isolate_realms cli w s command u m :
  daemon_reaches cli w s →
  command ≠ ListRealms → realm_named command ≠ Some u → realm_at s u = Some m →
  realm_at (ClientHandler.handle_command command s).2 u = Some m.
Proof.
  intros Hs Hl Hn. apply handle_command_others; [|done..].
  by apply (reached_consistent cli w s (λ _ m, rm_state m ≠ Halted → vm_up m = true)
    Hs _ (fabric_halted _)).
Qed.

(** The command runner of a realm. *)
Definition runner_of (cli : Cli) (config : RealmConfig) : Runner :=
  if lkvm_runner cli then
    let runner := Lkvm.new (virtualizer_path cli) config in
    LkvmRunner (if cca_enable cli then Lkvm.configure_cca_settings runner else runner)
  else QemuRunner (Qemu.new (virtualizer_path cli) config).

Lemma vm_creator_eq cli p u config (m : Vm) :
  vm_creator cli p u config = Ok m → m = VmRunner.new (runner_of cli config) u p.
Proof. intros [= <-]. unfold runner_of. by destruct (lkvm_runner cli), (cca_enable cli). Qed.

(** C36.  Whatever clients have done, a realm of the daemon is started with the
    command of its own configuration, followed by the disk files of exactly its own
    applications, and everything of the realm is kept below its own directory:
    its configuration, and one directory per application with the application's
    configuration and disk. *)
Theorem machines_run_their_realm cli w s u m :
  daemon_reaches cli w s → realm_at s u = Some m →
  let runner := runner_of cli (data (rm_config m)) in
  let dir := create_workdir_path_with_uuid (cli_warden_workdir_path cli) u in
  prepare_run_command (rm_vm_manager m) (app_keys m) =
    mkCommand (program (get_command runner)) (args (get_command runner) ++ concat
      ((λ a : App, disk_args runner (file_path (am_application_disk a))) <$>
       (map_to_list (rm_applications m)).*2)) ∧
  path (rm_config m) = create_config_path dir ∧
  ∀ k a, rm_applications m !! k = Some a →
    am_uuid a = k ∧
    path (am_config a) = create_config_path (create_workdir_path_with_uuid dir k) ∧
    file_path (am_application_disk a) = path_push (create_workdir_path_with_uuid dir k) DISK_NAME.
Proof.
  intros Hs Hm.
  apply (reached_consistent cli w s (realm_layout (runner_of cli) (cli_warden_workdir_path cli)))
    in Hs as (_&_&_&Hinv);
    [|apply _|exact (fabric_layout (runner_of cli) (Daemon.realm_fabric cli) (vm_creator_eq cli))].
  apply Hinv in Hm. split; [by apply layout_command in Hm|].
  destruct Hm as (_&(Hp&_)&Happs). split; [exact Hp|]. intros k a Ha. by apply Happs.
Qed.

End realms.
