(* ===== verification/SimHost.v ===== *)
(** * A concrete host

    One executable environment for the warden daemon: files, partition tables,
    processes, a realm at the other end of the vsocket.  It instantiates every
    interface the daemon's model is parametrised by, proves the laws assumed of
    them, and so lets the whole daemon be run inside Rocq ([Scenarios]). *)

From S2P Require Import Prelude Managers Traits WardenRealm Storage ApplicationDisk.
From S2P Require Import VmRunner RealmClientHandler Fabric AppStorage.
From stdpp Require Import countable.

(** ** Texts for serialised values *)

Fixpoint bits (p : positive) : string :=
  match p with
  | xH => EmptyString
  | xO p => String "0" (bits p)
  | xI p => String "1" (bits p)
  end.

Fixpoint unbits (s : string) : positive :=
  match s with
  | EmptyString => xH
  | String c s => if bool_decide (c = "1"%char) then xI (unbits s) else xO (unbits s)
  end.

Lemma unbits_bits p : unbits (bits p) = p.
Proof. induction p as [p IH|p IH|]; simpl; by rewrite ?IH. Qed.

Definition countable_yaml (D : Type) `{Countable D} : Yaml D := {|
  yaml_to_string d := Ok (bits (encode d));
  yaml_from_str s := match decode (unbits s) with Some d => Ok d | None => Err "bad yaml" end |}.

#[global] Instance countable_yaml_laws (D : Type) `{Countable D} : @YamlLaws D (countable_yaml D).
Proof. split. intros d t [= <-]. simpl. by rewrite unbits_bits, decode_encode. Qed.

#[global] Instance ApplicationConfig_countable : Countable ApplicationConfig.
Proof.
  refine (inj_countable' (λ c, (name c, version c, image_registry c,
      image_storage_size_mb c, data_storage_size_mb c))
    (λ '(a, b, c, d, e), mkApplicationConfig a b c d e) _).
  by intros [].
Defined.

#[global] Instance RealmConfig_eq_dec : EqDecision RealmConfig.
Proof. repeat intros []; unfold Decision; repeat decide equality. Defined.

Definition network_tuple (n : NetworkConfig) :=
  (vsock_cid n, tap_device n, mac_address n, hardware_device n, remote_terminal_uri n).
Definition kernel_tuple (k : KernelConfig) :=
  (kernel_path k, kernel_initramfs_path k, kernel_cmd_params k).

#[global] Instance RealmConfig_countable : Countable RealmConfig.
Proof.
  refine (inj_countable' (λ c, (machine c, cpu (cpu_config c), cores_number (cpu_config c),
      ram_size (memory_config c), network_tuple (network_config c),
      kernel_tuple (kernel_config c), metadata c))
    (λ '(m, c, n, r, (cid, tap, mac, hw, uri), (kp, ki, kc), md),
      mkRealmConfig m (mkCpuConfig c n) (mkMemoryConfig r) (mkNetworkConfig cid tap mac hw uri)
        (mkKernelConfig kp ki kc) md) _).
  by intros [? [] [] [] [] ?].
Defined.

#[global] Instance host_app_yaml : Yaml ApplicationConfig := countable_yaml _.
#[global] Instance host_realm_yaml : Yaml RealmConfig := countable_yaml _.

#[global] Instance host_uuid : UuidApi := {|
  uuid_to_string u := String "u" (bits (N.succ_pos u));
  uuid_from_str s :=
    match s with String _ s => Ok (Pos.pred_N (unbits s)) | EmptyString => Err "no uuid" end |}.

Lemma bits_no_slash p : has_char slash (bits p) = false.
Proof. by induction p; simpl. Qed.

#[global] Instance host_uuid_laws : UuidLaws.
Proof.
  split; intros u; simpl.
  - by rewrite unbits_bits, N.pos_pred_succ.
  - apply bits_no_slash.
  - done.
Qed.

#[global] Instance host_exit_status : ExitStatusFmt := λ z, "exit status: " +:+ pretty z.
#[global] Instance host_debug (A : Type) : Debug A := λ _, "debug".

(** ** The host *)

Record Part := mkPart { p_name : string; p_guid : Uuid; p_bytes : Z }.

Record Host := mkHost {
  files : gmap string string;
  tables : gmap string (list Part);
  folders : gset string;
  next_uuid : N;
  realm_answers : bool;   (* the realm connects in time *)
  guest_wipes : bool;     (* the guest overwrites its partition tables at boot *)
  last_request : option Request }.

Definition set_files f h :=
  mkHost f (tables h) (folders h) (next_uuid h) (realm_answers h) (guest_wipes h) (last_request h).
Definition set_tables t h :=
  mkHost (files h) t (folders h) (next_uuid h) (realm_answers h) (guest_wipes h) (last_request h).
Definition set_folders d h :=
  mkHost (files h) (tables h) d (next_uuid h) (realm_answers h) (guest_wipes h) (last_request h).
Definition set_next n h :=
  mkHost (files h) (tables h) (folders h) n (realm_answers h) (guest_wipes h) (last_request h).
Definition set_last r h :=
  mkHost (files h) (tables h) (folders h) (next_uuid h) (realm_answers h) (guest_wipes h) r.

Definition empty_host : Host := mkHost ∅ ∅ ∅ 1000 true false None.
Definition no_file : IoError := mkIoError OtherKind "No such file or directory".

(** The directory a path is in, and its name there. *)
Fixpoint parent (p : PathBuf) : PathBuf :=
  match p with
  | EmptyString => EmptyString
  | String c p => if has_char slash p then String c (parent p) else EmptyString
  end.
Fixpoint entry (p : PathBuf) : string :=
  match p with
  | EmptyString => EmptyString
  | String c p' =>
      if has_char slash p' then entry p' else if bool_decide (c = slash) then p' else p
  end.
Definition children (p : PathBuf) (ps : gset string) : gset string :=
  set_map entry (filter (λ q, parent q = p) ps).
Definition below (p q : PathBuf) : bool := String.prefix (p +:+ "/") q.

Definition make_dir (p : PathBuf) (h : Host) : Host := set_folders ({[p]} ∪ folders h) h.

(** There is no room for a new directory: something has its name or is below it. *)
Definition occupied (p : PathBuf) (h : Host) : Prop :=
  p = "" ∨ p ∈ folders h ∨ set_Exists (λ q, below p q = true) (folders h ∪ dom (files h)).
#[global] Instance occupied_decision p h : Decision (occupied p h) := _.

(** Files: a descriptor is the path. *)
#[global] Instance host_files : FileApi Host string := {|
  file_create p := λ h, (Ok p, set_files (<[p := ""]> (files h)) h);
  Storage.file_write_all p t := λ h,
    (Ok tt, set_files (<[p := default "" (files h !! p) +:+ t]> (files h)) h);
  file_flush p := λ h, (Ok tt, h);
  file_open p := λ h, (if bool_decide (is_Some (files h !! p)) then Ok p else Err no_file, h);
  file_read_to_string p := λ h, (ok_or (files h !! p) no_file, h);
  create_dir p := λ h,
    if bool_decide (occupied p h) then (Err (io_error_other "File exists"), h)
    else (Ok tt, make_dir p h);
  create_dir_all p := λ h, (Ok tt, if bool_decide (p ∈ folders h) then h else make_dir p h);
  remove_dir_all p := λ h,
    (Ok tt, set_folders (filter (λ q, q ≠ p ∧ below p q = false) (folders h))
      (set_files (filter (λ e, below p e.1 = false) (files h)) h));
  dir_entries p := λ h,
    (Ok (((λ n, (n, Some true)) <$> elements (children p (folders h))) ++
         ((λ n, (n, Some false)) <$> elements (children p (dom (files h))))), h) |}.

#[global] Instance host_files_laws : FileApiLaws Host string.
Proof.
  refine {| file_text := λ h p, files h !! p |}.
  - simpl. intros p t fd w w1 w2 w3 ? ? ?. simplify_eq. simpl.
    by rewrite !lookup_insert_eq.
  - simpl. intros p t w Ht. exists p, w, w. rewrite bool_decide_true by (by rewrite Ht; eauto).
    by rewrite Ht.
Defined.

(** Partition tables: a table being built is its path and its partitions. *)
#[global] Instance host_disks : DiskApi Host Part (string * list Part) string := {|
  partition_name := p_name;
  part_guid := p_guid;
  bytes_len p _ := Ok (p_bytes p);
  gpt_open_read_only p := λ h, (ok_or (tables h !! p) "no disk", h);
  file_create_truncate p := λ h, (Ok p, h);
  file_seek _ _ := λ h, (Ok tt, h);
  ApplicationDisk.file_write_all _ _ := λ h, (Ok tt, h);
  file_sync_all _ := λ h, (Ok tt, h);
  file_shutdown _ := λ h, (Ok tt, h);
  mbr_overwrite_lba0 _ _ := λ h, (Ok tt, h);
  gpt_create_from_device p _ := λ h, (Ok (p, []), h);
  gpt_update_partitions ps := λ s, (Ok tt, ((s.1.1, ps), s.2));
  gpt_add_partition n b := λ s,
    (Ok tt, ((s.1.1, s.1.2 ++ [mkPart n (next_uuid s.2) b]), set_next (next_uuid s.2 + 1) s.2));
  gpt_write := λ s, (Ok tt, (s.1, set_tables (<[s.1.1 := s.1.2]> (tables s.2)) s.2)) |}.

#[global] Instance host_disks_laws : DiskApiLaws Host Part (string * list Part) string.
Proof. by split. Qed.

#[global] Instance host_subdirs : Subdirectories (W := Host) := λ h d,
  if bool_decide (d ∈ folders h) then Some (elements (children d (folders h))) else None.

Lemma parent_join d n : has_char slash n = false → parent (d +:+ "/" +:+ n) = d.
Proof.
  intros Hn. assert (∀ m : string, has_char slash (m +:+ "/" +:+ n) = true) as Hs.
  { intros m. rewrite has_char_app. simpl. apply orb_true_r. }
  induction d as [|c d IH]; [change (parent (String slash n) = ""); simpl; by rewrite Hn|].
  change (parent (String c (d +:+ "/" +:+ n)) = String c d). simpl. rewrite Hs. by f_equal.
Qed.

Lemma entry_join d n : n ≠ "" → has_char slash n = false → entry (d +:+ "/" +:+ n) = n.
Proof.
  intros Hne Hn. induction d as [|c d IH].
  - change (entry (String slash n) = n). simpl. by rewrite Hn.
  - change (entry (String c (d +:+ "/" +:+ n)) = n). simpl. rewrite has_char_app. simpl.
    by rewrite orb_true_r.
Qed.

Lemma join_parent q : parent q ≠ "" → q = parent q +:+ "/" +:+ entry q.
Proof.
  induction q as [|c q IH]; [done|]. simpl. destruct (has_char slash q) eqn:Hc; [|done]. intros _.
  destruct (decide (parent q = "")) as [Hp|Hp]; [|exact (f_equal (String c) (IH Hp))].
  rewrite Hp. change (String c q = String c (String slash (entry q))). f_equal.
  destruct q as [|c' q]; [done|]. simpl in *. destruct (has_char slash q); [done|].
  by case_bool_decide; subst.
Qed.

Lemma length_append (a b : string) :
  String.length (a +:+ b) = String.length a + String.length b.
Proof. induction a as [|c a IH]; [done|]. exact (f_equal Datatypes.S IH). Qed.

Lemma parent_shorter q : q ≠ "" → String.length (parent q) < String.length q.
Proof.
  induction q as [|c q IH]; [done|]. intros _. simpl. destruct (has_char slash q) eqn:Hc; simpl; [|lia].
  assert (q ≠ "") as Hq by by intros ->. apply IH in Hq. lia.
Qed.

Lemma dirs_of (l l' : list string) :
  (filter (λ e : string * option bool, e.2 = Some true)
    (((λ n, (n, Some true)) <$> l) ++ ((λ n, (n, Some false)) <$> l'))).*1 = l.
Proof.
  induction l as [|n l IH]; simpl.
  - by induction l'.
  - exact (f_equal (cons n) IH).
Qed.

Lemma entry_no_slash q : has_char slash (entry q) = false.
Proof.
  induction q as [|c q IH]; [done|]. simpl. destruct (has_char slash q) eqn:Hq; [done|].
  case_bool_decide as Hc; [done|]. simpl. rewrite Hq, orb_false_r. by apply bool_decide_eq_false.
Qed.

Lemma prefix_app (a b : string) : String.prefix a (a +:+ b) = true.
Proof. induction a as [|c a IH]; [by destruct b|]. simpl. by destruct (ascii_dec c c). Qed.

Lemma below_join p n : below p (p +:+ "/" +:+ n) = true.
Proof. unfold below. rewrite <-append_assoc. apply prefix_app. Qed.

(** The children of the directories of a host, when a directory is made: that one has
    none, the one it is in has one more, all others have the same. *)
Lemma elem_of_children d (X : gset string) n :
  n ∈ children d X ↔ ∃ q, q ∈ X ∧ parent q = d ∧ n = entry q.
Proof. unfold children. set_solver. Qed.

Lemma children_new p h : ¬ occupied p h → children p ({[p]} ∪ folders h) = ∅.
Proof.
  intros Hno. unfold occupied in Hno. assert (p ≠ "") as Hp by tauto.
  apply set_eq. intros n. rewrite elem_of_children. split; [|set_solver].
  intros (q&[->%elem_of_singleton|Hq]%elem_of_union&Hpq&_).
  - apply parent_shorter in Hp. rewrite Hpq in Hp. lia.
  - destruct Hno. right. right. exists q. split; [set_solver|].
    rewrite (join_parent q) by congruence. rewrite Hpq. apply below_join.
Qed.

Lemma children_entry d n (X : gset string) :
  n ≠ "" → has_char slash n = false → children d ({[d +:+ "/" +:+ n]} ∪ X) = {[n]} ∪ children d X.
Proof.
  intros Hn Hs. apply set_eq. intros n'. rewrite elem_of_union, !elem_of_children, elem_of_singleton.
  split.
  - intros (q&[->%elem_of_singleton|Hq]%elem_of_union&Hp&->); [left; by apply entry_join|].
    right. by exists q.
  - intros [->|(q&Hq&Hp&->)]; [|exists q; set_solver].
    exists (d +:+ "/" +:+ n). rewrite parent_join, entry_join by done. set_solver.
Qed.

Lemma children_other d p (X : gset string) : parent p ≠ d → children d ({[p]} ∪ X) = children d X.
Proof. intros Hp. apply set_eq. intros n. rewrite !elem_of_children. set_solver. Qed.

Lemma below_inv p q : below p q = true → ∃ n, q = p +:+ "/" +:+ n.
Proof.
  unfold below. intros Hq. cut (∃ n, q = (p +:+ "/") +:+ n).
  { intros [n ->]. exists n. apply append_assoc. }
  revert q Hq. generalize (p +:+ "/"). intros a. induction a as [|c a IH]; intros q Hq; [by exists q|].
  destruct q as [|c' q]; [done|]. simpl in Hq. destruct (ascii_dec c c') as [<-|]; [|done].
  destruct (IH q Hq) as [n ->]. by exists n.
Qed.

(** The children, when a directory is removed. *)
Definition remaining (p : PathBuf) (X : gset string) : gset string :=
  filter (λ q, q ≠ p ∧ below p q = false) X.

Lemma below_parent p q : below p q = true → parent q = p ∨ below p (parent q) = true.
Proof.
  intros [n ->]%below_inv. destruct (has_char slash n) eqn:Hn; [|left; by apply parent_join].
  right. cut (parent (p +:+ "/" +:+ n) = p +:+ "/" +:+ parent n); [intros ->; apply below_join|].
  assert (∀ m : string, has_char slash (m +:+ n) = true) as Hs.
  { intros m. rewrite has_char_app, Hn. apply orb_true_r. }
  induction p as [|c p IH]; [change (parent (String slash n) = String slash (parent n)); simpl; by rewrite Hn|].
  change (parent (String c (p +:+ "/" +:+ n)) = String c (p +:+ "/" +:+ parent n)). simpl.
  rewrite <-append_assoc, Hs, append_assoc. by f_equal.
Qed.

Lemma children_removed p d (X : gset string) :
  d ≠ "" → d ≠ p → below p d = false →
  children d (remaining p X) = if bool_decide (parent p = d) then children d X ∖ {[entry p]} else children d X.
Proof.
  intros Hne Hd Hb. apply set_eq. intros n.
  assert (n ∈ children d (remaining p X) ↔ n ∈ children d X ∧ ¬ (parent p = d ∧ n = entry p)) as ->.
  { rewrite !elem_of_children. unfold remaining. split.
    - intros (q&[[Hqp _] Hq]%elem_of_filter&Hpq&->). split; [by exists q|]. intros [Hp He]. apply Hqp.
      rewrite (join_parent q), (join_parent p) by congruence. congruence.
    - intros [(q&Hq&Hpq&->) Hno]. exists q. split; [|done]. apply elem_of_filter. split; [|done]. split.
      + intros ->. by apply Hno.
      + apply not_true_iff_false. intros [Hp|Hp]%below_parent; congruence. }
  case_bool_decide; set_solver.
Qed.

#[global] Instance host_storage_frame :
  StorageFrame (W := Host) (Fd := string) (P := Part) (G := string * list Part) (DFd := string).
Proof.
  refine {| file_fd_path := λ p, p; fd_path := λ p, p; gpt_path := fst |};
    try (intros; intros ?; simpl; split; [|done]; intros q Hq; split; simpl; by rewrite ?lookup_insert_ne);
    unfold subdirs, host_subdirs, make_dir; simpl; intros; simplify_eq/=.
  - by rewrite bool_decide_false by (by rewrite H; intros []).
  - case_bool_decide; [|done]. simplify_eq. eexists. split; [done|]. by rewrite dirs_of.
  - by case_bool_decide; simplify_eq.
  - case_bool_decide as Hp; simplify_eq; [done|]. simpl.
    assert (parent p ≠ d) as Hpar.
    { intros <-. destruct (H2 (entry p) (entry_no_slash p)). by apply join_parent. }
    rewrite children_other by done.
    by rewrite (bool_decide_ext (d ∈ {[p]} ∪ folders w) (d ∈ folders w)) by set_solver.
  - case_bool_decide as Hp; simplify_eq. simpl. rewrite bool_decide_true by set_solver.
    split; [by rewrite children_new, elements_empty|]. intros n. apply eq_None_not_Some. intros [t Ht].
    destruct Hp. right. right. exists (d +:+ "/" +:+ n). split; [|apply below_join].
    apply elem_of_union. right. by eapply elem_of_dom_2.
  - case_bool_decide as Hp; simplify_eq. simpl. case_bool_decide as Hd; simplify_eq.
    rewrite bool_decide_true by set_solver. unfold make_dir, set_folders. simpl folders.
    rewrite (children_entry d n (folders w)) by done.
    assert (n ∉ children d (folders w)) as Hn.
    { intros (q&Hq&Hpq&->)%elem_of_children. destruct Hd. right. left.
      rewrite <-Hpq, <-join_parent by congruence. done. }
    split; [by rewrite elem_of_elements|]. eexists. split; [done|]. by apply elements_union_singleton.
  - split; simpl; [|done]. rewrite map_lookup_filter. destruct (files w !! q) as [t|]; [|done]. simpl.
    rewrite option_guard_True; [done|]. apply not_true_iff_false. intros (n&Hn)%below_inv. by apply (H0 n).
  - destruct (below p d) eqn:Hb; [by apply below_inv in Hb as [n Hn]; destruct (H2 n)|].
    fold (remaining p (folders w)). rewrite children_removed by done. rewrite (bool_decide_false (parent p = d)).
    + rewrite (bool_decide_ext (d ∈ remaining p (folders w)) (d ∈ folders w)); [done|].
      unfold remaining. rewrite elem_of_filter. tauto.
    + intros <-. destruct (H3 (entry p) (entry_no_slash p)). by apply join_parent.
  - case_bool_decide as Hd; simplify_eq. set (p := d +:+ "/" +:+ n).
    assert (String.length d < String.length p) as Hlen by (unfold p; rewrite !length_append; simpl; lia).
    assert (below p d = false) as Hb.
    { apply not_true_iff_false. intros [m Hm]%below_inv. rewrite Hm, !length_append in Hlen. lia. }
    assert (d ≠ p) as Hdp by (intros Heq; rewrite <-Heq in Hlen; lia).
    assert (children d (remaining p (folders w)) = children d (folders w) ∖ {[n]}) as Hrem.
    { rewrite children_removed by done. unfold p. by rewrite parent_join, entry_join, bool_decide_true. }
    fold (remaining p (folders w)). rewrite Hrem.
    rewrite bool_decide_true by (unfold remaining; rewrite elem_of_filter; done).
    eexists. split; [done|]. rewrite <-elements_union_singleton by set_solver.
    by rewrite <-union_difference_singleton_L by (by apply elem_of_elements).
  - done.
  - done.
  - done.
  - done.
  - done.
  - intros s. split; [done|]. split; [|done]. intros q Hq. split; [done|]. simpl.
    by rewrite lookup_insert_ne.
Defined.

#[global] Instance host_network : NetworkManager Host := {|
  create_tap_device_for_realm _ _ := λ h, (Ok tt, h);
  shutdown_tap_device_for_realm _ := λ h, (Ok tt, h) |}.

(** Tasks complete in the opposite order and none is lost. *)
#[global] Instance host_runtime : Runtime Host := {|
  completion_order _ l := reverse l;
  task_panic _ _ := None;
  task_ran _ _ := true;
  new_v4 h := (next_uuid h, set_next (next_uuid h + 1) h) |}.
#[global] Instance host_runtime_laws : RuntimeLaws Host.
Proof. split. intros. apply reverse_Permutation. Qed.

(** Processes: a child is whether its pipes are still there; it runs until it is
    killed. *)
#[global] Instance host_processes : ProcessApi Host bool unit unit := {|
  process_spawn _ := λ h, (Ok true, if guest_wipes h then set_tables ∅ h else h);
  child_try_wait := λ s, (Ok None, s);
  child_kill := λ s, (Ok tt, s);
  child_wait := λ s, (Ok 0%Z, s);
  child_take_stdout c := (Some tt, c);
  child_take_stderr c := (Some tt, c);
  spawn_log_thread _ _ _ h := (tt, h);
  log_thread_abort _ h := h |}.

(** A realm that does what it is asked; its address is 192.168.100.2. *)
Definition realm_reply (r : Request) : result Response RealmSenderError :=
  match r with
  | GetAttestationToken challenge => Ok (AttestationToken challenge)
  | GetIfAddrs => Ok (IfAddrs {["eth0" := mkNetAddr (V4 0xc0a86402) None None]})
  | Shutdown | Reboot => Err Disconnection
  | _ => Ok Success
  end.

#[global] Instance host_sender : RealmSender Host unit := {|
  sender_send r := λ s, (Ok tt, (s.1, set_last (Some r) s.2));
  receive_response _ := λ s,
    (match last_request s.2 with Some r => realm_reply r | None => Err Disconnection end, s) |}.

#[global] Instance host_connector : RealmConnector Host unit unit := {|
  connector_acquire_realm_sender _ h := (tt, h);
  wait_for_sender _ _ h := (if realm_answers h then Connected tt else Elapsed, h) |}.
