(* ===== verification/Scenarios.v ===== *)
(** * Runs of the daemon on the concrete host

    The whole daemon on [SimHost]: file repositories, application managers with
    their disks, the VM runner and the realm client.  Each lemma runs one of the
    theorems about the daemon on a concrete state in which its hypotheses hold. *)

From S2P Require Import Prelude WardenClient WardenRealm Managers Traits RealmManager.
From S2P Require Import ApplicationDisk ApplicationManager VmRunner JsonFramed ClientHelper.
From S2P Require Import RealmClientHandler RealmVm Arc WardenDaemon WardenTasks ClientHandler.
From S2P Require Import ClientLib ClientDaemon VSockServer Storage Fabric AppStorage SimHost.

Definition demo_config : RealmConfig :=
  mkRealmConfig "virt" (mkCpuConfig "max" 2) (mkMemoryConfig 512)
    (mkNetworkConfig 12 "tap100" "52:55:00:d1:55:01" None None)
    (mkKernelConfig "/boot/Image" (Some "/boot/initramfs") None) None.
Definition demo_app : ApplicationConfig := mkApplicationConfig "app" "1.0" "registry" 4 8.

Abbreviation HostVm := (VmRunner Runner bool unit).
Abbreviation HostApp := (ApplicationManager (FileRepository ApplicationConfig) ApplicationDiskManager).
Abbreviation HostClient := (RealmClientHandler unit).
Abbreviation HostRealm :=
  (RealmManager (FileRepository RealmConfig) HostApp HostVm HostClient ApplicationFabric).
Abbreviation HostFabric := (RealmManagerFabric HostVm).

Definition demo_runner (config : RealmConfig) : Runner := LkvmRunner (Lkvm.new "lkvm" config).

Definition demo_fabric : HostFabric :=
  mkRealmManagerFabric (λ dir id config, Ok (VmRunner.new (demo_runner config) id dir)) "/warden" 60 10.

Definition demo_realm : HostRealm :=
  RealmManager.new (mkFileRepository demo_config "/warden/realm/config.yaml") ∅
    (VmRunner.new (demo_runner demo_config) 7 "/warden/realm") (new_client demo_fabric)
    (mkApplicationFabric "/warden/realm").

Definition halted_realm : HostRealm * Host := (demo_realm, empty_host).
(** A halted realm with one application. *)
Definition realm_with_app : HostRealm * Host := (run_op (OpCreateApplication demo_app) halted_realm).2.
Definition started_realm : HostRealm * Host := (RealmManager.start realm_with_app).2.

Lemma started_ok : RealmManager.start realm_with_app = (Ok tt, started_realm).
Proof. refine (run_ok (RealmManager.start realm_with_app) _). vm_compute. reflexivity. Qed.

Lemma refused_without_effect_witness :
  ∃ msg, run_op OpStop halted_realm = (Err (UnsupportedAction msg), halted_realm).
Proof. apply (refused_without_effect OpStop halted_realm). reflexivity. Defined.

Lemma start_configures_every_disk_witness :
  dom (rm_applications started_realm.1) = dom (rm_applications realm_with_app.1).
Proof. apply (start_configures_every_disk realm_with_app started_realm). exact started_ok. Defined.

(** ** Life cycle *)

(** The guest destroys its partition tables as soon as it boots. *)
Definition wiping_realm : HostRealm * Host :=
  (realm_with_app.1, mkHost (files realm_with_app.2) (tables realm_with_app.2) ∅ 2000 true true None).
Definition wiping_prepared := (prepare_applications wiping_realm).2.
Definition wiping_launched :=
  (zoom vm_lens (Traits.launch_vm (app_keys wiping_prepared.1)) wiping_prepared).2.
Definition wiping_config :=
  create_provisioning_config (set_state Provisioning wiping_launched.1, wiping_launched.2).
Definition wiping_error : RealmError := match wiping_config.1 with Err e => e | _ => VmStopFail "" end.

Lemma start_strands_in_provisioning_witness :
  RealmManager.start wiping_realm = (Err wiping_error, wiping_config.2).
Proof.
  apply (start_strands_in_provisioning wiping_realm wiping_prepared wiping_launched
    wiping_config.2 wiping_error).
  - vm_compute. reflexivity.
  - refine (run_ok (prepare_applications wiping_realm) _). vm_compute. reflexivity.
  - refine (run_ok (zoom vm_lens (Traits.launch_vm (app_keys wiping_prepared.1)) wiping_prepared) _).
    vm_compute. reflexivity.
  - refine (run_err wiping_config _ _). vm_compute. reflexivity.
Defined.

(** ** Disks *)

Definition demo_disk : ApplicationDiskManager :=
  mkApplicationDiskManager "/warden/realm/app/disk.raw" (4 * 2 ^ 20) (8 * 2 ^ 20).
Definition disk_host : Host := (create_disk_with_partitions demo_disk empty_host).2.

Lemma disk_created : create_disk_with_partitions demo_disk empty_host = (Ok tt, disk_host).
Proof. refine (run_ok (create_disk_with_partitions demo_disk empty_host) _). vm_compute. reflexivity. Qed.

Lemma created_disk_is_usable_witness :
  ∃ img dat, bytes_len img LBA_SIZE = Ok (4 * 2 ^ 20)%Z ∧ bytes_len dat LBA_SIZE = Ok (8 * 2 ^ 20)%Z ∧
    get_image_partition_uuid demo_disk disk_host = (Ok (part_guid img), disk_host) ∧
    get_data_partition_uuid demo_disk disk_host = (Ok (part_guid dat), disk_host).
Proof. apply (created_disk_is_usable demo_disk empty_host disk_host). exact disk_created. Defined.

Lemma create_disk_idempotent_witness :
  create_disk_with_partitions demo_disk disk_host = (Ok tt, disk_host).
Proof. apply (create_disk_idempotent demo_disk empty_host). exact disk_created. Defined.

Definition resized := update_disk_with_partitions 16 4 (demo_disk, disk_host).

Lemma updated_disk_has_new_sizes_witness :
  validate_and_convert_to_bytes 16 = Ok (data_part_bytes_size resized.2.1).
Proof.
  apply (updated_disk_has_new_sizes 16 4 demo_disk disk_host resized.2.1 resized.2.2).
  transitivity (Ok tt : result unit Managers.ApplicationError, resized.2);
    [|by destruct resized as [? []]].
  refine (run_ok resized _). vm_compute. reflexivity.
Defined.

Lemma disk_sizes_in_bounds_witness : is_u64 (calculate_total_size demo_disk).
Proof.
  apply (disk_sizes_in_bounds "/warden/realm/app" 4 8 demo_disk); [by split..|reflexivity].
Defined.

(** ** Applications *)

Definition demo_fab : ApplicationFabric := mkApplicationFabric "/warden/realm".
Definition demo_path : PathBuf := create_workdir_path_with_uuid "/warden/realm" 3.
Definition demo_manager : HostApp :=
  mkApplicationManager 3 (mkFileRepository demo_app (create_config_path demo_path))
    (mkApplicationDiskManager (path_push demo_path DISK_NAME) (4 * 2 ^ 20) (8 * 2 ^ 20)).
Definition app_host : Host := (create_application demo_fab 3 demo_app empty_host).2.

Lemma app_created : create_application demo_fab 3 demo_app empty_host = (Ok demo_manager, app_host).
Proof. vm_compute. reflexivity. Qed.

Lemma application_survives_restart_witness :
  ∃ w, load_application demo_fab 3 app_host = (Ok demo_manager, w).
Proof. apply (application_survives_restart demo_fab 3 demo_app empty_host). exact app_created. Defined.

(** The application is given a larger data partition before it is started. *)
Definition grown_app : ApplicationConfig := mkApplicationConfig "app" "1.0" "registry" 4 16.
Definition grown_manager : HostApp :=
  mkApplicationManager 3 (mkFileRepository grown_app (create_config_path demo_path))
    (am_application_disk demo_manager).
Definition grown := ApplicationManager.configure_disk (grown_manager, (tt, app_host)).

Lemma configure_disk_provisions_witness :
  validate_and_convert_to_bytes 16 = Ok (data_part_bytes_size (am_application_disk grown.2.1)).
Proof.
  destruct (configure_disk_provisions grown_manager tt app_host grown.2.1 grown.2.2.1 grown.2.2.2)
    as (_&_&_&_&Hd&_); [|exact Hd].
  transitivity (Ok tt : result unit Managers.ApplicationError, grown.2);
    [|by destruct grown as [? [? []]]].
  refine (run_ok grown _). vm_compute. reflexivity.
Defined.

Lemma vm_command_has_app_disks_witness :
  prepare_run_command (VmRunner.new (Child := bool) (H := unit) (demo_runner demo_config) 7 "/warden/realm") [3%N] =
  mkCommand "lkvm" (args (Lkvm.new "lkvm" demo_config) ++ ["-d"; path_push demo_path DISK_NAME]).
Proof.
  refine (vm_command_has_app_disks
    (VmRunner.new (Child := bool) (H := unit) (demo_runner demo_config) 7 "/warden/realm")
    [(3%N, 4%Z, 8%Z, am_application_disk demo_manager)] _).
  repeat constructor.
Defined.

(** ** The virtual machine *)

Lemma live_realm_has_vm_witness : vm_up started_realm.1 = true.
Proof.
  apply (live_realm_has_vm (rm_config demo_realm) ∅ (rm_vm_manager demo_realm)
    (rm_realm_client_handler demo_realm) (rm_application_fabric demo_realm) empty_host).
  - eapply rtc_l; [by apply (call_realm _ (OpCreateApplication demo_app))|].
    eapply rtc_l; [by apply (call_realm _ OpStart)|apply rtc_refl].
  - vm_compute. discriminate.
Defined.

(** A realm that never connects. *)
Definition silent_realm : HostRealm * Host :=
  (realm_with_app.1, mkHost (files realm_with_app.2) (tables realm_with_app.2) ∅ 2000 false false None).
Definition silent_prepared := (prepare_applications silent_realm).2.
Definition silent_launched := (launch silent_prepared).2.
Definition silent_wait :=
  zoom client_lens (Traits.try_connect (cid_of silent_launched.1)) silent_launched.

Lemma token_fetch_timeout_strands_vm_witness :
  (∃ msg, RealmManager.fetch_attestation_token [1%Z] silent_realm =
    (Err (RealmStopFail msg), silent_wait.2)) ∧
  is_err (RealmManager.start (run_op OpGetRealmData silent_wait.2).2).1 = true.
Proof.
  destruct (token_fetch_timeout_strands_vm [1%Z] silent_realm silent_prepared silent_launched
    (RealmConnectionFail "Timeout on listening for realm connection.") silent_wait.2) as [Hf Hstuck].
  - vm_compute. reflexivity.
  - refine (run_ok (prepare_applications silent_realm) _). vm_compute. reflexivity.
  - refine (run_ok (launch silent_prepared) _). vm_compute. reflexivity.
  - vm_compute. reflexivity.
  - refine (run_err silent_wait _ _). vm_compute. reflexivity.
  - split; [exact Hf|]. apply Hstuck.
    eapply rtc_l; [by apply (call_realm _ OpGetRealmData)|apply rtc_refl].
Defined.

Lemma start_then_stop_witness :
  rm_state (RealmManager.stop started_realm).2.1 = Halted ∧
  vm_up (RealmManager.stop started_realm).2.1 = false.
Proof.
  split; apply (start_then_stop realm_with_app started_realm); try exact started_ok;
    refine (run_ok (RealmManager.stop started_realm) _); vm_compute; reflexivity.
Defined.

(** ** The table of realms *)

Abbreviation HostDaemon := (WardenDaemon HostFabric * (Arcs HostRealm * Host))%type.
Definition no_realms : HostDaemon := (WardenDaemon.new ∅ demo_fabric, (∅, empty_host)).
Definition one_realm : HostDaemon := (WardenDaemon.create_realm (Some 7%N) demo_config no_realms).2.

Lemma no_realms_ok : refs_ok [] no_realms.
Proof. intros a. split; [done|]. by intros []. Qed.

Lemma one_realm_ok : refs_ok [] one_realm.
Proof. by eapply (create_realm_run [] (Some 7%N)); [apply surjective_pairing|apply no_realms_ok]. Qed.

Lemma create_realm_never_replaces_witness :
  realms_managers (WardenDaemon.create_realm (Some 7%N) demo_config one_realm).2.1 =
  realms_managers one_realm.1.
Proof.
  pose proof (create_realm_never_replaces [] (Some 7%N) demo_config one_realm one_realm_ok) as Hc.
  revert Hc. destruct (WardenDaemon.create_realm (Some 7%N) demo_config one_realm) as [r s'] eqn:Hr.
  apply (f_equal (λ x, is_ok x.1)) in Hr. vm_compute in Hr. by destruct r as [|[]].
Defined.

Lemma destroy_realm_only_idle_halted_witness :
  realms_managers (WardenDaemon.destroy_realm 7 one_realm).2.1 = ∅.
Proof.
  pose proof (destroy_realm_only_idle_halted [] 7 one_realm one_realm_ok) as Hd.
  revert Hd. destruct (WardenDaemon.destroy_realm 7 one_realm) as [r s'] eqn:Hr.
  apply (f_equal (λ x, is_ok x.1)) in Hr. vm_compute in Hr.
  destruct r as [[]|]; [|done]. intros (a&i&d&_&_&_&_&_&Hm). simpl. rewrite Hm. vm_compute. reflexivity.
Defined.

Definition held_realm : ArcId := (arc_new demo_realm ∅).1.
Definition busy : HostDaemon := (WardenDaemon.get_realm 7 one_realm).2.

(** Two clients: the second one looks up the realm and works on it. *)
Lemma destroy_never_panics_nor_pulls_realm_witness :
  Panicked ∉ [Idle; Holding held_realm].
Proof.
  apply (destroy_never_panics_nor_pulls_realm one_realm [Idle; Idle] busy [Idle; Holding held_realm]).
  - split; [exact one_realm_ok|by repeat constructor].
  - eapply rtc_l; [|apply rtc_refl].
    apply (step_get one_realm [Idle; Idle] 1 7 held_realm busy); [done| |].
    + intros [|[|]] t [= <-]; done.
    + refine (run_val (WardenDaemon.get_realm 7 one_realm) held_realm _). vm_compute. reflexivity.
Defined.

Lemma commands_keep_references_witness : refs_ok [] (handle_command (StartRealm 7) one_realm).2.
Proof. apply (commands_keep_references [] (StartRealm 7) one_realm). exact one_realm_ok. Defined.

Lemma requests_answered_in_order_witness :
  length (run_commands [ListRealms; StopRealm 9; DestroyRealm 7] one_realm).1 = 3.
Proof.
  apply (requests_answered_in_order [] [ListRealms; StopRealm 9; DestroyRealm 7] [] one_realm []).
  exact one_realm_ok.
Defined.

Lemma client_sees_daemon_result_witness :
  ∃ r, call (CallDestroyRealm 7) ([], one_realm) =
    (r, ([], (handle_command (DestroyRealm 7) one_realm).2)).
Proof.
  destruct (client_sees_daemon_result [] (CallDestroyRealm 7) one_realm one_realm_ok) as (r&Hr&_).
  exists r. exact Hr.
Defined.

(** ** Starting the daemon *)

(** The daemon's directory holds one realm, with one application. *)
Definition realm_path : PathBuf := create_workdir_path_with_uuid "/warden" 7.
Definition saved_host : Host :=
  mkHost (<[create_config_path realm_path := bits (encode demo_config)]>
          (<[create_config_path (create_workdir_path_with_uuid realm_path 3) :=
             bits (encode demo_app)]> ∅)) ∅
    {["/warden"; realm_path; create_workdir_path_with_uuid realm_path 3]} 1000 true false None.
Definition loaded := create_warden (Snd := unit) demo_fabric saved_host.

Definition loaded_value := match loaded.1 with Ok x => x | Err _ => (one_realm.1, ∅) end.

Lemma loaded_ok : loaded = (Ok loaded_value, loaded.2).
Proof.
  assert (is_ok loaded.1 = true) as Hok by (vm_compute; reflexivity).
  unfold loaded_value. by destruct loaded as [[] ?].
Qed.

Lemma created_warden_owns_realms_witness : refs_ok [] (loaded_value.1, (loaded_value.2, loaded.2)).
Proof.
  apply (created_warden_owns_realms demo_fabric saved_host).
  rewrite <-surjective_pairing. exact loaded_ok.
Defined.

(** A directory without a configuration. *)
Definition broken_host : Host :=
  mkHost ∅ ∅ {["/warden"; "/warden/" +:+ uuid_to_string 7]} 1000 true false None.

Lemma broken_load : (load_realm (Snd := unit) demo_fabric 7 broken_host).2 = broken_host.
Proof. vm_compute. reflexivity. Qed.

Lemma broken_stays w w' :
  rtc (load_step (Snd := unit) demo_fabric [7%N]) w w' → w = broken_host → w' = broken_host.
Proof.
  induction 1 as [|w1 w2 w3 (u&->%list_elem_of_singleton&->) _ IH]; [done|].
  intros ->. apply IH, broken_load.
Qed.

Lemma unloadable_realm_blocks_daemon_witness :
  is_err (create_warden (Snd := unit) demo_fabric broken_host).1 = true.
Proof.
  apply (unloadable_realm_blocks_daemon demo_fabric broken_host [7%N] broken_host 7).
  - vm_compute. reflexivity.
  - by left.
  - intros w ->%broken_stays; [|done]. vm_compute. reflexivity.
Defined.

(** ** The vsocket server *)

Definition demo_stream : VsockStream := mkVsockStream 12 1.
Definition demo_server : VSockServer := VSockServer.new (mkVSockServerConfig 2 1337).
Definition demo_channel : N := (acquire_realm_sender 12 demo_server).1.

Lemma connections_reach_their_realm_witness : peer_cid demo_stream = 12%Z.
Proof.
  apply (connections_reach_their_realm (mkVSockServerConfig 2 1337) [Acquire 12; Accepted demo_stream]
    demo_channel (mkChannel 12 (Delivered demo_stream))); vm_compute; reflexivity.
Defined.

Lemma late_connection_ends_server_witness :
  (listen [Acquire 12; ReceiverDropped demo_channel; Accepted demo_stream] demo_server).1 =
  Some (Err ChannelFail).
Proof.
  apply (late_connection_ends_server 12 demo_stream [] demo_server). reflexivity.
Defined.
