(* ===== verification/StorageScenarios.v ===== *)
(** * Restarts of the daemon on the concrete host

    A realm with two applications on [SimHost] is written to disk and loaded again;
    requests with sizes that are refused keep the daemon from starting. *)

From S2P Require Import Prelude Managers Traits Storage ApplicationDisk ApplicationManager.
From S2P Require Import RealmClientHandler Fabric AppStorage RealmManager RealmStorage RestartFailures.
From S2P Require Import WardenClient Arc WardenDaemon RealmTable WardenStorage SimHost Scenarios Traits.
From S2P Require Import Managers RealmManager Fabric.

#[global] Instance host_frame : HostFrame (W := Host).
Proof. by split. Qed.

Definition small_app : ApplicationConfig := mkApplicationConfig "small" "0.1" "registry" 1 1.

(** The realm 7 is created in the directory of the daemon, then two applications. *)
Definition warden_host : Host := mkHost ∅ ∅ {["/warden"]} 1000 true false None.
Definition creating := Fabric.create_realm (Snd := unit) demo_fabric 7 demo_config warden_host.
Definition created_realm : HostRealm :=
  match creating.1 with Ok m => m | Err _ => demo_realm end.
Definition filling : result (list Uuid) RealmError * (HostRealm * Host) :=
  create_applications [demo_app; small_app] (created_realm, creating.2).
Definition created_apps : list Uuid := run_value [] filling.

Lemma creating_ok : creating = (Ok created_realm, creating.2).
Proof. vm_compute. reflexivity. Qed.

Lemma filling_ok : filling = (Ok created_apps, (filling.2.1, filling.2.2)).
Proof. vm_compute. reflexivity. Qed.

Lemma realm_survives_restart_witness :
  ∃ w, load_realm (Snd := unit) demo_fabric 7 filling.2.2 =
    (realm_fail NetworkManagerError_to_string (create_tap_device_for_realm "tap100" 7);;
     mret filling.2.1) w.
Proof.
  apply (realm_survives_restart demo_fabric 7 demo_config [demo_app; small_app] warden_host
    created_realm creating.2 created_apps filling.2.1 filling.2.2).
  - exact creating_ok.
  - exact filling_ok.
Defined.

(** The first application is updated to an empty image partition. *)
Definition empty_app : ApplicationConfig := mkApplicationConfig "app" "1.1" "registry" 0 8.
Definition first_app : Uuid := default 0%N (head created_apps).
Definition updating :=
  RealmManager.update_application first_app empty_app (filling.2.1, filling.2.2).

Lemma updating_ok : updating = (Ok tt, (updating.2.1, updating.2.2)).
Proof. vm_compute. reflexivity. Qed.

Lemma bad_sizes_block_daemon_witness :
  is_err (create_warden (Snd := unit) demo_fabric updating.2.2).1 = true.
Proof.
  apply (bad_sizes_block_daemon demo_fabric 7 demo_config [demo_app; small_app] warden_host
    created_realm creating.2 created_apps (filling.2.1, filling.2.2) empty_app
    (updating.2.1, updating.2.2)).
  - split; [discriminate|reflexivity].
  - vm_compute. eauto.
  - exact creating_ok.
  - exact filling_ok.
  - reflexivity.
  - apply (bad_update _ _ _ _ first_app). exact updating_ok.
Defined.

(** The same sizes in a creation, which is refused: before it the daemon can start,
    after it, it cannot. *)
Definition refused_creation := RealmManager.create_application empty_app filling.2.

Lemma refused_creation_blocks_daemon :
  is_err refused_creation.1 = true ∧
  is_ok (create_warden (Snd := unit) demo_fabric filling.2.2).1 = true ∧
  is_err (create_warden (Snd := unit) demo_fabric refused_creation.2.2).1 = true.
Proof. vm_compute. done. Qed.

(** ** Restarts of a daemon in use *)

Definition new_daemon : WardenDaemon HostFabric * (Arcs HostRealm * Host) :=
  (WardenDaemon.new ∅ demo_fabric, (∅, warden_host)).
Definition client_realm (u : Uuid) : WardenClient.RealmConfig :=
  WardenClient.mkRealmConfig (Some u) "virt" (WardenClient.mkCpuConfig "max" 2)
    (WardenClient.mkMemoryConfig 512) (WardenClient.mkNetworkConfig 12 "tap100" "52:55:00:d1:55:01" None None)
    (WardenClient.mkKernelConfig "/boot/Image" None None) None.
Definition client_app : WardenClient.ApplicationConfig :=
  WardenClient.mkApplicationConfig "app" "1.0" "registry" 4 8.
Definition client_app_of (u : Uuid) : WardenCommand := WardenClient.CreateApplication u client_app.

(** A realm with an application, two more realms, a restart, a listing, another
    application, the end of the third realm. *)
Definition used_step (command : WardenCommand) (s : WardenDaemon HostFabric * (Arcs HostRealm * Host)) :=
  (ClientHandler.handle_command command s).2.
Definition used1 := used_step (WardenClient.CreateRealm (client_realm 7)) new_daemon.
Definition used2 := used_step (client_app_of 7) used1.
Definition used3 :=
  used_step (WardenClient.CreateRealm (client_realm 9)) (used_step (WardenClient.CreateRealm (client_realm 8)) used2).
Definition restarted : result (WardenDaemon HostFabric * Arcs HostRealm) AnyError * Host :=
  create_warden demo_fabric used3.2.2.
Definition used4 : WardenDaemon HostFabric * (Arcs HostRealm * Host) :=
  let x := match restarted.1 with Ok x => x | Err _ => (used3.1, ∅) end in (x.1, (x.2, restarted.2)).
Definition used5 := used_step (client_app_of 7) (used_step WardenClient.ListRealms used4).
Definition used6 := used_step (WardenClient.DestroyRealm 9) used5.

Lemma used_in_use command s r :
  in_use demo_fabric s → lasting command = true →
  (ClientHandler.handle_command command s).1 = Ok r → in_use demo_fabric (used_step command s).
Proof.
  intros Hg Hc Hr. eapply use_command; [exact Hg|exact Hc|]. unfold used_step. rewrite <-Hr.
  apply surjective_pairing.
Qed.

Lemma restarted_in_use s (s' : WardenDaemon HostFabric * (Arcs HostRealm * Host)) :
  in_use demo_fabric s → create_warden demo_fabric s.2.2 = (Ok (s'.1, s'.2.1), s'.2.2) →
  in_use demo_fabric s'.
Proof. destruct s' as [d [arcs w]]. apply use_restart. Qed.

Lemma daemon_in_use : in_use demo_fabric used6.
Proof.
  eapply used_in_use; [|done|vm_compute; reflexivity].
  eapply used_in_use; [|done|vm_compute; reflexivity].
  apply use_quiet; [|done].
  apply (restarted_in_use used3); [|vm_compute; reflexivity].
  eapply used_in_use; [|done|vm_compute; reflexivity].
  eapply used_in_use; [|done|vm_compute; reflexivity].
  eapply used_in_use; [|done|vm_compute; reflexivity].
  eapply used_in_use; [|done|vm_compute; reflexivity].
  apply use_first. vm_compute. reflexivity.
Qed.

Lemma warden_survives_restart_witness :
  ∃ d arcs w', create_warden (Snd := unit) demo_fabric used6.2.2 = (Ok (d, arcs), w') ∧
    ∀ u, realm_at (d, (arcs, w')) u = realm_at used6 u.
Proof.
  apply (warden_survives_restart demo_fabric used6).
  - split; [discriminate|reflexivity].
  - intros dir u config v [= <-]. reflexivity.
  - intros tap u w. reflexivity.
  - exact daemon_in_use.
Defined.

(** There are two realms, the first with two applications; the third had been loaded. *)
Lemma used_realms :
  (λ m : HostRealm, length (app_keys m)) <$> realm_at used6 7 = Some 2 ∧
  (λ m : HostRealm, length (app_keys m)) <$> realm_at used6 8 = Some 0 ∧
  is_Some (realm_at used5 9) ∧ realm_at used6 9 = None.
Proof. vm_compute. eauto. Qed.
