(* ===== verification/RealmScenarios.v ===== *)
(** * Runs of the application manager on a concrete guest

    A small guest system (files, device mapper, an image registry with toy
    signatures) that instantiates every interface of the application manager,
    and the theorems about the manager at concrete states of it. *)

From S2P Require Import Prelude WardenRealm JsonFramed AmBase DmCrypt KeySealing AmOs AppHandler AppLoop.
From S2P Require Import OciLauncher AmApplication AmManager AmMeasure AmMain.
From S2P Require Managers ClientHelper RealmClientHandler RealmProtocol.

(** ** The guest *)

(** Its files, and the extensions of its measurement registers. *)
Abbreviation Guest := (gmap string string * list (Z * Bytes))%type.

Definition not_found : IoError := mkIoError OtherKind "No such file or directory".

#[global] Instance guest_os : OsApi Guest := {|
  os_create_dir_all _ := λ w, (Ok tt, w);
  os_read_link _ := λ w, (Ok "../../vda1", w);
  os_metadata_rdev _ := λ w, (Ok 65024%Z, w);
  os_read_to_string p := λ w, (ok_or (w.1 !! p) not_found, w);
  os_read p := λ w, (Ok [65%Z], w);
  os_open _ := λ w, (Ok 3%Z, w);
  os_read_to_end _ := λ w, (Ok [], w);
  os_write p t := λ w, (Ok tt, (<[p := t]> w.1, w.2));
  os_remove_dir_all _ := λ w, (Ok tt, w);
  os_rename _ _ := λ w, (Ok tt, w);
  os_copy _ _ := λ w, (Ok tt, w);
  os_is_symlink _ _ := true;
  os_spawn _ _ := λ w, (Ok 2%Z, w);
  os_wait _ := λ w, (Ok tt, w);
  libc_mount _ _ _ _ w := (0%Z, w);
  libc_umount _ w := (0%Z, w);
  libc_mknod _ _ _ w := (0%Z, w);
  libc_sync_reboot _ w := (false, w);
  errno_last _ := 2%Z;
  libc_major n := (n / 256)%Z;
  libc_minor n := (n mod 256)%Z;
  libc_makedev a b := (a * 256 + b)%Z;
  LINUX_REBOOT_CMD_RESTART := 19088743%Z;
  LINUX_REBOOT_CMD_POWER_OFF := 1126301404%Z;
  init_module _ _ := λ w, (Ok tt, w);
  getifaddrs := λ w, (Ok [], w);
  nul_error _ := "nul byte found";
  parse_int_error _ := "invalid digit" |}.

#[global] Instance guest_hex : HexApi := {|
  hex_encode _ := "00";
  hex_decode s := Ok ((λ c, Z.of_N (N_of_ascii c)) <$> String.list_ascii_of_string s) |}.
#[global] Instance guest_uuid : UuidApi := {|
  uuid_to_string u := pretty u;
  uuid_from_str _ := Err "not used" |}.
#[global] Instance guest_hash : HashApi := {|
  sha256 b := b;
  sha384 b := b;
  hkdf_sha256 salt k i := default [] salt ++ k ++ i |}.
#[global] Instance guest_rsi : RsiApi Guest := {|
  attestation_token c := λ w, (Ok c, w);
  measurement_extend r b := λ w, (Ok tt, (w.1, w.2 ++ [(r, b)]));
  sealing_key _ _ := λ w, (Ok [1; 2; 3]%Z, w);
  MAX_MEASUR_LEN := 64;
  RSI_SEALING_KEY_FLAGS_KEY := 1%Z;
  RSI_SEALING_KEY_FLAGS_RIM := 2%Z;
  RSI_SEALING_KEY_FLAGS_REALM_ID := 4%Z;
  RSI_SEALING_KEY_FLAGS_SVN := 8%Z |}.
#[global] Instance guest_dm : DmApi Guest := {|
  dm_new := λ w, (Ok tt, w);
  dm_name_valid _ := None;
  dm_uuid_valid _ := None;
  dm_device_create name uuid := λ w, (Ok (mkDeviceInfo (Some name) uuid 254%Z 0%Z), w);
  dm_table_load _ _ := λ w, (Ok tt, w);
  dm_device_suspend _ _ := λ w, (Ok tt, w);
  dm_device_remove _ := λ w, (Ok tt, w) |}.
#[global] Instance guest_keyring : KeyringApi Guest := {|
  keyring_attach_or_create := λ w, (Ok tt, w);
  keyring_add_logon _ _ _ := λ w, (Ok tt, w) |}.

(** Toy signatures: a key signs a message with itself and the message. *)
#[global] Instance guest_ecdsa : EcdsaApi (list Z) (list Z) := {|
  key_from_der k := Ok k;
  sig_from_der s := Ok s;
  ecdsa_verify k m s := if bool_decide (s = k ++ m) then None else Some "signature error" |}.

Record GuestImage := mkGuestImage { gi_annotations : gmap string string; gi_config : Bytes }.

(** The registry serves one properly signed image, and a forged one. *)
Definition good_image : GuestImage :=
  mkGuestImage {[ANNOTATION_SIGNATURE := "BC"; ANNOTATION_VENDORPUB := "B";
                 ANNOTATION_VENDORPUB_SIGNATURE := "AB"]} [67%Z].
Definition forged_image : GuestImage :=
  mkGuestImage {[ANNOTATION_SIGNATURE := "XC"; ANNOTATION_VENDORPUB := "B";
                 ANNOTATION_VENDORPUB_SIGNATURE := "AB"]} [67%Z].

#[global] Instance guest_registry : RegistryApi Guest unit GuestImage string unit unit unit := {|
  load_root_cert_store _ := λ w, (Ok tt, w);
  token_from_path _ := λ w, (Ok tt, w);
  rsi_token_resolver := tt;
  cert_resolver _ := λ w, (Ok tt, w);
  client_from_config _ _ := λ w, (Ok tt, w);
  reference_try_from v := Ok v;
  get_image_info _ name _ := λ w,
    (Ok (if bool_decide (name = "good") then good_image else forged_image), w);
  unpack_image _ _ _ _ := λ w, (Ok tt, w);
  annotations i := Some (gi_annotations i);
  config_bytes := gi_config |}.

(** The metadata of the good image. *)
Definition good_metadata : Metadata :=
  mkMetadata [[66%Z]; [65%Z; 66%Z]] [67%Z]
    (mkOciConfig (Some (mkRuntimeConfig (Some ["/init"]) None None None None))).

#[global] Instance guest_json : MetadataJson := {|
  metadata_dump _ := Ok "good";
  metadata_load t := if bool_decide (t = "good") then Ok good_metadata else Err "syntax";
  oci_config_load _ := Ok (image_config good_metadata) |}.
#[global] Instance guest_users : UserDb Guest := {|
  getuid := 0%Z; getgid := 0%Z;
  user_from_name _ _ := Ok None; group_from_name _ _ := Ok None;
  env_vars := ∅ |}.

(** The launcher of images: an application is represented by the configuration
    it is executed with; the overlay shows the files of the image's directory. *)
Definition lower_dir (overlay : PathBuf) : PathBuf :=
  path_push (path_push (default "" (parent overlay)) "image") "root".
#[global] Instance guest_launcher : Launcher Guest (OciLauncher (K := list Z)) ExecConfig := {|
  launcher_install p url n v := λ s, let '(r, w) := install s.1 p url n v s.2 in (r, (s.1, w));
  launcher_prepare p := λ s, let '(r, w) := prepare (lower_dir p) s.2 in (r, (s.1, w)) |}.
#[global] Instance guest_launchers : LauncherTypes (list Z) (OciLauncher (K := list Z)) := {|
  DummyLauncher_new := mkOciLauncher NoTLS [];
  OciLauncher_from_oci_config c k := mkOciLauncher c k |}.
#[global] Instance guest_handler : ApplicationHandler Guest ExecConfig := {|
  handler_start := λ s, (Ok tt, s); handler_stop := λ s, (Ok tt, s);
  handler_kill := λ s, (Ok tt, s); handler_try_wait := λ s, (Ok None, s) |}.

(** The tasks are joined last one first. *)
#[global] Instance guest_join : JoinSetApi Guest := {|
  join_order n _ := reverse (seq 0 n);
  join_ran _ _ := true;
  join_error _ _ := None |}.
#[global] Instance guest_join_laws : JoinSetLaws Guest.
Proof. split. intros. apply reverse_Permutation. Qed.

(** The guest observes its measurement registers, which only [measurement_extend]
    changes. *)
#[global] Instance guest_rem_log : RemLog Guest.
Proof. refine {| rem_log := snd |}. by intros r b w w' [= <-]. Defined.
#[global] Instance guest_os_keeps : OsKeeps (W := Guest) rem_log.
Proof. by split. Qed.
#[global] Instance guest_dm_keeps : DmKeeps (W := Guest) rem_log.
Proof. by split. Qed.
#[global] Instance guest_keyring_keeps : KeyringKeeps (W := Guest) rem_log.
Proof. by split. Qed.
#[global] Instance guest_registry_keeps : RegistryKeeps (W := Guest) (Image := GuestImage) (Ref := string)
  (Client := unit) (Store := unit) (Token := unit) (Resolver := unit) rem_log.
Proof. by split. Qed.
#[global] Instance guest_launcher_keeps : LauncherKeeps (W := Guest) (L := OciLauncher (K := list Z)) rem_log.
Proof.
  split; intros; intros s; unfold same; simpl.
  - pose proof (oci_install_keeps (Image := GuestImage) rem_log s.1 p u n v s.2) as Hk. unfold same in Hk.
    by destruct (install _ _ _ _ _ _).
  - pose proof (oci_prepare_keeps rem_log (lower_dir p) s.2) as Hk. unfold same in Hk.
    by destruct (prepare _ _).
Qed.
#[global] Instance guest_start_keeps : HandlerStartKeeps (W := Guest) (Hd := ExecConfig) rem_log.
Proof. by intros s. Qed.

(** ** Images *)

Definition oci : OciLauncher (K := list Z) := mkOciLauncher NoTLS [65%Z].
Definition guest : Guest := ({["/sys/class/block/vda1/size" := "2048"]}, []).

Lemma install_is_verified_witness :
  let r := install oci "/img" "localhost" "good" "1.0" guest in
  r.1 = Ok (mkApplicationMetadata [[66%Z]; [65%Z; 66%Z]] [67%Z]) ∧
  ∃ am, r.1 = Ok am ∧
    ((∃ client ref image w1 w2 a,
       get_image_info (Client := unit) (Ref := string) client "good" ref w1 = (Ok image, w2) ∧
       reference_try_from "1.0" = Ok ref ∧ annotated image a ∧ chain_verified oci a (config_bytes image) ∧
       am = mkApplicationMetadata [vendor_pubkey a; vendor_pubkey_signature a]
              (hash_config (config_bytes image))) ∨
     (∃ m w1 w2, try_read_metadata "/img" w1 = (Ok (Some m), w2) ∧
       am = mkApplicationMetadata (vendor_cert m) (config_hash m))).
Proof.
  cbv zeta. split; [vm_compute; reflexivity|].
  exists (mkApplicationMetadata [[66%Z]; [65%Z; 66%Z]] [67%Z]). split; [vm_compute; reflexivity|].
  apply (install_is_verified oci "/img" "localhost" "good" "1.0" guest _
    (install oci "/img" "localhost" "good" "1.0" guest).2).
  vm_compute. reflexivity.
Defined.

Lemma unverified_image_has_no_effect_witness :
  install oci "/img" "localhost" "forged" "1.0" guest =
  (Err (Crypto (Verification "signature error")), guest).
Proof.
  apply (unverified_image_has_no_effect oci "/img" "localhost" "forged" "1.0" guest
    tt guest "1.0" forged_image guest None guest (gi_annotations forged_image)
    (mkRequiredAnnotations [88; 67]%Z [66%Z] [65; 66]%Z));
    first [discriminate | vm_compute; reflexivity].
Defined.

(** ** Keys *)

Lemma data_key_binding_witness :
  rsi_flags [Rim; KeyFlag] (Some 1%Z) = rsi_flags [KeyFlag; Rim] (Some 1%Z) ∧
  data_key (create (HkdfSealingFactory [9%Z] true)) [[1%Z]] [2%Z] [3%Z] ≠
  data_key (create (HkdfSealingFactory [9%Z] true)) [[1%Z]] [4%Z] [3%Z].
Proof.
  destruct (data_key_binding [Rim; KeyFlag] [KeyFlag; Rim] (Some 1%Z) [9%Z] [[1%Z]] [2%Z] [4%Z] [3%Z])
    as (Hf&_&_&Hk); [constructor|]. split; [exact Hf|].
  intros Heq. destruct (Hk ltac:(by left) Heq) as [[=]|[[_ Hc]|[_ Hc]]]; vm_compute in Hc; discriminate Hc.
Defined.

Definition demo_params : CryptoParams := mkCryptoParams Aes Plain64 Xts 0 (Some ["a"; "b"]).

Lemma table_line_fields_witness :
  fields (table_params (mkDmCryptTable 0 2048 demo_params 0) (MajorMinor 254 0) (Hex "00ff")) =
  ["aes-xts-plain64"; "00ff"; "0"; "254:0"; "02"; "a"; "b"].
Proof.
  rewrite (table_line_fields (mkDmCryptTable 0 2048 demo_params 0) (MajorMinor 254 0) (Hex "00ff"));
    vm_compute; reflexivity.
Defined.

(** ** Application processes: a child is its process id, and the process 13 ignores
    every signal it can ignore *)

#[global] Instance guest_process : AppProcess Guest (option Z) := {|
  app_spawn sp := λ w,
    (match run_pre_exec (λ _, true) (spawn_pre_exec sp) superuser with
     | Some _ => Ok (Some 10%Z)
     | None => Err (mkIoError OtherKind "Operation not permitted")
     end, w);
  app_id c := c;
  app_signal _ sig w := (None, match sig with SIGKILL => (<["killed" := "13"]> w.1, w.2) | SIGTERM => w end);
  app_wait := λ s,
    if bool_decide (s.1 = Some 13%Z ∧ s.2.1 !! "killed" = None) then (Err forever, s)
    else (Ok 0%Z, (None, s.2));
  app_try_wait := λ s, (Ok (match s.1 with Some _ => None | None => Some 0%Z end), s);
  app_kill := λ s, (Ok tt, s) |}.
#[global] Instance guest_process_laws : AppProcessLaws Guest (option Z).
Proof.
  split; simpl; intros; repeat case_bool_decide; simplify_eq/=; try done; try by case_match; simplify_eq/=.
  - naive_solver.
  - destruct H1 as [_ Hk]. by rewrite lookup_insert_eq in Hk.
Qed.

#[global] Instance guest_superuser : SuperuserSpawn (W := Guest) (Child := option Z) (λ _ _, true).
Proof. intros sp w Hf. simpl. by rewrite Hf. Qed.

(** The manager of the applications is the superuser of the guest; an application of
    user 1000 and group 1000 does not start, one of the superuser's group does. *)
Definition user_exec (group : Z) : ExecConfig := mkExecConfig "/init" ["/init"] ∅ 1000 group None None.

Lemma unprivileged_application_never_starts_witness :
  (∃ e w', start (mkHandler (user_exec 1000) None, guest) =
     (Err (Fail (Handler (SpawnError e))), (mkHandler (user_exec 1000) None, w'))) ∧
  is_ok (start (mkHandler (user_exec 0) None, guest)).1 = true.
Proof.
  split; [|vm_compute; reflexivity].
  by apply (unprivileged_application_never_starts (λ _ _, true) (mkHandler (user_exec 1000) None)).
Defined.

Definition demo_exec : ExecConfig := mkExecConfig "/init" ["/init"] ∅ 0 0 None None.
Definition served : SimpleApplicationHandler (option Z) * Guest :=
  (mkHandler demo_exec (Some (Serving (Some 10%Z))), guest).

Definition stubborn : SimpleApplicationHandler (option Z) * Guest :=
  (mkHandler demo_exec (Some (Serving (Some 13%Z))), guest).

Lemma stop_kill_outcomes_witness :
  (settles served (stop served) ∧ settles served (kill served)) ∧
  ((stop stubborn).1 = Err forever ∧ settles stubborn (kill stubborn)).
Proof.
  destruct (stop_kill_outcomes served) as (Hk&Hs&_).
  destruct (stop_kill_outcomes stubborn) as (Hk'&_&Hs').
  split; [split; [|exact Hk]|split; [|exact Hk']].
  - apply Hs. intros (pid&w1&[= <-]&[= <-]&Hw). vm_compute in Hw. discriminate Hw.
  - apply Hs'. exists 13%Z, guest. split; [reflexivity|]. split; [reflexivity|]. vm_compute. reflexivity.
Defined.

(** ** The manager *)

Definition demo_info (id : Uuid) (name : string) : ApplicationInfo :=
  mkApplicationInfo id name "1.0" "localhost" 21 22.
Definition dev_name : CryptDevice := mkCryptDevice (mkDeviceInfo (Some "crypt_21") None 254 0).

Definition setup_run :=
  setup demo_params oci (DummyKeySealing [1%Z])
    (mkApplication (demo_info 7 "good") "/app/7" [] [], guest).

Lemma setup_measures_installation_witness :
  ∃ m w1 l' w2,
    launcher_install "/app/7/image/root" "localhost" "good" "1.0" (oci, w1) = (Ok m, (l', w2)) ∧
    app_measurements setup_run.2.1 = concat (vendor_data m) ++ image_hash m.
Proof.
  destruct (setup_measures_installation (demo_info 7 "good") "/app/7" demo_params oci
    (DummyKeySealing [1%Z]) guest (run_value demo_exec setup_run) setup_run.2.1 setup_run.2.2)
    as [_ Hm]; [|exact Hm].
  rewrite <-surjective_pairing. refine (run_value_ok demo_exec setup_run _). vm_compute. reflexivity.
Defined.

Definition demo_am : AmManager.Manager ExecConfig :=
  mkManager (mkConfig "/app" 1337 demo_params (Oci NoTLS) "/ca.pub" DummySealing true (Some Rem0))
    ∅ (DummyKeySealingFactory [1%Z]).
Definition demo_infos : list ApplicationInfo := [demo_info 7 "good"; demo_info 8 "good"].
Definition provisioned := provision demo_infos (demo_am, guest).

Lemma provision_measures_in_request_order_witness :
  dom (apps provisioned.2.1) = {[7%N; 8%N]} ∧
  ∃ pieces, Forall2 (pieces_of provisioned.2.1) demo_infos pieces ∧
    rem_log provisioned.2.2 = (λ p, (ExtendREM_as_u32 Rem0, p)) <$> concat pieces.
Proof.
  destruct (provision_measures_in_request_order demo_infos (demo_am, guest) provisioned.2)
    as (_&Hd&Hp).
  - simpl. lia.
  - rewrite (run_value_ok tt provisioned) at 1; [by destruct (run_value tt provisioned)|].
    vm_compute. reflexivity.
  - split; [rewrite Hd; vm_compute; reflexivity|]. exact Hp.
Defined.

(** Vendor key, its signature and the hash of the image, of either application. *)
Lemma provisioned_log :
  rem_log provisioned.2.2 = [(ExtendREM_as_u32 Rem0, [66; 65; 66; 67]%Z); (ExtendREM_as_u32 Rem0, [66; 65; 66; 67]%Z)].
Proof. vm_compute. reflexivity. Qed.

(** ** Start-up *)

(** The configuration file asks for neither measurements nor sealing keys. *)
Definition plain_config : Config :=
  mkConfig "/app" 1337 demo_params (Oci NoTLS) "/ca.pub" DummySealing true None.
#[global] Instance guest_config : ConfigYaml := λ t,
  if bool_decide (t = "plain") then Ok plain_config else Err "invalid type".
Definition configured_guest : Guest := ({[arg_config Args_default := "plain"]}, []).

(** An interface whose calls all fail. *)
Definition absent_rsi : RsiApi Guest := {|
  attestation_token _ := throw 19%Z;
  measurement_extend _ _ := throw 19%Z;
  sealing_key _ _ := throw 19%Z;
  MAX_MEASUR_LEN := 64;
  RSI_SEALING_KEY_FLAGS_KEY := 1%Z;
  RSI_SEALING_KEY_FLAGS_RIM := 2%Z;
  RSI_SEALING_KEY_FLAGS_REALM_ID := 4%Z;
  RSI_SEALING_KEY_FLAGS_SVN := 8%Z |}.

#[global] Instance guest_debug (A : Type) : Debug A := λ _, "debug".
Definition token_request : list ManagerEvent := [mkEvent (Ok (GetAttestationToken [])) (Ok tt)].

Lemma rsi_used_only_when_loaded_witness :
  main (RsiApi0 := absent_rsi) (λ _, mret tt) (λ _, "error") Args_default token_request configured_guest =
  main (RsiApi0 := guest_rsi) (λ _, mret tt) (λ _, "error") Args_default token_request configured_guest.
Proof.
  apply (rsi_used_only_when_loaded absent_rsi guest_rsi (λ _, mret tt) (λ _, "error") Args_default
    token_request configured_guest plain_config configured_guest).
  vm_compute. reflexivity.
Defined.

(** ** The daemon's client of the manager *)

Section client.
Import RealmClientHandler RealmProtocol.

(** A transport that just closes, and answers that are always in time. *)
#[local] Instance guest_sender : RealmSender (AmManager.Manager ExecConfig * Guest) Connection :=
  connection_sender (λ _, None) (λ _ _, false).

Lemma client_sees_manager_result_witness :
  punctual (W := Guest) (Hd := ExecConfig) (λ _ _, false) ∧
  (start_application 7 (linked 60 10 provisioned.2)).1 =
  success_result (handle_request (StartApp 7) provisioned.2).1.
Proof.
  split; [intros t x; reflexivity|].
  destruct (client_sees_manager_result (λ _, None) (λ _ _, false) 60 10 provisioned.2) as (Hs&_);
    [intros t x; reflexivity|].
  exact (f_equal fst (Hs 7%N)).
Defined.

(** The machine goes down, but the stream just ends: the daemon reports a failure. *)
Lemma closed_stream_is_no_shutdown :
  (handle_request Shutdown provisioned.2).1 = Ok None ∧
  is_err (shutdown_realm (linked 60 10 provisioned.2)).1 = true.
Proof. vm_compute. done. Qed.
End client.
