(* ===== verification/NetScenarios.v ===== *)
(** * A concrete host network

    An executable packet filter, device table and process table that satisfy
    the laws the network manager relies on, and runs of the network manager on
    it. *)

From S2P Require Import Prelude VmRunner IpNet IpTables Dnsmasq Fabric NatManager.

(** ** The host *)

(** [broken_rule] is a rule the kernel refuses, such as one that needs a module
    that is not loaded. *)
Record NetHost := mkNetHost {
  v4_tables : Tables;
  v6_tables : Tables;
  devices : gmap string Z;
  next_index : Z;
  broken_rule : string;
  processes : list Command }.

Definition tables (v6 : bool) (w : NetHost) : Tables := if v6 then v6_tables w else v4_tables w.
Definition set_tables (v6 : bool) (m : Tables) (w : NetHost) : NetHost :=
  if v6 then mkNetHost (v4_tables w) m (devices w) (next_index w) (broken_rule w) (processes w)
  else mkNetHost m (v6_tables w) (devices w) (next_index w) (broken_rule w) (processes w).
Definition set_devices (m : gmap string Z) (w : NetHost) : NetHost :=
  mkNetHost (v4_tables w) (v6_tables w) m (next_index w) (broken_rule w) (processes w).
Definition add_device (n : string) (w : NetHost) : NetHost :=
  mkNetHost (v4_tables w) (v6_tables w) (<[n := next_index w]> (devices w)) (next_index w + 1)
    (broken_rule w) (processes w).
Definition add_process (c : Command) (w : NetHost) : NetHost :=
  mkNetHost (v4_tables w) (v6_tables w) (devices w) (next_index w) (broken_rule w)
    (processes w ++ [c]).

(** A command on one chain: it fails, or gives the chain new contents. *)
Definition on_rules (v6 : bool) (t c : string) (f : list string → NetHost → result Tables string)
    : eff NetHost string unit := λ w,
  match tables v6 w !! (t, c) with
  | None => (Err "no chain by that name", w)
  | Some l =>
      match f l w with Ok m => (Ok tt, set_tables v6 m w) | Err e => (Err e, w) end
  end.

#[global] Instance net_iptables : IpTablesApi NetHost bool := {
  iptables_new v6 := mret v6;
  ipt_chain_exists v6 t c w := (Ok (bool_decide (is_Some (tables v6 w !! (t, c)))), w);
  ipt_new_chain v6 t c w :=
    if bool_decide (is_Some (tables v6 w !! (t, c))) then (Err "chain already exists", w)
    else (Ok tt, set_tables v6 (<[(t, c) := []]> (tables v6 w)) w);
  ipt_append_replace v6 t c r := on_rules v6 t c (λ l w,
    if bool_decide (r = broken_rule w) then Err "no match by that name"
    else Ok (<[(t, c) := remove_first r l ++ [r]]> (tables v6 w)));
  ipt_flush_chain v6 t c := on_rules v6 t c (λ _ w, Ok (<[(t, c) := []]> (tables v6 w)));
  ipt_delete v6 t c r := on_rules v6 t c (λ l w,
    if bool_decide (r ∈ l) then Ok (<[(t, c) := remove_first r l]> (tables v6 w))
    else Err "bad rule");
  ipt_delete_chain v6 t c := on_rules v6 t c (λ l w,
    match l with [] => Ok (delete (t, c) (tables v6 w)) | _ => Err "chain not empty" end) }.

Definition need_index (i : Z) (f : NetHost → NetHost) : eff NetHost string unit := λ w,
  if bool_decide (map_Exists (λ _ j, j = i) (devices w)) then (Ok tt, f w) else (Err "no such device", w).

#[global] Instance net_netlink : NetlinkApi NetHost unit unit := {
  new_connection := mret (tt, tt);
  task_abort _ w := w;
  link_get _ n w := (Ok (devices w !! n), w);
  link_add_bridge _ n w :=
    if bool_decide (is_Some (devices w !! n)) then (Err "file exists", w) else (Ok tt, add_device n w);
  link_del _ i := need_index i (λ w, set_devices (filter (λ p : string * Z, p.2 ≠ i) (devices w)) w);
  link_set_up _ i := need_index i id;
  link_set_controller _ i _ := need_index i id;
  link_set_nocontroller _ i := need_index i id;
  address_add _ i _ _ := need_index i id;
  tun_build n w :=
    (Ok tt, if bool_decide (is_Some (devices w !! n)) then w else add_device n w) }.

#[global] Instance net_processes : ProcessApi NetHost unit unit unit := {
  process_spawn c w := (Ok tt, add_process c w);
  child_try_wait := mret None;
  child_kill := mret tt;
  child_wait := mret 9%Z;
  child_take_stdout c := (None, c);
  child_take_stderr c := (None, c);
  spawn_log_thread _ _ _ w := (tt, w);
  log_thread_abort _ w := w }.

#[global] Instance net_ipnet : IpNetApi := {
  IpNet_to_string n := IpAddr_to_string (net_addr n) +:+ "/" +:+ pretty (net_prefix_len n);
  IpNet_new a p :=
    if bool_decide (0 ≤ p ≤ max_prefix_len a)%Z then Ok (mkIpNet a p) else Err "invalid prefix length";
  ipv4_saturating_add a n := Z.min (a + n) u32_max;
  ipv6_saturating_add a n := Z.min (a + n) u128_max }.

#[global] Instance net_uuid : UuidApi := {|
  uuid_to_string u := pretty u;
  uuid_from_str _ := Err "not used" |}.

(** ** It satisfies the laws *)

#[global] Instance net_ipnet_laws : IpNetLaws.
Proof. split; [|done..]. intros a p Hp. simpl. by rewrite bool_decide_true. Qed.

Lemma tables_set v6 m w : tables v6 (set_tables v6 m w) = m.
Proof. by destruct v6. Qed.

Lemma on_rules_ok v6 t c f w w' :
  on_rules v6 t c f w = (Ok tt, w') →
  ∃ l m, tables v6 w !! (t, c) = Some l ∧ f l w = Ok m ∧ tables v6 w' = m.
Proof.
  unfold on_rules. destruct (tables v6 w !! (t, c)) as [l|]; [|done].
  destruct (f l w) as [m|] eqn:Hf; [|done]. intros [= <-]. exists l, m.
  by rewrite tables_set.
Qed.

#[global] Instance net_iptables_laws : IpTablesLaws NetHost bool.
Proof.
  refine {| ipt_rules := tables; ipt_family := id |}; simpl.
  - by intros v6 w h w' [= <- <-].
  - by intros h t c w b w' [= <- <-].
  - intros h t c w w'. case_bool_decide as Hc; [done|]. intros [= <-].
    rewrite tables_set. split; [by apply eq_None_not_Some|done].
  - intros h t c r w w' (l&m&Hl&Hf&<-)%on_rules_ok. case_bool_decide; simplify_eq. by exists l.
  - intros h t c w w' (l&m&Hl&Hf&<-)%on_rules_ok. by simplify_eq.
  - intros h t c r w w' (l&m&Hl&Hf&<-)%on_rules_ok. case_bool_decide; simplify_eq. by exists l.
  - intros h t c w w' (l&m&Hl&Hf&<-)%on_rules_ok. by destruct l; simplify_eq.
Defined.

#[global] Instance net_link_laws : LinkLaws NetHost unit unit.
Proof.
  refine {| links := devices |}; simpl; try done.
  - by intros h n w o w' [= <- <-].
  - intros h i w w'. unfold need_index. case_bool_decide; [|done]. by intros [= <-].
  - intros h i w. unfold need_index. by case_bool_decide.
Defined.

Lemma on_rules_devices v6 t c f : steps (same devices) (on_rules v6 t c f).
Proof. intros w. unfold on_rules, same. repeat case_match; by try destruct v6. Qed.

#[global] Instance net_iptables_keeps : IpTablesKeeps (links (W := NetHost)).
Proof.
  split; simpl; intros; try apply on_rules_devices; try done.
  intros w. case_bool_decide; [done|]. by destruct h.
Qed.

#[global] Instance net_netlink_keeps v6 : NetlinkKeeps (ipt_rules (W := NetHost) v6).
Proof.
  split; simpl; intros; try done; intros w; unfold need_index; case_bool_decide;
    unfold same; by destruct v6.
Qed.

(** [dnsmasq] only runs processes. *)
Lemma dnsmasq_keeps {O} (obs : NetHost → O) :
  (∀ c w, obs (add_process c w) = obs w) → DHCPKeeps (D := DnsmasqServerHandler (Child := unit)) obs.
Proof.
  intros Hobs. split; simpl.
  - intros ip n. apply steps_map_err; [apply _|]. unfold spawn_server, spawn_command.
    eff_auto; try (intros; by apply steps_modify).
    intros s. unfold zoom, same. simpl. by rewrite Hobs.
  - apply steps_map_err; [apply _|]. intros [d w]. unfold kill_server, with_child, with_state. simpl.
    by destruct (child d).
Qed.

#[global] Instance net_dhcp_links : DHCPKeeps (D := DnsmasqServerHandler (Child := unit)) (links (W := NetHost)).
Proof. by apply dnsmasq_keeps. Qed.
#[global] Instance net_dhcp_tables v6 :
  DHCPKeeps (D := DnsmasqServerHandler (Child := unit)) (ipt_rules (W := NetHost) v6).
Proof. apply dnsmasq_keeps. by intros []. Qed.

(** ** Runs *)

Definition empty_tables : Tables :=
  list_to_map [((NAT_TABLE, "POSTROUTING"), []); ((MANGLE_TABLE, "POSTROUTING"), []);
    ((FILTER_TABLE, "INPUT"), []); ((FILTER_TABLE, "OUTPUT"), []); ((FILTER_TABLE, "FORWARD"), [])].
Definition net_host (broken : string) : NetHost :=
  mkNetHost empty_tables ∅ {["lo" := 1%Z]} 2 broken [].

(** The defaults of the command line: 192.168.100.0/24 and twenty clients. *)
Definition warden_net : NetworkConfig := mkNetworkConfig "virtbWarden" (mkIpNet (V4 3232261120) 24).
Definition warden_dnsmasq : DnsmasqServerHandler (Child := unit) :=
  mkDnsmasqServerHandler (create_command "/usr/sbin/dnsmasq") 20 None.

Lemma net_host_fresh n : fresh_routing n empty_tables.
Proof.
  assert (map_Forall (λ k l, l = [] ∧ has_char "_" k.2 = false) empty_tables) as Hall
    by (apply (bool_decide_unpack _); vm_compute; reflexivity).
  intros t c _. split.
  - intros Hc. destruct (empty_tables !! (t, c)) as [l|] eqn:Hl; [|done]. exfalso.
    apply Hall in Hl as [_ Hl]. simpl in Hl. unfold own_chains in Hc.
    case_decide; simpl in Hc; rewrite ?elem_of_cons, elem_of_nil in Hc; destruct_or?; try done;
      subst; by rewrite has_char_app, orb_comm in Hl.
  - intros l r [-> _]%Hall _. apply not_elem_of_nil.
Qed.

Definition running := create_nat warden_net warden_dnsmasq (net_host "").
Definition running_net := run_value (mkNetworkManagerHandler warden_net (mkRtNetLinkBridge "") warden_dnsmasq ∅) running.
Definition with_tap := (create_tap_device_for_realm "tap100" 7%N (running_net, running.2)).2.

Lemma shutdown_nat_cleans_witness :
  ipt_rules false (shutdown_nat with_tap).2.2 = empty_tables ∧
  links (shutdown_nat with_tap).2.2 !! "tap100" = None.
Proof.
  destruct (shutdown_nat_cleans warden_net warden_dnsmasq (net_host "") running_net running.2
    with_tap (shutdown_nat with_tap).2) as (Ht&_&_&Hl).
  - apply net_host_fresh.
  - refine (run_value_ok _ running _). vm_compute. reflexivity.
  - eapply rtc_once. apply tap_created.
  - refine (run_val (shutdown_nat with_tap) [] _). vm_compute. reflexivity.
  - split; [exact Ht|]. apply (Hl 7%N (mkTapDevice "tap100")). vm_compute. reflexivity.
Defined.

Definition routed := prepare_routing_sync warden_net (net_host "").

Lemma routing_round_trip_witness :
  ipt_rules false routed.2 !! (FILTER_TABLE, "virtbWarden_FWX") =
    Some ["-i virtbWarden -o virtbWarden -j ACCEPT"] ∧
  ipt_rules false (cleanup_routing_sync warden_net routed.2).2 = empty_tables.
Proof.
  destruct (routing_round_trip false "virtbWarden" (mkIpNet (V4 3232261120) 24) (net_host "")
    routed.2) as [Hr Hc].
  - reflexivity.
  - apply net_host_fresh.
  - refine (run_ok routed _). vm_compute. reflexivity.
  - split.
    { etrans; [|vm_compute; reflexivity].
      refine (Hr FILTER_TABLE "virtbWarden_FWX" _ _); apply (bool_decide_unpack _);
        vm_compute; reflexivity. }
    apply Hc. refine (run_ok (cleanup_routing_sync warden_net routed.2) _). vm_compute. reflexivity.
Defined.

(** The kernel refuses the rule for traffic between the realms: the start
    fails, and the host can no longer be started. *)
Definition refusing_host : NetHost := net_host "-i virtbWarden -o virtbWarden -j ACCEPT".
Definition refused := create_nat warden_net warden_dnsmasq refusing_host.

Lemma leftover_chain_blocks_create_nat_witness :
  is_err refused.1 = true ∧ links refused.2 !! "virtbWarden" = None ∧
  ∃ e, (create_nat warden_net warden_dnsmasq refused.2).1 = Err e.
Proof.
  split; [vm_compute; reflexivity|]. split; [vm_compute; reflexivity|].
  apply (leftover_chain_blocks_create_nat warden_net warden_dnsmasq refused.2 "virtbWarden_FWI").
  - set_solver.
  - apply (bool_decide_unpack _). vm_compute. reflexivity.
Defined.

Lemma dhcp_pool_witness :
  ∃ b s e, calculate_bridge_addr (net_if_ip warden_net) = Ok b ∧
    calculate_range_str b 20 = Ok (V4 s, V4 e) ∧ (e - s + 1 = 20)%Z.
Proof.
  destruct (dhcp_pool (W := NetHost) (Child := unit) 3232261120 24 20) as (b&s&e&Hb&Hr&Hn&_).
  - by vm_compute.
  - lia.
  - exists 12626020%Z. reflexivity.
  - lia.
  - exists b, s, e. split; [exact Hb|]. split; [exact Hr|exact Hn].
Defined.
