(* ===== verification/DaemonScenarios.v ===== *)
(** * The daemon on a concrete host

    Building, running and stopping the daemon on the host of [NetScenarios],
    with an empty file system and a Unix socket that can be in use, and commands
    that go through the locks. *)

From S2P Require Import Prelude WardenClient Managers Traits Storage ApplicationDisk VmRunner.
From S2P Require Import RealmClientHandler Arc WardenDaemon ClientHandler.
From S2P Require Import IpNet IpTables Dnsmasq Fabric NatManager UnixSocketServer Daemon DaemonRun.
From S2P Require Import Frames WholeDaemon DaemonMain RealmLocks SimHost NetScenarios.

(** ** The rest of the host *)

#[global] Instance net_files : FileApi NetHost string := {|
  file_create p := mret p;
  Storage.file_write_all _ _ := mret tt;
  file_flush _ := mret tt;
  file_open p := throw no_file;
  file_read_to_string _ := throw no_file;
  create_dir _ := mret tt;
  create_dir_all _ := mret tt;
  remove_dir_all _ := mret tt;
  dir_entries _ := mret [] |}.

#[global] Instance net_disks : DiskApi NetHost Part (string * list Part) string := {|
  partition_name := p_name;
  part_guid := p_guid;
  bytes_len p _ := Ok (p_bytes p);
  gpt_open_read_only _ := throw "no disk";
  file_create_truncate p := mret p;
  file_seek _ _ := mret tt;
  ApplicationDisk.file_write_all _ _ := mret tt;
  file_sync_all _ := mret tt;
  file_shutdown _ := mret tt;
  mbr_overwrite_lba0 _ _ := mret tt;
  gpt_create_from_device p _ := mret (p, []);
  gpt_update_partitions _ := mret tt;
  gpt_add_partition _ _ := mret tt;
  gpt_write := mret tt |}.

(** Another program listens at [/run/busy.sock], and its socket cannot be removed. *)
Definition address_in_use : IoError := mkIoError OtherKind "Address already in use".
#[global] Instance net_unix_sockets : UnixSocketApi NetHost string := {|
  path_exists _ _ := false;
  remove_file _ := mret tt;
  unix_listener_bind p :=
    if bool_decide (p = "/run/busy.sock") then throw address_in_use else mret p |}.

#[global] Instance net_host_keeps {O} (obs : NetHost → O) : HostKeeps obs.
Proof. split; intros; try done. simpl. by case_bool_decide. Qed.

(** Realms never connect. *)
#[global] Instance net_sender : RealmSender NetHost unit := {|
  sender_send _ := throw Disconnection;
  receive_response _ := throw Disconnection |}.
#[global] Instance net_connector : RealmConnector NetHost unit unit := {|
  connector_acquire_realm_sender _ w := (tt, w);
  wait_for_sender _ _ w := (Elapsed, w) |}.
#[global] Instance net_runtime : Runtime NetHost := {|
  completion_order _ us := us;
  task_panic _ _ := None;
  task_ran _ _ := true;
  new_v4 w := (1000%N, w) |}.

#[global] Instance net_process_keeps v6 : ProcessKeeps (ipt_rules (W := NetHost) v6).
Proof. split; simpl; intros; try done; by destruct v6. Qed.
#[global] Instance net_sender_keeps {O} (obs : NetHost → O) : RealmSenderKeeps (Snd := unit) obs.
Proof. by split. Qed.
#[global] Instance net_connector_keeps {O} (obs : NetHost → O) : RealmConnectorKeeps obs.
Proof. by split. Qed.
#[global] Instance net_runtime_keeps {O} (obs : NetHost → O) : RuntimeKeeps obs.
Proof. by intros w. Qed.

(** ** Building *)

Definition demo_cli (socket : PathBuf) : Cli :=
  Cli_defaults "/usr/bin/qemu" socket "/var/warden" "/usr/sbin/dnsmasq".

Definition busy_build :=
  build (Snd := unit) (LogTask := unit) (demo_cli "/run/busy.sock") (net_host "").

Lemma failed_build_cleans_witness :
  ipt_rules false busy_build.2 = empty_tables ∧ links busy_build.2 !! "virtbWarden" = None.
Proof.
  destruct (failed_build_cleans (Snd := unit) (LogTask := unit) (demo_cli "/run/busy.sock")
    (net_host "") (BuildSocket (SocketFail address_in_use)) busy_build.2) as (s&Hb&Hs&Hclean).
  - apply net_host_fresh.
  - refine (run_err busy_build _ _). vm_compute. reflexivity.
  - assert ((shutdown_nat s).1 = Ok []) as Hlog.
    { pose proof (f_equal (λ x, match x.2.1 with Some n => (shutdown_nat (n, x.2.2)).1 | None => Ok [] end) Hb)
        as Hx. cbv beta in Hx. destruct s as [n w1]. cbn [fst snd] in Hx. rewrite <-Hx.
      vm_compute. reflexivity. }
    destruct (Hclean Hlog) as (Ht&Hl&_). split; [exact Ht|exact Hl].
Defined.

(** ** Running *)

Definition demo_build :=
  build (Snd := unit) (LogTask := unit) (demo_cli "/run/warden.sock") (net_host "").
Abbreviation DemoDaemon := (Daemon.Daemon (Snd := unit) (L := string) (Child := unit) (LogTask := unit)).
Definition demo_daemon : DemoDaemon :=
  run_value (mkDaemon (create_vsock_server 2 80) (mkUnixSocketServer "")
    (WardenDaemon.new ∅ (Daemon.realm_fabric (demo_cli "")), ∅) running_net) demo_build.
Lemma demo_build_ok : demo_build = (Ok demo_daemon, demo_build.2).
Proof. refine (run_value_ok _ demo_build _). vm_compute. reflexivity. Qed.

Definition demo_state := built demo_daemon demo_build.2.

(** The command of the one client. *)
Definition demo_create : WardenCommand :=
  WardenClient.CreateRealm (WardenClient.mkRealmConfig (Some 7%N) "virt"
    (WardenClient.mkCpuConfig "max" 2) (WardenClient.mkMemoryConfig 512)
    (WardenClient.mkNetworkConfig 12 "tap100" "52:55:00:d1:55:01" None None)
    (WardenClient.mkKernelConfig "/boot/Image" None None) None).

(** A client's command is on its way when the signal arrives. *)
Definition stuck_daemon : Running :=
  mkRunning JoiningUsock true false (mkServer Draining [Reading; Working tt] demo_state) [].

Lemma stuck_command_blocks_exit_witness :
  main (mkRunning JoiningUsock true false (mkServer Draining [Ended; Working tt] demo_state) [])
    ≠ Exited.
Proof.
  apply (stuck_command_blocks_exit world_lens (λ _ _ _, False) tt stuck_daemon).
  - intros s s' Hs. exact Hs.
  - split; [reflexivity|]. set_solver.
  - done.
  - apply rtc_once. eexists. apply usock_moves.
    exact (client_cancelled _ true Draining [] [Working tt] _ eq_refl).
Defined.

(** A daemon whose one command has been completed (or not) before it is stopped. *)
Definition exited {S} (s : S) : Running (C := WardenCommand) (S := S) :=
  mkRunning Exited true false (mkServer Stopped [] s) [].

(** The steps from the end of the last command to the exit. *)
Lemma drained {S} (net : lens S _) command_run s :
  rtc (daemon_step net command_run : relation (Running (C := WardenCommand)))
    (mkRunning JoiningVsock true true (mkServer Listening [Reading] s) []) (exited s).
Proof.
  eapply rtc_l; [eexists; apply vsock_cancelled|].
  eapply rtc_l; [eexists; apply vsock_joined|].
  eapply rtc_l; [eexists; apply usock_moves, listen_cancelled; reflexivity|].
  eapply rtc_l; [eexists; apply usock_moves, (client_cancelled _ _ _ []); reflexivity|].
  eapply rtc_l; [eexists; apply usock_moves, (client_joined _ _ _ []); done|].
  eapply rtc_l; [eexists; apply usock_moves, listen_returns|].
  apply rtc_once. eexists. by apply usock_joined.
Qed.

Definition created := (ClientHandler.handle_command demo_create demo_state).2.
Definition stopped := (zoom world_lens shutdown_nat created).2.

Lemma daemon_run_exits :
  rtc (daemon_step world_lens command_completes) (run demo_state) (exited stopped).
Proof.
  eapply rtc_l; [eexists; apply usock_moves, accept_client|].
  eapply rtc_l; [eexists; apply usock_moves, (command_received _ _ _ []); done|].
  eapply rtc_l; [eexists; apply usock_moves, (command_answered _ _ _ []); reflexivity|].
  eapply rtc_l; [eexists; apply signal_received|].
  eapply rtc_l; [eexists; apply network_shut_down; refine (run_val (zoom world_lens shutdown_nat created) [] _);
    vm_compute; reflexivity|].
  apply drained.
Qed.

(** The same run with the causes of its steps: a connection, a command, a signal. *)
Definition demo_causes : list Cause :=
  [Arrival; Arrival; Work; Signalled; Work; Work; Work; Work; Work; Work; Work; Work].

Lemma demo_run : daemon_run world_lens command_completes demo_causes (run demo_state) (exited stopped).
Proof.
  eapply run_step; [apply usock_moves, accept_client|].
  eapply run_step; [apply usock_moves, (command_received _ _ _ []); done|].
  eapply run_step; [apply usock_moves, (command_answered _ _ _ []); reflexivity|].
  eapply run_step; [apply signal_received|].
  eapply run_step; [apply network_shut_down; refine (run_val (zoom world_lens shutdown_nat created) [] _);
    vm_compute; reflexivity|].
  eapply run_step; [apply vsock_cancelled|].
  eapply run_step; [apply vsock_joined|].
  eapply run_step; [apply usock_moves, listen_cancelled; reflexivity|].
  eapply run_step; [apply usock_moves, (client_cancelled _ _ _ []); reflexivity|].
  eapply run_step; [apply usock_moves, (client_joined _ _ _ []); done|].
  eapply run_step; [apply usock_moves, listen_returns|].
  eapply run_step; [by apply usock_joined|]. apply run_end.
Qed.

(** Nothing is left to do then. *)
Lemma exited_nf {S} (net : lens S _) command_run (s : S) :
  nf (daemon_step_by net command_run Work) (exited s).
Proof.
  intros [x Hx]. unfold exited in Hx. inversion Hx as [? ? ? ? ? ? ? Hu| | | | | | | | |].
  inversion Hu; match goal with H : ?cs ++ _ :: _ = [] |- _ => destruct cs; discriminate end.
Qed.

(** Once told to stop, the daemon is left with nothing to do. *)
Lemma daemon_stops_when_told_witness :
  all_stopped (exited stopped) ∧
  ∀ cs x, daemon_run world_lens command_completes cs (exited stopped) x →
    length cs ≤ daemon_size (exited stopped) + 3 * arrivals cs.
Proof.
  assert (∀ q s, ∃ s', command_completes q s s') as Hc.
  { intros q s. eexists. reflexivity. }
  destruct (daemon_stops_when_told world_lens command_completes demo_state demo_causes
    (exited stopped) Hc demo_run) as [_ Ht].
  destruct Ht as [Hb Hs]; [discriminate|].
  split; [|exact Hb]. exact (Hs [] (exited stopped) (run_end _ _ _) (exited_nf _ _ _)).
Defined.

(** The handlers of the signals can be installed here. *)
#[global] Instance net_signals : SignalApi NetHost := λ _, mret tt.
#[global] Instance net_signals_keep {O} (obs : NetHost → O) : SignalKeeps obs.
Proof. by intros k s. Qed.

Lemma main_restores_packet_filter_witness :
  links created.2.2.2 !! "tap100" ≠ None ∧ ipt_rules false stopped.2.2.2 = empty_tables.
Proof.
  split; [vm_compute; discriminate|].
  refine (main_restores_packet_filter (Snd := unit) (LogTask := unit) (demo_cli "/run/warden.sock")
    (net_host "") (Ok []) stopped.2.2.2 (net_host_fresh _) _ eq_refl).
  set (x := run (C := WardenCommand) demo_state).
  apply (main_exits _ _ demo_daemon demo_build.2 x (host x) (exited stopped)).
  - exact demo_build_ok.
  - apply rtc_refl.
  - reflexivity.
  - reflexivity.
  - rewrite set_host_id. exact daemon_run_exits.
  - reflexivity.
Defined.

Lemma daemon_keeps_references_witness :
  realms_managers stopped.1 !! 7%N ≠ None ∧ refs_ok [] stopped.
Proof.
  split; [vm_compute; discriminate|].
  apply (daemon_keeps_references (demo_cli "/run/warden.sock") (net_host "") demo_daemon
    demo_build.2 (exited stopped)).
  - exact demo_build_ok.
  - exact daemon_run_exits.
Defined.

(** ** A command that outlives the network *)

(** The command is in progress when the daemon is told to stop, and creates its
    tap device after the network has been shut down. *)
Definition emptied := (zoom world_lens shutdown_nat demo_state).2.
Definition leaked := (ClientHandler.handle_command demo_create emptied).2.

Lemma late_command_leaks_tap :
  rtc (daemon_step world_lens command_completes) (run demo_state) (exited leaked) ∧
  links leaked.2.2.2 !! "tap100" ≠ None.
Proof.
  split; [|vm_compute; discriminate].
  eapply rtc_l; [eexists; apply usock_moves, accept_client|].
  eapply rtc_l; [eexists; apply usock_moves, (command_received _ _ _ []); done|].
  eapply rtc_l; [eexists; apply signal_received|].
  eapply rtc_l; [eexists; apply network_shut_down; refine (run_val (zoom world_lens shutdown_nat demo_state) [] _);
    vm_compute; reflexivity|].
  eapply rtc_l; [eexists; apply usock_moves, (command_answered _ _ _ []); reflexivity|].
  apply drained.
Qed.

(** ** Locks *)

(** A reboot and a listing while the daemon stops. *)
Definition demo_commands : list (WardenClient.WardenCommand * Script) :=
  [(WardenClient.RebootRealm 7, get_realm ++ locked (LRealm 7) (reboot 7 [3%N]));
   (WardenClient.ListRealms, locked LWarden (list_realms [(7%N, true)]))].
Definition demo_tasks : list RealmLocks.Task :=
  (spawn ∘ snd <$> demo_commands) ++ [spawn shutdown_network].

Lemma commands_complete_witness :
  sn step demo_tasks ∧ ∀ ts', rtc step demo_tasks ts' → nf step ts' → completed ts'.
Proof.
  apply (commands_complete demo_commands 0); unfold demo_commands.
  - intros c k. rewrite !elem_of_cons, elem_of_nil. intros [?|[?|?]]; simplify_eq;
      [apply run_reboot_realm|apply run_list_realms|done].
  - right. intros c k. rewrite !elem_of_cons, elem_of_nil. by intros [?|[?|?]]; simplify_eq.
Defined.
