(* ===== verification/ClientScenarios.v ===== *)
(** * Sessions of the command line client and the log of a machine

    The command line client with the daemon of [Scenarios], on a console with a
    small argument parser, and the log of a virtual machine. *)

From S2P Require Import Prelude WardenClient Managers Traits VmRunner VmLog Arc WardenDaemon.
From S2P Require Import ClientHandler ClientLib ClientDaemon CmdClient SimHost Scenarios.

(** Words are separated by blanks; two of the subcommands are known. *)
#[global] Instance demo_libs : CmdLibs (list Z) (gmap string (list Z)) := {|
  shlex_split s := Some (filter (λ w, w ≠ "") (split_on " "%char s));
  try_parse_from argv :=
    match argv with
    | ["list-realms"] => Ok Cmd.ListRealms
    | ["destroy-realm"; "-r"; id] => Ok (Cmd.DestroyRealm id)
    | _ => Err "unrecognized subcommand"
    end;
  hex_decode s := if bool_decide (s = "") then Ok [] else Err "invalid length";
  verify_token t := Ok t;
  fs_write p t := λ fs, (Ok tt, <[p := t]> fs) |}.

Abbreviation DemoConsole := (Console (list Z) (gmap string (list Z))).

Definition demo_console (lines : list string) : DemoConsole :=
  mkConsole (Ok <$> lines) [] (Ok tt) (Ok tt) ∅.

Definition seven : string := uuid_to_string 7.

Lemma terminal_command_outcome_witness :
  ∃ r con', CmdClient.handle_command (Cmd.DestroyRealm seven) (demo_console [], ([], one_realm)) =
    (r, (con', ([], (ClientHandler.handle_command (WardenClient.DestroyRealm 7) one_realm).2))).
Proof.
  destruct (terminal_command_outcome [] (Cmd.DestroyRealm seven) (demo_console []) one_realm
    one_realm_ok) as (r&con'&Hrun&_).
  exists r, con'. exact Hrun.
Defined.

(** A user mistypes a command, then destroys the realm. *)
Definition demo_lines : list string := ["list-relams"; "destroy-realm -r " +:+ seven; "list-realms"].

Lemma session_runs_commands_witness :
  (main_loop 3 (demo_console demo_lines, ([], one_realm))).2.2 =
  ([], (run_commands [WardenClient.DestroyRealm 7; WardenClient.ListRealms] one_realm).2).
Proof.
  assert (interactive (demo_console demo_lines)) as Hi by done.
  pose proof (session_runs_commands (demo_console demo_lines) one_realm Hi) as Hs.
  change (length (input (demo_console demo_lines))) with 3 in Hs. cbv zeta in Hs.
  destruct (main_loop 3 _) as [r [con' x]]. destruct Hs as (_&_&->). simpl snd. do 3 f_equal.
Defined.

Lemma end_of_input_spins_witness :
  main_loop 1000 (demo_console [], ([], one_realm)) =
  (Ok tt, (shows (mjoin (replicate 1000 (spin "unrecognized subcommand"))) (demo_console []),
           ([], one_realm))).
Proof.
  apply (end_of_input_spins "unrecognized subcommand" (demo_console []) ([], one_realm) 1000);
    reflexivity || done.
Defined.

(** ** The log of a machine *)



Lemma closed_output_spins_witness :
  let gone := mkReader "" "" (Some (Ok tt)) in
  length (outputs (log_run (Poll <$> replicate 1000 true) (mkLogTask gone gone []))) = 1000.
Proof.
  intros gone. apply (closed_output_spins 7%N (replicate 1000 true) (mkLogTask gone gone [])).
  by left.
Defined.
