(* ===== verification/FullHost.v ===== *)
(** * The whole daemon on a whole host

    The host of [SimHost] (files, partition tables, processes, a realm that
    answers) together with the network of [NetScenarios], and runs of the theorems
    about the realms of the daemon on it. *)

From S2P Require Import Prelude WardenClient WardenRealm Managers Traits Storage ApplicationDisk.
From S2P Require Import ApplicationManager RealmClientHandler RealmManager VmRunner Arc WardenDaemon.
From S2P Require Import ClientHandler Fabric IpNet IpTables Dnsmasq NatManager UnixSocketServer.
From S2P Require Import Daemon DaemonRun RealmTable RealmLayout WholeDaemon DaemonRealms AppStorage.
From S2P Require Import NetScenarios SimHost.

#[local] Existing Instance host_uuid.

(** The network in front of the files, disks and processes, which [files_behind]
    and the like reach. *)
Abbreviation FullHost := (NetHost * Host)%type.

#[global] Instance full_iptables : IpTablesApi FullHost bool := {
  iptables_new v6 := zoom self_lens (iptables_new v6);
  ipt_chain_exists v6 t c := zoom self_lens (ipt_chain_exists v6 t c);
  ipt_new_chain v6 t c := zoom self_lens (ipt_new_chain v6 t c);
  ipt_append_replace v6 t c r := zoom self_lens (ipt_append_replace v6 t c r);
  ipt_flush_chain v6 t c := zoom self_lens (ipt_flush_chain v6 t c);
  ipt_delete v6 t c r := zoom self_lens (ipt_delete v6 t c r);
  ipt_delete_chain v6 t c := zoom self_lens (ipt_delete_chain v6 t c) }.

#[global] Instance full_netlink : NetlinkApi FullHost unit unit := {
  new_connection := zoom self_lens new_connection;
  task_abort t w := (task_abort t w.1, w.2);
  link_get h n := zoom self_lens (link_get h n);
  link_add_bridge h n := zoom self_lens (link_add_bridge h n);
  link_del h i := zoom self_lens (link_del h i);
  link_set_up h i := zoom self_lens (link_set_up h i);
  link_set_controller h i j := zoom self_lens (link_set_controller h i j);
  link_set_nocontroller h i := zoom self_lens (link_set_nocontroller h i);
  address_add h i a n := zoom self_lens (address_add h i a n);
  tun_build n := zoom self_lens (tun_build n) }.

#[global] Instance full_sockets : UnixSocketApi FullHost string := {|
  path_exists p w := bool_decide (is_Some (files w.2 !! p));
  remove_file p := λ w, (Ok tt, (w.1, set_files (delete p (files w.2)) w.2));
  unix_listener_bind p := λ w, (Ok p, (w.1, set_files (<[p := ""]> (files w.2)) w.2)) |}.

Definition full_host : FullHost :=
  (net_host "", mkHost ∅ ∅ {["/var/warden"]} 1000 true false None).
Definition full_cli : Cli :=
  Cli_defaults "/usr/bin/qemu" "/run/warden.sock" "/var/warden" "/usr/sbin/dnsmasq".

Abbreviation FullDaemon := (Daemon.Daemon (Snd := unit) (L := string) (Child := bool) (LogTask := unit)).
Definition full_build := build (Snd := unit) (LogTask := unit) full_cli full_host.
Definition full_daemon : FullDaemon :=
  run_value (mkDaemon (create_vsock_server 2 80) (mkUnixSocketServer "")
    (WardenDaemon.new ∅ (Daemon.realm_fabric full_cli), ∅)
    (mkNetworkManagerHandler (IpTables.mkNetworkConfig "" (network_address full_cli))
      (mkRtNetLinkBridge "") (mkDnsmasqServerHandler (mkCommand "" []) 0 None) ∅)) full_build.
Lemma full_build_ok : full_build = (Ok full_daemon, full_build.2).
Proof. refine (run_value_ok _ full_build _). vm_compute. reflexivity. Qed.

Definition full_state := built full_daemon full_build.2.

(** ** A client that creates two realms and starts one of them *)

Definition full_config (id : Uuid) (tap : string) : WardenClient.RealmConfig :=
  WardenClient.mkRealmConfig (Some id) "virt" (WardenClient.mkCpuConfig "max" 2)
    (WardenClient.mkMemoryConfig 512)
    (WardenClient.mkNetworkConfig 12 tap "52:55:00:d1:55:01" None None)
    (WardenClient.mkKernelConfig "/boot/Image" None None) None.

Definition full_commands : list WardenCommand :=
  [WardenClient.CreateRealm (full_config 7 "tap7"); WardenClient.CreateRealm (full_config 8 "tap8");
   WardenClient.CreateApplication 7 (WardenClient.mkApplicationConfig "app" "1.0" "registry" 4 8);
   WardenClient.StartRealm 7].

(** One client, whose commands are served one after the other. *)
Definition serving {S} (s : S) : Running (C := WardenCommand) (S := S) :=
  mkRunning Selecting false true (mkServer Listening [Reading] s) [].

Lemma commands_served commands s :
  rtc (daemon_step world_lens command_completes) (serving s)
    (serving (ClientHandler.run_commands commands s).2).
Proof.
  revert s. induction commands as [|q commands IH]; intros s; [done|].
  eapply rtc_l; [eexists; apply usock_moves, (command_received _ _ _ []); done|].
  eapply rtc_l; [eexists; apply usock_moves, (command_answered _ _ _ []); reflexivity|].
  replace (ClientHandler.run_commands (q :: commands) s).2
    with (ClientHandler.run_commands commands (ClientHandler.handle_command q s).2).2; [apply IH|].
  cbn [ClientHandler.run_commands]. destruct (ClientHandler.handle_command q s) as [r s1].
  cbn [snd]. by destruct (ClientHandler.run_commands commands s1).
Qed.

Definition full_started := (ClientHandler.run_commands full_commands full_state).2.

Lemma full_run :
  rtc (daemon_step world_lens command_completes) (run full_state) (serving full_started).
Proof.
  eapply rtc_l; [eexists; apply usock_moves, accept_client|]. apply (commands_served full_commands).
Qed.

Lemma full_reached : daemon_reaches full_cli full_host full_started.
Proof.
  exists full_daemon, full_build.2, (serving full_started). split; [exact full_build_ok|].
  split; [exact full_run|reflexivity].
Qed.

Definition full_realm (u : Uuid) := realm_at full_started u.

(** Realm 7 runs with an application, realm 8 is halted. *)
Lemma full_running : ∃ m, full_realm 7 = Some m ∧ Managers.Running = rm_state m.
Proof. apply fmap_Some. vm_compute. reflexivity. Qed.
Lemma full_halted : ∃ m, full_realm 8 = Some m ∧ Halted = rm_state m.
Proof. apply fmap_Some. vm_compute. reflexivity. Qed.
Lemma full_app : ∃ m, full_realm 7 = Some m ∧ 1 = length (app_keys m).
Proof. apply (fmap_Some (λ m, length (app_keys m))). vm_compute. reflexivity. Qed.

Lemma live_realms_have_machines_witness :
  ∃ m, full_realm 7 = Some m ∧ launched (rm_vm_manager m) = true.
Proof.
  destruct full_running as (m&Hm&Hst). exists m. split; [exact Hm|].
  apply (live_realms_have_machines full_cli full_host full_started 7 m full_reached Hm). rewrite <-Hst. discriminate.
Defined.

Lemma commands_isolate_realms_witness :
  ∃ m, full_realm 8 = Some m ∧
    realm_at (ClientHandler.handle_command (WardenClient.StopRealm 7) full_started).2 8 = Some m.
Proof.
  destruct full_halted as (m&Hm&_). exists m. split; [exact Hm|].
  apply (commands_isolate_realms full_cli full_host full_started
    (WardenClient.StopRealm 7) 8 m full_reached);
    [discriminate..|exact Hm].
Defined.

(** The command line of realm 7. *)
Lemma machines_run_their_realm_witness :
  ∃ m, full_realm 7 = Some m ∧ 1 = length (app_keys m) ∧
    path (rm_config m) =
      create_config_path (create_workdir_path_with_uuid (cli_warden_workdir_path full_cli) 7).
Proof.
  destruct full_app as (m&Hm&Hl). exists m. split; [exact Hm|]. split; [exact Hl|].
  apply (machines_run_their_realm full_cli full_host full_started 7 m full_reached Hm).
Defined.
