(* ===== verification/TestUtilities.v ===== *)
(** * The collaborators of the unit tests

    [warden_daemon/src/utils/test_utilities.rs]: example values and mock objects.
    The unit tests of the repository are run on the model in the files [Tests...]:
    a test is a Boolean, which says that all its assertions hold and that no mock
    was called against its expectations. *)

From S2P Require Import Prelude WardenClient WardenRealm Managers JsonFramed RealmClientHandler.
From S2P Require Import Arc WardenDaemon.
From S2P Require Import Traits.

(** ** Expectations

    What is expected of one method of a mock object: nothing, any number of calls,
    or one call, which may have happened.  Of two expectations for the same method
    the one that was set first counts, and a call that is not expected panics. *)

Inductive expectation (R : Type) := Unset | Returning (r : R) | ReturnOnce (r : R) | Spent.
Arguments Unset {R}.
Arguments Returning {R} _.
Arguments ReturnOnce {R} _.
Arguments Spent {R}.

Definition expect {R} (e old : expectation R) : expectation R :=
  match old with Unset => e | _ => old end.

(** A sender, as a realm is connected by one. *)
Record MockRealmSender := mkMockRealmSender {
  expect_send : expectation (Request → result unit RealmSenderError);
  expect_receive_response : expectation (result Response RealmSenderError) }.
Definition MockRealmSender_new : MockRealmSender := mkMockRealmSender Unset Unset.

(** What the tests share: whether a mock panicked, the next random identifier, and
    what waiting for a realm at the mock connector gives. *)
Record TestWorld := mkTestWorld {
  panicked : bool;
  next_id : N;
  expect_acquire_realm_sender : expectation (WaitOutcome MockRealmSender) }.
Definition panic (w : TestWorld) : TestWorld :=
  mkTestWorld true (next_id w) (expect_acquire_realm_sender w).
Definition test_world : TestWorld := mkTestWorld false 4000 Unset.

(** A call of a method of a mock: what was expected of it, and the mock after the
    one call that was expected. *)
Definition call_mock {M R E A} (get : M → expectation R) (spend : M → M) (f : R → result A E)
    (dead : E) : eff (M * TestWorld) E A := λ s,
  match get s.1 with
  | Returning r => (f r, s)
  | ReturnOnce r => (f r, (spend s.1, s.2))
  | Unset | Spent => (Err dead, (s.1, panic s.2))
  end.

(** The same for a method on [&self]. *)
Definition call_const {R E A} (e : expectation R) (f : R → result A E) (dead : E) : eff TestWorld E A :=
  λ w, match e with
       | Returning r | ReturnOnce r => (f r, w)
       | Unset | Spent => (Err dead, panic w)
       end.

#[global] Instance test_runtime : Runtime TestWorld := {|
  completion_order _ us := us;
  task_panic _ _ := None;
  task_ran _ _ := true;
  new_v4 w := (next_id w, mkTestWorld (panicked w) (next_id w + 1) (expect_acquire_realm_sender w)) |}.

#[global] Instance test_uuid : UuidApi := {|
  uuid_to_string u := pretty u;
  uuid_from_str _ := Err "not a number" |}.
#[global] Instance test_exit_status : ExitStatusFmt := λ z, "exit status: " +:+ pretty z.
#[global] Instance test_debug (A : Type) : Debug A := λ _, "debug".

(** [Uuid::new_v4()] in a test. *)
Definition new_uuid : Uuid := 1234.

(** ** Example values *)

Definition create_example_realm_data : RealmData := mkRealmData Halted [] [].
Definition create_example_uuid : Uuid := 0xa46289a45902458681a3908bdd62e7a1%N.
Definition create_example_realm_description : RealmDescription :=
  mkRealmDescription create_example_uuid create_example_realm_data.
Definition create_example_client_app_config : WardenClient.ApplicationConfig :=
  WardenClient.mkApplicationConfig "" "" "" 0 0.
Definition create_example_realm_config : RealmConfig :=
  mkRealmConfig "" (mkCpuConfig "" 0) (mkMemoryConfig 0) (mkNetworkConfig 0 "" "" None None)
    (mkKernelConfig "" None None) None.
Definition create_example_app_config : ApplicationConfig := mkApplicationConfig "" "" "" 0 0.
Definition create_example_realm_provisioning_config : RealmProvisioningConfig :=
  mkRealmProvisioningConfig [].
Definition create_example_application_data : ApplicationData := mkApplicationData 0 "" "" "" 0 0.

(** ** Mock objects *)

#[global] Instance MockRealmSender_sender : RealmSender TestWorld MockRealmSender := {|
  sender_send data := call_mock expect_send
    (λ m, mkMockRealmSender Spent (expect_receive_response m)) (λ f, f data) Timeout;
  receive_response _ := call_mock expect_receive_response
    (λ m, mkMockRealmSender (expect_send m) Spent) (λ r, r) Timeout |}.

(** The receiver that the mock connector returns holds what the wait will give. *)
#[global] Instance MockRealmConnector_connector :
    RealmConnector TestWorld MockRealmSender (WaitOutcome MockRealmSender) := {|
  connector_acquire_realm_sender _ w :=
    match expect_acquire_realm_sender w with
    | Returning rx => (rx, w)
    | ReturnOnce rx => (rx, mkTestWorld (panicked w) (next_id w) Spent)
    | Unset | Spent => (Elapsed, panic w)
    end;
  wait_for_sender rx _ w := (rx, w) |}.

Record MockVmManager := mkMockVmManager {
  expect_get_status : expectation (result VmStatus VmManagerError);
  expect_launch_vm : expectation (result unit VmManagerError);
  expect_vm_shutdown : expectation (result unit VmManagerError) }.
Definition MockVmManager_new : MockVmManager := mkMockVmManager Unset Unset Unset.

#[global] Instance MockVmManager_manager : VmManager TestWorld MockVmManager := {|
  launch_vm _ := call_mock expect_launch_vm
    (λ m, mkMockVmManager (expect_get_status m) Spent (expect_vm_shutdown m)) (λ r, r) VmNotLaunched;
  vm_shutdown := call_mock expect_vm_shutdown
    (λ m, mkMockVmManager (expect_get_status m) (expect_launch_vm m) Spent) (λ r, r) VmNotLaunched;
  get_status := call_mock expect_get_status
    (λ m, mkMockVmManager Spent (expect_launch_vm m) (expect_vm_shutdown m)) (λ r, r) VmNotLaunched |}.

(** The methods of the realm client that the tests use. *)
Record MockRealmClient := mkMockRealmClient {
  expect_try_connect_and_provision_apps : expectation (result unit RealmClientError);
  expect_provision_applications : expectation (result unit RealmClientError);
  expect_start_application : expectation (result unit RealmClientError);
  expect_stop_application : expectation (result unit RealmClientError);
  expect_kill_application : expectation (result unit RealmClientError);
  expect_shutdown_realm : expectation (result unit RealmClientError);
  expect_reboot_realm : expectation (result unit RealmClientError);
  expect_read_realm_ifs : expectation (result (list RealmNetwork) RealmClientError) }.
Definition MockRealmClient_new : MockRealmClient :=
  mkMockRealmClient Unset Unset Unset Unset Unset Unset Unset Unset.

(** An expectation of one call is spent by the call, on the field it is set on;
    the tests set them on the two methods below only. *)
Definition spend_provision (m : MockRealmClient) : MockRealmClient :=
  mkMockRealmClient Spent (expect_provision_applications m) (expect_start_application m)
    (expect_stop_application m) (expect_kill_application m) (expect_shutdown_realm m)
    (expect_reboot_realm m) (expect_read_realm_ifs m).
Definition spend_ifs (m : MockRealmClient) : MockRealmClient :=
  mkMockRealmClient (expect_try_connect_and_provision_apps m) (expect_provision_applications m)
    (expect_start_application m) (expect_stop_application m) (expect_kill_application m)
    (expect_shutdown_realm m) (expect_reboot_realm m) Spent.

Definition call_client {A} (get : MockRealmClient → expectation (result A RealmClientError))
    (spend : MockRealmClient → MockRealmClient) : eff (MockRealmClient * TestWorld) RealmClientError A :=
  call_mock get spend (λ r, r) RealmDisconnection.
Definition unexpected {A} : eff (MockRealmClient * TestWorld) RealmClientError A :=
  call_mock (λ _, Unset) (λ m, m) (λ r : result A RealmClientError, r) RealmDisconnection.

#[global] Instance MockRealmClient_client : RealmClient TestWorld MockRealmClient := {|
  try_connect_and_provision_apps _ _ := call_client expect_try_connect_and_provision_apps spend_provision;
  try_connect_and_fetch_attestation_token _ _ := unexpected;
  try_connect _ := unexpected;
  client_fetch_attestation_token _ := unexpected;
  provision_applications _ := call_client expect_provision_applications (λ m, m);
  start_application _ := call_client expect_start_application (λ m, m);
  stop_application _ := call_client expect_stop_application (λ m, m);
  read_realm_ifs := call_client expect_read_realm_ifs spend_ifs;
  kill_application _ := call_client expect_kill_application (λ m, m);
  shutdown_realm := call_client expect_shutdown_realm (λ m, m);
  reboot_realm _ _ := call_client expect_reboot_realm (λ m, m) |}.

Record MockApplication := mkMockApplication {
  expect_stop : expectation (result unit ApplicationError);
  expect_start : expectation (result unit ApplicationError);
  expect_update_config : expectation (result unit ApplicationError);
  expect_configure_disk : expectation (result unit ApplicationError);
  expect_get_data : expectation (result ApplicationData ApplicationError) }.
Definition MockApplication_new : MockApplication := mkMockApplication Unset Unset Unset Unset Unset.

Definition call_application {A} (get : MockApplication → expectation (result A ApplicationError))
    : eff (MockApplication * (MockRealmClient * TestWorld)) ApplicationError A := λ s,
  let '(r, (m, w)) := call_mock get (λ m, m) (λ r, r) (ApplicationStop "") (s.1, s.2.2) in
  (r, (m, (s.2.1, w))).

#[global] Instance MockApplication_application :
    Application TestWorld MockRealmClient MockApplication := {|
  app_stop := call_application expect_stop;
  app_start := call_application expect_start;
  app_update_config _ := call_application expect_update_config;
  app_configure_disk := call_application expect_configure_disk;
  app_get_data m := call_const (expect_get_data m) (λ r, r) (ApplicationStop "") |}.

Record MockApplicationFabric := mkMockApplicationFabric {
  expect_create_application : expectation (result MockApplication RealmError) }.

#[global] Instance MockApplicationFabric_creator :
    ApplicationCreator TestWorld MockApplication MockApplicationFabric := {|
  fabric_create_application f _ _ :=
    call_const (expect_create_application f) (λ r, r) (ApplicationCreationFail "");
  fabric_load_application _ _ :=
    call_const (R := result MockApplication RealmError) Unset (λ r, r) (ApplicationCreationFail "") |}.

(** A repository: the value [get] and [get_mut] give access to, and the outcome of
    [save]. *)
Record MockRepository (D : Type) := mkMockRepository {
  mock_data : D;
  expect_save : expectation (result unit RepositoryError) }.
Arguments mkMockRepository {D} _ _.
Arguments mock_data {D} _.
Arguments expect_save {D} _.
Abbreviation MockRealmRepository := (MockRepository RealmConfig).
Abbreviation MockApplicationRepository := (MockRepository ApplicationConfig).

#[global] Instance MockRepository_repository {D} : Repository TestWorld (MockRepository D) D := {|
  repo_get := mock_data;
  repo_set d r := mkMockRepository d (expect_save r);
  repo_save := call_mock expect_save (λ r, mkMockRepository (mock_data r) Spent) (λ r, r) (SaveFail "") |}.

Record MockApplicationDisk := mkMockApplicationDisk {
  expect_create_disk_with_partitions : expectation (result unit ApplicationError);
  expect_update_disk_with_partitions : expectation (result unit ApplicationError);
  expect_get_data_partition_uuid : expectation (result Uuid ApplicationError);
  expect_get_image_partition_uuid : expectation (result Uuid ApplicationError) }.
Definition MockApplicationDisk_new : MockApplicationDisk := mkMockApplicationDisk Unset Unset Unset Unset.

#[global] Instance MockApplicationDisk_disk : ApplicationDisk TestWorld MockApplicationDisk := {|
  disk_create_with_partitions d :=
    call_const (expect_create_disk_with_partitions d) (λ r, r) (DiskOpertaion "");
  disk_update_with_partitions _ _ :=
    call_mock expect_update_disk_with_partitions (λ d, d) (λ r, r) (DiskOpertaion "");
  disk_get_data_partition_uuid d :=
    call_const (expect_get_data_partition_uuid d) (λ r, r) (DiskOpertaion "");
  disk_get_image_partition_uuid d :=
    call_const (expect_get_image_partition_uuid d) (λ r, r) (DiskOpertaion "") |}.

(** A realm; an application it is asked for is a mock, too. *)
Record MockRealm := mkMockRealm {
  expect_fetch_attestation_token : expectation (result (list Z) RealmError);
  expect_realm_start : expectation (result unit RealmError);
  expect_realm_stop : expectation (result unit RealmError);
  expect_realm_reboot : expectation (result unit RealmError);
  expect_realm_create_application : expectation (result Uuid RealmError);
  expect_update_application : expectation (result unit RealmError);
  expect_get_application : expectation (Uuid → result MockApplication RealmError);
  expect_get_realm_data : expectation (result RealmData RealmError);
  expect_destroy : expectation (result unit RealmError) }.
Definition MockRealm_new : MockRealm := mkMockRealm Unset Unset Unset Unset Unset Unset Unset Unset Unset.

(** A realm of which only the data and the destruction are expected. *)
Definition data_realm (data : result RealmData RealmError) (destroy : expectation (result unit RealmError))
    : MockRealm := mkMockRealm Unset Unset Unset Unset Unset Unset Unset (Returning data) destroy.
(** A realm that is only asked for applications. *)
Definition application_realm (app : expectation (Uuid → result MockApplication RealmError)) : MockRealm :=
  mkMockRealm Unset Unset Unset Unset Unset Unset app Unset Unset.

Definition call_realm {A} (get : MockRealm → expectation (result A RealmError))
    : eff (MockRealm * TestWorld) RealmError A := call_mock get (λ m, m) (λ r, r) (RealmStopFail "").
Definition spend_get_application (m : MockRealm) : MockRealm :=
  mkMockRealm (expect_fetch_attestation_token m) (expect_realm_start m) (expect_realm_stop m) (expect_realm_reboot m)
    (expect_realm_create_application m) (expect_update_application m) Spent (expect_get_realm_data m)
    (expect_destroy m).

#[global] Instance MockRealm_realm : Realm TestWorld MockRealm MockApplication := {|
  realm_start := call_realm expect_realm_start;
  realm_stop := call_realm expect_realm_stop;
  realm_reboot := call_realm expect_realm_reboot;
  realm_create_application _ := call_realm expect_realm_create_application;
  realm_update_application _ _ := call_realm expect_update_application;
  realm_get_application u := call_mock expect_get_application spend_get_application (λ f, f u) (RealmStopFail "");
  realm_get_realm_data := call_realm expect_get_realm_data;
  realm_fetch_attestation_token _ := call_realm expect_fetch_attestation_token;
  realm_destroy := call_realm expect_destroy;
  application_start a := zoom snd_lens (call_const (expect_start a) (λ r, r) (ApplicationStart ""));
  application_stop a := zoom snd_lens (call_const (expect_stop a) (λ r, r) (ApplicationStop "")) |}.

Record MockRealmManagerCreator := mkMockRealmManagerCreator {
  expect_create_realm : expectation (result MockRealm WardenError);
  expect_clean_up_realm : expectation (result unit WardenError) }.

#[global] Instance MockRealmManagerCreator_creator :
    RealmCreator TestWorld MockRealm MockRealmManagerCreator := {|
  fabric_create_realm f _ _ := call_const (expect_create_realm f) (λ r, r) RealmIsBusy;
  fabric_load_realm _ _ := call_const (R := result MockRealm WardenError) Unset (λ r, r) RealmIsBusy;
  fabric_clean_up_realm f _ := call_const (expect_clean_up_realm f) (λ r, r) RealmIsBusy |}.

(** A warden.  The realm that [get_realm] returns is behind a reference of its own; an
    application is reached through its realm here, so the test holds another one. *)
Record MockWardenDaemon := mkMockWardenDaemon {
  expect_warden_create_realm : expectation (result Uuid WardenError);
  expect_destroy_realm : expectation (result unit WardenError);
  expect_list_realms : expectation (result (list RealmDescription) WardenError);
  expect_inspect_realm : expectation (result RealmDescription WardenError);
  expect_get_realm : expectation (Uuid → result MockRealm WardenError) }.
Definition MockWardenDaemon_new : MockWardenDaemon := mkMockWardenDaemon Unset Unset Unset Unset Unset.

Abbreviation MockSt := (MockWardenDaemon * (Arcs MockRealm * TestWorld))%type.
Definition unexpected_warden {A} : eff MockSt (fault WardenError) A := λ s,
  (Err (Panic "no expectation"), (s.1, (s.2.1, panic s.2.2))).

Definition call_warden {A} (get : MockWardenDaemon → expectation (result A WardenError))
    : eff MockSt (fault WardenError) A := λ s,
  match get s.1 with
  | Returning r => (map_err_r Fail r, s)
  | _ => unexpected_warden s
  end.

Definition mock_get_realm (u : Uuid) : eff MockSt (fault WardenError) ArcId := λ s,
  match expect_get_realm s.1 with
  | ReturnOnce f =>
      let m := mkMockWardenDaemon (expect_warden_create_realm s.1) (expect_destroy_realm s.1)
        (expect_list_realms s.1) (expect_inspect_realm s.1) Spent in
      match f u with
      | Ok realm => let '(a, h) := arc_new realm s.2.1 in (Ok a, (m, (arc_clone a h, s.2.2)))
      | Err e => (Err (Fail e), (m, s.2))
      end
  | _ => unexpected_warden s
  end.

#[global] Instance MockWardenDaemon_warden : Warden TestWorld MockRealm MockWardenDaemon := {|
  warden_create_realm _ _ := call_warden expect_warden_create_realm;
  warden_destroy_realm _ := call_warden expect_destroy_realm;
  warden_get_realm := mock_get_realm;
  warden_inspect_realm _ := call_warden expect_inspect_realm;
  warden_list_realms := call_warden expect_list_realms |}.

(** ** Assertions *)

(** [assert_eq!]. *)
Definition asserts {A} `{EqDecision A} (a b : A) : bool := bool_decide (a = b).

#[global] Instance result_eq_dec {A E} `{EqDecision A, EqDecision E} : EqDecision (result A E).
Proof. solve_decision. Defined.
#[global] Instance fault_eq_dec {E} `{EqDecision E} : EqDecision (fault E).
Proof. solve_decision. Defined.
#[global] Instance RealmNetwork_eq_dec : EqDecision RealmNetwork.
Proof. solve_decision. Defined.
#[global] Instance RealmData_eq_dec : EqDecision RealmData.
Proof. solve_decision. Defined.
#[global] Instance RealmDescription_eq_dec : EqDecision RealmDescription.
Proof. solve_decision. Defined.
#[global] Instance ApplicationError_eq_dec : EqDecision ApplicationError.
Proof. solve_decision. Defined.
#[global] Instance VmStatus_eq_dec : EqDecision VmStatus.
Proof. solve_decision. Defined.

(** A test calls an operation on an object and looks at the result and the object
    after it; no mock may have panicked. *)
Definition run_test {S E A} (c : eff (S * TestWorld) E A) (s : S) (check : result A E → S → bool)
    : bool :=
  let '(r, (s', w)) := c (s, test_world) in check r s' && negb (panicked w).

(** A parameterized test. *)
Definition parameterized {A} (l : list A) (test : A → bool) : bool := forallb test l.
