(* ===== verification/TestsRealmManager.v ===== *)
(** * The unit tests of the realm manager

    The module [test] of [warden_daemon/src/managers/realm_manager.rs], run on the
    model of the realm manager with the mock objects of [TestUtilities]. *)

From S2P Require Import Prelude Managers TestUtilities.
From S2P Require Import RealmManager.

Abbreviation RM :=
  (RealmManager MockRealmRepository MockApplication MockVmManager MockRealmClient MockApplicationFabric).

Definition create_realm_manager (vm_manager : option MockVmManager)
    (realm_client_handler : option MockRealmClient) : RM :=
  let vm := default MockVmManager_new vm_manager in
  let vm_manager :=
    mkMockVmManager (expect (Returning (Ok Launched)) (expect_get_status vm))
      (expect (Returning (Ok tt)) (expect_launch_vm vm))
      (expect (Returning (Ok tt)) (expect_vm_shutdown vm)) in
  let c := default MockRealmClient_new realm_client_handler in
  let realm_client_handler :=
    mkMockRealmClient (expect (Returning (Ok tt)) (expect_try_connect_and_provision_apps c))
      (expect (Returning (Ok tt)) (expect_provision_applications c))
      (expect (Returning (Ok tt)) (expect_start_application c))
      (expect (Returning (Ok tt)) (expect_stop_application c))
      (expect (Returning (Ok tt)) (expect_kill_application c))
      (expect (Returning (Ok tt)) (expect_shutdown_realm c))
      (expect (Returning (Ok tt)) (expect_reboot_realm c))
      (expect (Returning (Ok [])) (expect_read_realm_ifs c)) in
  let app_mock := mkMockApplication Unset Unset (Returning (Ok tt)) Unset Unset in
  let creator_mock := mkMockApplicationFabric (ReturnOnce (Ok app_mock)) in
  let repository := mkMockRepository create_example_realm_config (Returning (Ok tt)) in
  new repository ∅ vm_manager realm_client_handler creator_mock.

(** The manager after a test has created an application and put the manager in a
    state. *)
Definition created (st : State) : eff (RM * TestWorld) RealmError Uuid :=
  uuid ← create_application create_example_app_config;
  assign_state st;;
  mret uuid.
Definition created_in (st : State) {A} (k : Uuid → eff (RM * TestWorld) RealmError A)
    : eff (RM * TestWorld) RealmError A := uuid ← created st; k uuid.

(** Set expectations of the application stored under [uuid], behind its handle. *)
Definition expect_of_application (uuid : Uuid) (f : MockApplication → MockApplication)
    : eff (RM * TestWorld) RealmError unit :=
  get_application uuid;;
  modify (λ s, (set_applications (alter f uuid (rm_applications s.1)) s.1, s.2)).

Definition expecting_configure_disk (r : result unit ApplicationError) (m : MockApplication) :=
  mkMockApplication (expect_stop m) (expect_start m) (expect_update_config m)
    (expect (Returning r) (expect_configure_disk m)) (expect_get_data m).
Definition expecting_get_data (r : result ApplicationData ApplicationError) (m : MockApplication) :=
  mkMockApplication (expect_stop m) (expect_start m) (expect_update_config m)
    (expect_configure_disk m) (expect (Returning r) (expect_get_data m)).

Definition is_state (st : State) (m : RM) : bool := asserts (rm_state m) st.

Definition new_test : bool :=
  let realm_manager := create_realm_manager None None in
  is_state Halted realm_manager && asserts (size (rm_applications realm_manager)) 0%nat.

Definition realm_start_test : bool :=
  run_test start (create_realm_manager None None) (λ r m, asserts r (Ok tt) && is_state Running m).

Definition realm_start_invalid_action_test : bool :=
  parameterized [Provisioning; Running; NeedReboot] (λ st,
    run_test start (set_state st (create_realm_manager None None)) (λ r _,
      asserts r (Err (UnsupportedAction "Can't start realm that is not halted.")))).

Definition start_respnse_handle_test : bool :=
  run_test (handle_start_response (Ok tt)) (create_realm_manager None None) (λ r _, is_ok r).

Definition handle_start_response_of (vm_manager_mock : MockVmManager)
    (check : RealmError → bool) : bool :=
  run_test (handle_start_response (Err RealmDisconnection))
    (create_realm_manager (Some vm_manager_mock) None)
    (λ r _, match r with Err e => check e | Ok _ => false end).

Definition start_response_handle_vm_not_launched_test : bool :=
  handle_start_response_of (mkMockVmManager (Returning (Ok (Exited 0))) Unset Unset)
    (λ e, match e with RealmStartFail _ => true | _ => false end).

Definition start_response_handle_vm_destroy_error_test : bool :=
  handle_start_response_of
    (mkMockVmManager (Returning (Ok Launched)) Unset (Returning (Err VmNotLaunched)))
    (λ e, match e with VmDestroyFail _ => true | _ => false end).

Definition start_response_handle_vm_destroy_success_test : bool :=
  handle_start_response_of (mkMockVmManager (Returning (Ok Launched)) Unset (Returning (Ok tt)))
    (λ e, match e with RealmStartFail _ => true | _ => false end).

Definition realm_start_launching_vm_error_test : bool :=
  run_test start
    (create_realm_manager (Some (mkMockVmManager Unset (Returning (Err (Launch ""))) Unset)) None)
    (λ r m, asserts r (Err (RealmLaunchFail "Unable to launch Vm: ")) && is_state Halted m).

Definition client_expecting_provision (r : result unit RealmClientError) : MockRealmClient :=
  mkMockRealmClient (ReturnOnce r) Unset Unset Unset Unset Unset Unset Unset.
Definition client_expecting_ifs (r : result (list RealmNetwork) RealmClientError) : MockRealmClient :=
  mkMockRealmClient Unset Unset Unset Unset Unset Unset Unset (ReturnOnce r).

Definition realm_start_launching_acknowledgment_error_test : bool :=
  run_test start
    (create_realm_manager None (Some (client_expecting_provision (Err (RealmConnectionFail "")))))
    (λ r m, negb (is_ok r) && is_state Halted m).

Definition create_provisioning_config_no_apps_test : bool :=
  run_test create_provisioning_config (create_realm_manager None None) (λ r _,
    match r with Ok c => asserts (length (applications_data c)) 0%nat | Err _ => false end).

Definition get_realm_data_stopped_test : bool :=
  parameterized [Provisioning; Halted] (λ st,
    run_test get_realm_data (set_state st (create_realm_manager None None)) (λ r _,
      match r with
      | Ok d => asserts (length (applications d)) 0%nat && asserts (length (ips d)) 0%nat
                && asserts (state d) st
      | Err _ => false
      end)).

Definition get_realm_data_running_test : bool :=
  let localhost := mkRealmNetwork (V4 0x7f000001) "" in
  parameterized [Running; NeedReboot] (λ st,
    run_test get_realm_data
      (set_state st (create_realm_manager None (Some (client_expecting_ifs (Ok [localhost]))))) (λ r _,
      match r with
      | Ok d => asserts (length (applications d)) 0%nat && asserts (length (ips d)) 1%nat
                && asserts (state d) st
      | Err _ => false
      end)).

Definition get_realm_data_error_test : bool :=
  parameterized [Running; NeedReboot] (λ st,
    run_test get_realm_data
      (set_state st
        (create_realm_manager None (Some (client_expecting_ifs (Err (RealmConnectionFail "")))))) (λ r _,
      match r with Err (RealmAcuireIpsFail _) => true | _ => false end)).

Definition prepare_applications_no_apps_test : bool :=
  run_test prepare_applications (create_realm_manager None None) (λ r _, is_ok r).

Definition prepare_applications_test : bool :=
  run_test (created_in Running (λ uuid,
      expect_of_application uuid (expecting_configure_disk (Ok tt));; prepare_applications))
    (create_realm_manager None None) (λ r _, asserts r (Ok tt)).

Definition prepare_applications_error_test : bool :=
  run_test (created_in Running (λ uuid,
      expect_of_application uuid (expecting_configure_disk (Err (DiskOpertaion "")));;
      prepare_applications))
    (create_realm_manager None None) (λ r _,
      match r with Err (ApplicationOperation _) => true | _ => false end).

Definition create_provisioning_config_app_error_test : bool :=
  run_test (created_in Running (λ uuid,
      expect_of_application uuid (expecting_get_data (Err (DiskOpertaion "")));;
      create_provisioning_config))
    (create_realm_manager None None) (λ r _,
      match r with Err (ApplicationOperation _) => true | _ => false end).

Definition create_provisioning_config_test : bool :=
  run_test (created_in Running (λ uuid,
      expect_of_application uuid (expecting_get_data (Ok create_example_application_data));;
      create_provisioning_config))
    (create_realm_manager None None) (λ r _,
      match r with Ok c => bool_decide (is_Some (applications_data c !! 0%nat)) | Err _ => false end).

Definition stop_realm_test : bool :=
  parameterized [Running; NeedReboot] (λ st,
    run_test stop (set_state st (create_realm_manager None None)) (λ r m,
      asserts r (Ok tt) && is_state Halted m)).

Definition stop_realm_invalid_state_test : bool :=
  parameterized [Halted; Provisioning] (λ st,
    run_test stop (set_state st (create_realm_manager None None)) (λ r m,
      asserts r (Err (UnsupportedAction
        ("Can't stop realm that is in " +:+ State_debug st +:+ " state."))) && is_state st m)).

Definition stop_realm_vm_error_test : bool :=
  let vm_manager := mkMockVmManager Unset Unset (Returning (Err (VmShutdown ""))) in
  parameterized [Running; NeedReboot] (λ st,
    run_test stop (set_state st (create_realm_manager (Some vm_manager) None)) (λ r m,
      asserts r (Err (VmStopFail (VmManagerError_to_string (VmShutdown "")))) && is_state st m)).

Definition reboot_test : bool :=
  parameterized [Running; NeedReboot] (λ st,
    run_test reboot (set_state st (create_realm_manager None None)) (λ r m,
      asserts r (Ok tt) && is_state Running m)).

Definition create_application_test : bool :=
  run_test (create_application create_example_app_config) (create_realm_manager None None) (λ r m,
    is_state Halted m
    && match r with Ok u => bool_decide (is_Some (rm_applications m !! u)) | Err _ => false end).

Definition create_application_invalid_state_test : bool :=
  parameterized [Running; Provisioning; NeedReboot] (λ st,
    run_test (create_application create_example_app_config)
      (set_state st (create_realm_manager None None)) (λ r _,
      asserts r (Err (UnsupportedAction "Can't create application when realm is not halted.")))).

Definition update_application_test : bool :=
  parameterized [(Running, NeedReboot); (NeedReboot, NeedReboot); (Halted, Halted)] (λ states,
    run_test (created_in states.1 (λ uuid, update_application uuid create_example_app_config))
      (create_realm_manager None None) (λ r m, asserts r (Ok tt) && is_state states.2 m)).

Definition update_application_invalid_state_test : bool :=
  run_test (created_in Provisioning (λ uuid, update_application uuid create_example_app_config))
    (create_realm_manager None None) (λ r _,
    asserts r (Err (UnsupportedAction
      "Can't update application when realm is in provisioning phase."))).

Definition update_missing_application_test : bool :=
  run_test (update_application new_uuid create_example_app_config)
    (set_state Running (create_realm_manager None None)) (λ r _,
    asserts r (Err (ApplicationMissing new_uuid))).

Definition get_application_invalid_command_test : bool :=
  parameterized [Halted; Provisioning] (λ st,
    run_test (get_application new_uuid) (set_state st (create_realm_manager None None)) (λ r _,
      match r with
      | Err e => asserts e (UnsupportedAction "Can't get application while realm isn't running.")
      | Ok _ => false
      end)).

Definition get_application_missing_applciation_test : bool :=
  parameterized [Running; NeedReboot] (λ st,
    run_test (get_application new_uuid) (set_state st (create_realm_manager None None)) (λ r _,
      match r with Err e => asserts e (ApplicationMissing new_uuid) | Ok _ => false end)).

Definition get_application_test : bool :=
  parameterized [Running; NeedReboot] (λ st,
    run_test (created_in st get_application) (create_realm_manager None None) (λ r _, is_ok r)).

(** All the tests pass. *)
Lemma realm_manager_tests_pass :
  forallb (λ b, b)
    [new_test; realm_start_test; realm_start_invalid_action_test; start_respnse_handle_test;
     start_response_handle_vm_not_launched_test; start_response_handle_vm_destroy_error_test;
     start_response_handle_vm_destroy_success_test; realm_start_launching_vm_error_test;
     realm_start_launching_acknowledgment_error_test; create_provisioning_config_no_apps_test;
     get_realm_data_stopped_test; get_realm_data_running_test; get_realm_data_error_test;
     prepare_applications_no_apps_test; prepare_applications_test; prepare_applications_error_test;
     create_provisioning_config_app_error_test; create_provisioning_config_test; stop_realm_test;
     stop_realm_invalid_state_test; stop_realm_vm_error_test; reboot_test; create_application_test;
     create_application_invalid_state_test; update_application_test;
     update_application_invalid_state_test; update_missing_application_test;
     get_application_invalid_command_test; get_application_missing_applciation_test;
     get_application_test] = true.
Proof. vm_compute. reflexivity. Qed.
