(* ===== verification/TestsApplicationManager.v ===== *)
(** * The unit tests of the application manager

    The module [test] of [warden_daemon/src/managers/application_manager.rs], run on
    the model with the mock objects of [TestUtilities]. *)

From S2P Require Import Prelude Managers TestUtilities.
From S2P Require Import ApplicationManager.

Abbreviation AM := (ApplicationManager MockApplicationRepository MockApplicationDisk).

(** The client that the application shares with its realm is part of the state. *)
Definition create_application_manager (realm_client : option MockRealmClient)
    (repository : option MockApplicationRepository) (application_disk : option MockApplicationDisk)
    : AM * MockRealmClient :=
  let realm_client := default
    (mkMockRealmClient Unset Unset (Returning (Ok tt)) (Returning (Ok tt)) Unset Unset Unset Unset)
    realm_client in
  let repository_mock := default
    (mkMockRepository create_example_app_config (Returning (Ok tt))) repository in
  let application_disk := default
    (mkMockApplicationDisk (Returning (Ok tt)) (Returning (Ok tt))
      (Returning (Ok new_uuid)) (Returning (Ok new_uuid))) application_disk in
  (mkApplicationManager new_uuid repository_mock application_disk, realm_client).

(** A method on [&mut self], and one on [&self]. *)
Definition run_method {A} (c : eff (AM * (MockRealmClient * TestWorld)) ApplicationError A)
    (m : AM * MockRealmClient) (check : result A ApplicationError → bool) : bool :=
  let '(r, (_, (_, w))) := c (m.1, (m.2, test_world)) in check r && negb (panicked w).
Definition run_const {A} (c : eff TestWorld ApplicationError A)
    (check : result A ApplicationError → bool) : bool :=
  let '(r, w) := c test_world in check r && negb (panicked w).

Definition is_DiskOpertaion {A} (r : result A ApplicationError) : bool :=
  match r with Err (DiskOpertaion _) => true | _ => false end.

Definition new_with (r : result unit ApplicationError) : eff TestWorld ApplicationError AM :=
  new new_uuid (mkMockRepository create_example_app_config Unset)
    (mkMockApplicationDisk (Returning r) Unset Unset Unset).

Definition new_application_test : bool := run_const (new_with (Ok tt)) is_ok.

Definition new_disk_error_test : bool :=
  run_const (new_with (Err (DiskOpertaion ""))) is_DiskOpertaion.

Definition stop_test : bool :=
  run_method stop (create_application_manager None None None) is_ok.

Definition stop_fail_test : bool :=
  let realm_client := mkMockRealmClient Unset Unset Unset
    (Returning (Err (RealmConnectionFail ""))) Unset Unset Unset Unset in
  run_method stop (create_application_manager (Some realm_client) None None) (λ r,
    asserts r (Err (ApplicationStop (RealmClientError_to_string (RealmConnectionFail ""))))).

Definition start_test : bool :=
  run_method start (create_application_manager None None None) is_ok.

Definition start_fail_test : bool :=
  let realm_client := mkMockRealmClient Unset Unset
    (Returning (Err (RealmConnectionFail ""))) Unset Unset Unset Unset Unset in
  run_method start (create_application_manager (Some realm_client) None None) (λ r,
    asserts r (Err (ApplicationStart (RealmClientError_to_string (RealmConnectionFail ""))))).

Definition update_with (saved : result unit RepositoryError)
    (check : result unit ApplicationError → bool) : bool :=
  let repository := mkMockRepository create_example_app_config (Returning saved) in
  run_method (update_config create_example_app_config)
    (create_application_manager None (Some repository) None) check.

Definition update_test : bool := update_with (Ok tt) is_ok.

Definition update_fail_test : bool :=
  update_with (Err (SaveFail "")) (λ r, match r with Err (ConfigUpdate _) => true | _ => false end).

Definition get_data_test : bool :=
  run_const (get_data (create_application_manager None None None).1) is_ok.

Definition prepare_for_next_run_test : bool :=
  run_method configure_disk (create_application_manager None None None) is_ok.

Definition prepare_for_next_run_error_test : bool :=
  let disk := mkMockApplicationDisk Unset (Returning (Err (DiskOpertaion ""))) Unset Unset in
  run_method configure_disk (create_application_manager None None (Some disk)) is_DiskOpertaion.

Definition get_data_image_partition_missing_test : bool :=
  let disk := mkMockApplicationDisk Unset Unset (Returning (Ok new_uuid))
    (Returning (Err (DiskOpertaion ""))) in
  run_const (get_data (create_application_manager None None (Some disk)).1) is_DiskOpertaion.

Definition get_data_partition_missing_test : bool :=
  let disk := mkMockApplicationDisk Unset Unset (Returning (Err (DiskOpertaion "")))
    (Returning (Ok new_uuid)) in
  run_const (get_data (create_application_manager None None (Some disk)).1) is_DiskOpertaion.

(** All the tests pass. *)
Lemma application_manager_tests_pass :
  forallb (λ b, b)
    [new_application_test; new_disk_error_test; stop_test; stop_fail_test; start_test; start_fail_test; update_test;
     update_fail_test; get_data_test; prepare_for_next_run_test; prepare_for_next_run_error_test;
     get_data_image_partition_missing_test; get_data_partition_missing_test] = true.
Proof. vm_compute. reflexivity. Qed.
