(* ===== verification/TestsWarden.v ===== *)
(** * The unit tests of the warden

    The module [test] of [warden_daemon/src/managers/warden_manager.rs], run on the
    model with the mock objects of [TestUtilities]. *)

From S2P Require Import Prelude Managers Arc TestUtilities.
From S2P Require Import WardenDaemon.

Abbreviation Daemon := (WardenDaemon MockRealmManagerCreator).
Abbreviation Test A := (eff (Daemon * (Arcs MockRealm * TestWorld)) (fault WardenError) A).

Definition create_host_daemon (realm_mock : option MockRealm) : Daemon :=
  let realm_mock := default
    (data_realm (Ok create_example_realm_data) (Returning (Ok tt))) realm_mock in
  new ∅ (mkMockRealmManagerCreator (ReturnOnce (Ok realm_mock)) (Returning (Ok tt))).

Definition run_daemon {A} (c : Test A) (d : Daemon)
    (check : result A (fault WardenError) → Daemon → bool) : bool :=
  let '(r, (d', (_, w))) := c (d, (∅, test_world)) in check r d' && negb (panicked w).

(** Every test creates a realm without an identifier of its own. *)
Definition create : Test Uuid := create_realm None create_example_realm_config.
Definition contains_key (uuid : Uuid) (d : Daemon) : bool :=
  bool_decide (is_Some (realms_managers d !! uuid)).

Definition new_warden_test : bool :=
  asserts (size (realms_managers (create_host_daemon None))) 0%nat.

Definition create_realm_test : bool :=
  run_daemon create (create_host_daemon None) (λ r d,
    match r with Ok uuid => contains_key uuid d | Err _ => false end).

Definition get_realm_test : bool :=
  run_daemon (uuid ← create; known ← gets (λ s, contains_key uuid s.1); get_realm uuid;; mret known)
    (create_host_daemon None) (λ r _, match r with Ok known => known | Err _ => false end).

Definition get_none_existing_realm_test : bool :=
  run_daemon (get_realm new_uuid) (create_host_daemon None) (λ r _,
    match r with Err e => asserts e (Fail (NoSuchRealm new_uuid)) | Ok _ => false end).

Definition destroy_created_realm_test : bool :=
  run_daemon (uuid ← create; known ← gets (λ s, contains_key uuid s.1);
              destroy_realm uuid;; mret known)
    (create_host_daemon None) (λ r _, match r with Ok known => known | Err _ => false end).

Definition destroy_missing_realm_test : bool :=
  run_daemon (destroy_realm new_uuid) (create_host_daemon None) (λ r _,
    asserts r (Err (Fail (NoSuchRealm new_uuid)))).

Definition destroy_not_halted_realm_test : bool :=
  let mock_realm := data_realm (Ok (mkRealmData Running [] [])) Unset in
  run_daemon (uuid ← create; destroy_realm uuid) (create_host_daemon (Some mock_realm)) (λ r _,
    asserts r (Err (Fail (DestroyFail "Can't destroy realm that isn't stopped.")))).

Definition inspecting : MockRealm :=
  data_realm (Ok create_example_realm_data) Unset.

Definition inspect_created_realm_test : bool :=
  run_daemon (uuid ← create; description ← inspect_realm uuid; mret (uuid, description))
    (create_host_daemon (Some inspecting)) (λ r _,
    match r with
    | Ok (uuid, description) =>
        asserts description (mkRealmDescription uuid create_example_realm_data)
    | Err _ => false
    end).

Definition inspect_not_existing_realm_test : bool :=
  run_daemon (inspect_realm new_uuid) (create_host_daemon None) (λ r _,
    asserts r (Err (Fail (NoSuchRealm new_uuid)))).

Definition list_newly_created_warden_test : bool :=
  run_daemon list_realms (create_host_daemon None) (λ r _,
    match r with Ok [] => true | _ => false end).

Definition list_realms_test : bool :=
  run_daemon (uuid ← create; listed ← list_realms; mret (uuid, listed))
    (create_host_daemon (Some inspecting)) (λ r _,
    match r with
    | Ok (u, listed) =>
        match list_find (λ d, uuid d = u) listed with Some (_, d) => asserts (uuid d) u | None => false end
    | Err _ => false
    end).

(** All the tests pass. *)
Lemma warden_tests_pass :
  forallb (λ b, b)
    [new_warden_test; create_realm_test; get_realm_test; get_none_existing_realm_test;
     destroy_created_realm_test; destroy_missing_realm_test; destroy_not_halted_realm_test;
     inspect_created_realm_test; inspect_not_existing_realm_test; list_newly_created_warden_test;
     list_realms_test] = true.
Proof. vm_compute. reflexivity. Qed.
