(* ===== verification/TestsRealmClient.v ===== *)
(** * The unit tests of the realm client

    The module [test] of [warden_daemon/src/client_handler/realm_client_handler.rs],
    run on the model with the mock objects of [TestUtilities]. *)

From S2P Require Import Prelude Managers WardenRealm JsonFramed TestUtilities.
From S2P Require Import RealmClientHandler.

Abbreviation Handler := (RealmClientHandler MockRealmSender).

Definition TIMEOUT : Z := 1.

(** The connector is part of the world; by default the channel it returns holds a
    sender that answers every request with success. *)
Definition create_realm_client_handler (realm_connector : option (WaitOutcome MockRealmSender))
    (realm_sender : option MockRealmSender) : Handler * TestWorld :=
  let realm_sender := default
    (mkMockRealmSender (Returning (λ _, Ok tt)) (Returning (Ok Success))) realm_sender in
  let rx := default (Connected realm_sender) realm_connector in
  (new 0 0, mkTestWorld false 4000 (ReturnOnce rx)).

(** The handler with the sender [s] set by the test, or without a sender. *)
Definition with_sender (s : MockRealmSender) : Handler * TestWorld :=
  let '(h, w) := create_realm_client_handler None None in (set_sender (Some s) h, w).
Definition without_sender : Handler * TestWorld := create_realm_client_handler None None.

Definition run_client {A} (c : eff (Handler * TestWorld) RealmClientError A) (s : Handler * TestWorld)
    (check : result A RealmClientError → Handler → bool) : bool :=
  let '(r, (h, w)) := c s in check r h && negb (panicked w).

(** [matches!] with a variant of the error. *)
Definition is_CommunicationFail {A} (r : result A RealmClientError) : bool :=
  match r with Err (CommunicationFail _) => true | _ => false end.
Definition is_RealmConnectionFail {A} (r : result A RealmClientError) : bool :=
  match r with Err (RealmConnectionFail _) => true | _ => false end.
Definition is_RealmDisconnection {A} (r : result A RealmClientError) : bool :=
  match r with Err RealmDisconnection => true | _ => false end.
Definition is_InvalidResponse {A} (r : result A RealmClientError) : bool :=
  match r with Err (InvalidResponse _) => true | _ => false end.
Definition is_RealmDaemonError {A} (r : result A RealmClientError) : bool :=
  match r with Err (RealmDaemonError _) => true | _ => false end.

Definition sending (r : result unit RealmSenderError) : MockRealmSender :=
  mkMockRealmSender (Returning (λ _, r)) Unset.
Definition responding (r : result Response RealmSenderError) : MockRealmSender :=
  mkMockRealmSender Unset (Returning r).
(** A sender that accepts the one request [accept] describes. *)
Definition accepting (accept : Request → bool) (r : result Response RealmSenderError) : MockRealmSender :=
  mkMockRealmSender (ReturnOnce (λ req, if accept req then Ok tt else Err Timeout)) (Returning r).

Definition send_command_test : bool :=
  run_client (send_command Reboot) (with_sender (sending (Ok tt))) (λ r _, is_ok r).

Definition send_command_send_issue_test : bool :=
  run_client (send_command Reboot) (with_sender (sending (Err (SendFail StreamIsClosed))))
    (λ r _, is_CommunicationFail r).

Definition send_command_connection_issue_test : bool :=
  run_client (send_command Reboot) without_sender (λ r _, is_RealmConnectionFail r).

Definition read_response_test : bool :=
  run_client (read_response TIMEOUT) (with_sender (responding (Ok Success))) (λ r _, is_ok r).

Definition read_response_disconnection_test : bool :=
  run_client (read_response TIMEOUT) (with_sender (responding (Err Disconnection)))
    (λ r _, is_RealmDisconnection r).

Definition read_response_communication_fail_test : bool :=
  run_client (read_response TIMEOUT) (with_sender (responding (Err (ReceiveFail StreamIsClosed))))
    (λ r _, is_CommunicationFail r).

Definition handle_shutdown_response_test : bool :=
  run_client handle_shutdown_response (with_sender (responding (Err Disconnection)))
    (λ r _, is_ok r).

Definition handle_ip_response_test : bool :=
  run_client handle_ip_response (with_sender (responding (Ok (IfAddrs ∅))))
    (λ r _, match r with Ok hash_map => asserts (size hash_map) 0%nat | Err _ => false end).

Definition handle_ip_invalid_response_test : bool :=
  run_client handle_ip_response (with_sender (responding (Ok Success)))
    (λ r _, is_InvalidResponse r).

Definition handle_shutdown_communication_fail_test : bool :=
  run_client (read_response TIMEOUT) without_sender (λ r _, is_RealmConnectionFail r).

Definition handle_shutdown_other_response_test : bool :=
  run_client handle_shutdown_response (with_sender (responding (Ok Success)))
    (λ r _, is_InvalidResponse r).

Definition handle_shutdown_error_response_test : bool :=
  run_client handle_shutdown_response (with_sender (responding (Ok (Error (InvalidRequest "")))))
    (λ r _, is_RealmDaemonError r).

Definition read_response_connection_issue_test : bool :=
  run_client (read_response TIMEOUT) without_sender (λ r _, is_RealmConnectionFail r).

Definition handle_success_response_test : bool := is_ok (handle_success_command Success).

Definition handle_not_success_response_test : bool :=
  is_InvalidResponse (handle_success_command ApplicationNotStarted).

Definition handle_invalid_response_test : bool :=
  match handle_invalid_response (Error (InvalidRequest "")) with
  | RealmDaemonError _ => true
  | _ => false
  end.

Definition handle_invalid_other_response_test : bool :=
  match handle_invalid_response ApplicationNotStarted with InvalidResponse _ => true | _ => false end.

Definition start_application_test : bool :=
  let app_uuid := new_uuid in
  let accept req := match req with StartApp uuid => bool_decide (uuid = app_uuid) | _ => false end in
  run_client (start_application app_uuid) (with_sender (accepting accept (Ok Success)))
    (λ r _, is_ok r).

Definition stop_application_test : bool :=
  let app_uuid := new_uuid in
  let accept req := match req with StopApp uuid => bool_decide (uuid = app_uuid) | _ => false end in
  run_client (stop_application app_uuid) (with_sender (accepting accept (Ok Success)))
    (λ r _, is_ok r).

(** The second expectation of [send] is never reached. *)
Definition kill_after_stop_test : bool :=
  let mock := mkMockRealmSender
    (expect (ReturnOnce (λ _, Err Timeout)) (expect (Returning (λ _, Ok tt)) Unset))
    (Returning (Ok Success)) in
  run_client (stop_application new_uuid) (with_sender mock) (λ r _, is_ok r).

Definition kill_application_test : bool :=
  let app_uuid := new_uuid in
  let accept req := match req with KillApp uuid => bool_decide (uuid = app_uuid) | _ => false end in
  run_client (kill_application app_uuid) (with_sender (accepting accept (Ok Success)))
    (λ r _, is_ok r).

Definition shutdown_realm_test : bool :=
  let accept req := match req with Shutdown => true | _ => false end in
  run_client shutdown_realm (with_sender (accepting accept (Err Disconnection))) (λ r _, is_ok r).

(** The sender of the connection before the reboot accepts [Reboot] only; the one
    that the connector gives answers the rest. *)
Definition reboot_realm_test : bool :=
  let mock := mkMockRealmSender
    (expect (Returning (λ _, Ok tt))
      (expect (ReturnOnce (λ req, match req with Reboot => Ok tt | _ => Err Timeout end)) Unset))
    (expect (Returning (Ok Success)) (expect (ReturnOnce (Err Disconnection)) Unset)) in
  run_client (reboot_realm create_example_realm_provisioning_config 0) (with_sender mock)
    (λ r _, is_ok r).

(** [IpAddr::is_loopback]. *)
Definition is_loopback (a : IpAddr) : bool :=
  match a with V4 octets => Z.shiftr octets 24 =? 127 | V6 segments => segments =? 1 end%Z.

Definition get_realms_interfaces_test : bool :=
  let addrs := {[ "KEY" := mkNetAddr (V4 0x7f000001) None None ]} in
  let mock := mkMockRealmSender (Returning (λ _, Ok tt)) (Returning (Ok (IfAddrs addrs))) in
  run_client read_realm_ifs (with_sender mock) (λ r _,
    match r with Ok (n :: _) => is_loopback (ip n) | _ => false end).

Definition acknowledge_client_connection_test : bool :=
  asserts (bool_decide (is_Some (sender without_sender.1))) false
  && run_client (try_connect 0) without_sender (λ r h, is_ok r && bool_decide (is_Some (sender h))).

Definition acknowledge_client_connection_acquire_error_test : bool :=
  run_client (try_connect_and_provision_apps 0 create_example_realm_provisioning_config)
    (create_realm_client_handler (Some (ChannelDropped "channel closed")) None)
    (λ r h, is_err r && asserts (bool_decide (is_Some (sender h))) false).

(** All the tests pass. *)
Lemma realm_client_tests_pass :
  forallb (λ b, b)
    [send_command_test; send_command_send_issue_test; send_command_connection_issue_test;
     read_response_test; read_response_disconnection_test; read_response_communication_fail_test;
     handle_shutdown_response_test; handle_ip_response_test; handle_ip_invalid_response_test;
     handle_shutdown_communication_fail_test; handle_shutdown_other_response_test;
     handle_shutdown_error_response_test; read_response_connection_issue_test;
     handle_success_response_test; handle_not_success_response_test; handle_invalid_response_test;
     handle_invalid_other_response_test; start_application_test; stop_application_test;
     kill_after_stop_test; kill_application_test; shutdown_realm_test; reboot_realm_test;
     get_realms_interfaces_test; acknowledge_client_connection_test;
     acknowledge_client_connection_acquire_error_test] = true.
Proof. vm_compute. reflexivity. Qed.
