(* ===== verification/TestsClientLib.v ===== *)
(** * The unit tests of the client library

    The module [test] of [client_lib/src/request_handlers.rs], run on the model of
    the library over a pair of connected sockets. *)

From S2P Require Import Prelude WardenClient JsonFramed TestUtilities ClientLib.

(** A communicator and the task at the other end of its socket, which receives one
    command and sends [to_send]. *)
Record Communicators := mkCommunicators {
  received_command : option WardenCommand;
  to_send : WardenResponse;
  in_flight : list WardenResponse }.

(** The paths a server listens on. *)
Abbreviation Sockets := (list PathBuf).

#[global] Instance pair_framed : Framed Sockets Communicators WardenResponse WardenCommand := {|
  frame_try_next s :=
    match in_flight s.1 with
    | r :: rest => (Ok (Some r), (mkCommunicators (received_command s.1) (to_send s.1) rest, s.2))
    | [] => (Ok None, s)
    end;
  frame_send command s :=
    match received_command s.1 with
    | None => (Ok tt, (mkCommunicators (Some command) (to_send s.1) [to_send s.1], s.2))
    | Some _ => (Ok tt, s)
    end |}.

#[global] Instance test_sockets : UnixSocket Sockets Communicators := λ socket_path listening,
  if bool_decide (socket_path ∈ listening) then (Ok (mkCommunicators None ROk []), listening)
  else (Err (io_error_other "No such file or directory"), listening).

#[global] Instance ApplicationConfig_eq_dec : EqDecision ApplicationConfig.
Proof. solve_decision. Defined.
#[global] Instance CpuConfig_eq_dec : EqDecision CpuConfig.
Proof. solve_decision. Defined.
#[global] Instance MemoryConfig_eq_dec : EqDecision MemoryConfig.
Proof. solve_decision. Defined.
#[global] Instance NetworkConfig_eq_dec : EqDecision NetworkConfig.
Proof. solve_decision. Defined.
#[global] Instance KernelConfig_eq_dec : EqDecision KernelConfig.
Proof. solve_decision. Defined.
#[global] Instance RealmConfig_eq_dec : EqDecision RealmConfig.
Proof. solve_decision. Defined.
#[global] Instance WardenCommand_eq_dec : EqDecision WardenCommand.
Proof. solve_decision. Defined.

Definition create_communicators (response : WardenResponse) : Communicators :=
  mkCommunicators None response [].

(** The result is [Ok], and the respondent has received [command]. *)
Definition answers {A} (c : eff (Communicators * Sockets) WardenClientError A)
    (response : WardenResponse) (command : WardenCommand) : bool :=
  let '(r, (p, _)) := c (create_communicators response, []) in
  is_ok r && asserts (received_command p) (Some command).

Definition handle_warden_error_response_test : bool :=
  match handle_error_response (RError UnknownCommand) with
  | WardenOperationFail _ => true
  | _ => false
  end.

Definition handle_other_warden_response_test : bool :=
  match handle_error_response ROk with InvalidResponse _ => true | _ => false end.

Definition realm_uuid : Uuid := new_uuid.
Definition application_uuid : Uuid := 4321.

Definition create_example_realm_config : RealmConfig :=
  mkRealmConfig None "" (mkCpuConfig "" 0) (mkMemoryConfig 0) (mkNetworkConfig 0 "" "" None None)
    (mkKernelConfig "" None None) None.

Definition stop_application_request_test : bool :=
  answers (stop_application realm_uuid application_uuid) ROk
    (StopApplication realm_uuid application_uuid).

Definition start_application_request_test : bool :=
  answers (start_application realm_uuid application_uuid) ROk
    (StartApplication realm_uuid application_uuid).

Definition update_application_request_test : bool :=
  answers (update_application realm_uuid application_uuid create_example_client_app_config) ROk
    (UpdateApplication realm_uuid application_uuid create_example_client_app_config).

Definition create_application_request_test : bool :=
  answers (create_application realm_uuid create_example_client_app_config)
    (RCreatedApplication application_uuid)
    (CreateApplication realm_uuid create_example_client_app_config).

Definition create_realm_request_test : bool :=
  answers (create_realm create_example_realm_config) (RCreatedRealm realm_uuid)
    (CreateRealm create_example_realm_config).

Definition start_realm_request_test : bool :=
  answers (start_realm realm_uuid) ROk (StartRealm realm_uuid).

Definition stop_realm_request_test : bool :=
  answers (stop_realm realm_uuid) ROk (StopRealm realm_uuid).

Definition destroy_realm_request_test : bool :=
  answers (destroy_realm realm_uuid) ROk (DestroyRealm realm_uuid).

Definition reboot_realm_request_test : bool :=
  answers (reboot_realm realm_uuid) ROk (RebootRealm realm_uuid).

Definition inspect_realm_request_test : bool :=
  answers (inspect_realm realm_uuid)
    (RInspectedRealm (mkRealmDescription realm_uuid Halted [] [])) (InspectRealm realm_uuid).

Definition list_realms_request_test : bool :=
  answers list_realms (RListedRealms []) ListRealms.

Definition connect_to_warden_socket_test : bool :=
  is_ok (connect_to_warden_socket "/tmp/socket" ["/tmp/socket"]).1.

Definition connect_to_offline_warden_socket_test : bool :=
  match (connect_to_warden_socket "/tmp/socket" []).1 with
  | Err (ConnectionFailed _ _) => true
  | _ => false
  end.

Definition communicate_test : bool :=
  let '(r, (p, _)) :=
    (json_send ListRealms;; json_recv : eff (Communicators * Sockets) JsonFramedError WardenResponse)
      (create_communicators ROk, []) in
  match r with Ok ROk => asserts (received_command p) (Some ListRealms) | _ => false end.

(** All the tests pass. *)
Lemma client_lib_tests_pass :
  forallb (λ b, b)
    [handle_warden_error_response_test; handle_other_warden_response_test;
     stop_application_request_test; start_application_request_test; update_application_request_test;
     create_application_request_test; create_realm_request_test; start_realm_request_test;
     stop_realm_request_test; destroy_realm_request_test; reboot_realm_request_test;
     inspect_realm_request_test; list_realms_request_test; connect_to_warden_socket_test;
     connect_to_offline_warden_socket_test; communicate_test] = true.
Proof. vm_compute. reflexivity. Qed.
