(* ===== verification/TestsStorage.v ===== *)
(** * The unit tests of the storage

    The modules [test] of [warden_daemon/src/storage/app_disk_manager.rs] and
    [storage/mod.rs] and of [utils/src/file_system/fs_repository.rs], run on the
    model and the files and disks of [SimHost]. *)

From S2P Require Import Prelude Managers Storage SimHost.
From S2P Require Import ApplicationDisk.

Open Scope Z_scope.

(** The value of a call that must not fail. *)
Definition unwrap_with {A E} (r : result A E) (check : A → bool) : bool :=
  match r with Ok a => check a | Err _ => false end.

(** The length of a partition that was found. *)
Definition has_len (p : result Part ApplicationDiskManagerError) (len : Z) : bool :=
  unwrap_with p (λ p, unwrap_with (bytes_len p LBA_SIZE) (λ l, bool_decide (l = len))).

Definition STR_PATH : PathBuf :=
  "/tmp/partition-test-disk-file-path-0d25e483-ad0f-4089-86df-23b5d60117f8".

(** Every assertion of the test is a call that succeeds, in order. *)
Definition create_disk_and_partition_test : bool :=
  unwrap_with (new STR_PATH 10 10) (λ disk_manager,
    let calls : eff (ApplicationDiskManager * Host) ApplicationError unit :=
      with_state (λ s, zoom snd_lens (create_disk_with_partitions s.1));;
      with_state (λ s, zoom snd_lens (get_data_partition_uuid s.1));;
      with_state (λ s, zoom snd_lens (get_image_partition_uuid s.1));;
      update_disk_with_partitions 20 40;;
      with_state (λ s, zoom snd_lens (get_data_partition_uuid s.1));;
      with_state (λ s, zoom snd_lens (get_image_partition_uuid s.1));;
      mret tt in
    let '(r, (d, h)) := calls (disk_manager, (create_dir STR_PATH empty_host).2) in
    is_ok r
    && unwrap_with (read_partitions d h).1 (λ partitions,
         has_len (get_data_partition partitions) (20 * 1024 * 1024)
         && has_len (get_image_partition partitions) (40 * 1024 * 1024))).

Definition calculate_total_size_test : bool :=
  let IMAGE_PART_SIZE_MB := 1 in
  let DATA_PART_SIZE_MB := 1 in
  unwrap_with (new "." IMAGE_PART_SIZE_MB DATA_PART_SIZE_MB) (λ disk_manager,
    calculate_total_size disk_manager =?
      IMAGE_PART_SIZE_MB * 1024 * 1024 + DATA_PART_SIZE_MB * 1024 * 1024 + 34 * 2 * LBA_SIZE).

Definition validate_and_convert_to_bytes_test : bool :=
  unwrap_with (validate_and_convert_to_bytes 1) (λ b, b =? 1 * 1024 * 1024).

(** Exceeding the limit by 1 MB. *)
Definition validate_and_convert_to_bytes_to_much_space_requested_test : bool :=
  match validate_and_convert_to_bytes (1024 * 100 + 1) with
  | Err (RequestedTooBigPartition _) => true
  | _ => false
  end.

Definition validate_and_convert_to_bytes_empty_space_test : bool :=
  match validate_and_convert_to_bytes 0 with Err RequestedEmptyPartition => true | _ => false end.

Definition create_realm_config_path_test : bool :=
  bool_decide (create_config_path "" = "config.yaml").

(** The test of the repository stores a [u32]. *)
#[local] Instance u32_yaml : Yaml N := countable_yaml N.

Definition FILE_PATH : PathBuf := "/tmp/realm_manager_fs_repository_test_file".

Definition create_file_repository_test : bool :=
  let DATA : N := 0%N in
  let calls : eff Host FileRepositoryError (bool * bool) :=
    file_repository ← FileRepository_new DATA FILE_PATH;
    let first := bool_decide (data file_repository = DATA) in
    let file_repository := mkFileRepository (data file_repository + 1)%N (path file_repository) in
    save file_repository;;
    file_repository ← from_file_path FILE_PATH;
    mret (first, bool_decide (data file_repository = DATA + 1)%N) in
  unwrap_with (calls empty_host).1 (λ b, b.1 && b.2).

(** All the tests pass. *)
Lemma storage_tests_pass :
  forallb (λ b, b)
    [create_disk_and_partition_test; calculate_total_size_test; validate_and_convert_to_bytes_test;
     validate_and_convert_to_bytes_to_much_space_requested_test;
     validate_and_convert_to_bytes_empty_space_test; create_realm_config_path_test;
     create_file_repository_test] = true.
Proof. vm_compute. reflexivity. Qed.
