(* ===== verification/TestsClientHandler.v ===== *)
(** * The unit tests of the client command handler

    The module [test] of [warden_daemon/src/client_handler/client_command_handler.rs],
    run on the model with a mock of the warden itself. *)

From S2P Require Import Prelude WardenClient Managers JsonFramed ClientHelper Arc WardenDaemon.
From S2P Require Import TestUtilities ClientHandler.

#[global] Instance client_State_eq_dec : EqDecision WardenClient.State.
Proof. solve_decision. Defined.
#[global] Instance client_RealmNetwork_eq_dec : EqDecision WardenClient.RealmNetwork.
Proof. solve_decision. Defined.
#[global] Instance client_RealmDescription_eq_dec : EqDecision WardenClient.RealmDescription.
Proof. solve_decision. Defined.
#[global] Instance client_WardenDaemonError_eq_dec : EqDecision WardenClient.WardenDaemonError.
Proof. solve_decision. Defined.
#[global] Instance WardenResponse_eq_dec : EqDecision WardenResponse.
Proof. solve_decision. Defined.

(** The handler and the world around it, with what it has sent to its client. *)
Abbreviation Handler := (MockSt * list WardenResponse)%type.

Definition create_client_handler (warden_daemon : option MockWardenDaemon) : Handler :=
  let application_manager :=
    mkMockApplication (Returning (Ok tt)) (Returning (Ok tt)) (Returning (Ok tt)) Unset Unset in
  let realm_manager := mkMockRealm Unset (Returning (Ok tt)) (Returning (Ok tt)) (Returning (Ok tt))
    (Returning (Ok create_example_uuid)) (Returning (Ok tt)) (ReturnOnce (λ _, Ok application_manager))
    (Returning (Ok create_example_realm_data)) Unset in
  let warden_daemon := default
    (mkMockWardenDaemon (Returning (Ok create_example_uuid)) (Returning (Ok tt))
       (Returning (Ok [create_example_realm_description])) (Returning (Ok create_example_realm_description))
       (ReturnOnce (λ _, Ok realm_manager))) warden_daemon in
  ((warden_daemon, (∅, test_world)), []).

Definition run_handler {A} (c : eff Handler (fault ClientError) A) (s : Handler)
    (check : result A (fault ClientError) → list WardenResponse → bool) : bool :=
  let '(r, (s', out)) := c s in check r out && negb (panicked s'.2.2).
Definition run_warden {A} (c : eff MockSt (fault ClientError) A) (s : Handler)
    (check : result A (fault ClientError) → bool) : bool :=
  run_handler (zoom daemon_lens c) s (λ r _, check r).

(** A warden that is only asked for a realm. *)
Definition realm_warden (realm : Uuid → result MockRealm WardenError) : MockWardenDaemon :=
  mkMockWardenDaemon Unset Unset Unset Unset (ReturnOnce realm).
Definition missing_realm : MockWardenDaemon := realm_warden (λ uuid, Err (NoSuchRealm uuid)).
Definition is_no_such_realm {A} (uuid : Uuid) (r : result A (fault ClientError)) : bool :=
  match r with Err (Fail (WardenDaemonError (NoSuchRealm u))) => asserts u uuid | _ => false end.

(** The client sends one command, receives the answer and disconnects. *)
Definition handle_requests_and_disconnect_test : bool :=
  run_handler (handle_client_requests [Received (Ok ListRealms) (Ok tt); Received (Err StreamIsClosed) (Ok tt)])
    (create_client_handler None) (λ r out,
      match r, out with Ok Finished, [_] => true | _, _ => false end).

Definition handle_requests_token_cancellation_test : bool :=
  run_handler (handle_client_requests [TokenCancelled]) (create_client_handler None) (λ r _,
    match r with Ok Finished => true | _ => false end).

Definition get_realm_test : bool :=
  run_warden (handler_get_realm new_uuid)
    (create_client_handler (Some (realm_warden (λ _, Ok MockRealm_new)))) is_ok.

Definition get_realm_fail_test : bool :=
  run_warden (handler_get_realm new_uuid) (create_client_handler (Some missing_realm))
    (is_no_such_realm new_uuid).

Definition get_application_test : bool :=
  let realm_manager := application_realm (ReturnOnce (λ _, Ok MockApplication_new)) in
  run_warden (get_application new_uuid new_uuid)
    (create_client_handler (Some (realm_warden (λ _, Ok realm_manager)))) is_ok.

Definition get_application_realm_fail_test : bool :=
  run_warden (get_application new_uuid new_uuid) (create_client_handler (Some missing_realm))
    (is_no_such_realm new_uuid).

Definition get_application_fail_test : bool :=
  let realm_manager := application_realm (ReturnOnce (λ uuid, Err (ApplicationMissing uuid))) in
  run_warden (get_application new_uuid create_example_uuid)
    (create_client_handler (Some (realm_warden (λ _, Ok realm_manager)))) (λ r,
      match r with
      | Err (Fail (RealmManagerError (ApplicationMissing u))) => asserts u create_example_uuid
      | _ => false
      end).

Definition create_example_client_realm_config : WardenClient.RealmConfig :=
  WardenClient.mkRealmConfig None "" (WardenClient.mkCpuConfig "" 0) (WardenClient.mkMemoryConfig 0)
    (WardenClient.mkNetworkConfig 0 "" "" None None) (WardenClient.mkKernelConfig "" None None) None.

Definition handle_request_test : bool :=
  let uuid := create_example_uuid in
  parameterized
    [(CreateRealm create_example_client_realm_config, RCreatedRealm uuid);
     (StartRealm uuid, ROk);
     (StopRealm uuid, ROk);
     (DestroyRealm uuid, ROk);
     (RebootRealm uuid, ROk);
     (InspectRealm uuid, RInspectedRealm (RealmDescription_into create_example_realm_description));
     (ListRealms, RListedRealms [RealmDescription_into create_example_realm_description]);
     (CreateApplication uuid create_example_client_app_config, RCreatedApplication uuid);
     (StartApplication uuid uuid, ROk);
     (StopApplication uuid uuid, ROk);
     (UpdateApplication uuid uuid create_example_client_app_config, ROk)]
    (λ input, run_handler (handle_client_command (Ok tt) input.1) (create_client_handler None)
       (λ r out, is_ok r && asserts out [input.2])).

(** All the tests pass. *)
Lemma client_handler_tests_pass :
  forallb (λ b, b)
    [handle_requests_and_disconnect_test; handle_requests_token_cancellation_test; get_realm_test;
     get_realm_fail_test; get_application_test; get_application_realm_fail_test;
     get_application_fail_test; handle_request_test] = true.
Proof. vm_compute. reflexivity. Qed.
