(* ===== verification/TestsJsonFramed.v ===== *)
(** * The unit tests of the framed JSON messages

    The module [test] of [utils/src/serde/json_framed.rs], over a simulated pair of
    connected streams.  Of the codec the tests use that a message comes out as it was
    put in, that a text is no number, and what the end of a stream looks like. *)

From S2P Require Import Prelude JsonFramed.

(** A JSON value of the types that the tests send. *)
Inductive JsonValue := JNumber (n : N) | JString (s : string).

Class Serde (A : Type) := { to_json : A → JsonValue; from_json : JsonValue → option A }.
#[global] Instance u32_serde : Serde N := {|
  to_json := JNumber;
  from_json v := match v with JNumber n => Some n | JString _ => None end |}.
#[global] Instance String_serde : Serde string := {|
  to_json := JString;
  from_json v := match v with JString s => Some s | JNumber _ => None end |}.

(** Values of [f32] that are whole numbers. *)
Record f32 := mkf32 { f32_value : N }.
#[global] Instance f32_serde : Serde f32 := {|
  to_json v := JNumber (f32_value v);
  from_json v := match v with JNumber n => Some (mkf32 n) | JString _ => None end |}.

(** [UnixStream::pair]: for each end, what was sent to it and whether it is open. *)
Inductive End := SenderEnd | ReceiverEnd.
Definition peer (e : End) : End := match e with SenderEnd => ReceiverEnd | ReceiverEnd => SenderEnd end.
Record Pair := mkPair { inbox : End → list JsonValue; is_open : End → bool }.
Definition stream_pair : Pair := mkPair (λ _, []) (λ _, true).

Definition end_eqb (a b : End) : bool :=
  match a, b with SenderEnd, SenderEnd | ReceiverEnd, ReceiverEnd => true | _, _ => false end.
Definition set_inbox (e : End) (l : list JsonValue) (p : Pair) : Pair :=
  mkPair (λ e', if end_eqb e e' then l else inbox p e') (is_open p).
(** Dropping the stream. *)
Definition close (e : End) (p : Pair) : Pair :=
  mkPair (inbox p) (λ e', negb (end_eqb e e') && is_open p e').

Definition broken_pipe : IoError := mkIoError OtherKind "Broken pipe".
Definition invalid_data : IoError := mkIoError OtherKind "invalid type".
Definition would_block : IoError := mkIoError OtherKind "would block".

(** A test that waits for a message that was not sent would not end; here it fails. *)
#[global] Instance pair_framed {A B} `{!Serde A, !Serde B} : Framed Pair End A B := {|
  frame_try_next := λ s,
    match inbox s.2 s.1 with
    | v :: l =>
        (match from_json v with Some a => Ok (Some a) | None => Err invalid_data end,
         (s.1, set_inbox s.1 l s.2))
    | [] => (if is_open s.2 (peer s.1) then Err would_block else Ok None, s)
    end;
  frame_send v := λ s,
    if is_open s.2 (peer s.1)
    then (Ok tt, (s.1, set_inbox (peer s.1) (inbox s.2 (peer s.1) ++ [to_json v]) s.2))
    else (Err broken_pipe, s) |}.

(** [recv] and [send] of the [JsonFramed] at one end. *)
Definition recv (A : Type) `{!Serde A} (e : End) : eff Pair JsonFramedError A := λ p,
  let '(r, (_, p')) := json_recv (RecvItem := A) (SendItem := A) (e, p) in (r, p').
Definition send (A : Type) `{!Serde A} (e : End) (v : A) : eff Pair JsonFramedError unit := λ p,
  let '(r, (_, p')) := json_send (RecvItem := A) (SendItem := A) v (e, p) in (r, p').
Definition drop_end (e : End) : eff Pair JsonFramedError unit := modify (close e).

(** The task of the sender runs until it waits for the answer, then the receiver. *)
Definition communication_through_tokio_serde_test : bool :=
  let message := 0%N in
  match (send N SenderEnd message;;
         received ← recv N ReceiverEnd;
         send N ReceiverEnd received;;
         recv N SenderEnd) stream_pair with
  | (Ok result, _) => bool_decide (result = message)
  | _ => false
  end.

Definition sender_disconnect_test : bool :=
  match (drop_end SenderEnd;; recv N ReceiverEnd) stream_pair with
  | (Err StreamIsClosed, _) => true
  | _ => false
  end.

Definition receive_error_test : bool :=
  match (send string SenderEnd "";; recv f32 ReceiverEnd) stream_pair with
  | (Err (SerdeReadError _), _) => true
  | _ => false
  end.

Definition receiver_disconnect_test : bool :=
  match (drop_end ReceiverEnd;; send N SenderEnd 0%N) stream_pair with
  | (Err (SerdeWriteError _), _) => true
  | _ => false
  end.

(** All the tests pass. *)
Lemma json_framed_tests_pass :
  forallb (λ b, b)
    [communication_through_tokio_serde_test; sender_disconnect_test; receive_error_test;
     receiver_disconnect_test] = true.
Proof. vm_compute. reflexivity. Qed.
