(* ===== verification/TestsIntegration.v ===== *)
(** * The integration tests of the daemon

    The tests under [warden_daemon/tests/], which build a daemon, connect to it with
    the client library and manage a realm, run on the host of [FullHost]: each call of
    the library is answered by the daemon that was built. *)

From S2P Require Import Prelude WardenClient WardenRealm Managers Traits Storage ApplicationDisk.
From S2P Require Import ApplicationManager RealmClientHandler RealmManager VmRunner Arc WardenDaemon.
From S2P Require Import Fabric IpNet IpTables Dnsmasq NatManager UnixSocketServer Daemon WholeDaemon.
From S2P Require Import NetScenarios SimHost FullHost JsonFramed ClientHandler ClientDaemon ClientLib.
From S2P Require Import DaemonRun WardenClient.

#[local] Existing Instance host_uuid.

(** ** common/mod.rs *)

Definition create_example_cli (unix_sock_path warden_workdir_path : PathBuf) : Cli :=
  mkCli VMADDR_CID_HOST 1337 "/usr/bin/qemu" unix_sock_path warden_workdir_path "/usr/sbin/dnsmasq" 60 10
    "virtbWarden" (mkIpNet (V4 0xc0a86400) 24) 20 [] false false.

Definition create_example_realm_config : RealmConfig :=
  mkRealmConfig None "virt" (mkCpuConfig "cortex-a57" 2) (mkMemoryConfig 2048)
    (mkNetworkConfig 12344 "tap100" "52:55:00:d1:55:01" (Some "e1000") None)
    (mkKernelConfig "/boot/Image" None None) None.

(** ** Running a test *)

Abbreviation Conn := (list WardenResponse *
  (WardenDaemon (RealmManagerFabric (VmRunner Runner bool unit)) *
   (Arcs (RealmManager (FileRepository Managers.RealmConfig)
            (ApplicationManager (FileRepository Managers.ApplicationConfig) ApplicationDiskManager)
            (VmRunner Runner bool unit) (RealmClientHandler unit) ApplicationFabric) *
    (NetworkManagerHandler (DnsmasqServerHandler (Child := bool)) * FullHost))))%type.
(** A test that fails leaves with the assertion that does not hold. *)
Inductive Failure := Assertion (line : string) | Expected (e : WardenClientError).
Abbreviation TestRun A := (eff Conn Failure A).
Definition assert (line : string) (b : bool) : TestRun unit :=
  if b then mret tt else throw (Assertion line).
(** [.expect(..)] and [assert!(... .is_ok())]. *)
Definition expects {A} (c : eff Conn WardenClientError A) : TestRun A := map_err Expected c.
Definition is_refused {A} (c : eff Conn WardenClientError A) : TestRun bool :=
  r ← attempt c; mret (is_err r).

(** The daemon is built in an empty directory and is connected to; after the test it is
    asked to shut down, and the shutdown of the network logs no error. *)
Definition integration_test (test : TestRun unit) : bool :=
  let cli := create_example_cli "/run/usock" "/var/warden" in
  match build (Snd := unit) (LogTask := unit) cli full_host with
  | (Ok d, w) =>
      match test ([], built d w) with
      | (Ok _, ([], s)) => match (shutdown_nat s.2.2).1 with Ok [] => true | _ => false end
      | _ => false
      end
  | (Err _, _) => false
  end.

#[local] Instance test_State_eq_dec : EqDecision State.
Proof. solve_decision. Defined.
Definition state_is (uuid : Uuid) (st : State) : TestRun unit :=
  description ← expects (inspect_realm uuid);
  assert "state" (bool_decide (state description = st)).

(** ** realm_management_test.rs *)


Definition manage_realm : bool := integration_test (
  uuid ← expects (create_realm create_example_realm_config);
  realms ← expects list_realms;
  assert "one realm" (bool_decide (WardenClient.uuid <$> realms = [uuid]));;
  state_is uuid Halted;;
  expects (start_realm uuid);;
  state_is uuid Running;;
  expects (reboot_realm uuid);;
  state_is uuid Running;;
  expects (stop_realm uuid);;
  state_is uuid Halted;;
  expects (destroy_realm uuid);;
  refused ← is_refused (inspect_realm uuid);
  assert "destroyed" refused).

(** ** application_management_test.rs *)

Definition manage_realm_and_application : bool := integration_test (
  let application_config size := mkApplicationConfig "app_test" "0.0.1"
    "https://github.com/islet-project/realm-manager" size size in
  uuid ← expects (create_realm create_example_realm_config);
  realms ← expects list_realms;
  assert "one realm" (bool_decide (WardenClient.uuid <$> realms = [uuid]));;
  assert "no applications" (bool_decide (applications <$> realms = [[]]));;
  app_uuid ← expects (create_application uuid (application_config 128%Z));
  expects (start_realm uuid);;
  expects (stop_application uuid app_uuid);;
  expects (start_application uuid app_uuid);;
  expects (update_application uuid app_uuid (application_config 128%Z));;
  state_is uuid NeedReboot;;
  expects (reboot_realm uuid);;
  expects (stop_realm uuid);;
  expects (update_application uuid app_uuid (application_config 32%Z));;
  expects (start_realm uuid)).

(** ** realm_network_test.rs *)

(** [IpNet::network] of an IPv4 address. *)
Definition network_of (a : IpAddr) (prefix_len : Z) : option Z :=
  match a with V4 x => Some (Z.shiftr x (32 - prefix_len)) | V6 _ => None end.

Definition check_realms_network : bool := integration_test (
  let bridge_ip := network_address (create_example_cli "" "") in
  uuid ← expects (create_realm create_example_realm_config);
  description ← expects (inspect_realm uuid);
  assert "no address" (bool_decide (length (network description) = 0));;
  assert "halted" (bool_decide (state description = Halted));;
  expects (start_realm uuid);;
  description ← expects (inspect_realm uuid);
  assert "its address" (bool_decide
    ((λ n : RealmNetwork, network_of (ip n) (net_prefix_len bridge_ip)) <$> network description =
     [network_of (net_addr bridge_ip) (net_prefix_len bridge_ip)]));;
  assert "running" (bool_decide (state description = Running));;
  expects (stop_realm uuid);;
  expects (destroy_realm uuid)).

(** All the tests pass. *)
Lemma integration_tests_pass :
  forallb (λ b, b) [manage_realm; manage_realm_and_application; check_realms_network] = true.
Proof. vm_compute. reflexivity. Qed.

(** ** start_and_shutdown_test.rs *)

(** The daemon is built and run; a signal arrives ([SIGTERM] and [SIGINT] are the same
    step), and the task of the daemon completes, with no error in its log. *)
Definition signal_shutdown (cli : Cli) : Prop :=
  ∃ d w x, build (Snd := unit) (LogTask := unit) cli full_host = (Ok d, w) ∧
    rtc (daemon_step (C := WardenCommand) world_lens command_completes) (run (built d w)) x ∧
    main x = Exited ∧ shutdown_log x = [].

Lemma signal_runs (d : FullDaemon) w s :
  zoom world_lens shutdown_nat (built d w) = (Ok [], s) →
  rtc (daemon_step (C := WardenCommand) world_lens command_completes) (run (built d w))
    (mkRunning Exited true false (mkServer Stopped [] s) []).
Proof.
  intros Hs. eapply rtc_l; [eexists; apply signal_received|].
  eapply rtc_l; [eexists; apply network_shut_down; exact Hs|].
  eapply rtc_l; [eexists; apply vsock_cancelled|].
  eapply rtc_l; [eexists; apply vsock_joined|].
  eapply rtc_l; [eexists; apply usock_moves, listen_cancelled; reflexivity|].
  eapply rtc_l; [eexists; apply usock_moves, listen_returns|].
  apply rtc_once. eexists. by apply usock_joined.
Qed.

Lemma signal_shutdown_passes : signal_shutdown full_cli.
Proof.
  assert (zoom world_lens shutdown_nat full_state = (Ok [], (zoom world_lens shutdown_nat full_state).2))
    as Hs by (refine (run_val (zoom world_lens shutdown_nat full_state) [] _); vm_compute; reflexivity).
  exists full_daemon, full_build.2, (mkRunning Exited true false (mkServer Stopped []
    (zoom world_lens shutdown_nat full_state).2) []).
  split; [exact full_build_ok|]. split; [exact (signal_runs _ _ _ Hs)|]. split; reflexivity.
Qed.
